(* ===== verification/_CoqProject ===== *)
-Q . S2P
Prelude.v
State.v
Mem.v
Spinlock.v
Sched.v
SchedFacts.v
Ide.v
Bio.v
BioFacts.v
Cache.v
CacheThm.v
Log.v
LogFacts.v
LogCrash.v
LogTx.v
LogThm.v
Inode.v
Kalloc.v
Vm.v
Kbd.v
Console.v
Fs.v
Pipe.v
PipeFacts.v
File.v
Proc.v
Exec.v
Syscall.v
Trap.v
VmFacts.v
VmSpec.v
UserMem.v
Sample.v
PipeThm.v
VmCopy.v
VmThm.v
FileFacts.v
ProcFacts.v
ProcThm.v
CloneThm.v
ForkThm.v
SyscallThm.v
FsFacts.v
InodeFacts.v
FsThm.v
Threads.v
Umalloc.v
UmallocThm.v
Grep.v
Sh.v
ShThm.v
Mkfs.v
MkfsThm.v
User.v
Uprogs.v
UprogsThm.v
GrepRun.v
Tests.v
ShRun.v
ShRunThm.v
Mp.v
Irq.v
Boot.v
Memide.v
Segs.v
Main.v
MainThm.v
