(* ===== verification/Prelude.v ===== *)
(** * A verification development for xv6 with [clone] and [join]

    This library models the kernel under src/ (xv6, with the thread system calls
    clone and join added), its user programs and mkfs, and proves what the parts
    promise.

    ** How the code is modelled

    Kernel code runs in the state [kst] of State.v: the processor, the process
    table, memory, the disk and the tables of bio.c, log.c, fs.c, file.c and
    console.c.  A C function is a definition of the same name in the monad
    [M A := kst -> res A]; it returns ([Ok]) or stops ([Halt]) because the kernel
    panicked, because it did something C gives no meaning, or because the process
    gave up the processor.  Pointers into static tables are indices, physical
    memory is a function from addresses to bytes, machine integers are [Z] with
    their wrap-around ([u32], [i32], [u16], ...) written where the code can
    overflow.  Page directories, page tables and the free list are in memory, as
    in the code.

    A function that sleeps ends its run with [Waiting]; the code after the sleep
    is a definition of its own ([wait_resume], [piperead_resume], ...), which the
    scheduler's turn ([scheduler_turn] in Sched.v) leads to.  What happens in
    between is what other processes do.  Spin locks on the running processor keep
    the holder and the nesting of [pushcli]; the races between processors are in
    the step relation of Spinlock.v ([Smp]), where [holding] reads the lock and its
    owner in one step.

    Where the model is coarser than the code: the kernel reads and writes memory at
    physical addresses, not through the page directory in use, so it goes on after
    that directory has been freed (as [wait] does when it reaps a thread before
    [join]); [iderw] waits for the disk without running another process; a null
    pointer into a table cannot be written, so the tests for one (as in idestart)
    are left out, and waking the parent of a process that has none does nothing, as
    no process sleeps on a null channel; whether there is a second disk is a
    parameter.

    ** Files

    - Prelude: lists, bytes, machine integers, tactics.  State: the structs, the
      monad and its laws.  Mem: memory and string.c.
    - Spinlock, Sched (sleep, wakeup, sched, scheduler), SchedFacts.
    - Kalloc (kalloc.c), Vm (vm.c), with VmFacts, VmSpec, VmCopy (page accounting:
      which pages an address space owns and what the operations do to that) and
      VmThm.  UserMem: user memory as the kernel reads and writes it.
    - Ide, Bio, Log, Inode, Fs: ide.c, bio.c, log.c, fs.c.  BioFacts, Cache and
      CacheThm: the cache refines a store of blocks.  LogFacts, LogCrash, LogTx and
      LogThm: crash safety.  FsFacts, InodeFacts and FsThm: block and inode
      operations inside a transaction.
    - Kbd, Console: kbd.c, console.c, uart.c and procdump.
    - Pipe (pipe.c), PipeFacts, PipeThm.  File (file.c), FileFacts.
    - Proc (proc.c), ProcFacts, ProcThm (wait, join, kill), ForkThm, CloneThm.
    - Exec (exec.c), Syscall (syscall.c, sysproc.c, sysfile.c), SyscallThm,
      Trap (trap.c).  Sample: a concrete machine on which theorems are applied.
    - User programs.  Threads: the mutex of threadlib.c and clonetest.c, as a step
      relation of the main thread and the threads it makes.  Umalloc, UmallocThm:
      umalloc.c on the words of the heap.  Grep: the matcher and the loop of grep.c.
      Sh, ShThm: the parser of sh.c.  User: system calls as events of interaction
      trees, and how a process runs against an environment that answers them ([run],
      executable); Uprogs, UprogsThm: ulib.c, printf.c and the small programs;
      GrepRun: grep.c over the system calls; Tests: forktest.c and stressfs.c;
      ShRun, ShRunThm: runcmd and the main loop of sh.c.
    - The start of the machine.  Boot: bootmain.c.  Mp, Irq: the tables of
      processors (mp.c) and the drivers of the interrupt controllers and clocks
      (picirq.c, ioapic.c, timer.c, lapic.c) on models of their registers.  Segs: the
      descriptor tables of seginit and tvinit.  Main, MainThm: main.c, composed of
      the kernel's state and the devices.  Memide: memide.c, which takes the place of
      ide.c in a kernel without a disk.
    - Mkfs, MkfsThm: mkfs.c, which makes the image that the kernel starts from.

    ** What is proved

    - Crash safety: a crash after any number of the disk writes of [end_op]
      recovers to all old or all new contents; recovery can itself be
      interrupted.  A write of one block is taken to be atomic.
    - The buffer cache returns the current contents of a block and keeps its LRU
      list; blocks and inodes are allocated, freed and updated on the blocks of a
      transaction as fs.c means to.
    - Memory: [kalloc] never hands out a page in use; [copyuvm], [allocuvm],
      [deallocuvm] and [freevm] account for every page, and their results are
      isolated from other address spaces.  When memory runs out the theorems say
      which pages are lost: the one that could not be mapped, or those of a page
      directory that could not be finished.
    - Processes: what [fork], [clone], [wait], [join] and [kill] do, on every
      branch, the failures of [fork] included, and where [kill] goes wrong
      (kill(0)).
    - Pipes are first-in first-out queues of at most PIPESIZE bytes under every
      interleaving, also across the wrap-around of the counters.
    - Spin locks: mutual exclusion and no panic, for every interleaving of the
      atomic steps of any number of processors.
    - System call arguments: which pointers and strings the kernel accepts.
    - The image of mkfs has the files it was given, and a kernel that has it as
      its disk satisfies the invariants under which the file system theorems are
      proved ([MkfsThm.mounted]).
    - clonetest: mutual exclusion, the value of the counter, and that every
      reachable state can go on to the end.
    - The heap: malloc and free keep the blocks in use apart and account for every
      byte got from the kernel.
    - The start: bootmain loads the segments of the kernel from the disk, passing
      over headers without contents, and finds its entry; main goes from a cold
      machine to the scheduler with the first process runnable and each page from
      the end of the kernel to PHYSTOP accounted for; afterwards exactly the
      interrupt lines with a driver are open.  The gates of the interrupt table let
      user code raise the system call and nothing else; the segments are flat.
    - The drivers of the interrupt controllers leave the registers as the kernel
      expects them, the clock is read consistently, and memide.c answers requests as
      ide.c does.
    - The shell: the parser ends on every line with calls nested in proportion to
      its length, returns only well-formed commands
      whose words are words of the line, and reads back every command from its text;
      runcmd makes the processes and descriptors that the meaning of the
      command says; a session runs its lines one after the other.
    - grep matches the language of its patterns, and as a program prints the lines
      of its files that match, for files of any size with lines that fit in its
      buffer; forktest and stressfs make the processes and the
      files they mean to; wc, cat, echo, init, printf and
      atoi do what their users expect, however input arrives in pieces.

    ** Bounds and fuel

    Loops over tables are structural.  Loops whose number of turns depends on
    values take fuel from those values: the length of a range in pages for the
    page table loops, the bytes left for reads, writes and strings, the elements
    of a path, the entries of the chain of buffers.  Each theorem about such an
    operation states that it returns, so the fuel is enough.

    ** Not modelled

    - Assembly (bootasm.S, entry.S, swtch.S, trapasm.S, vectors.S, initcode.S,
      usys.S): its effect is the switch between runs, the trap frame in the
      process, and the registers of the first process.  The trap frame is a field
      of the process; in the code it is at the top of its kernel stack.
    - The writes to the IMCR at the end of mpinit, and what a processor does after
      [startothers] has started it, up to its own call of the scheduler.
    - usertests.c: a suite of tests that states no behaviour of its own.  What it
      expects depends on files that several processes change at once, and a user
      program is run here against the view of one process.
    - The system calls getpid, sbrk, uptime, clone and join are modelled in the
      kernel and in Threads and Umalloc, but are not events of User: no program
      that is run there makes them.
    - In User a write to an open descriptor succeeds at once, whatever its mode, and
      after a fork each of the two processes has what is left of the input.  In
      Threads the stack that thread_create gets from malloc is left out.
    - The wait loops for devices, except those of bootmain.c and of the clock.
    - Messages that the kernel prints only for diagnosis, where the rest of the
      function does not depend on them. *)

From Stdlib Require Export ZArith Lia.
From stdpp Require Export base gmap strings numbers.
From stdpp Require Export list.

Declare Scope kern_scope.
Delimit Scope kern_scope with kern.

#[export] Set Default Goal Selector "!".

Create HintDb kern discriminated.

Open Scope Z_scope.

(** ** Tactics of the development *)

(** [lia] with the equations of [/] and [mod] by constants made visible. *)
Ltac zdm := Z.div_mod_to_equations; lia.

(** Splits the boolean tests of the goal into the propositions they decide. *)
Ltac bool_cases :=
  repeat match goal with
  | |- context [Z.eqb ?a ?b] => destruct (Z.eqb_spec a b)
  | |- context [Z.ltb ?a ?b] => destruct (Z.ltb_spec a b)
  | |- context [Z.leb ?a ?b] => destruct (Z.leb_spec a b)
  | |- context [Nat.eqb ?a ?b] => destruct (Nat.eqb_spec a b)
  | |- context [Nat.ltb ?a ?b] => destruct (Nat.ltb_spec a b)
  | |- context [Nat.leb ?a ?b] => destruct (Nat.leb_spec a b)
  end; cbn [andb orb negb].

(** The same for the tests of a hypothesis. *)
Ltac bool_cases_in H :=
  repeat match type of H with
  | context [Z.eqb ?a ?b] => destruct (Z.eqb_spec a b)
  | context [Z.ltb ?a ?b] => destruct (Z.ltb_spec a b)
  | context [Z.leb ?a ?b] => destruct (Z.leb_spec a b)
  | context [Nat.eqb ?a ?b] => destruct (Nat.eqb_spec a b)
  | context [Nat.ltb ?a ?b] => destruct (Nat.ltb_spec a b)
  | context [Nat.leb ?a ?b] => destruct (Nat.leb_spec a b)
  end; cbn [andb orb negb] in H.

(** ** Machine integers: C's [uint] and [int] are 32 bits wide *)

(** A C [uint] computation, wrapped to 32 bits. *)
Definition u32 (x : Z) : Z := x mod 2^32.

(** A C [int]: the two's complement reading of the low 32 bits. *)
Definition i32 (x : Z) : Z := (x + 2^31) mod 2^32 - 2^31.

(** A C [char] and [short]. *)
Definition i8 (x : Z) : Z := (x + 2^7) mod 2^8 - 2^7.
Definition i16 (x : Z) : Z := (x + 2^15) mod 2^16 - 2^15.

Definition is_u32 (x : Z) : Prop := 0 <= x < 2^32.

#[global] Arguments u32 : simpl never.
#[global] Arguments i32 : simpl never.
#[global] Arguments i8 : simpl never.
#[global] Arguments i16 : simpl never.

Lemma u32_small x : 0 <= x < 2^32 -> u32 x = x.
Proof. apply Z.mod_small. Qed.

Lemma u32_range x : 0 <= u32 x < 2^32.
Proof. apply Z.mod_pos_bound. lia. Qed.

Lemma u32_add_wrap x y : u32 (u32 x + y) = u32 (x + y).
Proof. unfold u32. apply Zplus_mod_idemp_l. Qed.

Lemma i32_small x : -2^31 <= x < 2^31 -> i32 x = x.
Proof. intros H. unfold i32. rewrite Z.mod_small; lia. Qed.

Lemma i32_range x : -2^31 <= i32 x < 2^31.
Proof. unfold i32. pose proof (Z.mod_pos_bound (x + 2^31) (2^32)). lia. Qed.

Lemma u32_i32 x : u32 (i32 x) = u32 x.
Proof.
  unfold u32, i32. rewrite Zminus_mod_idemp_l. f_equal. lia.
Qed.

Lemma i32_u32 x : i32 (u32 x) = i32 x.
Proof. unfold u32, i32. rewrite Zplus_mod_idemp_l. done. Qed.

(** ** Bit masks as arithmetic *)

(** [x & ~(2^k-1)] on 32 bits rounds down to a multiple of [2^k]. *)
Lemma land_mask_down k x :
  0 <= k <= 32 -> 0 <= x < 2^32 ->
  Z.land x (2^32 - 2^k) = x - x mod 2^k.
Proof.
  intros Hk Hx.
  replace (2^32 - 2^k) with (Z.shiftl (Z.ones (32 - k)) k).
  2:{ rewrite Z.shiftl_mul_pow2, Z.ones_equiv by lia.
      rewrite Z.mul_pred_l, <- Z.pow_add_r by lia.
      by replace (32 - k + k) with 32 by lia. }
  replace (x - x mod 2^k) with (Z.shiftl (Z.shiftr x k) k).
  2:{ rewrite Z.shiftl_mul_pow2, Z.shiftr_div_pow2 by lia.
      rewrite Z.mod_eq by (apply Z.pow_nonzero; lia). lia. }
  apply Z.bits_inj'. intros n Hn.
  rewrite Z.land_spec, !Z.shiftl_spec by done.
  destruct (Z.ltb_spec n k).
  - rewrite 2!(Z.testbit_neg_r _ (n - k)) by lia. apply andb_false_r.
  - rewrite Z.shiftr_spec, Z.sub_add by lia.
    destruct (Z.ltb_spec n 32).
    + rewrite Z.ones_spec_low by lia. apply andb_true_r.
    + rewrite Z.ones_spec_high by lia. rewrite andb_false_r.
      destruct (Z.eq_dec x 0) as [->|]; [by rewrite Z.bits_0|].
      symmetry. apply Z.bits_above_log2; [lia|].
      apply Z.lt_le_trans with 32; [|lia]. apply Z.log2_lt_pow2; lia.
Qed.

Lemma land_ones_mod k x : 0 <= k -> Z.land x (2^k - 1) = x mod 2^k.
Proof.
  intros Hk. replace (2^k - 1) with (Z.ones k) by (rewrite Z.ones_equiv; lia).
  by apply Z.land_ones.
Qed.

(** Or-ing flags below [2^k] into a multiple of [2^k] adds them. *)
Lemma lor_disjoint_add k a b :
  0 <= k -> a mod 2^k = 0 -> 0 <= b < 2^k -> Z.lor a b = a + b.
Proof.
  intros Hk Ha Hb.
  assert (Z.land a b = 0) as E; [|by rewrite <- Z.lxor_lor, Z.add_nocarry_lxor].
  apply Z.bits_inj'. intros n Hn. rewrite Z.land_spec, Z.bits_0.
  destruct (Z.ltb_spec n k).
  - rewrite <- (Z.mod_pow2_bits_low a k n), Ha by lia. by rewrite Z.bits_0.
  - destruct (Z.eq_dec b 0) as [->|]; [by rewrite Z.bits_0, andb_false_r|].
    rewrite (Z.bits_above_log2 b n), andb_false_r; [done|lia|].
    apply Z.lt_le_trans with k; [apply Z.log2_lt_pow2; lia|lia].
Qed.

(** ** Byte strings *)

(** The four bytes of a 32-bit word and the two of a 16-bit one, low byte
    first, as the x86 stores them. *)
Definition bytes32 (v : Z) : list Z :=
  [v mod 256; (v / 2^8) mod 256; (v / 2^16) mod 256; (v / 2^24) mod 256].

Definition bytes16 (v : Z) : list Z := [v mod 256; (v / 2^8) mod 256].

(** A little-endian number from its bytes. *)
Fixpoint le (l : list Z) : Z :=
  match l with
  | [] => 0
  | b :: l => b + 256 * le l
  end.

Definition is_byte (b : Z) : Prop := 0 <= b < 256.

(** [memmove] of [l'] over [l] from offset [off]. *)
Definition splice (l : list Z) (off : nat) (l' : list Z) : list Z :=
  take off l ++ l' ++ drop (off + length l') l.

(** The [n] bytes of [l] from [off]. *)
Definition slice (l : list Z) (off n : nat) : list Z := take n (drop off l).

(** Reading and writing words in a byte array. *)
Definition get32 (l : list Z) (off : nat) : Z := le (slice l off 4).
Definition get16 (l : list Z) (off : nat) : Z := le (slice l off 2).
Definition put32 (l : list Z) (off : nat) (v : Z) : list Z := splice l off (bytes32 v).
Definition put16 (l : list Z) (off : nat) (v : Z) : list Z := splice l off (bytes16 v).

#[global] Arguments splice : simpl never.
#[global] Arguments slice : simpl never.
#[global] Arguments get32 : simpl never.
#[global] Arguments get16 : simpl never.
#[global] Arguments put32 : simpl never.
#[global] Arguments put16 : simpl never.

Lemma le_bytes32 v : is_u32 v -> le (bytes32 v) = v.
Proof.
  unfold is_u32. cbn [le bytes32]. intros.
  replace (2^8) with 256 in * by done.
  replace (2^16) with (256*256) by done. replace (2^24) with (256*256*256) by done.
  rewrite <- !Z.div_div by lia. zdm.
Qed.

Lemma le_bytes16 v : 0 <= v < 2^16 -> le (bytes16 v) = v.
Proof. cbn [le bytes16]. intros. replace (2^8) with 256 in * by done. zdm. Qed.

Lemma le_range l : Forall is_byte l -> 0 <= le l < 256 ^ Z.of_nat (length l).
Proof.
  induction 1 as [|b l Hb Hl IH]; cbn [le length]; [lia|].
  rewrite Nat2Z.inj_succ, Z.pow_succ_r by lia. unfold is_byte in Hb. lia.
Qed.

Lemma length_bytes32 v : length (bytes32 v) = 4%nat.
Proof. done. Qed.

Lemma bytes32_bytes v : Forall is_byte (bytes32 v).
Proof. repeat constructor; apply Z.mod_pos_bound; lia. Qed.

Lemma length_splice l off l' :
  (off + length l' <= length l)%nat -> length (splice l off l') = length l.
Proof. intros. unfold splice. rewrite !length_app, length_take, length_drop. lia. Qed.

Lemma slice_splice_same l off l' :
  (off + length l' <= length l)%nat -> slice (splice l off l') off (length l') = l'.
Proof.
  intros. unfold slice, splice. rewrite drop_app_length'.
  - by rewrite take_app_length.
  - rewrite length_take. lia.
Qed.

Lemma slice_splice_before l off l' o n :
  (off + length l' <= length l)%nat -> (o + n <= off)%nat ->
  slice (splice l off l') o n = slice l o n.
Proof.
  intros. unfold slice, splice.
  rewrite drop_app_le by (rewrite length_take; lia).
  rewrite take_app_le by (rewrite length_drop, length_take; lia).
  rewrite <- (take_drop off l) at 2.
  rewrite drop_app_le by (rewrite length_take; lia).
  rewrite take_app_le by (rewrite length_drop, length_take; lia). done.
Qed.

Lemma slice_splice_after l off l' o n :
  (off + length l' <= length l)%nat -> (off + length l' <= o)%nat ->
  slice (splice l off l') o n = slice l o n.
Proof.
  intros. unfold slice, splice. f_equal.
  rewrite app_assoc, drop_app_ge by (rewrite length_app, length_take; lia).
  rewrite drop_drop. f_equal. rewrite length_app, length_take. lia.
Qed.

Lemma splice_bytes l off l' :
  Forall is_byte l -> Forall is_byte l' -> Forall is_byte (splice l off l').
Proof.
  intros Hl Hl'. unfold splice.
  apply Forall_app. split; [by apply Forall_take|].
  apply Forall_app. split; [done|]. by apply Forall_drop.
Qed.

(** Two adjacent parts. *)
Lemma splice_app l off l1 l2 :
  (off + length l1 + length l2 <= length l)%nat -> splice (splice l off l1) (off + length l1) l2 = splice l off (l1 ++ l2).
Proof.
  intros H. unfold splice. rewrite length_app, (app_assoc (take off l) l1).
  rewrite (take_app_length' (take off l ++ l1)) by (rewrite length_app, length_take; lia).
  rewrite (drop_app_ge (take off l ++ l1)) by (rewrite length_app, length_take; lia).
  rewrite drop_drop, length_app, length_take, <- !app_assoc. do 4 f_equal. lia.
Qed.

(** Reading inside the part. *)
Lemma slice_splice_in l off l' k n :
  (off + length l' <= length l)%nat -> (k + n <= length l')%nat -> slice (splice l off l') (off + k) n = slice l' k n.
Proof.
  intros H Hk. unfold slice, splice.
  rewrite drop_app_ge by (rewrite length_take; lia). rewrite length_take.
  replace (off + k - off `min` length l)%nat with k by lia.
  rewrite drop_app_le by lia. by rewrite take_app_le by (rewrite length_drop; lia).
Qed.

Lemma splice_all l l' : length l' = length l -> splice l 0 l' = l'.
Proof.
  intros E. unfold splice. rewrite take_0, drop_ge by lia. by rewrite app_nil_r.
Qed.

Lemma get32_put32_same l off v :
  is_u32 v -> (off + 4 <= length l)%nat -> get32 (put32 l off v) off = v.
Proof.
  intros Hv Hl. unfold get32, put32.
  change 4%nat with (length (bytes32 v)) at 1.
  rewrite slice_splice_same; [by apply le_bytes32|rewrite length_bytes32; lia].
Qed.

Lemma get32_put32_other l off o v :
  (off + 4 <= length l)%nat -> (o + 4 <= off \/ off + 4 <= o)%nat ->
  get32 (put32 l off v) o = get32 l o.
Proof.
  intros Hl [Ho|Ho]; unfold get32, put32; f_equal.
  - apply slice_splice_before; rewrite ?length_bytes32; lia.
  - apply slice_splice_after; rewrite length_bytes32; lia.
Qed.

Lemma length_put32 l off v :
  (off + 4 <= length l)%nat -> length (put32 l off v) = length l.
Proof. intros. apply length_splice. rewrite length_bytes32. lia. Qed.

#[export] Hint Resolve bytes32_bytes splice_bytes u32_range : kern.
Create Rewrite HintDb klen.
#[export] Hint Rewrite length_put32 length_splice : klen.

(** The characters of a string constant. *)
Fixpoint chars (s : string) : list Z :=
  match s with
  | EmptyString => []
  | String c s => Z.of_N (Ascii.N_of_ascii c) :: chars s
  end.

(** The C string at the start of a buffer. *)
Fixpoint cstr (l : list Z) : list Z :=
  match l with
  | [] => []
  | c :: l => if c =? 0 then [] else c :: cstr l
  end.

(** ** Tables *)

(** Changing the entry a table has at [i] is storing the changed entry. *)
Lemma list_alter_insert {A} (f : A -> A) (l : list A) i x :
  l !! i = Some x -> alter f i l = <[i := f x]> l.
Proof.
  intros Hi. apply list_eq. intros j. destruct (decide (j = i)) as [->|].
  - rewrite list_lookup_alter_eq, list_lookup_insert_eq, Hi; [done|].
    by eapply lookup_lt_Some.
  - by rewrite list_lookup_alter_ne, list_lookup_insert_ne.
Qed.

(** ** Collecting the present entries of a table *)

(** Adding, removing one entry of the table behind an [omap]. *)
Lemma total_alter_eq {A} `{Inhabited A} (f : A -> A) (l : list A) i x :
  l !! i = Some x -> alter f i l !!! i = f x.
Proof.
  intros Hx. apply list_lookup_total_correct. by rewrite list_lookup_alter_eq, Hx.
Qed.

Lemma total_alter_ne {A} `{Inhabited A} (f : A -> A) (l : list A) i j :
  i <> j -> alter f i l !!! j = l !!! j.
Proof. intros Hij. by rewrite !list_lookup_total_alt, list_lookup_alter_ne. Qed.

Lemma alter_at {A} (f g : A -> A) (l : list A) i x : l !! i = Some x -> f x = g x -> alter f i l = alter g i l.
Proof.
  intros Hx E. apply list_eq. intros j. destruct (decide (j = i)) as [->|Hne].
  - rewrite !list_lookup_alter_eq, Hx. cbn. by rewrite E.
  - by rewrite !list_lookup_alter_ne.
Qed.

Lemma alter_insert_at {A} (f : A -> A) (l : list A) i x : l !! i = Some x -> alter f i l = <[i := f x]> l.
Proof.
  intros Hx. apply list_eq. intros j. destruct (decide (j = i)) as [->|Hne].
  - rewrite list_lookup_alter_eq, Hx, list_lookup_insert_eq; [done|]. by eapply lookup_lt_Some.
  - by rewrite list_lookup_alter_ne, list_lookup_insert_ne.
Qed.

Lemma alter_same {A} (f : A -> A) (l : list A) i : (forall x, f x = x) -> alter f i l = l.
Proof.
  intros E. destruct (l !! i) as [x|] eqn:Hx.
  - rewrite (alter_insert_at f l i x Hx), E. by apply list_insert_id.
  - apply list_eq. intros j. destruct (decide (j = i)) as [->|Hne]; [by rewrite list_lookup_alter_eq, Hx|by rewrite list_lookup_alter_ne].
Qed.

Lemma alter_fun {A} (f g : A -> A) (l : list A) i : (forall x, f x = g x) -> alter f i l = alter g i l.
Proof. intros E. by apply list_alter_ext. Qed.

Lemma list_alter_twice {A} (f g : A -> A) (l : list A) i :
  alter f i (alter g i l) = alter (fun x => f (g x)) i l.
Proof. revert i. induction l as [|x l IH]; intros [|i]; cbn; [done..|]. by rewrite IH. Qed.

Lemma omap_ext {A B} (f g : A -> option B) (l : list A) :
  (forall x, x ∈ l -> f x = g x) -> omap f l = omap g l.
Proof.
  induction l as [|x l IH]; intros E; [done|]. cbn.
  rewrite (E x) by set_solver. rewrite IH; [done|]. set_solver.
Qed.

Lemma omap_add {A B} (f g : A -> option B) (l : list A) i b :
  NoDup l -> i ∈ l -> f i = None -> g i = Some b ->
  (forall x, x ∈ l -> x <> i -> g x = f x) -> omap g l ≡ₚ b :: omap f l.
Proof.
  intros Hnd Hi Hf Hg E. apply list_elem_of_split in Hi as (l1 & l2 & ->).
  apply NoDup_app in Hnd as (_ & Hd & [Hni _]%NoDup_cons).
  rewrite !omap_app. cbn. rewrite Hf, Hg.
  rewrite (omap_ext g f l1), (omap_ext g f l2).
  - by rewrite <- Permutation_middle.
  - intros x Hx. apply E; [set_solver|]. intros ->. done.
  - intros x Hx. apply E; [set_solver|]. intros ->. apply (Hd i); set_solver.
Qed.

Lemma elem_of_omap {A B} (f : A -> option B) (l : list A) b :
  b ∈ omap f l <-> exists x, x ∈ l /\ f x = Some b.
Proof. apply list_elem_of_omap. Qed.

(** An entry that occurs once in a collected table is found at one index. *)
Lemma omap_NoDup_inj {A B} (f : A -> option B) (l : list A) x y b :
  NoDup (omap f l) -> x ∈ l -> y ∈ l -> f x = Some b -> f y = Some b -> x = y.
Proof.
  induction l as [|z l IH]; cbn; [set_solver|]. intros Hnd Hx Hy Ex Ey.
  destruct (f z) as [c|] eqn:Ez.
  - apply NoDup_cons in Hnd as [Hni Hnd].
    apply elem_of_cons in Hx as [->|Hx], Hy as [->|Hy]; [done|..|by apply IH].
    + exfalso. apply Hni. rewrite elem_of_omap. exists y. naive_solver.
    + exfalso. apply Hni. rewrite elem_of_omap. exists x. naive_solver.
  - apply elem_of_cons in Hx as [->|Hx], Hy as [->|Hy]; try congruence. by apply IH.
Qed.

(** ** Lists of addresses as multisets *)

Definition one (y x : Z) : nat := if Z.eq_dec y x then 1%nat else 0%nat.
Definition cnt (x : Z) (l : list Z) : nat := count_occ Z.eq_dec l x.

Lemma cnt_nil x : cnt x [] = 0%nat.
Proof. done. Qed.

Lemma cnt_cons x y l : cnt x (y :: l) = (one y x + cnt x l)%nat.
Proof. unfold cnt, one. cbn. by destruct (Z.eq_dec y x). Qed.

Lemma cnt_app x l1 l2 : cnt x (l1 ++ l2) = (cnt x l1 + cnt x l2)%nat.
Proof. apply count_occ_app. Qed.

Lemma one_refl x : one x x = 1%nat.
Proof. unfold one. by destruct (Z.eq_dec x x). Qed.

Lemma perm_cnt l1 l2 : l1 ≡ₚ l2 <-> forall x, cnt x l1 = cnt x l2.
Proof. apply (Permutation_count_occ Z.eq_dec). Qed.

Lemma elem_of_cnt x l : x ∈ l <-> (1 <= cnt x l)%nat.
Proof. rewrite list_elem_of_In, (count_occ_In Z.eq_dec). unfold cnt. lia. Qed.

Lemma NoDup_cnt l : NoDup l <-> forall x, (cnt x l <= 1)%nat.
Proof. rewrite NoDup_ListNoDup. apply (NoDup_count_occ Z.eq_dec). Qed.

#[global] Opaque cnt one.

(** Decides permutation, duplicate-freeness and membership of lists built by
    [::] and [++] from the same facts in the context, counting occurrences of
    one element. *)
Ltac cnt_hyps x :=
  repeat match goal with
  | H : @Permutation Z _ _ |- _ => rewrite perm_cnt in H; specialize (H x)
  | H : @NoDup Z _ |- _ => rewrite NoDup_cnt in H; specialize (H x)
  | H : x ∈ _ |- _ => rewrite elem_of_cnt in H
  | H : x ∉ _ |- _ => rewrite elem_of_cnt in H
  end.

Ltac cnt_norm :=
  repeat (rewrite ?cnt_app, ?cnt_cons, ?cnt_nil, ?one_refl in * );
  lia.

Ltac perm_solve :=
  match goal with
  | |- @Permutation Z _ _ => apply perm_cnt; let x := fresh "x" in intros x; cnt_hyps x; cnt_norm
  | |- @NoDup Z _ => apply NoDup_cnt; let x := fresh "x" in intros x; cnt_hyps x; cnt_norm
  | |- ?x ∈ _ => apply elem_of_cnt; cnt_hyps x; cnt_norm
  | |- ?x ∉ _ => rewrite elem_of_cnt; cnt_hyps x; cnt_norm
  end.
