(* ===== verification/State.v ===== *)
(** * The state of the kernel and the monad its code runs in

    The records are the structs of proc.h, x86.h, file.h, fs.h, buf.h, log.c,
    pipe.c and console.c; a C pointer into one of the kernel's static tables
    (ptable, ftable, icache, bcache) is the index of its entry, with [None]
    for the null pointer.  Flag words are records of their bits.

    Kernel code is a function from the state to [res]: it returns ([Ok]) or
    it stops ([Halt]) because it panicked or because the process gave up the
    processor. *)

From S2P Require Import Prelude.

(** ** Constants of param.h, memlayout.h, mmu.h and fs.h *)

Definition NPROC : nat := 64.
Definition KSTACKSIZE : Z := 4096.
Definition NOFILE : nat := 16.
Definition NFILE : nat := 100.
Definition NINODE : nat := 50.
Definition NDEV : Z := 10.
Definition ROOTDEV : Z := 1.
Definition MAXARG : nat := 32.
Definition MAXOPBLOCKS : Z := 10.
Definition LOGSIZE : Z := MAXOPBLOCKS * 3.
Definition NBUF : nat := 30.
Definition FSSIZE : Z := 1000.

Definition EXTMEM : Z := 0x100000.
Definition PHYSTOP : Z := 0xE000000.
Definition DEVSPACE : Z := 0xFE000000.
Definition KERNBASE : Z := 0x80000000.
Definition KERNLINK : Z := KERNBASE + EXTMEM.

Definition PGSIZE : Z := 4096.
Definition BSIZE : nat := 512.
Definition NDIRECT : nat := 12.
Definition NINDIRECT : nat := 128.
Definition MAXFILE : Z := 140.
Definition PIPESIZE : Z := 512.

(** [(sz)+PGSIZE-1) & ~(PGSIZE-1)] and [(a) & ~(PGSIZE-1)] on [uint]s. *)
Definition PGROUNDUP (sz : Z) : Z := Z.land (u32 (sz + PGSIZE - 1)) 0xFFFFF000.
Definition PGROUNDDOWN (a : Z) : Z := Z.land a 0xFFFFF000.

(** Conversion between kernel virtual and physical addresses. *)
Definition v2p (a : Z) : Z := u32 (a - KERNBASE).
Definition p2v (a : Z) : Z := u32 (a + KERNBASE).

#[global] Arguments PGROUNDUP : simpl never.
#[global] Arguments PGROUNDDOWN : simpl never.
#[global] Arguments v2p : simpl never.
#[global] Arguments p2v : simpl never.
#[global] Arguments NPROC : simpl never.
#[global] Arguments NBUF : simpl never.
#[global] Arguments BSIZE : simpl never.

(** The symbols [data] and [end] that kernel.ld defines, with what its layout
    guarantees: the kernel is linked at KERNLINK, [data] is page aligned and
    the image lies in the 4 MB that entrypgdir maps. *)
Class KernelImage := {
  k_data : Z;
  k_end : Z;
  k_data_aligned : k_data mod PGSIZE = 0;
  k_data_low : KERNLINK < k_data;
  k_data_end : k_data <= k_end;
  k_end_high : k_end < KERNBASE + 0x400000 }.

(** ** Wait channels and locks *)

(** The addresses the kernel sleeps on. *)
Inductive chan :=
  | CProc (i : nat)        (* a process, in wait and join *)
  | CBuf (i : nat)         (* a buffer *)
  | CLog                   (* &log *)
  | CInode (i : nat)       (* an inode *)
  | CPipeRead (a : Z)      (* &p->nread *)
  | CPipeWrite (a : Z)     (* &p->nwrite *)
  | CTicks                 (* &ticks *)
  | CInput.                (* &input.r *)

#[export] Instance chan_eq_dec : EqDecision chan.
Proof. solve_decision. Defined.

(** The kernel's spin locks. *)
Inductive lockid :=
  | LPtable | LKmem | LBcache | LLog | LIde | LIcache | LFtable | LTicks | LCons
  | LPipe (a : Z).

#[export] Instance lockid_eq_dec : EqDecision lockid.
Proof. solve_decision. Defined.

Definition lockid_code (l : lockid) : Z + Z :=
  match l with
  | LPtable => inl 0 | LKmem => inl 1 | LBcache => inl 2 | LLog => inl 3
  | LIde => inl 4 | LIcache => inl 5 | LFtable => inl 6 | LTicks => inl 7
  | LCons => inl 8 | LPipe a => inr a
  end.

Definition lockid_decode (c : Z + Z) : lockid :=
  match c with
  | inl 0 => LPtable | inl 1 => LKmem | inl 2 => LBcache | inl 3 => LLog
  | inl 4 => LIde | inl 5 => LIcache | inl 6 => LFtable | inl 7 => LTicks
  | inl _ => LCons | inr a => LPipe a
  end.

#[export] Instance lockid_countable : Countable lockid.
Proof. refine (inj_countable' lockid_code lockid_decode _). by intros []. Defined.

(** ** Processes (proc.h, x86.h) *)

Inductive procstate := UNUSED | EMBRYO | SLEEPING | RUNNABLE | RUNNING | ZOMBIE.

#[export] Instance procstate_eq_dec : EqDecision procstate.
Proof. solve_decision. Defined.

(** The registers saved on entry to the kernel (x86.h). *)
Record trapframe := MkTf {
  tf_edi : Z;
  tf_esi : Z;
  tf_ebp : Z;
  tf_oesp : Z;
  tf_ebx : Z;
  tf_edx : Z;
  tf_ecx : Z;
  tf_eax : Z;
  tf_gs : Z;
  tf_fs : Z;
  tf_es : Z;
  tf_ds : Z;
  tf_trapno : Z;
  tf_err : Z;
  tf_eip : Z;
  tf_cs : Z;
  tf_eflags : Z;
  tf_esp : Z;
  tf_ss : Z }.

Definition set_tf_edi (v : Z) (x : trapframe) : trapframe :=
  MkTf v (tf_esi x) (tf_ebp x) (tf_oesp x) (tf_ebx x) (tf_edx x) (tf_ecx x) (tf_eax x) (tf_gs x) (tf_fs x) (tf_es x) (tf_ds x) (tf_trapno x) (tf_err x) (tf_eip x) (tf_cs x) (tf_eflags x) (tf_esp x) (tf_ss x).
Definition set_tf_esi (v : Z) (x : trapframe) : trapframe :=
  MkTf (tf_edi x) v (tf_ebp x) (tf_oesp x) (tf_ebx x) (tf_edx x) (tf_ecx x) (tf_eax x) (tf_gs x) (tf_fs x) (tf_es x) (tf_ds x) (tf_trapno x) (tf_err x) (tf_eip x) (tf_cs x) (tf_eflags x) (tf_esp x) (tf_ss x).
Definition set_tf_ebp (v : Z) (x : trapframe) : trapframe :=
  MkTf (tf_edi x) (tf_esi x) v (tf_oesp x) (tf_ebx x) (tf_edx x) (tf_ecx x) (tf_eax x) (tf_gs x) (tf_fs x) (tf_es x) (tf_ds x) (tf_trapno x) (tf_err x) (tf_eip x) (tf_cs x) (tf_eflags x) (tf_esp x) (tf_ss x).
Definition set_tf_oesp (v : Z) (x : trapframe) : trapframe :=
  MkTf (tf_edi x) (tf_esi x) (tf_ebp x) v (tf_ebx x) (tf_edx x) (tf_ecx x) (tf_eax x) (tf_gs x) (tf_fs x) (tf_es x) (tf_ds x) (tf_trapno x) (tf_err x) (tf_eip x) (tf_cs x) (tf_eflags x) (tf_esp x) (tf_ss x).
Definition set_tf_ebx (v : Z) (x : trapframe) : trapframe :=
  MkTf (tf_edi x) (tf_esi x) (tf_ebp x) (tf_oesp x) v (tf_edx x) (tf_ecx x) (tf_eax x) (tf_gs x) (tf_fs x) (tf_es x) (tf_ds x) (tf_trapno x) (tf_err x) (tf_eip x) (tf_cs x) (tf_eflags x) (tf_esp x) (tf_ss x).
Definition set_tf_edx (v : Z) (x : trapframe) : trapframe :=
  MkTf (tf_edi x) (tf_esi x) (tf_ebp x) (tf_oesp x) (tf_ebx x) v (tf_ecx x) (tf_eax x) (tf_gs x) (tf_fs x) (tf_es x) (tf_ds x) (tf_trapno x) (tf_err x) (tf_eip x) (tf_cs x) (tf_eflags x) (tf_esp x) (tf_ss x).
Definition set_tf_ecx (v : Z) (x : trapframe) : trapframe :=
  MkTf (tf_edi x) (tf_esi x) (tf_ebp x) (tf_oesp x) (tf_ebx x) (tf_edx x) v (tf_eax x) (tf_gs x) (tf_fs x) (tf_es x) (tf_ds x) (tf_trapno x) (tf_err x) (tf_eip x) (tf_cs x) (tf_eflags x) (tf_esp x) (tf_ss x).
Definition set_tf_eax (v : Z) (x : trapframe) : trapframe :=
  MkTf (tf_edi x) (tf_esi x) (tf_ebp x) (tf_oesp x) (tf_ebx x) (tf_edx x) (tf_ecx x) v (tf_gs x) (tf_fs x) (tf_es x) (tf_ds x) (tf_trapno x) (tf_err x) (tf_eip x) (tf_cs x) (tf_eflags x) (tf_esp x) (tf_ss x).
Definition set_tf_gs (v : Z) (x : trapframe) : trapframe :=
  MkTf (tf_edi x) (tf_esi x) (tf_ebp x) (tf_oesp x) (tf_ebx x) (tf_edx x) (tf_ecx x) (tf_eax x) v (tf_fs x) (tf_es x) (tf_ds x) (tf_trapno x) (tf_err x) (tf_eip x) (tf_cs x) (tf_eflags x) (tf_esp x) (tf_ss x).
Definition set_tf_fs (v : Z) (x : trapframe) : trapframe :=
  MkTf (tf_edi x) (tf_esi x) (tf_ebp x) (tf_oesp x) (tf_ebx x) (tf_edx x) (tf_ecx x) (tf_eax x) (tf_gs x) v (tf_es x) (tf_ds x) (tf_trapno x) (tf_err x) (tf_eip x) (tf_cs x) (tf_eflags x) (tf_esp x) (tf_ss x).
Definition set_tf_es (v : Z) (x : trapframe) : trapframe :=
  MkTf (tf_edi x) (tf_esi x) (tf_ebp x) (tf_oesp x) (tf_ebx x) (tf_edx x) (tf_ecx x) (tf_eax x) (tf_gs x) (tf_fs x) v (tf_ds x) (tf_trapno x) (tf_err x) (tf_eip x) (tf_cs x) (tf_eflags x) (tf_esp x) (tf_ss x).
Definition set_tf_ds (v : Z) (x : trapframe) : trapframe :=
  MkTf (tf_edi x) (tf_esi x) (tf_ebp x) (tf_oesp x) (tf_ebx x) (tf_edx x) (tf_ecx x) (tf_eax x) (tf_gs x) (tf_fs x) (tf_es x) v (tf_trapno x) (tf_err x) (tf_eip x) (tf_cs x) (tf_eflags x) (tf_esp x) (tf_ss x).
Definition set_tf_trapno (v : Z) (x : trapframe) : trapframe :=
  MkTf (tf_edi x) (tf_esi x) (tf_ebp x) (tf_oesp x) (tf_ebx x) (tf_edx x) (tf_ecx x) (tf_eax x) (tf_gs x) (tf_fs x) (tf_es x) (tf_ds x) v (tf_err x) (tf_eip x) (tf_cs x) (tf_eflags x) (tf_esp x) (tf_ss x).
Definition set_tf_err (v : Z) (x : trapframe) : trapframe :=
  MkTf (tf_edi x) (tf_esi x) (tf_ebp x) (tf_oesp x) (tf_ebx x) (tf_edx x) (tf_ecx x) (tf_eax x) (tf_gs x) (tf_fs x) (tf_es x) (tf_ds x) (tf_trapno x) v (tf_eip x) (tf_cs x) (tf_eflags x) (tf_esp x) (tf_ss x).
Definition set_tf_eip (v : Z) (x : trapframe) : trapframe :=
  MkTf (tf_edi x) (tf_esi x) (tf_ebp x) (tf_oesp x) (tf_ebx x) (tf_edx x) (tf_ecx x) (tf_eax x) (tf_gs x) (tf_fs x) (tf_es x) (tf_ds x) (tf_trapno x) (tf_err x) v (tf_cs x) (tf_eflags x) (tf_esp x) (tf_ss x).
Definition set_tf_cs (v : Z) (x : trapframe) : trapframe :=
  MkTf (tf_edi x) (tf_esi x) (tf_ebp x) (tf_oesp x) (tf_ebx x) (tf_edx x) (tf_ecx x) (tf_eax x) (tf_gs x) (tf_fs x) (tf_es x) (tf_ds x) (tf_trapno x) (tf_err x) (tf_eip x) v (tf_eflags x) (tf_esp x) (tf_ss x).
Definition set_tf_eflags (v : Z) (x : trapframe) : trapframe :=
  MkTf (tf_edi x) (tf_esi x) (tf_ebp x) (tf_oesp x) (tf_ebx x) (tf_edx x) (tf_ecx x) (tf_eax x) (tf_gs x) (tf_fs x) (tf_es x) (tf_ds x) (tf_trapno x) (tf_err x) (tf_eip x) (tf_cs x) v (tf_esp x) (tf_ss x).
Definition set_tf_esp (v : Z) (x : trapframe) : trapframe :=
  MkTf (tf_edi x) (tf_esi x) (tf_ebp x) (tf_oesp x) (tf_ebx x) (tf_edx x) (tf_ecx x) (tf_eax x) (tf_gs x) (tf_fs x) (tf_es x) (tf_ds x) (tf_trapno x) (tf_err x) (tf_eip x) (tf_cs x) (tf_eflags x) v (tf_ss x).
Definition set_tf_ss (v : Z) (x : trapframe) : trapframe :=
  MkTf (tf_edi x) (tf_esi x) (tf_ebp x) (tf_oesp x) (tf_ebx x) (tf_edx x) (tf_ecx x) (tf_eax x) (tf_gs x) (tf_fs x) (tf_es x) (tf_ds x) (tf_trapno x) (tf_err x) (tf_eip x) (tf_cs x) (tf_eflags x) (tf_esp x) v.

(** The registers [swtch] saves. *)
Record context := MkCtx {
  ctx_edi : Z;
  ctx_esi : Z;
  ctx_ebx : Z;
  ctx_ebp : Z;
  ctx_eip : Z }.

Definition set_ctx_edi (v : Z) (x : context) : context :=
  MkCtx v (ctx_esi x) (ctx_ebx x) (ctx_ebp x) (ctx_eip x).
Definition set_ctx_esi (v : Z) (x : context) : context :=
  MkCtx (ctx_edi x) v (ctx_ebx x) (ctx_ebp x) (ctx_eip x).
Definition set_ctx_ebx (v : Z) (x : context) : context :=
  MkCtx (ctx_edi x) (ctx_esi x) v (ctx_ebp x) (ctx_eip x).
Definition set_ctx_ebp (v : Z) (x : context) : context :=
  MkCtx (ctx_edi x) (ctx_esi x) (ctx_ebx x) v (ctx_eip x).
Definition set_ctx_eip (v : Z) (x : context) : context :=
  MkCtx (ctx_edi x) (ctx_esi x) (ctx_ebx x) (ctx_ebp x) v.

(** Per-process state. *)
Record proc := MkProc {
  p_sz : Z;
  p_pgdir : Z;
  p_kstack : Z;
  p_state : procstate;
  p_pid : Z;
  p_parent : option nat;
  p_tf : trapframe;
  p_context : context;
  p_chan : option chan;
  p_killed : bool;
  p_ofile : list (option nat);
  p_cwd : option nat;
  p_name : list Z }.

Definition set_p_sz (v : Z) (x : proc) : proc :=
  MkProc v (p_pgdir x) (p_kstack x) (p_state x) (p_pid x) (p_parent x) (p_tf x) (p_context x) (p_chan x) (p_killed x) (p_ofile x) (p_cwd x) (p_name x).
Definition set_p_pgdir (v : Z) (x : proc) : proc :=
  MkProc (p_sz x) v (p_kstack x) (p_state x) (p_pid x) (p_parent x) (p_tf x) (p_context x) (p_chan x) (p_killed x) (p_ofile x) (p_cwd x) (p_name x).
Definition set_p_kstack (v : Z) (x : proc) : proc :=
  MkProc (p_sz x) (p_pgdir x) v (p_state x) (p_pid x) (p_parent x) (p_tf x) (p_context x) (p_chan x) (p_killed x) (p_ofile x) (p_cwd x) (p_name x).
Definition set_p_state (v : procstate) (x : proc) : proc :=
  MkProc (p_sz x) (p_pgdir x) (p_kstack x) v (p_pid x) (p_parent x) (p_tf x) (p_context x) (p_chan x) (p_killed x) (p_ofile x) (p_cwd x) (p_name x).
Definition set_p_pid (v : Z) (x : proc) : proc :=
  MkProc (p_sz x) (p_pgdir x) (p_kstack x) (p_state x) v (p_parent x) (p_tf x) (p_context x) (p_chan x) (p_killed x) (p_ofile x) (p_cwd x) (p_name x).
Definition set_p_parent (v : option nat) (x : proc) : proc :=
  MkProc (p_sz x) (p_pgdir x) (p_kstack x) (p_state x) (p_pid x) v (p_tf x) (p_context x) (p_chan x) (p_killed x) (p_ofile x) (p_cwd x) (p_name x).
Definition set_p_tf (v : trapframe) (x : proc) : proc :=
  MkProc (p_sz x) (p_pgdir x) (p_kstack x) (p_state x) (p_pid x) (p_parent x) v (p_context x) (p_chan x) (p_killed x) (p_ofile x) (p_cwd x) (p_name x).
Definition set_p_context (v : context) (x : proc) : proc :=
  MkProc (p_sz x) (p_pgdir x) (p_kstack x) (p_state x) (p_pid x) (p_parent x) (p_tf x) v (p_chan x) (p_killed x) (p_ofile x) (p_cwd x) (p_name x).
Definition set_p_chan (v : option chan) (x : proc) : proc :=
  MkProc (p_sz x) (p_pgdir x) (p_kstack x) (p_state x) (p_pid x) (p_parent x) (p_tf x) (p_context x) v (p_killed x) (p_ofile x) (p_cwd x) (p_name x).
Definition set_p_killed (v : bool) (x : proc) : proc :=
  MkProc (p_sz x) (p_pgdir x) (p_kstack x) (p_state x) (p_pid x) (p_parent x) (p_tf x) (p_context x) (p_chan x) v (p_ofile x) (p_cwd x) (p_name x).
Definition set_p_ofile (v : list (option nat)) (x : proc) : proc :=
  MkProc (p_sz x) (p_pgdir x) (p_kstack x) (p_state x) (p_pid x) (p_parent x) (p_tf x) (p_context x) (p_chan x) (p_killed x) v (p_cwd x) (p_name x).
Definition set_p_cwd (v : option nat) (x : proc) : proc :=
  MkProc (p_sz x) (p_pgdir x) (p_kstack x) (p_state x) (p_pid x) (p_parent x) (p_tf x) (p_context x) (p_chan x) (p_killed x) (p_ofile x) v (p_name x).
Definition set_p_name (v : list Z) (x : proc) : proc :=
  MkProc (p_sz x) (p_pgdir x) (p_kstack x) (p_state x) (p_pid x) (p_parent x) (p_tf x) (p_context x) (p_chan x) (p_killed x) (p_ofile x) (p_cwd x) v.

(** ** Files, inodes, buffers, the log and pipes *)

Inductive fdtype := FD_NONE | FD_PIPE | FD_INODE.

#[export] Instance fdtype_eq_dec : EqDecision fdtype.
Proof. solve_decision. Defined.

(** An open file (file.h); a pipe is named by the page that holds it. *)
Record file := MkFile {
  f_type : fdtype;
  f_ref : Z;
  f_readable : bool;
  f_writable : bool;
  f_pipe : Z;
  f_ip : option nat;
  f_off : Z }.

Definition set_f_type (v : fdtype) (x : file) : file :=
  MkFile v (f_ref x) (f_readable x) (f_writable x) (f_pipe x) (f_ip x) (f_off x).
Definition set_f_ref (v : Z) (x : file) : file :=
  MkFile (f_type x) v (f_readable x) (f_writable x) (f_pipe x) (f_ip x) (f_off x).
Definition set_f_readable (v : bool) (x : file) : file :=
  MkFile (f_type x) (f_ref x) v (f_writable x) (f_pipe x) (f_ip x) (f_off x).
Definition set_f_writable (v : bool) (x : file) : file :=
  MkFile (f_type x) (f_ref x) (f_readable x) v (f_pipe x) (f_ip x) (f_off x).
Definition set_f_pipe (v : Z) (x : file) : file :=
  MkFile (f_type x) (f_ref x) (f_readable x) (f_writable x) v (f_ip x) (f_off x).
Definition set_f_ip (v : option nat) (x : file) : file :=
  MkFile (f_type x) (f_ref x) (f_readable x) (f_writable x) (f_pipe x) v (f_off x).
Definition set_f_off (v : Z) (x : file) : file :=
  MkFile (f_type x) (f_ref x) (f_readable x) (f_writable x) (f_pipe x) (f_ip x) v.

(** An in-memory inode (file.h), [flags] as I_BUSY and I_VALID. *)
Record inode := MkInode {
  i_dev : Z;
  i_inum : Z;
  i_ref : Z;
  i_busy : bool;
  i_valid : bool;
  i_type : Z;
  i_major : Z;
  i_minor : Z;
  i_nlink : Z;
  i_size : Z;
  i_addrs : list Z }.

Definition set_i_dev (v : Z) (x : inode) : inode :=
  MkInode v (i_inum x) (i_ref x) (i_busy x) (i_valid x) (i_type x) (i_major x) (i_minor x) (i_nlink x) (i_size x) (i_addrs x).
Definition set_i_inum (v : Z) (x : inode) : inode :=
  MkInode (i_dev x) v (i_ref x) (i_busy x) (i_valid x) (i_type x) (i_major x) (i_minor x) (i_nlink x) (i_size x) (i_addrs x).
Definition set_i_ref (v : Z) (x : inode) : inode :=
  MkInode (i_dev x) (i_inum x) v (i_busy x) (i_valid x) (i_type x) (i_major x) (i_minor x) (i_nlink x) (i_size x) (i_addrs x).
Definition set_i_busy (v : bool) (x : inode) : inode :=
  MkInode (i_dev x) (i_inum x) (i_ref x) v (i_valid x) (i_type x) (i_major x) (i_minor x) (i_nlink x) (i_size x) (i_addrs x).
Definition set_i_valid (v : bool) (x : inode) : inode :=
  MkInode (i_dev x) (i_inum x) (i_ref x) (i_busy x) v (i_type x) (i_major x) (i_minor x) (i_nlink x) (i_size x) (i_addrs x).
Definition set_i_type (v : Z) (x : inode) : inode :=
  MkInode (i_dev x) (i_inum x) (i_ref x) (i_busy x) (i_valid x) v (i_major x) (i_minor x) (i_nlink x) (i_size x) (i_addrs x).
Definition set_i_major (v : Z) (x : inode) : inode :=
  MkInode (i_dev x) (i_inum x) (i_ref x) (i_busy x) (i_valid x) (i_type x) v (i_minor x) (i_nlink x) (i_size x) (i_addrs x).
Definition set_i_minor (v : Z) (x : inode) : inode :=
  MkInode (i_dev x) (i_inum x) (i_ref x) (i_busy x) (i_valid x) (i_type x) (i_major x) v (i_nlink x) (i_size x) (i_addrs x).
Definition set_i_nlink (v : Z) (x : inode) : inode :=
  MkInode (i_dev x) (i_inum x) (i_ref x) (i_busy x) (i_valid x) (i_type x) (i_major x) (i_minor x) v (i_size x) (i_addrs x).
Definition set_i_size (v : Z) (x : inode) : inode :=
  MkInode (i_dev x) (i_inum x) (i_ref x) (i_busy x) (i_valid x) (i_type x) (i_major x) (i_minor x) (i_nlink x) v (i_addrs x).
Definition set_i_addrs (v : list Z) (x : inode) : inode :=
  MkInode (i_dev x) (i_inum x) (i_ref x) (i_busy x) (i_valid x) (i_type x) (i_major x) (i_minor x) (i_nlink x) (i_size x) v.

(** A buffer (buf.h), [flags] as B_BUSY, B_VALID and B_DIRTY. *)
Record buf := MkBuf {
  b_busy : bool;
  b_valid : bool;
  b_dirty : bool;
  b_dev : Z;
  b_blockno : Z;
  b_prev : nat;
  b_next : nat;
  b_data : list Z }.

Definition set_b_busy (v : bool) (x : buf) : buf :=
  MkBuf v (b_valid x) (b_dirty x) (b_dev x) (b_blockno x) (b_prev x) (b_next x) (b_data x).
Definition set_b_valid (v : bool) (x : buf) : buf :=
  MkBuf (b_busy x) v (b_dirty x) (b_dev x) (b_blockno x) (b_prev x) (b_next x) (b_data x).
Definition set_b_dirty (v : bool) (x : buf) : buf :=
  MkBuf (b_busy x) (b_valid x) v (b_dev x) (b_blockno x) (b_prev x) (b_next x) (b_data x).
Definition set_b_dev (v : Z) (x : buf) : buf :=
  MkBuf (b_busy x) (b_valid x) (b_dirty x) v (b_blockno x) (b_prev x) (b_next x) (b_data x).
Definition set_b_blockno (v : Z) (x : buf) : buf :=
  MkBuf (b_busy x) (b_valid x) (b_dirty x) (b_dev x) v (b_prev x) (b_next x) (b_data x).
Definition set_b_prev (v : nat) (x : buf) : buf :=
  MkBuf (b_busy x) (b_valid x) (b_dirty x) (b_dev x) (b_blockno x) v (b_next x) (b_data x).
Definition set_b_next (v : nat) (x : buf) : buf :=
  MkBuf (b_busy x) (b_valid x) (b_dirty x) (b_dev x) (b_blockno x) (b_prev x) v (b_data x).
Definition set_b_data (v : list Z) (x : buf) : buf :=
  MkBuf (b_busy x) (b_valid x) (b_dirty x) (b_dev x) (b_blockno x) (b_prev x) (b_next x) v.

(** The super block (fs.h). *)
Record superblock := MkSb {
  sb_size : Z;
  sb_nblocks : Z;
  sb_ninodes : Z;
  sb_nlog : Z;
  sb_logstart : Z;
  sb_inodestart : Z;
  sb_bmapstart : Z }.

Definition set_sb_size (v : Z) (x : superblock) : superblock :=
  MkSb v (sb_nblocks x) (sb_ninodes x) (sb_nlog x) (sb_logstart x) (sb_inodestart x) (sb_bmapstart x).
Definition set_sb_nblocks (v : Z) (x : superblock) : superblock :=
  MkSb (sb_size x) v (sb_ninodes x) (sb_nlog x) (sb_logstart x) (sb_inodestart x) (sb_bmapstart x).
Definition set_sb_ninodes (v : Z) (x : superblock) : superblock :=
  MkSb (sb_size x) (sb_nblocks x) v (sb_nlog x) (sb_logstart x) (sb_inodestart x) (sb_bmapstart x).
Definition set_sb_nlog (v : Z) (x : superblock) : superblock :=
  MkSb (sb_size x) (sb_nblocks x) (sb_ninodes x) v (sb_logstart x) (sb_inodestart x) (sb_bmapstart x).
Definition set_sb_logstart (v : Z) (x : superblock) : superblock :=
  MkSb (sb_size x) (sb_nblocks x) (sb_ninodes x) (sb_nlog x) v (sb_inodestart x) (sb_bmapstart x).
Definition set_sb_inodestart (v : Z) (x : superblock) : superblock :=
  MkSb (sb_size x) (sb_nblocks x) (sb_ninodes x) (sb_nlog x) (sb_logstart x) v (sb_bmapstart x).
Definition set_sb_bmapstart (v : Z) (x : superblock) : superblock :=
  MkSb (sb_size x) (sb_nblocks x) (sb_ninodes x) (sb_nlog x) (sb_logstart x) (sb_inodestart x) v.

(** The log (log.c) with its in-memory header. *)
Record log_t := MkLog {
  l_start : Z;
  l_size : Z;
  l_outstanding : Z;
  l_committing : bool;
  l_dev : Z;
  lh_n : Z;
  lh_block : list Z }.

Definition set_l_start (v : Z) (x : log_t) : log_t :=
  MkLog v (l_size x) (l_outstanding x) (l_committing x) (l_dev x) (lh_n x) (lh_block x).
Definition set_l_size (v : Z) (x : log_t) : log_t :=
  MkLog (l_start x) v (l_outstanding x) (l_committing x) (l_dev x) (lh_n x) (lh_block x).
Definition set_l_outstanding (v : Z) (x : log_t) : log_t :=
  MkLog (l_start x) (l_size x) v (l_committing x) (l_dev x) (lh_n x) (lh_block x).
Definition set_l_committing (v : bool) (x : log_t) : log_t :=
  MkLog (l_start x) (l_size x) (l_outstanding x) v (l_dev x) (lh_n x) (lh_block x).
Definition set_l_dev (v : Z) (x : log_t) : log_t :=
  MkLog (l_start x) (l_size x) (l_outstanding x) (l_committing x) v (lh_n x) (lh_block x).
Definition set_lh_n (v : Z) (x : log_t) : log_t :=
  MkLog (l_start x) (l_size x) (l_outstanding x) (l_committing x) (l_dev x) v (lh_block x).
Definition set_lh_block (v : list Z) (x : log_t) : log_t :=
  MkLog (l_start x) (l_size x) (l_outstanding x) (l_committing x) (l_dev x) (lh_n x) v.

(** A pipe (pipe.c). *)
Record pipe := MkPipe {
  pi_data : list Z;
  pi_nread : Z;
  pi_nwrite : Z;
  pi_readopen : bool;
  pi_writeopen : bool }.

Definition set_pi_data (v : list Z) (x : pipe) : pipe :=
  MkPipe v (pi_nread x) (pi_nwrite x) (pi_readopen x) (pi_writeopen x).
Definition set_pi_nread (v : Z) (x : pipe) : pipe :=
  MkPipe (pi_data x) v (pi_nwrite x) (pi_readopen x) (pi_writeopen x).
Definition set_pi_nwrite (v : Z) (x : pipe) : pipe :=
  MkPipe (pi_data x) (pi_nread x) v (pi_readopen x) (pi_writeopen x).
Definition set_pi_readopen (v : bool) (x : pipe) : pipe :=
  MkPipe (pi_data x) (pi_nread x) (pi_nwrite x) v (pi_writeopen x).
Definition set_pi_writeopen (v : bool) (x : pipe) : pipe :=
  MkPipe (pi_data x) (pi_nread x) (pi_nwrite x) (pi_readopen x) v.

(** The running processor (proc.h): [struct cpu] with the interrupt flag of
    eflags, the page directory loaded in cr3 and the kernel stack of its TSS. *)
Record cpu_t := MkCpu {
  c_id : Z;
  c_ncli : Z;
  c_intena : bool;
  c_if : bool;
  c_proc : option nat;
  c_cr3 : Z;
  c_esp0 : Z }.

Definition set_c_id (v : Z) (x : cpu_t) : cpu_t :=
  MkCpu v (c_ncli x) (c_intena x) (c_if x) (c_proc x) (c_cr3 x) (c_esp0 x).
Definition set_c_ncli (v : Z) (x : cpu_t) : cpu_t :=
  MkCpu (c_id x) v (c_intena x) (c_if x) (c_proc x) (c_cr3 x) (c_esp0 x).
Definition set_c_intena (v : bool) (x : cpu_t) : cpu_t :=
  MkCpu (c_id x) (c_ncli x) v (c_if x) (c_proc x) (c_cr3 x) (c_esp0 x).
Definition set_c_if (v : bool) (x : cpu_t) : cpu_t :=
  MkCpu (c_id x) (c_ncli x) (c_intena x) v (c_proc x) (c_cr3 x) (c_esp0 x).
Definition set_c_proc (v : option nat) (x : cpu_t) : cpu_t :=
  MkCpu (c_id x) (c_ncli x) (c_intena x) (c_if x) v (c_cr3 x) (c_esp0 x).
Definition set_c_cr3 (v : Z) (x : cpu_t) : cpu_t :=
  MkCpu (c_id x) (c_ncli x) (c_intena x) (c_if x) (c_proc x) v (c_esp0 x).
Definition set_c_esp0 (v : Z) (x : cpu_t) : cpu_t :=
  MkCpu (c_id x) (c_ncli x) (c_intena x) (c_if x) (c_proc x) (c_cr3 x) v.

(** The console's input buffer (console.c). *)
Record input_t := MkInput {
  in_buf : list Z;
  in_r : Z;
  in_w : Z;
  in_e : Z }.

Definition set_in_buf (v : list Z) (x : input_t) : input_t :=
  MkInput v (in_r x) (in_w x) (in_e x).
Definition set_in_r (v : Z) (x : input_t) : input_t :=
  MkInput (in_buf x) v (in_w x) (in_e x).
Definition set_in_w (v : Z) (x : input_t) : input_t :=
  MkInput (in_buf x) (in_r x) v (in_e x).
Definition set_in_e (v : Z) (x : input_t) : input_t :=
  MkInput (in_buf x) (in_r x) (in_w x) v.

(** The entries of the device switch (file.h): the console's functions. *)
Inductive devfns := ConsoleDev.

(** The kernel.  [locks] maps a held spin lock to the id of the processor that
    holds it; [mem] is physical memory, addressed by kernel virtual address;
    [bufs] holds the NBUF buffers and, last, the list head of the buffer cache;
    [ide_lba] is the (drive, sector) selected in the disk's registers and
    [ide_status] the status it reports when ready;
    [disk] maps (drive, block) to contents and [dwrites] lists the block
    writes the disk has performed, in order; [conout] is what was sent to the serial port; [devsw] is the device
    switch; [crt_pos] is the cursor register of the display; [uart] says that
    there is a serial port; [kbd_shift] and [first] are the static variables
    of [kbdgetc] and [forkret]. *)
Record kst := MkKst {
  cpu : cpu_t;
  locks : gmap lockid Z;
  mem : Z -> Z;
  use_lock : bool;
  freelist : Z;
  kpgdir : Z;
  ptable : list proc;
  nextpid : Z;
  initproc : option nat;
  ftable : list file;
  pipes : gmap Z pipe;
  bufs : list buf;
  idequeue : list nat;
  havedisk1 : bool;
  ide_lba : Z * Z;
  ide_status : Z;
  disk : gmap (Z * Z) (list Z);
  dwrites : list ((Z * Z) * list Z);
  lg : log_t;
  icache : list inode;
  sb : superblock;
  ticks : Z;
  input : input_t;
  conout : list Z;
  devsw : list (option devfns);
  cons_locking : bool;
  crt_pos : Z;
  uart : bool;
  kbd_shift : Z;
  first : bool }.

Definition set_cpu (v : cpu_t) (x : kst) : kst :=
  MkKst v (locks x) (mem x) (use_lock x) (freelist x) (kpgdir x) (ptable x) (nextpid x) (initproc x) (ftable x) (pipes x) (bufs x) (idequeue x) (havedisk1 x) (ide_lba x) (ide_status x) (disk x) (dwrites x) (lg x) (icache x) (sb x) (ticks x) (input x) (conout x) (devsw x) (cons_locking x) (crt_pos x) (uart x) (kbd_shift x) (first x).
Definition set_locks (v : gmap lockid Z) (x : kst) : kst :=
  MkKst (cpu x) v (mem x) (use_lock x) (freelist x) (kpgdir x) (ptable x) (nextpid x) (initproc x) (ftable x) (pipes x) (bufs x) (idequeue x) (havedisk1 x) (ide_lba x) (ide_status x) (disk x) (dwrites x) (lg x) (icache x) (sb x) (ticks x) (input x) (conout x) (devsw x) (cons_locking x) (crt_pos x) (uart x) (kbd_shift x) (first x).
Definition set_mem (v : Z -> Z) (x : kst) : kst :=
  MkKst (cpu x) (locks x) v (use_lock x) (freelist x) (kpgdir x) (ptable x) (nextpid x) (initproc x) (ftable x) (pipes x) (bufs x) (idequeue x) (havedisk1 x) (ide_lba x) (ide_status x) (disk x) (dwrites x) (lg x) (icache x) (sb x) (ticks x) (input x) (conout x) (devsw x) (cons_locking x) (crt_pos x) (uart x) (kbd_shift x) (first x).
Definition set_use_lock (v : bool) (x : kst) : kst :=
  MkKst (cpu x) (locks x) (mem x) v (freelist x) (kpgdir x) (ptable x) (nextpid x) (initproc x) (ftable x) (pipes x) (bufs x) (idequeue x) (havedisk1 x) (ide_lba x) (ide_status x) (disk x) (dwrites x) (lg x) (icache x) (sb x) (ticks x) (input x) (conout x) (devsw x) (cons_locking x) (crt_pos x) (uart x) (kbd_shift x) (first x).
Definition set_freelist (v : Z) (x : kst) : kst :=
  MkKst (cpu x) (locks x) (mem x) (use_lock x) v (kpgdir x) (ptable x) (nextpid x) (initproc x) (ftable x) (pipes x) (bufs x) (idequeue x) (havedisk1 x) (ide_lba x) (ide_status x) (disk x) (dwrites x) (lg x) (icache x) (sb x) (ticks x) (input x) (conout x) (devsw x) (cons_locking x) (crt_pos x) (uart x) (kbd_shift x) (first x).
Definition set_kpgdir (v : Z) (x : kst) : kst :=
  MkKst (cpu x) (locks x) (mem x) (use_lock x) (freelist x) v (ptable x) (nextpid x) (initproc x) (ftable x) (pipes x) (bufs x) (idequeue x) (havedisk1 x) (ide_lba x) (ide_status x) (disk x) (dwrites x) (lg x) (icache x) (sb x) (ticks x) (input x) (conout x) (devsw x) (cons_locking x) (crt_pos x) (uart x) (kbd_shift x) (first x).
Definition set_ptable (v : list proc) (x : kst) : kst :=
  MkKst (cpu x) (locks x) (mem x) (use_lock x) (freelist x) (kpgdir x) v (nextpid x) (initproc x) (ftable x) (pipes x) (bufs x) (idequeue x) (havedisk1 x) (ide_lba x) (ide_status x) (disk x) (dwrites x) (lg x) (icache x) (sb x) (ticks x) (input x) (conout x) (devsw x) (cons_locking x) (crt_pos x) (uart x) (kbd_shift x) (first x).
Definition set_nextpid (v : Z) (x : kst) : kst :=
  MkKst (cpu x) (locks x) (mem x) (use_lock x) (freelist x) (kpgdir x) (ptable x) v (initproc x) (ftable x) (pipes x) (bufs x) (idequeue x) (havedisk1 x) (ide_lba x) (ide_status x) (disk x) (dwrites x) (lg x) (icache x) (sb x) (ticks x) (input x) (conout x) (devsw x) (cons_locking x) (crt_pos x) (uart x) (kbd_shift x) (first x).
Definition set_initproc (v : option nat) (x : kst) : kst :=
  MkKst (cpu x) (locks x) (mem x) (use_lock x) (freelist x) (kpgdir x) (ptable x) (nextpid x) v (ftable x) (pipes x) (bufs x) (idequeue x) (havedisk1 x) (ide_lba x) (ide_status x) (disk x) (dwrites x) (lg x) (icache x) (sb x) (ticks x) (input x) (conout x) (devsw x) (cons_locking x) (crt_pos x) (uart x) (kbd_shift x) (first x).
Definition set_ftable (v : list file) (x : kst) : kst :=
  MkKst (cpu x) (locks x) (mem x) (use_lock x) (freelist x) (kpgdir x) (ptable x) (nextpid x) (initproc x) v (pipes x) (bufs x) (idequeue x) (havedisk1 x) (ide_lba x) (ide_status x) (disk x) (dwrites x) (lg x) (icache x) (sb x) (ticks x) (input x) (conout x) (devsw x) (cons_locking x) (crt_pos x) (uart x) (kbd_shift x) (first x).
Definition set_pipes (v : gmap Z pipe) (x : kst) : kst :=
  MkKst (cpu x) (locks x) (mem x) (use_lock x) (freelist x) (kpgdir x) (ptable x) (nextpid x) (initproc x) (ftable x) v (bufs x) (idequeue x) (havedisk1 x) (ide_lba x) (ide_status x) (disk x) (dwrites x) (lg x) (icache x) (sb x) (ticks x) (input x) (conout x) (devsw x) (cons_locking x) (crt_pos x) (uart x) (kbd_shift x) (first x).
Definition set_bufs (v : list buf) (x : kst) : kst :=
  MkKst (cpu x) (locks x) (mem x) (use_lock x) (freelist x) (kpgdir x) (ptable x) (nextpid x) (initproc x) (ftable x) (pipes x) v (idequeue x) (havedisk1 x) (ide_lba x) (ide_status x) (disk x) (dwrites x) (lg x) (icache x) (sb x) (ticks x) (input x) (conout x) (devsw x) (cons_locking x) (crt_pos x) (uart x) (kbd_shift x) (first x).
Definition set_idequeue (v : list nat) (x : kst) : kst :=
  MkKst (cpu x) (locks x) (mem x) (use_lock x) (freelist x) (kpgdir x) (ptable x) (nextpid x) (initproc x) (ftable x) (pipes x) (bufs x) v (havedisk1 x) (ide_lba x) (ide_status x) (disk x) (dwrites x) (lg x) (icache x) (sb x) (ticks x) (input x) (conout x) (devsw x) (cons_locking x) (crt_pos x) (uart x) (kbd_shift x) (first x).
Definition set_havedisk1 (v : bool) (x : kst) : kst :=
  MkKst (cpu x) (locks x) (mem x) (use_lock x) (freelist x) (kpgdir x) (ptable x) (nextpid x) (initproc x) (ftable x) (pipes x) (bufs x) (idequeue x) v (ide_lba x) (ide_status x) (disk x) (dwrites x) (lg x) (icache x) (sb x) (ticks x) (input x) (conout x) (devsw x) (cons_locking x) (crt_pos x) (uart x) (kbd_shift x) (first x).
Definition set_ide_lba (v : Z * Z) (x : kst) : kst :=
  MkKst (cpu x) (locks x) (mem x) (use_lock x) (freelist x) (kpgdir x) (ptable x) (nextpid x) (initproc x) (ftable x) (pipes x) (bufs x) (idequeue x) (havedisk1 x) v (ide_status x) (disk x) (dwrites x) (lg x) (icache x) (sb x) (ticks x) (input x) (conout x) (devsw x) (cons_locking x) (crt_pos x) (uart x) (kbd_shift x) (first x).
Definition set_ide_status (v : Z) (x : kst) : kst :=
  MkKst (cpu x) (locks x) (mem x) (use_lock x) (freelist x) (kpgdir x) (ptable x) (nextpid x) (initproc x) (ftable x) (pipes x) (bufs x) (idequeue x) (havedisk1 x) (ide_lba x) v (disk x) (dwrites x) (lg x) (icache x) (sb x) (ticks x) (input x) (conout x) (devsw x) (cons_locking x) (crt_pos x) (uart x) (kbd_shift x) (first x).
Definition set_disk (v : gmap (Z * Z) (list Z)) (x : kst) : kst :=
  MkKst (cpu x) (locks x) (mem x) (use_lock x) (freelist x) (kpgdir x) (ptable x) (nextpid x) (initproc x) (ftable x) (pipes x) (bufs x) (idequeue x) (havedisk1 x) (ide_lba x) (ide_status x) v (dwrites x) (lg x) (icache x) (sb x) (ticks x) (input x) (conout x) (devsw x) (cons_locking x) (crt_pos x) (uart x) (kbd_shift x) (first x).
Definition set_dwrites (v : list ((Z * Z) * list Z)) (x : kst) : kst :=
  MkKst (cpu x) (locks x) (mem x) (use_lock x) (freelist x) (kpgdir x) (ptable x) (nextpid x) (initproc x) (ftable x) (pipes x) (bufs x) (idequeue x) (havedisk1 x) (ide_lba x) (ide_status x) (disk x) v (lg x) (icache x) (sb x) (ticks x) (input x) (conout x) (devsw x) (cons_locking x) (crt_pos x) (uart x) (kbd_shift x) (first x).
Definition set_lg (v : log_t) (x : kst) : kst :=
  MkKst (cpu x) (locks x) (mem x) (use_lock x) (freelist x) (kpgdir x) (ptable x) (nextpid x) (initproc x) (ftable x) (pipes x) (bufs x) (idequeue x) (havedisk1 x) (ide_lba x) (ide_status x) (disk x) (dwrites x) v (icache x) (sb x) (ticks x) (input x) (conout x) (devsw x) (cons_locking x) (crt_pos x) (uart x) (kbd_shift x) (first x).
Definition set_icache (v : list inode) (x : kst) : kst :=
  MkKst (cpu x) (locks x) (mem x) (use_lock x) (freelist x) (kpgdir x) (ptable x) (nextpid x) (initproc x) (ftable x) (pipes x) (bufs x) (idequeue x) (havedisk1 x) (ide_lba x) (ide_status x) (disk x) (dwrites x) (lg x) v (sb x) (ticks x) (input x) (conout x) (devsw x) (cons_locking x) (crt_pos x) (uart x) (kbd_shift x) (first x).
Definition set_sb (v : superblock) (x : kst) : kst :=
  MkKst (cpu x) (locks x) (mem x) (use_lock x) (freelist x) (kpgdir x) (ptable x) (nextpid x) (initproc x) (ftable x) (pipes x) (bufs x) (idequeue x) (havedisk1 x) (ide_lba x) (ide_status x) (disk x) (dwrites x) (lg x) (icache x) v (ticks x) (input x) (conout x) (devsw x) (cons_locking x) (crt_pos x) (uart x) (kbd_shift x) (first x).
Definition set_ticks (v : Z) (x : kst) : kst :=
  MkKst (cpu x) (locks x) (mem x) (use_lock x) (freelist x) (kpgdir x) (ptable x) (nextpid x) (initproc x) (ftable x) (pipes x) (bufs x) (idequeue x) (havedisk1 x) (ide_lba x) (ide_status x) (disk x) (dwrites x) (lg x) (icache x) (sb x) v (input x) (conout x) (devsw x) (cons_locking x) (crt_pos x) (uart x) (kbd_shift x) (first x).
Definition set_input (v : input_t) (x : kst) : kst :=
  MkKst (cpu x) (locks x) (mem x) (use_lock x) (freelist x) (kpgdir x) (ptable x) (nextpid x) (initproc x) (ftable x) (pipes x) (bufs x) (idequeue x) (havedisk1 x) (ide_lba x) (ide_status x) (disk x) (dwrites x) (lg x) (icache x) (sb x) (ticks x) v (conout x) (devsw x) (cons_locking x) (crt_pos x) (uart x) (kbd_shift x) (first x).
Definition set_conout (v : list Z) (x : kst) : kst :=
  MkKst (cpu x) (locks x) (mem x) (use_lock x) (freelist x) (kpgdir x) (ptable x) (nextpid x) (initproc x) (ftable x) (pipes x) (bufs x) (idequeue x) (havedisk1 x) (ide_lba x) (ide_status x) (disk x) (dwrites x) (lg x) (icache x) (sb x) (ticks x) (input x) v (devsw x) (cons_locking x) (crt_pos x) (uart x) (kbd_shift x) (first x).
Definition set_devsw (v : list (option devfns)) (x : kst) : kst :=
  MkKst (cpu x) (locks x) (mem x) (use_lock x) (freelist x) (kpgdir x) (ptable x) (nextpid x) (initproc x) (ftable x) (pipes x) (bufs x) (idequeue x) (havedisk1 x) (ide_lba x) (ide_status x) (disk x) (dwrites x) (lg x) (icache x) (sb x) (ticks x) (input x) (conout x) v (cons_locking x) (crt_pos x) (uart x) (kbd_shift x) (first x).
Definition set_cons_locking (v : bool) (x : kst) : kst :=
  MkKst (cpu x) (locks x) (mem x) (use_lock x) (freelist x) (kpgdir x) (ptable x) (nextpid x) (initproc x) (ftable x) (pipes x) (bufs x) (idequeue x) (havedisk1 x) (ide_lba x) (ide_status x) (disk x) (dwrites x) (lg x) (icache x) (sb x) (ticks x) (input x) (conout x) (devsw x) v (crt_pos x) (uart x) (kbd_shift x) (first x).
Definition set_crt_pos (v : Z) (x : kst) : kst :=
  MkKst (cpu x) (locks x) (mem x) (use_lock x) (freelist x) (kpgdir x) (ptable x) (nextpid x) (initproc x) (ftable x) (pipes x) (bufs x) (idequeue x) (havedisk1 x) (ide_lba x) (ide_status x) (disk x) (dwrites x) (lg x) (icache x) (sb x) (ticks x) (input x) (conout x) (devsw x) (cons_locking x) v (uart x) (kbd_shift x) (first x).
Definition set_uart (v : bool) (x : kst) : kst :=
  MkKst (cpu x) (locks x) (mem x) (use_lock x) (freelist x) (kpgdir x) (ptable x) (nextpid x) (initproc x) (ftable x) (pipes x) (bufs x) (idequeue x) (havedisk1 x) (ide_lba x) (ide_status x) (disk x) (dwrites x) (lg x) (icache x) (sb x) (ticks x) (input x) (conout x) (devsw x) (cons_locking x) (crt_pos x) v (kbd_shift x) (first x).
Definition set_kbd_shift (v : Z) (x : kst) : kst :=
  MkKst (cpu x) (locks x) (mem x) (use_lock x) (freelist x) (kpgdir x) (ptable x) (nextpid x) (initproc x) (ftable x) (pipes x) (bufs x) (idequeue x) (havedisk1 x) (ide_lba x) (ide_status x) (disk x) (dwrites x) (lg x) (icache x) (sb x) (ticks x) (input x) (conout x) (devsw x) (cons_locking x) (crt_pos x) (uart x) v (first x).
Definition set_first (v : bool) (x : kst) : kst :=
  MkKst (cpu x) (locks x) (mem x) (use_lock x) (freelist x) (kpgdir x) (ptable x) (nextpid x) (initproc x) (ftable x) (pipes x) (bufs x) (idequeue x) (havedisk1 x) (ide_lba x) (ide_status x) (disk x) (dwrites x) (lg x) (icache x) (sb x) (ticks x) (input x) (conout x) (devsw x) (cons_locking x) (crt_pos x) (uart x) (kbd_shift x) v.

#[export] Instance trapframe_inhabited : Inhabited trapframe :=
  populate (MkTf 0 0 0 0 0 0 0 0 0 0 0 0 0 0 0 0 0 0 0).
#[export] Instance context_inhabited : Inhabited context := populate (MkCtx 0 0 0 0 0).
#[export] Instance proc_inhabited : Inhabited proc :=
  populate (MkProc 0 0 0 UNUSED 0 None inhabitant inhabitant None false
              (replicate NOFILE None) None (replicate 16 0)).
#[export] Instance file_inhabited : Inhabited file :=
  populate (MkFile FD_NONE 0 false false 0 None 0).
#[export] Instance inode_inhabited : Inhabited inode :=
  populate (MkInode 0 0 0 false false 0 0 0 0 0 (replicate 13 0)).
#[export] Instance buf_inhabited : Inhabited buf :=
  populate (MkBuf false false false 0 0 0 0 (replicate BSIZE 0)).
#[export] Instance pipe_inhabited : Inhabited pipe :=
  populate (MkPipe (replicate (Z.to_nat PIPESIZE) 0) 0 0 false false).

(** ** The kernel as it is loaded *)

(** The symbols of the kernel image in the repository (kernel.sym). *)
Definition xv6_image : KernelImage.
Proof.
  refine (Build_KernelImage 0x80109000 0x8011513c eq_refl _ _ _); reflexivity || discriminate.
Defined.

(** All variables zero, no disk contents, interrupts off. *)
Definition boot_state : kst :=
  MkKst (MkCpu 0 0 false false None 0 0) ∅ (fun _ => 0) false 0 0
    (replicate NPROC inhabitant) 1 None
    (replicate NFILE inhabitant) ∅
    (replicate (S NBUF) inhabitant) [] false (0, 0) 0x40 ∅ []
    (MkLog 0 0 0 false 0 0 (replicate (Z.to_nat LOGSIZE) 0))
    (replicate NINODE inhabitant) (MkSb 0 0 0 0 0 0 0) 0
    (MkInput (replicate 128 0) 0 0 0) [] (replicate 10 None) false 0 false 0 true.

(** ** The monad *)

(** Why a process stops running in the kernel: asleep on a channel, after
    [yield], after [exit], or spinning on a lock another processor holds. *)
Inductive wait :=
  | WSleep (c : chan)
  | WYield
  | WExit
  | WSpin (l : lockid).

Inductive halt :=
  | Panicked (msg : string)
  | Undefined (what : string)
  | Waiting (w : wait).

Inductive res (A : Type) :=
  | Ok (a : A) (s : kst)
  | Halt (h : halt) (s : kst).
Arguments Ok {A} a s.
Arguments Halt {A} h s.

Definition M (A : Type) : Type := kst -> res A.

Definition ret {A} (a : A) : M A := fun s => Ok a s.

Definition bind {A B} (m : M A) (k : A -> M B) : M B :=
  fun s => match m s with
           | Ok a s' => k a s'
           | Halt h s' => Halt h s'
           end.

Definition gets {A} (f : kst -> A) : M A := fun s => Ok (f s) s.
Definition modify (f : kst -> kst) : M unit := fun s => Ok tt (f s).
Definition panic {A} (msg : string) : M A := fun s => Halt (Panicked msg) s.
(** An access outside the object it is made in, for which C gives no meaning. *)
Definition undefined {A} (what : string) : M A := fun s => Halt (Undefined what) s.
Definition stop {A} (w : wait) : M A := fun s => Halt (Waiting w) s.

Notation "'let*' x := m 'in' k" := (bind m (fun x => k))
  (at level 10, x name, m at level 100, k at level 200,
   format "'[v' 'let*'  x  :=  m  'in' '/' k ']'") : kern_scope.
Notation "'let*' ' p := m 'in' k" := (bind m (fun p => k))
  (at level 10, p strict pattern, m at level 100, k at level 200) : kern_scope.
Notation "m ;; k" := (bind m (fun _ => k))
  (at level 100, k at level 200, right associativity) : kern_scope.

Bind Scope kern_scope with M.
Open Scope kern_scope.

(** [if(b) m] *)
Definition when (b : bool) (m : M unit) : M unit := if b then m else ret tt.

(** [for] over the entries of a table, and the same with an early exit. *)
Fixpoint forM {A} (l : list A) (body : A -> M unit) : M unit :=
  match l with
  | [] => ret tt
  | x :: l => body x ;; forM l body
  end.

Fixpoint searchM {A B} (l : list A) (body : A -> M (option B)) : M (option B) :=
  match l with
  | [] => ret None
  | x :: l =>
    let* r := body x in
    match r with
    | Some b => ret (Some b)
    | None => searchM l body
    end
  end.

(** Updating one entry of a table. *)
Definition upd_proc (i : nat) (f : proc -> proc) (s : kst) : kst :=
  set_ptable (alter f i (ptable s)) s.
Definition upd_file (i : nat) (f : file -> file) (s : kst) : kst :=
  set_ftable (alter f i (ftable s)) s.
Definition upd_inode (i : nat) (f : inode -> inode) (s : kst) : kst :=
  set_icache (alter f i (icache s)) s.
Definition upd_buf (i : nat) (f : buf -> buf) (s : kst) : kst :=
  set_bufs (alter f i (bufs s)) s.
Definition upd_pipe (a : Z) (f : pipe -> pipe) (s : kst) : kst :=
  set_pipes (alter f a (pipes s)) s.
Definition upd_log (f : log_t -> log_t) (s : kst) : kst := set_lg (f (lg s)) s.
Definition upd_cpu (f : cpu_t -> cpu_t) (s : kst) : kst := set_cpu (f (cpu s)) s.

(** ** Reasoning about the monad *)

(** [wp m Q H s]: run from [s], [m] returns a value and state in [Q] or halts
    with a reason and state in [H]. *)
Definition wp {A} (m : M A) (Q : A -> kst -> Prop) (H : halt -> kst -> Prop) (s : kst) : Prop :=
  match m s with
  | Ok a s' => Q a s'
  | Halt h s' => H h s'
  end.

(** [runs m Q s]: [m] returns, without a panic and without giving up the
    processor. *)
Definition runs {A} (m : M A) (Q : A -> kst -> Prop) (s : kst) : Prop :=
  wp m Q (fun _ _ => False) s.

Lemma wp_bind {A B} (m : M A) (k : A -> M B) Q H s :
  wp m (fun a s' => wp (k a) Q H s') H s -> wp (bind m k) Q H s.
Proof. unfold wp, bind. by destruct (m s). Qed.

Lemma wp_mono {A} (m : M A) (Q Q' : A -> kst -> Prop) (H H' : halt -> kst -> Prop) s :
  wp m Q H s -> (forall a s', Q a s' -> Q' a s') ->
  (forall h s', H h s' -> H' h s') -> wp m Q' H' s.
Proof. unfold wp. destruct (m s); auto. Qed.

Lemma runs_bind {A B} (m : M A) (k : A -> M B) Q s :
  runs m (fun a s' => runs (k a) Q s') s -> runs (bind m k) Q s.
Proof. apply wp_bind. Qed.

Lemma runs_mono {A} (m : M A) (Q Q' : A -> kst -> Prop) s :
  runs m Q s -> (forall a s', Q a s' -> Q' a s') -> runs m Q' s.
Proof. unfold runs, wp. destruct (m s); auto. Qed.

Lemma runs_Ok {A} (m : M A) (Q : A -> kst -> Prop) s :
  runs m Q s <-> exists a s', m s = Ok a s' /\ Q a s'.
Proof.
  unfold runs, wp. destruct (m s) as [a s'|h s']; split.
  - eauto.
  - intros (b & t & E & HQ). by simplify_eq.
  - done.
  - intros (b & t & E & HQ). by simplify_eq.
Qed.

Lemma bind_Ok {A B} (m : M A) (k : A -> M B) s a s' :
  m s = Ok a s' -> bind m k s = k a s'.
Proof. unfold bind. by intros ->. Qed.

Lemma bind_gets {A B} (f : kst -> A) (k : A -> M B) s : bind (gets f) k s = k (f s) s.
Proof. done. Qed.

Lemma bind_modify {B} f (k : unit -> M B) s : bind (modify f) k s = k tt (f s).
Proof. done. Qed.

Lemma bind_ret {A B} (a : A) (k : A -> M B) s : bind (ret a) k s = k a s.
Proof. done. Qed.

Lemma bind_Halt {A B} (m : M A) (k : A -> M B) s h s' :
  m s = Halt h s' -> bind m k s = Halt h s'.
Proof. unfold bind. by intros ->. Qed.

Lemma bind_bind {A B C} (m : M A) (k : A -> M B) (h : B -> M C) s :
  bind (bind m k) h s = bind m (fun a => bind (k a) h) s.
Proof. unfold bind. by destruct (m s). Qed.
