(* ===== verification/Mem.v ===== *)
(** * Kernel memory and the C string routines

    Physical memory is a function from addresses to bytes.  The first part
    gives the reads and writes the kernel makes of it, the second models
    string.c: its loops, as they are written, and what they compute.  The
    other components move memory with [mwrite] and [mfill]; the theorems of
    the second part show that the loops of string.c do the same. *)

From S2P Require Import Prelude State.

(** ** Reading and writing memory *)

Definition mread (m : Z -> Z) (a : Z) (n : nat) : list Z :=
  (fun i => m (a + Z.of_nat i)) <$> seq 0 n.

Definition mwrite (m : Z -> Z) (a : Z) (l : list Z) : Z -> Z :=
  fun x => if (a <=? x) && (x <? a + Z.of_nat (length l))
           then l !!! Z.to_nat (x - a) else m x.

(** [memset(a, c, n)] *)
Definition mfill (m : Z -> Z) (a c n : Z) : Z -> Z :=
  fun x => if (a <=? x) && (x <? a + n) then c else m x.

(** [*(uint* )a] and [*(uint* )a = v] *)
Definition ld32 (m : Z -> Z) (a : Z) : Z := le (mread m a 4).
Definition st32 (m : Z -> Z) (a v : Z) : Z -> Z := mwrite m a (bytes32 v).

#[global] Arguments mread : simpl never.
#[global] Arguments mwrite : simpl never.
#[global] Arguments mfill : simpl never.
#[global] Arguments ld32 : simpl never.
#[global] Arguments st32 : simpl never.

(** ** string.c *)

Module Cstring.

(** The loops work byte by byte; a [char*] that is only read is given as the
    function from an offset to the byte there. *)

(** [stosb]: store [c] in [n] consecutive bytes. *)
Fixpoint stosb (m : Z -> Z) (d c : Z) (n : nat) : Z -> Z :=
  match n with
  | O => m
  | S n => stosb (mwrite m d [c]) (d + 1) c n
  end.

(** [stosl]: store the word [w] in [n] consecutive words. *)
Fixpoint stosl (m : Z -> Z) (d w : Z) (n : nat) : Z -> Z :=
  match n with
  | O => m
  | S n => stosl (st32 m d w) (d + 4) w n
  end.

Definition memset (m : Z -> Z) (dst c n : Z) : Z -> Z :=
  if (Z.rem (i32 dst) 4 =? 0) && (n mod 4 =? 0) then
    let c := Z.land c 0xFF in
    stosl m dst (u32 (Z.lor (Z.lor (Z.lor (Z.shiftl c 24) (Z.shiftl c 16)) (Z.shiftl c 8)) c))
      (Z.to_nat (n / 4))
  else stosb m dst (c mod 256) (Z.to_nat n).

Fixpoint memcmp (s1 s2 : nat -> Z) (i n : nat) : Z :=
  match n with
  | O => 0
  | S n => if s1 i =? s2 i then memcmp s1 s2 (S i) n else s1 i - s2 i
  end.

(** [while(n-- > 0) *--d = *--s;] *)
Fixpoint copy_down (m : Z -> Z) (d s : Z) (n : nat) : Z -> Z :=
  match n with
  | O => m
  | S n => copy_down (mwrite m (d - 1) [m (s - 1)]) (d - 1) (s - 1) n
  end.

(** [while(n-- > 0) *d++ = *s++;] *)
Fixpoint copy_up (m : Z -> Z) (d s : Z) (n : nat) : Z -> Z :=
  match n with
  | O => m
  | S n => copy_up (mwrite m d [m s]) (d + 1) (s + 1) n
  end.

Definition memmove (m : Z -> Z) (dst src : Z) (n : nat) : Z -> Z :=
  if (src <? dst) && (dst <? src + Z.of_nat n)
  then copy_down m (dst + Z.of_nat n) (src + Z.of_nat n) n
  else copy_up m dst src n.

Fixpoint strncmp_loop (p q : nat -> Z) (i n : nat) : Z :=
  match n with
  | O => 0
  | S n' =>
    if negb (p i =? 0) && (p i =? q i) then strncmp_loop p q (S i) n'
    else p i - q i
  end.

Definition strncmp (p q : nat -> Z) (n : nat) : Z := strncmp_loop p q 0 n.

(** The [n] bytes [strncpy(s, t, n)] leaves at [s], reading [t] from offset
    [i]. *)
Fixpoint strncpy_loop (t : nat -> Z) (i n : nat) : list Z :=
  match n with
  | O => []
  | S n => t i :: (if t i =? 0 then replicate n 0 else strncpy_loop t (S i) n)
  end.

Definition strncpy (t : nat -> Z) (n : Z) : list Z := strncpy_loop t 0 (Z.to_nat n).

(** The bytes [safestrcpy(s, t, n)] writes for [n > 0]; [k] is the value of
    [n] before [--n]. *)
Fixpoint safestrcpy_loop (t : nat -> Z) (i k : nat) : list Z :=
  match k with
  | O | S O => [0]
  | S k' => if t i =? 0 then [0; 0] else t i :: safestrcpy_loop t (S i) k'
  end.

Definition safestrcpy (s : list Z) (t : nat -> Z) (n : Z) : list Z :=
  if n <=? 0 then s else splice s 0 (safestrcpy_loop t 0 (Z.to_nat n)).

Fixpoint strlen_loop (s : nat -> Z) (i fuel : nat) : nat :=
  match fuel with
  | O => i
  | S f => if s i =? 0 then i else strlen_loop s (S i) f
  end.

End Cstring.

(** ** Facts about memory *)

Lemma length_mread m a n : length (mread m a n) = n.
Proof. unfold mread. by rewrite length_fmap, length_seq. Qed.

Lemma mread_lookup m a n i :
  (i < n)%nat -> mread m a n !! i = Some (m (a + Z.of_nat i)).
Proof.
  intros Hi. unfold mread. rewrite list_lookup_fmap, lookup_seq_lt by done.
  cbn. done.
Qed.

Lemma mread_ext m m' a n :
  (forall x, a <= x < a + Z.of_nat n -> m x = m' x) -> mread m a n = mread m' a n.
Proof.
  intros E. unfold mread. apply list_fmap_ext. intros i x Hx.
  apply lookup_seq in Hx. apply E. lia.
Qed.

Lemma mread_bytes m a n : (forall x, is_byte (m x)) -> Forall is_byte (mread m a n).
Proof. intros Hb. unfold mread. apply Forall_fmap, Forall_true. intros i. apply Hb. Qed.

Lemma mwrite_in m a l x :
  a <= x < a + Z.of_nat (length l) -> mwrite m a l x = l !!! Z.to_nat (x - a).
Proof. intros. unfold mwrite. bool_cases; try lia; done. Qed.

Lemma mwrite_out m a l x :
  x < a \/ a + Z.of_nat (length l) <= x -> mwrite m a l x = m x.
Proof. intros. unfold mwrite. bool_cases; try lia; done. Qed.

Lemma mread_mwrite_same m a l : mread (mwrite m a l) a (length l) = l.
Proof.
  apply list_eq. intros i. destruct (decide (i < length l)%nat).
  - rewrite mread_lookup, mwrite_in by lia.
    rewrite list_lookup_lookup_total_lt by lia. do 2 f_equal. lia.
  - rewrite !lookup_ge_None_2; rewrite ?length_mread; lia || done.
Qed.

Lemma mread_mwrite_other m a l b n :
  b + Z.of_nat n <= a \/ a + Z.of_nat (length l) <= b ->
  mread (mwrite m a l) b n = mread m b n.
Proof. intros. apply mread_ext. intros x Hx. apply mwrite_out. lia. Qed.

Lemma mfill_in m a c n x : a <= x < a + n -> mfill m a c n x = c.
Proof. intros. unfold mfill. bool_cases; lia || done. Qed.

Lemma mfill_out m a c n x : x < a \/ a + n <= x -> mfill m a c n x = m x.
Proof. intros. unfold mfill. bool_cases; lia || done. Qed.

Lemma mread_mfill_other m a c k b n :
  b + Z.of_nat n <= a \/ a + k <= b -> mread (mfill m a c k) b n = mread m b n.
Proof. intros. apply mread_ext. intros x Hx. apply mfill_out. lia. Qed.

Lemma mread_mfill_in m a c k b n :
  a <= b -> b + Z.of_nat n <= a + k -> mread (mfill m a c k) b n = replicate n c.
Proof.
  intros H1 H2. apply list_eq. intros i. destruct (decide (i < n)%nat).
  - rewrite mread_lookup, lookup_replicate_2 by lia. f_equal. apply mfill_in. lia.
  - rewrite !lookup_ge_None_2; rewrite ?length_mread, ?length_replicate; lia || done.
Qed.

Lemma ld32_st32_same m a v : is_u32 v -> ld32 (st32 m a v) a = v.
Proof.
  intros Hv. unfold ld32, st32. change 4%nat with (length (bytes32 v)).
  rewrite mread_mwrite_same. by apply le_bytes32.
Qed.

Lemma ld32_st32_other m a b v :
  b + 4 <= a \/ a + 4 <= b -> ld32 (st32 m a v) b = ld32 m b.
Proof.
  intros H. unfold ld32, st32. f_equal. apply mread_mwrite_other. cbn. lia.
Qed.

Lemma ld32_mwrite_other m a l b :
  b + 4 <= a \/ a + Z.of_nat (length l) <= b -> ld32 (mwrite m a l) b = ld32 m b.
Proof. intros H. unfold ld32. f_equal. apply mread_mwrite_other. cbn. lia. Qed.

Lemma ld32_mfill_other m a c n b :
  b + 4 <= a \/ a + n <= b -> ld32 (mfill m a c n) b = ld32 m b.
Proof. intros H. unfold ld32. f_equal. apply mread_mfill_other. cbn. lia. Qed.

Lemma ld32_mfill_0 m a n b : a <= b -> b + 4 <= a + n -> ld32 (mfill m a 0 n) b = 0.
Proof. intros. unfold ld32. rewrite mread_mfill_in by (cbn; lia). done. Qed.

Lemma ld32_range m a : (forall x, is_byte (m x)) -> is_u32 (ld32 m a).
Proof.
  intros Hm. unfold is_u32, ld32.
  assert (Forall is_byte (mread m a 4)) as Hb.
  { unfold mread. apply Forall_fmap, Forall_true. intros; apply Hm. }
  apply le_range in Hb. rewrite length_mread in Hb. exact Hb.
Qed.

Lemma mwrite_bytes m a l :
  (forall x, is_byte (m x)) -> Forall is_byte l -> forall x, is_byte (mwrite m a l x).
Proof.
  intros Hm Hl x. unfold mwrite. bool_cases; auto.
  apply Forall_lookup_total_1; [done|lia].
Qed.

Lemma mfill_bytes m a c n :
  (forall x, is_byte (m x)) -> is_byte c -> forall x, is_byte (mfill m a c n x).
Proof. intros Hm Hc x. unfold mfill. bool_cases; auto. Qed.

(** ** The loops of string.c *)

Module CstringFacts.
Import Cstring.

Lemma mread_S m a n : mread m a (S n) = m a :: mread m (a + 1) n.
Proof.
  unfold mread. cbn [seq]. rewrite fmap_cons, Z.add_0_r. f_equal.
  rewrite <- fmap_S_seq, <- list_fmap_compose.
  apply list_fmap_ext. intros i x _. cbn. f_equal. lia.
Qed.

Lemma mread_snoc m a n : mread m a (S n) = mread m a n ++ [m (a + Z.of_nat n)].
Proof. unfold mread. by rewrite seq_S, fmap_app. Qed.

Lemma mwrite_cons m a b l x : mwrite m a (b :: l) x = mwrite (mwrite m a [b]) (a + 1) l x.
Proof.
  destruct (decide (a <= x < a + Z.of_nat (length (b :: l)))) as [Hin|Hout]; cbn [length] in *.
  - rewrite mwrite_in by (cbn; lia). destruct (decide (x = a)) as [->|].
    + rewrite mwrite_out, mwrite_in by (cbn; lia). by rewrite Z.sub_diag.
    + rewrite mwrite_in by lia.
      by replace (Z.to_nat (x - a)) with (S (Z.to_nat (x - (a + 1)))) by lia.
  - rewrite !mwrite_out by (cbn; lia). done.
Qed.

Lemma mwrite_ext m m' a l x :
  (forall y, m y = m' y) -> mwrite m a l x = mwrite m' a l x.
Proof. intros E. unfold mwrite. by rewrite E. Qed.

Lemma mwrite_snoc m a b l x :
  mwrite m a (l ++ [b]) x = mwrite (mwrite m (a + Z.of_nat (length l)) [b]) a l x.
Proof.
  destruct (decide (a <= x < a + Z.of_nat (length l))) as [Hin|Hout].
  - rewrite !mwrite_in by (rewrite ?length_app; cbn; lia).
    apply lookup_total_app_l. lia.
  - rewrite (mwrite_out _ a l) by lia.
    destruct (decide (x = a + Z.of_nat (length l))) as [->|].
    + rewrite !mwrite_in by (rewrite ?length_app; cbn; lia).
      rewrite Z.sub_diag, lookup_total_app_r by lia.
      by replace (Z.to_nat _ - length l)%nat with 0%nat by lia.
    + rewrite !mwrite_out by (rewrite ?length_app; cbn; lia). done.
Qed.

(** Copying upwards is right when the source starts at or above the target,
    or the two do not overlap; copying downwards when it starts below. *)
Lemma copy_up_spec n : forall m d s x,
  d <= s \/ s + Z.of_nat n <= d -> copy_up m d s n x = mwrite m d (mread m s n) x.
Proof.
  induction n as [|n IH]; intros m d s x Hds; cbn [copy_up].
  { by rewrite mwrite_out by (rewrite length_mread; lia). }
  rewrite IH by lia. rewrite mread_S, mwrite_cons. f_equal.
  destruct (decide (s = d)) as [->|].
  - apply mread_ext. intros y Hy. apply mwrite_out. cbn. lia.
  - apply mread_mwrite_other. cbn. lia.
Qed.

Lemma copy_down_spec n : forall m d s x,
  s <= d -> copy_down m (d + Z.of_nat n) (s + Z.of_nat n) n x = mwrite m d (mread m s n) x.
Proof.
  induction n as [|n IH]; intros m d s x Hds; cbn [copy_down].
  { by rewrite mwrite_out by (rewrite length_mread; lia). }
  replace (d + Z.of_nat (S n) - 1) with (d + Z.of_nat n) by lia.
  replace (s + Z.of_nat (S n) - 1) with (s + Z.of_nat n) by lia.
  rewrite IH by done. rewrite mread_snoc, mwrite_snoc, length_mread. f_equal.
  apply mread_mwrite_other. cbn. lia.
Qed.

Lemma mfill_split m a c k n x :
  0 <= k <= n -> mfill m a c n x = mfill (mfill m a c k) (a + k) c (n - k) x.
Proof. intros. unfold mfill. bool_cases; lia || done. Qed.

Lemma mfill_ext m m' a c n x :
  (forall y, m y = m' y) -> mfill m a c n x = mfill m' a c n x.
Proof. intros E. unfold mfill. by rewrite E. Qed.

Lemma stosb_spec n : forall m d c x, stosb m d c n x = mfill m d c (Z.of_nat n) x.
Proof.
  induction n as [|n IH]; intros m d c x; cbn [stosb].
  { by rewrite mfill_out by lia. }
  rewrite IH, (mfill_split m d c 1) by lia.
  replace (Z.of_nat (S n) - 1) with (Z.of_nat n) by lia.
  apply mfill_ext. intros y. unfold mwrite, mfill. cbn [length]. bool_cases; try lia; try done.
  by replace (Z.to_nat (y - d)) with 0%nat by lia.
Qed.

(** The word [memset] repeats has four equal bytes. *)
Lemma memset_word c :
  is_byte c ->
  bytes32 (u32 (Z.lor (Z.lor (Z.lor (Z.shiftl c 24) (Z.shiftl c 16)) (Z.shiftl c 8)) c))
  = replicate 4 c.
Proof.
  intros Hc. unfold is_byte in Hc. rewrite !Z.shiftl_mul_pow2 by lia.
  rewrite (lor_disjoint_add 24 (c * 2^24) (c * 2^16)) by (rewrite ?Z_mod_mult; lia).
  rewrite (lor_disjoint_add 16 _ (c * 2^8)); [|lia| |lia].
  2:{ replace (c * 2^24 + c * 2^16) with ((c * 2^8 + c) * 2^16) by lia. apply Z_mod_mult. }
  rewrite (lor_disjoint_add 8 _ c); [|lia| |lia].
  2:{ replace (c * 2^24 + c * 2^16 + c * 2^8) with ((c * 2^16 + c * 2^8 + c) * 2^8) by lia.
      apply Z_mod_mult. }
  rewrite u32_small by lia. unfold bytes32. cbn [replicate].
  change (2^24) with 16777216. change (2^16) with 65536. change (2^8) with 256.
  repeat f_equal; zdm.
Qed.

Lemma st32_fill m d c x :
  bytes32 c = replicate 4 (c mod 256) -> st32 m d c x = mfill m d (c mod 256) 4 x.
Proof.
  intros E. unfold st32. rewrite E. unfold mwrite, mfill. rewrite length_replicate.
  bool_cases; try (lia || done).
  rewrite lookup_total_replicate_2 by lia. done.
Qed.

Lemma stosl_spec n : forall m d w x,
  bytes32 w = replicate 4 (w mod 256) ->
  stosl m d w n x = mfill m d (w mod 256) (4 * Z.of_nat n) x.
Proof.
  induction n as [|n IH]; intros m d w x Hw; cbn [stosl].
  { by rewrite mfill_out by lia. }
  rewrite IH, (mfill_split m d _ 4) by (lia || done).
  replace (4 * Z.of_nat (S n) - 4) with (4 * Z.of_nat n) by lia.
  apply mfill_ext. intros y. by apply st32_fill.
Qed.

(** Two strings compare equal under [strncmp] exactly when they agree up to
    the first NUL among the first [n] bytes. *)
Lemma strncmp_loop_zero p q n : forall i,
  strncmp_loop p q i n = 0 <->
  (forall k, (k < n)%nat -> (forall j, (j < k)%nat -> p (i + j)%nat <> 0) ->
             p (i + k)%nat = q (i + k)%nat).
Proof.
  induction n as [|n IH]; intros i; cbn [strncmp_loop].
  { split; [intros; lia|done]. }
  destruct (Z.eqb_spec (p i) 0) as [E0|E0]; cbn [negb andb].
  - split.
    + intros E k Hk Hpre. destruct k as [|k].
      * rewrite Nat.add_0_r. lia.
      * exfalso. apply (Hpre 0%nat); [lia|]. by rewrite Nat.add_0_r.
    + intros H. specialize (H 0%nat). rewrite Nat.add_0_r in H. rewrite H; lia.
  - destruct (Z.eqb_spec (p i) (q i)) as [E1|E1].
    + rewrite IH. split; intros H k Hk Hpre.
      * destruct k as [|k]; [by rewrite Nat.add_0_r|].
        rewrite <- Nat.add_succ_comm. apply H; [lia|]. intros j Hj.
        rewrite Nat.add_succ_comm. apply Hpre. lia.
      * rewrite Nat.add_succ_comm. apply H; [lia|]. intros j Hj.
        destruct j as [|j]; [by rewrite Nat.add_0_r|].
        rewrite <- Nat.add_succ_comm. apply Hpre. lia.
    + split; [lia|]. intros H. specialize (H 0%nat). rewrite Nat.add_0_r in H.
      exfalso. apply E1, H; lia.
Qed.

Lemma length_strncpy_loop t n : forall i, length (strncpy_loop t i n) = n.
Proof.
  induction n as [|n IH]; intros i; cbn [strncpy_loop length]; [done|].
  case_match; by rewrite ?IH, ?length_replicate.
Qed.

Lemma length_safestrcpy_loop t k : forall i,
  (1 <= k)%nat -> (1 <= length (safestrcpy_loop t i k) <= k)%nat.
Proof.
  induction k as [|k IH]; intros i Hk; [lia|]. cbn [safestrcpy_loop].
  destruct k as [|k]; [cbn; lia|]. case_match; [cbn; lia|].
  cbn [length]. specialize (IH (S i)). lia.
Qed.

Lemma safestrcpy_loop_snoc t k : forall i,
  (1 <= k)%nat -> exists l, safestrcpy_loop t i k = l ++ [0].
Proof.
  induction k as [|k IH]; intros i Hk; [lia|]. cbn [safestrcpy_loop].
  destruct k as [|k]; [by exists []|]. case_match; [by exists [0]|].
  destruct (IH (S i)) as [l ->]; [lia|]. by exists (t i :: l).
Qed.

(** [memmove] copies the [n] bytes that were at [src], also when the two
    ranges overlap, and changes nothing else. *)
Theorem memmove_correct m dst src n x :
  memmove m dst src n x = mwrite m dst (mread m src n) x.
Proof.
  unfold memmove. destruct (Z.ltb_spec src dst); cbn [andb].
  - destruct (Z.ltb_spec dst (src + Z.of_nat n)).
    + apply copy_down_spec. lia.
    + apply copy_up_spec. lia.
  - apply copy_up_spec. lia.
Qed.

(** [memset] stores the low byte of [c] in the [n] bytes at [dst], whichever
    of its two store instructions it uses. *)
Theorem memset_correct m dst c n x :
  0 <= n -> memset m dst c n x = mfill m dst (c mod 256) n x.
Proof.
  intros Hn. unfold memset. change 255 with (2^8 - 1). rewrite land_ones_mod by lia.
  change (2^8) with 256.
  destruct (_ && _) eqn:E.
  - assert (is_byte (c mod 256)) as Hb by (apply Z.mod_pos_bound; lia).
    pose proof (memset_word _ Hb) as Hw.
    assert (u32 (Z.lor (Z.lor (Z.lor (Z.shiftl (c mod 256) 24) (Z.shiftl (c mod 256) 16))
      (Z.shiftl (c mod 256) 8)) (c mod 256)) mod 256 = c mod 256) as Hm.
    { unfold bytes32 in Hw at 1. cbn [replicate] in Hw. by injection Hw. }
    rewrite stosl_spec by (by rewrite Hm). rewrite Hm. f_equal.
    apply andb_true_iff in E as [_ E%Z.eqb_eq].
    rewrite Z2Nat.id by (apply Z.div_pos; lia). zdm.
  - rewrite stosb_spec, Z2Nat.id by done. done.
Qed.

Lemma memset_correct_witness :
  0 <= 8 /\ memset (fun _ => 7) 4096 0x1ff 8 4100 = 255.
Proof. split; [lia|]. by rewrite memset_correct. Defined.

End CstringFacts.
