(* ===== verification/Spinlock.v ===== *)
(** * Spin locks (spinlock.c)

    [pushcli]/[popcli], [acquire]/[release] as the kernel code of one
    processor runs them, and, in [Module Smp], the same code taken apart into
    its atomic steps and interleaved over any number of processors. *)

From S2P Require Import Prelude State Mem.

(** ** Interrupt nesting *)

Definition pushcli_cpu (c : cpu_t) : cpu_t :=
  let eflags := c_if c in
  let c := set_c_if false c in
  let c' := set_c_ncli (c_ncli c + 1) c in
  if c_ncli c =? 0 then set_c_intena eflags c' else c'.

Definition popcli_cpu (c : cpu_t) : string + cpu_t :=
  if c_if c then inl "popcli - interruptible"%string
  else
    let c := set_c_ncli (c_ncli c - 1) c in
    if c_ncli c <? 0 then inl "popcli"%string
    else if (c_ncli c =? 0) && c_intena c then inr (set_c_if true c) else inr c.

Definition pushcli : M unit := modify (upd_cpu pushcli_cpu).

Definition popcli : M unit :=
  let* c := gets cpu in
  match popcli_cpu c with
  | inl msg => panic msg
  | inr c' => modify (set_cpu c')
  end.

(** ** Locks *)

Definition initlock (lk : lockid) : M unit :=
  modify (fun s => set_locks (delete lk (locks s)) s).

(** Check whether this cpu is holding the lock. *)
Definition holding (lk : lockid) : M bool :=
  gets (fun s => bool_decide (locks s !! lk = Some (c_id (cpu s)))).

Definition acquire (lk : lockid) : M unit :=
  pushcli ;;
  let* h := holding lk in
  if h then panic "acquire"%string
  else
    let* o := gets (fun s => locks s !! lk) in
    match o with
    | Some _ => stop (WSpin lk)
    | None => modify (fun s => set_locks (<[lk := c_id (cpu s)]> (locks s)) s)
    end.

Definition release (lk : lockid) : M unit :=
  let* h := holding lk in
  if h then modify (fun s => set_locks (delete lk (locks s)) s) ;; popcli
  else panic "release"%string.

(** [getcallerpcs(v, pcs)]: the saved return addresses along the chain of
    frame pointers, ten entries, zero after its end. *)
Fixpoint getcallerpcs_loop (m : Z -> Z) (ebp : Z) (n : nat) : list Z :=
  match n with
  | O => []
  | S n =>
    if (ebp =? 0) || (ebp <? KERNBASE) || (ebp =? 0xffffffff)
    then replicate (S n) 0
    else ld32 m (ebp + 4) :: getcallerpcs_loop m (ld32 m ebp) n
  end.

Definition getcallerpcs (m : Z -> Z) (v : Z) : list Z := getcallerpcs_loop m (u32 (v - 8)) 10.

(** ** The same code on several processors *)

Module Smp.

(** Where a processor is in [acquire] or [release] of one lock. *)
Inductive pc :=
  | Out        (* not using the lock *)
  | AHolding   (* acquire: after pushcli, about to test holding *)
  | AXchg      (* acquire: in while(xchg(&lk->locked, 1) != 0) *)
  | ACpu       (* acquire: xchg returned 0, about to set lk->cpu *)
  | Critical   (* acquire has returned *)
  | RCpu       (* release: holding was true, about to clear lk->cpu *)
  | RXchg      (* release: about to do xchg(&lk->locked, 0) *)
  | RPop       (* release: about to popcli *)
  | Dead (msg : string).  (* panicked *)

#[export] Instance pc_eq_dec : EqDecision pc.
Proof. solve_decision. Defined.

(** The lock word, the recorded owner, and the processors. *)
Record smp := MkSmp { lk_locked : Z; lk_cpu : option nat; pcs : list pc; cpus : list cpu_t }.

#[export] Instance cpu_inhabited : Inhabited cpu_t :=
  populate (MkCpu 0 0 false true None 0 0).

Definition goto (i : nat) (q : pc) (s : smp) : smp :=
  MkSmp (lk_locked s) (lk_cpu s) (<[i := q]> (pcs s)) (cpus s).

Definition holding_now (i : nat) (s : smp) : bool :=
  negb (lk_locked s =? 0) && bool_decide (lk_cpu s = Some i).

(** One atomic step of processor [i]; [None] when it has nothing to do. *)
Definition cpu_step (i : nat) (s : smp) : option smp :=
  match pcs s !! i with
  | Some Out =>
    Some (MkSmp (lk_locked s) (lk_cpu s) (<[i := AHolding]> (pcs s))
            (alter pushcli_cpu i (cpus s)))
  | Some AHolding =>
    Some (goto i (if holding_now i s then Dead "acquire" else AXchg) s)
  | Some AXchg =>
    Some (MkSmp 1 (lk_cpu s)
            (<[i := if lk_locked s =? 0 then ACpu else AXchg]> (pcs s)) (cpus s))
  | Some ACpu => Some (MkSmp (lk_locked s) (Some i) (<[i := Critical]> (pcs s)) (cpus s))
  | Some Critical =>
    Some (goto i (if holding_now i s then RCpu else Dead "release") s)
  | Some RCpu => Some (MkSmp (lk_locked s) None (<[i := RXchg]> (pcs s)) (cpus s))
  | Some RXchg => Some (MkSmp 0 (lk_cpu s) (<[i := RPop]> (pcs s)) (cpus s))
  | Some RPop =>
    match popcli_cpu (cpus s !!! i) with
    | inl msg => Some (goto i (Dead msg) s)
    | inr c => Some (MkSmp (lk_locked s) (lk_cpu s) (<[i := Out]> (pcs s)) (<[i := c]> (cpus s)))
    end
  | Some (Dead _) | None => None
  end.

Inductive step : smp -> smp -> Prop :=
  | step_cpu i s s' : cpu_step i s = Some s' -> step s s'.

(** All processors outside the lock, with interrupts on or nested sanely. *)
Definition cpu_sane (c : cpu_t) : Prop :=
  0 <= c_ncli c /\ (0 < c_ncli c -> c_if c = false).

Definition initial (s : smp) : Prop :=
  lk_locked s = 0 /\ lk_cpu s = None /\ Forall (fun q => q = Out) (pcs s) /\
  length (cpus s) = length (pcs s) /\ Forall cpu_sane (cpus s).

Inductive reachable : smp -> Prop :=
  | reach_init s : initial s -> reachable s
  | reach_step s s' : reachable s -> step s s' -> reachable s'.

(** The interleaving that runs the processors in the order of [l]. *)
Fixpoint run (l : list nat) (s : smp) : option smp :=
  match l with
  | [] => Some s
  | i :: l => match cpu_step i s with Some s' => run l s' | None => None end
  end.

(** A processor that has won the xchg and not yet given the word back. *)
Definition owns (q : pc) : bool :=
  match q with ACpu | Critical | RCpu | RXchg => true | _ => false end.

End Smp.

#[global] Arguments pushcli_cpu : simpl never.
#[global] Arguments popcli_cpu : simpl never.

(** ** Interrupt nesting and single-processor locking *)

(** After a matched [pushcli]/[popcli] the processor is as before, except that
    an outermost pair has recorded the interrupt flag. *)
Definition settle (c : cpu_t) : cpu_t :=
  if c_ncli c =? 0 then set_c_intena (c_if c) c else c.

#[global] Arguments settle : simpl never.

Lemma popcli_pushcli c :
  Smp.cpu_sane c -> popcli_cpu (pushcli_cpu c) = inr (settle c).
Proof.
  unfold Smp.cpu_sane, popcli_cpu, pushcli_cpu, settle.
  destruct c as [id n ie fl pr cr es]; cbn. intros [H1 H2].
  destruct (Z.eqb_spec n 0) as [->|]; cbn.
  - by destruct fl.
  - destruct (Z.ltb_spec (n + 1 - 1) 0); [lia|].
    destruct (Z.eqb_spec (n + 1 - 1) 0); [lia|]. cbn.
    rewrite H2 by lia. by replace (n + 1 - 1) with n by lia.
Qed.

Lemma settle_settle c : settle (settle c) = settle c.
Proof.
  unfold settle. destruct c as [id n ie fl pr cr es]; cbn.
  by destruct (n =? 0) eqn:E; cbn; rewrite E.
Qed.

Lemma settle_sane c : Smp.cpu_sane c -> Smp.cpu_sane (settle c).
Proof.
  unfold Smp.cpu_sane, settle. destruct c as [id n ie fl pr cr es]; cbn. by destruct (n =? 0).
Qed.

Lemma pushcli_sane c : Smp.cpu_sane c -> Smp.cpu_sane (pushcli_cpu c).
Proof.
  unfold Smp.cpu_sane, pushcli_cpu. destruct c as [id n ie fl pr cr es]; cbn. intros.
  destruct (n =? 0); cbn; split; lia || done.
Qed.

Lemma pushcli_id c : c_id (pushcli_cpu c) = c_id c.
Proof. unfold pushcli_cpu. cbn. by destruct (c_ncli c =? 0). Qed.

Lemma pushcli_ncli c : c_ncli (pushcli_cpu c) = c_ncli c + 1.
Proof. unfold pushcli_cpu. cbn. by destruct (c_ncli c =? 0). Qed.

Lemma acquire_free lk s :
  locks s !! lk = None ->
  acquire lk s = Ok tt (set_locks (<[lk := c_id (cpu s)]> (locks s))
                         (set_cpu (pushcli_cpu (cpu s)) s)).
Proof.
  intros H. unfold acquire, pushcli, holding, bind, modify, gets, upd_cpu. cbn.
  rewrite H. rewrite bool_decide_eq_false_2 by done. cbn. rewrite H. cbn. by rewrite pushcli_id.
Qed.

(** [acquire] of a lock this processor holds panics. *)
Lemma acquire_held lk s :
  locks s !! lk = Some (c_id (cpu s)) ->
  acquire lk s = Halt (Panicked "acquire") (set_cpu (pushcli_cpu (cpu s)) s).
Proof.
  intros H. unfold acquire, pushcli, holding, bind, modify, gets, upd_cpu. cbn.
  by rewrite pushcli_id, bool_decide_eq_true_2.
Qed.

(** Releasing a lock just acquired, after code that changed neither the lock
    table nor the processor. *)
Lemma release_acquired lk c s :
  locks s !! lk = Some (c_id (cpu s)) -> cpu s = pushcli_cpu c -> Smp.cpu_sane c ->
  release lk s = Ok tt (set_locks (delete lk (locks s)) (set_cpu (settle c) s)).
Proof.
  intros Hl Hc Hs. unfold release, holding, popcli, bind, modify, gets. cbn.
  rewrite bool_decide_eq_true_2 by done. cbn. rewrite Hc, popcli_pushcli by done. done.
Qed.

(** ** Mutual exclusion on several processors *)

Module SmpFacts.
Import Smp.

(** Moving processor [i] from [q] to [q'] keeps the table well formed. *)
Lemma pcs_insert s i q q' j r :
  pcs s !! i = Some q -> <[i := q']> (pcs s) !! j = Some r ->
  (j = i /\ r = q') \/ (j <> i /\ pcs s !! j = Some r).
Proof.
  intros Hi Hj. destruct (decide (j = i)) as [->|Hne].
  - rewrite list_lookup_insert_eq in Hj by (by eapply lookup_lt_Some). left. by simplify_eq.
  - right. by rewrite list_lookup_insert_ne in Hj.
Qed.

(** The part of the invariant about who owns the lock. *)
Definition lock_inv (o : option nat) (s : smp) : Prop :=
  (forall i q, pcs s !! i = Some q -> owns q = true <-> o = Some i) /\
  (forall i, o = Some i -> exists q, pcs s !! i = Some q) /\
  lk_locked s = match o with Some _ => 1 | None => 0 end /\
  (forall i, lk_cpu s = Some i <-> pcs s !! i = Some Critical \/ pcs s !! i = Some RCpu).

(** A move of processor [i] that keeps its ownership [b] of the lock. *)
Lemma lock_inv_move o s i q q' cp :
  lock_inv o s -> pcs s !! i = Some q -> owns q' = owns q ->
  (q' = Critical \/ q' = RCpu <-> q = Critical \/ q = RCpu) ->
  lock_inv o (MkSmp (lk_locked s) (lk_cpu s) (<[i := q']> (pcs s)) cp).
Proof.
  intros (Ho & Hex & HL & HC) Hq Hown Hcr. pose proof (lookup_lt_Some _ _ _ Hq) as Hlt.
  split_and!; cbn; [| |done|].
  - intros j r Hj. destruct (pcs_insert _ _ _ _ _ _ Hq Hj) as [[-> ->]|[Hne Hj']].
    + rewrite Hown. by apply Ho.
    + by apply Ho.
  - intros j Hj. apply lookup_lt_is_Some_2. rewrite length_insert.
    destruct (Hex _ Hj) as [r Hr]. by eapply lookup_lt_Some.
  - intros j. rewrite HC. destruct (decide (j = i)) as [->|].
    + rewrite list_lookup_insert_eq, Hq by done. split; intros [H|H]; simplify_eq; naive_solver.
    + by rewrite list_lookup_insert_ne.
Qed.

Ltac lock_move := eapply lock_inv_move; [eassumption|eassumption|done|naive_solver].

(** The moves that change the lock word or the recorded owner. *)
Lemma lock_inv_xchg_win s i cp :
  lock_inv None s -> pcs s !! i = Some AXchg ->
  lock_inv (Some i) (MkSmp 1 (lk_cpu s) (<[i := ACpu]> (pcs s)) cp).
Proof.
  intros (Ho & Hex & HL & HC) Hq. pose proof (lookup_lt_Some _ _ _ Hq) as Hlt.
  split_and!; cbn; [| |done|].
  - intros j r Hj. destruct (pcs_insert _ _ _ _ _ _ Hq Hj) as [[-> ->]|[Hne Hj']]; [done|].
    pose proof (Ho _ _ Hj'). naive_solver.
  - intros j [= <-]. exists ACpu. by apply list_lookup_insert_eq.
  - intros j. rewrite HC. destruct (decide (j = i)) as [->|].
    + rewrite list_lookup_insert_eq, Hq by done. naive_solver.
    + by rewrite list_lookup_insert_ne.
Qed.

Lemma lock_inv_set_cpu s i cp :
  lock_inv (Some i) s -> pcs s !! i = Some ACpu ->
  lock_inv (Some i) (MkSmp (lk_locked s) (Some i) (<[i := Critical]> (pcs s)) cp).
Proof.
  intros (Ho & Hex & HL & HC) Hq. pose proof (lookup_lt_Some _ _ _ Hq) as Hlt.
  split_and!; cbn; [| |done|].
  - intros j r Hj. destruct (pcs_insert _ _ _ _ _ _ Hq Hj) as [[-> ->]|[Hne Hj']]; [done|].
    by apply Ho.
  - intros j [= <-]. exists Critical. by apply list_lookup_insert_eq.
  - intros j. destruct (decide (j = i)) as [->|].
    + rewrite list_lookup_insert_eq by done. naive_solver.
    + rewrite list_lookup_insert_ne by done. split; [naive_solver|].
      intros [H|H]; apply Ho in H; naive_solver.
Qed.

Lemma lock_inv_clear_cpu s i cp :
  lock_inv (Some i) s -> pcs s !! i = Some RCpu ->
  lock_inv (Some i) (MkSmp (lk_locked s) None (<[i := RXchg]> (pcs s)) cp).
Proof.
  intros (Ho & Hex & HL & HC) Hq. pose proof (lookup_lt_Some _ _ _ Hq) as Hlt.
  split_and!; cbn; [| |done|].
  - intros j r Hj. destruct (pcs_insert _ _ _ _ _ _ Hq Hj) as [[-> ->]|[Hne Hj']]; [done|].
    by apply Ho.
  - intros j [= <-]. exists RXchg. by apply list_lookup_insert_eq.
  - intros j. destruct (decide (j = i)) as [->|].
    + rewrite list_lookup_insert_eq by done. naive_solver.
    + rewrite list_lookup_insert_ne by done. split; [done|].
      intros [H|H]; apply Ho in H; naive_solver.
Qed.

Lemma lock_inv_xchg_free s i cp :
  lock_inv (Some i) s -> pcs s !! i = Some RXchg ->
  lock_inv None (MkSmp 0 (lk_cpu s) (<[i := RPop]> (pcs s)) cp).
Proof.
  intros (Ho & Hex & HL & HC) Hq. pose proof (lookup_lt_Some _ _ _ Hq) as Hlt.
  split_and!; cbn; [|done|done|].
  - intros j r Hj. destruct (pcs_insert _ _ _ _ _ _ Hq Hj) as [[-> ->]|[Hne Hj']]; [done|].
    pose proof (Ho _ _ Hj'). naive_solver.
  - intros j. rewrite HC. destruct (decide (j = i)) as [->|].
    + rewrite list_lookup_insert_eq, Hq by done. naive_solver.
    + by rewrite list_lookup_insert_ne.
Qed.

(** The part of the invariant about the processors. *)
Definition cpus_inv (ps : list pc) (cp : list cpu_t) : Prop :=
  length cp = length ps /\ Forall cpu_sane cp /\
  (forall i q c, ps !! i = Some q -> cp !! i = Some c ->
     (forall msg, q <> Dead msg) /\ (q <> Out -> 0 < c_ncli c)).

Lemma cpus_inv_move ps cp i q' c c' :
  cpus_inv ps cp -> (i < length ps)%nat -> cp !! i = Some c -> cpu_sane c' ->
  (forall msg, q' <> Dead msg) -> (q' <> Out -> 0 < c_ncli c') ->
  cpus_inv (<[i := q']> ps) (<[i := c']> cp).
Proof.
  intros (Hlen & Hs & Hp) Hlt Hc Hs' Hq Hn. split_and!.
  - by rewrite !length_insert.
  - by apply Forall_insert.
  - intros j r d Hr Hd. destruct (decide (j = i)) as [->|].
    + rewrite list_lookup_insert_eq in Hr by lia.
      rewrite list_lookup_insert_eq in Hd by lia. by simplify_eq.
    + rewrite list_lookup_insert_ne in Hr by done.
      rewrite list_lookup_insert_ne in Hd by done. eauto.
Qed.

Definition inv (s : smp) : Prop :=
  cpus_inv (pcs s) (cpus s) /\ exists o, lock_inv o s.

Lemma initial_inv s : initial s -> inv s.
Proof.
  intros (HL & HC & HP & Hlen & Hs). split.
  - split_and!; [done|done|]. intros i q c Hi _.
    eapply Forall_lookup_1 in HP; [|done]. by subst.
  - exists None. split_and!; [|done|done|].
    + intros i q Hi. eapply Forall_lookup_1 in HP; [|done]. by subst.
    + intros i. rewrite HC. split; [done|].
      intros [Hi|Hi]; by eapply Forall_lookup_1 in HP; [|done].
Qed.

Lemma holding_owner o s i q :
  lock_inv o s -> pcs s !! i = Some q ->
  holding_now i s = bool_decide (q = Critical \/ q = RCpu).
Proof.
  intros (Ho & Hex & HL & HC) Hq. unfold holding_now.
  destruct (bool_decide_reflect (lk_cpu s = Some i)) as [E|E].
  - apply HC in E as E'. rewrite Hq in E'.
    rewrite bool_decide_eq_true_2 by naive_solver. rewrite andb_true_r, HL.
    apply Ho in Hq as Ho'. destruct o; [done|].
    destruct E' as [[= ->]|[= ->]]; by apply proj1 in Ho' as Ho''; specialize (Ho'' eq_refl).
  - rewrite andb_false_r, bool_decide_eq_false_2; [done|].
    intros H. apply E, HC. rewrite Hq. naive_solver.
Qed.

(** Every step keeps the invariant: by cases on where the processor is. *)
Lemma step_inv s s' : inv s -> step s s' -> inv s'.
Proof.
  intros [Hcp [o Hlk]] Hst. destruct Hst as [i s s' Hstep].
  unfold cpu_step in Hstep. destruct (pcs s !! i) as [q|] eqn:Hq; [|done].
  pose proof (lookup_lt_Some _ _ _ Hq) as Hlt. pose proof Hcp as (Hlen & Hs & Hp).
  destruct (lookup_lt_is_Some_2 (cpus s) i) as [c Hc]; [lia|].
  pose proof (Forall_lookup_1 _ _ _ _ Hs Hc) as Hsane.
  destruct (Hp _ _ _ Hq Hc) as [Hdead Hncli].
  pose proof (proj1 Hlk _ _ Hq) as Hown.
  pose proof (fun q' Hd Hn => cpus_inv_move _ _ i q' c c Hcp Hlt Hc Hsane Hd Hn) as Hmv.
  rewrite (list_insert_id (cpus s)) in Hmv by done.
  destruct q; cbn in Hown; try (by simplify_eq).
  - simplify_eq. split; cbn; [|exists o; lock_move].
    rewrite (list_alter_insert _ _ _ c) by done.
    eapply cpus_inv_move; try done; [by apply pushcli_sane|].
    rewrite pushcli_ncli. destruct Hsane. lia.
  - rewrite (holding_owner o s i AHolding) in Hstep by done.
    rewrite bool_decide_eq_false_2 in Hstep by naive_solver. simplify_eq.
    split; cbn; [apply Hmv; naive_solver|].
    exists o. lock_move.
  - pose proof Hlk as (_ & _ & HL & _). rewrite HL in Hstep. destruct o as [j|]; cbn in Hstep; simplify_eq.
    + split; cbn; [apply Hmv; naive_solver|]. exists (Some j).
      replace 1 with (lk_locked s). lock_move.
    + split; cbn; [apply Hmv; naive_solver|]. exists (Some i). by apply lock_inv_xchg_win.
  - destruct Hown as [Hown _]. rewrite Hown in Hlk by done. simplify_eq.
    split; cbn; [apply Hmv; naive_solver|]. exists (Some i). by apply lock_inv_set_cpu.
  - rewrite (holding_owner o s i Critical) in Hstep by done.
    rewrite bool_decide_eq_true_2 in Hstep by naive_solver. simplify_eq.
    split; cbn; [apply Hmv; naive_solver|].
    exists o. lock_move.
  - destruct Hown as [Hown _]. rewrite Hown in Hlk by done. simplify_eq.
    split; cbn; [apply Hmv; naive_solver|]. exists (Some i). by apply lock_inv_clear_cpu.
  - destruct Hown as [Hown _]. rewrite Hown in Hlk by done. simplify_eq.
    split; cbn; [apply Hmv; naive_solver|]. exists None. by eapply lock_inv_xchg_free.
  - rewrite (list_lookup_total_correct _ _ _ Hc) in Hstep.
    unfold popcli_cpu in Hstep. destruct Hsane as [H0 Hif].
    rewrite Hif in Hstep by (apply Hncli; done). cbn in Hstep.
    specialize (Hncli ltac:(done)). destruct (Z.ltb_spec (c_ncli c - 1) 0); [lia|].
    assert (lock_inv o (MkSmp (lk_locked s) (lk_cpu s) (<[i := Out]> (pcs s)) (cpus s))) as Hl'.
    { lock_move. }
    destruct (Z.eqb_spec (c_ncli c - 1) 0), (c_intena c); cbn in Hstep; simplify_eq;
      (split; cbn; [eapply cpus_inv_move; try done; split; cbn; lia || (intros; auto with lia)
                   |exists o; by destruct Hl' as (?&?&?&?)]).
Qed.

Lemma reachable_inv s : reachable s -> inv s.
Proof. induction 1; eauto using initial_inv, step_inv. Qed.

(** C7: at most one processor is in the critical section of a lock, whatever the
    interleaving of the processors' steps. *)
Theorem acquire_mutual_exclusion s i j :
  reachable s -> pcs s !! i = Some Critical -> pcs s !! j = Some Critical -> i = j.
Proof.
  intros [_ [o (Ho & _)]]%reachable_inv Hi Hj.
  pose proof (proj1 (Ho _ _ Hi) eq_refl). pose proof (proj1 (Ho _ _ Hj) eq_refl). congruence.
Qed.

(** C8: no interleaving makes [acquire], [release] or [popcli] panic, and a
    processor between its [pushcli] and [popcli] has interrupts off. *)
Theorem acquire_release_no_panic s i q c :
  reachable s -> pcs s !! i = Some q -> cpus s !! i = Some c ->
  (forall msg, q <> Dead msg) /\ (q <> Out -> c_if c = false).
Proof.
  intros [(_ & Hs & Hp) _]%reachable_inv Hq Hc. destruct (Hp _ _ _ Hq Hc) as [Hd Hn].
  split; [done|]. intros Hout. eapply Forall_lookup_1 in Hs; [|done]. by apply Hs, Hn.
Qed.

(** When the lock word is 0 a spinning processor gets the lock in one step. *)
Lemma acquire_progress s i :
  pcs s !! i = Some AXchg -> lk_locked s = 0 ->
  exists s', step s s' /\ pcs s' !! i = Some ACpu.
Proof.
  intros Hi HL. eexists. split.
  - apply (step_cpu i). unfold cpu_step. rewrite Hi, HL. done.
  - cbn. apply list_lookup_insert_eq. by eapply lookup_lt_Some.
Qed.

Lemma run_reachable l : forall s s', reachable s -> run l s = Some s' -> reachable s'.
Proof.
  induction l as [|i l IH]; intros s s' Hr; cbn; [by intros [= <-]|].
  destruct (cpu_step i s) as [t|] eqn:E; [|done]. apply IH. eapply reach_step; [done|]. by econstructor.
Qed.

(** Two processors contending: the first has the lock, the second spins. *)
Definition contended : smp :=
  MkSmp 1 (Some 0%nat) [Critical; AXchg]
    [MkCpu 0 1 true false None 0 0; MkCpu 1 1 true false None 0 0].

Lemma contended_reachable : reachable contended.
Proof.
  apply (run_reachable [0; 1; 0; 1; 0; 1; 0; 1]%nat
    (MkSmp 0 None [Out; Out] [MkCpu 0 0 false true None 0 0; MkCpu 1 0 false true None 0 0])).
  - apply reach_init. split_and!; try done.
    + by repeat constructor.
    + repeat constructor; done.
  - reflexivity.
Qed.

Lemma acquire_mutual_exclusion_witness :
  pcs contended !! 0%nat = Some Critical /\
  forall j, pcs contended !! j = Some Critical -> 0%nat = j.
Proof.
  split; [done|]. intros j. apply (acquire_mutual_exclusion contended 0 j contended_reachable eq_refl).
Defined.

Lemma acquire_release_no_panic_witness :
  (forall msg, AXchg <> Dead msg) /\ c_if (MkCpu 1 1 true false None 0 0) = false.
Proof.
  destruct (acquire_release_no_panic contended 1 AXchg _ contended_reachable eq_refl eq_refl) as [H1 H2].
  split; [exact H1|]. by apply H2.
Defined.

End SmpFacts.
