(* ===== verification/Sched.v ===== *)
(** * Giving up and getting the processor (proc.c, vm.c)

    [sched], [sleep], [wakeup], [yield] and the scheduler loop.  A process
    that calls [sched] stops; [sleep_return] is the rest of [sleep], run when
    the scheduler switches back to it.  [sleep_io] is a [sleep] that lasts
    until an interrupt handler wakes the process up. *)

From S2P Require Import Prelude State Mem Spinlock.

(** The per-cpu variable [proc]; dereferencing it when it is null faults. *)
Definition curproc : M nat :=
  let* o := gets (fun s => c_proc (cpu s)) in
  match o with
  | Some i => ret i
  | None => panic "trap"
  end.

Definition getproc {A} (i : nat) (f : proc -> A) : M A :=
  gets (fun s => f (ptable s !!! i)).

(** [p->state == SLEEPING && p->chan == chan] *)
Definition asleep_on (ch : chan) (p : proc) : bool :=
  bool_decide (p_state p = SLEEPING) && bool_decide (p_chan p = Some ch).

Definition wakeup1_pt (ch : chan) (pt : list proc) : list proc :=
  (fun p => if asleep_on ch p then set_p_state RUNNABLE p else p) <$> pt.

Definition wakeup1 (ch : chan) : M unit :=
  modify (fun s => set_ptable (wakeup1_pt ch (ptable s)) s).

Definition wakeup (ch : chan) : M unit :=
  acquire LPtable ;; wakeup1 ch ;; release LPtable.

(** [sched] up to its [swtch]. *)
Definition sched_checks : M unit :=
  let* h := holding LPtable in
  if negb h then panic "sched ptable.lock" else
  let* c := gets cpu in
  if negb (c_ncli c =? 1) then panic "sched locks" else
  let* i := curproc in
  let* st := getproc i p_state in
  if bool_decide (st = RUNNING) then panic "sched running" else
  if c_if c then panic "sched interruptible" else ret tt.

Definition sched (w : wait) : M unit := sched_checks ;; stop w.

(** [yield] up to its return from [sched]; the process then runs
    [yield_return]. *)
Definition yield : M unit :=
  acquire LPtable ;;
  let* i := curproc in
  modify (upd_proc i (set_p_state RUNNABLE)) ;;
  sched WYield.

Definition yield_return : M unit := release LPtable.

(** [sleep] up to [sched]. *)
Definition sleep_prepare (ch : chan) (lk : lockid) : M unit :=
  let* o := gets (fun s => c_proc (cpu s)) in
  match o with
  | None => panic "sleep"
  | Some i =>
    (if decide (lk = LPtable) then ret tt else acquire LPtable ;; release lk) ;;
    modify (upd_proc i (fun p => set_p_state SLEEPING (set_p_chan (Some ch) p)))
  end.

Definition sleep {A} (ch : chan) (lk : lockid) : M A :=
  sleep_prepare ch lk ;; sched_checks ;; stop (WSleep ch).

(** What [sleep] does once [sched] has returned. *)
Definition sleep_return (lk : lockid) : M unit :=
  let* i := curproc in
  modify (upd_proc i (set_p_chan None)) ;;
  if decide (lk = LPtable) then ret tt else release LPtable ;; acquire lk.

(** ** Address space switches (vm.c) *)

Definition switchkvm : M unit :=
  modify (fun s => upd_cpu (set_c_cr3 (kpgdir s)) s).

Definition switchuvm (p : nat) : M unit :=
  pushcli ;;
  let* i := curproc in
  let* ks := getproc i p_kstack in
  modify (upd_cpu (set_c_esp0 (u32 (ks + KSTACKSIZE)))) ;;
  let* pg := getproc p p_pgdir in
  if pg =? 0 then panic "switchuvm: no pgdir" else
  modify (upd_cpu (set_c_cr3 pg)) ;;
  popcli.

(** ** The scheduler *)

(** Switch to process [p]; ptable.lock is held. *)
Definition dispatch (p : nat) : M unit :=
  modify (upd_cpu (set_c_proc (Some p))) ;;
  switchuvm p ;;
  modify (upd_proc p (set_p_state RUNNING)).

(** The process switched back: [switchkvm(); proc = 0;]. *)
Definition undispatch : M unit :=
  switchkvm ;; modify (upd_cpu (set_c_proc None)).

(** The inner loop over the rest of the table: the process it switches to,
    or none, with the lock released. *)
Fixpoint scheduler_scan (l : list nat) : M (option nat) :=
  match l with
  | [] => release LPtable ;; ret None
  | p :: l =>
    let* st := getproc p p_state in
    if bool_decide (st <> RUNNABLE) then scheduler_scan l
    else dispatch p ;; ret (Some p)
  end.

(** One turn of [for(;;)] from its start. *)
Definition scheduler_turn : M (option nat) :=
  modify (upd_cpu (set_c_if true)) ;;
  acquire LPtable ;;
  scheduler_scan (seq 0 NPROC).

(** The turn continued after process [p] has switched back. *)
Definition scheduler_resume (p : nat) : M (option nat) :=
  undispatch ;; scheduler_scan (seq (S p) (NPROC - S p)).

(** ** Sleeping until an interrupt *)

(** An interrupt taken by the idle processor: interrupts are off while the
    handler runs and come back on return. *)
Definition interrupt (handler : M unit) : M unit :=
  let* fl := gets (fun s => c_if (cpu s)) in
  modify (upd_cpu (set_c_if false)) ;;
  handler ;;
  modify (upd_cpu (set_c_if fl)).

(** Interrupts arrive until process [i] is runnable; [n] of them at most. *)
Fixpoint until_runnable (n : nat) (i : nat) (handler : M unit) : M unit :=
  match n with
  | O => stop WYield
  | S n =>
    interrupt handler ;;
    let* st := getproc i p_state in
    if bool_decide (st = RUNNABLE) then ret tt else until_runnable n i handler
  end.

(** [sleep(ch, lk)] by the only runnable process, through the scheduler and
    back, while up to [n] interrupts are served by [handler]. *)
Definition sleep_io (ch : chan) (lk : lockid) (n : nat) (handler : M unit) : M unit :=
  sleep_prepare ch lk ;;
  sched_checks ;;
  let* i := curproc in
  let* intena := gets (fun s => c_intena (cpu s)) in
  undispatch ;;
  release LPtable ;;
  modify (upd_cpu (set_c_if true)) ;;
  until_runnable n i handler ;;
  acquire LPtable ;;
  dispatch i ;;
  modify (upd_cpu (set_c_intena intena)) ;;
  sleep_return lk.
