(* ===== verification/SchedFacts.v ===== *)
(** * Facts about scheduling

    What [wakeup] does outside other critical sections, and a [sleep] that
    lasts until an interrupt handler wakes the process up, seen from the
    sleeping process. *)

From S2P Require Import Prelude State Mem Spinlock Sched.

(** ** Locking around a change *)

Lemma settle_pushcli c : Smp.cpu_sane c -> settle (pushcli_cpu c) = pushcli_cpu c.
Proof.
  unfold settle. intros [H _]. rewrite pushcli_ncli. destruct (Z.eqb_spec (c_ncli c + 1) 0); [lia|done].
Qed.

Lemma set_locks_id s : set_locks (locks s) s = s.
Proof. by destruct s. Qed.

Lemma set_cpu_id s : set_cpu (cpu s) s = s.
Proof. by destruct s. Qed.

Lemma set_ptable_id s : set_ptable (ptable s) s = s.
Proof. by destruct s. Qed.

(** A critical section whose body changes neither locks nor processor. *)
Lemma locked {A} lk (m : M A) s t a :
  locks s !! lk = None -> Smp.cpu_sane (cpu s) ->
  m (set_locks (<[lk := c_id (cpu s)]> (locks s)) (set_cpu (pushcli_cpu (cpu s)) s)) =
    Ok a (set_locks (<[lk := c_id (cpu s)]> (locks s)) (set_cpu (pushcli_cpu (cpu s)) t)) ->
  (acquire lk ;; let* r := m in release lk ;; ret r) s =
    Ok a (set_locks (locks s) (set_cpu (settle (cpu s)) t)).
Proof.
  intros Hl Hs Hm. rewrite (bind_Ok _ _ _ _ _ (acquire_free _ _ Hl)), (bind_Ok _ _ _ _ _ Hm).
  unfold bind at 1. erewrite (release_acquired lk (cpu s)); [|cbn; by rewrite lookup_insert_eq, pushcli_id|done|done].
  cbn. by rewrite delete_insert_id.
Qed.

Lemma wakeup_free ch s :
  locks s !! LPtable = None -> Smp.cpu_sane (cpu s) ->
  wakeup ch s = Ok tt (set_cpu (settle (cpu s)) (set_ptable (wakeup1_pt ch (ptable s)) s)).
Proof.
  intros Hl Hs. unfold wakeup. rewrite (bind_Ok _ _ _ _ _ (acquire_free _ _ Hl)).
  unfold bind at 1, wakeup1, modify.
  erewrite (release_acquired LPtable (cpu s)); [|cbn; by rewrite lookup_insert_eq, pushcli_id|done|done].
  cbn. rewrite delete_insert_id by done. by destruct s.
Qed.

Lemma bind_acquire {B} lk (k : unit -> M B) s :
  locks s !! lk = None ->
  bind (acquire lk) k s =
    k tt (set_locks (<[lk := c_id (cpu s)]> (locks s)) (set_cpu (pushcli_cpu (cpu s)) s)).
Proof. intros H. by rewrite (bind_Ok _ _ _ _ _ (acquire_free lk s H)). Qed.

Lemma bind_release {B} lk c (k : unit -> M B) s :
  locks s !! lk = Some (c_id (cpu s)) -> cpu s = pushcli_cpu c -> Smp.cpu_sane c ->
  bind (release lk) k s = k tt (set_locks (delete lk (locks s)) (set_cpu (settle c) s)).
Proof. intros H1 H2 H3. by rewrite (bind_Ok _ _ _ _ _ (release_acquired lk c s H1 H2 H3)). Qed.

Lemma bind_wakeup {B} ch (k : unit -> M B) s :
  locks s !! LPtable = None -> Smp.cpu_sane (cpu s) ->
  bind (wakeup ch) k s = k tt (set_cpu (settle (cpu s)) (set_ptable (wakeup1_pt ch (ptable s)) s)).
Proof. intros H1 H2. by rewrite (bind_Ok _ _ _ _ _ (wakeup_free ch s H1 H2)). Qed.

Lemma curproc_ok i s : c_proc (cpu s) = Some i -> curproc s = Ok i s.
Proof. unfold curproc. rewrite bind_gets. by intros ->. Qed.

Lemma bind_curproc {B} i (k : nat -> M B) s : c_proc (cpu s) = Some i -> bind curproc k s = k i s.
Proof. intros H. by rewrite (bind_Ok _ _ _ _ _ (curproc_ok i s H)). Qed.

(** ** A process running in the kernel with no lock held *)

Record quiet (i : nat) (s : kst) : Prop := {
  q_locks : locks s = ∅;
  q_ncli : c_ncli (cpu s) = 0;
  q_if : c_if (cpu s) = true;
  q_proc : c_proc (cpu s) = Some i;
  q_run : exists p, ptable s !! i = Some p /\ p_state p = RUNNING /\ p_chan p = None /\
    p_pgdir p <> 0 /\ c_cr3 (cpu s) = p_pgdir p /\ c_esp0 (cpu s) = u32 (p_kstack p + KSTACKSIZE) }.

Lemma quiet_sane i s : quiet i s -> Smp.cpu_sane (cpu s).
Proof. intros [_ Hn _ _ _]. split; lia. Qed.

(** A critical section outside of others. *)
Lemma crit_enter i lk s : quiet i s ->
  acquire lk s = Ok tt (set_locks {[lk := c_id (cpu s)]} (set_cpu (pushcli_cpu (cpu s)) s)).
Proof.
  intros Hq. pose proof (q_locks _ _ Hq) as Hl. rewrite acquire_free by (by rewrite Hl). by rewrite Hl.
Qed.

Lemma crit_exit i lk s t :
  quiet i s -> cpu t = pushcli_cpu (cpu s) -> locks t = {[lk := c_id (cpu s)]} ->
  release lk t = Ok tt (set_locks (locks s) (set_cpu (settle (cpu s)) t)).
Proof.
  intros Hq Hc Hl. pose proof (quiet_sane _ _ Hq) as Hs.
  rewrite (release_acquired lk (cpu s)); [|rewrite Hl, Hc, lookup_singleton_eq; by rewrite pushcli_id|done|done].
  by rewrite Hl, delete_singleton_eq, (q_locks _ _ Hq).
Qed.

(** [wakeup] while holding a lock other than ptable's. *)
Lemma crit_wakeup i lk ch s t :
  quiet i s -> lk <> LPtable -> cpu t = pushcli_cpu (cpu s) -> locks t = {[lk := c_id (cpu s)]} ->
  wakeup ch t = Ok tt (set_ptable (wakeup1_pt ch (ptable t)) t).
Proof.
  intros Hq Hne Hc Hl. pose proof (quiet_sane _ _ Hq) as Hs.
  rewrite wakeup_free; [|by rewrite Hl, lookup_singleton_ne|rewrite Hc; by apply pushcli_sane].
  rewrite Hc, settle_pushcli, <- Hc by done. by destruct t.
Qed.

(** The processor in the scheduler's loop, taking an interrupt. *)
Definition idle_cpu (c : cpu_t) (kpg : Z) : cpu_t :=
  MkCpu (c_id c) 0 true false None kpg (c_esp0 c).

Definition asleep (ch : chan) (p : proc) : proc := set_p_state SLEEPING (set_p_chan (Some ch) p).

Definition awake (p : proc) : proc := set_p_chan None (set_p_state RUNNING p).

Lemma release_ok lk s c' :
  locks s !! lk = Some (c_id (cpu s)) -> popcli_cpu (cpu s) = inr c' ->
  release lk s = Ok tt (set_locks (delete lk (locks s)) (set_cpu c' s)).
Proof.
  intros Hl Hc. unfold release, holding, popcli, bind, gets, modify. cbn.
  rewrite bool_decide_eq_true_2 by done. cbn. by rewrite Hc.
Qed.

(** The processor of a quiet state, and the same holding one lock. *)
Definition run_cpu (id : Z) (ie : bool) (i : nat) (cr es : Z) : cpu_t :=
  MkCpu id 0 ie true (Some i) cr es.
Definition lock_cpu (id : Z) (i : nat) (cr es : Z) : cpu_t :=
  MkCpu id 1 true false (Some i) cr es.

Lemma sleep_prepare_locked i ch lk id cr es p s :
  lk <> LPtable -> ptable s !! i = Some p -> locks s = {[lk := id]} -> cpu s = lock_cpu id i cr es ->
  (sleep_prepare ch lk ;; sched_checks) s =
    Ok tt (set_locks {[LPtable := id]} (upd_proc i (asleep ch) s)).
Proof.
  intros Hne Hp Hl Hc. unfold sleep_prepare. rewrite bind_bind. unfold bind at 1, gets. rewrite Hc. cbn.
  destruct (decide (lk = LPtable)); [done|]. rewrite bind_bind, bind_bind.
  rewrite (bind_Ok _ _ _ _ _ (acquire_free LPtable s ltac:(rewrite Hl; by apply lookup_singleton_ne))).
  erewrite bind_Ok; [|eapply (release_ok lk _ (lock_cpu id i cr es))].
  2:{ cbn. rewrite Hl, Hc, lookup_insert_ne by done. cbn. by rewrite lookup_singleton_eq. }
  2:{ cbn. by rewrite Hc. }
  unfold bind at 1, modify. cbn.
  unfold sched_checks, holding, bind, gets, curproc, getproc. cbn. rewrite Hl, Hc. cbn.
  rewrite delete_insert_ne, delete_singleton_eq by done. cbn.
  rewrite lookup_insert_eq, bool_decide_eq_true_2 by done. cbn.
  rewrite (total_alter_eq _ _ _ _ Hp). cbn. unfold ret. f_equal. rewrite <- Hc. by destruct s.
Qed.

(** [sleep] in a critical section gives up the processor, asleep on the
    channel and with ptable.lock held. *)
Lemma crit_sleep {A} i ch lk p s t :
  quiet i s -> lk <> LPtable -> cpu t = pushcli_cpu (cpu s) -> locks t = {[lk := c_id (cpu s)]} ->
  ptable t !! i = Some p ->
  sleep (A := A) ch lk t =
    Halt (Waiting (WSleep ch)) (set_locks {[LPtable := c_id (cpu s)]} (upd_proc i (asleep ch) t)).
Proof.
  intros Hq Hne Hc Hl Hp. unfold sleep.
  assert (cpu t = lock_cpu (c_id (cpu s)) i (c_cr3 (cpu s)) (c_esp0 (cpu s))) as Hc'.
  { rewrite Hc. destruct Hq as [_ H2 H3 H4 _]. destruct (cpu s). cbn in *. by subst. }
  pose proof (sleep_prepare_locked i ch lk _ _ _ p t Hne Hp Hl Hc') as E. revert E. unfold bind, stop.
  destruct (sleep_prepare ch lk t) as [[] u|]; [|done]. by intros ->.
Qed.

Lemma dispatch_ok i p id ie o cr es s :
  ptable s !! i = Some p -> p_pgdir p <> 0 -> cpu s = MkCpu id 1 ie false o cr es ->
  dispatch i s = Ok tt (set_cpu (MkCpu id 1 ie false (Some i) (p_pgdir p) (u32 (p_kstack p + KSTACKSIZE)))
                         (upd_proc i (set_p_state RUNNING) s)).
Proof.
  intros Hp Hpg Hc. unfold dispatch, switchuvm, pushcli, curproc, getproc, popcli, upd_cpu, upd_proc.
  unfold bind, modify, gets, ret. cbn. rewrite Hc. unfold pushcli_cpu. cbn [set_c_proc set_c_if set_c_ncli c_ncli c_if c_id c_intena c_proc c_cr3 c_esp0].
  change (1 =? 0) with false. cbv iota. cbn. rewrite (list_lookup_total_correct _ _ _ Hp).
  destruct (Z.eqb_spec (p_pgdir p) 0); [done|]. unfold popcli_cpu. by destruct s.
Qed.

(** From [sched] to the scheduler's loop, an interrupt that makes the process
    runnable, and back up to the return from [sched]. *)
Lemma idle_once i n h id cr es (k : M unit) s t p1 :
  locks s = {[LPtable := id]} -> cpu s = lock_cpu id i cr es ->
  h (set_locks ∅ (set_cpu (MkCpu id 0 true false None (kpgdir s) es) s)) =
    Ok tt (set_locks ∅ (set_cpu (MkCpu id 0 false false None (kpgdir s) es) t)) ->
  ptable t !! i = Some p1 -> p_state p1 = RUNNABLE -> p_pgdir p1 = cr -> cr <> 0 ->
  u32 (p_kstack p1 + KSTACKSIZE) = es ->
  (undispatch ;;
   release LPtable ;;
   modify (upd_cpu (set_c_if true)) ;;
   until_runnable (S n) i h ;;
   acquire LPtable ;;
   dispatch i ;;
   modify (upd_cpu (set_c_intena true)) ;;
   k) s =
  k (set_locks {[LPtable := id]} (set_cpu (lock_cpu id i cr es) (upd_proc i (set_p_state RUNNING) t))).
Proof.
  intros Hl Hc Hh Hp1 Hr Hpg Hcr Hes.
  unfold undispatch, switchkvm. rewrite bind_bind. unfold bind at 1, modify at 1. unfold bind at 1, modify at 1.
  unfold upd_cpu. cbn. rewrite Hc. cbn.
  erewrite bind_Ok; [|eapply (release_ok LPtable _ (MkCpu id 0 true true None (kpgdir s) es))].
  2:{ cbn. by rewrite Hl, lookup_singleton_eq. }
  2:{ done. }
  unfold bind at 1, modify at 1. cbn [until_runnable]. rewrite bind_bind.
  unfold interrupt. rewrite bind_bind. unfold bind at 1, gets at 1. rewrite bind_bind.
  unfold bind at 1, modify at 1. rewrite bind_bind.
  match goal with |- bind h _ ?x = _ =>
    replace x with (set_locks ∅ (set_cpu (MkCpu id 0 true false None (kpgdir s) es) s))
      by (cbn; rewrite Hl, delete_singleton_eq; by destruct s) end.
  rewrite (bind_Ok _ _ _ _ _ Hh). unfold bind at 1, modify at 1.
  rewrite bind_bind. unfold getproc at 1. unfold bind at 1, gets at 1. cbn.
  rewrite (list_lookup_total_correct _ _ _ Hp1), Hr, bool_decide_eq_true_2 by done.
  unfold bind at 1, ret. erewrite bind_Ok; [|by apply acquire_free].
  erewrite bind_Ok; [|eapply (dispatch_ok i p1 id true None (kpgdir s) es); try done].
  2:{ by rewrite Hpg. }
  unfold bind, modify, upd_cpu. cbn. by rewrite Hpg, Hes.
Qed.

Lemma sleep_io_once i ch lk n h p s t p1 :
  quiet i s -> lk <> LPtable -> ptable s !! i = Some p ->
  h (set_cpu (MkCpu (c_id (cpu s)) 0 true false None (kpgdir s) (c_esp0 (cpu s))) (upd_proc i (asleep ch) s)) =
    Ok tt (set_locks ∅ (set_cpu (MkCpu (c_id (cpu s)) 0 false false None (kpgdir s) (c_esp0 (cpu s))) t)) ->
  ptable t !! i = Some p1 -> p_state p1 = RUNNABLE -> p_pgdir p1 = p_pgdir p -> p_kstack p1 = p_kstack p ->
  sleep_io ch lk (S n) h (set_locks {[lk := c_id (cpu s)]} (set_cpu (pushcli_cpu (cpu s)) s)) =
    Ok tt (set_locks {[lk := c_id (cpu s)]} (set_cpu (pushcli_cpu (cpu s)) (upd_proc i awake t))).
Proof.
  intros [Hl Hn Hif Hpr (p0 & Hp0 & Hst & Hch & Hpg & Hcr3 & Hesp)] Hne Hp Hh Hp1 Hr1 Hpg1 Hks1.
  rewrite Hp in Hp0. injection Hp0 as <-.
  assert (pushcli_cpu (cpu s) = lock_cpu (c_id (cpu s)) i (c_cr3 (cpu s)) (c_esp0 (cpu s))) as Ec.
  { unfold pushcli_cpu, lock_cpu. cbn. rewrite Hn. cbn. by rewrite Hif, <- Hpr; destruct (cpu s). }
  rewrite Ec. unfold sleep_io. rewrite <- bind_bind.
  erewrite bind_Ok; [|by eapply sleep_prepare_locked].
  rewrite (bind_curproc i) by done. rewrite bind_gets. change (c_intena _) with true.
  erewrite (idle_once i n h (c_id (cpu s)) (c_cr3 (cpu s)) (c_esp0 (cpu s)) _ _ t p1); try done.
  2:{ cbn. rewrite <- Hh. f_equal. rewrite <- Hl. by destruct s. }
  2:{ by rewrite Hpg1, Hcr3. }
  2:{ by rewrite Hcr3. }
  2:{ by rewrite Hks1, Hesp. }
  unfold sleep_return. rewrite (bind_curproc i) by done. rewrite bind_modify. destruct (decide (lk = LPtable)); [done|].
  erewrite bind_Ok; [|eapply (release_ok LPtable _ (run_cpu (c_id (cpu s)) true i (c_cr3 (cpu s)) (c_esp0 (cpu s))))].
  2:{ cbn. by rewrite lookup_singleton_eq. }
  2:{ done. }
  rewrite acquire_free by (cbn; by rewrite delete_singleton_eq).
  unfold upd_proc. cbn [set_cpu set_locks set_ptable locks ptable cpu c_id run_cpu].
  rewrite delete_singleton_eq, list_alter_twice. by destruct t.
Qed.

(** ** Critical sections outside of others *)

(** In a critical section for [lk]. *)
Definition enter (lk : lockid) (s : kst) : kst :=
  set_locks {[lk := c_id (cpu s)]} (set_cpu (pushcli_cpu (cpu s)) s).

(** After critical sections: interrupts were recorded as enabled. *)
Definition calm (s : kst) : kst := set_cpu (settle (cpu s)) s.

Lemma settle_fields c : c_id (settle c) = c_id c /\ c_ncli (settle c) = c_ncli c /\ c_if (settle c) = c_if c /\
  c_proc (settle c) = c_proc c /\ c_cr3 (settle c) = c_cr3 c /\ c_esp0 (settle c) = c_esp0 c.
Proof. unfold settle. by destruct (c_ncli c =? 0). Qed.

Lemma quiet_calm i s : quiet i s -> quiet i (calm s).
Proof.
  intros [H1 H2 H3 H4 H5]. destruct (settle_fields (cpu s)) as (E1 & E2 & E3 & E4 & E5 & E6).
  split; unfold calm; cbn [locks cpu ptable set_cpu]; by rewrite ?E2, ?E3, ?E4, ?E5, ?E6.
Qed.

(** A whole critical section. *)
Lemma bind_enter {A} i lk (k : unit -> M A) s : quiet i s -> bind (acquire lk) k s = k tt (enter lk s).
Proof. intros Hq. by rewrite (bind_Ok _ _ _ _ _ (crit_enter i lk s Hq)). Qed.

Lemma bind_leave {A} i lk (k : unit -> M A) s t :
  quiet i s -> cpu t = cpu s -> locks t = locks s -> bind (release lk) k (enter lk t) = k tt (calm t).
Proof.
  intros Hq Ec El. erewrite bind_Ok; [|eapply (crit_exit i lk s _ Hq); cbn; by rewrite Ec].
  f_equal. unfold calm, enter. rewrite <- Ec, <- El. by destruct t.
Qed.

(** The same with no process running, as at the start of the kernel. *)
Lemma bind_enter_free {A} lk (k : unit -> M A) s : locks s = ∅ -> bind (acquire lk) k s = k tt (enter lk s).
Proof. intros Hl. rewrite bind_acquire by (by rewrite Hl). unfold enter. by rewrite Hl. Qed.

Lemma bind_leave_free {A} lk (k : unit -> M A) t :
  locks t = ∅ -> Smp.cpu_sane (cpu t) -> bind (release lk) k (enter lk t) = k tt (calm t).
Proof.
  intros Hl Hs. erewrite bind_Ok; [|apply (release_acquired lk (cpu t)); [|done|done]].
  - f_equal. unfold calm, enter. cbn. rewrite delete_singleton_eq. rewrite <- Hl. by destruct t.
  - cbn. rewrite lookup_singleton_eq. by rewrite pushcli_id.
Qed.

Lemma pushcli_cr3 c : c_cr3 (pushcli_cpu c) = c_cr3 c.
Proof. unfold pushcli_cpu. by destruct (_ =? _). Qed.

Lemma crit_curproc {A} i (k : nat -> M A) s t :
  quiet i s -> cpu t = pushcli_cpu (cpu s) -> bind curproc k t = k i t.
Proof.
  intros Hq Hc. apply bind_curproc. rewrite Hc. unfold pushcli_cpu. destruct (_ =? _); apply (q_proc _ _ Hq).
Qed.

(** [sleep] with ptable.lock keeps it, for the scheduler. *)
Lemma crit_sleep_ptable {A} i ch p s :
  quiet i s -> ptable s !! i = Some p ->
  sleep (A := A) ch LPtable (enter LPtable s) =
    Halt (Waiting (WSleep ch)) (upd_proc i (asleep ch) (enter LPtable s)).
Proof.
  intros [_ H2 H3 H4 _] Hp. unfold sleep, sleep_prepare, bind, gets, ret, modify, enter, pushcli_cpu. cbn. rewrite H2. cbn.
  rewrite H4. cbn. rewrite decide_True by done. unfold sched_checks, holding, curproc, getproc, bind, gets, ret. cbn.
  rewrite lookup_singleton_eq, bool_decide_eq_true_2 by done. cbn.
  change (0 + 1 =? 1) with true. cbn. rewrite H4. cbn. by rewrite (total_alter_eq _ _ _ _ Hp).
Qed.

(** Changing other processes. *)
Lemma quiet_other i j f s : quiet i s -> j <> i -> quiet i (upd_proc j f s).
Proof.
  intros [H1 H2 H3 H4 (p & Hp & H5)] Hne. split; try done. exists p. split; [|done]. cbn. by rewrite list_lookup_alter_ne.
Qed.

Lemma quiet_running i s p : quiet i s -> ptable s !! i = Some p -> p_state p = RUNNING.
Proof. intros [_ _ _ _ (q & Hq & Hr & _)] Hp. congruence. Qed.
