(* ===== verification/Ide.v ===== *)
(** * The disk driver (ide.c)

    The queue of requests is the list [idequeue]; [b->qnext] is the element
    that follows in it.  The disk performs the write of a sector when the data
    has been sent, and reports errors through its status byte. *)

From S2P Require Import Prelude State Mem Spinlock Sched SchedFacts.

Definition SECTOR_SIZE : Z := 512.
Definition IDE_DF : Z := 0x20.
Definition IDE_ERR : Z := 0x01.

(** [idewait]: the busy wait ends with the disk ready. *)
Definition idewait (checkerr : bool) : M Z :=
  let* r := gets ide_status in
  if checkerr && negb (Z.land r (Z.lor IDE_DF IDE_ERR) =? 0) then ret (-1) else ret 0.

Definition ideinit (disk1 : bool) : M unit :=
  initlock LIde ;;
  idewait false ;;
  modify (fun s => set_havedisk1 (disk1 || havedisk1 s) s).

(** The drive and sector the registers 0x1f3 to 0x1f6 select. *)
Definition ide_select (r3 r4 r5 r6 : Z) : Z * Z :=
  (Z.land (Z.shiftr r6 4) 1,
   Z.lor (Z.lor r3 (Z.shiftl r4 8)) (Z.lor (Z.shiftl r5 16) (Z.shiftl (Z.land r6 0x0f) 24))).

Definition block_at (s : kst) (k : Z * Z) : list Z :=
  default (replicate BSIZE 0) (disk s !! k).

Definition idestart (b : nat) : M unit :=
  let* bp := gets (fun s => bufs s !!! b) in
  if FSSIZE <=? b_blockno bp then panic "incorrect blockno"
  else
    let sector_per_block := Z.of_nat BSIZE / SECTOR_SIZE in
    let sector := b_blockno bp * sector_per_block in
    if 7 <? sector_per_block then panic "idestart"
    else
      idewait false ;;
      modify (set_ide_lba (ide_select
        (Z.land sector 0xff) (Z.land (Z.shiftr sector 8) 0xff) (Z.land (Z.shiftr sector 16) 0xff)
        (Z.lor (Z.lor 0xe0 (Z.shiftl (Z.land (b_dev bp) 1) 4)) (Z.land (Z.shiftr sector 24) 0x0f)))) ;;
      when (b_dirty bp)
        (modify (fun s =>
           set_dwrites (dwrites s ++ [(ide_lba s, b_data bp)])
             (set_disk (<[ide_lba s := b_data bp]> (disk s)) s))).

(** Interrupt handler. *)
Definition ideintr : M unit :=
  acquire LIde ;;
  let* q := gets idequeue in
  match q with
  | [] => release LIde
  | b :: q =>
    modify (set_idequeue q) ;;
    let* dirty := gets (fun s => b_dirty (bufs s !!! b)) in
    (if dirty then ret tt
     else
       let* r := idewait true in
       when (0 <=? r) (modify (fun s => upd_buf b (set_b_data (block_at s (ide_lba s))) s))) ;;
    modify (upd_buf b (fun p => set_b_dirty false (set_b_valid true p))) ;;
    wakeup (CBuf b) ;;
    (match q with
     | [] => ret tt
     | b' :: _ => idestart b'
     end) ;;
    release LIde
  end.

(** [while((b->flags & (B_VALID|B_DIRTY)) != B_VALID) sleep(b, &idelock);], [n]
    sleeps at most. *)
Fixpoint iderw_wait (n : nat) (b : nat) : M unit :=
  let* bp := gets (fun s => bufs s !!! b) in
  if b_valid bp && negb (b_dirty bp) then ret tt
  else
    match n with
    | O => stop (WSleep (CBuf b))
    | S n =>
      let* q := gets idequeue in
      sleep_io (CBuf b) LIde (length q) ideintr ;;
      iderw_wait n b
    end.

(** Sync buf with disk. *)
Definition iderw (b : nat) : M unit :=
  let* bp := gets (fun s => bufs s !!! b) in
  if negb (b_busy bp) then panic "iderw: buf not busy"
  else if b_valid bp && negb (b_dirty bp) then panic "iderw: nothing to do"
  else
    let* have := gets havedisk1 in
    if negb (b_dev bp =? 0) && negb have then panic "iderw: ide disk 1 not present"
    else
      acquire LIde ;;
      modify (fun s => set_idequeue (idequeue s ++ [b]) s) ;;
      let* q := gets idequeue in
      when (bool_decide (head q = Some b)) (idestart b) ;;
      iderw_wait 1 b ;;
      release LIde.

(** ** One request, from the process that makes it *)

(** The disk block of a buffer. *)
Definition blk (bp : buf) : Z * Z := (Z.land (b_dev bp) 1, b_blockno bp).

Definition ide_ok (s : kst) : Prop := Z.land (ide_status s) (Z.lor IDE_DF IDE_ERR) = 0.

(** The buffer after a request: valid and clean, with the block's contents
    when it was read. *)
Definition synced (s : kst) (bp : buf) : buf :=
  set_b_dirty false (set_b_valid true
    (if b_dirty bp then bp else set_b_data (block_at s (blk bp)) bp)).

(** The disk after a request. *)
Definition disk_sync (bp : buf) (s : kst) : kst :=
  if b_dirty bp
  then set_dwrites (dwrites s ++ [(blk bp, b_data bp)]) (set_disk (<[blk bp := b_data bp]> (disk s)) s)
  else s.

Lemma land_255 x : Z.land x 0xff = x mod 256.
Proof. change 0xff with (2^8 - 1). by rewrite land_ones_mod. Qed.

(** The registers select the sector of the block. *)
Lemma ide_select_sector dev sector :
  0 <= sector < 2^28 ->
  ide_select (Z.land sector 0xff) (Z.land (Z.shiftr sector 8) 0xff) (Z.land (Z.shiftr sector 16) 0xff)
    (Z.lor (Z.lor 0xe0 (Z.shiftl (Z.land dev 1) 4)) (Z.land (Z.shiftr sector 24) 0x0f)) =
  (Z.land dev 1, sector).
Proof.
  intros Hs. unfold ide_select. rewrite !land_255.
  assert (Z.land (Z.shiftr sector 24) 0x0f = sector / 2^24) as ->.
  { change 0x0f with (2^4 - 1). rewrite land_ones_mod, Z.shiftr_div_pow2 by lia. zdm. }
  rewrite !Z.shiftr_div_pow2, !Z.shiftl_mul_pow2 by lia.
  assert (0 <= sector / 2^24 < 2^4) as Htop by zdm.
  assert (Z.land dev 1 = 0 \/ Z.land dev 1 = 1) as Hd.
  { pose proof (land_ones_mod 1 dev ltac:(lia)) as E. change (2^1 - 1) with 1 in E. rewrite E. zdm. }
  assert (Z.lor (Z.lor 0xe0 (Z.land dev 1 * 2^4)) (sector / 2^24) =
          0xe0 + Z.land dev 1 * 16 + sector / 2^24) as ->.
  { destruct Hd as [-> | ->]; apply (lor_disjoint_add 4); lia || done. }
  f_equal.
  - replace ((0xe0 + Z.land dev 1 * 16 + sector / 2^24) / 2^4) with (14 + Z.land dev 1) by zdm.
    by destruct Hd as [-> | ->].
  - change 0x0f with (2^4 - 1). rewrite land_ones_mod by lia.
    replace ((0xe0 + Z.land dev 1 * 16 + sector / 2^24) mod 2^4) with (sector / 2^24) by zdm.
    rewrite (Z.lor_comm (sector mod 256)), (lor_disjoint_add 8 (_ * 2^8)) by zdm.
    rewrite (Z.lor_comm _ (sector / 2^24 * _)), (lor_disjoint_add 24 (_ * 2^24)) by zdm.
    rewrite Z.lor_comm, (lor_disjoint_add 16) by zdm. zdm.
Qed.

Lemma idestart_ok b bp s :
  bufs s !! b = Some bp -> 0 <= b_blockno bp < FSSIZE ->
  idestart b s = Ok tt (disk_sync bp (set_ide_lba (blk bp) s)).
Proof.
  intros Hb Hn. unfold idestart. rewrite bind_gets, (list_lookup_total_correct _ _ _ Hb).
  destruct (Z.leb_spec FSSIZE (b_blockno bp)); [lia|].
  change (Z.of_nat BSIZE / SECTOR_SIZE) with 1. change (7 <? 1) with false. cbv iota zeta.
  rewrite Z.mul_1_r. unfold idewait. rewrite bind_bind, bind_gets. cbn [andb]. rewrite bind_ret, bind_modify.
  rewrite ide_select_sector by (unfold FSSIZE in *; lia). unfold disk_sync. by destruct (b_dirty bp).
Qed.

(** The interrupt that completes the only request. *)
Lemma ideintr_one b bp s :
  locks s !! LIde = None -> locks s !! LPtable = None -> Smp.cpu_sane (cpu s) -> ide_ok s ->
  idequeue s = [b] -> bufs s !! b = Some bp -> ide_lba s = blk bp ->
  ideintr s = Ok tt (set_cpu (settle (cpu s)) (set_ptable (wakeup1_pt (CBuf b) (ptable s))
    (set_idequeue [] (upd_buf b (fun _ => synced s bp) s)))).
Proof.
  intros Hl1 Hl2 Hs Hok Hq Hb Hlba. unfold ideintr.
  rewrite (bind_Ok _ _ _ _ _ (acquire_free _ _ Hl1)), bind_gets.
  cbn [idequeue set_locks set_cpu]. rewrite Hq, bind_modify, bind_gets.
  cbn [bufs set_locks set_cpu set_idequeue]. rewrite (list_lookup_total_correct _ _ _ Hb).
  set (s1 := set_idequeue [] _).
  assert ((if b_dirty bp then ret tt else
    let* r := idewait true in
    when (0 <=? r) (modify (fun s => upd_buf b (set_b_data (block_at s (ide_lba s))) s))) s1 =
    Ok tt (upd_buf b (fun p => if b_dirty bp then p else set_b_data (block_at s (blk bp)) p) s1)) as E1.
  { destruct (b_dirty bp).
    - unfold upd_buf, ret. rewrite list_alter_id by done. by destruct s1.
    - unfold idewait. rewrite bind_bind, bind_gets. cbn [ide_status s1 set_idequeue set_locks set_cpu].
      rewrite Hok. cbn [andb negb Z.eqb]. rewrite bind_ret. change (0 <=? 0) with true. unfold when, modify.
      change (ide_lba s1) with (ide_lba s). change (block_at s1) with (block_at s). by rewrite Hlba. }
  rewrite (bind_Ok _ _ _ _ _ E1), bind_modify.
  rewrite bind_wakeup; [|cbn; by rewrite lookup_insert_ne|by apply pushcli_sane].
  rewrite bind_ret. erewrite (release_acquired LIde (cpu s)).
  4: done.
  2:{ cbn. by rewrite lookup_insert_eq, settle_pushcli, pushcli_id. }
  2:{ cbn. by rewrite settle_pushcli. }
  f_equal. unfold s1. cbn. rewrite delete_insert_id by done. unfold upd_buf. cbn.
  rewrite list_alter_twice.
  rewrite (list_alter_ext _ (fun _ => synced s bp) (bufs s) (bufs s) b); [by destruct s| |done].
  intros x Hx. rewrite Hb in Hx. by injection Hx as <-.
Qed.

(** The state after a request for [b]. *)
Definition iderw_done (b : nat) (bp : buf) (s : kst) : kst :=
  set_ide_lba (blk bp) (set_ptable (wakeup1_pt (CBuf b) (ptable s))
    (upd_buf b (fun _ => synced s bp) (disk_sync bp (set_cpu (settle (cpu s)) s)))).

Lemma quiet_ext i s s' :
  quiet i s -> locks s' = locks s -> cpu s' = cpu s -> ptable s' = ptable s -> quiet i s'.
Proof. intros [H1 H2 H3 H4 H5] E1 E2 E3. split; by rewrite ?E1, ?E2, ?E3. Qed.

(** Going to sleep, being woken up and running again. *)
Lemma sleep_wake_pt i ch p pt :
  pt !! i = Some p -> p_state p = RUNNING -> p_chan p = None ->
  wakeup1_pt ch (alter (asleep ch) i pt) !! i = Some (set_p_state RUNNABLE (asleep ch p)) /\
  alter awake i (wakeup1_pt ch (alter (asleep ch) i pt)) = wakeup1_pt ch pt.
Proof.
  intros Hp Hst Hch. unfold wakeup1_pt.
  assert ((fun q => if asleep_on ch q then set_p_state RUNNABLE q else q) <$> alter (asleep ch) i pt !! i =
    Some (set_p_state RUNNABLE (asleep ch p))) as E.
  { rewrite list_lookup_alter_eq, Hp. cbn. unfold asleep_on. cbn. by rewrite !bool_decide_eq_true_2. }
  split; [by rewrite list_lookup_fmap|]. apply list_eq. intros j. destruct (decide (i = j)) as [<-|Hne].
  - rewrite list_lookup_alter_eq, !list_lookup_fmap, E, Hp. cbn. unfold asleep_on. rewrite Hst. cbn.
    f_equal. destruct p. cbn in *. by subst.
  - rewrite list_lookup_alter_ne, !list_lookup_fmap, list_lookup_alter_ne by done. done.
Qed.

(** The wait for the only request in the queue. *)
Lemma iderw_sleep i b bp s :
  quiet i s -> ide_ok s -> idequeue s = [b] -> bufs s !! b = Some bp -> ide_lba s = blk bp ->
  b_valid bp && negb (b_dirty bp) = false ->
  iderw_wait 1 b (set_locks {[LIde := c_id (cpu s)]} (set_cpu (pushcli_cpu (cpu s)) s)) =
    Ok tt (set_locks {[LIde := c_id (cpu s)]} (set_cpu (pushcli_cpu (cpu s))
      (set_ptable (wakeup1_pt (CBuf b) (ptable s)) (set_idequeue [] (upd_buf b (fun _ => synced s bp) s))))).
Proof.
  intros Hq Hok Hidle Hb Hlba Hneed. pose proof (q_run _ _ Hq) as (p & Hp & Hst & Hch & _).
  pose proof (q_locks _ _ Hq) as Hl.
  destruct (sleep_wake_pt i (CBuf b) p (ptable s) Hp Hst Hch) as [Hw1 Hw2].
  cbn [iderw_wait]. rewrite bind_gets. cbn [bufs set_locks set_cpu].
  rewrite (list_lookup_total_correct _ _ _ Hb), Hneed, bind_gets. cbn [idequeue set_locks set_cpu].
  rewrite Hidle. cbn [length].
  erewrite bind_Ok; [|eapply (sleep_io_once i (CBuf b) LIde 0 ideintr p s
    (set_ptable (wakeup1_pt (CBuf b) (alter (asleep (CBuf b)) i (ptable s)))
       (set_idequeue [] (upd_buf b (fun _ => synced s bp) s)))); try done].
  - cbn [iderw_wait]. rewrite bind_gets. cbn [bufs set_locks set_cpu upd_proc set_ptable upd_buf set_bufs set_idequeue].
    rewrite (total_alter_eq _ _ _ _ Hb). cbn. unfold ret, upd_proc. cbn. by rewrite Hw2.
  - erewrite ideintr_one; try done; [|cbn; by rewrite Hl..].
    cbn. unfold block_at, synced, settle. cbn. rewrite <- Hl. by destruct s.
Qed.

Lemma iderw_quiet i b bp s :
  quiet i s -> ide_ok s -> idequeue s = [] -> bufs s !! b = Some bp ->
  b_busy bp = true -> b_valid bp && negb (b_dirty bp) = false ->
  0 <= b_blockno bp < FSSIZE -> (b_dev bp <> 0 -> havedisk1 s = true) ->
  iderw b s = Ok tt (iderw_done b bp s).
Proof.
  intros Hq Hok Hidle Hb Hbusy Hneed Hno Hdev. pose proof (quiet_sane _ _ Hq) as Hs.
  pose proof (q_locks _ _ Hq) as Hl.
  unfold iderw. rewrite bind_gets, (list_lookup_total_correct _ _ _ Hb), Hbusy, Hneed. cbn [negb].
  rewrite bind_gets.
  assert (negb (b_dev bp =? 0) && negb (havedisk1 s) = false) as ->.
  { destruct (Z.eqb_spec (b_dev bp) 0); [done|]. by rewrite Hdev. }
  rewrite bind_acquire by (by rewrite Hl). rewrite bind_modify, bind_gets.
  cbn [idequeue set_idequeue set_locks set_cpu]. rewrite Hidle. cbn [app head].
  rewrite bool_decide_eq_true_2 by done. cbn [when].
  set (s1 := disk_sync bp (set_ide_lba (blk bp) (set_idequeue [b] s))).
  assert (quiet i s1) as Hq1.
  { unfold s1, disk_sync. by destruct (b_dirty bp); eapply quiet_ext. }
  assert (cpu s1 = cpu s /\ ide_ok s1 /\ idequeue s1 = [b] /\ bufs s1 !! b = Some bp /\ ide_lba s1 = blk bp)
    as (Ec & K1 & K2 & K3 & K4) by (unfold s1, disk_sync; by destruct (b_dirty bp)).
  match goal with |- bind (idestart b) _ ?x = _ =>
    assert (idestart b x = Ok tt (set_locks {[LIde := c_id (cpu s1)]} (set_cpu (pushcli_cpu (cpu s1)) s1))) as E1 end.
  { erewrite idestart_ok; [|done|done]. f_equal. rewrite Ec. unfold s1, disk_sync. rewrite Hl, insert_empty.
    by destruct (b_dirty bp), s. }
  rewrite (bind_Ok _ _ _ _ _ E1). clear E1.
  rewrite (bind_Ok _ _ _ _ _ (iderw_sleep i b bp s1 Hq1 K1 K2 K3 K4 Hneed)).
  rewrite (release_acquired LIde (cpu s1)); [|cbn; by rewrite lookup_singleton_eq, pushcli_id|done|by rewrite Ec].
  f_equal. cbn. rewrite delete_singleton_eq, Ec, <- Hl. unfold iderw_done, synced, block_at, s1, disk_sync.
  rewrite <- Hidle. by destruct (b_dirty bp), s.
Qed.
