(* ===== verification/Bio.v ===== *)
(** * The buffer cache (bio.c)

    Buffers are numbered 0 to NBUF-1 and [HEAD] is the list head; [b_prev] and
    [b_next] are the links of the circular list from the most to the least
    recently used buffer. *)

From S2P Require Import Prelude State Mem Spinlock Sched SchedFacts Ide.

Definition HEAD : nat := NBUF.

Definition getbuf {A} (b : nat) (f : buf -> A) : M A := gets (fun s => f (bufs s !!! b)).

Definition binit : M unit :=
  initlock LBcache ;;
  modify (upd_buf HEAD (set_b_prev HEAD)) ;;
  modify (upd_buf HEAD (set_b_next HEAD)) ;;
  forM (seq 0 NBUF) (fun b =>
    let* n := getbuf HEAD b_next in
    modify (upd_buf b (set_b_next n)) ;;
    modify (upd_buf b (set_b_prev HEAD)) ;;
    modify (upd_buf b (set_b_dev 0xffffffff)) ;;
    modify (upd_buf n (set_b_prev b)) ;;
    modify (upd_buf HEAD (set_b_next b))).

(** [for(b = start; b != &bcache.head; b = step(b)) if(test) ...]: the first
    buffer that passes the test, [n] steps at most. *)
Fixpoint bscan (n : nat) (step : buf -> nat) (test : buf -> bool) (bs : list buf) (b : nat) : option nat :=
  match n with
  | O => None
  | S n =>
    if bool_decide (b = HEAD) then None
    else if test (bs !!! b) then Some b
    else bscan n step test bs (step (bs !!! b))
  end.

Definition is_block (dev blockno : Z) (p : buf) : bool := (b_dev p =? dev) && (b_blockno p =? blockno).

Definition reusable (p : buf) : bool := negb (b_busy p) && negb (b_dirty p).

(** Look through buffer cache for block on device dev. *)
Definition bget (dev blockno : Z) : M nat :=
  acquire LBcache ;;
  let* o := gets (fun s => bscan (S NBUF) b_next (is_block dev blockno) (bufs s) (b_next (bufs s !!! HEAD))) in
  match o with
  | Some b =>
    let* busy := getbuf b b_busy in
    if busy then sleep (CBuf b) LBcache
    else modify (upd_buf b (set_b_busy true)) ;; release LBcache ;; ret b
  | None =>
    let* o := gets (fun s => bscan (S NBUF) b_prev reusable (bufs s) (b_prev (bufs s !!! HEAD))) in
    match o with
    | Some b =>
      modify (upd_buf b (fun p => set_b_dirty false (set_b_valid false (set_b_busy true
                (set_b_blockno blockno (set_b_dev dev p)))))) ;;
      release LBcache ;;
      ret b
    | None => panic "bget: no buffers"
    end
  end.

(** Return a B_BUSY buf with the contents of the indicated block. *)
Definition bread (dev blockno : Z) : M nat :=
  let* b := bget dev blockno in
  let* valid := getbuf b b_valid in
  when (negb valid) (iderw b) ;;
  ret b.

(** Write b's contents to disk.  Must be B_BUSY. *)
Definition bwrite (b : nat) : M unit :=
  let* busy := getbuf b b_busy in
  if negb busy then panic "bwrite"
  else modify (upd_buf b (set_b_dirty true)) ;; iderw b.

(** Release a B_BUSY buffer. *)
Definition brelse (b : nat) : M unit :=
  let* busy := getbuf b b_busy in
  if negb busy then panic "brelse"
  else
    acquire LBcache ;;
    let* n := getbuf b b_next in
    let* p := getbuf b b_prev in
    modify (upd_buf n (set_b_prev p)) ;;
    let* p := getbuf b b_prev in
    let* n := getbuf b b_next in
    modify (upd_buf p (set_b_next n)) ;;
    let* h := getbuf HEAD b_next in
    modify (upd_buf b (set_b_next h)) ;;
    modify (upd_buf b (set_b_prev HEAD)) ;;
    let* h := getbuf HEAD b_next in
    modify (upd_buf h (set_b_prev b)) ;;
    modify (upd_buf HEAD (set_b_next b)) ;;
    modify (upd_buf b (set_b_busy false)) ;;
    wakeup (CBuf b) ;;
    release LBcache.
