(* ===== verification/BioFacts.v ===== *)
(** * Facts about the buffer cache

    The circular list refines a plain list of buffers, most recently used
    first, and each operation acts on that list and on the contents of the
    blocks, seen through the cache. *)

From S2P Require Import Prelude State Mem Spinlock Sched SchedFacts Ide Bio.

(** ** Linked paths *)

Module Path.

Definition upd (f : nat -> nat) (x v : nat) : nat -> nat := fun y => if decide (y = x) then v else f y.

Lemma upd_ext f g x v y : (forall z, f z = g z) -> upd f x v y = upd g x v y.
Proof. intros E. unfold upd. by destruct (decide (y = x)). Qed.

(** From [x] the links [f] lead through [l] to [y]. *)
Fixpoint path (f : nat -> nat) (x : nat) (l : list nat) (y : nat) : Prop :=
  match l with
  | [] => f x = y
  | a :: l => f x = a /\ path f a l y
  end.

Lemma path_app f x l1 b l2 y : path f x (l1 ++ b :: l2) y <-> path f x l1 b /\ path f b l2 y.
Proof.
  revert x. induction l1 as [|a l1 IH]; intros x; cbn; [done|]. rewrite IH. naive_solver.
Qed.

(** The first node after the start. *)
Definition first (l : list nat) (y : nat) : nat := match l with [] => y | a :: _ => a end.

Lemma path_start f x l y : path f x l y -> f x = first l y.
Proof. destruct l; cbn; [done|]. by intros [? _]. Qed.

Lemma path_move f g x x' l y :
  path f x l y -> g x' = f x -> (forall z, z ∈ l -> g z = f z) -> path g x' l y.
Proof.
  revert x x'. induction l as [|a l IH]; intros x x' Hp E Hz; cbn in *; [by rewrite E|].
  destruct Hp as [Ha Hp]. split; [by rewrite E|]. apply (IH a a); [done|apply Hz; by left|].
  intros z Hin. apply Hz. by right.
Qed.

Lemma path_ext f g x l y : path f x l y -> (forall z, z ∈ x :: l -> g z = f z) -> path g x l y.
Proof.
  intros Hp Hz. eapply path_move; [done|apply Hz; by left|]. intros z Hin. apply Hz. by right.
Qed.

(** Changing where a path ends. *)
Lemma path_relink f x l y y' :
  path f x l y -> NoDup (x :: l) -> path (upd f (List.last (x :: l) 0%nat) y') x l y'.
Proof.
  revert x. induction l as [|a l IH]; intros x Hp [Hx Hn]%NoDup_cons; cbn [path] in *.
  - unfold upd. cbn. by rewrite decide_True.
  - destruct Hp as [Ha Hp]. change (List.last (x :: a :: l) 0%nat) with (List.last (a :: l) 0%nat). split.
    + unfold upd. rewrite decide_False; [done|]. intros ->. apply Hx.
      clear. revert a. induction l as [|c l IH]; intros a; cbn; [by left|]. right. apply IH.
    + by apply IH.
Qed.

(** Taking [b] out of a path. *)
Lemma path_unlink f x l1 b l2 y :
  path f x (l1 ++ b :: l2) y -> NoDup (x :: l1 ++ b :: l2) ->
  path (upd f (List.last (x :: l1) 0%nat) (f b)) x (l1 ++ l2) y.
Proof.
  rewrite path_app. intros [H1 H2] Hn.
  assert (NoDup (x :: l1)) as Hn1.
  { rewrite app_comm_cons in Hn. by apply NoDup_app in Hn as (Hn & _). }
  pose proof (path_relink _ _ _ _ (f b) H1 Hn1) as H3.
  assert (forall z, z ∈ l2 -> z <> List.last (x :: l1) 0%nat) as Hz.
  { intros z Hz ->. rewrite app_comm_cons in Hn. apply NoDup_app in Hn as (_ & Hd & _).
    apply (Hd (List.last (x :: l1) 0%nat)); [|by right].
    clear. revert x. induction l1 as [|c l IH]; intros x; cbn; [by left|]. right. apply IH. }
  destruct l2 as [|c l2]; cbn in H2.
  - rewrite app_nil_r. by rewrite H2 in *.
  - destruct H2 as [Hc H2]. rewrite path_app. rewrite Hc in *. split; [done|].
    eapply path_ext; [done|]. intros z Hin. unfold upd. rewrite decide_False; [done|]. by apply Hz.
Qed.

End Path.

(** ** The list of buffers *)

Import Path.

Definition nx (bs : list buf) (j : nat) : nat := b_next (bs !!! j).
Definition pv (bs : list buf) (j : nat) : nat := b_prev (bs !!! j).

(** The links run through [l], forwards and backwards. *)
Definition dll (bs : list buf) (l : list nat) : Prop :=
  path (nx bs) HEAD l HEAD /\ path (pv bs) HEAD (reverse l) HEAD.

(** What [brelse] does to the links. *)
Definition to_front (b : nat) (bs : list buf) : list buf :=
  let n := b_next (bs !!! b) in
  let p := b_prev (bs !!! b) in
  let bs := alter (set_b_prev p) n bs in
  let p := b_prev (bs !!! b) in
  let n := b_next (bs !!! b) in
  let bs := alter (set_b_next n) p bs in
  let h := b_next (bs !!! HEAD) in
  let bs := alter (set_b_next h) b bs in
  let bs := alter (set_b_prev HEAD) b bs in
  let h := b_next (bs !!! HEAD) in
  let bs := alter (set_b_prev b) h bs in
  alter (set_b_next b) HEAD bs.

Lemma total_alter_eq_lt {A} `{Inhabited A} (f : A -> A) (l : list A) i :
  (i < length l)%nat -> alter f i l !!! i = f (l !!! i).
Proof.
  intros Hi. destruct (lookup_lt_is_Some_2 _ _ Hi) as [x Hx].
  by rewrite (total_alter_eq f l i x Hx), (list_lookup_total_correct _ _ _ Hx).
Qed.

Lemma links_alter_next v j bs z :
  (j < length bs)%nat ->
  nx (alter (set_b_next v) j bs) z = upd (nx bs) j v z /\ pv (alter (set_b_next v) j bs) z = pv bs z.
Proof.
  intros Hj. unfold nx, pv, upd. destruct (decide (z = j)) as [->|Hne].
  - by rewrite total_alter_eq_lt.
  - by rewrite total_alter_ne.
Qed.

Lemma links_alter_prev v j bs z :
  (j < length bs)%nat ->
  pv (alter (set_b_prev v) j bs) z = upd (pv bs) j v z /\ nx (alter (set_b_prev v) j bs) z = nx bs z.
Proof.
  intros Hj. unfold nx, pv, upd. destruct (decide (z = j)) as [->|Hne].
  - by rewrite total_alter_eq_lt.
  - by rewrite total_alter_ne.
Qed.

Lemma last_reverse (l : list nat) y : List.last (y :: reverse l) 0%nat = first l y.
Proof.
  destruct l as [|a l]; [done|]. rewrite reverse_cons, app_comm_cons. apply last_last.
Qed.

Lemma first_reverse (l : list nat) y : first (reverse l) y = List.last (y :: l) 0%nat.
Proof. by rewrite <- (reverse_involutive l) at 2; rewrite last_reverse. Qed.

Lemma last_in (x : nat) l : List.last (x :: l) 0%nat ∈ x :: l.
Proof. revert x. induction l as [|c l IH]; intros x; cbn; [by left|]. right. apply IH. Qed.

Lemma first_in (l : list nat) y : first l y ∈ y :: l.
Proof. destruct l; cbn; [by left|]. right. by left. Qed.

(** The links after [to_front], when [b] is neither the head nor a neighbour of
    itself. *)
Lemma to_front_fun bs b z :
  let n := nx bs b in let p := pv bs b in let h := upd (nx bs) p n HEAD in
  (b < length bs)%nat -> (HEAD < length bs)%nat -> (n < length bs)%nat -> (p < length bs)%nat ->
  (h < length bs)%nat -> n <> b -> p <> b -> HEAD <> b ->
  nx (to_front b bs) z = upd (upd (upd (nx bs) p n) b h) HEAD b z /\
  pv (to_front b bs) z = upd (upd (upd (pv bs) n p) b HEAD) h b z.
Proof.
  intros n p h Hb HH Hn Hp Hh Hnb Hpb HHb. unfold to_front. fold (nx bs b) (pv bs b). fold n p.
  set (bs1 := alter (set_b_prev p) n bs).
  assert (forall x, pv bs1 x = upd (pv bs) n p x /\ nx bs1 x = nx bs x) as E1 by (intros; by apply links_alter_prev).
  fold (nx bs1 b) (pv bs1 b). rewrite (proj2 (E1 b)).
  assert (pv bs1 b = p) as ->.
  { rewrite (proj1 (E1 b)). unfold upd. rewrite decide_False by done. done. }
  fold n. set (bs2 := alter (set_b_next n) p bs1).
  assert (forall x, nx bs2 x = upd (nx bs) p n x /\ pv bs2 x = upd (pv bs) n p x) as E2.
  { intros x. destruct (links_alter_next n p bs1 x) as [K1 K2]; [unfold bs1; by rewrite length_alter|].
    fold bs2 in K1, K2. rewrite K1, K2. split; [apply upd_ext; intros; apply E1|apply E1]. }
  fold (nx bs2 HEAD). rewrite (proj1 (E2 HEAD)). fold h.
  set (bs3 := alter (set_b_next h) b bs2).
  assert (forall x, nx bs3 x = upd (upd (nx bs) p n) b h x /\ pv bs3 x = upd (pv bs) n p x) as E3.
  { intros x. destruct (links_alter_next h b bs2 x) as [K1 K2]; [unfold bs2, bs1; by rewrite !length_alter|].
    fold bs3 in K1, K2. rewrite K1, K2. split; [apply upd_ext; intros; apply E2|apply E2]. }
  set (bs4 := alter (set_b_prev HEAD) b bs3).
  assert (forall x, nx bs4 x = upd (upd (nx bs) p n) b h x /\ pv bs4 x = upd (upd (pv bs) n p) b HEAD x) as E4.
  { intros x. destruct (links_alter_prev HEAD b bs3 x) as [K1 K2]; [unfold bs3, bs2, bs1; by rewrite !length_alter|].
    fold bs4 in K1, K2. rewrite K1, K2. split; [apply E3|apply upd_ext; intros; apply E3]. }
  fold (nx bs4 HEAD). rewrite (proj1 (E4 HEAD)).
  replace (upd (upd (nx bs) p n) b h HEAD) with h by (unfold upd at 1; by rewrite decide_False).
  set (bs5 := alter (set_b_prev b) h bs4).
  assert (forall x, nx bs5 x = upd (upd (nx bs) p n) b h x /\
    pv bs5 x = upd (upd (upd (pv bs) n p) b HEAD) h b x) as E5.
  { intros x. destruct (links_alter_prev b h bs4 x) as [K1 K2]; [unfold bs4, bs3, bs2, bs1; by rewrite !length_alter|].
    fold bs5 in K1, K2. rewrite K1, K2. split; [apply E4|apply upd_ext; intros; apply E4]. }
  destruct (links_alter_next b HEAD bs5 z) as [K1 K2];
    [unfold bs5, bs4, bs3, bs2, bs1; by rewrite !length_alter|].
  rewrite K1, K2. split; [apply upd_ext; intros; apply E5|apply E5].
Qed.

Lemma to_front_links bs l1 b l2 :
  dll bs (l1 ++ b :: l2) -> NoDup (HEAD :: l1 ++ b :: l2) ->
  (forall j, j ∈ HEAD :: l1 ++ b :: l2 -> (j < length bs)%nat) ->
  dll (to_front b bs) (b :: l1 ++ l2).
Proof.
  intros [Hf Hb] Hnd Hlen.
  assert (forall j, j ∈ HEAD :: l1 ++ l2 -> (j < length bs)%nat /\ j <> b) as Hin.
  { intros j Hj. split.
    - apply Hlen. rewrite elem_of_cons, elem_of_app in Hj. rewrite elem_of_cons, elem_of_app, elem_of_cons. tauto.
    - intros ->. rewrite app_comm_cons in Hnd. apply NoDup_app in Hnd as (_ & Hd & [Hb2 _]%NoDup_cons).
      rewrite app_comm_cons, elem_of_app in Hj. destruct Hj as [Hj|Hj]; [|done]. apply (Hd b Hj). by left. }
  rewrite reverse_app, reverse_cons, <- app_assoc in Hb. cbn [app] in Hb.
  assert (b < length bs /\ b <> HEAD)%nat as [Hlb HbH].
  { split; [apply Hlen; rewrite elem_of_cons, elem_of_app, elem_of_cons; tauto|].
    intros ->. apply (Hin HEAD); [by left|done]. }
  assert (nx bs b = first l2 HEAD) as En by (apply path_app in Hf as [_ Hf]; by apply path_start in Hf).
  assert (pv bs b = List.last (HEAD :: l1) 0%nat) as Ep.
  { rewrite <- first_reverse. apply path_app in Hb as [_ Hb]. by apply path_start in Hb. }
  pose proof (path_unlink _ _ _ _ _ _ Hf Hnd) as F1.
  assert (NoDup (HEAD :: reverse l2 ++ b :: reverse l1)) as Hnd'.
  { assert (reverse l2 ++ b :: reverse l1 ≡ₚ l1 ++ b :: l2) as ->; [|done].
    rewrite !reverse_Permutation, <- !Permutation_middle. constructor. apply Permutation_app_comm. }
  pose proof (path_unlink _ _ _ _ _ _ Hb Hnd') as B1. rewrite last_reverse, <- reverse_app in B1.
  assert (first l2 HEAD ∈ HEAD :: l1 ++ l2) as Hn.
  { pose proof (first_in l2 HEAD) as K. rewrite elem_of_cons in *. rewrite elem_of_app. tauto. }
  assert (List.last (HEAD :: l1) 0%nat ∈ HEAD :: l1 ++ l2) as Hp.
  { pose proof (last_in HEAD l1) as K. rewrite elem_of_cons in *. rewrite elem_of_app. tauto. }
  rewrite <- En in Hn, B1. rewrite <- Ep in Hp, F1. apply Hin in Hn as [Hn Hnb]. apply Hin in Hp as [Hp Hpb].
  assert (HEAD < length bs)%nat as HH by (apply Hlen; by left).
  assert (upd (nx bs) (pv bs b) (nx bs b) HEAD = first (l1 ++ l2) HEAD) as Eh by (by apply path_start in F1).
  assert (first (l1 ++ l2) HEAD ∈ HEAD :: l1 ++ l2) as Hh by apply first_in.
  apply Hin in Hh as [Hh Hhb]. rewrite <- Eh in Hh, Hhb.
  pose proof (fun z => to_front_fun bs b z Hlb HH Hn Hp Hh Hnb Hpb (not_eq_sym HbH)) as E. split.
  - split; [rewrite (proj1 (E HEAD)); unfold upd at 1; by rewrite decide_True|].
    eapply path_move; [exact F1| |].
    + rewrite (proj1 (E b)). unfold upd at 1. rewrite decide_False by done. unfold upd at 1. by rewrite decide_True.
    + intros z Hz. rewrite (proj1 (E z)). destruct (Hin z) as [_ Hzb]; [by right|].
      unfold upd at 1. rewrite decide_False; [unfold upd at 1; by rewrite decide_False|].
      intros ->. apply NoDup_cons in Hnd as [Hnd _]. apply Hnd.
      rewrite elem_of_app in Hz. rewrite elem_of_app, elem_of_cons. tauto.
  - rewrite reverse_cons, path_app. split.
    + assert (NoDup (HEAD :: reverse (l1 ++ l2))) as Hnr.
      { rewrite reverse_Permutation. clear -Hnd. rewrite <- Permutation_middle in Hnd.
        rewrite Permutation_swap in Hnd. by apply NoDup_cons in Hnd as [_ Hnd]. }
      pose proof (path_relink _ _ _ _ b B1 Hnr) as B2. rewrite last_reverse, <- Eh in B2.
      eapply path_ext; [exact B2|]. intros z Hz. rewrite (proj2 (E z)).
      rewrite reverse_Permutation in Hz. apply Hin in Hz as [_ Hzb].
      unfold upd. by rewrite (decide_False (P := z = b)).
    + cbn. rewrite (proj2 (E b)). unfold upd at 1. rewrite decide_False by done. unfold upd at 1. by rewrite decide_True.
Qed.

(** Everything of a buffer but its links. *)
Definition core (p : buf) : buf := set_b_prev 0 (set_b_next 0 p).

Lemma core_alter f (j : nat) (bs : list buf) (z : nat) :
  (forall p, core (f p) = core p) -> core (alter f j bs !!! z) = core (bs !!! z).
Proof.
  intros Hf. destruct (decide (j = z)) as [<-|Hne]; [|by rewrite total_alter_ne].
  destruct (decide (j < length bs)%nat).
  - by rewrite total_alter_eq_lt.
  - rewrite !list_lookup_total_alt, list_lookup_alter_eq. by rewrite lookup_ge_None_2 by lia.
Qed.

Lemma to_front_core b bs (z : nat) : core (to_front b bs !!! z) = core (bs !!! z).
Proof. unfold to_front. by rewrite !core_alter. Qed.

Lemma length_to_front b bs : length (to_front b bs) = length bs.
Proof. unfold to_front. by rewrite !length_alter. Qed.

(** A scan finds the first buffer of the list that passes the test. *)
Lemma bscan_find n step test bs l : forall x,
  path (fun j => step (bs !!! j)) x l HEAD -> HEAD ∉ l -> (length l < n)%nat ->
  bscan n step test bs (step (bs !!! x)) = List.find (fun b => test (bs !!! b)) l.
Proof.
  revert l. induction n as [|n IH]; intros l x Hp Hh Hn; [lia|]. cbn [bscan].
  destruct l as [|a l]; cbn [path List.find] in *.
  - by rewrite Hp, bool_decide_eq_true_2.
  - destruct Hp as [-> Hp]. apply not_elem_of_cons in Hh as [Hha Hh].
    rewrite bool_decide_eq_false_2 by done. destruct (test (bs !!! a)); [done|].
    apply IH; [done..|]. cbn in Hn. lia.
Qed.

(** ** The invariant of the cache *)

(** No process is woken up but those that sleep. *)
Definition wake_rel (p q : proc) : Prop := q = p \/ (p_state p = SLEEPING /\ q = set_p_state RUNNABLE p).

#[export] Instance wake_rel_preorder : PreOrder wake_rel.
Proof.
  split; [by left|]. intros p q r [->|[Hs ->]] [->|[Hs' ->]]; unfold wake_rel; auto.
Qed.

Definition woken : relation (list proc) := Forall2 wake_rel.

Lemma woken_refl pt : woken pt pt.
Proof. by unfold woken. Qed.

Lemma woken_trans pt1 pt2 pt3 : woken pt1 pt2 -> woken pt2 pt3 -> woken pt1 pt3.
Proof. unfold woken. intros H1 H2. by etransitivity. Qed.

Lemma wakeup1_woken ch pt : woken pt (wakeup1_pt ch pt).
Proof.
  unfold woken, wakeup1_pt. apply Forall2_fmap_r, Forall_Forall2_diag, Forall_true. intros p. unfold wake_rel, asleep_on, compose. cbv beta.
  case_match; [right|by left]. by apply andb_true_iff in H as [H%bool_decide_eq_true _].
Qed.

(** A process that can do disk requests. *)
Record io_ready (i : nat) (s : kst) : Prop := {
  io_quiet : quiet i s;
  io_ok : ide_ok s;
  io_idle : idequeue s = [];
  io_disk1 : havedisk1 s = true }.

(** What changes in the kernel during disk requests and [wakeup]s. *)
Definition bio_frame (s s' : kst) : Prop :=
  woken (ptable s) (ptable s') /\ (cpu s' = cpu s \/ cpu s' = settle (cpu s)) /\
  s' = set_cpu (cpu s') (set_ptable (ptable s') (set_bufs (bufs s') (set_disk (disk s')
         (set_dwrites (dwrites s') (set_ide_lba (ide_lba s') s))))).

Lemma woken_running pt pt' i p :
  woken pt pt' -> pt !! i = Some p -> p_state p = RUNNING -> pt' !! i = Some p.
Proof.
  intros Hw Hp Hst. destruct (Forall2_lookup_l _ _ _ _ _ Hw Hp) as (q & Hq & [->|[Hs _]]); [done|].
  by rewrite Hst in Hs.
Qed.

Lemma io_ready_frame i s s' : io_ready i s -> bio_frame s s' -> io_ready i s'.
Proof.
  intros [[H1 H2 H3 H4 (p & Hp & Hst & Hrest)] Hok Hidle Hd] (Hw & Hc & E).
  assert (c_ncli (cpu s') = c_ncli (cpu s) /\ c_if (cpu s') = c_if (cpu s) /\ c_proc (cpu s') = c_proc (cpu s) /\
    c_cr3 (cpu s') = c_cr3 (cpu s) /\ c_esp0 (cpu s') = c_esp0 (cpu s)) as (K2 & K3 & K4 & K5 & K6).
  { destruct Hc as [-> | ->]; [done|]. apply settle_fields. }
  assert (locks s' = locks s /\ ide_status s' = ide_status s /\ idequeue s' = idequeue s /\
    havedisk1 s' = havedisk1 s) as (E1 & E2 & E3 & E4) by (rewrite E; done).
  split.
  - split; rewrite ?E1, ?K2, ?K3, ?K4; try done. exists p.
    rewrite K5, K6. split; [by eapply woken_running|]. done.
  - unfold ide_ok. by rewrite E2.
  - by rewrite E3.
  - by rewrite E4.
Qed.

Lemma bio_frame_refl s : bio_frame s s.
Proof. split; [apply woken_refl|]. split; [by left|]. by destruct s. Qed.

Lemma bio_frame_trans s1 s2 s3 : bio_frame s1 s2 -> bio_frame s2 s3 -> bio_frame s1 s3.
Proof.
  intros (W1 & C1 & E1) (W2 & C2 & E2). split; [by eapply woken_trans|]. split.
  - destruct C2 as [-> | ->], C1 as [-> | ->]; rewrite ?settle_settle; auto.
  - rewrite E2, E1. done.
Qed.

(** Buffer [b] of the cache. *)
Definition isbuf (s : kst) (b : nat) (p : buf) : Prop := (b < NBUF)%nat /\ bufs s !! b = Some p.

Definition dev_ok (dev : Z) : Prop := dev = 0 \/ dev = 1.

(** [l] lists the buffers, most recently used first; a block has one buffer at
    most; valid and clean buffers that nobody is using agree with the disk. *)
Record cache_ok (l : list nat) (s : kst) : Prop := {
  c_len : length (bufs s) = S NBUF;
  c_perm : l ≡ₚ seq 0 NBUF;
  c_links : dll (bufs s) l;
  c_uniq : forall i j p q, isbuf s i p -> isbuf s j q ->
    b_dev p = b_dev q -> b_blockno p = b_blockno q -> dev_ok (b_dev p) -> i = j;
  c_clean : forall i p, isbuf s i p -> b_busy p = false -> b_valid p = true -> b_dirty p = false ->
    b_data p = block_at s (blk p);
  c_dev : forall i p, isbuf s i p -> b_valid p = true -> dev_ok (b_dev p);
  c_dirty : forall i p, isbuf s i p -> b_dirty p = true -> b_valid p = true;
  c_data : forall i p, isbuf s i p -> length (b_data p) = BSIZE;
  c_disk : forall k, length (block_at s k) = BSIZE }.

(** The contents of a block, seen through the cache. *)
Definition bview (s : kst) (dev blockno : Z) : list Z :=
  match List.find (fun p => is_block dev blockno p && b_valid p) (take NBUF (bufs s)) with
  | Some p => b_data p
  | None => block_at s (Z.land dev 1, blockno)
  end.

Lemma is_block_eq dev n p : is_block dev n p = true <-> b_dev p = dev /\ b_blockno p = n.
Proof. unfold is_block. rewrite andb_true_iff, !Z.eqb_eq. done. Qed.

Lemma find_take_isbuf s f p :
  List.find f (take NBUF (bufs s)) = Some p -> exists b, isbuf s b p /\ f p = true.
Proof.
  intros [Hin Hf]%List.find_some. apply list_elem_of_In, list_elem_of_lookup in Hin as [b Hb].
  apply lookup_take_Some in Hb as [Hb Hlt]. by exists b.
Qed.

Lemma bview_cached l s b p :
  cache_ok l s -> isbuf s b p -> b_valid p = true -> bview s (b_dev p) (b_blockno p) = b_data p.
Proof.
  intros Hc Hb Hv. unfold bview. destruct (List.find _ _) as [q|] eqn:E.
  - apply find_take_isbuf in E as (j & Hj & Ht). apply andb_true_iff in Ht as [[E1 E2]%is_block_eq _].
    assert (b = j) as <-.
    { eapply (c_uniq _ _ Hc); [done|done|done|done|]. by eapply (c_dev _ _ Hc). }
    destruct Hb as [_ Hb], Hj as [_ Hj]. by simplify_eq.
  - exfalso. destruct Hb as [Hlt Hb]. pose proof (List.find_none _ _ E p) as Hn. cbn beta in Hn.
    rewrite Hv, andb_true_r in Hn. assert (is_block (b_dev p) (b_blockno p) p = true) by (by apply is_block_eq).
    rewrite Hn in *; [done|]. apply list_elem_of_In, list_elem_of_lookup. exists b. by apply lookup_take_Some.
Qed.

Lemma bview_uncached s dev n :
  (forall b p, isbuf s b p -> b_dev p = dev -> b_blockno p = n -> b_valid p = false) ->
  bview s dev n = block_at s (Z.land dev 1, n).
Proof.
  intros H. unfold bview. destruct (List.find _ _) as [p|] eqn:E; [|done].
  apply find_take_isbuf in E as (b & Hb & Ht). apply andb_true_iff in Ht as [[E1 E2]%is_block_eq Hv].
  rewrite (H b p) in Hv; done.
Qed.

(** Two states with the same blocks seen through the cache. *)
Lemma bview_same l l' s s' :
  cache_ok l s -> cache_ok l' s' ->
  (forall b p, isbuf s b p -> b_valid p = true ->
     (exists p', isbuf s' b p' /\ b_valid p' = true /\ b_dev p' = b_dev p /\ b_blockno p' = b_blockno p) \/
     b_data p = block_at s' (blk p)) ->
  (forall b p, isbuf s' b p -> b_valid p = true -> b_data p = bview s (b_dev p) (b_blockno p)) ->
  (forall dev n, dev_ok dev ->
     (forall b p, isbuf s' b p -> b_valid p = true -> ~ (b_dev p = dev /\ b_blockno p = n)) ->
     block_at s' (Z.land dev 1, n) = block_at s (Z.land dev 1, n)) ->
  forall dev n, dev_ok dev -> bview s' dev n = bview s dev n.
Proof.
  intros Hc Hc' H1 H2 Hd dev n Hok. unfold bview at 1. destruct (List.find _ _) as [p|] eqn:E.
  - apply find_take_isbuf in E as (b & Hb & Ht). apply andb_true_iff in Ht as [[<- <-]%is_block_eq Hv]. by apply (H2 b).
  - assert (forall b p, isbuf s' b p -> b_valid p = true -> ~ (b_dev p = dev /\ b_blockno p = n)) as Hno.
    { intros b p [Hlt Hb] Hv Ht%is_block_eq. pose proof (List.find_none _ _ E p) as Hn. cbn beta in Hn.
      rewrite Hv, Ht in Hn. apply diff_true_false, Hn.
      apply list_elem_of_In, list_elem_of_lookup. exists b. by apply lookup_take_Some. }
    unfold bview. destruct (List.find _ (take NBUF (bufs s))) as [p|] eqn:E'; [|by apply Hd].
    apply find_take_isbuf in E' as (b & Hb & Ht). apply andb_true_iff in Ht as [[<- <-]%is_block_eq Hv].
    destruct (H1 b p Hb Hv) as [(p' & Hb' & Hv' & E1 & E2)|E1]; [|done].
    exfalso. by apply (Hno b p' Hb' Hv').
Qed.

(** Scanning the list in either direction. *)
Lemma scan_next l s test :
  cache_ok l s -> bscan (S NBUF) b_next test (bufs s) (b_next (bufs s !!! HEAD)) =
    List.find (fun b => test (bufs s !!! b)) l.
Proof.
  intros Hc. apply bscan_find.
  - apply (c_links _ _ Hc).
  - rewrite (c_perm _ _ Hc). intros [_ H]%elem_of_seq. unfold HEAD in H. lia.
  - rewrite (c_perm _ _ Hc), length_seq. lia.
Qed.

Lemma scan_prev l s test :
  cache_ok l s -> bscan (S NBUF) b_prev test (bufs s) (b_prev (bufs s !!! HEAD)) =
    List.find (fun b => test (bufs s !!! b)) (reverse l).
Proof.
  intros Hc. apply bscan_find.
  - apply (c_links _ _ Hc).
  - rewrite reverse_Permutation, (c_perm _ _ Hc). intros [_ H]%elem_of_seq. unfold HEAD in H. lia.
  - rewrite length_reverse, (c_perm _ _ Hc), length_seq. lia.
Qed.

Lemma cache_lookup l s b : cache_ok l s -> b ∈ l -> exists p, isbuf s b p /\ bufs s !!! b = p.
Proof.
  intros Hc Hb. rewrite (c_perm _ _ Hc) in Hb. apply elem_of_seq in Hb.
  destruct (lookup_lt_is_Some_2 (bufs s) b) as [p Hp]; [rewrite (c_len _ _ Hc); lia|].
  exists p. split; [split; [lia|done]|by apply list_lookup_total_correct].
Qed.

Lemma isbuf_in l s b p : cache_ok l s -> isbuf s b p -> b ∈ l.
Proof. intros Hc [Hlt _]. rewrite (c_perm _ _ Hc). apply elem_of_seq. lia. Qed.

(** The state after the lock is released again. *)
Definition settled (s : kst) : kst := set_cpu (settle (cpu s)) s.

(** [bget] of a block whose buffer is not in use. *)
Lemma bget_ok i l s dev n :
  io_ready i s -> cache_ok l s -> dev_ok dev ->
  (forall b p, isbuf s b p -> is_block dev n p = true -> b_busy p = false) ->
  (exists b p, isbuf s b p /\ (is_block dev n p = true \/ reusable p = true)) ->
  exists b p f, isbuf s b p /\ bget dev n s = Ok b (settled (upd_buf b f s)) /\
    ((is_block dev n p = true /\ f = set_b_busy true) \/
     (reusable p = true /\ (forall b q, isbuf s b q -> is_block dev n q = false) /\
      List.find (fun b => reusable (bufs s !!! b)) (reverse l) = Some b /\
      f = fun p => set_b_dirty false (set_b_valid false (set_b_busy true (set_b_blockno n (set_b_dev dev p)))))).
Proof.
  intros Hio Hc Hdev Hfree Hex. pose proof (q_locks _ _ (io_quiet _ _ Hio)) as Hl.
  pose proof (quiet_sane _ _ (io_quiet _ _ Hio)) as Hs.
  assert (forall b f, (modify (upd_buf b f) ;; release LBcache ;; ret b)
    (set_locks (<[LBcache := c_id (cpu s)]> (locks s)) (set_cpu (pushcli_cpu (cpu s)) s)) =
    Ok b (settled (upd_buf b f s))) as Hend.
  { intros b f. rewrite bind_modify, (bind_release LBcache (cpu s));
      [|cbn; by rewrite lookup_insert_eq, pushcli_id|done|done].
    cbn. rewrite Hl, delete_insert_id by done. unfold ret, settled. rewrite <- Hl. by destruct s. }
  unfold bget. rewrite bind_acquire by (by rewrite Hl). rewrite bind_gets. cbn [bufs set_locks set_cpu].
  rewrite (scan_next l) by done. destruct (List.find _ l) as [b|] eqn:E.
  - apply List.find_some in E as [Hin Ht]. apply list_elem_of_In in Hin.
    destruct (cache_lookup _ _ _ Hc Hin) as (p & Hb & Ep). cbn beta in Ht. rewrite Ep in Ht.
    unfold getbuf. rewrite bind_gets. cbn [bufs set_locks set_cpu]. rewrite Ep, (Hfree b p Hb Ht), Hend.
    exists b, p, (set_b_busy true). eauto.
  - assert (forall b q, isbuf s b q -> is_block dev n q = false) as Hno.
    { intros b q Hb. pose proof (isbuf_in _ _ _ _ Hc Hb) as Hin. apply list_elem_of_In in Hin.
      apply (List.find_none _ _ E) in Hin. destruct Hb as [_ Hb]. by rewrite (list_lookup_total_correct _ _ _ Hb) in Hin. }
    rewrite bind_gets. cbn [bufs set_locks set_cpu]. rewrite (scan_prev l) by done.
    destruct (List.find _ (reverse l)) as [b|] eqn:E2.
    + apply List.find_some in E2 as [Hin Ht]. apply list_elem_of_In in Hin. rewrite reverse_Permutation in Hin.
      destruct (cache_lookup _ _ _ Hc Hin) as (p & Hb & Ep). cbn beta in Ht. rewrite Ep in Ht. rewrite Hend. eauto 10.
    + exfalso. destruct Hex as (b & p & Hb & [Ht|Ht]); [by rewrite (Hno b p Hb) in Ht|].
      pose proof (isbuf_in _ _ _ _ Hc Hb) as Hin. rewrite <- reverse_Permutation in Hin. apply list_elem_of_In in Hin.
      apply (List.find_none _ _ E2) in Hin. destruct Hb as [_ Hb]. rewrite (list_lookup_total_correct _ _ _ Hb) in Hin. congruence.
Qed.

Lemma land_dev_inj a b : dev_ok a -> dev_ok b -> Z.land a 1 = Z.land b 1 -> a = b.
Proof. by intros [-> | ->] [-> | ->]. Qed.

Lemma blk_inj p q : dev_ok (b_dev p) -> dev_ok (b_dev q) -> blk p = blk q -> b_dev p = b_dev q /\ b_blockno p = b_blockno q.
Proof. unfold blk. intros [-> | ->] [-> | ->] [= E]; done. Qed.

Lemma isbuf_alter s s' b p' j q :
  bufs s' = alter (fun _ => p') b (bufs s) -> isbuf s' j q ->
  (j = b /\ q = p') \/ (j <> b /\ isbuf s j q).
Proof.
  intros E [Hlt Hq]. rewrite E in Hq. destruct (decide (j = b)) as [->|Hne].
  - rewrite list_lookup_alter_eq in Hq. destruct (bufs s !! b); cbn in Hq; [|done]. left. by simplify_eq.
  - right. by rewrite list_lookup_alter_ne in Hq.
Qed.

Lemma isbuf_alter_eq s s' b p p' :
  bufs s' = alter (fun _ => p') b (bufs s) -> isbuf s b p -> isbuf s' b p'.
Proof. intros E [Hlt Hb]. split; [done|]. by rewrite E, list_lookup_alter_eq, Hb. Qed.

Lemma isbuf_alter_ne s s' b p' j q :
  bufs s' = alter (fun _ => p') b (bufs s) -> isbuf s j q -> j <> b -> isbuf s' j q.
Proof. intros E [Hlt Hb] Hne. split; [done|]. by rewrite E, list_lookup_alter_ne. Qed.

Lemma dll_alter bs b p p' l :
  bs !! b = Some p -> b_next p' = b_next p -> b_prev p' = b_prev p ->
  dll bs l -> dll (alter (fun _ => p') b bs) l.
Proof.
  intros Hb En Ep [H1 H2].
  assert (forall z, nx (alter (fun _ => p') b bs) z = nx bs z /\ pv (alter (fun _ => p') b bs) z = pv bs z) as E.
  { intros z. unfold nx, pv. destruct (decide (z = b)) as [->|].
    - rewrite (total_alter_eq _ _ _ _ Hb). by rewrite (list_lookup_total_correct _ _ _ Hb).
    - by rewrite total_alter_ne. }
  split; (eapply path_ext; [done|]); intros; apply E.
Qed.

(** Changing one buffer, and possibly its block on disk. *)
Lemma cache_ok_set l s s' b p p' :
  cache_ok l s -> isbuf s b p -> bufs s' = alter (fun _ => p') b (bufs s) ->
  b_next p' = b_next p -> b_prev p' = b_prev p ->
  (forall j q, isbuf s j q -> j <> b -> dev_ok (b_dev p') ->
     ~ (b_dev q = b_dev p' /\ b_blockno q = b_blockno p')) ->
  (b_busy p' = false -> b_valid p' = true -> b_dirty p' = false -> b_data p' = block_at s' (blk p')) ->
  (b_valid p' = true -> dev_ok (b_dev p')) -> (b_dirty p' = true -> b_valid p' = true) ->
  length (b_data p') = BSIZE -> (forall k, length (block_at s' k) = BSIZE) ->
  (forall j q, isbuf s j q -> j <> b -> b_valid q = true -> block_at s' (blk q) = block_at s (blk q)) ->
  cache_ok l s'.
Proof.
  intros [C1 C2 C3 C4 C5 C6 C7 C8 C9] Hb E En Ep Hu Hcl Hdv Hdi Hlen Hbl Hoth.
  assert (forall j q, isbuf s' j q -> (j = b /\ q = p') \/ (j <> b /\ isbuf s j q)) as Hcase
    by (intros; by eapply isbuf_alter).
  split; try done.
  - by rewrite E, length_alter.
  - rewrite E. destruct Hb. by eapply dll_alter.
  - intros j1 j2 q1 q2 H1 H2 Ed Eb Hok.
    destruct (Hcase _ _ H1) as [[-> ->]|[N1 K1]], (Hcase _ _ H2) as [[-> ->]|[N2 K2]]; [done| | |by eapply C4].
    + exfalso. by eapply (Hu j2 q2).
    + exfalso. eapply (Hu j1 q1); [done..|by rewrite <- Ed|done].
  - intros j q H1 Hbu Hv Hd. destruct (Hcase _ _ H1) as [[-> ->]|[N1 K1]]; [by apply Hcl|].
    rewrite (Hoth j q) by done. by eapply C5.
  - intros j q H1 Hv. destruct (Hcase _ _ H1) as [[-> ->]|[N1 K1]]; [by apply Hdv|by eapply C6].
  - intros j q H1 Hv. destruct (Hcase _ _ H1) as [[-> ->]|[N1 K1]]; [by apply Hdi|by eapply C7].
  - intros j q H1. destruct (Hcase _ _ H1) as [[-> ->]|[N1 K1]]; [done|by eapply C8].
Qed.

(** Marking a buffer busy. *)
Lemma cache_ok_busy l s s' b p :
  cache_ok l s -> isbuf s b p -> bufs s' = alter (fun _ => set_b_busy true p) b (bufs s) -> disk s' = disk s ->
  cache_ok l s'.
Proof.
  intros Hc Hb E Ed. assert (forall k, block_at s' k = block_at s k) as Ek by (intros; unfold block_at; by rewrite Ed).
  eapply (cache_ok_set l s s' b p); try done; cbn.
  - intros j q Hj Hne Hok [E1 E2]. apply Hne. by eapply (c_uniq _ _ Hc j b q p); try done; rewrite E1.
  - intros Hv. by eapply (c_dev _ _ Hc).
  - intros Hv. by eapply (c_dirty _ _ Hc).
  - by eapply (c_data _ _ Hc).
  - intros k. rewrite Ek. apply (c_disk _ _ Hc).
Qed.

Lemma alter_const {A} (f : A -> A) (l : list A) b p :
  l !! b = Some p -> alter f b l = alter (fun _ => f p) b l.
Proof. intros Hp. apply list_alter_ext; [|done]. intros x Hx. by simplify_eq. Qed.

Lemma settled_frame i s b f : io_ready i s -> bio_frame s (settled (upd_buf b f s)).
Proof. intros H. split; [apply woken_refl|]. split; [by right|]. by destruct s. Qed.

(** A buffer being filled from the disk. *)
Lemma iderw_frame b p s : bio_frame s (iderw_done b p s).
Proof.
  unfold iderw_done, disk_sync. split.
  - destruct (b_dirty p); apply wakeup1_woken.
  - split; [right; by destruct (b_dirty p)|]. by destruct (b_dirty p), s.
Qed.

(** [iderw] to read: the buffer gets the block's contents. *)
Lemma iderw_read i l s b p :
  io_ready i s -> cache_ok l s -> isbuf s b p -> b_busy p = true -> b_valid p = false ->
  dev_ok (b_dev p) -> 0 <= b_blockno p < FSSIZE ->
  exists s' p', iderw b s = Ok tt s' /\ bio_frame s s' /\ cache_ok l s' /\
    p' = set_b_valid true (set_b_data (block_at s (blk p)) p) /\ isbuf s' b p' /\
    bufs s' = alter (fun _ => p') b (bufs s) /\ disk s' = disk s /\ dwrites s' = dwrites s.
Proof.
  intros Hio Hc Hb Hbusy Hval Hdev Hn.
  assert (b_dirty p = false) as Hd.
  { destruct (b_dirty p) eqn:E; [|done]. apply (c_dirty _ _ Hc) in Hb; [|done]. congruence. }
  pose proof (iderw_quiet i b p s (io_quiet _ _ Hio) (io_ok _ _ Hio) (io_idle _ _ Hio) (proj2 Hb) Hbusy
    ltac:(by rewrite Hval) Hn (fun _ => io_disk1 _ _ Hio)) as E.
  assert (synced s p = set_b_valid true (set_b_data (block_at s (blk p)) p)) as Es.
  { unfold synced. rewrite Hd. destruct p. cbn in *. by subst. }
  assert (bufs (iderw_done b p s) = alter (fun _ => set_b_valid true (set_b_data (block_at s (blk p)) p)) b (bufs s) /\
    disk (iderw_done b p s) = disk s /\ dwrites (iderw_done b p s) = dwrites s) as (E1 & E2 & E3).
  { unfold iderw_done, disk_sync. rewrite Hd, Es. done. }
  exists (iderw_done b p s), (set_b_valid true (set_b_data (block_at s (blk p)) p)).
  split; [exact E|]. split; [apply iderw_frame|]. split; [|split; [done|]; split; [exact (isbuf_alter_eq _ _ _ _ _ E1 Hb)|done]].
  assert (forall k, block_at (iderw_done b p s) k = block_at s k) as Ek by (intros; unfold block_at; by rewrite E2).
  eapply (cache_ok_set l s _ b p); try done; cbn.
  - intros j q Hj Hne Hok [Ed Eb]. apply Hne. by eapply (c_uniq _ _ Hc j b q p); try done; rewrite Ed.
  - apply (c_disk _ _ Hc).
  - intros k. rewrite Ek. apply (c_disk _ _ Hc).
Qed.

(** What a client sees of the cache: the contents of the blocks, and the
    buffers it holds. *)
Definition same_blocks (s s' : kst) : Prop := forall dev n, dev_ok dev -> bview s' dev n = bview s dev n.

(** [bread] returns the block's contents in a busy buffer and changes no block. *)
Lemma bread_ok i l s dev n :
  io_ready i s -> cache_ok l s -> dev_ok dev -> 0 <= n < FSSIZE ->
  (forall b p, isbuf s b p -> is_block dev n p = true -> b_busy p = false) ->
  (exists b p, isbuf s b p /\ (is_block dev n p = true \/ reusable p = true)) ->
  exists b p0 p s', bread dev n s = Ok b s' /\ bio_frame s s' /\ cache_ok l s' /\
    isbuf s b p0 /\ b_busy p0 = false /\ isbuf s' b p /\ bufs s' = alter (fun _ => p) b (bufs s) /\
    b_busy p = true /\ b_valid p = true /\ b_dirty p = b_dirty p0 /\
    (b_dirty p0 = true -> b_dev p0 = dev /\ b_blockno p0 = n) /\ b_dev p = dev /\ b_blockno p = n /\
    b_data p = bview s dev n /\ (b_dirty p = false -> b_data p = block_at s' (blk p)) /\
    same_blocks s s' /\ disk s' = disk s /\ dwrites s' = dwrites s.
Proof.
  intros Hio Hc Hdev Hn Hfree Hex.
  destruct (bget_ok i l s dev n Hio Hc Hdev Hfree Hex) as (b & p0 & f & Hb & Eg & Hcase).
  pose proof (settled_frame i s b f Hio) as Hfr.
  set (s1 := settled (upd_buf b f s)) in *.
  assert (bufs s1 = alter (fun _ => f p0) b (bufs s)) as Eb1 by (apply alter_const; apply Hb).
  assert (isbuf s1 b (f p0)) as Hb1 by (by eapply isbuf_alter_eq).
  assert (b_busy p0 = false) as Hb0.
  { destruct Hcase as [[Hi _]|[Hr _]]; [by eapply Hfree|]. unfold reusable in Hr. by destruct (b_busy p0). }
  assert (cache_ok l s1) as Hc1.
  { destruct Hcase as [[_ ->]|(Hr & Hno & _ & ->)]; [by eapply (cache_ok_busy l s s1 b p0)|].
    eapply (cache_ok_set l s s1 b p0); try done; cbn.
    - intros j q Hj _ _ [E1 E2]. assert (is_block dev n q = true) as K by (by apply is_block_eq).
      by rewrite (Hno j q Hj) in K.
    - by eapply (c_data _ _ Hc).
    - apply (c_disk _ _ Hc). }
  unfold bread. rewrite (bind_Ok _ _ _ _ _ Eg). unfold getbuf. rewrite bind_gets.
  rewrite (list_lookup_total_correct _ _ _ (proj2 Hb1)).
  assert (b_dev (f p0) = dev /\ b_blockno (f p0) = n /\ b_busy (f p0) = true /\ b_dirty (f p0) = b_dirty p0) as (Ed & En & Ebu & Edi).
  { destruct Hcase as [[[E1 E2]%is_block_eq ->]|(Hr & _ & _ & ->)]; [done|]. cbn. unfold reusable in Hr.
    split_and!; try done. destruct (b_dirty p0); [|done]. by rewrite andb_false_r in Hr. }
  assert (b_dirty p0 = true -> b_dev p0 = dev /\ b_blockno p0 = n) as Hd0.
  { intros Hd. destruct Hcase as [[?%is_block_eq _]|(Hr & _)]; [done|]. unfold reusable in Hr.
    by rewrite Hd, andb_false_r in Hr. }
  destruct (b_valid (f p0)) eqn:Ev; cbn [negb when].
  - destruct Hcase as [[[E1 E2]%is_block_eq ->]|(_ & _ & _ & ->)]; [|done]. cbn in Ev.
    exists b, p0, (set_b_busy true p0), s1. split; [done|]. split_and!; try done.
    + cbn. rewrite <- E1, <- E2. symmetry. by eapply bview_cached.
    + cbn. intros Hd. by eapply (c_clean _ _ Hc).
    + refine (bview_same l l _ _ Hc _ _ _ _); try done.
      * intros j q Hj Hv. left. destruct (decide (j = b)) as [->|Hne].
        -- exists (set_b_busy true p0). destruct Hb as [? Hb], Hj as [? Hj]. by simplify_eq.
        -- exists q. split_and!; try done. by eapply isbuf_alter_ne.
      * intros j q Hj Hv. destruct (isbuf_alter _ _ _ _ _ _ Eb1 Hj) as [[-> ->]|[Hne Hj']].
        -- cbn. symmetry. by eapply bview_cached.
        -- symmetry. by eapply bview_cached.
  - destruct (iderw_read i l s1 b (f p0)) as (s' & p & E & Hfr' & Hc' & Ep & Hb' & Eb' & Ed' & Edw');
      try done; [by eapply io_ready_frame|by rewrite Ed|by rewrite En|].
    rewrite (bind_Ok _ _ _ _ _ E). exists b, p0, p, s'. split; [done|].
    assert (blk (f p0) = (Z.land dev 1, n)) as Eblk by (unfold blk; by rewrite Ed, En).
    assert (bufs s' = alter (fun _ => p) b (bufs s)) as Eb.
    { rewrite Eb', Eb1, list_alter_twice. done. }
    assert (b_data p = bview s dev n) as Edata.
    { rewrite Ep. cbn. rewrite Eblk. change (block_at s1) with (block_at s). symmetry. apply bview_uncached.
      intros j q Hj E1 E2. destruct Hcase as [[[E3 E4]%is_block_eq ->]|(_ & Hno & _)].
      - cbn in Ev. assert (j = b) as ->.
        { eapply (c_uniq _ _ Hc j b q p0); try done; congruence. }
        destruct Hb as [? Hb], Hj as [? Hj]. by simplify_eq.
      - assert (is_block dev n q = true) as K by (by apply is_block_eq). by rewrite (Hno j q Hj) in K. }
    split_and!; try done; try (rewrite Ep; cbn; done).
    + by eapply bio_frame_trans.
    + intros _. rewrite Ep. cbn. unfold block_at. by rewrite Ed'.
    + refine (bview_same l l _ _ Hc _ _ _ _); try done.
      * intros j q Hj Hv. destruct (decide (j = b)) as [->|Hne].
        -- assert (q = p0) as -> by (destruct Hb as [? Hb], Hj as [? Hj]; by simplify_eq).
           destruct Hcase as [[_ ->]|(Hr & _ & _)]; [by cbn in Ev; rewrite Hv in Ev|].
           right. unfold block_at. rewrite Ed'. change (disk s1) with (disk s).
           eapply (c_clean _ _ Hc); [done..|]. unfold reusable in Hr. destruct (b_dirty p0); [|done].
           by rewrite andb_false_r in Hr.
        -- left. exists q. split_and!; try done. by eapply isbuf_alter_ne.
      * intros j q Hj Hv. destruct (isbuf_alter _ _ _ _ _ _ Eb Hj) as [[-> ->]|[Hne Hj']].
        -- rewrite Edata, Ep. cbn. by rewrite Ed, En.
        -- symmetry. by eapply bview_cached.
      * intros ? ? _ _. unfold block_at. by rewrite Ed'.
Qed.

Lemma block_at_insert s s' k d k' :
  disk s' = <[k := d]> (disk s) -> block_at s' k' = if decide (k' = k) then d else block_at s k'.
Proof.
  intros E. unfold block_at. rewrite E. destruct (decide (k' = k)) as [->|Hne].
  - by rewrite lookup_insert_eq.
  - by rewrite lookup_insert_ne.
Qed.

(** [bwrite] sends the buffer to the disk. *)
Lemma bwrite_ok i l s b p :
  io_ready i s -> cache_ok l s -> isbuf s b p -> b_busy p = true -> b_valid p = true ->
  0 <= b_blockno p < FSSIZE ->
  exists s', bwrite b s = Ok tt s' /\ bio_frame s s' /\ cache_ok l s' /\
    bufs s' = alter (fun _ => set_b_dirty false p) b (bufs s) /\
    isbuf s' b (set_b_dirty false p) /\
    disk s' = <[blk p := b_data p]> (disk s) /\ dwrites s' = dwrites s ++ [(blk p, b_data p)] /\
    same_blocks s s'.
Proof.
  intros Hio Hc Hb Hbu Hv Hn. unfold bwrite, getbuf. rewrite bind_gets.
  rewrite (list_lookup_total_correct _ _ _ (proj2 Hb)), Hbu. cbn [negb]. rewrite bind_modify.
  set (s1 := upd_buf b (set_b_dirty true) s). set (p1 := set_b_dirty true p).
  assert (isbuf s1 b p1) as Hb1.
  { split; [apply Hb|]. unfold s1. cbn. by rewrite list_lookup_alter_eq, (proj2 Hb). }
  assert (bio_frame s s1) as Hfr1.
  { split; [apply woken_refl|]. split; [by left|]. by destruct s. }
  pose proof (io_ready_frame _ _ _ Hio Hfr1) as Hio1.
  pose proof (iderw_quiet i b p1 s1 (io_quiet _ _ Hio1) (io_ok _ _ Hio1) (io_idle _ _ Hio1) (proj2 Hb1) Hbu
    ltac:(apply andb_false_r) Hn (fun _ => io_disk1 _ _ Hio1)) as E.
  exists (iderw_done b p1 s1). split; [exact E|].
  assert (bufs (iderw_done b p1 s1) = alter (fun _ => set_b_dirty false p) b (bufs s)) as Eb.
  { unfold iderw_done, upd_buf. cbn. rewrite list_alter_twice. f_equal. unfold synced. cbn.
    destruct p. cbn in *. by subst. }
  assert (disk (iderw_done b p1 s1) = <[blk p := b_data p]> (disk s)) as Ed by done.
  pose proof (c_dev _ _ Hc b p Hb Hv) as Hdev.
  assert (forall j q, isbuf s j q -> j <> b -> b_valid q = true -> blk q <> blk p) as Hne.
  { intros j q Hj Hjb Hvq Eblk. apply Hjb. pose proof (c_dev _ _ Hc j q Hj Hvq) as Hdq.
    destruct (blk_inj q p) as [E1 E2]; [done..|]. by eapply (c_uniq _ _ Hc j b q p). }
  assert (cache_ok l (iderw_done b p1 s1)) as Hc'.
  { eapply (cache_ok_set l s _ b p); try done; cbn.
    - intros j q Hj Hjb Hok [E1 E2]. apply Hjb. by eapply (c_uniq _ _ Hc j b q p); try done; rewrite E1.
    - by rewrite Hbu.
    - by eapply (c_data _ _ Hc).
    - intros k. rewrite (block_at_insert s _ _ _ _ Ed). destruct (decide _); [by eapply (c_data _ _ Hc)|apply (c_disk _ _ Hc)].
    - intros j q Hj Hjb Hvq. rewrite (block_at_insert s _ _ _ _ Ed). rewrite decide_False; [done|by eapply Hne]. }
  split; [by eapply bio_frame_trans; [|apply iderw_frame]|]. split; [done|]. split; [done|].
  split; [exact (isbuf_alter_eq _ _ _ _ _ Eb Hb)|]. split; [done|]. split; [done|].
  refine (bview_same l l _ _ Hc Hc' _ _ _).
  - intros j q Hj Hvq. left. destruct (decide (j = b)) as [->|Hjb].
    + exists (set_b_dirty false p). destruct Hb as [? Hb], Hj as [? Hj]. simplify_eq.
      split; [|done]. exact (isbuf_alter_eq _ _ _ _ _ Eb (conj H Hb)).
    + exists q. split_and!; try done. by eapply isbuf_alter_ne.
  - intros j q Hj Hvq. destruct (isbuf_alter _ _ _ _ _ _ Eb Hj) as [[-> ->]|[Hjb Hj']]; symmetry.
    + by eapply (bview_cached l s b p).
    + by eapply bview_cached.
  - intros dev n Hok Hno. rewrite (block_at_insert s _ _ _ _ Ed). rewrite decide_False; [done|].
    intros Eblk. apply (Hno b (set_b_dirty false p)); [exact (isbuf_alter_eq _ _ _ _ _ Eb Hb)|done|].
    apply pair_equal_spec in Eblk as [E1 E2]. split; [symmetry; by apply land_dev_inj|done].
Qed.

Lemma core_fields p q :
  core p = core q ->
  b_busy p = b_busy q /\ b_valid p = b_valid q /\ b_dirty p = b_dirty q /\ b_dev p = b_dev q /\
  b_blockno p = b_blockno q /\ b_data p = b_data q.
Proof. destruct p, q. cbn. unfold core. cbn. by intros [= -> -> -> -> -> ->]. Qed.

(** Relinking the buffers changes nothing else. *)
Definition relinked (s s' : kst) : Prop :=
  length (bufs s') = length (bufs s) /\ disk s' = disk s /\
  forall j : nat, core (bufs s' !!! j) = core (bufs s !!! j).

Lemma relinked_isbuf s s' j q :
  relinked s s' -> isbuf s' j q -> exists q0, isbuf s j q0 /\ core q = core q0.
Proof.
  intros (El & _ & Ec) [Hlt Hq]. apply lookup_lt_Some in Hq as Hl. rewrite El in Hl.
  destruct (lookup_lt_is_Some_2 _ _ Hl) as [q0 Hq0]. exists q0. split; [done|].
  specialize (Ec j). by rewrite (list_lookup_total_correct _ _ _ Hq), (list_lookup_total_correct _ _ _ Hq0) in Ec.
Qed.

Lemma relinked_sym s s' : relinked s s' -> relinked s' s.
Proof. intros (H1 & H2 & H3). split_and!; [done|done|]. intros. by rewrite H3. Qed.

Lemma relinked_cache l l' s s' :
  cache_ok l s -> relinked s s' -> dll (bufs s') l' -> l' ≡ₚ l -> cache_ok l' s'.
Proof.
  intros Hc Hr Hd Hp. pose proof Hr as (El & Ed & _).
  assert (forall k, block_at s' k = block_at s k) as Ek by (intros; unfold block_at; by rewrite Ed).
  split; try done.
  - by rewrite El, (c_len _ _ Hc).
  - by rewrite Hp, (c_perm _ _ Hc).
  - intros i j p q Hi Hj E1 E2 Hok.
    destruct (relinked_isbuf _ _ _ _ Hr Hi) as (p0 & Hi0 & (_ & _ & _ & P4 & P5 & _)%core_fields).
    destruct (relinked_isbuf _ _ _ _ Hr Hj) as (q0 & Hj0 & (_ & _ & _ & Q4 & Q5 & _)%core_fields).
    eapply (c_uniq _ _ Hc i j p0 q0); congruence || (by rewrite <- P4).
  - intros i p Hi Hbu Hv Hdi. destruct (relinked_isbuf _ _ _ _ Hr Hi) as (p0 & Hi0 & (P1 & P2 & P3 & P4 & P5 & P6)%core_fields).
    rewrite P6, Ek. unfold blk. rewrite P4, P5. eapply (c_clean _ _ Hc); [done|congruence..].
  - intros i p Hi Hv. destruct (relinked_isbuf _ _ _ _ Hr Hi) as (p0 & Hi0 & (P1 & P2 & P3 & P4 & P5 & P6)%core_fields).
    rewrite P4. eapply (c_dev _ _ Hc); [done|congruence].
  - intros i p Hi Hv. destruct (relinked_isbuf _ _ _ _ Hr Hi) as (p0 & Hi0 & (P1 & P2 & P3 & P4 & P5 & P6)%core_fields).
    rewrite P2. eapply (c_dirty _ _ Hc); [done|congruence].
  - intros i p Hi. destruct (relinked_isbuf _ _ _ _ Hr Hi) as (p0 & Hi0 & (P1 & P2 & P3 & P4 & P5 & P6)%core_fields).
    rewrite P6. by eapply (c_data _ _ Hc).
  - intros k. rewrite Ek. apply (c_disk _ _ Hc).
Qed.

Lemma relinked_view l l' s s' : cache_ok l s -> cache_ok l' s' -> relinked s s' -> same_blocks s s'.
Proof.
  intros Hc Hc' Hr. pose proof Hr as (_ & Ed & _). refine (bview_same l l' _ _ Hc Hc' _ _ _).
  - intros b p Hb Hv. left. destruct (relinked_isbuf _ _ _ _ (relinked_sym _ _ Hr) Hb) as (q & Hq & E%core_fields).
    exists q. split; [done|]. destruct E as (_ & E2 & _ & E4 & E5 & _). by rewrite <- E2, <- E4, <- E5.
  - intros b p Hb Hv. destruct (relinked_isbuf _ _ _ _ Hr Hb) as (q & Hq & (_ & E2 & _ & E4 & E5 & E6)%core_fields).
    rewrite E4, E5, E6. symmetry. eapply bview_cached; [done|done|congruence].
  - intros. unfold block_at. by rewrite Ed.
Qed.

(** [brelse] in terms of the list. *)
Lemma brelse_eq i s b p :
  io_ready i s -> bufs s !! b = Some p -> b_busy p = true ->
  brelse b s = Ok tt (settled (set_ptable (wakeup1_pt (CBuf b) (ptable s))
    (set_bufs (alter (set_b_busy false) b (to_front b (bufs s))) s))).
Proof.
  intros Hio Hb Hbu. pose proof (q_locks _ _ (io_quiet _ _ Hio)) as Hl.
  pose proof (quiet_sane _ _ (io_quiet _ _ Hio)) as Hs.
  unfold brelse, getbuf. rewrite bind_gets, (list_lookup_total_correct _ _ _ Hb), Hbu. cbn [negb].
  rewrite bind_acquire by (by rewrite Hl).
  rewrite !bind_gets, bind_modify, !bind_gets, bind_modify, bind_gets, !bind_modify, bind_gets, !bind_modify.
  rewrite bind_wakeup; [|cbn; by rewrite lookup_insert_ne, Hl|by apply pushcli_sane].
  rewrite (release_acquired LBcache (cpu s)); [| |cbn; by rewrite settle_pushcli|done].
  - cbn. rewrite Hl, delete_insert_id by done. unfold settled. cbn. rewrite <- Hl. f_equal.
  - cbn. by rewrite lookup_insert_eq, settle_pushcli, pushcli_id.
Qed.

(** [brelse] gives the buffer back and makes it the most recently used. *)
Lemma brelse_ok i l s b p :
  io_ready i s -> cache_ok l s -> isbuf s b p -> b_busy p = true -> b_valid p = true ->
  (b_dirty p = false -> b_data p = block_at s (blk p)) ->
  exists s' l' p', brelse b s = Ok tt s' /\ bio_frame s s' /\ cache_ok (b :: l') s' /\
    l ≡ₚ b :: l' /\ isbuf s' b p' /\ core p' = core (set_b_busy false p) /\
    (forall j q, isbuf s' j q -> j <> b -> exists q0, isbuf s j q0 /\ core q = core q0) /\
    (forall j q, isbuf s j q -> j <> b -> exists q0, isbuf s' j q0 /\ core q0 = core q) /\
    same_blocks s s' /\ disk s' = disk s /\ dwrites s' = dwrites s.
Proof.
  intros Hio Hc Hb Hbu Hv Hcl.
  pose proof (brelse_eq i s b p Hio (proj2 Hb) Hbu) as E.
  set (s1 := set_bufs (to_front b (bufs s)) s).
  assert (relinked s s1) as Hr.
  { split_and!; [apply length_to_front|done|]. intros j. apply to_front_core. }
  destruct (list_elem_of_split _ _ (isbuf_in _ _ _ _ Hc Hb)) as (l1 & l2 & El).
  assert (NoDup (HEAD :: l)) as Hnd.
  { rewrite (c_perm _ _ Hc). apply NoDup_cons. split; [|apply NoDup_seq].
    intros [_ H]%elem_of_seq. unfold HEAD in H. lia. }
  assert (forall j, j ∈ HEAD :: l -> (j < length (bufs s))%nat) as Hlen.
  { intros j [->|Hj]%elem_of_cons; rewrite (c_len _ _ Hc); [unfold HEAD; lia|].
    rewrite (c_perm _ _ Hc) in Hj. apply elem_of_seq in Hj. lia. }
  assert (dll (bufs s1) (b :: l1 ++ l2)) as Hd1.
  { apply to_front_links; [rewrite <- El; apply (c_links _ _ Hc)|by rewrite <- El|by rewrite <- El]. }
  assert (cache_ok (b :: l1 ++ l2) s1) as Hc1.
  { eapply relinked_cache; [done..|]. rewrite El. apply Permutation_middle. }
  pose proof (relinked_view _ _ _ _ Hc Hc1 Hr) as Hv1.
  destruct (relinked_isbuf _ _ _ _ (relinked_sym _ _ Hr) Hb) as (p1 & Hb1 & Ep1).
  pose proof (core_fields _ _ Ep1) as (F1 & F2 & F3 & F4 & F5 & F6).
  set (s2 := settled (set_ptable (wakeup1_pt (CBuf b) (ptable s))
    (set_bufs (alter (set_b_busy false) b (to_front b (bufs s))) s))) in *.
  assert (bufs s2 = alter (fun _ => set_b_busy false p1) b (bufs s1)) as Eb2 by (apply alter_const, Hb1).
  assert (isbuf s2 b (set_b_busy false p1)) as Hb2 by (by eapply isbuf_alter_eq).
  assert (cache_ok (b :: l1 ++ l2) s2) as Hc2.
  { eapply (cache_ok_set _ s1 _ b p1); try done; cbn.
    - intros j q Hj Hjb Hok [E1 E2]. apply Hjb. by eapply (c_uniq _ _ Hc1 j b q p1); try done; rewrite E1.
    - intros _ _ Hd. change (block_at s2) with (block_at s). unfold blk. cbn.
      rewrite <- F4, <- F5, <- F6. apply Hcl. congruence.
    - intros Hvd. by eapply (c_dev _ _ Hc1).
    - intros Hvd. by eapply (c_dirty _ _ Hc1).
    - by eapply (c_data _ _ Hc1).
    - apply (c_disk _ _ Hc). }
  exists s2, (l1 ++ l2), (set_b_busy false p1). split; [done|]. split.
  { split; [apply wakeup1_woken|]. split; [by right|]. by destruct s. }
  split; [done|]. split; [rewrite El; by rewrite <- Permutation_middle|]. split; [done|].
  split; [change (set_b_busy false (core p1) = set_b_busy false (core p)); by rewrite Ep1|].
  split; [|split; [|split; [|done]]].
  - intros j q Hj Hjb. destruct (isbuf_alter _ _ _ _ _ _ Eb2 Hj) as [[-> _]|[_ Hj1]]; [done|].
    by eapply relinked_isbuf.
  - intros j q Hj Hjb. destruct (relinked_isbuf _ _ _ _ (relinked_sym _ _ Hr) Hj) as (q1 & Hq1 & Eq1).
    exists q1. split; [by eapply isbuf_alter_ne|done].
  - intros dev n Hok. rewrite <- Hv1 by done.
    refine (bview_same _ _ s1 s2 Hc1 Hc2 _ _ _ dev n Hok); [| |done].
    + intros j q Hj Hvq. left. destruct (decide (j = b)) as [->|Hjb].
      * exists (set_b_busy false p1). destruct Hb1 as [? Hb1], Hj as [? Hj]. by simplify_eq.
      * exists q. split_and!; try done. by eapply isbuf_alter_ne.
    + intros j q Hj Hvq. destruct (isbuf_alter _ _ _ _ _ _ Eb2 Hj) as [[-> ->]|[Hjb Hj']]; symmetry.
      * by eapply (bview_cached _ s1 b p1).
      * by eapply bview_cached.
Qed.

(** ** Initialization *)

(** One turn of [binit]'s loop, on the buffers. *)
Definition binit_turn (bs : list buf) (b : nat) : list buf :=
  let n := b_next (bs !!! HEAD) in
  alter (set_b_next b) HEAD (alter (set_b_prev b) n (alter (set_b_dev 0xffffffff)
    b (alter (set_b_prev HEAD) b (alter (set_b_next n) b bs)))).

Definition binit_bufs (bs : list buf) : list buf :=
  foldl binit_turn (alter (set_b_next HEAD) HEAD (alter (set_b_prev HEAD) HEAD bs)) (seq 0 NBUF).

Lemma binit_loop (l : list nat) s :
  forM l (fun b =>
    let* n := getbuf HEAD b_next in
    modify (upd_buf b (set_b_next n)) ;;
    modify (upd_buf b (set_b_prev HEAD)) ;;
    modify (upd_buf b (set_b_dev 0xffffffff)) ;;
    modify (upd_buf n (set_b_prev b)) ;;
    modify (upd_buf HEAD (set_b_next b))) s = Ok tt (set_bufs (foldl binit_turn (bufs s) l) s).
Proof.
  revert s. induction l as [|b l IH]; intros s; cbn [forM foldl]; [by destruct s|].
  rewrite (bind_Ok _ _ _ tt (set_bufs (binit_turn (bufs s) b) s)) by (by destruct s).
  rewrite IH. by destruct s.
Qed.

Lemma binit_eq s : binit s = Ok tt (set_bufs (binit_bufs (bufs s)) (set_locks (delete LBcache (locks s)) s)).
Proof.
  unfold binit, binit_bufs, initlock. generalize (seq 0 NBUF) as l. intros l.
  rewrite !bind_modify, binit_loop. by destruct s.
Qed.

(** The buffers as the loader leaves them. *)
Definition zero_bufs : list buf := replicate (S NBUF) inhabitant.

Lemma binit_zero_links : dll (binit_bufs zero_bufs) (reverse (seq 0 NBUF)).
Proof. vm_compute. repeat split. Qed.

Lemma binit_zero_nth b p : binit_bufs zero_bufs !! b = Some p -> (b < NBUF)%nat ->
  b_valid p = false /\ b_dirty p = false /\ b_busy p = false /\ b_dev p = 0xffffffff /\ length (b_data p) = BSIZE.
Proof.
  assert (Forall (fun p => b_valid p = false /\ b_dirty p = false /\ b_busy p = false /\ b_dev p = 0xffffffff /\
    length (b_data p) = BSIZE) (take NBUF (binit_bufs zero_bufs))) as Hall by (vm_compute; repeat constructor).
  intros Hp Hb. eapply (Forall_lookup_1 _ _ b p Hall). by rewrite lookup_take_lt.
Qed.
