(* ===== verification/Cache.v ===== *)
(** * The buffer cache as its clients see it

    A process holds some buffers ([H]) and the blocks [D] have changes that are
    not on disk; [bread], [bwrite] and [brelse] and writes to the data of a held
    buffer are specified by their effect on the contents of the blocks. *)

From S2P Require Import Prelude State Mem Spinlock Sched SchedFacts Ide Bio BioFacts.

(** Buffer [b] is in use for block [n] of [dev], with these contents. *)
Definition held (s : kst) (b : nat) (dev n : Z) (data : list Z) (dirty : bool) : Prop :=
  exists p, isbuf s b p /\ b_busy p = true /\ b_valid p = true /\ b_dirty p = dirty /\
    b_dev p = dev /\ b_blockno p = n /\ b_data p = data.

Record bcache (i : nat) (H : list nat) (D : list (Z * Z)) (s : kst) : Prop := {
  bc_io : io_ready i s;
  bc_ok : exists l, cache_ok l s;
  bc_busy : forall b p, isbuf s b p -> b_busy p = true -> b ∈ H /\ b_valid p = true;
  bc_dirty : forall b p, isbuf s b p -> b_dirty p = true -> (b_dev p, b_blockno p) ∈ D }.

(** The buffers held before are held after. *)
Definition keep_held (s s' : kst) : Prop :=
  forall b dev n data d, held s b dev n data d -> held s' b dev n data d.

(** Block [n] of [dev] is in the cache with changes that are not on disk. *)
Definition dirtyc (s : kst) (dev n : Z) : Prop :=
  exists b p, isbuf s b p /\ b_dirty p = true /\ b_dev p = dev /\ b_blockno p = n.

Definition keep_dirty (s s' : kst) : Prop := forall dev n, dirtyc s dev n -> dirtyc s' dev n.

(** A buffer can be found for the block. *)
Definition room (H : list nat) (D : list (Z * Z)) (s : kst) (dev n : Z) : Prop :=
  dirtyc s dev n \/ (length H + length D < NBUF)%nat.

Lemma held_fun s b dev n data d dev' n' data' d' :
  held s b dev n data d -> held s b dev' n' data' d' ->
  dev = dev' /\ n = n' /\ data = data' /\ d = d'.
Proof.
  intros (p & [_ Hp] & _ & _ & <- & <- & <- & <-) (q & [_ Hq] & _ & _ & <- & <- & <- & <-). by simplify_eq.
Qed.

Lemma held_view i H D s b dev n data d :
  bcache i H D s -> held s b dev n data d -> bview s dev n = data /\ dev_ok dev /\ length data = BSIZE.
Proof.
  intros [_ [l Hl] _ _] (p & Hp & _ & Hv & _ & <- & <- & <-).
  split; [by eapply bview_cached|]. split; [by eapply (c_dev _ _ Hl)|by eapply (c_data _ _ Hl)].
Qed.

(** A block is held in one buffer at most. *)
Lemma held_inj i H D s b b' dev n data d data' d' :
  bcache i H D s -> held s b dev n data d -> held s b' dev n data' d' -> b = b'.
Proof.
  intros [_ [l Hl] _ _] (p & Hp & _ & Hv & _ & E1 & E2 & _) (q & Hq & _ & _ & _ & E3 & E4 & _).
  eapply (c_uniq _ _ Hl b b' p q); try done; try congruence. by eapply (c_dev _ _ Hl).
Qed.

Lemma NoDup_length_le {A} (l k : list A) : NoDup l -> (forall x, x ∈ l -> x ∈ k) -> (length l <= length k)%nat.
Proof. intros Hn Hs. apply submseteq_length, NoDup_submseteq; done. Qed.

(** With fewer than NBUF buffers held or dirty, one can be recycled. *)
Lemma reusable_exists i H D s :
  bcache i H D s -> (length H + length D < NBUF)%nat -> exists b p, isbuf s b p /\ reusable p = true.
Proof.
  intros [_ [l Hl] Hbusy Hdirty] Hlen.
  destruct (decide (Exists (fun b => reusable (bufs s !!! b) = true) (seq 0 NBUF))) as [Hex|Hno].
  { apply Exists_exists in Hex as (b & Hb%elem_of_seq & Hr).
    destruct (lookup_lt_is_Some_2 (bufs s) b) as [p Hp]; [rewrite (c_len _ _ Hl); lia|].
    exists b, p. rewrite (list_lookup_total_correct _ _ _ Hp) in Hr. by split; [split; [lia|]|]. }
  exfalso. pose (f b := (b_dev (bufs s !!! b), b_blockno (bufs s !!! b))).
  assert (forall b, b ∈ seq 0 NBUF -> exists p, isbuf s b p /\ bufs s !!! b = p /\ (b_busy p = true \/ b_dirty p = true)) as Hall.
  { intros b Hb. apply elem_of_seq in Hb as Hb'.
    destruct (lookup_lt_is_Some_2 (bufs s) b) as [p Hp]; [rewrite (c_len _ _ Hl); lia|].
    exists p. split; [split; [lia|done]|]. split; [by apply list_lookup_total_correct|].
    destruct (b_busy p) eqn:E1; [by left|]. destruct (b_dirty p) eqn:E2; [by right|]. exfalso. apply Hno.
    apply Exists_exists. exists b. split; [done|]. rewrite (list_lookup_total_correct _ _ _ Hp).
    unfold reusable. by rewrite E1, E2. }
  assert (length (filter (fun b => b ∈ H) (seq 0 NBUF)) <= length H)%nat as H1.
  { apply NoDup_length_le; [apply NoDup_filter, NoDup_seq|]. intros b. rewrite list_elem_of_filter. tauto. }
  assert (length (f <$> filter (fun b => b ∉ H) (seq 0 NBUF)) <= length D)%nat as H2.
  { apply NoDup_length_le.
    - apply NoDup_fmap_2_strong; [|apply NoDup_filter, NoDup_seq]. unfold f.
      intros b b' [Hb Hbin]%list_elem_of_filter [Hb' Hbin']%list_elem_of_filter [= E1 E2].
      destruct (Hall b Hbin) as (p & Hp & Ep & Hpp), (Hall b' Hbin') as (q & Hq & Eq & Hqq).
      rewrite Ep, Eq in *. assert (b_dirty p = true) as Hd.
      { destruct Hpp as [Hpp|?]; [|done]. by apply (Hbusy b p Hp) in Hpp as [? _]. }
      eapply (c_uniq _ _ Hl b b' p q); try done. eapply (c_dev _ _ Hl); [done|]. by eapply (c_dirty _ _ Hl).
    - intros x (b & -> & [Hb Hbin]%list_elem_of_filter)%list_elem_of_fmap. unfold f.
      destruct (Hall b Hbin) as (p & Hp & Ep & Hpp). rewrite Ep. apply (Hdirty b p Hp).
      destruct Hpp as [Hpp|?]; [|done]. by apply (Hbusy b p Hp) in Hpp as [? _]. }
  rewrite length_fmap in H2. pose proof (filter_app_complement (fun b => b ∈ H) (seq 0 NBUF)) as Hp.
  apply Permutation_length in Hp. rewrite length_app, length_seq in Hp. lia.
Qed.

(** ** The operations *)

Lemma held_alter s s' b p j dev n data d :
  bufs s' = alter (fun _ => p) b (bufs s) -> j <> b -> held s j dev n data d -> held s' j dev n data d.
Proof. intros E Hne (q & Hq & Hr). exists q. split; [by eapply isbuf_alter_ne|done]. Qed.

Lemma bread_spec i H D s dev n :
  bcache i H D s -> dev_ok dev -> 0 <= n < FSSIZE -> room H D s dev n ->
  (forall b data d, ~ held s b dev n data d) ->
  exists b d s', bread dev n s = Ok b s' /\ bio_frame s s' /\ bcache i (b :: H) D s' /\
    held s' b dev n (bview s dev n) d /\ (forall dev' n' data' d', ~ held s b dev' n' data' d') /\
    (d = false -> bview s dev n = block_at s' (Z.land dev 1, n)) /\ (d = true -> (dev, n) ∈ D) /\
    same_blocks s s' /\ keep_held s s' /\ keep_dirty s s' /\ disk s' = disk s /\ dwrites s' = dwrites s.
Proof.
  intros Hbc Hdev Hn Hlen Hnh. pose proof Hbc as [Hio [l Hl] Hbusy Hdirty].
  destruct (bread_ok i l s dev n Hio Hl Hdev Hn) as (b & p0 & p & s' & E & Hfr & Hl' & Hb0 & Hbu0 & Hb & Eb &
    P1 & P2 & P3 & P0 & P4 & P5 & P6 & P7 & Hsame & Hdisk & Hdw).
  { intros b p Hp [E1 E2]%is_block_eq. destruct (b_busy p) eqn:Ebu; [|done]. exfalso.
    apply (Hnh b (b_data p) (b_dirty p)). exists p. split_and!; try done. by apply (Hbusy b p). }
  { destruct Hlen as [(b & p & Hp & _ & E1 & E2)|Hlen].
    - exists b, p. split; [done|left]. by apply is_block_eq.
    - destruct (reusable_exists i H D s Hbc Hlen) as (b & p & Hp & Hr). eauto. }
  exists b, (b_dirty p), s'. split; [done|]. split; [done|]. split.
  { split.
    - by eapply io_ready_frame.
    - by exists l.
    - intros j q Hj Hbj. destruct (isbuf_alter _ _ _ _ _ _ Eb Hj) as [[-> ->]|[Hne Hj0]]; [split; [by left|done]|].
      destruct (Hbusy j q Hj0 Hbj). split; [by right|done].
    - intros j q Hj Hdj. destruct (isbuf_alter _ _ _ _ _ _ Eb Hj) as [[-> ->]|[Hne Hj0]]; [|by eapply Hdirty].
      rewrite P4, P5. assert (b_dirty p0 = true) as Hd0 by congruence.
      destruct (P0 Hd0) as [<- <-]. by eapply Hdirty. }
  split; [exists p; by split_and!|]. split.
  { intros dev' n' data' d' (q & [_ Hq] & Hqb & _). destruct Hb0 as [_ Hb0]. simplify_eq. congruence. }
  split; [intros Hd; rewrite <- P6, (P7 Hd); unfold blk; by rewrite P4, P5|].
  split; [|split; [done|split; [|split; [|done]]]].
  - intros Hd. rewrite P3 in Hd. destruct (P0 Hd) as [<- <-]. by eapply Hdirty.
  - intros j dev' n' data' d' Hh. eapply held_alter; [done| |done]. intros ->.
    destruct Hh as (q & [_ Hq] & Hqb & _). destruct Hb0 as [_ Hb0]. simplify_eq. congruence.
  - intros dev' n' (j & q & Hj & Hdq & E1 & E2). destruct (decide (j = b)) as [->|Hne].
    + exists b, p. destruct Hj as [_ Hj], Hb0 as [_ Hb0]. simplify_eq.
      destruct (P0 Hdq) as [-> ->]. split_and!; try done. by rewrite P3.
    + exists j, q. split; [by eapply isbuf_alter_ne|done].
Qed.

Lemma bwrite_spec i H D s b dev n data d :
  bcache i H D s -> held s b dev n data d -> 0 <= n < FSSIZE ->
  exists s', bwrite b s = Ok tt s' /\ bio_frame s s' /\
    bcache i H (filter (fun k => k <> (dev, n)) D) s' /\ held s' b dev n data false /\
    (forall j dev' n' data' d', j <> b -> held s j dev' n' data' d' -> held s' j dev' n' data' d') /\
    same_blocks s s' /\ disk s' = <[(Z.land dev 1, n) := data]> (disk s) /\
    dwrites s' = dwrites s ++ [((Z.land dev 1, n), data)] /\
    data = block_at s' (Z.land dev 1, n) /\
    (forall dev' n', (dev', n') <> (dev, n) -> dirtyc s dev' n' -> dirtyc s' dev' n').
Proof.
  intros Hbc (p & Hp & Hbu & Hv & Hdi & Ed & En & Eda) Hn. pose proof Hbc as [Hio [l Hl] Hbusy Hdirty].
  destruct (bwrite_ok i l s b p Hio Hl Hp Hbu Hv) as (s' & E & Hfr & Hl' & Eb & Hb' & Hdisk & Hdw & Hsame); [by rewrite En|].
  assert (blk p = (Z.land dev 1, n)) as Eblk by (unfold blk; by rewrite Ed, En).
  rewrite Eblk, Eda in *. exists s'. split; [done|]. split; [done|]. split.
  { split; [by eapply io_ready_frame|by exists l| |].
    - intros j q Hj Hbj. destruct (isbuf_alter _ _ _ _ _ _ Eb Hj) as [[-> ->]|[Hne Hj0]]; [exact (Hbusy b p Hp Hbu)|by eapply Hbusy].
    - intros j q Hj Hdj. destruct (isbuf_alter _ _ _ _ _ _ Eb Hj) as [[-> ->]|[Hne Hj0]]; [done|].
      apply list_elem_of_filter. split; [|by eapply Hdirty]. intros [= E1 E2]. apply Hne.
      eapply (c_uniq _ _ Hl j b q p); try done; try congruence.
      eapply (c_dev _ _ Hl); [done|]. by eapply (c_dirty _ _ Hl). }
  split; [by exists (set_b_dirty false p)|]. split; [intros; by eapply held_alter|].
  split; [done|]. split; [done|]. split; [done|].
  split; [rewrite (block_at_insert s _ _ _ _ Hdisk); by rewrite decide_True|].
  intros dev' n' Hne (j & q & Hj & Hdq & E1 & E2). exists j, q. split; [|done].
  eapply isbuf_alter_ne; [done..|]. intros ->. destruct Hj as [_ Hj], Hp as [_ Hp]. simplify_eq.
Qed.

Lemma brelse_spec i H D s b dev n data d :
  bcache i (b :: H) D s -> b ∉ H -> held s b dev n data d ->
  (d = false -> data = block_at s (Z.land dev 1, n)) ->
  exists s', brelse b s = Ok tt s' /\ bio_frame s s' /\ bcache i H D s' /\
    (forall dev' n' data' d', ~ held s' b dev' n' data' d') /\
    (forall j dev' n' data' d', j <> b -> held s j dev' n' data' d' -> held s' j dev' n' data' d') /\
    (forall j dev' n' data' d', held s' j dev' n' data' d' -> held s j dev' n' data' d') /\
    same_blocks s s' /\ keep_dirty s s' /\ disk s' = disk s /\ dwrites s' = dwrites s.
Proof.
  intros Hbc Hni (p & Hp & Hbu & Hv & Hdi & Ed & En & Eda) Hcl. pose proof Hbc as [Hio [l Hl] Hbusy Hdirty].
  destruct (brelse_ok i l s b p Hio Hl Hp Hbu Hv) as (s' & l' & p' & E & Hfr & Hl' & _ & Hb' & Ep' & Hin & Hout & Hsame & Hdisk & Hdw).
  { intros Hd. rewrite Eda. unfold blk. rewrite Ed, En. apply Hcl. congruence. }
  pose proof (core_fields _ _ Ep') as (F1 & F2 & F3 & F4 & F5 & F6). cbn in *.
  exists s'. split; [done|]. split; [done|]. split.
  { split; [by eapply io_ready_frame|eauto| |].
    - intros j q Hj Hbj. destruct (decide (j = b)) as [->|Hne].
      + destruct Hj as [_ Hj], Hb' as [_ Hb']. simplify_eq. congruence.
      + destruct (Hin j q Hj Hne) as (q0 & Hq0 & (G1 & G2 & _)%core_fields).
        destruct (Hbusy j q0 Hq0) as [K1 K2]; [congruence|]. apply elem_of_cons in K1 as [?|K1]; [done|].
        split; [done|congruence].
    - intros j q Hj Hdj. destruct (decide (j = b)) as [->|Hne].
      + destruct Hj as [_ Hj], Hb' as [_ Hb']. simplify_eq. rewrite F4, F5. apply (Hdirty b p Hp). congruence.
      + destruct (Hin j q Hj Hne) as (q0 & Hq0 & (G1 & G2 & G3 & G4 & G5 & _)%core_fields).
        rewrite G4, G5. apply (Hdirty j q0 Hq0). congruence. }
  assert (forall dev' n' data' d', ~ held s' b dev' n' data' d') as Hnb.
  { intros dev' n' data' d' (q & [_ Hq] & Hqb & _). destruct Hb' as [_ Hb']. simplify_eq. congruence. }
  split; [done|]. split; [|split].
  - intros j dev' n' data' d' Hne (q & Hq & Hrest). destruct (Hout j q Hq Hne) as (q0 & Hq0 & G%core_fields).
    exists q0. split; [done|]. destruct G as (-> & -> & -> & -> & -> & ->). done.
  - intros j dev' n' data' d' (q & Hq & Hrest). destruct (decide (j = b)) as [->|Hne].
    { exfalso. eapply Hnb. by exists q. }
    destruct (Hin j q Hq Hne) as (q0 & Hq0 & G%core_fields). exists q0. split; [done|].
    destruct G as (<- & <- & <- & <- & <- & <-). done.
  - split; [done|]. split; [|done]. intros dev' n' (j & q & Hj & Hdq & E1 & E2).
    destruct (decide (j = b)) as [->|Hne].
    + exists b, p'. destruct Hj as [_ Hj], Hp as [_ Hp]. simplify_eq. split_and!; try done; congruence.
    + destruct (Hout j q Hj Hne) as (q0 & Hq0 & (_ & _ & G3 & G4 & G5 & _)%core_fields).
      exists j, q0. split_and!; try done; congruence.
Qed.

(** ** Changing a held buffer *)

Lemma upd_buf_frame b f s : bio_frame s (upd_buf b f s).
Proof. split; [apply woken_refl|]. split; [by left|]. by destruct s. Qed.

(** Changing the data or the dirty bit of a held buffer. *)
Lemma cache_ok_held l s b p f :
  cache_ok l s -> isbuf s b p -> b_valid p = true -> b_busy (f p) = true -> b_valid (f p) = true ->
  b_next (f p) = b_next p -> b_prev (f p) = b_prev p -> b_dev (f p) = b_dev p ->
  b_blockno (f p) = b_blockno p -> length (b_data (f p)) = BSIZE ->
  cache_ok l (upd_buf b f s) /\ bufs (upd_buf b f s) = alter (fun _ => f p) b (bufs s).
Proof.
  intros Hc Hb Hv Hbu Hv' E1 E2 E3 E4 E5.
  assert (bufs (upd_buf b f s) = alter (fun _ => f p) b (bufs s)) as Eb by (apply alter_const, Hb).
  split; [|done]. eapply (cache_ok_set l s _ b p (f p)); try done.
  - intros j q Hj Hjb Hok [K1 K2]. apply Hjb. eapply (c_uniq _ _ Hc j b q p); try done; congruence.
  - by rewrite Hbu.
  - intros _. rewrite E3. by eapply (c_dev _ _ Hc).
  - apply (c_disk _ _ Hc).
Qed.

Lemma setdata_spec i H D s b dev n data d data' :
  bcache i H D s -> held s b dev n data d -> length data' = BSIZE ->
  let s' := upd_buf b (set_b_data data') s in
  bcache i H D s' /\ held s' b dev n data' d /\
  (forall j dev' n' data' d', j <> b -> held s j dev' n' data' d' -> held s' j dev' n' data' d') /\
  (forall dev' n', dev_ok dev' -> bview s' dev' n' = if decide ((dev', n') = (dev, n)) then data' else bview s dev' n') /\
  keep_dirty s s'.
Proof.
  intros Hbc (p & Hp & Hbu & Hv & Hdi & Ed & En & Eda) Hlen s'. pose proof Hbc as [Hio [l Hl] Hbusy Hdirty].
  destruct (cache_ok_held l s b p (set_b_data data') Hl Hp Hv) as [Hl' Eb]; try done. fold s' in Hl', Eb.
  assert (isbuf s' b (set_b_data data' p)) as Hb' by (by eapply isbuf_alter_eq).
  split; [|split; [by eexists|split; [|split]]].
  - split; [by eapply io_ready_frame; [|apply upd_buf_frame]|by exists l| |].
    + intros j q Hj Hbj. destruct (isbuf_alter _ _ _ _ _ _ Eb Hj) as [[-> ->]|[Hne Hj0]]; [exact (Hbusy b p Hp Hbu)|by eapply Hbusy].
    + intros j q Hj Hdj. destruct (isbuf_alter _ _ _ _ _ _ Eb Hj) as [[-> ->]|[Hne Hj0]]; [exact (Hdirty b p Hp Hdj)|by eapply Hdirty].
  - intros. by eapply held_alter.
  - intros dev' n' Hok. destruct (decide _) as [[= -> ->]|Hne].
    + rewrite <- Ed, <- En. exact (bview_cached l s' b _ Hl' Hb' Hv).
    + unfold bview at 2. destruct (List.find _ (take NBUF (bufs s))) as [q|] eqn:E.
      * apply find_take_isbuf in E as (j & Hj & Ht). apply andb_true_iff in Ht as [[E1 E2]%is_block_eq Hvq].
        assert (j <> b) as Hjb.
        { intros ->. destruct Hj as [_ Hj], Hp as [_ Hp]. by simplify_eq. }
        rewrite <- E1, <- E2. eapply bview_cached; [done| |done]. by eapply isbuf_alter_ne.
      * assert (forall j q, isbuf s j q -> b_dev q = dev' -> b_blockno q = n' -> b_valid q = false) as Hno.
        { intros j q [Hlt Hj] E1 E2. pose proof (List.find_none _ _ E q) as Hn. cbn beta in Hn.
          rewrite (proj2 (is_block_eq dev' n' q) (conj E1 E2)) in Hn. apply Hn.
          apply list_elem_of_In, list_elem_of_lookup. exists j. by apply lookup_take_Some. }
        refine (bview_uncached s' _ _ _). intros j q Hj E1 E2.
        destruct (isbuf_alter _ _ _ _ _ _ Eb Hj) as [[-> ->]|[Hjb Hj0]]; [|by eapply Hno].
        cbn in *. by destruct Hne; rewrite <- E1, <- E2, Ed, En.
  - intros dev' n' (j & q & Hj & Hdq & E1 & E2). destruct (decide (j = b)) as [->|Hne].
    + exists b, (set_b_data data' p). destruct Hj as [_ Hj], Hp as [_ Hp]. by simplify_eq.
    + exists j, q. split; [by eapply isbuf_alter_ne|done].
Qed.

Lemma setdirty_spec i H D s b dev n data d :
  bcache i H D s -> held s b dev n data d ->
  let s' := upd_buf b (set_b_dirty true) s in
  bcache i H ((dev, n) :: D) s' /\ held s' b dev n data true /\
  (forall j dev' n' data' d', j <> b -> held s j dev' n' data' d' -> held s' j dev' n' data' d') /\
  same_blocks s s' /\ keep_dirty s s' /\ dirtyc s' dev n.
Proof.
  intros Hbc (p & Hp & Hbu & Hv & Hdi & Ed & En & Eda) s'. pose proof Hbc as [Hio [l Hl] Hbusy Hdirty].
  destruct (cache_ok_held l s b p (set_b_dirty true) Hl Hp Hv) as [Hl' Eb]; try done.
  { exact (c_data _ _ Hl b p Hp). }
  fold s' in Hl', Eb.
  assert (isbuf s' b (set_b_dirty true p)) as Hb' by (by eapply isbuf_alter_eq).
  split; [|split; [by eexists|split; [|split; [|split; [|by exists b, (set_b_dirty true p)]]]]].
  - split; [by eapply io_ready_frame; [|apply upd_buf_frame]|by exists l| |].
    + intros j q Hj Hbj. destruct (isbuf_alter _ _ _ _ _ _ Eb Hj) as [[-> ->]|[Hne Hj0]]; [exact (Hbusy b p Hp Hbu)|by eapply Hbusy].
    + intros j q Hj Hdj. destruct (isbuf_alter _ _ _ _ _ _ Eb Hj) as [[-> ->]|[Hne Hj0]].
      * cbn. rewrite Ed, En. by left.
      * right. by eapply Hdirty.
  - intros. by eapply held_alter.
  - refine (bview_same l l _ _ Hl Hl' _ _ _); [| |done].
    + intros j q Hj Hvq. left. destruct (decide (j = b)) as [->|Hjb].
      * exists (set_b_dirty true p). destruct Hp as [? Hp], Hj as [? Hj]. by simplify_eq.
      * exists q. split_and!; try done. by eapply isbuf_alter_ne.
    + intros j q Hj Hvq. destruct (isbuf_alter _ _ _ _ _ _ Eb Hj) as [[-> ->]|[Hjb Hj']]; symmetry.
      * by eapply (bview_cached _ s b p).
      * by eapply bview_cached.
  - intros dev' n' (j & q & Hj & Hdq & E1 & E2). destruct (decide (j = b)) as [->|Hne].
    + exists b, (set_b_dirty true p). destruct Hj as [_ Hj], Hp as [_ Hp]. by simplify_eq.
    + exists j, q. split; [by eapply isbuf_alter_ne|done].
Qed.
