(* ===== verification/CacheThm.v ===== *)
(** * What the buffer cache promises

    The buffer cache as a store of blocks: the state [binit] leaves, reading,
    writing and releasing; the sector a request selects on the disk. *)

From S2P Require Import Prelude State Mem Spinlock Sched SchedFacts Ide Bio BioFacts Cache.

#[local] Opaque binit_bufs.

(** A process running with no lock held on a machine whose disk has the blocks
    [d], after [binit]. *)
Definition fs_state (d : gmap (Z * Z) (list Z)) : kst :=
  let p := set_p_state RUNNING (set_p_pgdir 0x80400000 inhabitant) in
  set_cpu (MkCpu 0 0 true true (Some 0%nat) 0x80400000 (u32 (p_kstack p + KSTACKSIZE)))
    (set_ptable (<[0%nat := p]> (ptable boot_state))
      (set_bufs (binit_bufs zero_bufs) (set_havedisk1 true (set_disk d boot_state)))).

Lemma fresh_cache s :
  bufs s = binit_bufs zero_bufs -> (forall k, length (block_at s k) = BSIZE) -> cache_ok (reverse (seq 0 NBUF)) s.
Proof.
  intros Eb Hd. assert (forall b p, isbuf s b p -> b_valid p = false /\ b_dirty p = false /\ b_busy p = false /\
    b_dev p = 0xffffffff /\ length (b_data p) = BSIZE) as Hnth.
  { intros b p [Hb Hp]. rewrite Eb in Hp. by apply (binit_zero_nth b). }
  split.
  - rewrite Eb. by vm_compute.
  - by rewrite reverse_Permutation.
  - rewrite Eb. apply binit_zero_links.
  - intros i j p q Hp Hq _ _ [E|E]; destruct (Hnth i p Hp) as (_ & _ & _ & Ed & _); rewrite Ed in E; discriminate.
  - intros i p Hp _ Hv. destruct (Hnth i p Hp) as (E & _). congruence.
  - intros i p Hp Hv. destruct (Hnth i p Hp) as (E & _). congruence.
  - intros i p Hp Hv. destruct (Hnth i p Hp) as (_ & E & _). congruence.
  - intros i p Hp. by destruct (Hnth i p Hp) as (_ & _ & _ & _ & ?).
  - done.
Qed.

Lemma fresh_bcache i s :
  io_ready i s -> bufs s = binit_bufs zero_bufs -> (forall k, length (block_at s k) = BSIZE) -> bcache i [] [] s.
Proof.
  intros Hio Eb Hd. split; [done|eexists; by apply fresh_cache|..].
  - intros b p [Hb Hp] Hbu. rewrite Eb in Hp. destruct (binit_zero_nth b p Hp Hb) as (_ & _ & E & _). congruence.
  - intros b p [Hb Hp] Hbu. rewrite Eb in Hp. destruct (binit_zero_nth b p Hp Hb) as (_ & E & _). congruence.
Qed.

Lemma fs_state_ready d : io_ready 0 (fs_state d).
Proof. split; [split|..]; try done. eexists. by split_and!. Qed.

(** [binit] leaves a well-formed, empty cache.  The doubly linked list goes
    through all NBUF buffers, none is in use or dirty, and every block seen
    through the cache is what the disk has. *)
Theorem binit_empty s :
  bufs s = zero_bufs -> (forall k, length (block_at s k) = BSIZE) ->
  exists s', binit s = Ok tt s' /\ cache_ok (reverse (seq 0 NBUF)) s' /\ disk s' = disk s /\
    (forall b p, isbuf s' b p -> b_busy p = false /\ b_dirty p = false) /\
    forall dev n, dev_ok dev -> bview s' dev n = block_at s (Z.land dev 1, n).
Proof.
  intros Eb Hd. rewrite binit_eq, Eb. set (s' := set_bufs _ _). exists s'. split; [done|].
  assert (bufs s' = binit_bufs zero_bufs /\ disk s' = disk s) as [Eb' Ed] by done. clearbody s'.
  assert (forall k, block_at s' k = block_at s k) as Ek by (intros k; unfold block_at; by rewrite Ed).
  split; [apply fresh_cache; [done|]; intros k; by rewrite Ek|]. split; [done|].
  assert (forall b p, isbuf s' b p -> b_valid p = false /\ b_dirty p = false /\ b_busy p = false) as Hz.
  { intros b p [Hb Hp]. rewrite Eb' in Hp. destruct (binit_zero_nth b p Hp Hb) as (Z1 & Z2 & Z3 & _).
    exact (conj Z1 (conj Z2 Z3)). }
  clear Eb'.
  split; [intros b p Hp; by destruct (Hz b p Hp) as (_ & ? & ?)|].
  intros dev n _. rewrite bview_uncached; [apply Ek|]. intros b p Hp _ _. by destruct (Hz b p Hp) as (? & _).
Qed.

Lemma binit_empty_witness : exists s', binit boot_state = Ok tt s' /\ cache_ok (reverse (seq 0 NBUF)) s'.
Proof.
  destruct (binit_empty boot_state eq_refl (fun k => eq_refl)) as (s' & E & Hc & _). exists s'. exact (conj E Hc).
Defined.

Lemma no_held i D s b dev n data d : bcache i [] D s -> ~ held s b dev n data d.
Proof. intros Hbc (p & Hp & Hbu & _). destruct (bc_busy _ _ _ _ Hbc b p Hp Hbu) as [?%elem_of_nil _]. done. Qed.

(** C10: reading a block returns its current contents and locks its buffer.  By a
    process that holds no buffer, with fewer than NBUF blocks dirty, [bread]
    returns a buffer in use for the block, whose data is the block's contents,
    whether the block was cached, had to be read, or had unwritten changes; no
    block changes and nothing is written to the disk. *)
Theorem bread_returns_block i D s dev n :
  bcache i [] D s -> dev_ok dev -> 0 <= n < FSSIZE -> (length D < NBUF)%nat ->
  exists b d s', bread dev n s = Ok b s' /\ bcache i [b] D s' /\ held s' b dev n (bview s dev n) d /\
    same_blocks s s' /\ keep_dirty s s' /\ disk s' = disk s /\ dwrites s' = dwrites s.
Proof.
  intros Hbc Hdev Hn HD. destruct (bread_spec i [] D s dev n Hbc Hdev Hn) as
    (b & d & s' & E & _ & Hbc' & Hh & _ & _ & _ & V & _ & K & Dk & W); [by right|intros ? ? ?; by eapply no_held|].
  by exists b, d, s'.
Qed.

Lemma bread_returns_block_witness :
  exists b d s', bread 1 7 (fs_state {[(1, 7) := replicate BSIZE 5]}) = Ok b s' /\ held s' b 1 7 (replicate BSIZE 5) d.
Proof.
  destruct (bread_returns_block 0 [] (fs_state {[(1, 7) := replicate BSIZE 5]}) 1 7) as (b & d & s' & E & _ & Hh & _).
  - apply fresh_bcache; [apply fs_state_ready|reflexivity|]. intros k. unfold block_at. cbn [disk fs_state set_cpu set_ptable set_bufs set_havedisk1 set_disk].
    destruct (decide (k = (1, 7))) as [->|Hk]; [by rewrite lookup_singleton_eq|by rewrite lookup_singleton_ne].
  - by right.
  - by vm_compute.
  - apply Nat.lt_0_succ.
  - exists b, d, s'. exact (conj E Hh).
Defined.

(** A block written through the cache is on the disk, and the next [bread]
    of it finds it.  [bread], a change of the data, [bwrite] and [brelse] change
    this block only, also on the disk. *)
Theorem block_write_read i D s dev n data :
  bcache i [] D s -> dev_ok dev -> 0 <= n < FSSIZE -> (length D < NBUF)%nat -> length data = BSIZE ->
  exists s', (let* b := bread dev n in modify (upd_buf b (set_b_data data)) ;; bwrite b ;; brelse b) s = Ok tt s' /\
    bcache i [] D s' /\ disk s' = <[(Z.land dev 1, n) := data]> (disk s) /\
    (forall dev' n', dev_ok dev' -> bview s' dev' n' = if decide ((dev', n') = (dev, n)) then data else bview s dev' n') /\
    exists b d s'', bread dev n s' = Ok b s'' /\ held s'' b dev n data d.
Proof.
  intros Hbc Hdev Hn HD Hl. destruct (bread_spec i [] D s dev n Hbc Hdev Hn) as
    (b & d & s1 & E1 & _ & Hbc1 & Hb1 & _ & _ & _ & V1 & _ & _ & D1 & _); [by right|intros ? ? ?; by eapply no_held|].
  rewrite (bind_Ok _ _ _ _ _ E1), bind_modify.
  destruct (setdata_spec _ _ _ _ _ _ _ _ _ data Hbc1 Hb1 Hl) as (Hbc2 & Hb2 & _ & V2 & _).
  destruct (bwrite_spec _ _ _ _ _ _ _ _ _ Hbc2 Hb2 Hn) as (s3 & E3 & _ & Hbc3 & Hb3 & _ & V3 & D3 & _ & B3 & _).
  rewrite (bind_Ok _ _ _ _ _ E3).
  destruct (brelse_spec i [] _ s3 b dev n data false Hbc3) as (s4 & E4 & _ & Hbc4 & _ & _ & _ & V4 & _ & D4 & _);
    [apply not_elem_of_nil|done|done|].
  assert (bcache i [] D s4) as Hbc4'.
  { destruct Hbc4 as [? ? ? Hd]. split; try done. intros c p Hp Hdi. specialize (Hd c p Hp Hdi).
    by apply list_elem_of_filter in Hd as [_ ?]. }
  assert (forall dev' n', dev_ok dev' -> bview s4 dev' n' = if decide ((dev', n') = (dev, n)) then data else bview s dev' n') as V.
  { intros dev' n' Hd. rewrite V4, V3, V2 by done. destruct (decide _); [done|]. by apply V1. }
  exists s4. split; [done|]. split; [done|]. split; [rewrite D4, D3; cbn; by rewrite D1|]. split; [done|].
  destruct (bread_spec i [] D s4 dev n Hbc4' Hdev Hn) as (c & d' & s5 & E5 & _ & _ & Hc & _); [by right|intros ? ? ?; by eapply no_held|].
  rewrite V, decide_True in Hc by done. eauto.
Qed.

Lemma block_write_read_witness :
  exists s', (let* b := bread 1 7 in modify (upd_buf b (set_b_data (replicate BSIZE 9))) ;; bwrite b ;; brelse b) (fs_state ∅) = Ok tt s' /\
    disk s' = <[(1, 7) := replicate BSIZE 9]> ∅.
Proof.
  destruct (block_write_read 0 [] (fs_state ∅) 1 7 (replicate BSIZE 9)) as (s' & E & _ & Ed & _).
  - by apply fresh_bcache; [apply fs_state_ready|reflexivity|].
  - by right.
  - by vm_compute.
  - apply Nat.lt_0_succ.
  - reflexivity.
  - exists s'. exact (conj E Ed).
Defined.
