(* ===== verification/Log.v ===== *)
(** * The log (log.c)

    A transaction's blocks stay dirty in the buffer cache until [commit] has
    written them to the log, then to their home locations.  [readsb] (fs.c) is
    here because [initlog] uses it. *)

From S2P Require Import Prelude State Mem Spinlock Sched SchedFacts Ide Bio.

(** Read the super block. *)
Definition readsb (dev : Z) : M superblock :=
  let* bp := bread dev 1 in
  let* d := getbuf bp b_data in
  brelse bp ;;
  ret (MkSb (get32 d 0) (get32 d 4) (get32 d 8) (get32 d 12) (get32 d 16) (get32 d 20) (get32 d 24)).

(** The body of [install_trans] for one block. *)
Definition install_block (tail : nat) : M unit :=
  let* l := gets lg in
  let* lbuf := bread (l_dev l) (l_start l + Z.of_nat tail + 1) in
  let* l := gets lg in
  let* dbuf := bread (l_dev l) (u32 (lh_block l !!! tail)) in
  let* d := getbuf lbuf b_data in
  modify (upd_buf dbuf (set_b_data d)) ;;
  bwrite dbuf ;;
  brelse lbuf ;;
  brelse dbuf.

(** Copy committed blocks from log to their home location. *)
Definition install_trans : M unit :=
  let* n := gets (fun s => lh_n (lg s)) in
  forM (seq 0 (Z.to_nat n)) install_block.

(** [for (i = 0; i < n; i++) lh.block[i] = d->block[i]] *)
Fixpoint read_blocks (n : nat) (i : nat) (d : list Z) (bl : list Z) : list Z :=
  match n with
  | O => bl
  | S n => read_blocks n (S i) d (<[i := i32 (get32 d (4 + 4 * i))]> bl)
  end.

(** Read the log header from disk into the in-memory log header. *)
Definition read_head : M unit :=
  let* l := gets lg in
  let* buf := bread (l_dev l) (l_start l) in
  let* d := getbuf buf b_data in
  modify (upd_log (set_lh_n (i32 (get32 d 0)))) ;;
  let* n := gets (fun s => lh_n (lg s)) in
  (if LOGSIZE <? n then undefined "log.lh.block" else ret tt) ;;
  modify (upd_log (fun l => set_lh_block (read_blocks (Z.to_nat n) 0 d (lh_block l)) l)) ;;
  brelse buf.

(** [for (i = 0; i < n; i++) hb->block[i] = bl[i]] *)
Fixpoint write_blocks (n : nat) (i : nat) (bl : list Z) (d : list Z) : list Z :=
  match n with
  | O => d
  | S n => write_blocks n (S i) bl (put32 d (4 + 4 * i) (bl !!! i))
  end.

(** Write in-memory log header to disk. *)
Definition write_head : M unit :=
  let* l := gets lg in
  let* buf := bread (l_dev l) (l_start l) in
  let* l := gets lg in
  modify (upd_buf buf (fun p => set_b_data (put32 (b_data p) 0 (lh_n l)) p)) ;;
  modify (upd_buf buf (fun p => set_b_data (write_blocks (Z.to_nat (lh_n l)) 0 (lh_block l) (b_data p)) p)) ;;
  bwrite buf ;;
  brelse buf.

Definition recover_from_log : M unit :=
  read_head ;;
  install_trans ;;
  modify (upd_log (set_lh_n 0)) ;;
  write_head.

Definition initlog (dev : Z) : M unit :=
  initlock LLog ;;
  let* sb := readsb dev in
  modify (upd_log (set_l_start (i32 (sb_logstart sb)))) ;;
  modify (upd_log (set_l_size (i32 (sb_nlog sb)))) ;;
  modify (upd_log (set_l_dev dev)) ;;
  recover_from_log.

(** Called at the start of each FS system call; a process that has to wait
    runs it again from the test when it wakes up. *)
Definition begin_op : M unit :=
  acquire LLog ;;
  let* l := gets lg in
  if l_committing l then sleep CLog LLog
  else if LOGSIZE <? lh_n l + (l_outstanding l + 1) * MAXOPBLOCKS then sleep CLog LLog
  else
    modify (upd_log (set_l_outstanding (l_outstanding l + 1))) ;;
    release LLog.

(** The body of [write_log] for one block. *)
Definition write_log_block (tail : nat) : M unit :=
  let* l := gets lg in
  let* to := bread (l_dev l) (l_start l + Z.of_nat tail + 1) in
  let* l := gets lg in
  let* from := bread (l_dev l) (u32 (lh_block l !!! tail)) in
  let* d := getbuf from b_data in
  modify (upd_buf to (set_b_data d)) ;;
  bwrite to ;;
  brelse from ;;
  brelse to.

(** Copy modified blocks from cache to log. *)
Definition write_log : M unit :=
  let* n := gets (fun s => lh_n (lg s)) in
  forM (seq 0 (Z.to_nat n)) write_log_block.

Definition commit : M unit :=
  let* n := gets (fun s => lh_n (lg s)) in
  when (0 <? n)
    (write_log ;;
     write_head ;;
     install_trans ;;
     modify (upd_log (set_lh_n 0)) ;;
     write_head).

(** Called at the end of each FS system call; commits if this was the last
    outstanding operation. *)
Definition end_op : M unit :=
  acquire LLog ;;
  modify (upd_log (fun l => set_l_outstanding (l_outstanding l - 1) l)) ;;
  let* l := gets lg in
  if l_committing l then panic "log.committing"
  else
    let do_commit := l_outstanding l =? 0 in
    (if do_commit then modify (upd_log (set_l_committing true)) else wakeup CLog) ;;
    release LLog ;;
    when do_commit
      (commit ;;
       acquire LLog ;;
       modify (upd_log (set_l_committing false)) ;;
       wakeup CLog ;;
       release LLog).

(** [for (i = 0; i < n; i++) if (bl[i] == blockno) break;] *)
Fixpoint log_slot (n : nat) (i : nat) (bl : list Z) (blockno : Z) : nat :=
  match n with
  | O => i
  | S n => if u32 (bl !!! i) =? blockno then i else log_slot n (S i) bl blockno
  end.

(** Caller has modified b->data and is done with the buffer. *)
Definition log_write (b : nat) : M unit :=
  let* l := gets lg in
  if (LOGSIZE <=? lh_n l) || (l_size l - 1 <=? lh_n l) then panic "too big a transaction"
  else if l_outstanding l <? 1 then panic "log_write outside of trans"
  else
    acquire LLog ;;
    let* blockno := getbuf b b_blockno in
    let* l := gets lg in
    let i := log_slot (Z.to_nat (lh_n l)) 0 (lh_block l) blockno in
    modify (upd_log (set_lh_block (<[i := i32 blockno]> (lh_block l)))) ;;
    when (Z.of_nat i =? lh_n l) (modify (upd_log (fun l => set_lh_n (lh_n l + 1) l))) ;;
    modify (upd_buf b (set_b_dirty true)) ;;
    release LLog.
