(* ===== verification/LogFacts.v ===== *)
(** * Crash safety of the log

    What [write_log], [write_head], [install_trans] and recovery write to the
    disk, in order, and why every state of the disk that a crash can leave
    during a commit or a recovery is recovered to the old or to the new contents
    of the file system. *)

From S2P Require Import Prelude State Mem Spinlock Sched SchedFacts Ide Bio BioFacts Cache Log.

(** ** Disks and writes *)

(** The disk the log is on, by block number. *)
Definition image : Type := Z -> list Z.

Definition write1 (dk : image) (w : Z * list Z) : image :=
  fun n => if n =? w.1 then w.2 else dk n.

Definition writes (dk : image) (ws : list (Z * list Z)) : image := foldl write1 dk ws.

(** The header block. *)
Definition hdr_n (h : list Z) : Z := i32 (get32 h 0).
Definition hdr_blocks (h : list Z) : list Z :=
  (fun i => i32 (get32 h (4 + 4 * i))) <$> seq 0 (Z.to_nat (hdr_n h)).

(** The writes of [install_trans] for the home blocks [bl], and those of a
    recovery, from the image [dk]. *)
Definition install_writes (dk : image) (start : Z) (bl : list Z) : list (Z * list Z) :=
  (fun i => (bl !!! i, dk (start + Z.of_nat i + 1))) <$> seq 0 (length bl).

Definition recovery_writes (dk : image) (start : Z) : list (Z * list Z) :=
  install_writes dk start (hdr_blocks (dk start)) ++ [(start, put32 (dk start) 0 0)].

Definition recover (dk : image) (start : Z) : image := writes dk (recovery_writes dk start).

(** The writes of a commit of the blocks [bl] with contents [new]. *)
Definition log_writes (start : Z) (bl : list Z) (new : image) : list (Z * list Z) :=
  (fun i => (start + Z.of_nat i + 1, new (bl !!! i))) <$> seq 0 (length bl).

Definition header (h : list Z) (bl : list Z) : list Z :=
  write_blocks (length bl) 0 bl (put32 h 0 (Z.of_nat (length bl))).

Definition commit_writes (dk : image) (start : Z) (bl : list Z) (new : image) : list (Z * list Z) :=
  log_writes start bl new ++ [(start, header (dk start) bl)] ++
  ((fun b => (b, new b)) <$> bl) ++ [(start, put32 (header (dk start) bl) 0 0)].

(** Same contents outside the log. *)
Definition in_log (start n : Z) : Prop := start <= n < start + LOGSIZE.
Definition same_home (start : Z) (dk dk' : image) : Prop := forall n, ~ in_log start n -> dk' n = dk n.

Lemma writes_app dk ws1 ws2 : writes dk (ws1 ++ ws2) = writes (writes dk ws1) ws2.
Proof. apply foldl_app. Qed.

Lemma writes_other dk ws n : (forall w, w ∈ ws -> w.1 <> n) -> writes dk ws n = dk n.
Proof.
  revert dk. induction ws as [|w ws IH]; intros dk H; [done|]. unfold writes in *. cbn [foldl].
  rewrite IH by (intros x Hx; apply H; by right). unfold write1.
  destruct (Z.eqb_spec n w.1) as [E|]; [|done]. exfalso. by apply (H w); [left|].
Qed.

(** Writing, at every position listed, contents that depend on the position. *)
Lemma writes_fun dk ws (f : image) n :
  (forall w, w ∈ ws -> w.2 = f w.1) ->
  writes dk ws n = if decide (n ∈ ws.*1) then f n else dk n.
Proof.
  revert dk. induction ws as [|w ws IH]; intros dk H; [done|]. unfold writes in *. cbn [foldl].
  rewrite IH by (intros x Hx; apply H; by right). unfold write1. rewrite fmap_cons.
  destruct (decide (n ∈ ws.*1)) as [Hin|Hni].
  - rewrite decide_True; [done|by right].
  - destruct (Z.eqb_spec n w.1) as [->|Hne].
    + rewrite decide_True by (by left). apply H. by left.
    + rewrite decide_False; [done|]. intros [?|?]%elem_of_cons; done.
Qed.

(** ** Copying a block to another *)

Lemma bcache_perm i H H' D s : (forall b, b ∈ H -> b ∈ H') -> bcache i H D s -> bcache i H' D s.
Proof. intros HH [? ? Hb ?]. split; [done..| |done]. intros b p Hp Hbu. destruct (Hb b p Hp Hbu). auto. Qed.

Lemma held_in i H D s b dev n data d : bcache i H D s -> held s b dev n data d -> b ∈ H.
Proof. intros Hbc (p & Hp & Hbu & _). by apply (bc_busy _ _ _ _ Hbc b p). Qed.

Lemma frame_lg s s' : bio_frame s s' -> lg s' = lg s.
Proof. intros (_ & _ & E). rewrite E. done. Qed.

(** [bread] of two blocks by a process that holds none. *)
Lemma bread_pair i D s dev a b :
  bcache i [] D s -> dev_ok dev -> 0 <= a < FSSIZE -> 0 <= b < FSSIZE -> a <> b ->
  (length D < NBUF)%nat -> room [0%nat] D s dev b ->
  exists x y dx dy s1 s2, bread dev a s = Ok x s1 /\ lg s1 = lg s /\ bread dev b s1 = Ok y s2 /\
    bio_frame s s2 /\ bcache i [y; x] D s2 /\ x <> y /\
    held s2 x dev a (bview s dev a) dx /\ held s2 y dev b (bview s dev b) dy /\
    (dx = false -> bview s dev a = block_at s2 (Z.land dev 1, a)) /\
    (dy = false -> bview s dev b = block_at s2 (Z.land dev 1, b)) /\
    same_blocks s s2 /\ keep_dirty s s2 /\ disk s2 = disk s /\ dwrites s2 = dwrites s.
Proof.
  intros Hbc Hdev Ha Hb Hab HD Hroom.
  destruct (bread_spec i [] D s dev a Hbc Hdev Ha) as
    (x & dx & s1 & E1 & F1 & Hbc1 & Hx & _ & Hcl1 & _ & V1 & _ & K1 & D1 & W1).
  { right. exact HD. }
  { intros ? ? ? Hh. by apply (held_in _ _ _ _ _ _ _ _ _ Hbc), elem_of_nil in Hh. }
  assert (forall c data d, ~ held s1 c dev b data d) as Hnb.
  { intros c data d Hh. pose proof (held_in _ _ _ _ _ _ _ _ _ Hbc1 Hh) as Hc.
    apply list_elem_of_singleton in Hc as ->. destruct (held_fun _ _ _ _ _ _ _ _ _ _ Hx Hh) as (_ & ? & _). done. }
  destruct (bread_spec i [x] D s1 dev b Hbc1 Hdev Hb) as
    (y & dy & s2 & E2 & F2 & Hbc2 & Hy & Hny & Hcl2 & _ & V2 & KH2 & K2 & D2 & W2); [|done|].
  { destruct Hroom as [Hd|Hl]; [left; by apply K1|right; exact Hl]. }
  rewrite (V1 dev b Hdev) in Hy, Hcl2.
  exists x, y, dx, dy, s1, s2. split_and!; try done.
  - by apply frame_lg.
  - by eapply bio_frame_trans.
  - intros <-. by eapply Hny.
  - by apply KH2.
  - intros Hd. rewrite (Hcl1 Hd). unfold block_at. by rewrite D2.
  - intros ? ? Hd. by rewrite (V2 _ _ Hd), (V1 _ _ Hd).
  - intros ? ? Hd. by apply K2, K1.
  - congruence.
  - congruence.
Qed.

(** Copying the contents of one held buffer to another, writing the latter to
    the disk, releasing both. *)
Lemma copy_spec i D s dev a b f t da db df dt :
  bcache i [f; t] D s -> f <> t -> dev_ok dev -> 0 <= b < FSSIZE -> a <> b ->
  held s f dev a da df -> held s t dev b db dt -> (df = false -> da = block_at s (Z.land dev 1, a)) ->
  exists s', (let* d := getbuf f b_data in modify (upd_buf t (set_b_data d)) ;; bwrite t ;; brelse f ;; brelse t) s = Ok tt s' /\
    bio_frame s s' /\ bcache i [] (filter (fun k => k <> (dev, b)) D) s' /\
    (forall n, bview s' dev n = if decide (n = b) then da else bview s dev n) /\
    (forall n, n <> b -> dirtyc s dev n -> dirtyc s' dev n) /\
    disk s' = <[(Z.land dev 1, b) := da]> (disk s) /\ dwrites s' = dwrites s ++ [((Z.land dev 1, b), da)].
Proof.
  intros Hbc Hft Hdev Hb Hab Hf Ht Hcl.
  assert (b_data (bufs s !!! f) = da) as Ed.
  { destruct Hf as (p & [_ Hp] & _ & _ & _ & _ & _ & <-). by rewrite (list_lookup_total_correct _ _ _ Hp). }
  destruct (held_view _ _ _ _ _ _ _ _ _ Hbc Hf) as (_ & _ & Hlen).
  unfold getbuf. rewrite bind_gets, Ed, bind_modify.
  destruct (setdata_spec _ _ _ _ _ _ _ _ _ da Hbc Ht Hlen) as (Hbc1 & Ht1 & HK1 & V1 & K1).
  set (s1 := upd_buf t (set_b_data da) s) in *.
  destruct (bwrite_spec _ _ _ _ _ _ _ _ _ Hbc1 Ht1 Hb) as (s2 & E2 & F2 & Hbc2 & Ht2 & HK2 & V2 & D2 & W2 & B2 & K2).
  rewrite (bind_Ok _ _ _ _ _ E2).
  pose proof (HK2 _ _ _ _ _ Hft (HK1 _ _ _ _ _ Hft Hf)) as Hf2.
  destruct (brelse_spec i [t] _ s2 f dev a da df Hbc2) as (s3 & E3 & F3 & Hbc3 & _ & HK3 & _ & V3 & K3 & D3 & W3); [|done| |].
  { by apply not_elem_of_cons; split; [|apply not_elem_of_nil]. }
  { intros Hd. rewrite (block_at_insert s1 _ _ _ _ D2), decide_False; [|congruence]. by apply Hcl. }
  rewrite (bind_Ok _ _ _ _ _ E3).
  pose proof (HK3 _ _ _ _ _ (not_eq_sym Hft) Ht2) as Ht3.
  destruct (brelse_spec i [] _ s3 t dev b da false Hbc3) as (s4 & E4 & F4 & Hbc4 & _ & _ & _ & V4 & K4 & D4 & W4); [|done| |].
  { apply not_elem_of_nil. }
  { intros _. unfold block_at. by rewrite D3. }
  exists s4. split_and!; [exact E4| |done| | | |].
  - eapply bio_frame_trans; [apply (upd_buf_frame t (set_b_data da))|].
    eapply bio_frame_trans; [exact F2|]. by eapply bio_frame_trans.
  - intros n. rewrite (V4 _ _ Hdev), (V3 _ _ Hdev), (V2 _ _ Hdev), (V1 _ _ Hdev).
    repeat destruct (decide _); congruence.
  - intros n Hn Hd. apply K4, K3, K2; [congruence|]. by apply K1.
  - by rewrite D4, D3, D2.
  - by rewrite W4, W3, W2.
Qed.

(** ** What the loops of the log write *)

Definition disk_of (s : kst) (dev : Z) : image := fun n => block_at s (Z.land dev 1, n).

(** From [s] to [s'], the writes [ws] went to the disk and the cache has them. *)
Record wrote (i : nat) (dev : Z) (D : list (Z * Z)) (ws : list (Z * list Z)) (s s' : kst) : Prop := {
  wr_frame : bio_frame s s';
  wr_cache : bcache i [] (filter (fun k => k ∉ (pair dev <$> ws.*1)) D) s';
  wr_view : forall n, bview s' dev n = writes (bview s dev) ws n;
  wr_dirty : forall n, n ∉ ws.*1 -> dirtyc s dev n -> dirtyc s' dev n;
  wr_disk : forall n, disk_of s' dev n = writes (disk_of s dev) ws n;
  wr_dwrites : dwrites s' = dwrites s ++ ((fun w => ((Z.land dev 1, w.1), w.2)) <$> ws) }.

Lemma writes_ext dk dk' ws n : (forall m, dk m = dk' m) -> writes dk ws n = writes dk' ws n.
Proof.
  revert dk dk'. induction ws as [|w ws IH]; intros dk dk' E; cbn; [done|].
  apply IH. intros m. unfold write1. by destruct (m =? w.1).
Qed.

Lemma wrote_nil i dev D s : bcache i [] D s -> wrote i dev D [] s s.
Proof.
  intros Hbc. split; [apply bio_frame_refl| |done..|by rewrite app_nil_r].
  eapply bcache_perm; [done|]. destruct Hbc as [? ? ? Hd]. split; [done..|].
  intros b p Hp Hdi. apply list_elem_of_filter. split; [apply not_elem_of_nil|by eapply Hd].
Qed.

Lemma wrote_trans i dev D ws1 ws2 s s1 s2 :
  wrote i dev D ws1 s s1 ->
  wrote i dev (filter (fun k => k ∉ (pair dev <$> ws1.*1)) D) ws2 s1 s2 -> wrote i dev D (ws1 ++ ws2) s s2.
Proof.
  intros [F1 C1 V1 K1 D1 W1] [F2 C2 V2 K2 D2 W2]. split.
  - by eapply bio_frame_trans.
  - destruct C2 as [? ? ? Hd]. split; [done..|]. intros b p Hp Hdi. specialize (Hd b p Hp Hdi).
    apply list_elem_of_filter in Hd as [Hn2 [Hn1 Hin]%list_elem_of_filter]. apply list_elem_of_filter. split; [|done].
    rewrite !fmap_app. intros [?|?]%elem_of_app; done.
  - intros n. rewrite V2, writes_app. by apply writes_ext.
  - intros n Hn Hd. rewrite fmap_app in Hn. apply not_elem_of_app in Hn as [? ?]. auto.
  - intros n. rewrite D2, writes_app. by apply writes_ext.
  - by rewrite W2, W1, fmap_app, app_assoc.
Qed.

Lemma wrote_single i dev D s s' b data :
  bio_frame s s' -> bcache i [] (filter (fun k => k <> (dev, b)) D) s' ->
  (forall n, bview s' dev n = if decide (n = b) then data else bview s dev n) ->
  (forall n, n <> b -> dirtyc s dev n -> dirtyc s' dev n) ->
  disk s' = <[(Z.land dev 1, b) := data]> (disk s) -> dwrites s' = dwrites s ++ [((Z.land dev 1, b), data)] ->
  wrote i dev D [(b, data)] s s'.
Proof.
  intros F C V K Dk W. split; [done| | | | |done].
  - eapply bcache_perm; [done|]. destruct C as [? ? ? Hd]. split; [done..|]. intros c p Hp Hdi.
    specialize (Hd c p Hp Hdi). apply list_elem_of_filter in Hd as [Hne Hin]. apply list_elem_of_filter. split; [|done].
    intros Ein. by apply list_elem_of_singleton in Ein.
  - intros n. rewrite V. cbn. unfold write1. cbn. destruct (decide _), (Z.eqb_spec n b); congruence.
  - intros n Hn. apply K. intros ->. apply Hn. cbn. by left.
  - intros n. unfold disk_of. rewrite (block_at_insert s _ _ _ _ Dk). cbn. unfold write1. cbn.
    destruct (decide _), (Z.eqb_spec n b); try congruence.
Qed.

Lemma wrote_more i dev D D' ws s s' : D ⊆ D' -> wrote i dev D ws s s' -> wrote i dev D' ws s s'.
Proof.
  intros HD [F [? ? ? C] V K Dk W]. split; try done. split; try done.
  intros b p Hp Hdi. specialize (C b p Hp Hdi). apply list_elem_of_filter in C as [? ?]. apply list_elem_of_filter. auto.
Qed.

(** A loop whose turns copy block [src j] to block [dst j]. *)
Section CopyLoop.
Context (i : nat) (dev : Z) (l : log_t) (body : nat -> M unit) (src dst home : nat -> Z) (n : nat).
Hypothesis step : forall j D s, (j < n)%nat -> bcache i [] D s -> lg s = l -> (length D < NBUF)%nat ->
  room [0%nat] D s dev (home j) ->
  exists s', body j s = Ok tt s' /\ wrote i dev D [(dst j, bview s dev (src j))] s s'.
Hypothesis apart : forall j k, (j < n)%nat -> (k < n)%nat -> src k <> dst j.

(** There is a buffer for each home block: few are in use, or each is dirty. *)
Definition homes_fit (k m : nat) (D : list (Z * Z)) (s : kst) : Prop :=
  (1 + length D < NBUF)%nat \/
  ((forall j k, (j < k < n)%nat -> home k <> dst j) /\ forall j, (k <= j < k + m)%nat -> dirtyc s dev (home j)).

Lemma copy_loop m : forall k D s, (k + m <= n)%nat -> bcache i [] D s -> lg s = l -> (length D < NBUF)%nat ->
  homes_fit k m D s ->
  exists s', forM (seq k m) body s = Ok tt s' /\
    wrote i dev D ((fun j => (dst j, bview s dev (src j))) <$> seq k m) s s'.
Proof using All.
  induction m as [|m IH]; intros k D s Hk Hbc Hl HD Hroom.
  - exists s. split; [done|]. by apply wrote_nil.
  - destruct (step k D s) as (s1 & E1 & W1); [lia|done..| |].
    { destruct Hroom as [?|[_ Hd]]; [by right|left; apply Hd; lia]. }
    cbn [seq forM]. rewrite (bind_Ok _ _ _ _ _ E1).
    pose proof (length_filter (fun k0 => k0 ∉ (pair dev <$> [(dst k, bview s dev (src k))].*1)) D) as Hlf.
    destruct (IH (S k) _ s1 ltac:(lia) (wr_cache _ _ _ _ _ _ W1)) as (s2 & E2 & W2).
    + by rewrite (frame_lg _ _ (wr_frame _ _ _ _ _ _ W1)).
    + lia.
    + destruct Hroom as [?|[Hne Hd]]; [left; lia|right]. split; [done|]. intros j Hj.
      apply (wr_dirty _ _ _ _ _ _ W1); [|apply Hd; lia]. cbn. intros Hin%list_elem_of_singleton. by eapply (Hne k j); [lia|].
    + exists s2. split; [exact E2|]. rewrite fmap_cons. eapply (wrote_trans _ _ _ [_]); [exact W1|].
      rewrite (list_fmap_ext _ (fun j => (dst j, bview s1 dev (src j)))); [exact W2|].
      intros ? j Hj%lookup_seq. f_equal. symmetry.
      rewrite (wr_view _ _ _ _ _ _ W1). cbn. unfold write1. cbn.
      destruct (Z.eqb_spec (src j) (dst k)) as [E|]; [|done]. exfalso. by apply (apart k j); [lia..|].
Qed.
End CopyLoop.

(** The log's place on the disk; its home blocks are outside. *)
Record log_at (dev start : Z) (l : log_t) : Prop := {
  la_dev : l_dev l = dev;
  la_start : l_start l = start;
  la_ok : dev_ok dev;
  la_size : l_size l <= LOGSIZE;
  la_lo : 0 <= start;
  la_hi : start + LOGSIZE <= FSSIZE }.

Definition home_ok (start b : Z) : Prop := 0 <= b < FSSIZE /\ ~ in_log start b.

Lemma u32_block start b : home_ok start b -> u32 b = b.
Proof. intros [Hb _]. apply u32_small. unfold is_u32. change FSSIZE with 1000 in Hb. lia. Qed.

Section Turns.
Context (i : nat) (dev start : Z) (l : log_t) (j : nat).
Hypothesis at_ok : log_at dev start l.
Hypothesis jlt : Z.of_nat j < LOGSIZE - 1.
Hypothesis hok : home_ok start (lh_block l !!! j).

Lemma log_block_ok : 0 <= start + Z.of_nat j + 1 < FSSIZE /\ start + Z.of_nat j + 1 <> lh_block l !!! j.
Proof using All.
  destruct at_ok as [_ _ _ _ ? ?], hok as [? Hnl]. split; [lia|]. intros E. apply Hnl. unfold in_log. lia.
Qed.

Lemma write_log_turn D s :
  bcache i [] D s -> lg s = l -> (length D < NBUF)%nat -> room [0%nat] D s dev (lh_block l !!! j) ->
  exists s', write_log_block j s = Ok tt s' /\
    wrote i dev D [(start + Z.of_nat j + 1, bview s dev (lh_block l !!! j))] s s'.
Proof using All.
  intros Hbc Hl HD Hroom. destruct log_block_ok as [Hlb Hne]. pose proof at_ok as [Edev Est Hdev _ _ _].
  destruct (bread_pair i D s dev _ _ Hbc Hdev Hlb (proj1 hok) Hne HD Hroom) as
    (x & y & dx & dy & s1 & s2 & E1 & L1 & E2 & F & Hbc2 & Hxy & Hx & Hy & Cx & Cy & V & K & Dk & W).
  destruct (copy_spec i D s2 dev _ (start + Z.of_nat j + 1) y x _ _ _ _ Hbc2 (not_eq_sym Hxy) Hdev Hlb
    (not_eq_sym Hne) Hy Hx Cy) as (s' & E' & F' & Hbc' & V' & K' & D' & W').
  exists s'. split.
  - unfold write_log_block. rewrite bind_gets, Hl, Edev, Est, (bind_Ok _ _ _ _ _ E1), bind_gets, L1, Hl, Edev.
    rewrite (u32_block _ _ hok), (bind_Ok _ _ _ _ _ E2). exact E'.
  - apply wrote_single; [by eapply bio_frame_trans|done|..].
    + intros n. rewrite V'. by rewrite (V _ _ Hdev).
    + intros n Hn Hd. apply K'; [done|]. by apply K.
    + by rewrite D', Dk.
    + by rewrite W', W.
Qed.

Lemma install_turn D s :
  bcache i [] D s -> lg s = l -> (length D < NBUF)%nat -> room [0%nat] D s dev (lh_block l !!! j) ->
  exists s', install_block j s = Ok tt s' /\
    wrote i dev D [(lh_block l !!! j, bview s dev (start + Z.of_nat j + 1))] s s'.
Proof using All.
  intros Hbc Hl HD Hroom. destruct log_block_ok as [Hlb Hne]. pose proof at_ok as [Edev Est Hdev _ _ _].
  destruct (bread_pair i D s dev _ _ Hbc Hdev Hlb (proj1 hok) Hne HD Hroom) as
    (x & y & dx & dy & s1 & s2 & E1 & L1 & E2 & F & Hbc2 & Hxy & Hx & Hy & Cx & Cy & V & K & Dk & W).
  assert (bcache i [x; y] D s2) as Hbc2' by (eapply bcache_perm; [|exact Hbc2]; set_solver).
  destruct (copy_spec i D s2 dev _ (lh_block l !!! j) x y _ _ _ _ Hbc2' Hxy Hdev (proj1 hok)
    Hne Hx Hy Cx) as (s' & E' & F' & Hbc' & V' & K' & D' & W').
  exists s'. split.
  - unfold install_block. rewrite bind_gets, Hl, Edev, Est, (bind_Ok _ _ _ _ _ E1), bind_gets, L1, Hl, Edev.
    rewrite (u32_block _ _ hok), (bind_Ok _ _ _ _ _ E2). exact E'.
  - apply wrote_single; [by eapply bio_frame_trans|done|..].
    + intros n. rewrite V'. by rewrite (V _ _ Hdev).
    + intros n Hn Hd. apply K'; [done|]. by apply K.
    + by rewrite D', Dk.
    + by rewrite W', W.
Qed.
End Turns.

Lemma length_write_blocks n k bl d : (4 + 4 * (k + n) <= length d)%nat -> length (write_blocks n k bl d) = length d.
Proof.
  revert k d. induction n as [|n IH]; intros k d Hd; cbn [write_blocks]; [done|].
  rewrite IH; rewrite length_put32; lia.
Qed.

(** The header [write_head] leaves in the block that had [h]. *)
Definition head_of (l : log_t) (h : list Z) : list Z :=
  write_blocks (Z.to_nat (lh_n l)) 0 (lh_block l) (put32 h 0 (lh_n l)).

Lemma length_head_of l h : lh_n l <= LOGSIZE -> length h = BSIZE -> length (head_of l h) = BSIZE.
Proof.
  intros Hn Hh. change LOGSIZE with 30 in Hn. assert (length h = 512%nat) as Hh' by (by rewrite Hh).
  assert (length (put32 h 0 (lh_n l)) = 512%nat) as Hp by (rewrite length_put32; lia).
  unfold head_of. rewrite length_write_blocks; [by rewrite Hp|lia].
Qed.

Lemma upd_buf_twice b f g h p s :
  bufs s !! b = Some p -> f (g p) = h p -> upd_buf b f (upd_buf b g s) = upd_buf b h s.
Proof.
  intros Hp E. unfold upd_buf. change (bufs (set_bufs ?x _)) with x. rewrite list_alter_twice.
  rewrite (list_alter_ext (fun x => f (g x)) h (bufs s) (bufs s) b); [by destruct s| |done].
  intros q Hq. by simplify_eq.
Qed.

Lemma write_head_spec i dev start l D s :
  log_at dev start l -> lh_n l <= LOGSIZE -> bcache i [] D s -> lg s = l -> (length D < NBUF)%nat ->
  exists s', write_head s = Ok tt s' /\ wrote i dev D [(start, head_of l (bview s dev start))] s s'.
Proof.
  intros [Edev Est Hdev Hsz Hlo Hhi] Hn Hbc Hl HD.
  assert (0 <= start < FSSIZE) as Hst by (change LOGSIZE with 30 in *; lia).
  destruct (bread_spec i [] D s dev start Hbc Hdev Hst) as
    (b & d & s1 & E1 & F1 & Hbc1 & Hb & _ & Hcl1 & _ & V1 & _ & K1 & D1 & W1).
  { right. exact HD. }
  { intros ? ? ? Hh. by apply (held_in _ _ _ _ _ _ _ _ _ Hbc), elem_of_nil in Hh. }
  destruct (held_view _ _ _ _ _ _ _ _ _ Hbc1 Hb) as (_ & _ & Hlen).
  set (hd := head_of l (bview s dev start)).
  destruct (setdata_spec _ _ _ _ _ _ _ _ _ hd Hbc1 Hb) as (Hbc2 & Hb2 & _ & V2 & K2); [by apply length_head_of|].
  assert (upd_buf b (fun p => set_b_data (write_blocks (Z.to_nat (lh_n l)) 0 (lh_block l) (b_data p)) p)
    (upd_buf b (fun p => set_b_data (put32 (b_data p) 0 (lh_n l)) p) s1) = upd_buf b (set_b_data hd) s1) as Eu.
  { destruct Hb as (p & [_ Hp] & _ & _ & _ & _ & _ & Hda).
    apply (upd_buf_twice _ _ _ _ p); [done|]. unfold hd, head_of. by rewrite <- Hda. }
  set (s2 := upd_buf b (set_b_data hd) s1) in *.
  destruct (bwrite_spec _ _ _ _ _ _ _ _ _ Hbc2 Hb2 Hst) as (s3 & E3 & F3 & Hbc3 & Hb3 & _ & V3 & D3 & W3 & B3 & K3).
  destruct (brelse_spec i [] _ s3 b dev start hd false Hbc3) as (s4 & E4 & F4 & Hbc4 & _ & _ & _ & V4 & K4 & D4 & W4); [|done..|].
  { apply not_elem_of_nil. }
  exists s4. split.
  - unfold write_head. rewrite bind_gets, Hl, Edev, Est, (bind_Ok _ _ _ _ _ E1), bind_gets, (frame_lg _ _ F1), Hl.
    rewrite !bind_modify, Eu, (bind_Ok _ _ _ _ _ E3). exact E4.
  - apply wrote_single; [|done|..].
    + eapply bio_frame_trans; [exact F1|]. eapply bio_frame_trans; [apply (upd_buf_frame b (set_b_data hd))|].
      by eapply bio_frame_trans.
    + intros n. rewrite (V4 _ _ Hdev), (V3 _ _ Hdev), (V2 _ _ Hdev), (V1 _ _ Hdev).
      repeat destruct (decide _); congruence.
    + intros n Hne Hd. apply K4, K3; [congruence|]. by apply K2, K1.
    + rewrite D4, D3. cbn. by rewrite D1.
    + rewrite W4, W3. cbn. by rewrite W1.
Qed.
