(* ===== verification/LogCrash.v ===== *)
(** * Crashes of the disk under the log

    On disk images alone: a crash after any number of the writes of a commit, or
    of a recovery, leaves an image that recovers to the old or to the new
    contents of the blocks outside the log. *)

From S2P Require Import Prelude State Mem Spinlock Sched SchedFacts Ide Bio BioFacts Cache Log LogFacts.

(** ** Headers *)

Lemma get32_write_blocks n bl off : forall k d,
  (4 + 4 * (k + n) <= length d)%nat -> (off + 4 <= 4 + 4 * k)%nat ->
  get32 (write_blocks n k bl d) off = get32 d off.
Proof.
  induction n as [|n IH]; intros k d Hd Ho; cbn [write_blocks]; [done|].
  rewrite IH; [apply get32_put32_other; lia|rewrite length_put32; lia|lia].
Qed.

Lemma get32_write_blocks_at n bl j : forall k d,
  (4 + 4 * (k + n) <= length d)%nat -> (k <= j < k + n)%nat -> is_u32 (bl !!! j) ->
  get32 (write_blocks n k bl d) (4 + 4 * j) = bl !!! j.
Proof.
  induction n as [|n IH]; intros k d Hd Hj Hu; [lia|]. cbn [write_blocks].
  destruct (decide (j = k)) as [->|Hne].
  - rewrite get32_write_blocks; [apply get32_put32_same; [done|lia]|rewrite length_put32; lia|lia].
  - apply IH; [rewrite length_put32; lia|lia|done].
Qed.

Lemma total_map_seq {A} (f : Z -> A) (bl : list Z) : (fun j => f (bl !!! j)) <$> seq 0 (length bl) = f <$> bl.
Proof.
  induction bl as [|b bl IH]; [done|]. cbn [length seq]. rewrite !fmap_cons. f_equal.
  rewrite <- IH, <- fmap_S_seq, <- list_fmap_compose. done.
Qed.

(** A header reads back as it was written. *)
Lemma header_roundtrip start h bl :
  length h = BSIZE -> (length bl <= Z.to_nat LOGSIZE)%nat -> Forall (home_ok start) bl ->
  hdr_n (header h bl) = Z.of_nat (length bl) /\ hdr_blocks (header h bl) = bl.
Proof.
  intros Hh Hl Hb. assert (length h = 512%nat) as Hh' by (by rewrite Hh). change (Z.to_nat LOGSIZE) with 30%nat in Hl.
  assert (length (put32 h 0 (Z.of_nat (length bl))) = 512%nat) as Hp by (rewrite length_put32; lia).
  assert (hdr_n (header h bl) = Z.of_nat (length bl)) as En.
  { unfold hdr_n, header. rewrite get32_write_blocks by (rewrite ?Hp; lia).
    rewrite get32_put32_same by (unfold is_u32; lia). apply i32_small. lia. }
  split; [done|]. unfold hdr_blocks. rewrite En, Nat2Z.id. transitivity ((fun b : Z => b) <$> bl); [|apply list_fmap_id].
  rewrite <- total_map_seq. apply list_fmap_ext. intros j ? [-> Hj]%lookup_seq. change (0 + j)%nat with j.
  destruct (lookup_lt_is_Some_2 bl j Hj) as [b Eb]. pose proof (Forall_lookup_1 _ _ _ _ Hb Eb) as [Hr _].
  change FSSIZE with 1000 in Hr. pose proof (list_lookup_total_correct _ _ _ Eb) as Et.
  unfold header. rewrite get32_write_blocks_at; rewrite ?Hp, ?Et; [|lia..|unfold is_u32; lia].
  apply i32_small. lia.
Qed.

Lemma length_header h bl : length h = BSIZE -> (length bl <= Z.to_nat LOGSIZE)%nat -> length (header h bl) = BSIZE.
Proof.
  intros Hh Hl. assert (length h = 512%nat) as Hh' by (by rewrite Hh). change (Z.to_nat LOGSIZE) with 30%nat in Hl.
  unfold header. rewrite length_write_blocks; rewrite length_put32; try done; lia.
Qed.

Lemma hdr_n_clear h : length h = BSIZE -> hdr_n (put32 h 0 0) = 0.
Proof.
  intros Hh. assert (length h = 512%nat) as Hh' by (by rewrite Hh). unfold hdr_n.
  by rewrite get32_put32_same by (unfold is_u32; lia).
Qed.

(** ** Crashes *)

Lemma in_take {A} k (l : list A) x : x ∈ take k l -> x ∈ l.
Proof. rewrite elem_of_take. intros (j & Hj & _). by eapply list_elem_of_lookup_2. Qed.

Lemma writes_absorb dk dk' ws n : n ∈ ws.*1 -> writes dk ws n = writes dk' ws n.
Proof.
  revert dk dk'. induction ws as [|w ws IH]; intros dk dk' Hin; [by apply elem_of_nil in Hin|].
  cbn. destruct (decide (n ∈ ws.*1)) as [Hi|Hni]; [by apply IH|].
  rewrite fmap_cons in Hin. apply elem_of_cons in Hin as [->|]; [|done].
  rewrite !(writes_other _ ws); [|intros x Hx Ex; apply Hni; rewrite <- Ex; by apply list_elem_of_fmap_2..].
  unfold write1. by rewrite Z.eqb_refl.
Qed.

(** Doing some of the writes first changes nothing. *)
Lemma writes_again dk ws0 ws n :
  (forall w, w ∈ ws0 -> w.1 ∈ ws.*1) -> writes (writes dk ws0) ws n = writes dk ws n.
Proof.
  intros Hs. destruct (decide (n ∈ ws.*1)) as [Hi|Hni]; [by apply writes_absorb|].
  rewrite !(writes_other _ ws), writes_other; [done|..].
  - intros w Hw <-. by apply Hni, Hs.
  - intros w Hw <-. by apply Hni, list_elem_of_fmap_2.
  - intros w Hw <-. by apply Hni, list_elem_of_fmap_2.
Qed.

Lemma install_targets dk start bl : (install_writes dk start bl).*1 = bl.
Proof.
  unfold install_writes. rewrite <- list_fmap_compose. unfold compose. cbn.
  rewrite (total_map_seq (fun b => b) bl). apply list_fmap_id.
Qed.

Lemma home_start start n : ~ in_log start n -> n <> start.
Proof. intros H ->. apply H. unfold in_log. change LOGSIZE with 30. lia. Qed.

Lemma home_slot start n j : ~ in_log start n -> Z.of_nat j < LOGSIZE - 1 -> n <> start + Z.of_nat j + 1.
Proof. intros H Hj ->. apply H. unfold in_log. lia. Qed.

(** Recovery from the blocks of a valid header. *)
Lemma recover_home dk start n :
  ~ in_log start n -> recover dk start n = writes dk (install_writes dk start (hdr_blocks (dk start))) n.
Proof.
  intros Hn. unfold recover, recovery_writes. rewrite writes_app. apply writes_other.
  intros w ->%list_elem_of_singleton. cbn. by apply not_eq_sym, home_start.
Qed.

(** An empty log recovers to the image itself. *)
Lemma recover_clean dk start : hdr_n (dk start) = 0 -> same_home start dk (recover dk start).
Proof. intros Hn n Hnl. rewrite recover_home by done. unfold hdr_blocks. by rewrite Hn. Qed.

(** A crash during a recovery is harmless: recovering again gives the same. *)
Lemma recovery_restart dk start k :
  length (dk start) = BSIZE -> Forall (home_ok start) (hdr_blocks (dk start)) ->
  (length (hdr_blocks (dk start)) < Z.to_nat LOGSIZE)%nat ->
  same_home start (recover dk start) (recover (writes dk (take k (recovery_writes dk start))) start).
Proof.
  intros Hlen Hh Hn. set (bl := hdr_blocks (dk start)) in *. set (ws := install_writes dk start bl).
  assert (forall w, w ∈ ws -> ~ in_log start w.1) as Hws.
  { intros w Hw. apply (list_elem_of_fmap_2 fst) in Hw. unfold ws in Hw. rewrite install_targets in Hw.
    by apply (proj1 (Forall_forall _ _) Hh) in Hw as [_ ?]. }
  intros n Hnl. unfold recovery_writes. fold bl ws. rewrite take_app.
  destruct (decide (k <= length ws)%nat) as [Hk|Hk].
  - replace (k - length ws)%nat with 0%nat by lia. rewrite take_0, app_nil_r.
    set (dk1 := writes dk (take k ws)).
    assert (forall m, in_log start m -> dk1 m = dk m) as Elog.
    { intros m Hm. apply writes_other. intros w Hw%in_take E. apply (Hws w Hw). by rewrite E. }
    assert (dk1 start = dk start) as Es by (apply Elog; unfold in_log; change LOGSIZE with 30; lia).
    rewrite !recover_home by done. rewrite Es. fold bl. fold ws.
    assert (install_writes dk1 start bl = ws) as ->.
    { apply list_fmap_ext. intros j ? [-> Hj]%lookup_seq. f_equal. apply Elog. unfold in_log.
      change LOGSIZE with 30. change (Z.to_nat LOGSIZE) with 30%nat in Hn. lia. }
    apply writes_again. intros w Hw%in_take. by apply list_elem_of_fmap_2.
  - rewrite (take_ge [_]) by (cbn; lia). rewrite (take_ge ws) by lia.
    change (writes dk (ws ++ [(start, put32 (dk start) 0 0)])) with (recover dk start).
    rewrite recover_clean; [done| |done].
    unfold recover, recovery_writes. rewrite writes_app. cbn. unfold write1. cbn. rewrite Z.eqb_refl.
    by apply hdr_n_clear.
Qed.

(** The contents the transaction installs. *)
Definition installed (dk : image) (bl : list Z) (new : image) : image :=
  fun n => if decide (n ∈ bl) then new n else dk n.

(** The log's copy of a block, once it is filled. *)
Lemma slot_read dk start bl new hd j : (j < length bl)%nat ->
  writes dk (log_writes start bl new ++ [(start, hd)]) (start + Z.of_nat j + 1) = new (bl !!! j).
Proof.
  intros Hj. rewrite writes_app, writes_other by (intros w ->%list_elem_of_singleton; cbn; lia).
  rewrite (writes_fun _ _ (fun n => new (bl !!! Z.to_nat (n - start - 1)))).
  - rewrite decide_True; [f_equal; f_equal; lia|]. unfold log_writes. rewrite <- list_fmap_compose.
    apply list_elem_of_fmap. exists j. split; [done|]. apply elem_of_seq. lia.
  - intros w (k & -> & Hk)%list_elem_of_fmap. cbn. f_equal. f_equal. lia.
Qed.

Section Commit.
Context (dk : image) (start : Z) (bl : list Z) (new : image).
Hypothesis dk_len : length (dk start) = BSIZE.
Hypothesis dk_clean : hdr_n (dk start) = 0.
Hypothesis bl_home : Forall (home_ok start) bl.
Hypothesis bl_len : (length bl < Z.to_nat LOGSIZE)%nat.

Lemma bl_not_log b : b ∈ bl -> ~ in_log start b.
Proof using All. intros Hb. by destruct (proj1 (Forall_forall _ _) bl_home b Hb). Qed.

(** While the log is being filled nothing has happened. *)
Lemma crash_logging ws : (forall w, w ∈ ws -> w ∈ log_writes start bl new) ->
  writes dk ws start = dk start /\ same_home start dk (writes dk ws).
Proof using All.
  intros Hws. assert (forall w, w ∈ ws -> start < w.1 < start + LOGSIZE) as Hr.
  { intros w (j & -> & Hj%elem_of_seq)%Hws%list_elem_of_fmap. cbn. change LOGSIZE with 30.
    change (Z.to_nat LOGSIZE) with 30%nat in bl_len. lia. }
  split; [apply writes_other; intros w Hw; specialize (Hr w Hw); lia|].
  intros n Hn. apply writes_other. intros w Hw E. apply Hn. unfold in_log. specialize (Hr w Hw). lia.
Qed.

(** The image when the header is on the disk and some blocks are installed. *)
Definition committed (m : nat) : image :=
  writes dk (log_writes start bl new ++ [(start, header (dk start) bl)] ++ take m ((fun b => (b, new b)) <$> bl)).

Lemma install_home m w : w ∈ take m ((fun b => (b, new b)) <$> bl) -> w.1 ∈ bl /\ w.2 = new w.1.
Proof. intros (b & -> & Hb)%in_take%list_elem_of_fmap. done. Qed.

Lemma committed_start m : committed m start = header (dk start) bl.
Proof using All.
  unfold committed. rewrite app_assoc, writes_app, writes_other.
  - rewrite writes_app. cbn. unfold write1. cbn. by rewrite Z.eqb_refl.
  - intros w [Hw _]%install_home E. rewrite E in Hw. apply (bl_not_log _ Hw). unfold in_log.
    change LOGSIZE with 30. lia.
Qed.

Lemma committed_slot m j : (j < length bl)%nat -> committed m (start + Z.of_nat j + 1) = new (bl !!! j).
Proof using All.
  intros Hj. unfold committed. rewrite app_assoc, writes_app, writes_other; [by apply slot_read|].
  change (Z.to_nat LOGSIZE) with 30%nat in bl_len.
  intros w [Hw _]%install_home E. rewrite E in Hw. apply (bl_not_log _ Hw). unfold in_log.
  change LOGSIZE with 30. lia.
Qed.

Lemma committed_home m n : ~ in_log start n ->
  committed m n = dk n \/ (n ∈ bl /\ committed m n = new n).
Proof using All.
  intros Hn. unfold committed. rewrite app_assoc, writes_app.
  set (d0 := writes dk _). rewrite (writes_fun d0 _ new) by (by intros w [_ ?]%install_home).
  destruct (decide _) as [Hin|_].
  - right. split; [|done]. apply list_elem_of_fmap in Hin as (w & -> & [Hw _]%install_home). done.
  - left. unfold d0. rewrite writes_app, writes_other; [by apply (crash_logging (log_writes start bl new))|].
    intros w ->%list_elem_of_singleton. cbn. by apply not_eq_sym, home_start.
Qed.

Lemma committed_done n : ~ in_log start n -> committed (length bl) n = installed dk bl new n.
Proof using All.
  intros Hn. unfold committed. rewrite app_assoc, writes_app, take_ge by (by rewrite length_fmap).
  set (d0 := writes dk _). rewrite (writes_fun d0 _ new) by (by intros w (b & -> & _)%list_elem_of_fmap).
  rewrite <- list_fmap_compose. unfold compose, installed. cbn. rewrite list_fmap_id.
  destruct (decide _); [done|]. unfold d0. rewrite writes_app, writes_other.
  - by apply (crash_logging (log_writes start bl new)).
  - intros w ->%list_elem_of_singleton. cbn. by apply not_eq_sym, home_start.
Qed.

(** Once the header is written, recovery installs the rest. *)
Lemma crash_installing m : same_home start (installed dk bl new) (recover (committed m) start).
Proof using All.
  intros n Hn. rewrite recover_home, committed_start by done.
  destruct (header_roundtrip start (dk start) bl dk_len (Nat.lt_le_incl _ _ bl_len) bl_home) as [_ ->].
  rewrite (writes_fun _ _ new).
  - rewrite install_targets. unfold installed. destruct (decide _); [done|].
    destruct (committed_home m n Hn) as [?|[? _]]; done.
  - intros w (j & -> & Hj%elem_of_seq)%list_elem_of_fmap. cbn. apply committed_slot. lia.
Qed.

(** A crash after any number of the writes of a commit. *)
Lemma crash_commit k :
  same_home start dk (recover (writes dk (take k (commit_writes dk start bl new))) start) \/
  same_home start (installed dk bl new) (recover (writes dk (take k (commit_writes dk start bl new))) start).
Proof using All.
  unfold commit_writes. set (lw := log_writes start bl new). set (iw := (fun b => (b, new b)) <$> bl).
  destruct (decide (k <= length lw)%nat) as [Hk|Hk].
  { left. rewrite take_app_le by done. destruct (crash_logging (take k lw)) as [E1 E2]; [by intros w ?%in_take|].
    intros n Hn. rewrite recover_clean; [by apply E2|by rewrite E1|done]. }
  right. rewrite take_app_ge by lia. destruct (k - length lw)%nat as [|m] eqn:Em; [lia|]. cbn [app take].
  destruct (decide (m <= length iw)%nat) as [Hm|Hm].
  - rewrite take_app_le by done. apply (crash_installing m).
  - rewrite take_ge by (rewrite length_app; cbn; lia).
    assert (writes dk (lw ++ (start, header (dk start) bl) :: iw ++ [(start, put32 (header (dk start) bl) 0 0)]) =
      writes (committed (length bl)) [(start, put32 (header (dk start) bl) 0 0)]) as ->.
    { unfold committed. fold lw iw. rewrite <- writes_app, take_ge by (by unfold iw; rewrite length_fmap).
      f_equal. by rewrite <- !app_assoc. }
    intros n Hn. rewrite recover_clean; [|cbn; unfold write1; cbn; rewrite Z.eqb_refl|done].
    + rewrite writes_other by (intros w ->%list_elem_of_singleton; cbn; by apply not_eq_sym, home_start).
      by apply committed_done.
    + apply hdr_n_clear. apply length_header; [done|lia].
Qed.
End Commit.

