(* ===== verification/LogTx.v ===== *)
(** * Transactions

    The state of the log between the operations of a transaction, and what
    [begin_op], [log_write], [commit], [end_op] and recovery do to it. *)

From S2P Require Import Prelude State Mem Spinlock Sched SchedFacts Ide Bio BioFacts Cache CacheThm Log LogFacts LogCrash.

(** ** The transaction in memory *)

(** Between system calls of a transaction: the header in memory lists the
    blocks [bl], which are dirty in the cache; the log on the disk is empty.
    [H] are the buffers in use. *)
Record tx (i : nat) (dev start : Z) (H : list nat) (bl : list Z) (s : kst) : Prop := {
  tx_at : log_at dev start (lg s);
  tx_n : lh_n (lg s) = Z.of_nat (length bl);
  tx_blocks : take (length bl) (lh_block (lg s)) = bl;
  tx_size : length (lh_block (lg s)) = Z.to_nat LOGSIZE;
  tx_len : (length bl < NBUF)%nat;
  tx_home : Forall (home_ok start) bl;
  tx_nodup : NoDup bl;
  tx_cache : bcache i H (pair dev <$> bl) s;
  tx_dirty : forall b, b ∈ bl -> dirtyc s dev b;
  tx_clear : hdr_n (disk_of s dev start) = 0 }.

Lemma NBUF_LOGSIZE : NBUF = 30%nat /\ LOGSIZE = 30.
Proof. done. Qed.

(** A block that is neither in use nor dirty is as on the disk. *)
Lemma bview_disk i D s dev n :
  bcache i [] D s -> dev_ok dev -> (dev, n) ∉ D -> bview s dev n = disk_of s dev n.
Proof.
  intros [_ [l Hl] Hb Hd] Hdev Hn. unfold bview. destruct (List.find _ _) as [p|] eqn:E; [|done].
  apply find_take_isbuf in E as (b & Hp & Ht). apply andb_true_iff in Ht as [[E1 E2]%is_block_eq Hv].
  rewrite (c_clean _ _ Hl b p Hp); [unfold disk_of, blk; by rewrite E1, E2| |done|].
  - destruct (b_busy p) eqn:Ebu; [|done]. destruct (Hb b p Hp Ebu) as [?%elem_of_nil _]. done.
  - destruct (b_dirty p) eqn:Edi; [|done]. specialize (Hd b p Hp Edi). rewrite E1, E2 in Hd. done.
Qed.

Lemma write_blocks_ext n bl bl' : forall k d,
  (forall j, (k <= j < k + n)%nat -> bl !!! j = bl' !!! j) -> write_blocks n k bl d = write_blocks n k bl' d.
Proof.
  induction n as [|n IH]; intros k d E; cbn [write_blocks]; [done|].
  rewrite (E k) by lia. apply IH. intros j Hj. apply E. lia.
Qed.

Section TxFacts.
Context (i : nat) (dev start : Z) (bl : list Z) (s : kst).
Hypothesis Htx : tx i dev start [] bl s.

Lemma tx_nth j : (j < length bl)%nat -> lh_block (lg s) !!! j = bl !!! j.
Proof using Htx.
  intros Hj. transitivity (take (length bl) (lh_block (lg s)) !!! j).
  - rewrite lookup_total_take. by rewrite decide_True.
  - by rewrite (tx_blocks _ _ _ _ _ _ Htx).
Qed.

Lemma tx_nth_home j : (j < length bl)%nat -> home_ok start (lh_block (lg s) !!! j).
Proof using Htx.
  intros Hj. rewrite tx_nth by done. destruct (lookup_lt_is_Some_2 bl j Hj) as [b Eb].
  rewrite (list_lookup_total_correct _ _ _ Eb). by apply (Forall_lookup_1 _ _ _ _ (tx_home _ _ _ _ _ _ Htx) Eb).
Qed.

Lemma tx_head h : head_of (lg s) h = header h bl.
Proof using Htx.
  unfold head_of, header. rewrite (tx_n _ _ _ _ _ _ Htx), Nat2Z.id. apply write_blocks_ext.
  intros j Hj. apply tx_nth. lia.
Qed.

Lemma tx_view n : n ∉ bl -> bview s dev n = disk_of s dev n.
Proof using Htx.
  intros Hn. eapply bview_disk; [apply (tx_cache _ _ _ _ _ _ Htx)|apply (la_ok _ _ _ (tx_at _ _ _ _ _ _ Htx))|].
  intros (b & [= ->] & Hb)%list_elem_of_fmap. done.
Qed.

(** What the file system is to be after the transaction is what the cache shows. *)
Lemma tx_installed n : installed (disk_of s dev) bl (bview s dev) n = bview s dev n.
Proof using Htx. unfold installed. destruct (decide _); [done|]. by rewrite tx_view. Qed.
End TxFacts.

(** ** What commit writes *)

Lemma bcache_upd_log i H D f s : bcache i H D s -> bcache i H D (upd_log f s).
Proof.
  intros [[[? ? ? ? ?] ? ? ?] [l [? ? ? ? ? ? ? ? ?]] Hb Hd]. split; [split; [split|..]|exists l; split|..]; done.
Qed.

Lemma dirtyc_upd_log f s dev n : dirtyc (upd_log f s) dev n <-> dirtyc s dev n.
Proof. done. Qed.

Lemma filter_all {A} (P : A -> Prop) `{!forall x, Decision (P x)} (l : list A) :
  (forall x, x ∈ l -> ~ P x) -> filter P l = [].
Proof.
  intros Hall. induction l as [|x l IH]; [done|]. rewrite filter_cons_False by (apply Hall; by left).
  apply IH. intros y Hy. apply Hall. by right.
Qed.

(** Filling the log, committing and installing. *)
Lemma commit_body i dev start bl s :
  tx i dev start [] bl s ->
  exists s', (write_log ;; write_head ;; install_trans) s = Ok tt s' /\
    wrote i dev (pair dev <$> bl) (log_writes start bl (bview s dev) ++
      [(start, header (disk_of s dev start) bl)] ++ ((fun b => (b, bview s dev b)) <$> bl)) s s'.
Proof.
  intros Htx. pose proof Htx as [Hat En Ebl Hsz Hlen Hhome Hnd Hbc Hdi Hcl]. pose proof NBUF_LOGSIZE as [HNB HLS].
  pose proof (la_ok _ _ _ Hat) as Hdev.
  assert (forall j, (j < length bl)%nat -> Z.of_nat j < LOGSIZE - 1) as Hj by (intros j ?; change LOGSIZE with 30; lia).
  assert (forall j k, (j < length bl)%nat -> (k < length bl)%nat -> lh_block (lg s) !!! k <> start + Z.of_nat j + 1) as Hap.
  { intros j k Hjl Hk. apply home_slot; [|by apply Hj]. by apply (tx_nth_home _ _ _ _ _ Htx). }
  assert (length (pair dev <$> bl) < NBUF)%nat as HD by (by rewrite length_fmap).
  destruct (copy_loop i dev (lg s) write_log_block (fun j => lh_block (lg s) !!! j) (fun j => start + Z.of_nat j + 1)
    (fun j => lh_block (lg s) !!! j) (length bl)) with (m := length bl) (k := 0%nat) (D := pair dev <$> bl) (s := s)
    as (s1 & E1 & W1); try done.
  { intros j D t Hjl. apply write_log_turn; [done|by apply Hj|by apply (tx_nth_home _ _ _ _ _ Htx)]. }
  { right. split; [by intros; apply Hap; lia|]. intros j Hjl. apply Hdi. rewrite (tx_nth _ _ _ _ _ Htx) by lia.
    apply list_elem_of_lookup_total_2. lia. }
  set (lw := _ <$> seq 0 _) in W1.
  assert (lw = log_writes start bl (bview s dev)) as Elw.
  { apply list_fmap_ext. intros j ? [-> Hjl]%lookup_seq. f_equal. by rewrite (tx_nth _ _ _ _ _ Htx). }
  assert (forall w, w ∈ lw -> exists j, (j < length bl)%nat /\ w.1 = start + Z.of_nat j + 1) as Hlw.
  { intros w (j & -> & Hjl%elem_of_seq)%list_elem_of_fmap. exists j. split; [lia|done]. }
  destruct (write_head_spec i dev start (lg s) _ s1 Hat ltac:(lia) (wr_cache _ _ _ _ _ _ W1)
    (frame_lg _ _ (wr_frame _ _ _ _ _ _ W1))) as (s2 & E2 & W2).
  { eapply Nat.le_lt_trans; [apply length_filter|done]. }
  rewrite (wr_view _ _ _ _ _ _ W1), (writes_other _ lw), (tx_head _ _ _ _ _ Htx), (tx_view _ _ _ _ _ Htx) in W2; first last.
  { intros w (j & _ & ->)%Hlw. lia. }
  { intros Hin. apply (home_start start start); [|done]. by apply (proj1 (Forall_forall _ _) Hhome) in Hin as [_ ?]. }
  pose proof (wrote_trans _ _ _ _ _ _ _ _ W1 W2) as W12.
  destruct (copy_loop i dev (lg s) install_block (fun j => start + Z.of_nat j + 1) (fun j => lh_block (lg s) !!! j)
    (fun j => lh_block (lg s) !!! j) (length bl)) with (m := length bl) (k := 0%nat) (s := s2)
    (D := filter (fun k => k ∉ (pair dev <$> (lw ++ [(start, header (disk_of s dev start) bl)]).*1)) (pair dev <$> bl))
    as (s3 & E3 & W3); try done.
  { intros j D t Hjl. apply install_turn; [done|by apply Hj|by apply (tx_nth_home _ _ _ _ _ Htx)]. }
  { intros j k Hjl Hk. by apply not_eq_sym, Hap. }
  { apply (wr_cache _ _ _ _ _ _ W12). }
  { apply (frame_lg _ _ (wr_frame _ _ _ _ _ _ W12)). }
  { eapply Nat.le_lt_trans; [apply length_filter|done]. }
  { right. split.
    { intros j k Hjk. rewrite !(tx_nth _ _ _ _ _ Htx) by lia. intros E.
      assert (k = j); [|lia]. eapply (NoDup_lookup bl); [done|apply list_lookup_lookup_total_lt; lia|].
      rewrite E. apply list_lookup_lookup_total_lt. lia. }
    intros j Hjl. apply (wr_dirty _ _ _ _ _ _ W12).
    - pose proof (tx_nth_home _ _ _ _ _ Htx j ltac:(lia)) as [_ Hnl].
      rewrite fmap_app. intros [(w & E & (k & Hk & Ew)%Hlw)%list_elem_of_fmap|E%list_elem_of_singleton]%elem_of_app.
      + rewrite Ew in E. by apply (home_slot start _ k Hnl (Hj _ Hk)).
      + by apply (home_start _ _ Hnl).
    - apply Hdi. rewrite (tx_nth _ _ _ _ _ Htx) by lia. apply list_elem_of_lookup_total_2. lia. }
  exists s3. split.
  - unfold write_log, install_trans. rewrite !bind_bind, !bind_gets, En, Nat2Z.id, (bind_Ok _ _ _ _ _ E1).
    rewrite (bind_Ok _ _ _ _ _ E2), bind_gets, (frame_lg _ _ (wr_frame _ _ _ _ _ _ W12)), En, Nat2Z.id. exact E3.
  - pose proof (wrote_trans _ _ _ _ _ _ _ _ W12 W3) as W. rewrite <- app_assoc, Elw in W.
    replace (_ <$> bl) with ((fun j => (lh_block (lg s) !!! j, bview s2 dev (start + Z.of_nat j + 1))) <$> seq 0 (length bl)); [exact W|].
    rewrite <- (total_map_seq (fun b => (b, bview s dev b))). apply list_fmap_ext. intros j ? [-> Hjl]%lookup_seq.
    change (0 + j)%nat with j. rewrite (tx_nth _ _ _ _ _ Htx) by done. f_equal.
    rewrite (wr_view _ _ _ _ _ _ W12), Elw. by apply slot_read.
Qed.

(** The same home blocks, seen through the cache. *)
Definition same_view (dev start : Z) (s s' : kst) : Prop := same_home start (bview s dev) (bview s' dev).

Definition to_dev (dev : Z) (ws : list (Z * list Z)) : list ((Z * Z) * list Z) :=
  (fun w => ((Z.land dev 1, w.1), w.2)) <$> ws.

Lemma commit_spec i dev start bl s :
  tx i dev start [] bl s ->
  exists s' ws, commit s = Ok tt s' /\ tx i dev start [] [] s' /\ same_view dev start s s' /\
    lg s' = set_lh_n 0 (lg s) /\ dwrites s' = dwrites s ++ to_dev dev ws /\
    (forall n, disk_of s' dev n = writes (disk_of s dev) ws n) /\
    ws = (if decide (bl = []) then [] else commit_writes (disk_of s dev) start bl (bview s dev)).
Proof.
  intros Htx. pose proof Htx as [Hat En Ebl Hsz Hlen Hhome Hnd Hbc Hdi Hcl]. pose proof NBUF_LOGSIZE as [HNB HLS].
  pose proof (la_ok _ _ _ Hat) as Hdev. unfold commit. rewrite bind_gets, En.
  destruct (decide (bl = [])) as [->|Hne].
  { exists s, []. cbn. split_and!; try done; [|by rewrite app_nil_r].
    destruct (lg s) eqn:El; cbn in *. by subst. }
  rewrite (proj2 (Z.ltb_lt 0 _)) by (destruct bl; [done|cbn; lia]). unfold when.
  destruct (commit_body i dev start bl s Htx) as (s1 & E1 & W1).
  set (ws := log_writes _ _ _ ++ _) in W1. pose proof W1 as [F1 C1 V1 K1 D1 Wr1].
  set (s2 := upd_log (set_lh_n 0) s1).
  assert (log_at dev start (lg s2)) as Hat2.
  { destruct Hat. split; try done; unfold s2; cbn; by rewrite (frame_lg _ _ F1). }
  destruct (write_head_spec i dev start (lg s2) _ s2 Hat2 ltac:(cbn; lia) (bcache_upd_log _ _ _ _ _ C1) eq_refl)
    as (s3 & E3 & [F3 C3 V3 K3 D3 Wr3]).
  { eapply Nat.le_lt_trans; [apply length_filter|by rewrite length_fmap]. }
  assert (filter (fun k => k ∉ (pair dev <$> ws.*1)) (pair dev <$> bl) = []) as Efl.
  { apply filter_all. intros k (n & -> & Hn)%list_elem_of_fmap Hni. apply Hni, list_elem_of_fmap_2.
    unfold ws. rewrite !fmap_app, !elem_of_app, <- list_fmap_compose. right; right.
    unfold compose. cbn. by rewrite list_fmap_id. }
  assert (bview s dev start = disk_of s dev start) as Est.
  { apply (tx_view _ _ _ _ _ Htx). intros Hin. apply (home_start start start); [|done].
    by apply (proj1 (Forall_forall _ _) Hhome) in Hin as [_ ?]. }
  assert (length (bview s dev start) = BSIZE) as Hlb.
  { rewrite Est. destruct Hbc as [_ [? Hc] _ _]. apply (c_disk _ _ Hc). }
  assert (forall n, bview s1 dev n = committed (bview s dev) start bl (bview s dev) (length bl) n) as Ec.
  { intros n. rewrite V1. unfold committed. rewrite take_ge by (by rewrite length_fmap). by rewrite Est. }
  assert (bview s1 dev start = header (disk_of s dev start) bl) as Eh.
  { rewrite Ec, committed_start, Est; try done. by rewrite Est. }
  change (bview s2) with (bview s1) in V3, C3, D3, Wr3, K3.
  assert (head_of (lg s2) (bview s1 dev start) = put32 (header (disk_of s dev start) bl) 0 0) as Ehd by (by rewrite Eh).
  rewrite Ehd in V3, C3, D3, Wr3, K3.
  exists s3, (ws ++ [(start, put32 (header (disk_of s dev start) bl) 0 0)]). split_and!.
  - revert E1. unfold bind. destruct (write_log s) as [[] t|]; [|done]. destruct (write_head t) as [[] t'|]; [|done].
    intros ->. exact E3.
  - split; rewrite ?(frame_lg _ _ F3); try done.
    + cbn. by rewrite (frame_lg _ _ F1).
    + cbn. lia.
    + constructor.
    + rewrite Efl in C3. exact C3.
    + by intros b ?%elem_of_nil.
    + rewrite D3. cbn. unfold write1. cbn. rewrite Z.eqb_refl. apply hdr_n_clear, length_header; [by rewrite <- Est|lia].
  - intros n Hn. rewrite V3, writes_other by (intros w ->%list_elem_of_singleton; cbn; by apply not_eq_sym, home_start).
    rewrite Ec, committed_done; try done; [|by rewrite Est]. unfold installed. by destruct (decide _).
  - rewrite (frame_lg _ _ F3). cbn. by rewrite (frame_lg _ _ F1).
  - rewrite Wr3. cbn. rewrite Wr1. unfold to_dev. by rewrite fmap_app, app_assoc.
  - intros n. rewrite D3, writes_app. by apply writes_ext.
  - unfold commit_writes, ws. by rewrite <- !app_assoc.
Qed.

(** ** Operations *)

(** The state after a critical section that woke up sleepers. *)
Definition after_crit (pt : list proc) (s : kst) : kst := set_cpu (settle (cpu s)) (set_ptable pt s).

Lemma bcache_crit i H D pt s : woken (ptable s) pt -> bcache i H D s -> bcache i H D (after_crit pt s).
Proof.
  intros Hw [Hio [l [? ? ? ? ? ? ? ? ?]] Hb Hd]. split; [|exists l; split|..]; try done.
  eapply io_ready_frame; [exact Hio|]. split; [exact Hw|]. split; [by right|]. by destruct s.
Qed.

Lemma tx_crit i dev start H bl pt s : woken (ptable s) pt -> tx i dev start H bl s -> tx i dev start H bl (after_crit pt s).
Proof. intros Hw [? ? ? ? ? ? ? Hbc ? ?]. split; try done. by apply bcache_crit. Qed.

(** Changing the counters of the log. *)
Definition same_header (l l' : log_t) : Prop :=
  l_dev l' = l_dev l /\ l_start l' = l_start l /\ l_size l' = l_size l /\ lh_n l' = lh_n l /\ lh_block l' = lh_block l.

Lemma tx_counters i dev start H bl f s :
  same_header (lg s) (f (lg s)) -> tx i dev start H bl s -> tx i dev start H bl (upd_log f s).
Proof.
  intros (E1 & E2 & E5 & E3 & E4) [[? ? ? ? ? ?] ? ? ? ? ? ? Hbc ? ?].
  split; cbn; rewrite ?E1, ?E2, ?E3, ?E4; try done; [split; cbn; congruence|by apply bcache_upd_log].
Qed.

(** [begin_op] when the log has room for the operation. *)
Lemma begin_op_ok i s :
  io_ready i s -> l_committing (lg s) = false ->
  lh_n (lg s) + (l_outstanding (lg s) + 1) * MAXOPBLOCKS <= LOGSIZE ->
  begin_op s = Ok tt (after_crit (ptable s) (upd_log (set_l_outstanding (l_outstanding (lg s) + 1)) s)).
Proof.
  intros Hio Hc Hr. unfold begin_op. rewrite (bind_Ok _ _ _ _ _ (crit_enter i LLog s (io_quiet _ _ Hio))), bind_gets. cbn [lg set_locks set_cpu].
  rewrite Hc, (proj2 (Z.ltb_ge _ _) Hr), bind_modify, (crit_exit i LLog s) by (done || apply (io_quiet _ _ Hio)). by destruct s.
Qed.

(** [end_op] of an operation that is not the last. *)
Lemma end_op_more i s :
  io_ready i s -> l_committing (lg s) = false -> l_outstanding (lg s) <> 1 ->
  end_op s = Ok tt (after_crit (wakeup1_pt CLog (ptable s)) (upd_log (set_l_outstanding (l_outstanding (lg s) - 1)) s)).
Proof.
  intros Hio Hc Ho. unfold end_op. rewrite (bind_Ok _ _ _ _ _ (crit_enter i LLog s (io_quiet _ _ Hio))), bind_modify, bind_gets.
  cbn [lg set_locks set_cpu upd_log set_lg l_committing set_l_outstanding l_outstanding]. rewrite Hc.
  destruct (Z.eqb_spec (l_outstanding (lg s) - 1) 0); [lia|].
  erewrite bind_Ok; [|by eapply (crit_wakeup i LLog CLog s _ (io_quiet _ _ Hio))].
  erewrite bind_Ok; [|by eapply (crit_exit i LLog s _ (io_quiet _ _ Hio))]. cbn. by destruct s.
Qed.

(** The critical sections around the commit. *)
Lemma end_op_last i s :
  io_ready i s -> l_committing (lg s) = false -> l_outstanding (lg s) = 1 ->
  end_op s = (commit ;; (acquire LLog ;; modify (upd_log (set_l_committing false)) ;; wakeup CLog ;; release LLog))
    (after_crit (ptable s) (upd_log (fun l => set_l_committing true (set_l_outstanding 0 l)) s)).
Proof.
  intros Hio Hc Ho. unfold end_op. rewrite (bind_Ok _ _ _ _ _ (crit_enter i LLog s (io_quiet _ _ Hio))), bind_modify, bind_gets.
  cbn [lg set_locks set_cpu upd_log set_lg l_committing set_l_outstanding l_outstanding]. rewrite Hc, Ho.
  change (1 - 1 =? 0) with true. cbv iota. rewrite bind_modify.
  erewrite bind_Ok; [|by eapply (crit_exit i LLog s _ (io_quiet _ _ Hio))]. unfold when. f_equal.
  unfold upd_log. cbn [lg set_locks set_cpu set_lg]. rewrite Ho. by destruct s.
Qed.

Lemma after_commit i s :
  io_ready i s ->
  (acquire LLog ;; modify (upd_log (set_l_committing false)) ;; wakeup CLog ;; release LLog) s =
    Ok tt (after_crit (wakeup1_pt CLog (ptable s)) (upd_log (set_l_committing false) s)).
Proof.
  intros Hio. rewrite (bind_Ok _ _ _ _ _ (crit_enter i LLog s (io_quiet _ _ Hio))), bind_modify.
  erewrite bind_Ok; [|by eapply (crit_wakeup i LLog CLog s _ (io_quiet _ _ Hio))].
  rewrite (crit_exit i LLog s) by (done || apply (io_quiet _ _ Hio)). by destruct s.
Qed.

(** Where [log_write] finds, or puts, a block number. *)
Lemma log_slot_spec n bl b : forall k,
  (forall j, (k <= j < k + n)%nat -> u32 (bl !!! j) = bl !!! j) ->
  ((k <= log_slot n k bl b < k + n)%nat /\ bl !!! (log_slot n k bl b) = b) \/
  (log_slot n k bl b = (k + n)%nat /\ forall j, (k <= j < k + n)%nat -> bl !!! j <> b).
Proof.
  induction n as [|n IH]; intros k Hu; cbn [log_slot].
  - right. split; [lia|]. intros j Hj. lia.
  - rewrite Hu by lia. destruct (Z.eqb_spec (bl !!! k) b) as [E|E].
    + left. split; [lia|done].
    + destruct (IH (S k)) as [[H1 H2]|[H1 H2]]; [intros j Hj; apply Hu; lia|left|right].
      * split; [lia|done].
      * split; [lia|]. intros j Hj. destruct (decide (j = k)) as [->|]; [done|]. apply H2. lia.
Qed.

(** The blocks of the transaction after block [n] is written in it. *)
Definition tx_add (n : Z) (bl : list Z) : list Z := if decide (n ∈ bl) then bl else bl ++ [n].

Lemma length_tx_add n bl : (length (tx_add n bl) <= S (length bl))%nat.
Proof. unfold tx_add. destruct (decide _); [lia|]. rewrite length_app. cbn. lia. Qed.

(** The header in memory after [log_write]. *)
Definition header_add (n : Z) (l : log_t) : log_t :=
  let k := log_slot (Z.to_nat (lh_n l)) 0 (lh_block l) n in
  let l := set_lh_block (<[k := i32 n]> (lh_block l)) l in
  if Z.of_nat k =? lh_n l then set_lh_n (lh_n l + 1) l else l.

Lemma header_add_spec start n bl l :
  home_ok start n -> Forall (home_ok start) bl -> lh_n l = Z.of_nat (length bl) ->
  take (length bl) (lh_block l) = bl -> (length bl < length (lh_block l))%nat ->
  lh_n (header_add n l) = Z.of_nat (length (tx_add n bl)) /\
  take (length (tx_add n bl)) (lh_block (header_add n l)) = tx_add n bl /\
  length (lh_block (header_add n l)) = length (lh_block l).
Proof.
  intros [Hn _] Hh En Et Hl. unfold header_add. rewrite En, Nat2Z.id. change FSSIZE with 1000 in Hn.
  rewrite (i32_small n) by lia.
  assert (forall j, (j < length bl)%nat -> lh_block l !! j = bl !! j) as Hnth.
  { intros j Hj. by rewrite <- (lookup_take_lt (lh_block l) _ _ Hj), Et. }
  assert (forall j, (j < length bl)%nat -> lh_block l !!! j = bl !!! j) as Hnth'.
  { intros j Hj. by rewrite !list_lookup_total_alt, Hnth. }
  destruct (log_slot_spec (length bl) (lh_block l) n 0) as [[H1 H2]|[H1 H2]].
  { intros j Hj. rewrite Hnth' by lia. eapply u32_block.
    apply (proj1 (Forall_forall _ _) Hh), list_elem_of_lookup_total_2. lia. }
  - rewrite Hnth' in H2 by lia. set (k := log_slot _ _ _ _) in *. cbn [lh_n lh_block set_lh_block].
    rewrite (proj2 (Z.eqb_neq _ _)) by lia. cbn. rewrite length_insert.
    unfold tx_add. rewrite decide_True by (rewrite <- H2; apply list_elem_of_lookup_total_2; lia).
    rewrite list_insert_id; [done|]. rewrite Hnth, <- H2 by lia. apply list_lookup_lookup_total_lt. lia.
  - rewrite H1, Nat.add_0_l. cbn [lh_n lh_block set_lh_block]. rewrite En, Z.eqb_refl. cbn. rewrite length_insert.
    unfold tx_add. rewrite decide_False.
    + rewrite length_app. cbn. split; [lia|]. split; [|done].
      rewrite Nat.add_1_r, (take_S_r _ _ n) by (by apply list_lookup_insert_eq).
      by rewrite take_insert_ge, Et by done.
    + intros Hin. apply list_elem_of_lookup in Hin as [j Hj]. pose proof (lookup_lt_Some _ _ _ Hj).
      apply (H2 j); [lia|]. rewrite Hnth' by done. by apply list_lookup_total_correct.
Qed.

Lemma bcache_dirty_more i H D D' s : (forall k, k ∈ D -> k ∈ D') -> bcache i H D s -> bcache i H D' s.
Proof. intros HD [? ? ? Hd]. split; try done. intros b p Hp Hdi. by apply HD, (Hd b p). Qed.

Lemma log_write_eq i s b p :
  io_ready i s -> bufs s !! b = Some p -> lh_n (lg s) < LOGSIZE -> lh_n (lg s) < l_size (lg s) - 1 ->
  1 <= l_outstanding (lg s) ->
  log_write b s = Ok tt (after_crit (ptable s) (upd_buf b (set_b_dirty true) (upd_log (header_add (b_blockno p)) s))).
Proof.
  intros Hio Hp H1 H2 H3. unfold log_write. rewrite bind_gets.
  rewrite (proj2 (Z.leb_gt _ _) H1), (proj2 (Z.leb_gt _ _) H2), (proj2 (Z.ltb_ge _ _) H3). cbn [orb].
  rewrite (bind_Ok _ _ _ _ _ (crit_enter i LLog s (io_quiet _ _ Hio))). unfold getbuf. rewrite !bind_gets.
  change (bufs (set_locks _ (set_cpu _ s))) with (bufs s). change (lg (set_locks _ (set_cpu _ s))) with (lg s).
  rewrite (list_lookup_total_correct _ _ _ Hp), bind_modify.
  change (upd_log (header_add (b_blockno p)) s) with (set_lg (header_add (b_blockno p) (lg s)) s). unfold header_add.
  set (k := log_slot _ _ _ _). cbn [lh_n set_lh_block].
  destruct (Z.of_nat k =? lh_n (lg s)); unfold when;
    rewrite ?bind_modify, ?bind_ret, ?bind_modify, (crit_exit i LLog s) by (done || apply (io_quiet _ _ Hio)); by destruct s.
Qed.

(** [log_write] of a held buffer adds its block to the transaction. *)
Lemma log_write_spec i dev start H bl s b n data d :
  tx i dev start H bl s -> held s b dev n data d -> home_ok start n ->
  Z.of_nat (length bl) < l_size (lg s) - 1 -> 1 <= l_outstanding (lg s) ->
  exists s', log_write b s = Ok tt s' /\ tx i dev start H (tx_add n bl) s' /\ held s' b dev n data true /\
    (forall j dev' n' data' d', j <> b -> held s j dev' n' data' d' -> held s' j dev' n' data' d') /\
    same_blocks s s' /\ disk s' = disk s /\ dwrites s' = dwrites s /\ lg s' = header_add n (lg s) /\
    bio_frame (upd_log (header_add n) s) s'.
Proof.
  intros [Hat En Ebl Hsz Hlen Hhome Hnd Hbc Hdi Hcl] Hh Hn Hroom Hout. pose proof NBUF_LOGSIZE as [HNB HLS].
  pose proof (la_size _ _ _ Hat) as Hls.
  assert (exists p, bufs s !! b = Some p /\ b_blockno p = n) as (p & Hp & Hpn).
  { destruct Hh as (p & [_ ?] & _ & _ & _ & _ & ? & _). by exists p. }
  pose proof (log_write_eq i s b p (bc_io _ _ _ _ Hbc) Hp ltac:(lia) ltac:(lia) Hout) as E. rewrite Hpn in E.
  destruct (setdirty_spec i H _ (upd_log (header_add n) s) b dev n data d (bcache_upd_log _ _ _ _ _ Hbc) Hh) as
    (Hbc1 & Hh1 & HK1 & V1 & K1 & Hd1).
  set (s1 := upd_buf b (set_b_dirty true) (upd_log (header_add n) s)) in *.
  assert (lg s1 = header_add n (lg s)) as El by done.
  destruct (header_add_spec start n bl (lg s) Hn Hhome En Ebl) as (E1 & E2 & E3); [rewrite Hsz; lia|].
  assert (same_header (lg s) (set_lh_n (lh_n (lg s)) (set_lh_block (lh_block (lg s)) (lg s1)))) as (F1 & F2 & F3 & _).
  { rewrite El. unfold header_add. by destruct (_ =? _). }
  pose proof (length_tx_add n bl) as Hla.
  exists (after_crit (ptable s) s1). split; [exact E|]. split; [|split; [done|]].
  - apply (tx_crit _ _ _ _ _ _ s1 (woken_refl _)). split; rewrite ?El; try done.
    + destruct Hat. split; try done; cbn in *; congruence.
    + by rewrite E3.
    + lia.
    + unfold tx_add. destruct (decide _); [done|]. by apply Forall_app_2; [|apply Forall_singleton].
    + unfold tx_add. destruct (decide _) as [|Hni]; [done|]. apply NoDup_app. split; [done|]. split; [|apply NoDup_singleton].
      intros x Hx ->%list_elem_of_singleton. done.
    + eapply bcache_dirty_more; [|exact Hbc1]. unfold tx_add. intros k [->|(m & -> & Hm)%list_elem_of_fmap]%elem_of_cons;
        apply list_elem_of_fmap_2; destruct (decide _); set_solver.
    + intros m Hm. unfold tx_add in Hm. destruct (decide (n ∈ bl)); [by apply K1, Hdi|].
      apply elem_of_app in Hm as [Hm|Hm]; [by apply K1, Hdi|]. by apply list_elem_of_singleton in Hm as ->.
  - split_and!; try done. split; [apply woken_refl|]. split; [by right|]. by destruct s.
Qed.


(** ** Recovery *)

Lemma length_read_blocks n d : forall k bl, length (read_blocks n k d bl) = length bl.
Proof. induction n as [|n IH]; intros k bl; cbn [read_blocks]; [done|]. by rewrite IH, length_insert. Qed.

Lemma read_blocks_nth n d j : forall k bl, (k + n <= length bl)%nat ->
  read_blocks n k d bl !! j = if decide (k <= j < k + n)%nat then Some (i32 (get32 d (4 + 4 * j))) else bl !! j.
Proof.
  induction n as [|n IH]; intros k bl Hl; cbn [read_blocks].
  - rewrite decide_False by lia. done.
  - rewrite IH by (rewrite length_insert; lia). destruct (decide (j = k)) as [->|Hne].
    + rewrite decide_False, decide_True by lia. by rewrite list_lookup_insert_eq by lia.
    + rewrite list_lookup_insert_ne by done. repeat destruct (decide _); done || lia.
Qed.

(** Reading a block and giving it back, by a process that holds none. *)
Lemma bread_brelse {A} i D s dev n (k : nat -> list Z -> M A) :
  bcache i [] D s -> dev_ok dev -> 0 <= n < FSSIZE -> (length D < NBUF)%nat ->
  exists b s1, (let* b := bread dev n in let* d := getbuf b b_data in k b d) s = k b (bview s dev n) s1 /\
    bio_frame s s1 /\ disk s1 = disk s /\ dwrites s1 = dwrites s /\
    (forall f, exists s2, brelse b (upd_log f s1) = Ok tt s2 /\ bio_frame (upd_log f s) s2 /\ bcache i [] D s2 /\
      same_blocks s s2 /\ disk s2 = disk s /\ dwrites s2 = dwrites s).
Proof.
  intros Hbc Hdev Hn HD. destruct (bread_spec i [] D s dev n Hbc Hdev Hn) as
    (b & d & s1 & E1 & F1 & Hbc1 & Hb & _ & Hcl1 & _ & V1 & _ & K1 & D1 & W1).
  { by right. }
  { intros ? ? ? Hh. by apply (held_in _ _ _ _ _ _ _ _ _ Hbc), elem_of_nil in Hh. }
  exists b, s1. split.
  { rewrite (bind_Ok _ _ _ _ _ E1). unfold getbuf. rewrite bind_gets.
    destruct Hb as (p & [_ Hp] & _ & _ & _ & _ & _ & <-). by rewrite (list_lookup_total_correct _ _ _ Hp). }
  split; [done|]. split; [done|]. split; [done|]. intros f.
  destruct (brelse_spec i [] D (upd_log f s1) b dev n (bview s dev n) d (bcache_upd_log _ _ _ _ _ Hbc1)) as
    (s2 & E2 & F2 & Hbc2 & _ & _ & _ & V2 & _ & D2 & W2); [apply not_elem_of_nil|done|done|].
  exists s2. split_and!; [done| |done| |by rewrite D2|by rewrite W2].
  - eapply bio_frame_trans; [|exact F2]. destruct F1 as (Wk & Hc & E). split; [done|]. split; [done|].
    unfold upd_log. rewrite E. by destruct s, s1.
  - intros ? ? Hd. rewrite (V2 _ _ Hd). by apply V1.
Qed.

(** The header [read_head] leaves in memory. *)
Definition head_read (h : list Z) (l : log_t) : log_t :=
  set_lh_block (read_blocks (Z.to_nat (hdr_n h)) 0 h (lh_block l)) (set_lh_n (hdr_n h) l).

Lemma head_read_blocks h l : 0 <= hdr_n h <= LOGSIZE -> length (lh_block l) = Z.to_nat LOGSIZE ->
  lh_n (head_read h l) = Z.of_nat (length (hdr_blocks h)) /\
  (forall j, (j < length (hdr_blocks h))%nat -> lh_block (head_read h l) !!! j = hdr_blocks h !!! j) /\
  length (lh_block (head_read h l)) = Z.to_nat LOGSIZE.
Proof.
  intros Hn Hl. unfold hdr_blocks, head_read. cbn [lh_n lh_block set_lh_block set_lh_n].
  rewrite length_fmap, length_seq, length_read_blocks. split; [lia|]. split; [|done]. intros j Hj.
  apply list_lookup_total_correct. rewrite read_blocks_nth by lia. rewrite decide_True by lia.
  f_equal. symmetry. apply list_lookup_total_correct. by rewrite list_lookup_fmap, lookup_seq_lt.
Qed.

Lemma read_head_spec i dev start s :
  bcache i [] [] s -> log_at dev start (lg s) -> hdr_n (disk_of s dev start) <= LOGSIZE ->
  exists s', read_head s = Ok tt s' /\ bcache i [] [] s' /\ lg s' = head_read (disk_of s dev start) (lg s) /\
    same_blocks s s' /\ disk s' = disk s /\ dwrites s' = dwrites s.
Proof.
  intros Hbc [Edev Est Hdev Hsz Hlo Hhi] Hn. pose proof NBUF_LOGSIZE as [HNB HLS].
  rewrite <- (bview_disk i [] s dev start) in * by (done || apply not_elem_of_nil).
  set (h := bview s dev start) in *. unfold read_head. rewrite bind_gets, Edev, Est.
  destruct (bread_brelse i [] s dev start (fun buf d => modify (upd_log (set_lh_n (i32 (get32 d 0)))) ;;
    let* n := gets (fun s => lh_n (lg s)) in
    (if LOGSIZE <? n then undefined "log.lh.block" else ret tt) ;;
    modify (upd_log (fun l => set_lh_block (read_blocks (Z.to_nat n) 0 d (lh_block l)) l)) ;;
    brelse buf) Hbc Hdev ltac:(lia) ltac:(rewrite HNB; cbn; lia)) as (b & s1 & E1 & F1 & D1 & W1 & Hrel).
  destruct (Hrel (head_read h)) as (s2 & E2 & F2 & Hbc2 & V2 & D2 & W2).
  exists s2. split_and!; [|done|by rewrite (frame_lg _ _ F2)|done..].
  rewrite E1. fold h. rewrite bind_modify, bind_gets.
  change (lh_n (lg (upd_log (set_lh_n (i32 (get32 h 0))) s1))) with (hdr_n h).
  rewrite (proj2 (Z.ltb_ge _ _) Hn), bind_ret, bind_modify. exact E2.
Qed.

(** Recovery copies the committed blocks and clears the log. *)
Lemma recover_from_log_spec i dev start s :
  bcache i [] [] s -> log_at dev start (lg s) -> length (lh_block (lg s)) = Z.to_nat LOGSIZE ->
  0 <= hdr_n (disk_of s dev start) < LOGSIZE ->
  Forall (home_ok start) (hdr_blocks (disk_of s dev start)) ->
  exists s', recover_from_log s = Ok tt s' /\ tx i dev start [] [] s' /\
    l_outstanding (lg s') = l_outstanding (lg s) /\ l_committing (lg s') = l_committing (lg s) /\
    dwrites s' = dwrites s ++ to_dev dev (recovery_writes (disk_of s dev) start) /\
    (forall n, disk_of s' dev n = recover (disk_of s dev) start n).
Proof.
  intros Hbc Hat Hlb Hn Hh. pose proof (la_ok _ _ _ Hat) as Hdev. pose proof NBUF_LOGSIZE as [HNB HLS].
  set (h := disk_of s dev start) in *. destruct (head_read_blocks h (lg s) ltac:(lia) Hlb) as (E1 & E2 & E3).
  assert (forall n, bview s dev n = disk_of s dev n) as Evd.
  { intros n. by apply (bview_disk i []), not_elem_of_nil. }
  destruct (read_head_spec i dev start s Hbc Hat ltac:(fold h; lia)) as (s1 & R1 & Hbc1 & L1 & V1 & D1 & W1). fold h in L1.
  assert (log_at dev start (lg s1)) as Hat1 by (rewrite L1; by destruct Hat).
  set (bl := hdr_blocks h) in *.
  assert (forall j, (j < length bl)%nat -> home_ok start (bl !!! j)) as Hhj.
  { intros j Hj. by apply (proj1 (Forall_forall _ _) Hh), list_elem_of_lookup_total_2. }
  assert (Z.of_nat (length bl) < LOGSIZE) as Hbl by (rewrite <- E1; cbn; lia).
  assert (forall j, (j < length bl)%nat -> lh_block (lg s1) !!! j = bl !!! j) as Hnth by (by rewrite L1).
  destruct (copy_loop i dev (lg s1) install_block (fun j => start + Z.of_nat j + 1) (fun j => lh_block (lg s1) !!! j)
    (fun j => lh_block (lg s1) !!! j) (length bl)) with (m := length bl) (k := 0%nat) (s := s1) (D := @nil (Z * Z))
    as (s2 & R2 & W2); try done; [| |rewrite HNB; cbn; lia|left; rewrite HNB; cbn; lia|].
  { intros j D t Hj. apply install_turn; [done|lia|]. rewrite Hnth by done. by apply Hhj. }
  { intros j k Hj Hk E. rewrite Hnth in E by done. symmetry in E. revert E. apply home_slot; [by apply Hhj|lia]. }
  set (ws := _ <$> seq 0 _) in W2.
  assert (ws = install_writes (disk_of s dev) start bl) as Ews.
  { apply list_fmap_ext. intros j ? [-> Hj]%lookup_seq. change (0 + j)%nat with j. rewrite Hnth by done.
    by rewrite (V1 _ _ Hdev), Evd. }
  pose proof W2 as [F2 C2 V2 K2 D2 Wr2]. set (s3 := upd_log (set_lh_n 0) s2).
  assert (log_at dev start (lg s3)) as Hat3.
  { destruct Hat1. split; try done; unfold s3; cbn; by rewrite (frame_lg _ _ F2). }
  destruct (write_head_spec i dev start (lg s3) _ s3 Hat3 ltac:(cbn; lia) (bcache_upd_log _ _ _ _ _ C2) eq_refl
    ltac:(rewrite HNB; cbn; lia)) as (s4 & R4 & W4).
  assert (forall n, writes (disk_of s dev) ws n = disk_of s2 dev n) as Ed2.
  { intros n. rewrite D2. apply writes_ext. intros m. unfold disk_of, block_at. by rewrite D1. }
  assert (bview s3 dev start = h) as Eh.
  { change (bview s2 dev start = h). rewrite V2, (writes_other _ ws), (V1 _ _ Hdev); [apply Evd|].
    rewrite Ews. intros w Hw E. apply (list_elem_of_fmap_2 fst) in Hw. rewrite install_targets, E in Hw.
    by apply (proj1 (Forall_forall _ _) Hh) in Hw as [_ ?%home_start]. }
  rewrite Eh in W4. change (head_of (lg s3) h) with (put32 h 0 0) in W4. destruct W4 as [F4 C4 V4 K4 D4 Wr4].
  exists s4. split_and!.
  - unfold recover_from_log, install_trans. rewrite (bind_Ok _ _ _ _ _ R1), bind_bind, bind_gets.
    rewrite L1, E1, Nat2Z.id, (bind_Ok _ _ _ _ _ R2), bind_modify. exact R4.
  - split; rewrite ?(frame_lg _ _ F4); try done.
    + cbn. rewrite (frame_lg _ _ F2), L1. exact E3.
    + rewrite HNB. cbn. lia.
    + constructor.
    + by intros b ?%elem_of_nil.
    + rewrite D4. cbn. unfold write1. cbn. rewrite Z.eqb_refl. apply hdr_n_clear.
      destruct Hbc as [_ [? Hc] _ _]. apply (c_disk _ _ Hc).
  - rewrite (frame_lg _ _ F4). cbn. by rewrite (frame_lg _ _ F2), L1.
  - rewrite (frame_lg _ _ F4). cbn. by rewrite (frame_lg _ _ F2), L1.
  - rewrite Wr4. cbn. rewrite Wr2, W1, Ews. unfold to_dev, recovery_writes. by rewrite fmap_app, app_assoc.
  - intros n. rewrite D4. unfold recover, recovery_writes. fold h bl. rewrite <- Ews, writes_app.
    apply writes_ext. intros m. by rewrite Ed2.
Qed.

(** Cache operations that write nothing keep the transaction. *)
Lemma tx_frame i dev start H H' bl s s' :
  tx i dev start H bl s -> bio_frame s s' -> bcache i H' (pair dev <$> bl) s' ->
  (forall n, dirtyc s dev n -> dirtyc s' dev n) -> disk s' = disk s -> tx i dev start H' bl s'.
Proof.
  intros [? ? ? ? ? ? ? ? Hdi Hcl] F Hbc K Ed. pose proof (frame_lg _ _ F) as El.
  split; rewrite ?El; try done; [by auto|]. unfold disk_of, block_at in *. by rewrite Ed.
Qed.

(** Changing a block in a transaction. *)
Lemma tx_change i dev start bl s n (f : list Z -> list Z) :
  tx i dev start [] bl s -> home_ok start n -> (forall d, length d = BSIZE -> length (f d) = BSIZE) ->
  Z.of_nat (length bl) < l_size (lg s) - 1 -> 1 <= l_outstanding (lg s) ->
  exists s', (let* b := bread dev n in let* d := getbuf b b_data in
      modify (upd_buf b (set_b_data (f d))) ;; log_write b ;; brelse b) s = Ok tt s' /\
    tx i dev start [] (tx_add n bl) s' /\ lg s' = header_add n (lg s) /\
    (forall m, bview s' dev m = if decide (m = n) then f (bview s dev n) else bview s dev m) /\
    disk s' = disk s /\ dwrites s' = dwrites s.
Proof.
  intros Htx Hn Hf Hroom Hout. pose proof (tx_cache _ _ _ _ _ _ Htx) as Hbc. pose proof (tx_len _ _ _ _ _ _ Htx) as Hlen.
  pose proof (la_ok _ _ _ (tx_at _ _ _ _ _ _ Htx)) as Hdev.
  destruct (bread_spec i [] _ s dev n Hbc Hdev (proj1 Hn)) as
    (b & d & s1 & E1 & F1 & Hbc1 & Hb1 & _ & _ & _ & V1 & _ & K1 & D1 & W1);
    [right; by rewrite length_fmap|intros ? ? ?; by eapply no_held|].
  rewrite (bind_Ok _ _ _ _ _ E1). unfold getbuf. rewrite bind_gets, bind_modify.
  assert (b_data (bufs s1 !!! b) = bview s dev n) as ->.
  { destruct Hb1 as (p & [_ Hp] & _ & _ & _ & _ & _ & <-). by rewrite (list_lookup_total_correct _ _ _ Hp). }
  destruct (held_view _ _ _ _ _ _ _ _ _ Hbc1 Hb1) as (_ & _ & Hl1).
  destruct (setdata_spec _ _ _ _ _ _ _ _ _ (f (bview s dev n)) Hbc1 Hb1 (Hf _ Hl1)) as (Hbc2 & Hb2 & _ & V2 & K2).
  set (s2 := upd_buf b (set_b_data (f (bview s dev n))) s1) in *.
  assert (tx i dev start [b] bl s2) as Htx2.
  { eapply (tx_frame _ _ _ _ [b] _ s); [done| |done| |done].
    - eapply bio_frame_trans; [exact F1|]. apply (upd_buf_frame b (set_b_data (f (bview s dev n)))).
    - intros m Hm. by apply K2, K1. }
  assert (lg s2 = lg s) as El by (apply (frame_lg _ _ F1)).
  destruct (log_write_spec i dev start [b] bl s2 b n _ d Htx2 Hb2 Hn) as
    (s3 & E3 & Htx3 & Hb3 & _ & V3 & D3 & W3 & L3 & _); [by rewrite El..|].
  rewrite (bind_Ok _ _ _ _ _ E3).
  destruct (brelse_spec i [] _ s3 b dev n (f (bview s dev n)) true (tx_cache _ _ _ _ _ _ Htx3)) as
    (s4 & E4 & F4 & Hbc4 & _ & _ & _ & V4 & K4 & D4 & W4); [apply not_elem_of_nil|done|done|].
  exists s4. split; [done|]. split; [|split; [by rewrite (frame_lg _ _ F4), L3, El|split; [|split]]].
  - eapply (tx_frame _ _ _ _ [] _ s3); [done|done|done|by apply K4|done].
  - intros m. rewrite V4, V3, V2 by done. destruct (decide _) as [E|E], (decide (m = n)); try congruence. by apply V1.
  - rewrite D4, D3. exact D1.
  - rewrite W4, W3. exact W1.
Qed.

