(* ===== verification/LogThm.v ===== *)
(** * Atomicity of transactions

    [end_op] commits atomically and [initlog] recovers from every crash. *)

From S2P Require Import Prelude State Mem Spinlock Sched SchedFacts Ide Bio BioFacts Cache CacheThm Log LogFacts LogCrash LogTx.

(** C1: ending the last operation of a transaction commits it atomically.
    [end_op] makes a sequence of disk writes such that a crash after any number
    of them, followed by recovery, leaves every block outside the log as it was
    on the disk before or as the buffer cache had it, for all blocks alike; when
    it returns the blocks are on the disk, the log is empty again and no other
    operation is kept waiting. *)
Theorem end_op_atomic i dev start bl s :
  tx i dev start [] bl s -> l_committing (lg s) = false -> l_outstanding (lg s) = 1 ->
  exists s' ws, end_op s = Ok tt s' /\ tx i dev start [] [] s' /\
    l_committing (lg s') = false /\ l_outstanding (lg s') = 0 /\
    dwrites s' = dwrites s ++ to_dev dev ws /\
    same_home start (bview s dev) (disk_of s' dev) /\
    forall k, let crashed := recover (writes (disk_of s dev) (take k ws)) start in
      same_home start (disk_of s dev) crashed \/ same_home start (bview s dev) crashed.
Proof.
  intros Htx Hc Ho. pose proof (bc_io _ _ _ _ (tx_cache _ _ _ _ _ _ Htx)) as Hio.
  rewrite (end_op_last i s Hio Hc Ho).
  set (s1 := after_crit _ _).
  assert (tx i dev start [] bl s1) as Htx1.
  { apply (tx_crit _ _ _ _ _ (ptable s)); [apply woken_refl|]. by apply tx_counters. }
  destruct (commit_spec i dev start bl s1 Htx1) as (s2 & ws & E2 & Htx2 & V2 & L2 & W2 & D2 & Ews).
  rewrite (bind_Ok _ _ _ _ _ E2), (after_commit i s2 (bc_io _ _ _ _ (tx_cache _ _ _ _ _ _ Htx2))).
  exists (after_crit (wakeup1_pt CLog (ptable s2)) (upd_log (set_l_committing false) s2)), ws. split_and!; try done.
  - apply tx_crit; [apply wakeup1_woken|]. by apply tx_counters.
  - cbn. by rewrite L2.
  - intros n Hn. change (disk_of s2 dev n = bview s dev n). rewrite <- (tx_view _ _ _ _ _ Htx2) by apply not_elem_of_nil.
    by apply V2.
  - intros k. change (disk_of s) with (disk_of s1). change (bview s) with (bview s1). cbn zeta.
    destruct (decide (bl = [])) as [->|Hne].
    { left. subst ws. rewrite take_nil. apply recover_clean, (tx_clear _ _ _ _ _ _ Htx1). }
    rewrite Ews. pose proof Htx1 as [Hat En Ebl Hsz Hlen Hhome Hnd Hbc Hdi Hcl]. pose proof NBUF_LOGSIZE as [HNB HLS].
    destruct (crash_commit (disk_of s1 dev) start bl (bview s1 dev)) with (k := k) as [?|Hin]; try done; [|by left|].
    + destruct Hbc as [_ [? Hcache] _ _]. apply (c_disk _ _ Hcache).
    + right. intros n Hn. rewrite (Hin n Hn). by apply (tx_installed _ _ _ _ _ Htx1).
Qed.

(** A file system at rest on the second disk: a log of LOGSIZE blocks from block
    2 on. *)
Definition log_state (d : gmap (Z * Z) (list Z)) : kst :=
  set_lg (MkLog 2 LOGSIZE 0 false 1 0 (replicate (Z.to_nat LOGSIZE) 0)) (fs_state d).

Lemma log_state_tx : tx 0 1 2 [] [] (log_state ∅).
Proof.
  split; try done; [split; try done; by right|apply Nat.lt_0_succ|constructor| |by intros ? ?%elem_of_nil].
  apply bcache_upd_log with (f := fun _ => lg (log_state ∅)), fresh_bcache; [apply fs_state_ready|reflexivity|done].
Qed.

(** An operation that changes block 40. *)
Lemma change_block_40 s0 :
  tx 0 1 2 [] [] s0 -> l_size (lg s0) = LOGSIZE -> l_committing (lg s0) = false -> l_outstanding (lg s0) = 0 ->
  exists s1 s2, begin_op s0 = Ok tt s1 /\
    (let* b := bread 1 40 in let* d := getbuf b b_data in
      modify (upd_buf b (set_b_data ((fun _ => replicate BSIZE 7) d))) ;; log_write b ;; brelse b) s1 = Ok tt s2 /\
    tx 0 1 2 [] [40] s2 /\ l_committing (lg s2) = false /\ l_outstanding (lg s2) = 1 /\
    bview s2 1 40 = replicate BSIZE 7 /\ disk s2 = disk s0.
Proof.
  intros Htx Hsz Hc Ho. pose proof (bc_io _ _ _ _ (tx_cache _ _ _ _ _ _ Htx)) as Hio.
  pose proof (begin_op_ok 0 s0 Hio Hc) as E0. rewrite Ho, (tx_n _ _ _ _ _ _ Htx) in E0. specialize (E0 ltac:(by vm_compute)).
  set (s1 := after_crit (ptable s0) (upd_log (set_l_outstanding (0 + 1)) s0)) in E0.
  assert (tx 0 1 2 [] [] s1) as Htx1 by (apply tx_crit; [apply woken_refl|by apply tx_counters]).
  assert (lg s1 = set_l_outstanding 1 (lg s0)) as L1 by done.
  destruct (tx_change 0 1 2 [] s1 40 (fun _ => replicate BSIZE 7) Htx1) as (s2 & E2 & Htx2 & L2 & V2 & D2 & _).
  - split; [by vm_compute|]. unfold in_log. change LOGSIZE with 30. lia.
  - done.
  - rewrite L1. cbn. by rewrite Hsz.
  - by rewrite L1.
  - exists s1, s2. split; [exact E0|]. split; [exact E2|]. split; [exact Htx2|]. rewrite L2.
    unfold header_add. rewrite L1. split_and!; [by destruct (_ =? _)..| |exact D2]. rewrite V2. by rewrite decide_True.
Qed.

Lemma end_op_atomic_witness : exists s s' ws, bview s 1 40 <> disk_of s 1 40 /\ end_op s = Ok tt s' /\
  forall k, let crashed := recover (writes (disk_of s 1) (take k ws)) 2 in
    crashed 40 = replicate BSIZE 0 \/ crashed 40 = replicate BSIZE 7.
Proof.
  destruct (change_block_40 (log_state ∅) log_state_tx eq_refl eq_refl eq_refl) as (s1 & s & _ & _ & Htx & Hc & Ho & V & Dk).
  assert (disk_of s 1 40 = replicate BSIZE 0) as D by (unfold disk_of, block_at; rewrite Dk; reflexivity).
  destruct (end_op_atomic 0 1 2 [40] s Htx Hc Ho) as (s' & ws & E & _ & _ & _ & _ & _ & Hcrash).
  exists s, s', ws. split; [rewrite V, D; discriminate|]. split; [exact E|]. intros k.
  assert (~ in_log 2 40) as Hn by (unfold in_log; change LOGSIZE with 30; lia).
  destruct (Hcrash k) as [H1|H1]; [left|right]; cbn zeta; [rewrite (H1 40 Hn); exact D|rewrite (H1 40 Hn); exact V].
Defined.

(** C11: at boot, [initlog] recovers the file system from any crash.  For a
    superblock that places the log and a header that lists blocks outside of it,
    it copies the committed blocks to their home locations and clears the log;
    a crash in the middle of recovery changes nothing: recovering again gives
    the same contents. *)
Theorem initlog_recovers i dev start s :
  bcache i [] [] s -> length (lh_block (lg s)) = Z.to_nat LOGSIZE -> dev_ok dev ->
  let dk := disk_of s dev in
  get32 (dk 1) 16 = start -> get32 (dk 1) 12 <= LOGSIZE -> 0 <= get32 (dk 1) 12 ->
  0 <= start -> start + LOGSIZE <= FSSIZE ->
  0 <= hdr_n (dk start) < LOGSIZE -> Forall (home_ok start) (hdr_blocks (dk start)) ->
  exists s' ws, initlog dev s = Ok tt s' /\ tx i dev start [] [] s' /\
    dwrites s' = dwrites s ++ to_dev dev ws /\
    (forall n, disk_of s' dev n = recover dk start n) /\
    forall k, same_home start (disk_of s' dev) (recover (writes dk (take k ws)) start).
Proof.
  intros Hbc Hlb Hdev dk Est Hsz Hsz0 Hlo Hhi Hn Hh. pose proof NBUF_LOGSIZE as [HNB HLS].
  unfold initlog, initlock. rewrite bind_modify.
  assert (set_locks (delete LLog (locks s)) s = s) as ->.
  { rewrite (q_locks _ _ (io_quiet _ _ (bc_io _ _ _ _ Hbc))), delete_empty.
    rewrite <- (q_locks _ _ (io_quiet _ _ (bc_io _ _ _ _ Hbc))). by destruct s. }
  destruct (bread_brelse i [] s dev 1 (fun bp d => brelse bp ;; ret (MkSb (get32 d 0) (get32 d 4) (get32 d 8)
    (get32 d 12) (get32 d 16) (get32 d 20) (get32 d 24))) Hbc Hdev ltac:(by vm_compute) ltac:(rewrite HNB; cbn; lia))
    as (b & s1 & E1 & F1 & D1 & W1 & Hrel).
  destruct (Hrel (fun l => l)) as (s2 & E2 & F2 & Hbc2 & V2 & D2 & W2).
  assert (upd_log (fun l => l) s1 = s1) as Eid by (by destruct s1). rewrite Eid in E2.
  rewrite (bview_disk i []), (bind_Ok _ _ _ _ _ E2) in E1 by (done || apply not_elem_of_nil).
  fold (readsb dev) in E1. rewrite (bind_Ok _ _ _ _ _ E1). fold dk. cbn [sb_logstart sb_nlog].
  rewrite !bind_modify, Est, (i32_small start), (i32_small (get32 (dk 1) 12)) by (change FSSIZE with 1000 in *; lia).
  set (s3 := upd_log (set_l_dev dev) _).
  assert (lg s3 = set_l_dev dev (set_l_size (get32 (dk 1) 12) (set_l_start start (lg s)))) as L3.
  { unfold s3. cbn. by rewrite (frame_lg _ _ F2). }
  assert (forall n, disk_of s3 dev n = dk n) as Edk by (intros n; unfold disk_of, block_at, dk, s3; cbn; by rewrite D2).
  destruct (recover_from_log_spec i dev start s3) as (s4 & E4 & Htx4 & _ & _ & W4 & D4).
  - by do 3 apply bcache_upd_log.
  - rewrite L3. by split.
  - by rewrite L3.
  - by rewrite Edk.
  - by rewrite Edk.
  - assert (recovery_writes (disk_of s3 dev) start = recovery_writes dk start) as Erw.
    { unfold recovery_writes, install_writes. rewrite Edk. f_equal. apply list_fmap_ext. intros ? ? _. by rewrite Edk. }
    assert (forall n, disk_of s4 dev n = recover dk start n) as Ed4.
    { intros n. rewrite D4. unfold recover. rewrite Erw. by apply writes_ext. }
    exists s4, (recovery_writes dk start). split_and!; [done|done| |done|].
    + rewrite W4, Erw. cbn. by rewrite W2.
    + intros k n Hnl. rewrite Ed4. apply recovery_restart; [|done| |done].
      * destruct Hbc as [_ [? Hc] _ _]. apply (c_disk _ _ Hc).
      * unfold hdr_blocks. rewrite length_fmap, length_seq. lia.
Qed.

(** The disk after a crash in the commit of block 40: superblock, header, and
    the new contents in the log. *)
Definition crashed_disk : gmap (Z * Z) (list Z) :=
  <[(1, 1) := put32 (put32 (replicate BSIZE 0) 12 LOGSIZE) 16 2]>
    (<[(1, 2) := header (replicate BSIZE 0) [40]]> {[(1, 3) := replicate BSIZE 7]}).

Lemma initlog_recovers_witness : exists s', initlog 1 (log_state crashed_disk) = Ok tt s' /\
  disk_of s' 1 40 = replicate BSIZE 7 /\ disk_of (log_state crashed_disk) 1 40 = replicate BSIZE 0.
Proof.
  destruct (initlog_recovers 0 1 2 (log_state crashed_disk)) as (s' & ws & E & _ & _ & D & _).
  - apply bcache_upd_log with (f := fun _ => lg (log_state crashed_disk)), fresh_bcache; [apply fs_state_ready|reflexivity|].
    intros k. unfold block_at. change (disk (fs_state crashed_disk)) with crashed_disk. unfold crashed_disk.
    rewrite !lookup_insert, lookup_singleton. repeat destruct (decide _); by vm_compute.
  - reflexivity.
  - by right.
  - by vm_compute.
  - by vm_compute.
  - by vm_compute.
  - by vm_compute.
  - by vm_compute.
  - by vm_compute.
  - replace (hdr_blocks _) with [40] by (by vm_compute). apply Forall_singleton. split; [by vm_compute|].
    unfold in_log. change LOGSIZE with 30. lia.
  - exists s'. split; [exact E|]. split; [rewrite D; by vm_compute|by vm_compute].
Defined.
