(* ===== verification/Inode.v ===== *)
(** * Blocks and inodes (fs.c)

    The free-block bitmap, the inode blocks and the inode cache.  A cached
    inode is named by its index in the table; a process that finds it locked
    stops and runs the test again when it is woken up. *)

From S2P Require Import Prelude State Mem Spinlock Sched SchedFacts Ide Bio Log.

(** ** fs.h *)

Definition ROOTINO : Z := 1.
Definition BPB : Z := 4096.
Definition IPB : Z := 8.
Definition DINODE_SIZE : nat := 64.
Definition DIRSIZ : nat := 14.
Definition DIRENT_SIZE : Z := 16.

Definition T_DIR : Z := 1.
Definition T_FILE : Z := 2.
Definition T_DEV : Z := 3.

Definition BBLOCK (b : Z) (sb : superblock) : Z := u32 (b / BPB + sb_bmapstart sb).
Definition IBLOCK (i : Z) (sb : superblock) : Z := u32 (i / IPB + sb_inodestart sb).

(** ** Blocks *)

(** Zero a block. *)
Definition bzero (dev bno : Z) : M unit :=
  let* bp := bread dev bno in
  modify (upd_buf bp (set_b_data (replicate BSIZE 0))) ;;
  log_write bp ;;
  brelse bp.

(** The mask and the byte of bit [bi]; is it clear? *)
Definition bit_mask (bi : Z) : Z := Z.shiftl 1 (bi mod 8).
Definition bit_byte (bi : Z) : nat := Z.to_nat (bi / 8).
Definition bit_free (d : list Z) (bi : Z) : bool := Z.land (d !!! bit_byte bi) (bit_mask bi) =? 0.

(** [for(bi = 0; bi < BPB && b + bi < sb.size; bi++)] up to a free block. *)
Fixpoint bitmap_scan (n : nat) (bi b size : Z) (d : list Z) : option Z :=
  match n with
  | O => None
  | S n =>
    if b + bi <? size then
      if bit_free d bi then Some bi else bitmap_scan n (bi + 1) b size d
    else None
  end.

(** [for(b = 0; b < sb.size; b += BPB)] *)
Fixpoint balloc_loop (n : nat) (dev b : Z) : M Z :=
  let* sb := gets sb in
  if b <? sb_size sb then
    match n with
    | O => panic "balloc: out of fuel"
    | S n =>
      let* bp := bread dev (BBLOCK b sb) in
      let* d := getbuf bp b_data in
      match bitmap_scan (Z.to_nat BPB) 0 b (sb_size sb) d with
      | Some bi =>
        modify (upd_buf bp (set_b_data (alter (fun v => Z.lor v (bit_mask bi)) (bit_byte bi) d))) ;;
        log_write bp ;;
        brelse bp ;;
        bzero dev (b + bi) ;;
        ret (b + bi)
      | None => brelse bp ;; balloc_loop n dev (b + BPB)
      end
    end
  else panic "balloc: out of blocks".

(** Allocate a zeroed disk block. *)
Definition balloc (dev : Z) : M Z :=
  let* sb := gets sb in
  balloc_loop (Z.to_nat (sb_size sb / BPB) + 1) dev 0.

(** Free a disk block. *)
Definition bfree (dev b : Z) : M unit :=
  let* sb' := readsb dev in
  modify (set_sb sb') ;;
  let* bp := bread dev (BBLOCK b sb') in
  let bi := b mod BPB in
  let* d := getbuf bp b_data in
  if bit_free d bi then panic "freeing free block"
  else
    modify (upd_buf bp (set_b_data (alter (fun v => Z.land v (Z.lnot (bit_mask bi))) (bit_byte bi) d))) ;;
    log_write bp ;;
    brelse bp.

(** ** Inodes *)

Definition iinit (dev : Z) : M unit :=
  initlock LIcache ;;
  let* sb' := readsb dev in
  modify (set_sb sb').

(** [(struct dinode* )bp->data + inum%IPB], and the fields of [struct dinode]
    there. *)
Definition dinode_off (inum : Z) : nat := Z.to_nat (inum mod IPB) * DINODE_SIZE.
Definition di_type (d : list Z) (o : nat) : Z := i16 (get16 d o).
Definition di_major (d : list Z) (o : nat) : Z := i16 (get16 d (o + 2)).
Definition di_minor (d : list Z) (o : nat) : Z := i16 (get16 d (o + 4)).
Definition di_nlink (d : list Z) (o : nat) : Z := i16 (get16 d (o + 6)).
Definition di_size (d : list Z) (o : nat) : Z := get32 d (o + 8).
Definition di_addrs (d : list Z) (o : nat) : list Z :=
  (fun j => get32 d (o + 12 + 4 * j)) <$> seq 0 (S NDIRECT).

(** [memmove(dip->addrs, ip->addrs, sizeof(ip->addrs))] *)
Fixpoint put_addrs (d : list Z) (o : nat) (l : list Z) : list Z :=
  match l with
  | [] => d
  | a :: l => put_addrs (put32 d o a) (o + 4) l
  end.

(** The inode as [iupdate] writes it. *)
Definition put_dinode (d : list Z) (o : nat) (ip : inode) : list Z :=
  let d := put16 d o (i_type ip) in
  let d := put16 d (o + 2) (i_major ip) in
  let d := put16 d (o + 4) (i_minor ip) in
  let d := put16 d (o + 6) (i_nlink ip) in
  let d := put32 d (o + 8) (i_size ip) in
  put_addrs d (o + 12) (i_addrs ip).

(** The fields [ilock] reads. *)
Definition read_dinode (d : list Z) (o : nat) (ip : inode) : inode :=
  set_i_addrs (di_addrs d o) (set_i_size (di_size d o) (set_i_nlink (di_nlink d o)
    (set_i_minor (di_minor d o) (set_i_major (di_major d o) (set_i_type (di_type d o) ip))))).

Definition getinode {A} (ip : nat) (f : inode -> A) : M A := gets (fun s => f (icache s !!! ip)).

(** Copy a modified in-memory inode to disk. *)
Definition iupdate (ip : nat) : M unit :=
  let* dev := getinode ip i_dev in
  let* inum := getinode ip i_inum in
  let* sb := gets sb in
  let* bp := bread dev (IBLOCK inum sb) in
  let* i := gets (fun s => icache s !!! ip) in
  modify (upd_buf bp (fun b => set_b_data (put_dinode (b_data b) (dinode_off inum) i) b)) ;;
  log_write bp ;;
  brelse bp.

(** The scan of [iget]: the entry for the inode, or the first free one. *)
Fixpoint iget_scan (l : list inode) (k : nat) (empty : option nat) (dev inum : Z) : nat + option nat :=
  match l with
  | [] => inr empty
  | ip :: l =>
    if (0 <? i_ref ip) && (i_dev ip =? dev) && (i_inum ip =? inum) then inl k
    else iget_scan l (S k) (match empty with None => if i_ref ip =? 0 then Some k else None | _ => empty end) dev inum
  end.

(** Find the inode with number inum on device dev and return the in-memory
    copy.  Does not lock the inode and does not read it from disk. *)
Definition iget (dev inum : Z) : M nat :=
  acquire LIcache ;;
  let* r := gets (fun s => iget_scan (icache s) 0 None dev inum) in
  match r with
  | inl ip =>
    modify (upd_inode ip (fun i => set_i_ref (i_ref i + 1) i)) ;;
    release LIcache ;;
    ret ip
  | inr None => panic "iget: no inodes"
  | inr (Some ip) =>
    modify (upd_inode ip (fun i => set_i_valid false (set_i_busy false (set_i_ref 1 (set_i_inum inum (set_i_dev dev i)))))) ;;
    release LIcache ;;
    ret ip
  end.

(** [for(inum = 1; inum < sb.ninodes; inum++)] *)
Fixpoint ialloc_loop (n : nat) (dev inum type : Z) : M nat :=
  let* sb := gets sb in
  if inum <? sb_ninodes sb then
    match n with
    | O => panic "ialloc: out of fuel"
    | S n =>
      let* bp := bread dev (IBLOCK inum sb) in
      let* d := getbuf bp b_data in
      let o := dinode_off inum in
      if di_type d o =? 0 then
        modify (upd_buf bp (set_b_data (put16 (splice d o (replicate DINODE_SIZE 0)) o type))) ;;
        log_write bp ;;
        brelse bp ;;
        iget dev inum
      else
        brelse bp ;;
        ialloc_loop n dev (inum + 1) type
    end
  else panic "ialloc: no inodes".

(** Allocate a new inode with the given type on device dev. *)
Definition ialloc (dev type : Z) : M nat :=
  let* sb := gets sb in
  ialloc_loop (Z.to_nat (sb_ninodes sb)) dev 1 type.

(** Increment reference count for ip. *)
Definition idup (ip : nat) : M nat :=
  acquire LIcache ;;
  modify (upd_inode ip (fun i => set_i_ref (i_ref i + 1) i)) ;;
  release LIcache ;;
  ret ip.

(** Lock the given inode.  Reads the inode from disk if necessary. *)
Definition ilock (ip : nat) : M unit :=
  let* r := getinode ip i_ref in
  if r <? 1 then panic "ilock"
  else
    acquire LIcache ;;
    let* busy := getinode ip i_busy in
    if busy then sleep (CInode ip) LIcache
    else
      modify (upd_inode ip (set_i_busy true)) ;;
      release LIcache ;;
      let* valid := getinode ip i_valid in
      when (negb valid)
        (let* dev := getinode ip i_dev in
         let* inum := getinode ip i_inum in
         let* sb := gets sb in
         let* bp := bread dev (IBLOCK inum sb) in
         let* d := getbuf bp b_data in
         modify (upd_inode ip (read_dinode d (dinode_off inum))) ;;
         brelse bp ;;
         modify (upd_inode ip (set_i_valid true)) ;;
         let* t := getinode ip i_type in
         if t =? 0 then panic "ilock: no type" else ret tt).

(** Unlock the given inode. *)
Definition iunlock (ip : nat) : M unit :=
  let* i := gets (fun s => icache s !!! ip) in
  if negb (i_busy i) || (i_ref i <? 1) then panic "iunlock"
  else
    acquire LIcache ;;
    modify (upd_inode ip (set_i_busy false)) ;;
    wakeup (CInode ip) ;;
    release LIcache.

(** ** Inode content *)

(** The tail of [bmap] for the indirect block. *)
Definition bmap_indirect (ip : nat) (bn : nat) (addr : Z) : M Z :=
  let* dev := getinode ip i_dev in
  let* bp := bread dev addr in
  let* d := getbuf bp b_data in
  let a := get32 d (4 * bn) in
  let* addr :=
    (if a =? 0 then
       let* dev := getinode ip i_dev in
       let* a := balloc dev in
       modify (upd_buf bp (fun b => set_b_data (put32 (b_data b) (4 * bn) a) b)) ;;
       log_write bp ;;
       ret a
     else ret a) in
  brelse bp ;;
  ret addr.

(** [if((addr = ip->addrs[k]) == 0) ip->addrs[k] = addr = balloc(ip->dev);] *)
Definition bmap_slot (ip : nat) (k : nat) : M Z :=
  let* a := getinode ip (fun i => i_addrs i !!! k) in
  if a =? 0 then
    let* dev := getinode ip i_dev in
    let* a := balloc dev in
    modify (upd_inode ip (fun i => set_i_addrs (<[k := a]> (i_addrs i)) i)) ;;
    ret a
  else ret a.

(** Return the disk block address of the nth block in inode ip.  If there is
    no such block, bmap allocates one. *)
Definition bmap (ip : nat) (bn : Z) : M Z :=
  if bn <? Z.of_nat NDIRECT then bmap_slot ip (Z.to_nat bn)
  else
    let bn := bn - Z.of_nat NDIRECT in
    if bn <? Z.of_nat NINDIRECT then
      let* addr := bmap_slot ip NDIRECT in
      bmap_indirect ip (Z.to_nat bn) addr
    else panic "bmap: out of range".

(** [if(ip->addrs[i]){ bfree(ip->dev, ip->addrs[i]); ip->addrs[i] = 0; }] *)
Definition itrunc_slot (ip : nat) (k : nat) : M unit :=
  let* a := getinode ip (fun i => i_addrs i !!! k) in
  when (negb (a =? 0))
    (let* dev := getinode ip i_dev in
     bfree dev a ;;
     modify (upd_inode ip (fun i => set_i_addrs (<[k := 0]> (i_addrs i)) i))).

(** Truncate inode (discard contents). *)
Definition itrunc (ip : nat) : M unit :=
  forM (seq 0 NDIRECT) (itrunc_slot ip) ;;
  let* a := getinode ip (fun i => i_addrs i !!! NDIRECT) in
  when (negb (a =? 0))
    (let* dev := getinode ip i_dev in
     let* bp := bread dev a in
     forM (seq 0 NINDIRECT) (fun j =>
       let* d := getbuf bp b_data in
       let b := get32 d (4 * j) in
       when (negb (b =? 0)) (bfree dev b)) ;;
     brelse bp ;;
     bfree dev a ;;
     modify (upd_inode ip (fun i => set_i_addrs (<[NDIRECT := 0]> (i_addrs i)) i))) ;;
  modify (upd_inode ip (set_i_size 0)) ;;
  iupdate ip.

(** Drop a reference to an in-memory inode.  If that was the last reference
    and the inode has no links to it, free the inode (and its content) on
    disk. *)
Definition iput (ip : nat) : M unit :=
  acquire LIcache ;;
  let* i := gets (fun s => icache s !!! ip) in
  when ((i_ref i =? 1) && i_valid i && (i_nlink i =? 0))
    ((if i_busy i then panic "iput busy" else ret tt) ;;
     modify (upd_inode ip (set_i_busy true)) ;;
     release LIcache ;;
     itrunc ip ;;
     modify (upd_inode ip (set_i_type 0)) ;;
     iupdate ip ;;
     acquire LIcache ;;
     modify (upd_inode ip (fun i => set_i_valid false (set_i_busy false i))) ;;
     wakeup (CInode ip)) ;;
  modify (upd_inode ip (fun i => set_i_ref (i_ref i - 1) i)) ;;
  release LIcache.

Definition iunlockput (ip : nat) : M unit := iunlock ip ;; iput ip.

(** [struct stat] (stat.h) *)
Record stat := MkStat {
  st_type : Z;
  st_dev : Z;
  st_ino : Z;
  st_nlink : Z;
  st_size : Z }.

(** Copy stat information from inode. *)
Definition stati (ip : nat) : M stat :=
  gets (fun s => let i := icache s !!! ip in
    MkStat (i_type i) (i_dev i) (i_inum i) (i_nlink i) (i_size i)).
