(* ===== verification/Kalloc.v ===== *)
(** * The physical page allocator (kalloc.c)

    The free list is the chain of pages the code links through the first word
    of each free page, kept in memory. *)

From S2P Require Import Prelude State Mem Spinlock.

Section Kalloc.
Context {KI : KernelImage}.

(** [if(kmem.use_lock) acquire(&kmem.lock)] and its counterpart. *)
Definition kmem_acquire : M unit :=
  let* u := gets use_lock in when u (acquire LKmem).
Definition kmem_release : M unit :=
  let* u := gets use_lock in when u (release LKmem).

Definition kfree (v : Z) : M unit :=
  if negb (v mod PGSIZE =? 0) || (v <? k_end) || (PHYSTOP <=? v2p v)
  then panic "kfree"
  else
    modify (fun s => set_mem (mfill (mem s) v 1 PGSIZE) s) ;;
    kmem_acquire ;;
    modify (fun s => set_freelist v (set_mem (st32 (mem s) v (freelist s)) s)) ;;
    kmem_release.

Definition kalloc : M Z :=
  kmem_acquire ;;
  let* r := gets freelist in
  when (negb (r =? 0)) (modify (fun s => set_freelist (ld32 (mem s) r) s)) ;;
  kmem_release ;;
  ret r.

(** [for(; p + PGSIZE <= vend; p += PGSIZE) kfree(p);], [n] turns at most. *)
Fixpoint freerange_loop (n : nat) (p vend : Z) : M unit :=
  match n with
  | O => ret tt
  | S n =>
    if p + PGSIZE <=? vend then kfree p ;; freerange_loop n (p + PGSIZE) vend
    else ret tt
  end.

Definition freerange (vstart vend : Z) : M unit :=
  let p := PGROUNDUP vstart in
  freerange_loop (Z.to_nat ((vend - p) / PGSIZE) + 1) p vend.

Definition kinit1 (vstart vend : Z) : M unit :=
  initlock LKmem ;;
  modify (set_use_lock false) ;;
  freerange vstart vend.

Definition kinit2 (vstart vend : Z) : M unit :=
  freerange vstart vend ;;
  modify (set_use_lock true).

(** ** The free list *)

(** A page the allocator may hand out. *)
Definition page_ok (v : Z) : Prop :=
  v mod PGSIZE = 0 /\ k_end <= v < KERNBASE + PHYSTOP.

(** [chain m r l]: from [r], the links in memory lead through the pages [l]. *)
Fixpoint chain (m : Z -> Z) (r : Z) (l : list Z) : Prop :=
  match l with
  | [] => r = 0
  | v :: l => r = v /\ chain m (ld32 m v) l
  end.

Definition free_pages (l : list Z) (s : kst) : Prop :=
  chain (mem s) (freelist s) l /\ NoDup l /\ Forall page_ok l.

(** Ready to use the allocator: its lock is free and interrupts are sane. *)
Definition kmem_ready (s : kst) : Prop :=
  locks s !! LKmem = None /\ Smp.cpu_sane (cpu s).

(** The processor after one use of the allocator. *)
Definition kcpu (s : kst) : cpu_t := if use_lock s then settle (cpu s) else cpu s.

Definition overlap (a b : Z) : Prop := a < b + PGSIZE /\ b < a + PGSIZE.

Lemma page_ok_pos v : page_ok v -> 0 < v < 2^32.
Proof.
  intros [_ H]. pose proof k_data_low. pose proof k_data_end.
  unfold KERNLINK, KERNBASE, EXTMEM, PHYSTOP in *. lia.
Qed.

Lemma page_ok_v2p v : page_ok v -> v2p v = v - KERNBASE.
Proof.
  intros [_ H]. pose proof k_data_low. pose proof k_data_end. unfold v2p. apply u32_small.
  unfold KERNLINK, KERNBASE, EXTMEM, PHYSTOP in *. lia.
Qed.

(** Two different pages do not overlap. *)
Lemma aligned_disjoint a b :
  a mod PGSIZE = 0 -> b mod PGSIZE = 0 -> a <> b -> a + PGSIZE <= b \/ b + PGSIZE <= a.
Proof. unfold PGSIZE. intros. zdm. Qed.

Lemma chain_ext m m' l : forall r,
  (forall v x, v ∈ l -> v <= x < v + PGSIZE -> m x = m' x) -> chain m r l -> chain m' r l.
Proof.
  induction l as [|v l IH]; intros r Hm; cbn; [done|]. intros [-> Hc]. split; [done|].
  replace (ld32 m' v) with (ld32 m v).
  - apply IH; [|done]. intros w x Hw. apply Hm. by right.
  - unfold ld32. f_equal. apply mread_ext. intros x Hx. apply (Hm v); [by left|].
    unfold PGSIZE. lia.
Qed.

Lemma kmem_acquire_spec s :
  kmem_ready s ->
  kmem_acquire s = Ok tt (if use_lock s
    then set_locks (<[LKmem := c_id (cpu s)]> (locks s)) (set_cpu (pushcli_cpu (cpu s)) s)
    else s).
Proof.
  intros [Hl _]. unfold kmem_acquire, bind, gets, when. destruct (use_lock s); [|done].
  by apply acquire_free.
Qed.

(** The critical section of the allocator around a change [f] of memory and
    free list. *)
Lemma kmem_section {A} (f : kst -> kst) (g : kst -> A) (body : A -> M unit) s :
  kmem_ready s ->
  (forall t, body (g t) t = Ok tt (f t)) ->
  (forall t, use_lock (f t) = use_lock t /\ cpu (f t) = cpu t /\ locks (f t) = locks t) ->
  (forall t k c, f (set_locks k (set_cpu c t)) = set_locks k (set_cpu c (f t))) ->
  (forall t k c, g (set_locks k (set_cpu c t)) = g t) ->
  (kmem_acquire ;; let* r := gets g in body r ;; kmem_release ;; ret r) s =
  Ok (g s) (set_cpu (kcpu s) (f s)).
Proof.
  intros Hr Hb Hf Hcomm Hg. pose proof (kmem_acquire_spec s Hr) as Ha. destruct Hr as [Hl Hs].
  rewrite (bind_Ok _ _ _ _ _ Ha). unfold bind, gets, kmem_release, when, kcpu.
  destruct (Hf s) as (Hu & Hc & Hk). rewrite Hb. unfold bind, gets.
  destruct (use_lock s) eqn:E.
  - rewrite Hcomm, Hg. cbn. rewrite Hu.
    erewrite (release_acquired LKmem (cpu s)); [| |done|done].
    + cbn. rewrite delete_insert_id by done. rewrite <- Hk. unfold ret. by destruct (f s).
    + cbn. by rewrite lookup_insert_eq, pushcli_id.
  - rewrite Hu. rewrite <- Hc. unfold ret. by destruct (f s).
Qed.

Lemma kalloc_eq s :
  kmem_ready s ->
  kalloc s = Ok (freelist s) (set_cpu (kcpu s)
    (if freelist s =? 0 then s else set_freelist (ld32 (mem s) (freelist s)) s)).
Proof.
  intros Hr. unfold kalloc.
  apply (kmem_section (fun t => if freelist t =? 0 then t
                                else set_freelist (ld32 (mem t) (freelist t)) t)
           freelist (fun r => when (negb (r =? 0)) _)); try done.
  - intros t. unfold when. by destruct (freelist t =? 0).
  - intros t. by destruct (freelist t =? 0).
  - intros t k c. cbn. by destruct (freelist t =? 0).
Qed.

Lemma kfree_eq v s :
  kmem_ready s -> page_ok v ->
  kfree v s = Ok tt (set_cpu (kcpu s)
    (set_freelist v (set_mem (st32 (mfill (mem s) v 1 PGSIZE) v (freelist s)) s))).
Proof.
  intros Hr Hv. pose proof (page_ok_v2p v Hv) as E. destruct Hv as [Ha Hb].
  unfold kfree. rewrite Ha, E. cbn [Z.eqb negb orb].
  destruct (Z.ltb_spec v k_end); [lia|]. destruct (Z.leb_spec PHYSTOP (v - KERNBASE)); [lia|].
  cbn [orb]. unfold bind at 1, modify at 1. cbn.
  pose proof (kmem_section (fun t => set_freelist v (set_mem (st32 (mem t) v (freelist t)) t))
    (fun _ => tt) (fun _ => modify _) (set_mem (mfill (mem s) v 1 PGSIZE) s)
    Hr (fun t => eq_refl) (fun t => conj eq_refl (conj eq_refl eq_refl))
    (fun t k c => eq_refl) (fun t k c => eq_refl)) as K.
  unfold kcpu in *. cbn in K. etransitivity; [|exact K]. unfold bind, gets.
  destruct (kmem_acquire _); [|done]. unfold modify.
  match goal with |- context [kmem_release ?t] => by destruct (kmem_release t) as [[] ?|] end.
Qed.

(** [kfree] of an address that is not a page of free memory panics. *)
Lemma kfree_bad v s :
  is_u32 v -> KERNBASE <= v -> ~ page_ok v -> kfree v s = Halt (Panicked "kfree") s.
Proof.
  intros Hu Hk Hv. unfold kfree, page_ok, v2p, is_u32, KERNBASE in *.
  rewrite u32_small by lia. bool_cases; try done. exfalso. apply Hv. lia.
Qed.

Lemma kmem_ready_kcpu s t :
  kmem_ready s -> locks t = locks s -> cpu t = kcpu s -> kmem_ready t.
Proof.
  intros [Hl Hs] El Ec. split; [by rewrite El|]. rewrite Ec. unfold kcpu.
  destruct (use_lock s); [by apply settle_sane|done].
Qed.

(** Memory changed only in the pages of [ps]. *)
Definition mem_within (ps : list Z) (m m' : Z -> Z) : Prop :=
  forall x, (forall v, v ∈ ps -> ~ (v <= x < v + PGSIZE)) -> m' x = m x.

Lemma kalloc_cons v l s :
  kmem_ready s -> free_pages (v :: l) s ->
  exists s', kalloc s = Ok v s' /\ free_pages l s' /\ kmem_ready s' /\
    s' = set_cpu (kcpu s) (set_freelist (freelist s') s).
Proof.
  intros Hr ((Ev & Hc) & [Hni Hnd]%NoDup_cons & [Hv Hl]%Forall_cons).
  rewrite kalloc_eq by done. pose proof (page_ok_pos _ Hv). rewrite Ev.
  destruct (Z.eqb_spec v 0); [lia|]. eexists. split_and!; [done|..].
  - by split_and!.
  - by eapply kmem_ready_kcpu.
  - done.
Qed.

Lemma kalloc_nil s :
  kmem_ready s -> free_pages [] s -> kalloc s = Ok 0 (set_cpu (kcpu s) s).
Proof. intros Hr [E _]. rewrite kalloc_eq by done. cbn in E. by rewrite E. Qed.

Lemma kfree_cons v l s :
  kmem_ready s -> free_pages l s -> page_ok v -> v ∉ l ->
  exists s', kfree v s = Ok tt s' /\ free_pages (v :: l) s' /\ kmem_ready s' /\
    mem_within [v] (mem s) (mem s') /\
    s' = set_cpu (kcpu s) (set_freelist v (set_mem (mem s') s)).
Proof.
  intros Hr (Hc & Hnd & Hl) Hv Hni. rewrite kfree_eq by done.
  eexists. split_and!; [done|..|done].
  - split_and!; cbn; [split; [done|]|by apply NoDup_cons|by apply Forall_cons].
    assert (is_u32 (freelist s)) as Hfl.
    { unfold is_u32. destruct l as [|w l]; cbn in Hc; [by rewrite Hc|].
      destruct Hc as [-> _]. apply Forall_cons in Hl as [Hw _]. pose proof (page_ok_pos _ Hw). lia. }
    rewrite ld32_st32_same by done. eapply chain_ext; [|done].
    intros w x Hw Hx. assert (w <> v) by (by intros ->).
    destruct (aligned_disjoint w v) as [?|?]; [| |done|..].
    1,2: unfold page_ok in *; eapply Forall_forall in Hl; [|done]; tauto.
    1,2: unfold st32; rewrite mwrite_out, mfill_out; unfold PGSIZE in *; cbn; lia || done.
  - by eapply kmem_ready_kcpu.
  - intros x Hx. cbn. specialize (Hx v ltac:(by left)). unfold PGSIZE in *.
    unfold st32. rewrite mwrite_out, mfill_out; cbn; lia || done.
Qed.

Lemma kfree_bytes v s s' :
  kmem_ready s -> page_ok v -> kfree v s = Ok tt s' ->
  (forall x, is_byte (mem s x)) -> forall x, is_byte (mem s' x).
Proof.
  intros Hr Hv E Hb. rewrite kfree_eq in E by done. simplify_eq. cbn.
  apply mwrite_bytes; [by apply mfill_bytes|apply bytes32_bytes].
Qed.

(** ** Clients of the allocator *)

(** The kernel using the allocator from a state whose free pages are [pool]:
    [client s H] is a state it can reach with the pages [H] in use.  It
    allocates, frees pages it has in use, and writes to them. *)
Inductive client (pool : list Z) : kst -> list Z -> Prop :=
  | client_start s : free_pages pool s -> kmem_ready s -> client pool s []
  | client_alloc s H v s' :
      client pool s H -> kalloc s = Ok v s' -> v <> 0 -> client pool s' (v :: H)
  | client_fail s H s' :
      client pool s H -> kalloc s = Ok 0 s' -> client pool s' H
  | client_free s H1 v H2 s' :
      client pool s (H1 ++ v :: H2) -> kfree v s = Ok tt s' -> client pool s' (H1 ++ H2)
  | client_write s H m :
      client pool s H -> mem_within H (mem s) m -> client pool (set_mem m s) H.

Definition client_ok (pool : list Z) (s : kst) (H : list Z) : Prop :=
  NoDup pool /\ Forall page_ok pool /\
  exists l, free_pages l s /\ kmem_ready s /\ l ++ H ≡ₚ pool.

Lemma client_ok_alloc pool s H v s' :
  client_ok pool s H -> kalloc s = Ok v s' ->
  client_ok pool s' (if v =? 0 then H else v :: H).
Proof.
  intros (Hn & Hok & l & Hf & Hr & Hp) Ha. split_and!; [done|done|]. destruct l as [|w l].
  - rewrite kalloc_nil in Ha by done. simplify_eq. exists []. split_and!; [done| |done].
    by eapply kmem_ready_kcpu.
  - destruct (kalloc_cons _ _ _ Hr Hf) as (t & Et & Hft & Hrt & _).
    rewrite Et in Ha. simplify_eq. destruct Hf as (_ & _ & [Hw _]%Forall_cons).
    pose proof (page_ok_pos _ Hw). destruct (Z.eqb_spec v 0); [lia|].
    exists l. split_and!; [done|done|]. by rewrite <- Permutation_middle.
Qed.

Lemma client_ok_free pool s H1 v H2 s' :
  client_ok pool s (H1 ++ v :: H2) -> kfree v s = Ok tt s' -> client_ok pool s' (H1 ++ H2).
Proof.
  intros (Hn & Hok & l & Hf & Hr & Hp) Ha. split_and!; [done|done|].
  rewrite <- Permutation_middle in Hp.
  assert (v ∈ pool) as Hv by (rewrite <- Hp; set_solver).
  eapply Forall_forall in Hok; [|done].
  destruct (kfree_cons v l s) as (t & Et & Hft & Hrt & _); try done.
  { intros Hin. rewrite <- Hp in Hn. apply NoDup_app in Hn as (_ & Hd & _). set_solver. }
  rewrite Et in Ha. simplify_eq. exists (v :: l). split_and!; [done|done|].
  rewrite <- Hp. cbn. apply Permutation_middle.
Qed.

Lemma client_ok_write pool s H m :
  client_ok pool s H -> mem_within H (mem s) m -> client_ok pool (set_mem m s) H.
Proof.
  intros (Hn & Hok & l & (Hc & Hnd & Hl) & Hr & Hp) Hm. split_and!; [done|done|].
  exists l. split_and!; [|done|done]. split_and!; [|done|done]. cbn.
  eapply chain_ext; [|done]. intros v x Hv Hx. symmetry. apply Hm. intros w Hw Hwx.
  assert (v <> w) as Hne.
  { intros ->. rewrite <- Hp in Hn. apply NoDup_app in Hn as (_ & Hd & _). set_solver. }
  assert (page_ok v /\ page_ok w) as [[Hva _] [Hwa _]].
  { rewrite <- Hp in Hok. rewrite Forall_forall in Hok. split; apply Hok; set_solver. }
  destruct (aligned_disjoint v w); unfold PGSIZE in *; lia || done.
Qed.

Lemma client_inv pool s H : client pool s H -> client_ok pool s H.
Proof.
  induction 1 as [s Hf Hr|s H v s' _ IH Ha Hv|s H s' _ IH Ha|s H1 v H2 s' _ IH Ha|s H m _ IH Hm].
  - pose proof Hf as (_ & Hnd & Hl). split_and!; [done|done|]. exists pool. by rewrite app_nil_r.
  - pose proof (client_ok_alloc _ _ _ _ _ IH Ha) as K. by destruct (Z.eqb_spec v 0).
  - by apply (client_ok_alloc _ _ _ _ _ IH Ha).
  - by eapply client_ok_free.
  - by apply client_ok_write.
Qed.

(** ** Filling the free list *)

(** The [n] pages from [p]. *)
Definition page_run (p : Z) (n : nat) : list Z :=
  (fun i => p + PGSIZE * Z.of_nat i) <$> seq 0 n.

Lemma page_run_S p n : page_run p (S n) = p :: page_run (p + PGSIZE) n.
Proof.
  unfold page_run. cbn [seq]. rewrite fmap_cons. f_equal; [lia|].
  rewrite <- fmap_S_seq, <- list_fmap_compose. apply list_fmap_ext. intros. cbn. lia.
Qed.

Lemma elem_of_page_run p n v :
  v ∈ page_run p n <-> exists i, (i < n)%nat /\ v = p + PGSIZE * Z.of_nat i.
Proof.
  unfold page_run. rewrite list_elem_of_fmap. split.
  - intros (i & -> & Hi%elem_of_seq). exists i. split; [lia|done].
  - intros (i & Hi & ->). exists i. split; [done|]. apply elem_of_seq. lia.
Qed.

Lemma freerange_loop_spec n : forall k p vend s l,
  kmem_ready s -> free_pages l s -> p mod PGSIZE = 0 -> k_end <= p ->
  vend <= KERNBASE + PHYSTOP -> n = Z.to_nat ((vend - p) / PGSIZE) -> (n < k)%nat ->
  (forall v, v ∈ l -> v + PGSIZE <= p \/ vend <= v) ->
  exists s', freerange_loop k p vend s = Ok tt s' /\
    free_pages (reverse (page_run p n) ++ l) s' /\ kmem_ready s' /\
    ((forall x, is_byte (mem s x)) -> forall x, is_byte (mem s' x)).
Proof.
  induction n as [|n IH]; intros k p vend s l Hr Hf Hp Hk Hv Hn Hnk Hl;
    (destruct k as [|k]; [lia|]); cbn [freerange_loop].
  - destruct (Z.leb_spec (p + PGSIZE) vend).
    + unfold PGSIZE in *. zdm.
    + by exists s.
  - destruct (Z.leb_spec (p + PGSIZE) vend); [|unfold PGSIZE in *; zdm].
    destruct (kfree_cons p l s) as (t & Et & Hft & Hrt & _); try done.
    { unfold page_ok, PGSIZE in *. lia. }
    { intros Hin. apply Hl in Hin. unfold PGSIZE in *. lia. }
    rewrite (bind_Ok _ _ _ _ _ Et).
    destruct (IH k (p + PGSIZE) vend t (p :: l)) as (s' & Es & Hfs & Hrs & Hbs); try done.
    + unfold PGSIZE in *. zdm.
    + unfold PGSIZE in *. lia.
    + unfold PGSIZE in *. zdm.
    + lia.
    + intros v [->|Hin]%elem_of_cons; [lia|]. apply Hl in Hin. unfold PGSIZE in *. lia.
    + exists s'. split_and!; [done| |done|].
      * by rewrite page_run_S, reverse_cons, <- app_assoc.
      * intros Hb. apply Hbs. eapply (kfree_bytes p s); [done| |done|done]. unfold page_ok, PGSIZE in *. lia.
Qed.

Lemma PGROUNDUP_eq x :
  0 <= x <= 2^32 - PGSIZE -> PGROUNDUP x = (x + PGSIZE - 1) / PGSIZE * PGSIZE.
Proof.
  intros Hx. unfold PGROUNDUP, PGSIZE in *. rewrite u32_small by lia.
  change 0xFFFFF000 with (2^32 - 2^12). rewrite land_mask_down by lia.
  change (2^12) with 4096. zdm.
Qed.

(** ** The allocator's contract *)

(** C33: whatever sequence of allocations, frees and writes to allocated pages the
    kernel makes, [kalloc] never hands out a page that is in use, no page is
    lost, and [kalloc] fails only when every page is in use. *)
Theorem kalloc_exclusive pool s H v s' :
  client pool s H -> kalloc s = Ok v s' ->
  (v <> 0 /\ v ∈ pool /\ v ∉ H) \/ (v = 0 /\ H ≡ₚ pool).
Proof.
  intros (Hn & Hok & l & Hf & Hr & Hp)%client_inv Ha. destruct l as [|w l].
  - rewrite kalloc_nil in Ha by done. simplify_eq. by right.
  - destruct (kalloc_cons _ _ _ Hr Hf) as (t & Et & _). rewrite Et in Ha. simplify_eq.
    left. destruct Hf as (_ & _ & [Hw _]%Forall_cons). pose proof (page_ok_pos _ Hw).
    split_and!; [lia|rewrite <- Hp; set_solver|].
    rewrite <- Hp in Hn. apply NoDup_app in Hn as (_ & Hd & _). apply Hd. by left.
Qed.

(** [freerange] puts exactly the whole pages of the range on the free list,
    in front of what was there, and returns. *)
Theorem freerange_fills vstart vend s l :
  kmem_ready s -> free_pages l s -> k_end <= vstart <= vend -> vend <= KERNBASE + PHYSTOP ->
  (forall v, v ∈ l -> v + PGSIZE <= PGROUNDUP vstart \/ vend <= v) ->
  exists s', freerange vstart vend s = Ok tt s' /\ kmem_ready s' /\
    free_pages (reverse (page_run (PGROUNDUP vstart)
                  (Z.to_nat ((vend - PGROUNDUP vstart) / PGSIZE))) ++ l) s'.
Proof.
  intros Hr Hf Hk Hv Hl. pose proof k_data_low. pose proof k_data_end.
  assert (PGROUNDUP vstart = (vstart + PGSIZE - 1) / PGSIZE * PGSIZE) as E.
  { apply PGROUNDUP_eq. unfold KERNLINK, KERNBASE, PHYSTOP, PGSIZE, EXTMEM in *. lia. }
  destruct (freerange_loop_spec (Z.to_nat ((vend - PGROUNDUP vstart) / PGSIZE)) (Z.to_nat ((vend - PGROUNDUP vstart) / PGSIZE) + 1)
    (PGROUNDUP vstart) vend s l Hr Hf) as (s' & Es & Hfs & Hrs & _); try done.
  - rewrite E. apply Z_mod_mult.
  - rewrite E. unfold PGSIZE in *. zdm.
  - lia.
  - exists s'. split_and!; done.
Qed.

End Kalloc.

(** The kernel just loaded, with the two pages from 0x80400000 freed. *)
Definition two_pages : kst :=
  match @freerange xv6_image 0x803ff001 0x80402fff boot_state with Ok _ s | Halt _ s => s end.

Lemma two_pages_free : @free_pages xv6_image [0x80401000; 0x80400000] two_pages /\ kmem_ready two_pages.
Proof.
  split; [split_and!|].
  - by vm_compute.
  - by apply (bool_decide_unpack _).
  - repeat constructor; vm_compute; congruence.
  - split; vm_compute; done.
Qed.

Lemma kalloc_exclusive_witness :
  exists s', kalloc two_pages = Ok 0x80401000 s' /\
    0x80401000 ∈ [0x80401000; 0x80400000].
Proof.
  destruct two_pages_free as [Hf Hr].
  destruct (@kalloc_cons xv6_image _ _ _ Hr Hf) as (s' & E & _). exists s'. split; [exact E|].
  destruct (@kalloc_exclusive xv6_image [0x80401000; 0x80400000] two_pages [] 0x80401000 s'
    (client_start _ _ Hf Hr) E) as [(_ & H & _)|[H _]]; [exact H|discriminate].
Defined.

Lemma freerange_fills_witness :
  exists s', @freerange xv6_image 0x80402800 0x80404000 two_pages = Ok tt s' /\
    @free_pages xv6_image [0x80403000; 0x80401000; 0x80400000] s'.
Proof.
  destruct two_pages_free as [Hf Hr].
  destruct (@freerange_fills xv6_image 0x80402800 0x80404000 two_pages _ Hr Hf) as (s' & E & _ & H).
  - vm_compute; split; discriminate.
  - vm_compute; discriminate.
  - intros v Hv. left. change (PGROUNDUP 0x80402800) with 0x80403000.
    repeat (apply elem_of_cons in Hv as [->|Hv]; [vm_compute; discriminate|]). by apply elem_of_nil in Hv.
  - exists s'. split; [exact E|exact H].
Defined.
