(* ===== verification/Vm.v ===== *)
(** * Virtual memory (vm.c, mmu.h)

    Page directories and page tables are words in kernel memory, as the code
    lays them out; [translate] is the processor's own walk of them. *)

From S2P Require Import Prelude State Mem Spinlock Sched Kalloc.

(** ** mmu.h *)

Definition PDX (va : Z) : Z := Z.land (Z.shiftr va 22) 0x3FF.
Definition PTX (va : Z) : Z := Z.land (Z.shiftr va 12) 0x3FF.
Definition PTE_P : Z := 1.
Definition PTE_W : Z := 2.
Definition PTE_U : Z := 4.
Definition PTE_ADDR (pte : Z) : Z := Z.land pte 0xFFFFF000.
Definition PTE_FLAGS (pte : Z) : Z := Z.land pte 0xFFF.
Definition NPDENTRIES : nat := 1024.
Definition NPTENTRIES : Z := 1024.

#[global] Arguments PDX : simpl never.
#[global] Arguments PTX : simpl never.
#[global] Arguments PTE_ADDR : simpl never.
#[global] Arguments PTE_FLAGS : simpl never.

(** [pte & flag] as a test. *)
Definition has (pte flag : Z) : bool := negb (Z.land pte flag =? 0).

#[global] Arguments has : simpl never.
#[global] Arguments NPDENTRIES : simpl never.

(** ** The memory management unit *)

(** The address of the page table entry for [va], if its directory entry is
    present. *)
Definition pte_addr (m : Z -> Z) (pgdir va : Z) : option Z :=
  let pde := ld32 m (pgdir + 4 * PDX va) in
  if has pde PTE_P then Some (p2v (PTE_ADDR pde) + 4 * PTX va) else None.

(** Where a kernel-mode access to [va] goes, as a kernel virtual address; a
    write needs the W bit at both levels, since entry.S sets CR0_WP. *)
Definition translate (m : Z -> Z) (pgdir va : Z) (write : bool) : option Z :=
  match pte_addr m pgdir va with
  | None => None
  | Some a =>
    let pde := ld32 m (pgdir + 4 * PDX va) in
    let pte := ld32 m a in
    if has pte PTE_P && (negb write || (has pte PTE_W && has pde PTE_W))
    then Some (p2v (PTE_ADDR pte) + va mod PGSIZE) else None
  end.

#[global] Arguments pte_addr : simpl never.
#[global] Arguments translate : simpl never.

(** Kernel code dereferencing an address through the loaded page table; a
    page fault in the kernel ends in [panic("trap")]. *)
Fixpoint uread (va : Z) (n : nat) : M (list Z) :=
  match n with
  | O => ret []
  | S n =>
    let* o := gets (fun s => translate (mem s) (c_cr3 (cpu s)) (u32 va) false) in
    match o with
    | None => panic "trap"
    | Some a =>
      let* b := gets (fun s => mem s a) in
      let* l := uread (va + 1) n in
      ret (b :: l)
    end
  end.

Fixpoint uwrite (va : Z) (l : list Z) : M unit :=
  match l with
  | [] => ret tt
  | b :: l =>
    let* o := gets (fun s => translate (mem s) (c_cr3 (cpu s)) (u32 va) true) in
    match o with
    | None => panic "trap"
    | Some a => modify (fun s => set_mem (mwrite (mem s) a [b]) s) ;; uwrite (va + 1) l
    end
  end.

Definition uld32 (va : Z) : M Z := let* l := uread va 4 in ret (le l).
Definition ust32 (va v : Z) : M unit := uwrite va (bytes32 v).

(** [*p] for a pointer that may be below KERNBASE. *)
Definition deref32 (p : Z) : M Z :=
  if KERNBASE <=? p then gets (fun s => ld32 (mem s) p) else uld32 p.

Section Vm.
Context {KI : KernelImage}.

(** ** Page tables *)

(** The address of the PTE for [va], 0 when there is none and none could be
    made. *)
Definition walkpgdir (pgdir va : Z) (alloc : bool) : M Z :=
  let pde := pgdir + 4 * PDX va in
  let* e := gets (fun s => ld32 (mem s) pde) in
  if has e PTE_P then ret (p2v (PTE_ADDR e) + 4 * PTX va)
  else if negb alloc then ret 0
  else
    let* pgtab := kalloc in
    if pgtab =? 0 then ret 0
    else
      modify (fun s => set_mem (mfill (mem s) pgtab 0 PGSIZE) s) ;;
      modify (fun s => set_mem (st32 (mem s) pde
        (Z.lor (Z.lor (Z.lor (v2p pgtab) PTE_P) PTE_W) PTE_U)) s) ;;
      ret (pgtab + 4 * PTX va).

(** The loop of [mappages]; [n] more pages follow the one at [a]. *)
Fixpoint mappages_loop (n : nat) (pgdir a last pa perm : Z) : M Z :=
  let* pte := walkpgdir pgdir a true in
  if pte =? 0 then ret (-1)
  else
    let* e := gets (fun s => ld32 (mem s) pte) in
    if has e PTE_P then panic "remap"
    else
      modify (fun s => set_mem (st32 (mem s) pte (Z.lor (Z.lor pa perm) PTE_P)) s) ;;
      if a =? last then ret 0
      else match n with
           | O => panic "mappages: out of fuel"
           | S n => mappages_loop n pgdir (u32 (a + PGSIZE)) last (u32 (pa + PGSIZE)) perm
           end.

Definition mappages (pgdir va size pa perm : Z) : M Z :=
  let a := PGROUNDDOWN va in
  let last := PGROUNDDOWN (u32 (va + size - 1)) in
  mappages_loop (Z.to_nat (u32 (last - a) / PGSIZE)) pgdir a last pa perm.

(** The kernel's mappings: virtual start, physical start and end, permissions. *)
Definition kmap : list (Z * Z * Z * Z) :=
  [ (KERNBASE, 0, EXTMEM, PTE_W);
    (KERNLINK, v2p KERNLINK, v2p k_data, 0);
    (k_data, v2p k_data, PHYSTOP, PTE_W);
    (DEVSPACE, DEVSPACE, 0, PTE_W) ].

Fixpoint setupkvm_loop (pgdir : Z) (l : list (Z * Z * Z * Z)) : M Z :=
  match l with
  | [] => ret pgdir
  | (virt, phys_start, phys_end, perm) :: l =>
    let* r := mappages pgdir virt (u32 (phys_end - phys_start)) phys_start perm in
    if r <? 0 then ret 0 else setupkvm_loop pgdir l
  end.

Definition setupkvm : M Z :=
  let* pgdir := kalloc in
  if pgdir =? 0 then ret 0
  else
    modify (fun s => set_mem (mfill (mem s) pgdir 0 PGSIZE) s) ;;
    if DEVSPACE <? p2v PHYSTOP then panic "PHYSTOP too high"
    else setupkvm_loop pgdir kmap.

Definition kvmalloc : M unit :=
  let* k := setupkvm in
  modify (set_kpgdir k) ;;
  switchkvm.

(** Load the initcode into address 0 of pgdir. *)
Definition inituvm (pgdir : Z) (init : list Z) (sz : Z) : M unit :=
  if PGSIZE <=? sz then panic "inituvm: more than a page"
  else
    let* mem_ := kalloc in
    modify (fun s => set_mem (mfill (mem s) mem_ 0 PGSIZE) s) ;;
    mappages pgdir 0 PGSIZE (v2p mem_) (Z.lor PTE_W PTE_U) ;;
    modify (fun s => set_mem (mwrite (mem s) mem_ (take (Z.to_nat sz) init)) s).

(** ** Growing and shrinking user memory *)

Fixpoint deallocuvm_loop (n : nat) (pgdir a oldsz : Z) : M unit :=
  if a <? oldsz then
    match n with
    | O => panic "deallocuvm: out of fuel"
    | S n =>
      let* pte := walkpgdir pgdir a false in
      if pte =? 0 then deallocuvm_loop n pgdir (u32 (a + (NPTENTRIES - 1) * PGSIZE + PGSIZE)) oldsz
      else
        let* e := gets (fun s => ld32 (mem s) pte) in
        (if has e PTE_P then
           let pa := PTE_ADDR e in
           if pa =? 0 then panic "kfree"
           else
             kfree (p2v pa) ;;
             modify (fun s => set_mem (st32 (mem s) pte 0) s)
         else ret tt) ;;
        deallocuvm_loop n pgdir (u32 (a + PGSIZE)) oldsz
    end
  else ret tt.

Definition deallocuvm (pgdir oldsz newsz : Z) : M Z :=
  if oldsz <=? newsz then ret oldsz
  else
    deallocuvm_loop (Z.to_nat (oldsz / PGSIZE) + 1) pgdir (PGROUNDUP newsz) oldsz ;;
    ret newsz.

(** The loop of [allocuvm], with its early return when memory runs out. *)
Fixpoint allocuvm_loop (n : nat) (pgdir a oldsz newsz : Z) : M Z :=
  if a <? newsz then
    match n with
    | O => panic "allocuvm: out of fuel"
    | S n =>
      let* mem_ := kalloc in
      if mem_ =? 0 then
        deallocuvm pgdir newsz oldsz ;;
        ret 0
      else
        modify (fun s => set_mem (mfill (mem s) mem_ 0 PGSIZE) s) ;;
        mappages pgdir a PGSIZE (v2p mem_) (Z.lor PTE_W PTE_U) ;;
        allocuvm_loop n pgdir (u32 (a + PGSIZE)) oldsz newsz
    end
  else ret newsz.

Definition allocuvm (pgdir oldsz newsz : Z) : M Z :=
  if KERNBASE <=? newsz then ret 0
  else if newsz <? oldsz then ret oldsz
  else allocuvm_loop (Z.to_nat (newsz / PGSIZE) + 1) pgdir (PGROUNDUP oldsz) oldsz newsz.

(** [for(i = 0; i < NPDENTRIES; i++) if(pgdir[i] & PTE_P) kfree(...)] *)
Definition freevm_loop (pgdir : Z) : M unit :=
  forM (seq 0 NPDENTRIES) (fun i =>
    let* e := gets (fun s => ld32 (mem s) (pgdir + 4 * Z.of_nat i)) in
    when (has e PTE_P) (kfree (p2v (PTE_ADDR e)))).

Definition freevm (pgdir : Z) : M unit :=
  if pgdir =? 0 then panic "freevm: no pgdir"
  else
    deallocuvm pgdir KERNBASE 0 ;;
    freevm_loop pgdir ;;
    kfree pgdir.

Definition clearpteu (pgdir uva : Z) : M unit :=
  let* pte := walkpgdir pgdir uva false in
  if pte =? 0 then panic "clearpteu"
  else modify (fun s => set_mem (st32 (mem s) pte
         (Z.land (ld32 (mem s) pte) (0xFFFFFFFF - PTE_U))) s).

(** ** Copying *)

Fixpoint copyuvm_loop (n : nat) (pgdir d i sz : Z) : M Z :=
  if i <? sz then
    match n with
    | O => panic "copyuvm: out of fuel"
    | S n =>
      let* pte := walkpgdir pgdir i false in
      if pte =? 0 then panic "copyuvm: pte should exist"
      else
        let* e := gets (fun s => ld32 (mem s) pte) in
        if negb (has e PTE_P) then panic "copyuvm: page not present"
        else
          let pa := PTE_ADDR e in
          let flags := PTE_FLAGS e in
          let* mem_ := kalloc in
          if mem_ =? 0 then freevm d ;; ret 0
          else
            modify (fun s => set_mem (mwrite (mem s) mem_ (mread (mem s) (p2v pa) 4096)) s) ;;
            let* r := mappages d i PGSIZE (v2p mem_) flags in
            if r <? 0 then freevm d ;; ret 0
            else copyuvm_loop n pgdir d (u32 (i + PGSIZE)) sz
    end
  else ret d.

Definition copyuvm (pgdir sz : Z) : M Z :=
  let* d := setupkvm in
  if d =? 0 then ret 0
  else copyuvm_loop (Z.to_nat (sz / PGSIZE) + 1) pgdir d 0 sz.

(** Map user virtual address to kernel address. *)
Definition uva2ka (pgdir uva : Z) : M Z :=
  let* pte := walkpgdir pgdir uva false in
  let* e := deref32 pte in
  if negb (has e PTE_P) then ret 0
  else if negb (has e PTE_U) then ret 0
  else ret (p2v (PTE_ADDR e)).

Fixpoint copyout_loop (n : nat) (pgdir va : Z) (buf : list Z) : M Z :=
  match buf with
  | [] => ret 0
  | _ =>
    match n with
    | O => panic "copyout: out of fuel"
    | S n =>
      let va0 := PGROUNDDOWN va in
      let* pa0 := uva2ka pgdir va0 in
      if pa0 =? 0 then ret (-1)
      else
        let k := Z.to_nat (Z.min (PGSIZE - (va - va0)) (Z.of_nat (length buf))) in
        modify (fun s => set_mem (mwrite (mem s) (pa0 + (va - va0)) (take k buf)) s) ;;
        copyout_loop n pgdir (u32 (va0 + PGSIZE)) (drop k buf)
    end
  end.

(** Copy [buf] to user address [va] in page table [pgdir]. *)
Definition copyout (pgdir va : Z) (buf : list Z) : M Z :=
  copyout_loop (length buf) pgdir va buf.

End Vm.
