(* ===== verification/Console.v ===== *)
(** * The console (console.c, uart.c, procdump of proc.c)

    Output goes to the display memory in [mem] and to the serial port; input
    characters arrive by interrupts into the ring [input].  The wait for the
    serial port to be ready and the test of [panicked], which stops the other
    processors after a panic, have no counterpart. *)

From S2P Require Import Prelude State Mem Spinlock Sched SchedFacts Ide Bio Log Inode Kalloc Vm Kbd.

(** ** Output *)

Definition BACKSPACE : Z := 0x100.
Definition CRT : Z := p2v 0xb8000.

Definition st16 (m : Z -> Z) (a v : Z) : Z -> Z := mwrite m a (bytes16 v).

Definition uartputc (c : Z) : M unit :=
  let* u := gets uart in
  when u (modify (fun s => set_conout (conout s ++ [c mod 256]) s)).

Definition crt_store (pos v : Z) : M unit := modify (fun s => set_mem (st16 (mem s) (CRT + 2 * pos) v) s).

Definition cgaputc (c : Z) : M unit :=
  let* pos := gets crt_pos in
  let* pos :=
    (if c =? 10 then ret (pos + (80 - pos mod 80))
     else if c =? BACKSPACE then ret (if 0 <? pos then pos - 1 else pos)
     else crt_store pos (Z.lor (Z.land c 0xff) 0x0700) ;; ret (pos + 1)) in
  if (pos <? 0) || (25 * 80 <? pos) then panic "pos under/overflow"
  else
    let* pos :=
      (if 24 <=? pos / 80 then
         modify (fun s => set_mem (mwrite (mem s) CRT (mread (mem s) (CRT + 160) (2 * 23 * 80))) s) ;;
         let pos := pos - 80 in
         modify (fun s => set_mem (mfill (mem s) (CRT + 2 * pos) 0 (2 * (24 * 80 - pos))) s) ;;
         ret pos
       else ret pos) in
    modify (set_crt_pos pos) ;;
    crt_store pos (Z.lor 32 0x0700).

Definition consputc (c : Z) : M unit :=
  (if c =? BACKSPACE then uartputc 8 ;; uartputc 32 ;; uartputc 8 else uartputc c) ;;
  cgaputc c.

(** [do buf[i++] = digits[x % base]; while((x /= base) != 0);], last digit
    first. *)
Fixpoint digits_loop (n : nat) (x base : Z) : list Z :=
  match n with
  | O => []
  | S n =>
    let d := x mod base in
    (if d <? 10 then 48 + d else 87 + d) :: (if x / base =? 0 then [] else digits_loop n (x / base) base)
  end.

(** The characters [printint] prints; 32 turns are enough in any base. *)
Definition printint_chars (xx base : Z) (sign : bool) : list Z :=
  let neg := sign && (i32 xx <? 0) in
  let x := if neg then u32 (- i32 xx) else u32 xx in
  reverse (digits_loop 32 x base ++ (if neg then [45] else [])).

Definition printint (xx base : Z) (sign : bool) : M unit := forM (printint_chars xx base sign) consputc.

(** The arguments after the format. *)
Inductive parg :=
  | PInt (x : Z)
  | PStr (s : list Z).

(** What [cprintf] prints for the format; a missing or mismatched argument
    has no meaning in C. *)
Fixpoint cprintf_loop (fmt : list Z) (args : list parg) : M unit :=
  match fmt with
  | [] => ret tt
  | c :: fmt =>
    if negb (c =? 37) then consputc c ;; cprintf_loop fmt args
    else
      match fmt with
      | [] => ret tt
      | d :: fmt =>
        if d =? 100 then
          match args with
          | PInt x :: args => printint x 10 true ;; cprintf_loop fmt args
          | _ => undefined "cprintf"
          end
        else if (d =? 120) || (d =? 112) then
          match args with
          | PInt x :: args => printint x 16 false ;; cprintf_loop fmt args
          | _ => undefined "cprintf"
          end
        else if d =? 115 then
          match args with
          | PStr l :: args => forM l consputc ;; cprintf_loop fmt args
          | _ => undefined "cprintf"
          end
        else if d =? 37 then consputc 37 ;; cprintf_loop fmt args
        else consputc 37 ;; consputc d ;; cprintf_loop fmt args
      end
  end.

Definition cprintf (fmt : string) (args : list parg) : M unit :=
  let* locking := gets cons_locking in
  when locking (acquire LCons) ;;
  cprintf_loop (chars fmt) args ;;
  when locking (release LCons).

(** ** procdump *)

Definition state_name (st : procstate) : string :=
  match st with
  | UNUSED => "unused"
  | EMBRYO => "embryo"
  | SLEEPING => "sleep "
  | RUNNABLE => "runble"
  | RUNNING => "run   "
  | ZOMBIE => "zombie"
  end.

(** [for(i=0; i<10 && pc[i] != 0; i++) cprintf(" %p", pc[i]);] *)
Fixpoint print_pcs (pcs : list Z) : M unit :=
  match pcs with
  | [] => ret tt
  | pc :: pcs => if pc =? 0 then ret tt else cprintf " %p" [PInt pc] ;; print_pcs pcs
  end.

Definition NL : string := String (Ascii.ascii_of_nat 10) EmptyString.

Definition procdump : M unit :=
  forM (seq 0 NPROC) (fun i =>
    let* p := gets (fun s => ptable s !!! i) in
    when (bool_decide (p_state p <> UNUSED))
      (cprintf "%d %s %s" [PInt (p_pid p); PStr (chars (state_name (p_state p))); PStr (cstr (p_name p))] ;;
       when (bool_decide (p_state p = SLEEPING))
         (let* pcs := gets (fun s => getcallerpcs (mem s) (ctx_ebp (p_context p) + 8)) in print_pcs pcs) ;;
       cprintf NL [])).

(** ** Input *)

Definition INPUT_BUF : Z := 128.

Definition upd_input (f : input_t -> input_t) (s : kst) : kst := set_input (f (input s)) s.

(** [input.buf[i % INPUT_BUF]] *)
Definition in_at (inp : input_t) (i : Z) : Z := in_buf inp !!! Z.to_nat (u32 i mod INPUT_BUF).

(** [while(input.e != input.w && input.buf[(input.e-1) % INPUT_BUF] != '\n')] *)
Fixpoint kill_line (n : nat) : M unit :=
  let* inp := gets input in
  if negb (in_e inp =? in_w inp) && negb (in_at inp (in_e inp - 1) =? 10) then
    match n with
    | O => panic "consoleintr: out of fuel"
    | S n =>
      modify (upd_input (fun i => set_in_e (u32 (in_e i - 1)) i)) ;;
      consputc BACKSPACE ;;
      kill_line n
    end
  else ret tt.

(** The [switch] of [consoleintr] for the character [c]; is it a request for a
    process listing? *)
Definition consoleintr_char (c : Z) : M bool :=
  if c =? 16 then ret true
  else if c =? 21 then
    let* inp := gets input in
    kill_line (Z.to_nat (u32 (in_e inp - in_w inp))) ;;
    ret false
  else if (c =? 8) || (c =? 127) then
    let* inp := gets input in
    when (negb (in_e inp =? in_w inp))
      (modify (upd_input (fun i => set_in_e (u32 (in_e i - 1)) i)) ;;
       consputc BACKSPACE) ;;
    ret false
  else
    let* inp := gets input in
    when (negb (c =? 0) && (u32 (in_e inp - in_r inp) <? INPUT_BUF))
      (let c := if c =? 13 then 10 else c in
       modify (upd_input (fun i => set_in_e (u32 (in_e i + 1))
         (set_in_buf (<[Z.to_nat (in_e i mod INPUT_BUF) := i8 c]> (in_buf i)) i))) ;;
       consputc c ;;
       let* inp := gets input in
       when ((c =? 10) || (c =? 4) || (in_e inp =? u32 (in_r inp + INPUT_BUF)))
         (modify (upd_input (fun i => set_in_w (in_e i) i)) ;;
          wakeup CInput)) ;;
    ret false.

Fixpoint consoleintr_loop (cs : list Z) (doprocdump : bool) : M bool :=
  match cs with
  | [] => ret doprocdump
  | c :: cs =>
    let* d := consoleintr_char c in
    consoleintr_loop cs (doprocdump || d)
  end.

(** [consoleintr(getc)] where [getc] returns the characters [cs] and then -1. *)
Definition consoleintr (cs : list Z) : M unit :=
  acquire LCons ;;
  let* doprocdump := consoleintr_loop cs false in
  release LCons ;;
  when doprocdump procdump.

(** [kbdintr] with the scan codes that are waiting in the controller. *)
Definition kbdintr (codes : list Z) : M unit :=
  let* sh := gets kbd_shift in
  let '(cs, sh) := kbd_chars sh codes in
  modify (set_kbd_shift sh) ;;
  consoleintr cs.

(** [uartintr] with the characters the serial port has received. *)
Definition uartintr (received : list Z) : M unit :=
  let* u := gets uart in
  consoleintr (if u then received else []).

(** Where to put bytes that are read: at an address, or in a variable of the
    caller, which takes them from the result. *)
Definition put_bytes (dst : option Z) (l : list Z) : M unit :=
  match dst with
  | Some a => uwrite a l
  | None => ret tt
  end.

(** [while(n > 0)] in [consoleread]: the bytes read and the remaining [n];
    [None] when the process was killed while it waited.  A process that has to
    wait stops and goes on at the test. *)
Fixpoint consoleread_loop (fuel : nat) (dst : option Z) (n target : Z) (acc : list Z) : M (option (list Z * Z)) :=
  match fuel with
  | O => ret (Some (acc, n))
  | S fuel =>
    let* inp := gets input in
    if in_r inp =? in_w inp then
      let* i := curproc in
      let* k := getproc i p_killed in
      if k then ret None else sleep CInput LCons
    else
      let c := in_at inp (in_r inp) in
      modify (upd_input (fun i => set_in_r (u32 (in_r i + 1)) i)) ;;
      if c =? 4 then
        when (n <? target) (modify (upd_input (fun i => set_in_r (u32 (in_r i - 1)) i))) ;;
        ret (Some (acc, n))
      else
        put_bytes dst [c mod 256] ;;
        if c =? 10 then ret (Some (acc ++ [c mod 256], n - 1))
        else consoleread_loop fuel (option_map (Z.add 1) dst) (n - 1) target (acc ++ [c mod 256])
  end.

Definition consoleread (ip : nat) (dst : option Z) (n : Z) : M (Z * list Z) :=
  iunlock ip ;;
  acquire LCons ;;
  let* r := consoleread_loop (Z.to_nat n) dst n (u32 n) [] in
  release LCons ;;
  ilock ip ;;
  match r with
  | None => ret (-1, [])
  | Some (l, n') => ret (i32 (u32 n - n'), l)
  end.

(** What is written: bytes at an address, or those of a variable. *)
Inductive source :=
  | SAddr (a : Z)
  | SBytes (l : list Z).

(** [n] bytes of the source from offset [o]. *)
Definition get_bytes (src : source) (o : Z) (n : nat) : M (list Z) :=
  match src with
  | SAddr a => uread (a + o) n
  | SBytes l => ret (slice l (Z.to_nat o) n)
  end.

Definition consolewrite (ip : nat) (src : source) (n : Z) : M Z :=
  iunlock ip ;;
  acquire LCons ;;
  forM (seq 0 (Z.to_nat n)) (fun i =>
    let* b := get_bytes src (Z.of_nat i) 1 in
    consputc (b !!! 0%nat)) ;;
  release LCons ;;
  ilock ip ;;
  ret n.

Definition CONSOLE : nat := 1.

Definition consoleinit : M unit :=
  initlock LCons ;;
  modify (fun s => set_devsw (<[CONSOLE := Some ConsoleDev]> (devsw s)) s) ;;
  modify (set_cons_locking true).

(** [uartinit] for a status register that reads [status]. *)
Definition uartinit (status : Z) : M unit :=
  if status =? 0xFF then ret tt
  else
    modify (set_uart true) ;;
    forM (chars "xv6...") uartputc ;;
    uartputc 10.
