(* ===== verification/Fs.v ===== *)
(** * File contents, directories and path names (fs.c) *)

From S2P Require Import Prelude State Mem Spinlock Sched SchedFacts Ide Bio Log Inode Kalloc Vm Kbd Console.

(** ** Reading and writing *)

(** [devsw[ip->major]] with its range check. *)
Definition dev_of (s : kst) (major : Z) : option devfns :=
  if (major <? 0) || (NDEV <=? major) then None
  else match devsw s !! Z.to_nat major with Some o => o | None => None end.

(** [for(tot=0; tot<n; tot+=m, off+=m, dst+=m)]; every turn but the last goes
    to the end of a block. *)
Fixpoint readi_loop (fuel : nat) (ip : nat) (dst : option Z) (tot off n : Z) (acc : list Z) : M (list Z) :=
  if tot <? n then
    match fuel with
    | O => panic "readi: out of fuel"
    | S fuel =>
      let* addr := bmap ip (off / Z.of_nat BSIZE) in
      let* dev := getinode ip i_dev in
      let* bp := bread dev addr in
      let m := Z.min (n - tot) (Z.of_nat BSIZE - off mod Z.of_nat BSIZE) in
      let* d := getbuf bp b_data in
      let l := slice d (Z.to_nat (off mod Z.of_nat BSIZE)) (Z.to_nat m) in
      put_bytes dst l ;;
      brelse bp ;;
      readi_loop fuel ip (option_map (Z.add m) dst) (tot + m) (u32 (off + m)) n (acc ++ l)
    end
  else ret acc.

(** The number of blocks a range of [n] bytes meets, at most. *)
Definition io_fuel (n : Z) : nat := Z.to_nat (n / Z.of_nat BSIZE) + 2.

(** Read data from inode: the result of the call, and the bytes read. *)
Definition readi (ip : nat) (dst : option Z) (off n : Z) : M (Z * list Z) :=
  let* i := gets (fun s => icache s !!! ip) in
  if i_type i =? T_DEV then
    let* dev := gets (fun s => dev_of s (i_major i)) in
    match dev with
    | None => ret (-1, [])
    | Some ConsoleDev => consoleread ip dst (i32 n)
    end
  else if (i_size i <? off) || (u32 (off + n) <? off) then ret (-1, [])
  else
    let n := if i_size i <? u32 (off + n) then i_size i - off else n in
    let* l := readi_loop (io_fuel n) ip dst 0 off n [] in
    ret (i32 n, l).

Fixpoint writei_loop (fuel : nat) (ip : nat) (src : source) (tot off n : Z) : M Z :=
  if tot <? n then
    match fuel with
    | O => panic "writei: out of fuel"
    | S fuel =>
      let* addr := bmap ip (off / Z.of_nat BSIZE) in
      let* dev := getinode ip i_dev in
      let* bp := bread dev addr in
      let m := Z.min (n - tot) (Z.of_nat BSIZE - off mod Z.of_nat BSIZE) in
      let* l := get_bytes src tot (Z.to_nat m) in
      modify (upd_buf bp (fun b => set_b_data (splice (b_data b) (Z.to_nat (off mod Z.of_nat BSIZE)) l) b)) ;;
      log_write bp ;;
      brelse bp ;;
      writei_loop fuel ip src (tot + m) (u32 (off + m)) n
    end
  else ret off.

(** Write data to inode. *)
Definition writei (ip : nat) (src : source) (off n : Z) : M Z :=
  let* i := gets (fun s => icache s !!! ip) in
  if i_type i =? T_DEV then
    let* dev := gets (fun s => dev_of s (i_major i)) in
    match dev with
    | None => ret (-1)
    | Some ConsoleDev => consolewrite ip src (i32 n)
    end
  else if (i_size i <? off) || (u32 (off + n) <? off) then ret (-1)
  else if MAXFILE * Z.of_nat BSIZE <? u32 (off + n) then ret (-1)
  else
    let* off := writei_loop (io_fuel n) ip src 0 off n in
    let* size := getinode ip i_size in
    when ((0 <? n) && (size <? off))
      (modify (upd_inode ip (set_i_size off)) ;;
       iupdate ip) ;;
    ret (i32 n).

(** ** Directories *)

(** A name as the function from an offset to the byte there, a [uchar]. *)
Definition ubytes (l : list Z) : nat -> Z := fun i => l !!! i.

Definition namecmp (s t : list Z) : Z := Cstring.strncmp (ubytes s) (ubytes t) DIRSIZ.

(** The fields of [struct dirent]. *)
Definition de_inum (de : list Z) : Z := get16 de 0.
Definition de_name (de : list Z) : list Z := slice de 2 DIRSIZ.

(** [for(off = 0; off < dp->size; off += sizeof(de))] in [dirlookup]: the
    inode number found and its offset. *)
Fixpoint dirlookup_loop (fuel : nat) (dp : nat) (name : list Z) (off : Z) : M (option (Z * Z)) :=
  let* size := getinode dp i_size in
  if off <? size then
    match fuel with
    | O => panic "dirlookup: out of fuel"
    | S fuel =>
      let* '(r, de) := readi dp None off DIRENT_SIZE in
      if negb (r =? DIRENT_SIZE) then panic "dirlink read"
      else if de_inum de =? 0 then dirlookup_loop fuel dp name (u32 (off + DIRENT_SIZE))
      else if namecmp name (de_name de) =? 0 then ret (Some (de_inum de, off))
      else dirlookup_loop fuel dp name (u32 (off + DIRENT_SIZE))
    end
  else ret None.

(** The number of entries of a directory of the given size, at most. *)
Definition dir_fuel (size : Z) : nat := Z.to_nat (size / DIRENT_SIZE) + 1.

(** Look for a directory entry in a directory: the inode and the byte offset
    of the entry. *)
Definition dirlookup (dp : nat) (name : list Z) : M (option (nat * Z)) :=
  let* i := gets (fun s => icache s !!! dp) in
  if negb (i_type i =? T_DIR) then panic "dirlookup not DIR"
  else
    let* r := dirlookup_loop (dir_fuel (i_size i)) dp name 0 in
    match r with
    | None => ret None
    | Some (inum, off) =>
      let* dev := getinode dp i_dev in
      let* ip := iget dev inum in
      ret (Some (ip, off))
    end.

(** The scan of [dirlink] for an empty entry: its offset, or the end, and the
    last entry read. *)
Fixpoint dirlink_scan (fuel : nat) (dp : nat) (off : Z) : M Z :=
  let* size := getinode dp i_size in
  if off <? size then
    match fuel with
    | O => panic "dirlink: out of fuel"
    | S fuel =>
      let* '(r, de) := readi dp None off DIRENT_SIZE in
      if negb (r =? DIRENT_SIZE) then panic "dirlink read"
      else if de_inum de =? 0 then ret off
      else dirlink_scan fuel dp (off + DIRENT_SIZE)
    end
  else ret off.

(** [strncpy(de.name, name, DIRSIZ); de.inum = inum;] *)
Definition dirent (name : list Z) (inum : Z) : list Z :=
  bytes16 inum ++ Cstring.strncpy (ubytes name) (Z.of_nat DIRSIZ).

(** Write a new directory entry (name, inum) into the directory dp. *)
Definition dirlink (dp : nat) (name : list Z) (inum : Z) : M Z :=
  let* r := dirlookup dp name in
  match r with
  | Some (ip, _) => iput ip ;; ret (-1)
  | None =>
    let* size := getinode dp i_size in
    let* off := dirlink_scan (dir_fuel size) dp 0 in
    let* w := writei dp (SBytes (dirent name inum)) off DIRENT_SIZE in
    if negb (w =? DIRENT_SIZE) then panic "dirlink" else ret 0
  end.

(** ** Paths *)

Definition SLASH : Z := 47.

(** [while( *path == '/') path++;] *)
Fixpoint skip_slashes (path : list Z) : list Z :=
  match path with
  | c :: path' => if c =? SLASH then skip_slashes path' else path
  | [] => []
  end.

(** [while( *path != '/' && *path != 0) path++;]: the element and the rest. *)
Fixpoint span_elem (path : list Z) : list Z * list Z :=
  match path with
  | c :: path' => if c =? SLASH then ([], path) else let '(e, r) := span_elem path' in (c :: e, r)
  | [] => ([], [])
  end.

(** Copy the next path element from path into name; a path is the list of its
    characters without the final NUL.  The result is the rest of the path and
    the buffer [name], of DIRSIZ bytes. *)
Definition skipelem (path name : list Z) : option (list Z * list Z) :=
  match skip_slashes path with
  | [] => None
  | path =>
    let '(e, r) := span_elem path in
    let name :=
      if (DIRSIZ <=? length e)%nat then splice name 0 (take DIRSIZ e)
      else splice name 0 (e ++ [0]) in
    Some (skip_slashes r, name)
  end.

(** [while((path = skipelem(path, name)) != 0)] *)
Fixpoint namex_loop (fuel : nat) (ip : nat) (path : list Z) (parent : bool) (name : list Z) : M (option (nat * list Z)) :=
  match skipelem path name with
  | None =>
    if parent then iput ip ;; ret None
    else ret (Some (ip, name))
  | Some (path, name) =>
    match fuel with
    | O => panic "namex: out of fuel"
    | S fuel =>
      ilock ip ;;
      let* t := getinode ip i_type in
      if negb (t =? T_DIR) then iunlockput ip ;; ret None
      else if parent && bool_decide (path = []) then iunlock ip ;; ret (Some (ip, name))
      else
        let* next := dirlookup ip name in
        match next with
        | None => iunlockput ip ;; ret None
        | Some (next, _) => iunlockput ip ;; namex_loop fuel next path parent name
        end
    end
  end.

(** Where the walk starts: [iget(ROOTDEV, ROOTINO)] or [idup(proc->cwd)]. *)
Definition namex_start (path : list Z) : M nat :=
  if bool_decide (path !! 0%nat = Some SLASH) then iget ROOTDEV ROOTINO
  else
    let* i := curproc in
    let* cwd := getproc i p_cwd in
    match cwd with
    | Some ip => idup ip
    | None => undefined "idup"
    end.

(** Look up and return the inode for a path name, and the final element in
    [name]. *)
Definition namex (path : list Z) (parent : bool) (name : list Z) : M (option (nat * list Z)) :=
  let* ip := namex_start path in
  namex_loop (length path) ip path parent name.

Definition namei (path : list Z) : M (option nat) :=
  let* r := namex path false (replicate DIRSIZ 0) in
  ret (fst <$> r).

Definition nameiparent (path name : list Z) : M (option (nat * list Z)) := namex path true name.
