(* ===== verification/Pipe.v ===== *)
(** * Pipes (pipe.c)

    A pipe is named by the address of the page that holds it.  A process that
    has to wait stops; [pipewrite_resume] and [piperead_resume] are what it runs
    when it is woken up. *)

From S2P Require Import Prelude State Mem Spinlock Sched SchedFacts Kalloc Vm.

Definition getpipe {A} (p : Z) (f : pipe -> A) : M A := gets (fun s => f (pipes s !!! p)).

(** [p->nwrite == p->nread + PIPESIZE] *)
Definition pipe_full (pp : pipe) : bool := pi_nwrite pp =? u32 (pi_nread pp + PIPESIZE).
Definition pipe_empty (pp : pipe) : bool := pi_nread pp =? pi_nwrite pp.

(** [p->data[p->nwrite++ % PIPESIZE] = b] *)
Definition pipe_push (b : Z) (pp : pipe) : pipe :=
  set_pi_nwrite (u32 (pi_nwrite pp + 1))
    (set_pi_data (<[Z.to_nat (pi_nwrite pp mod PIPESIZE) := b]> (pi_data pp)) pp).

(** [p->data[p->nread++ % PIPESIZE]] *)
Definition pipe_front (pp : pipe) : Z := pi_data pp !!! Z.to_nat (pi_nread pp mod PIPESIZE).
Definition pipe_pop (pp : pipe) : pipe := set_pi_nread (u32 (pi_nread pp + 1)) pp.

(** The address of the field [data] in the page. *)
Definition PIPE_DATA : Z := 52.

Section Pipe.
Context `{KI : KernelImage}.

(** The part of [pipealloc] that initializes the page. *)
Definition pipe_init (p : Z) : M unit :=
  modify (fun s => set_pipes (<[p := MkPipe (mread (mem s) (p + PIPE_DATA) (Z.to_nat PIPESIZE)) 0 0 true true]> (pipes s)) s) ;;
  initlock (LPipe p).

Definition pipeclose (p : Z) (writable : bool) : M unit :=
  acquire (LPipe p) ;;
  (if writable then
     modify (upd_pipe p (set_pi_writeopen false)) ;; wakeup (CPipeRead p)
   else
     modify (upd_pipe p (set_pi_readopen false)) ;; wakeup (CPipeWrite p)) ;;
  let* pp := getpipe p (fun pp => pp) in
  release (LPipe p) ;;
  when (negb (pi_readopen pp) && negb (pi_writeopen pp))
    (modify (fun s => set_pipes (delete p (pipes s)) s) ;;
     kfree p).

(** The loop of [pipewrite] from index [i], [k] bytes to go; [false] when the
    pipe has no reader or the process was killed. *)
Fixpoint pipewrite_loop (k : nat) (p addr i : Z) : M bool :=
  match k with
  | O => ret true
  | S k =>
    let* pp := getpipe p (fun pp => pp) in
    if pipe_full pp then
      let* c := curproc in
      let* killed := getproc c p_killed in
      if negb (pi_readopen pp) || killed then ret false
      else wakeup (CPipeRead p) ;; sleep (CPipeWrite p) (LPipe p)
    else
      let* b := uread (addr + i) 1 in
      modify (upd_pipe p (pipe_push (b !!! 0%nat))) ;;
      pipewrite_loop k p addr (i + 1)
  end.

Definition pipewrite_from (p addr i n : Z) : M Z :=
  let* ok := pipewrite_loop (Z.to_nat (n - i)) p addr i in
  if ok then
    wakeup (CPipeRead p) ;;
    release (LPipe p) ;;
    ret n
  else
    release (LPipe p) ;;
    ret (-1).

Definition pipewrite (p addr n : Z) : M Z :=
  acquire (LPipe p) ;;
  pipewrite_from p addr 0 n.

(** After the sleep at index [i]. *)
Definition pipewrite_resume (p addr i n : Z) : M Z :=
  sleep_return (LPipe p) ;;
  pipewrite_from p addr i n.

(** [for(i = 0; i < n; i++)] in [piperead], [k] bytes to go. *)
Fixpoint piperead_loop (k : nat) (p addr i : Z) : M Z :=
  match k with
  | O => ret i
  | S k =>
    let* pp := getpipe p (fun pp => pp) in
    if pipe_empty pp then ret i
    else
      modify (upd_pipe p pipe_pop) ;;
      uwrite (addr + i) [pipe_front pp] ;;
      piperead_loop k p addr (i + 1)
  end.

Definition piperead_locked (p addr n : Z) : M Z :=
  let* pp := getpipe p (fun pp => pp) in
  if pipe_empty pp && pi_writeopen pp then
    let* c := curproc in
    let* killed := getproc c p_killed in
    if killed then release (LPipe p) ;; ret (-1)
    else sleep (CPipeRead p) (LPipe p)
  else
    let* i := piperead_loop (Z.to_nat n) p addr 0 in
    wakeup (CPipeWrite p) ;;
    release (LPipe p) ;;
    ret i.

Definition piperead (p addr n : Z) : M Z :=
  acquire (LPipe p) ;;
  piperead_locked p addr n.

Definition piperead_resume (p addr n : Z) : M Z :=
  sleep_return (LPipe p) ;;
  piperead_locked p addr n.

End Pipe.
