(* ===== verification/PipeFacts.v ===== *)
(** * Pipes are bounded queues

    The ring buffer with its free-running 32-bit counters implements a queue of
    at most PIPESIZE bytes. *)

From S2P Require Import Prelude State Mem Spinlock Sched SchedFacts Kalloc Vm Pipe.

(** ** The queue in the ring *)

Definition ring_at (pp : pipe) (k : Z) : Z := pi_data pp !!! Z.to_nat (k mod PIPESIZE).

Definition pipe_len (pp : pipe) : Z := u32 (pi_nwrite pp - pi_nread pp).

Definition pipe_queue (pp : pipe) : list Z :=
  (fun k => ring_at pp (pi_nread pp + Z.of_nat k)) <$> seq 0 (Z.to_nat (pipe_len pp)).

Record pipe_ok (pp : pipe) : Prop := {
  po_data : length (pi_data pp) = Z.to_nat PIPESIZE;
  po_nread : is_u32 (pi_nread pp);
  po_nwrite : is_u32 (pi_nwrite pp);
  po_len : pipe_len pp <= PIPESIZE }.

Lemma pipe_len_range pp : 0 <= pipe_len pp.
Proof. unfold pipe_len. pose proof (u32_range (pi_nwrite pp - pi_nread pp)). unfold is_u32 in *. lia. Qed.

Lemma length_queue pp : Z.of_nat (length (pipe_queue pp)) = pipe_len pp.
Proof. unfold pipe_queue. rewrite length_fmap, length_seq. pose proof (pipe_len_range pp). lia. Qed.

(** The size of the ring divides 2^32, so wrapping the counters is harmless. *)
Lemma u32_mod_pipe k : u32 k mod PIPESIZE = k mod PIPESIZE.
Proof. unfold u32. change PIPESIZE with 512. zdm. Qed.

Lemma pipe_full_len pp : pipe_ok pp -> pipe_full pp = (pipe_len pp =? PIPESIZE).
Proof.
  intros [_ Hr Hw Hl]. unfold pipe_full, pipe_len, is_u32, u32 in *. change PIPESIZE with 512 in *.
  destruct (Z.eqb_spec (pi_nwrite pp) ((pi_nread pp + 512) mod 2^32)), (Z.eqb_spec ((pi_nwrite pp - pi_nread pp) mod 2^32) 512); zdm.
Qed.

Lemma pipe_empty_len pp : pipe_ok pp -> pipe_empty pp = (pipe_len pp =? 0).
Proof.
  intros [_ Hr Hw Hl]. unfold pipe_empty, pipe_len, is_u32, u32 in *.
  destruct (Z.eqb_spec (pi_nread pp) (pi_nwrite pp)), (Z.eqb_spec ((pi_nwrite pp - pi_nread pp) mod 2^32) 0); zdm.
Qed.

(** Writing a byte appends it. *)
Lemma push_len pp b : pipe_ok pp -> pipe_full pp = false -> pipe_len (pipe_push b pp) = pipe_len pp + 1.
Proof.
  intros Hok Hf. rewrite pipe_full_len in Hf by done. apply Z.eqb_neq in Hf. destruct Hok as [_ Hr Hw Hl].
  unfold pipe_len, pipe_push, is_u32, u32 in *. cbn. change PIPESIZE with 512 in *. zdm.
Qed.

Lemma push_ok pp b : pipe_ok pp -> pipe_full pp = false -> pipe_ok (pipe_push b pp).
Proof.
  intros Hok Hf. pose proof (push_len pp b Hok Hf) as El. rewrite pipe_full_len in Hf by done. apply Z.eqb_neq in Hf.
  destruct Hok as [Hd Hr Hw Hl]. split; [by cbn; rewrite length_insert|done|apply u32_range|lia].
Qed.

Lemma push_queue pp b : pipe_ok pp -> pipe_full pp = false -> pipe_queue (pipe_push b pp) = pipe_queue pp ++ [b].
Proof.
  intros Hok Hf. pose proof (push_len pp b Hok Hf) as El. pose proof (pipe_len_range pp) as Hl0.
  rewrite pipe_full_len in Hf by done. apply Z.eqb_neq in Hf. destruct Hok as [Hd Hr Hw Hl].
  unfold pipe_queue. rewrite El. replace (Z.to_nat (pipe_len pp + 1)) with (Z.to_nat (pipe_len pp) + 1)%nat by lia.
  rewrite seq_app, fmap_app. f_equal.
  - apply list_fmap_ext. intros j ? [-> Hj]%lookup_seq. unfold ring_at, pipe_push. cbn.
    rewrite list_lookup_total_insert_ne; [done|]. unfold pipe_len, u32, is_u32 in *. change PIPESIZE with 512 in *. zdm.
  - cbn. f_equal. unfold ring_at, pipe_push. cbn. unfold pipe_len, u32, is_u32 in *. change PIPESIZE with 512 in *.
    rewrite Z2Nat.id by lia.
    replace ((pi_nread pp + (pi_nwrite pp - pi_nread pp) mod 2^32) mod 512) with (pi_nwrite pp mod 512) by zdm.
    apply list_lookup_total_insert_eq. rewrite Hd. change (Z.to_nat PIPESIZE) with 512%nat. zdm.
Qed.

(** Reading takes the first byte. *)
Lemma pop_len pp : pipe_ok pp -> pipe_empty pp = false -> pipe_len (pipe_pop pp) = pipe_len pp - 1.
Proof.
  intros Hok Hf. rewrite pipe_empty_len in Hf by done. apply Z.eqb_neq in Hf. destruct Hok as [_ Hr Hw Hl].
  unfold pipe_len, pipe_pop, is_u32, u32 in *. cbn. change PIPESIZE with 512 in *. zdm.
Qed.

Lemma pop_ok pp : pipe_ok pp -> pipe_empty pp = false -> pipe_ok (pipe_pop pp).
Proof.
  intros Hok Hf. pose proof (pop_len pp Hok Hf) as El. destruct Hok as [Hd Hr Hw Hl]. split; [done|apply u32_range|done|lia].
Qed.

Lemma pop_queue pp : pipe_ok pp -> pipe_empty pp = false -> pipe_queue pp = pipe_front pp :: pipe_queue (pipe_pop pp).
Proof.
  intros Hok Hf. pose proof (pop_len pp Hok Hf) as El. pose proof (pipe_len_range pp) as Hl0.
  rewrite pipe_empty_len in Hf by done. apply Z.eqb_neq in Hf.
  unfold pipe_queue. rewrite El. replace (Z.to_nat (pipe_len pp)) with (S (Z.to_nat (pipe_len pp - 1))) by lia.
  cbn [seq]. rewrite fmap_cons. f_equal.
  - unfold ring_at, pipe_front. by rewrite Z.add_0_r.
  - rewrite <- fmap_S_seq, <- list_fmap_compose. apply list_fmap_ext. intros ? j _. unfold compose, ring_at, pipe_pop. cbn [pi_nread pi_data set_pi_nread].
    rewrite <- (u32_mod_pipe (pi_nread pp + Z.of_nat (S j))), <- (u32_mod_pipe (u32 _ + _)). do 2 f_equal.
    unfold u32. change PIPESIZE with 512. zdm.
Qed.

Lemma empty_queue pp : pipe_ok pp -> pipe_empty pp = true -> pipe_queue pp = [].
Proof. intros Hok He. rewrite pipe_empty_len in He by done. apply Z.eqb_eq in He. unfold pipe_queue. by rewrite He. Qed.

(** ** Sequences of bytes *)

Definition pipe_pushes (l : list Z) (pp : pipe) : pipe := foldl (fun pp b => pipe_push b pp) pp l.

Lemma pushes_spec l : forall pp, pipe_ok pp -> pipe_len pp + Z.of_nat (length l) <= PIPESIZE ->
  pipe_ok (pipe_pushes l pp) /\ pipe_queue (pipe_pushes l pp) = pipe_queue pp ++ l /\
  pi_readopen (pipe_pushes l pp) = pi_readopen pp /\ pi_writeopen (pipe_pushes l pp) = pi_writeopen pp.
Proof.
  induction l as [|b l IH]; intros pp Hok Hl; [by rewrite app_nil_r|]. cbn [length] in Hl.
  assert (pipe_full pp = false) as Hf by (rewrite pipe_full_len by done; apply Z.eqb_neq; lia).
  destruct (IH (pipe_push b pp)) as (H1 & H2 & H3 & H4); [by apply push_ok|rewrite push_len by done; lia|].
  change (pipe_pushes (b :: l) pp) with (pipe_pushes l (pipe_push b pp)).
  split; [done|]. split; [|done]. by rewrite H2, push_queue, <- app_assoc.
Qed.

Definition pipe_pops (n : nat) (pp : pipe) : pipe := Nat.iter n pipe_pop pp.

Lemma pops_spec n : forall pp, pipe_ok pp -> (n <= length (pipe_queue pp))%nat ->
  pipe_ok (pipe_pops n pp) /\ pipe_queue (pipe_pops n pp) = drop n (pipe_queue pp).
Proof.
  induction n as [|n IH]; intros pp Hok Hn; [done|]. destruct (IH pp Hok ltac:(lia)) as [H1 H2].
  assert (pipe_empty (pipe_pops n pp) = false) as He.
  { destruct (pipe_empty _) eqn:E; [|done]. apply empty_queue in E; [|done]. rewrite E in H2.
    apply (f_equal length) in H2. rewrite length_drop in H2. cbn in H2. lia. }
  change (pipe_pops (S n) pp) with (pipe_pop (pipe_pops n pp)). split; [by apply pop_ok|]. pose proof (pop_queue _ H1 He) as E.
  rewrite H2 in E.
  replace (drop (S n) (pipe_queue pp)) with (drop 1 (drop n (pipe_queue pp))) by (rewrite drop_drop; f_equal; lia).
  by rewrite E.
Qed.

(** ** User memory *)

(** [uread] looks at the memory and the page table only. *)
Lemma uread_ext n : forall a s s' l, mem s' = mem s -> c_cr3 (cpu s') = c_cr3 (cpu s) ->
  uread a n s = Ok l s -> uread a n s' = Ok l s'.
Proof.
  induction n as [|n IH]; intros a s s' l Em Ec; cbn [uread]; [unfold ret; congruence|].
  rewrite !bind_gets, Em, Ec. destruct (translate _ _ _ _); [|done]. rewrite !bind_gets, Em.
  destruct (uread (a + 1) n s) as [l' t|] eqn:E; [|by rewrite (bind_Halt _ _ _ _ _ E)].
  rewrite (bind_Ok _ _ _ _ _ E). unfold ret. intros [= <- ->]. by rewrite (bind_Ok _ _ _ _ _ (IH _ _ _ _ Em Ec E)).
Qed.

Lemma uread_cons a n s b l : uread a (S n) s = Ok (b :: l) s -> uread a 1 s = Ok [b] s /\ uread (a + 1) n s = Ok l s.
Proof.
  cbn [uread]. rewrite !bind_gets. destruct (translate _ _ _ _); [|done]. rewrite !bind_gets.
  destruct (uread (a + 1) n s) as [l' t|] eqn:E; [|by rewrite (bind_Halt _ _ _ _ _ E)].
  rewrite (bind_Ok _ _ _ _ _ E). unfold ret. intros [= <- <- ->]. by rewrite bind_ret.
Qed.

Lemma uread_length a n s l t : uread a n s = Ok l t -> length l = n.
Proof.
  revert a l t. induction n as [|n IH]; intros a l t; cbn [uread]; [by intros [= <- _]|].
  rewrite !bind_gets. destruct (translate _ _ _ _); [|done]. rewrite !bind_gets.
  destruct (uread (a + 1) n s) as [l' t'|] eqn:E; [|by rewrite (bind_Halt _ _ _ _ _ E)].
  rewrite (bind_Ok _ _ _ _ _ E). unfold ret. intros [= <- _]. cbn. f_equal. by eapply IH.
Qed.

Lemma uwrite_ext l : forall a s s' t, mem s' = mem s -> c_cr3 (cpu s') = c_cr3 (cpu s) ->
  uwrite a l s = Ok tt t -> uwrite a l s' = Ok tt (set_mem (mem t) s').
Proof.
  induction l as [|b l IH]; intros a s s' t Em Ec; cbn [uwrite].
  - unfold ret. intros [= ->]. rewrite <- Em. by destruct s'.
  - rewrite !bind_gets, Em, Ec. destruct (translate _ _ _ _) as [k|]; [|done]. rewrite !bind_modify. intros H.
    eapply (IH _ _ (set_mem (mwrite (mem s') k [b]) s')) in H; [|cbn; by rewrite Em|done].
    rewrite H. by destruct s'.
Qed.

Lemma uwrite_cons a b l s t : uwrite a (b :: l) s = Ok tt t ->
  exists s1, uwrite a [b] s = Ok tt s1 /\ uwrite (a + 1) l s1 = Ok tt t.
Proof.
  cbn [uwrite]. rewrite !bind_gets. destruct (translate _ _ _ _) as [k|]; [|done]. rewrite !bind_modify.
  intros H. eexists. split; [reflexivity|exact H].
Qed.

Lemma uwrite_mem l : forall a s t, uwrite a l s = Ok tt t -> t = set_mem (mem t) s.
Proof. intros a s t H. rewrite (uwrite_ext l a s s t eq_refl eq_refl H) in H. by injection H. Qed.
