(* ===== verification/File.v ===== *)
(** * Open files (file.c, and pipealloc of pipe.c) *)

From S2P Require Import Prelude State Mem Spinlock Sched SchedFacts Ide Bio Log Inode Kalloc Vm Kbd Console Fs Pipe.

Definition fileinit : M unit := initlock LFtable.

Definition getfile {A} (f : nat) (g : file -> A) : M A := gets (fun s => g (ftable s !!! f)).

(** The first entry with no reference. *)
Fixpoint free_file (l : list file) (k : nat) : option nat :=
  match l with
  | [] => None
  | f :: l => if f_ref f =? 0 then Some k else free_file l (S k)
  end.

(** Allocate a file structure. *)
Definition filealloc : M (option nat) :=
  acquire LFtable ;;
  let* o := gets (fun s => free_file (ftable s) 0) in
  match o with
  | Some f => modify (upd_file f (set_f_ref 1)) ;; release LFtable ;; ret (Some f)
  | None => release LFtable ;; ret None
  end.

(** Increment ref count for file f. *)
Definition filedup (f : nat) : M nat :=
  acquire LFtable ;;
  let* r := getfile f f_ref in
  if r <? 1 then panic "filedup"
  else
    modify (upd_file f (fun x => set_f_ref (f_ref x + 1) x)) ;;
    release LFtable ;;
    ret f.

(** The inode of an open file, or the working directory of a process. *)
Definition the_inode (o : option nat) : M nat :=
  match o with
  | Some ip => ret ip
  | None => undefined "null inode"
  end.

Section File.
Context `{KI : KernelImage}.

(** Close file f.  (Decrement ref count, close when reaches 0.) *)
Definition fileclose (f : nat) : M unit :=
  acquire LFtable ;;
  let* r := getfile f f_ref in
  if r <? 1 then panic "fileclose"
  else
    modify (upd_file f (fun x => set_f_ref (f_ref x - 1) x)) ;;
    let* ff := getfile f (fun x => x) in
    if 0 <? f_ref ff then release LFtable
    else
      modify (upd_file f (fun x => set_f_type FD_NONE (set_f_ref 0 x))) ;;
      release LFtable ;;
      match f_type ff with
      | FD_PIPE => pipeclose (f_pipe ff) (f_writable ff)
      | FD_INODE =>
        begin_op ;;
        let* ip := the_inode (f_ip ff) in
        iput ip ;;
        end_op
      | FD_NONE => ret tt
      end.

(** The stores of [stati] through [st]. *)
Definition put_stat (st : Z) (r : stat) : M unit :=
  uwrite (st + 4) (bytes32 (st_dev r)) ;;
  uwrite (st + 8) (bytes32 (st_ino r)) ;;
  uwrite st (bytes16 (st_type r)) ;;
  uwrite (st + 12) (bytes16 (st_nlink r)) ;;
  uwrite (st + 16) (bytes32 (st_size r)).

(** Get metadata about file f. *)
Definition filestat (f : nat) (st : Z) : M Z :=
  let* ff := getfile f (fun x => x) in
  match f_type ff with
  | FD_INODE =>
    let* ip := the_inode (f_ip ff) in
    ilock ip ;;
    let* r := stati ip in
    put_stat st r ;;
    iunlock ip ;;
    ret 0
  | _ => ret (-1)
  end.

(** Read from file f. *)
Definition fileread (f : nat) (addr n : Z) : M Z :=
  let* ff := getfile f (fun x => x) in
  if negb (f_readable ff) then ret (-1)
  else
    match f_type ff with
    | FD_PIPE => piperead (f_pipe ff) addr n
    | FD_INODE =>
      let* ip := the_inode (f_ip ff) in
      ilock ip ;;
      let* off := getfile f f_off in
      let* '(r, _) := readi ip (Some addr) off (u32 n) in
      when (0 <? r) (modify (upd_file f (fun x => set_f_off (u32 (f_off x + r)) x))) ;;
      iunlock ip ;;
      ret r
    | FD_NONE => panic "fileread"
    end.

(** [((LOGSIZE-1-1-2) / 2) * 512] *)
Definition FILEWRITE_MAX : Z := ((LOGSIZE - 1 - 1 - 2) / 2) * 512.

(** [while(i < n)]: the final [i]. *)
Fixpoint filewrite_loop (fuel : nat) (f ip : nat) (addr i n : Z) : M Z :=
  if i <? n then
    match fuel with
    | O => panic "filewrite: out of fuel"
    | S fuel =>
      let n1 := Z.min (n - i) FILEWRITE_MAX in
      begin_op ;;
      ilock ip ;;
      let* off := getfile f f_off in
      let* r := writei ip (SAddr (addr + i)) off n1 in
      when (0 <? r) (modify (upd_file f (fun x => set_f_off (u32 (f_off x + r)) x))) ;;
      iunlock ip ;;
      end_op ;;
      if r <? 0 then ret i
      else if negb (r =? n1) then panic "short filewrite"
      else filewrite_loop fuel f ip addr (i + r) n
    end
  else ret i.

(** Write to file f. *)
Definition filewrite (f : nat) (addr n : Z) : M Z :=
  let* ff := getfile f (fun x => x) in
  if negb (f_writable ff) then ret (-1)
  else
    match f_type ff with
    | FD_PIPE => pipewrite (f_pipe ff) addr n
    | FD_INODE =>
      let* ip := the_inode (f_ip ff) in
      let* i := filewrite_loop (Z.to_nat n) f ip addr 0 n in
      ret (if i =? n then n else -1)
    | FD_NONE => panic "filewrite"
    end.

(** [bad:] in [pipealloc] *)
Definition pipealloc_bad (f0 f1 : option nat) : M (option (nat * nat)) :=
  match f0 with Some f => fileclose f | None => ret tt end ;;
  match f1 with Some f => fileclose f | None => ret tt end ;;
  ret None.

(** The two ends of a new pipe, or [None] for -1. *)
Definition pipealloc : M (option (nat * nat)) :=
  let* o0 := filealloc in
  match o0 with
  | None => pipealloc_bad None None
  | Some f0 =>
    let* o1 := filealloc in
    match o1 with
    | None => pipealloc_bad (Some f0) None
    | Some f1 =>
      let* p := kalloc in
      if p =? 0 then pipealloc_bad (Some f0) (Some f1)
      else
        pipe_init p ;;
        modify (upd_file f0 (fun x => set_f_pipe p (set_f_writable false (set_f_readable true (set_f_type FD_PIPE x))))) ;;
        modify (upd_file f1 (fun x => set_f_pipe p (set_f_writable true (set_f_readable false (set_f_type FD_PIPE x))))) ;;
        ret (Some (f0, f1))
    end
  end.

End File.
