(* ===== verification/Proc.v ===== *)
(** * Processes and threads (proc.c) *)

From S2P Require Import Prelude State Mem Spinlock Sched SchedFacts Ide Bio Log Inode Kalloc Vm Kbd Console Fs Pipe File.

(** What the linker provides: the address of [forkret] and the contents of
    initcode. *)
Class KernelText := {
  forkret_pc : Z;
  initcode : list Z }.

(** Those of the kernel in the repository. *)
Definition xv6_text : KernelText :=
  {| forkret_pc := 0x80104bb2;
     initcode := [104; 36; 0; 0; 0; 104; 28; 0; 0; 0; 106; 0; 184; 7; 0; 0; 0; 205; 64; 184; 2; 0; 0; 0; 205; 64; 235; 247; 47; 105; 110; 105; 116; 0; 0; 144; 28; 0; 0; 0; 0; 0; 0; 0] |}.

Definition pinit : M unit := initlock LPtable.

(** The first entry in state UNUSED. *)
Fixpoint unused_proc (l : list proc) (k : nat) : option nat :=
  match l with
  | [] => None
  | p :: l => if bool_decide (p_state p = UNUSED) then Some k else unused_proc l (S k)
  end.

(** [safestrcpy(np->name, name, sizeof(np->name))] *)
Definition set_name (name : list Z) (p : proc) : proc :=
  set_p_name (Cstring.safestrcpy (p_name p) (fun i => name !!! i) 16) p.

Section Proc.
Context `{KI : KernelImage} `{KT : KernelText}.

(** Look in the process table for an UNUSED proc.  If found, change state to
    EMBRYO and initialize state required to run in the kernel. *)
Definition allocproc : M (option nat) :=
  acquire LPtable ;;
  let* o := gets (fun s => unused_proc (ptable s) 0) in
  match o with
  | None => release LPtable ;; ret None
  | Some p =>
    modify (upd_proc p (set_p_state EMBRYO)) ;;
    let* pid := gets nextpid in
    modify (upd_proc p (set_p_pid pid)) ;;
    modify (set_nextpid (i32 (pid + 1))) ;;
    release LPtable ;;
    let* k := kalloc in
    modify (upd_proc p (set_p_kstack k)) ;;
    if k =? 0 then
      modify (upd_proc p (set_p_state UNUSED)) ;;
      ret None
    else
      modify (upd_proc p (set_p_context (MkCtx 0 0 0 0 forkret_pc))) ;;
      ret (Some p)
  end.

Definition UCODE : Z := 0x23.
Definition UDATA : Z := 0x2b.
Definition FL_IF : Z := 0x200.

(** The registers the first process starts with. *)
Definition init_tf : trapframe :=
  let tf := MkTf 0 0 0 0 0 0 0 0 0 0 0 0 0 0 0 0 0 0 0 in
  let tf := set_tf_ss UDATA (set_tf_es UDATA (set_tf_ds UDATA (set_tf_cs UCODE tf))) in
  set_tf_eip 0 (set_tf_esp PGSIZE (set_tf_eflags FL_IF tf)).

(** Set up first user process. *)
Definition userinit : M unit :=
  let* o := allocproc in
  modify (set_initproc o) ;;
  match o with
  | None => undefined "userinit"
  | Some p =>
    let* pg := setupkvm in
    modify (upd_proc p (set_p_pgdir pg)) ;;
    if pg =? 0 then panic "userinit: out of memory?"
    else
      inituvm pg initcode (Z.of_nat (length initcode)) ;;
      modify (upd_proc p (set_p_sz PGSIZE)) ;;
      modify (upd_proc p (set_p_tf init_tf)) ;;
      modify (upd_proc p (set_name (chars "initcode"))) ;;
      let* cwd := namei [SLASH] in
      modify (upd_proc p (set_p_cwd cwd)) ;;
      modify (upd_proc p (set_p_state RUNNABLE))
  end.

(** Grow current process's memory by n bytes. *)
Definition growproc (n : Z) : M Z :=
  let* c := curproc in
  let* p := getproc c (fun p => p) in
  let finish sz :=
    modify (upd_proc c (set_p_sz sz)) ;;
    switchuvm c ;;
    ret 0 in
  if 0 <? n then
    let* sz := allocuvm (p_pgdir p) (p_sz p) (u32 (p_sz p + n)) in
    if sz =? 0 then ret (-1) else finish sz
  else if n <? 0 then
    let* sz := deallocuvm (p_pgdir p) (p_sz p) (u32 (p_sz p + n)) in
    if sz =? 0 then ret (-1) else finish sz
  else finish (p_sz p).

(** [for(i = 0; i < NOFILE; i++) if(proc->ofile[i]) np->ofile[i] =
    filedup(proc->ofile[i]);] *)
Definition dup_files (c np : nat) : M unit :=
  forM (seq 0 NOFILE) (fun i =>
    let* o := getproc c (fun p => p_ofile p !!! i) in
    match o with
    | Some f =>
      let* f := filedup f in
      modify (upd_proc np (fun p => set_p_ofile (<[i := Some f]> (p_ofile p)) p))
    | None => ret tt
    end).

(** [np->cwd = idup(proc->cwd); safestrcpy(np->name, proc->name, ...);] *)
Definition dup_cwd (c np : nat) : M unit :=
  let* cwd := getproc c p_cwd in
  let* ip := the_inode cwd in
  let* ip := idup ip in
  modify (upd_proc np (set_p_cwd (Some ip))) ;;
  let* name := getproc c p_name in
  modify (upd_proc np (set_name name)).

(** Create a new process copying p as the parent. *)
Definition fork : M Z :=
  let* o := allocproc in
  match o with
  | None => ret (-1)
  | Some np =>
    let* c := curproc in
    let* p := getproc c (fun p => p) in
    let* pg := copyuvm (p_pgdir p) (p_sz p) in
    modify (upd_proc np (set_p_pgdir pg)) ;;
    if pg =? 0 then
      let* k := getproc np p_kstack in
      kfree k ;;
      modify (upd_proc np (set_p_kstack 0)) ;;
      modify (upd_proc np (set_p_state UNUSED)) ;;
      ret (-1)
    else
      modify (upd_proc np (set_p_sz (p_sz p))) ;;
      modify (upd_proc np (set_p_parent (Some c))) ;;
      modify (upd_proc np (set_p_tf (p_tf p))) ;;
      modify (upd_proc np (fun q => set_p_tf (set_tf_eax 0 (p_tf q)) q)) ;;
      dup_files c np ;;
      dup_cwd c np ;;
      let* pid := getproc np p_pid in
      acquire LPtable ;;
      modify (upd_proc np (set_p_state RUNNABLE)) ;;
      release LPtable ;;
      ret pid
  end.

(** Create a thread: a process that shares the caller's address space and runs
    [fn(arg)] on [stack]. *)
Definition clone (fn arg stack : Z) : M Z :=
  let* o := allocproc in
  match o with
  | None => ret (-1)
  | Some np =>
    let* c := curproc in
    let* p := getproc c (fun p => p) in
    modify (upd_proc np (set_p_pgdir (p_pgdir p))) ;;
    modify (upd_proc np (set_p_sz (p_sz p))) ;;
    modify (upd_proc np (set_p_parent (Some c))) ;;
    modify (upd_proc np (set_p_tf (p_tf p))) ;;
    uwrite (u32 (stack + 4096 - 8)) (bytes32 0xFFFFFFF) ;;
    uwrite (u32 (stack + 4096 - 4)) (bytes32 arg) ;;
    let* l := uread stack (Z.to_nat PGSIZE) in
    uwrite stack l ;;
    let esp := u32 (stack + (PGSIZE - 8)) in
    modify (upd_proc np (fun q => set_p_tf (set_tf_eip fn (set_tf_ebp esp (set_tf_esp esp (p_tf q)))) q)) ;;
    dup_files c np ;;
    dup_cwd c np ;;
    let* pid := getproc np p_pid in
    modify (upd_proc np (fun q => set_p_tf (set_tf_eax 0 (p_tf q)) q)) ;;
    acquire LPtable ;;
    modify (upd_proc np (set_p_state RUNNABLE)) ;;
    release LPtable ;;
    ret pid
  end.

(** [for(fd = 0; fd < NOFILE; fd++)]: close all open files. *)
Definition close_files (c : nat) : M unit :=
  forM (seq 0 NOFILE) (fun fd =>
    let* o := getproc c (fun p => p_ofile p !!! fd) in
    match o with
    | Some f =>
      fileclose f ;;
      modify (upd_proc c (fun p => set_p_ofile (<[fd := None]> (p_ofile p)) p))
    | None => ret tt
    end).

Definition wakeup1_proc (o : option nat) : M unit :=
  match o with
  | Some i => wakeup1 (CProc i)
  | None => ret tt
  end.

(** Pass abandoned children to init. *)
Definition reparent (c : nat) : M unit :=
  forM (seq 0 NPROC) (fun i =>
    let* p := getproc i (fun p => p) in
    when (bool_decide (p_parent p = Some c))
      (let* init := gets initproc in
       modify (upd_proc i (set_p_parent init)) ;;
       when (bool_decide (p_state p = ZOMBIE)) (wakeup1_proc init))).

(** Exit the current process.  Does not return. *)
Definition exit_ : M unit :=
  let* o := gets (fun s => c_proc (cpu s)) in
  let* init := gets initproc in
  if bool_decide (o = init) then panic "init exiting"
  else
    let* c := curproc in
    close_files c ;;
    begin_op ;;
    let* cwd := getproc c p_cwd in
    let* ip := the_inode cwd in
    iput ip ;;
    end_op ;;
    modify (upd_proc c (set_p_cwd None)) ;;
    acquire LPtable ;;
    let* parent := getproc c p_parent in
    wakeup1_proc parent ;;
    reparent c ;;
    modify (upd_proc c (set_p_state ZOMBIE)) ;;
    sched WExit.

(** The scan of [wait] and of [join]: the children that count, and the first
    of them that is a zombie. *)
Fixpoint zombie_scan (l : list proc) (k : nat) (child : proc -> bool) : bool * option nat :=
  match l with
  | [] => (false, None)
  | p :: l =>
    if child p then
      if bool_decide (p_state p = ZOMBIE) then (true, Some k)
      else let '(_, z) := zombie_scan l (S k) child in (true, z)
    else zombie_scan l (S k) child
  end.

Definition is_child (c : nat) (p : proc) : bool := bool_decide (p_parent p = Some c).

(** [p->state = UNUSED; p->pid = 0; p->parent = 0; p->name[0] = 0;
    p->killed = 0;] *)
Definition reset_proc (p : proc) : proc :=
  set_p_killed false (set_p_name (<[0%nat := 0]> (p_name p)) (set_p_parent None (set_p_pid 0 (set_p_state UNUSED p)))).

(** The body of [wait] while ptable.lock is held; run again after a sleep. *)
Definition wait_locked : M Z :=
  let* c := curproc in
  let* '(havekids, z) := gets (fun s => zombie_scan (ptable s) 0 (is_child c)) in
  match z with
  | Some i =>
    let* p := getproc i (fun p => p) in
    kfree (p_kstack p) ;;
    modify (upd_proc i (set_p_kstack 0)) ;;
    freevm (p_pgdir p) ;;
    modify (upd_proc i reset_proc) ;;
    release LPtable ;;
    ret (p_pid p)
  | None =>
    let* killed := getproc c p_killed in
    if negb havekids || killed then release LPtable ;; ret (-1)
    else sleep (CProc c) LPtable
  end.

(** Wait for a child process to exit and return its pid. *)
Definition wait_ : M Z := acquire LPtable ;; wait_locked.

Definition wait_resume : M Z := sleep_return LPtable ;; wait_locked.

(** [p->parent == proc && p->pgdir == p->parent->pgdir] *)
Definition is_thread (c : nat) (pgdir : Z) (p : proc) : bool :=
  bool_decide (p_parent p = Some c) && (p_pgdir p =? pgdir).

Definition join_locked : M Z :=
  let* c := curproc in
  let* '(y, z) := gets (fun s => zombie_scan (ptable s) 0 (is_thread c (p_pgdir (ptable s !!! c)))) in
  match z with
  | Some i =>
    let* p := getproc i (fun p => p) in
    let* esp := getproc c (fun q => tf_esp (p_tf q)) in
    let a := u32 (esp + 7 * 4) in
    uwrite a (bytes32 (tf_ebp (p_tf p))) ;;
    let* v := uread a 4 in
    uwrite a (bytes32 (u32 (le v + (3 * 4 - PGSIZE)))) ;;
    kfree (p_kstack p) ;;
    modify (upd_proc i (set_p_kstack 0)) ;;
    modify (upd_proc i reset_proc) ;;
    release LPtable ;;
    ret (p_pid p)
  | None =>
    let* killed := getproc c p_killed in
    if negb y || killed then release LPtable ;; ret (-1)
    else sleep (CProc c) LPtable
  end.

(** [join(stack)]; the code does not use its argument. *)
Definition join (stack : Z) : M Z := acquire LPtable ;; join_locked.

Definition join_resume : M Z := sleep_return LPtable ;; join_locked.

(** The first entry with the given pid. *)
Fixpoint find_pid (l : list proc) (k : nat) (pid : Z) : option nat :=
  match l with
  | [] => None
  | p :: l => if p_pid p =? pid then Some k else find_pid l (S k) pid
  end.

(** Kill the process with the given pid. *)
Definition kill (pid : Z) : M Z :=
  acquire LPtable ;;
  let* o := gets (fun s => find_pid (ptable s) 0 pid) in
  match o with
  | Some i =>
    modify (upd_proc i (set_p_killed true)) ;;
    let* st := getproc i p_state in
    when (bool_decide (st = SLEEPING)) (modify (upd_proc i (set_p_state RUNNABLE))) ;;
    release LPtable ;;
    ret 0
  | None => release LPtable ;; ret (-1)
  end.

(** A fork child's very first scheduling by scheduler() will swtch here. *)
Definition forkret : M unit :=
  release LPtable ;;
  let* f := gets first in
  when f
    (modify (set_first false) ;;
     iinit ROOTDEV ;;
     initlog ROOTDEV).

End Proc.
