(* ===== verification/Exec.v ===== *)
(** * Loading programs (exec.c, loaduvm of vm.c) *)

From S2P Require Import Prelude State Mem Spinlock Sched SchedFacts Ide Bio Log Inode Kalloc Vm Kbd Console Fs Pipe File Proc.

(** ** elf.h *)

Definition ELF_MAGIC : Z := 0x464C457F.
Definition ELF_PROG_LOAD : Z := 1.
Definition ELFHDR_SIZE : Z := 52.
Definition PROGHDR_SIZE : Z := 32.

Definition elf_magic (e : list Z) : Z := get32 e 0.
Definition elf_entry (e : list Z) : Z := get32 e 24.
Definition elf_phoff (e : list Z) : Z := get32 e 28.
Definition elf_phnum (e : list Z) : Z := get16 e 44.

Definition ph_type (p : list Z) : Z := get32 p 0.
Definition ph_off (p : list Z) : Z := get32 p 4.
Definition ph_vaddr (p : list Z) : Z := get32 p 8.
Definition ph_filesz (p : list Z) : Z := get32 p 16.
Definition ph_memsz (p : list Z) : Z := get32 p 20.

Section Exec.
Context `{KI : KernelImage}.

(** [for(i = 0; i < sz; i += PGSIZE)] *)
Fixpoint loaduvm_loop (fuel : nat) (pgdir addr : Z) (ip : nat) (offset i sz : Z) : M Z :=
  if i <? sz then
    match fuel with
    | O => panic "loaduvm: out of fuel"
    | S fuel =>
      let* pte := walkpgdir pgdir (u32 (addr + i)) false in
      if pte =? 0 then panic "loaduvm: address should exist"
      else
        let* e := gets (fun s => ld32 (mem s) pte) in
        let pa := PTE_ADDR e in
        let n := if sz - i <? PGSIZE then sz - i else PGSIZE in
        let* '(r, _) := readi ip (Some (p2v pa)) (u32 (offset + i)) n in
        if negb (u32 r =? n) then ret (-1)
        else loaduvm_loop fuel pgdir addr ip offset (u32 (i + PGSIZE)) sz
    end
  else ret 0.

(** Load a program segment into pgdir. *)
Definition loaduvm (pgdir addr : Z) (ip : nat) (offset sz : Z) : M Z :=
  if negb (addr mod PGSIZE =? 0) then panic "loaduvm: addr must be page aligned"
  else loaduvm_loop (Z.to_nat (sz / PGSIZE) + 1) pgdir addr ip offset 0 sz.

(** [for(i=0, off=elf.phoff; i<elf.phnum; i++, off+=sizeof(ph))], [n] headers
    to go: the size, or [None] for [goto bad]. *)
Fixpoint exec_load (n : nat) (pgdir : Z) (ip : nat) (off sz : Z) : M (option Z) :=
  match n with
  | O => ret (Some sz)
  | S n =>
    let* '(r, ph) := readi ip None (u32 off) PROGHDR_SIZE in
    if negb (r =? PROGHDR_SIZE) then ret None
    else if negb (ph_type ph =? ELF_PROG_LOAD) then exec_load n pgdir ip (off + PROGHDR_SIZE) sz
    else if ph_memsz ph <? ph_filesz ph then ret None
    else
      let* sz := allocuvm pgdir sz (u32 (ph_vaddr ph + ph_memsz ph)) in
      if sz =? 0 then ret None
      else
        let* r := loaduvm pgdir (ph_vaddr ph) ip (ph_off ph) (ph_filesz ph) in
        if r <? 0 then ret None
        else exec_load n pgdir ip (off + PROGHDR_SIZE) sz
  end.

(** Push argument strings: the stack pointer and the pointers pushed so far,
    or [None] for [goto bad]. *)
Fixpoint exec_args (argv : list (list Z)) (pgdir sp : Z) (ptrs : list Z) : M (option (Z * list Z)) :=
  match argv with
  | [] => ret (Some (sp, ptrs))
  | a :: argv =>
    if (MAXARG <=? length ptrs)%nat then ret None
    else
      let sp := Z.land (u32 (sp - (Z.of_nat (length a) + 1))) 0xFFFFFFFC in
      let* r := copyout pgdir sp (a ++ [0]) in
      if r <? 0 then ret None
      else exec_args argv pgdir sp (ptrs ++ [sp])
  end.

(** [ustack], as the bytes that are copied out. *)
Definition exec_ustack (sp : Z) (ptrs : list Z) : list Z :=
  let argc := Z.of_nat (length ptrs) in
  flat_map bytes32 ([0xffffffff; argc; u32 (sp - (argc + 1) * 4)] ++ ptrs ++ [0]).

(** [for(last=s=path; *s; s++) if( *s == '/') last = s+1;] *)
Fixpoint last_elem (path last : list Z) : list Z :=
  match path with
  | [] => last
  | c :: path => last_elem path (if c =? SLASH then path else last)
  end.

(** [bad:] with the inode still locked, and without. *)
Definition exec_bad (pgdir : Z) (ip : option nat) : M Z :=
  when (negb (pgdir =? 0)) (freevm pgdir) ;;
  match ip with
  | Some ip => iunlockput ip ;; end_op
  | None => ret tt
  end ;;
  ret (-1).

(** From [sz = PGROUNDUP(sz)] on: the user stack, and the switch to the new
    image. *)
Definition exec_commit (path : list Z) (argv : list (list Z)) (pgdir sz entry : Z) : M Z :=
  let* sz := allocuvm pgdir (PGROUNDUP sz) (u32 (PGROUNDUP sz + 2 * PGSIZE)) in
  if sz =? 0 then exec_bad pgdir None
  else
    clearpteu pgdir (u32 (sz - 2 * PGSIZE)) ;;
    let* r := exec_args argv pgdir sz [] in
    match r with
    | None => exec_bad pgdir None
    | Some (sp, ptrs) =>
      let ustack := exec_ustack sp ptrs in
      let sp := u32 (sp - Z.of_nat (length ustack)) in
      let* r := copyout pgdir sp ustack in
      if r <? 0 then exec_bad pgdir None
      else
        let* c := curproc in
        modify (upd_proc c (set_name (last_elem path path))) ;;
        let* oldpgdir := getproc c p_pgdir in
        modify (upd_proc c (set_p_pgdir pgdir)) ;;
        modify (upd_proc c (set_p_sz sz)) ;;
        modify (upd_proc c (fun p => set_p_tf (set_tf_esp sp (set_tf_eip entry (p_tf p))) p)) ;;
        switchuvm c ;;
        freevm oldpgdir ;;
        ret 0
    end.

Definition exec (path : list Z) (argv : list (list Z)) : M Z :=
  begin_op ;;
  let* o := namei path in
  match o with
  | None => end_op ;; ret (-1)
  | Some ip =>
    ilock ip ;;
    let* '(r, elf) := readi ip None 0 ELFHDR_SIZE in
    if u32 r <? ELFHDR_SIZE then exec_bad 0 (Some ip)
    else if r <? 0 then undefined "exec: elf"
    else if negb (elf_magic elf =? ELF_MAGIC) then exec_bad 0 (Some ip)
    else
      let* pgdir := setupkvm in
      if pgdir =? 0 then exec_bad 0 (Some ip)
      else
        let* r := exec_load (Z.to_nat (elf_phnum elf)) pgdir ip (i32 (elf_phoff elf)) 0 in
        match r with
        | None => exec_bad pgdir (Some ip)
        | Some sz =>
          iunlockput ip ;;
          end_op ;;
          exec_commit path argv pgdir sz (elf_entry elf)
        end
  end.

End Exec.
