(* ===== verification/Syscall.v ===== *)
(** * System call arguments, process and file system calls (syscall.c,
    sysproc.c, sysfile.c) *)

From S2P Require Import Prelude State Mem Spinlock Sched SchedFacts Ide Bio Log Inode Kalloc Vm Kbd Console Fs Pipe File Proc Exec.

(** ** Arguments *)

(** Fetch the int at addr from the current process; [None] stands for -1. *)
Definition fetchint (addr : Z) : M (option Z) :=
  let* c := curproc in
  let* sz := getproc c p_sz in
  if (sz <=? addr) || (sz <? u32 (addr + 4)) then ret None
  else
    let* l := uread addr 4 in
    ret (Some (i32 (le l))).

(** [for(s = *pp; s < ep; s++)]: the characters before the NUL. *)
Fixpoint fetchstr_loop (fuel : nat) (s : Z) (acc : list Z) : M (option (list Z)) :=
  match fuel with
  | O => ret None
  | S fuel =>
    let* b := uread s 1 in
    if b !!! 0%nat =? 0 then ret (Some acc)
    else fetchstr_loop fuel (s + 1) (acc ++ [b !!! 0%nat])
  end.

(** Fetch the nul-terminated string at addr from the current process. *)
Definition fetchstr (addr : Z) : M (option (list Z)) :=
  let* c := curproc in
  let* sz := getproc c p_sz in
  if sz <=? addr then ret None
  else fetchstr_loop (Z.to_nat (sz - addr)) addr [].

(** Fetch the nth 32-bit system call argument. *)
Definition argint (n : Z) : M (option Z) :=
  let* c := curproc in
  let* esp := getproc c (fun p => tf_esp (p_tf p)) in
  fetchint (u32 (esp + 4 + 4 * n)).

(** Fetch the nth word-sized system call argument as a pointer to a block of
    memory of size n bytes. *)
Definition argptr (n size : Z) : M (option Z) :=
  let* o := argint n in
  match o with
  | None => ret None
  | Some i =>
    let* c := curproc in
    let* sz := getproc c p_sz in
    if (sz <=? u32 i) || (sz <? u32 (u32 i + size)) then ret None
    else ret (Some (u32 i))
  end.

(** Fetch the nth word-sized system call argument as a string pointer. *)
Definition argstr (n : Z) : M (option (list Z)) :=
  let* o := argint n in
  match o with
  | None => ret None
  | Some a => fetchstr (u32 a)
  end.

(** [if((x = e) < 0) return -1;] *)
Definition or_fail {A} (m : M (option A)) (k : A -> M Z) : M Z :=
  let* o := m in
  match o with
  | Some x => k x
  | None => ret (-1)
  end.

(** ** sysproc.c *)

Section Sysproc.
Context `{KI : KernelImage} `{KT : KernelText}.

Definition sys_fork : M Z := fork.

Definition sys_exit : M Z := exit_ ;; ret 0.

Definition sys_wait : M Z := wait_.

Definition sys_kill : M Z := or_fail (argint 0) kill.

Definition sys_getpid : M Z :=
  let* c := curproc in
  getproc c p_pid.

Definition sys_sbrk : M Z :=
  or_fail (argint 0) (fun n =>
    let* c := curproc in
    let* addr := getproc c p_sz in
    let* r := growproc n in
    if r <? 0 then ret (-1) else ret (i32 addr)).

(** [while(ticks - ticks0 < n)], with tickslock held. *)
Definition sleep_locked (ticks0 n : Z) : M Z :=
  let* t := gets ticks in
  if u32 (t - ticks0) <? u32 n then
    let* c := curproc in
    let* killed := getproc c p_killed in
    if killed then release LTicks ;; ret (-1)
    else sleep CTicks LTicks
  else
    release LTicks ;;
    ret 0.

Definition sys_sleep : M Z :=
  or_fail (argint 0) (fun n =>
    acquire LTicks ;;
    let* ticks0 := gets ticks in
    sleep_locked ticks0 n).

Definition sys_sleep_resume (ticks0 n : Z) : M Z :=
  sleep_return LTicks ;;
  sleep_locked ticks0 n.

Definition sys_join : M Z :=
  let* o := argint 0 in
  let stackArg := match o with Some _ => 0 | None => -1 end in
  join (u32 stackArg).

Definition sys_uptime : M Z :=
  acquire LTicks ;;
  let* xticks := gets ticks in
  release LTicks ;;
  ret (i32 xticks).

Definition sys_clone : M Z :=
  or_fail (argptr 0 4) (fun fcn =>
  or_fail (argptr 1 4) (fun arg =>
  or_fail (argptr 2 4) (fun stack => clone fcn arg stack))).

End Sysproc.

(** ** sysfile.c *)

Definition O_RDONLY : Z := 0.
Definition O_WRONLY : Z := 1.
Definition O_RDWR : Z := 2.
Definition O_CREATE : Z := 0x200.

(** Fetch the nth word-sized system call argument as a file descriptor and
    return both the descriptor and the corresponding struct file. *)
Definition argfd (n : Z) : M (option (nat * nat)) :=
  let* o := argint n in
  match o with
  | None => ret None
  | Some fd =>
    if (fd <? 0) || (Z.of_nat NOFILE <=? fd) then ret None
    else
      let* c := curproc in
      let* f := getproc c (fun p => p_ofile p !!! Z.to_nat fd) in
      ret (match f with Some f => Some (Z.to_nat fd, f) | None => None end)
  end.

(** The first free descriptor. *)
Fixpoint free_fd (l : list (option nat)) (k : nat) : option nat :=
  match l with
  | [] => None
  | None :: _ => Some k
  | Some _ :: l => free_fd l (S k)
  end.

(** Allocate a file descriptor for the given file. *)
Definition fdalloc (f : nat) : M (option nat) :=
  let* c := curproc in
  let* o := getproc c (fun p => free_fd (p_ofile p) 0) in
  match o with
  | Some fd =>
    modify (upd_proc c (fun p => set_p_ofile (<[fd := Some f]> (p_ofile p)) p)) ;;
    ret (Some fd)
  | None => ret None
  end.

Section Sysfile.
Context `{KI : KernelImage}.

Definition sys_dup : M Z :=
  or_fail (argfd 0) (fun '(_, f) =>
  or_fail (fdalloc f) (fun fd =>
    filedup f ;;
    ret (Z.of_nat fd))).

Definition sys_read : M Z :=
  or_fail (argfd 0) (fun '(_, f) =>
  or_fail (argint 2) (fun n =>
  or_fail (argptr 1 n) (fun p => fileread f p n))).

Definition sys_write : M Z :=
  or_fail (argfd 0) (fun '(_, f) =>
  or_fail (argint 2) (fun n =>
  or_fail (argptr 1 n) (fun p => filewrite f p n))).

Definition sys_close : M Z :=
  or_fail (argfd 0) (fun '(fd, f) =>
    let* c := curproc in
    modify (upd_proc c (fun p => set_p_ofile (<[fd := None]> (p_ofile p)) p)) ;;
    fileclose f ;;
    ret 0).

Definition STAT_SIZE : Z := 20.

Definition sys_fstat : M Z :=
  or_fail (argfd 0) (fun '(_, f) =>
  or_fail (argptr 1 STAT_SIZE) (fun st => filestat f st)).

(** [bad:] in [sys_link] *)
Definition link_bad (ip : nat) : M Z :=
  ilock ip ;;
  modify (upd_inode ip (fun i => set_i_nlink (i16 (i_nlink i - 1)) i)) ;;
  iupdate ip ;;
  iunlockput ip ;;
  end_op ;;
  ret (-1).

(** Create the path new as a link to the same inode as old. *)
Definition sys_link : M Z :=
  or_fail (argstr 0) (fun old =>
  or_fail (argstr 1) (fun new =>
    begin_op ;;
    let* o := namei old in
    match o with
    | None => end_op ;; ret (-1)
    | Some ip =>
      ilock ip ;;
      let* t := getinode ip i_type in
      if t =? T_DIR then iunlockput ip ;; end_op ;; ret (-1)
      else
        modify (upd_inode ip (fun i => set_i_nlink (i16 (i_nlink i + 1)) i)) ;;
        iupdate ip ;;
        iunlock ip ;;
        let* o := nameiparent new (replicate DIRSIZ 0) in
        match o with
        | None => link_bad ip
        | Some (dp, name) =>
          ilock dp ;;
          let* ddev := getinode dp i_dev in
          let* idev := getinode ip i_dev in
          let* inum := getinode ip i_inum in
          let* r := (if negb (ddev =? idev) then ret (-1) else dirlink dp name inum) in
          if r <? 0 then iunlockput dp ;; link_bad ip
          else
            iunlockput dp ;;
            iput ip ;;
            end_op ;;
            ret 0
        end
    end)).

(** [for(off=2*sizeof(de); off<dp->size; off+=sizeof(de))] *)
Fixpoint isdirempty_loop (fuel : nat) (dp : nat) (off : Z) : M bool :=
  let* size := getinode dp i_size in
  if off <? size then
    match fuel with
    | O => panic "isdirempty: out of fuel"
    | S fuel =>
      let* '(r, de) := readi dp None off DIRENT_SIZE in
      if negb (r =? DIRENT_SIZE) then panic "isdirempty: readi"
      else if negb (de_inum de =? 0) then ret false
      else isdirempty_loop fuel dp (off + DIRENT_SIZE)
    end
  else ret true.

(** Is the directory dp empty except for "." and ".." ? *)
Definition isdirempty (dp : nat) : M bool :=
  let* size := getinode dp i_size in
  isdirempty_loop (dir_fuel size) dp (2 * DIRENT_SIZE).

Definition unlink_bad (dp : nat) : M Z := iunlockput dp ;; end_op ;; ret (-1).

Definition sys_unlink : M Z :=
  or_fail (argstr 0) (fun path =>
    begin_op ;;
    let* o := nameiparent path (replicate DIRSIZ 0) in
    match o with
    | None => end_op ;; ret (-1)
    | Some (dp, name) =>
      ilock dp ;;
      if (namecmp name (chars ".") =? 0) || (namecmp name (chars "..") =? 0) then unlink_bad dp
      else
        let* o := dirlookup dp name in
        match o with
        | None => unlink_bad dp
        | Some (ip, off) =>
          ilock ip ;;
          let* i := gets (fun s => icache s !!! ip) in
          if i_nlink i <? 1 then panic "unlink: nlink < 1"
          else
            let* empty := (if i_type i =? T_DIR then isdirempty ip else ret true) in
            if negb empty then iunlockput ip ;; unlink_bad dp
            else
              let* r := writei dp (SBytes (replicate (Z.to_nat DIRENT_SIZE) 0)) off DIRENT_SIZE in
              if negb (r =? DIRENT_SIZE) then panic "unlink: writei"
              else
                let* t := getinode ip i_type in
                when (t =? T_DIR)
                  (modify (upd_inode dp (fun i => set_i_nlink (i16 (i_nlink i - 1)) i)) ;;
                   iupdate dp) ;;
                iunlockput dp ;;
                modify (upd_inode ip (fun i => set_i_nlink (i16 (i_nlink i - 1)) i)) ;;
                iupdate ip ;;
                iunlockput ip ;;
                end_op ;;
                ret 0
        end
    end).

Definition create (path : list Z) (type major minor : Z) : M (option nat) :=
  let* o := nameiparent path (replicate DIRSIZ 0) in
  match o with
  | None => ret None
  | Some (dp, name) =>
    ilock dp ;;
    let* o := dirlookup dp name in
    match o with
    | Some (ip, _) =>
      iunlockput dp ;;
      ilock ip ;;
      let* t := getinode ip i_type in
      if (type =? T_FILE) && (t =? T_FILE) then ret (Some ip)
      else iunlockput ip ;; ret None
    | None =>
      let* dev := getinode dp i_dev in
      let* ip := ialloc dev type in
      ilock ip ;;
      modify (upd_inode ip (fun i => set_i_nlink 1 (set_i_minor (i16 minor) (set_i_major (i16 major) i)))) ;;
      iupdate ip ;;
      let* inum := getinode ip i_inum in
      when (type =? T_DIR)
        (modify (upd_inode dp (fun i => set_i_nlink (i16 (i_nlink i + 1)) i)) ;;
         iupdate dp ;;
         let* dinum := getinode dp i_inum in
         let* r := dirlink ip (chars ".") inum in
         if r <? 0 then panic "create dots"
         else
           let* r := dirlink ip (chars "..") dinum in
           if r <? 0 then panic "create dots" else ret tt) ;;
      let* r := dirlink dp name inum in
      if r <? 0 then panic "create: dirlink"
      else
        iunlockput dp ;;
        ret (Some ip)
    end
  end.

(** The inode [sys_open] opens, locked. *)
Definition open_inode (path : list Z) (omode : Z) : M (option nat) :=
  if negb (Z.land omode O_CREATE =? 0) then create path T_FILE 0 0
  else
    let* o := namei path in
    match o with
    | None => ret None
    | Some ip =>
      ilock ip ;;
      let* t := getinode ip i_type in
      if (t =? T_DIR) && negb (omode =? O_RDONLY) then iunlockput ip ;; ret None
      else ret (Some ip)
    end.

Definition sys_open : M Z :=
  or_fail (argstr 0) (fun path =>
  or_fail (argint 1) (fun omode =>
    begin_op ;;
    let* o := open_inode path omode in
    match o with
    | None => end_op ;; ret (-1)
    | Some ip =>
      let* fo := filealloc in
      let* ofd := (match fo with Some f => fdalloc f | None => ret None end) in
      match fo, ofd with
      | Some f, Some fd =>
        iunlock ip ;;
        end_op ;;
        let wr := negb (Z.land omode O_WRONLY =? 0) in
        modify (upd_file f (fun x =>
          set_f_writable (wr || negb (Z.land omode O_RDWR =? 0)) (set_f_readable (negb wr)
            (set_f_off 0 (set_f_ip (Some ip) (set_f_type FD_INODE x)))))) ;;
        ret (Z.of_nat fd)
      | _, _ =>
        match fo with Some f => fileclose f | None => ret tt end ;;
        iunlockput ip ;;
        end_op ;;
        ret (-1)
      end
    end)).

(** The end of [sys_mkdir] and [sys_mknod]. *)
Definition created (o : option nat) : M Z :=
  match o with
  | None => end_op ;; ret (-1)
  | Some ip => iunlockput ip ;; end_op ;; ret 0
  end.

Definition sys_mkdir : M Z :=
  begin_op ;;
  let* o := argstr 0 in
  match o with
  | None => created None
  | Some path => let* ip := create path T_DIR 0 0 in created ip
  end.

Definition sys_mknod : M Z :=
  begin_op ;;
  let* o := argstr 0 in
  match o with
  | None => created None
  | Some path =>
    let* o := argint 1 in
    match o with
    | None => created None
    | Some major =>
      let* o := argint 2 in
      match o with
      | None => created None
      | Some minor => let* ip := create path T_DEV (i16 major) (i16 minor) in created ip
      end
    end
  end.

Definition sys_chdir : M Z :=
  begin_op ;;
  let* o := argstr 0 in
  let* o := (match o with Some path => namei path | None => ret None end) in
  match o with
  | None => end_op ;; ret (-1)
  | Some ip =>
    ilock ip ;;
    let* t := getinode ip i_type in
    if negb (t =? T_DIR) then iunlockput ip ;; end_op ;; ret (-1)
    else
      iunlock ip ;;
      let* c := curproc in
      let* cwd := getproc c p_cwd in
      let* old := the_inode cwd in
      iput old ;;
      end_op ;;
      modify (upd_proc c (set_p_cwd (Some ip))) ;;
      ret 0
  end.

(** [for(i=0;; i++)] in [sys_exec], [n] entries of [argv] left. *)
Fixpoint exec_argv (n : nat) (uargv i : Z) (acc : list (list Z)) : M (option (list (list Z))) :=
  match n with
  | O => ret None
  | S n =>
    let* o := fetchint (u32 (uargv + 4 * i)) in
    match o with
    | None => ret None
    | Some uarg =>
      if uarg =? 0 then ret (Some acc)
      else
        let* o := fetchstr (u32 uarg) in
        match o with
        | None => ret None
        | Some s => exec_argv n uargv (i + 1) (acc ++ [s])
        end
    end
  end.

Definition sys_exec : M Z :=
  or_fail (argstr 0) (fun path =>
  or_fail (argint 1) (fun uargv =>
  or_fail (exec_argv MAXARG (u32 uargv) 0 []) (fun argv => exec path argv))).

Definition sys_pipe : M Z :=
  or_fail (argptr 0 8) (fun fd =>
  or_fail pipealloc (fun '(rf, wf) =>
    let* o0 := fdalloc rf in
    let* o1 := (match o0 with Some _ => fdalloc wf | None => ret None end) in
    match o0, o1 with
    | Some fd0, Some fd1 =>
      uwrite fd (bytes32 (Z.of_nat fd0)) ;;
      uwrite (fd + 4) (bytes32 (Z.of_nat fd1)) ;;
      ret 0
    | _, _ =>
      match o0 with
      | Some fd0 =>
        let* c := curproc in
        modify (upd_proc c (fun p => set_p_ofile (<[fd0 := None]> (p_ofile p)) p))
      | None => ret tt
      end ;;
      fileclose rf ;;
      fileclose wf ;;
      ret (-1)
    end)).

End Sysfile.

(** ** Dispatch *)

Section Dispatch.
Context `{KI : KernelImage} `{KT : KernelText}.

(** [syscalls[num]] (syscall.h) *)
Definition syscalls (num : Z) : option (M Z) :=
  match num with
  | 1 => Some sys_fork
  | 2 => Some sys_exit
  | 3 => Some sys_wait
  | 4 => Some sys_pipe
  | 5 => Some sys_read
  | 6 => Some sys_kill
  | 7 => Some sys_exec
  | 8 => Some sys_fstat
  | 9 => Some sys_chdir
  | 10 => Some sys_dup
  | 11 => Some sys_getpid
  | 12 => Some sys_sbrk
  | 13 => Some sys_sleep
  | 14 => Some sys_uptime
  | 15 => Some sys_open
  | 16 => Some sys_write
  | 17 => Some sys_mknod
  | 18 => Some sys_unlink
  | 19 => Some sys_link
  | 20 => Some sys_mkdir
  | 21 => Some sys_close
  | 22 => Some sys_clone
  | 23 => Some sys_join
  | _ => None
  end.

Definition syscall : M unit :=
  let* c := curproc in
  let* num := getproc c (fun p => i32 (tf_eax (p_tf p))) in
  let* r :=
    (match syscalls num with
     | Some sys => sys
     | None =>
       let* p := getproc c (fun p => p) in
       cprintf ("%d %s: unknown sys call %d" ++ NL) [PInt (p_pid p); PStr (cstr (p_name p)); PInt num] ;;
       ret (-1)
     end) in
  modify (upd_proc c (fun p => set_p_tf (set_tf_eax (u32 r) (p_tf p)) p)).

End Dispatch.
