(* ===== verification/Trap.v ===== *)
(** * Traps and interrupts (trap.c) *)

From S2P Require Import Prelude State Mem Spinlock Sched SchedFacts Ide Bio Log Inode Kalloc Vm Kbd Console Fs Pipe File Proc Exec Syscall.

(** ** traps.h *)

Definition T_SYSCALL : Z := 64.
Definition T_IRQ0 : Z := 32.
Definition IRQ_TIMER : Z := 0.
Definition IRQ_KBD : Z := 1.
Definition IRQ_COM1 : Z := 4.
Definition IRQ_IDE : Z := 14.
Definition IRQ_SPURIOUS : Z := 31.
Definition DPL_USER : Z := 3.

Definition tvinit : M unit := initlock LTicks.

(** What the devices have for the interrupt handlers: scan codes, characters
    from the serial port, the address of a page fault. *)
Record devices := MkDev {
  dev_codes : list Z;
  dev_received : list Z;
  dev_cr2 : Z }.

Section Trap.
Context `{KI : KernelImage} `{KT : KernelText}.

(** [if(proc->killed) exit();] *)
Definition exit_if_killed : M unit :=
  let* c := curproc in
  let* k := getproc c p_killed in
  when k exit_.

(** [if(proc && proc->killed && (tf->cs&3) == DPL_USER) exit();] *)
Definition exit_if_killed_user (tf : trapframe) : M unit :=
  let* o := gets (fun s => c_proc (cpu s)) in
  match o with
  | Some c =>
    let* k := getproc c p_killed in
    when (k && (Z.land (tf_cs tf) 3 =? DPL_USER)) exit_
  | None => ret tt
  end.

(** [case T_IRQ0 + IRQ_TIMER] *)
Definition clock_tick : M unit :=
  let* id := gets (fun s => c_id (cpu s)) in
  when (id =? 0)
    (acquire LTicks ;;
     modify (fun s => set_ticks (u32 (ticks s + 1)) s) ;;
     wakeup CTicks ;;
     release LTicks).

(** The default case: a fault. *)
Definition fault (tf : trapframe) (cr2 : Z) : M unit :=
  let* o := gets (fun s => c_proc (cpu s)) in
  let* id := gets (fun s => c_id (cpu s)) in
  match o with
  | Some c =>
    if Z.land (tf_cs tf) 3 =? 0 then
      cprintf ("unexpected trap %d from cpu %d eip %x (cr2=0x%x)" ++ NL)
        [PInt (tf_trapno tf); PInt id; PInt (tf_eip tf); PInt cr2] ;;
      panic "trap"
    else
      let* p := getproc c (fun p => p) in
      cprintf ("pid %d %s: trap %d err %d on cpu %d eip 0x%x addr 0x%x--kill proc" ++ NL)
        [PInt (p_pid p); PStr (cstr (p_name p)); PInt (tf_trapno tf); PInt (tf_err tf); PInt id; PInt (tf_eip tf); PInt cr2] ;;
      modify (upd_proc c (set_p_killed true))
  | None =>
    cprintf ("unexpected trap %d from cpu %d eip %x (cr2=0x%x)" ++ NL)
      [PInt (tf_trapno tf); PInt id; PInt (tf_eip tf); PInt cr2] ;;
    panic "trap"
  end.

(** [switch(tf->trapno)] *)
Definition handle (tf : trapframe) (d : devices) : M unit :=
  let no := tf_trapno tf in
  if no =? T_IRQ0 + IRQ_TIMER then clock_tick
  else if no =? T_IRQ0 + IRQ_IDE then ideintr
  else if no =? T_IRQ0 + IRQ_IDE + 1 then ret tt
  else if no =? T_IRQ0 + IRQ_KBD then kbdintr (dev_codes d)
  else if no =? T_IRQ0 + IRQ_COM1 then uartintr (dev_received d)
  else if (no =? T_IRQ0 + 7) || (no =? T_IRQ0 + IRQ_SPURIOUS) then
    let* id := gets (fun s => c_id (cpu s)) in
    cprintf ("cpu%d: spurious interrupt at %x:%x" ++ NL) [PInt id; PInt (tf_cs tf); PInt (tf_eip tf)]
  else fault tf (dev_cr2 d).

(** The end of [trap]: [yield] gives up the processor; the process goes on with
    [trap_resume]. *)
Definition trap_yield (tf : trapframe) : M unit :=
  let* o := gets (fun s => c_proc (cpu s)) in
  match o with
  | Some c =>
    let* st := getproc c p_state in
    when (bool_decide (st = RUNNING) && (tf_trapno tf =? T_IRQ0 + IRQ_TIMER)) yield
  | None => ret tt
  end.

Definition trap (tf : trapframe) (d : devices) : M unit :=
  if tf_trapno tf =? T_SYSCALL then
    exit_if_killed ;;
    let* c := curproc in
    modify (upd_proc c (set_p_tf tf)) ;;
    syscall ;;
    exit_if_killed
  else
    handle tf d ;;
    exit_if_killed_user tf ;;
    trap_yield tf ;;
    exit_if_killed_user tf.

Definition trap_resume (tf : trapframe) : M unit :=
  yield_return ;;
  exit_if_killed_user tf.

End Trap.
