(* ===== verification/VmFacts.v ===== *)
(** * What the page table code does (vm.c)

    The abstract view of a page directory: [entry m pg k] is the present page
    table entry of page number [k].  [tabs] and [frames] list the page table
    pages and the user pages a directory owns.  The lemmas show each function
    of vm.c as an operation on this view, with the pages it takes from and
    gives back to the allocator. *)

From S2P Require Import Prelude State Mem Spinlock Sched Kalloc Vm.

(** ** Address arithmetic *)

Lemma PDX_eq k : 0 <= k < 2^20 -> PDX (PGSIZE * k) = k / 1024.
Proof.
  intros Hk. unfold PDX, PGSIZE. change 0x3FF with (2^10 - 1).
  rewrite land_ones_mod, Z.shiftr_div_pow2 by lia.
  change (2^22) with 4194304. change (2^10) with 1024. zdm.
Qed.

Lemma PTX_eq k : 0 <= k < 2^20 -> PTX (PGSIZE * k) = k mod 1024.
Proof.
  intros Hk. unfold PTX, PGSIZE. change 0x3FF with (2^10 - 1).
  rewrite land_ones_mod, Z.shiftr_div_pow2 by lia.
  change (2^12) with 4096. change (2^10) with 1024. zdm.
Qed.

Lemma PGROUNDDOWN_eq x : 0 <= x < 2^32 -> PGROUNDDOWN x = PGSIZE * (x / PGSIZE).
Proof.
  intros Hx. unfold PGROUNDDOWN, PGSIZE. change 0xFFFFF000 with (2^32 - 2^12).
  rewrite land_mask_down by lia. change (2^12) with 4096. zdm.
Qed.

Lemma PGROUNDUP_mul x :
  0 <= x <= 2^32 - PGSIZE -> PGROUNDUP x = PGSIZE * ((x + PGSIZE - 1) / PGSIZE).
Proof. intros. rewrite PGROUNDUP_eq by done. lia. Qed.

(** ** Page table entries *)

(** An entry made of a frame and flags. *)
Lemma PTE_ADDR_mk pa fl :
  0 <= pa < 2^32 -> pa mod PGSIZE = 0 -> 0 <= fl < PGSIZE -> PTE_ADDR (pa + fl) = pa.
Proof.
  unfold PTE_ADDR, PGSIZE. intros. change 0xFFFFF000 with (2^32 - 2^12).
  rewrite land_mask_down by (change (2^12) with 4096; zdm). change (2^12) with 4096. zdm.
Qed.

Lemma PTE_FLAGS_mk pa fl :
  pa mod PGSIZE = 0 -> 0 <= fl < PGSIZE -> PTE_FLAGS (pa + fl) = fl.
Proof.
  unfold PTE_FLAGS, PGSIZE. intros. change 0xFFF with (2^12 - 1).
  rewrite land_ones_mod by lia. change (2^12) with 4096. zdm.
Qed.

Lemma PTE_ADDR_range e : 0 <= e < 2^32 -> 0 <= PTE_ADDR e < 2^32 /\ PTE_ADDR e mod PGSIZE = 0.
Proof.
  unfold PTE_ADDR, PGSIZE. intros. change 0xFFFFF000 with (2^32 - 2^12).
  rewrite land_mask_down by lia. change (2^12) with 4096. zdm.
Qed.

Lemma PTE_FLAGS_range e : 0 <= PTE_FLAGS e < PGSIZE.
Proof.
  unfold PTE_FLAGS, PGSIZE. change 0xFFF with (2^12 - 1). rewrite land_ones_mod by lia.
  change (2^12) with 4096. apply Z.mod_pos_bound. lia.
Qed.

Lemma PTE_split e : 0 <= e < 2^32 -> e = PTE_ADDR e + PTE_FLAGS e.
Proof.
  unfold PTE_ADDR, PTE_FLAGS. intros. change 0xFFFFF000 with (2^32 - 2^12).
  change 0xFFF with (2^12 - 1). rewrite land_mask_down, land_ones_mod by lia. lia.
Qed.

(** A flag test only sees the flags. *)
Lemma has_flag pa fl f :
  pa mod PGSIZE = 0 -> 0 <= fl < PGSIZE -> 0 <= f < PGSIZE -> has (pa + fl) f = has fl f.
Proof.
  intros Hpa Hfl Hf. unfold has. do 2 f_equal.
  change PGSIZE with (2^12) in *.
  rewrite <- (lor_disjoint_add 12) by (done || lia).
  rewrite Z.land_lor_distr_l. replace (Z.land pa f) with 0; [done|].
  symmetry. apply Z.bits_inj'. intros n Hn. rewrite Z.land_spec, Z.bits_0.
  destruct (Z.ltb_spec n 12).
  - rewrite <- (Z.mod_pow2_bits_low pa 12 n), Hpa by lia. by rewrite Z.bits_0.
  - destruct (Z.eq_dec f 0) as [->|]; [by rewrite Z.bits_0, andb_false_r|].
    rewrite (Z.bits_above_log2 f n), andb_false_r; [done|lia|].
    apply Z.lt_le_trans with 12; [apply Z.log2_lt_pow2; lia|lia].
Qed.

Lemma lor_range k a b : 0 <= k -> 0 <= a < 2^k -> 0 <= b < 2^k -> 0 <= Z.lor a b < 2^k.
Proof.
  intros Hk Ha Hb. assert (0 <= Z.lor a b) by (apply Z.lor_nonneg; lia). split; [done|].
  assert (Z.lor a b / 2^k = 0) as E.
  { rewrite <- Z.shiftr_div_pow2, Z.shiftr_lor, !Z.shiftr_div_pow2, !Z.div_small by lia. done. }
  apply Z.div_small_iff in E; [lia|]. apply Z.pow_nonzero; lia.
Qed.

(** The entry [pa | perm | PTE_P]. *)
Lemma mk_pte pa perm :
  pa mod PGSIZE = 0 -> 0 <= perm < PGSIZE ->
  Z.lor (Z.lor pa perm) PTE_P = pa + Z.lor perm PTE_P /\ 0 <= Z.lor perm PTE_P < PGSIZE.
Proof.
  intros Hpa Hperm. assert (0 <= Z.lor perm PTE_P < PGSIZE) as Hr.
  { apply (lor_range 12); unfold PGSIZE, PTE_P in *; lia. }
  split; [|done]. rewrite <- Z.lor_assoc. by apply (lor_disjoint_add 12).
Qed.

Lemma has_P_lor fl : has (Z.lor fl PTE_P) PTE_P = true.
Proof.
  unfold has, PTE_P. rewrite Z.land_lor_distr_l. change (Z.land 1 1) with 1.
  destruct (Z.eqb_spec (Z.lor (Z.land fl 1) 1) 0) as [E|]; [|done].
  apply Z.lor_eq_0_iff in E. lia.
Qed.

Lemma p2v_v2p v : 0 <= v < 2^32 -> p2v (v2p v) = v.
Proof.
  intros. unfold p2v, v2p, u32. rewrite Zplus_mod_idemp_l.
  replace (v - KERNBASE + KERNBASE) with v by lia. by apply Z.mod_small.
Qed.

Lemma v2p_aligned v : v mod PGSIZE = 0 -> v2p v mod PGSIZE = 0.
Proof. intros. unfold v2p, u32, PGSIZE, KERNBASE in *. change (2^32) with (4096 * 1048576). zdm. Qed.

Lemma v2p_range v : 0 <= v2p v < 2^32.
Proof. apply u32_range. Qed.

Section VmFacts.
Context {KI : KernelImage}.

(** ** The abstract view *)

(** The page table page of directory slot [i]. *)
Definition tab (m : Z -> Z) (pg i : Z) : option Z :=
  let e := ld32 m (pg + 4 * i) in
  if has e PTE_P then Some (p2v (PTE_ADDR e)) else None.

(** The present entry of page number [k]. *)
Definition entry (m : Z -> Z) (pg k : Z) : option Z :=
  match tab m pg (k / 1024) with
  | None => None
  | Some t => let e := ld32 m (t + 4 * (k mod 1024)) in
              if has e PTE_P then Some e else None
  end.

(** The page a present entry maps. *)
Definition frame (m : Z -> Z) (pg k : Z) : option Z :=
  (fun e => p2v (PTE_ADDR e)) <$> entry m pg k.

(** The number of user pages: [KERNBASE / PGSIZE]. *)
Definition NUP : nat := Z.to_nat (KERNBASE / PGSIZE).

Lemma NUP_Z : Z.of_nat NUP = KERNBASE / PGSIZE.
Proof. unfold NUP. apply Z2Nat.id. done. Qed.

Lemma NPDENTRIES_Z : Z.of_nat NPDENTRIES = 1024.
Proof. done. Qed.

#[local] Opaque NUP NPDENTRIES.

Definition tabs (m : Z -> Z) (pg : Z) : list Z :=
  omap (fun i => tab m pg (Z.of_nat i)) (seq 0 NPDENTRIES).

Definition frames (m : Z -> Z) (pg : Z) : list Z :=
  omap (fun k => frame m pg (Z.of_nat k)) (seq 0 NUP).

(** All pages a page directory owns, itself included. *)
Definition owned (m : Z -> Z) (pg : Z) : list Z := pg :: tabs m pg ++ frames m pg.

(** Memory with free pages [l], and pages [fr] in use, all different. *)
Definition base_ok (l fr : list Z) (s : kst) : Prop :=
  free_pages l s /\ kmem_ready s /\ (forall x, is_byte (mem s x)) /\
  NoDup (l ++ fr) /\ Forall page_ok (l ++ fr).

(** The same with a page directory [pg] that uses its own pages, and pages
    [fr] in use elsewhere. *)
Definition vm_ok (l fr : list Z) (pg : Z) (s : kst) : Prop :=
  base_ok l (owned (mem s) pg ++ fr) s.

(** The part of [vm_ok] about the directory and its tables. *)
Definition dir_ok (m : Z -> Z) (pg : Z) : Prop :=
  NoDup (pg :: tabs m pg) /\ Forall page_ok (pg :: tabs m pg).

Lemma vm_dir_ok l fr pg s : vm_ok l fr pg s -> dir_ok (mem s) pg.
Proof.
  intros (_ & _ & _ & Hn & Hp). unfold owned in *. split.
  - apply NoDup_app in Hn as (_ & _ & Hn). apply NoDup_app in Hn as (Hn & _).
    rewrite app_comm_cons in Hn. by apply NoDup_app in Hn as (Hn & _).
  - apply Forall_app in Hp as [_ Hp]. apply Forall_app in Hp as [Hp _].
    rewrite app_comm_cons in Hp. by apply Forall_app in Hp as [Hp _].
Qed.

(** ** Which memory the view depends on *)

(** The two memories agree on the page at [v]. *)
Definition agree (m m' : Z -> Z) (v : Z) : Prop :=
  forall x, v <= x < v + PGSIZE -> m' x = m x.

Lemma agree_ld32 m m' v o : agree m m' v -> 0 <= o -> o + 4 <= PGSIZE -> ld32 m' (v + o) = ld32 m (v + o).
Proof. intros Ha H1 H2. unfold ld32. f_equal. apply mread_ext. intros x Hx. apply Ha. lia. Qed.

Lemma tab_ext m m' pg i : agree m m' pg -> 0 <= i < 1024 -> tab m' pg i = tab m pg i.
Proof. intros Ha Hi. unfold tab. rewrite (agree_ld32 m m') by (done || unfold PGSIZE; lia). done. Qed.

Lemma elem_of_tabs m pg t :
  t ∈ tabs m pg <-> exists i, 0 <= i < 1024 /\ tab m pg i = Some t.
Proof.
  unfold tabs. rewrite elem_of_omap. split.
  - intros (i & Hi%elem_of_seq & E). exists (Z.of_nat i). pose proof NPDENTRIES_Z. split; [lia|done].
  - intros (i & Hi & E). exists (Z.to_nat i). rewrite Z2Nat.id by lia. split; [|done].
    apply elem_of_seq. pose proof NPDENTRIES_Z. lia.
Qed.

Lemma elem_of_frames m pg f :
  f ∈ frames m pg <-> exists k, 0 <= k < KERNBASE / PGSIZE /\ frame m pg k = Some f.
Proof.
  unfold frames. rewrite elem_of_omap. split.
  - intros (i & Hi%elem_of_seq & E). exists (Z.of_nat i). pose proof NUP_Z. split; [lia|done].
  - intros (i & Hi & E). exists (Z.to_nat i). rewrite Z2Nat.id by lia. split; [|done].
    apply elem_of_seq. pose proof NUP_Z. lia.
Qed.

Lemma length_frames m pg n :
  (n <= NUP)%nat -> (forall k, Z.of_nat n <= k < KERNBASE / PGSIZE -> entry m pg k = None) ->
  (length (frames m pg) <= n)%nat.
Proof.
  intros Hn Hnone. unfold frames. replace NUP with (n + (NUP - n))%nat by lia.
  rewrite seq_app, omap_app, length_app. rewrite (omap_ext _ (fun _ => None) (seq (0 + n) _)).
  - assert (forall (f : nat -> option Z) l, (length (omap f l) <= length l)%nat) as Ho.
    { intros f l. induction l as [|x l IH]; cbn; [done|]. destruct (f x); cbn; lia. }
    pose proof (Ho (fun k => frame m pg (Z.of_nat k)) (seq 0 n)) as K. rewrite length_seq in K.
    replace (omap (fun _ => None) (seq (0 + n) (NUP - n))) with (@nil Z); [cbn [length]; lia|].
    clear. generalize (seq (0 + n) (NUP - n)). intros l. by induction l.
  - intros k Hk%elem_of_seq. unfold frame. rewrite Hnone; [done|]. pose proof NUP_Z. lia.
Qed.

Lemma entry_ext m m' pg k :
  agree m m' pg -> (forall t, t ∈ tabs m pg -> agree m m' t) -> 0 <= k < 2^20 ->
  entry m' pg k = entry m pg k.
Proof.
  intros Ha Ht Hk. unfold entry. assert (0 <= k / 1024 < 1024) by zdm.
  rewrite (tab_ext m m') by done.
  destruct (tab m pg (k / 1024)) as [t|] eqn:E; [|done].
  rewrite (agree_ld32 m m' t); [done| |unfold PGSIZE; zdm..].
  apply Ht, elem_of_tabs. eauto.
Qed.

Lemma tabs_ext m m' pg : agree m m' pg -> tabs m' pg = tabs m pg.
Proof.
  intros Ha. apply omap_ext. intros i Hi%elem_of_seq. apply tab_ext; [done|].
  pose proof NPDENTRIES_Z. lia.
Qed.

Lemma frames_ext m m' pg :
  agree m m' pg -> (forall t, t ∈ tabs m pg -> agree m m' t) -> frames m' pg = frames m pg.
Proof.
  intros Ha Ht. apply omap_ext. intros i Hi%elem_of_seq. unfold frame.
  rewrite (entry_ext m m'); [done..|]. pose proof NUP_Z as E.
  change (KERNBASE / PGSIZE) with 524288 in E. lia.
Qed.

Lemma owned_ext m m' pg :
  agree m m' pg -> (forall t, t ∈ tabs m pg -> agree m m' t) -> owned m' pg = owned m pg.
Proof. intros Ha Ht. unfold owned. by rewrite (tabs_ext m m'), (frames_ext m m'). Qed.

(** ** Reading the tables *)

Lemma pte_addr_tab m pg k :
  0 <= k < 2^20 ->
  pte_addr m pg (PGSIZE * k) = (fun t => t + 4 * (k mod 1024)) <$> tab m pg (k / 1024).
Proof.
  intros Hk. unfold pte_addr, tab. rewrite PDX_eq, PTX_eq by done. by destruct (has _ _).
Qed.

Lemma dir_tab m pg i t :
  dir_ok m pg -> 0 <= i < 1024 -> tab m pg i = Some t -> page_ok t /\ t <> pg.
Proof.
  intros [[Hni Hnd]%NoDup_cons [Hpg Hok]%Forall_cons] Hi E.
  assert (t ∈ tabs m pg) as Ht by (apply elem_of_tabs; eauto).
  split; [by eapply Forall_forall in Hok|]. by intros ->.
Qed.

Lemma dir_tab_inj m pg i j t :
  dir_ok m pg -> 0 <= i < 1024 -> 0 <= j < 1024 ->
  tab m pg i = Some t -> tab m pg j = Some t -> i = j.
Proof.
  intros [[_ Hnd]%NoDup_cons _] Hi Hj Ei Ej.
  assert (Z.to_nat i = Z.to_nat j); [|lia].
  pose proof NPDENTRIES_Z as E. unfold tabs in Hnd.
  eapply (omap_NoDup_inj _ _ _ _ t Hnd).
  - apply elem_of_seq. lia.
  - apply elem_of_seq. lia.
  - by rewrite Z2Nat.id by lia.
  - by rewrite Z2Nat.id by lia.
Qed.

(** [walkpgdir] without allocation only looks. *)
Lemma walkpgdir_look pg k s :
  0 <= k < 2^20 ->
  walkpgdir pg (PGSIZE * k) false s =
  Ok (match tab (mem s) pg (k / 1024) with Some t => t + 4 * (k mod 1024) | None => 0 end) s.
Proof.
  intros Hk. unfold walkpgdir, bind, gets, tab. rewrite PDX_eq, PTX_eq by done. by destruct (has _ _).
Qed.

(** ** Writing an entry of an existing table *)

Lemma agree_st32 m a v p : a + 4 <= p \/ p + PGSIZE <= a -> agree m (st32 m a v) p.
Proof. intros H x Hx. unfold st32. apply mwrite_out. cbn. unfold PGSIZE in *. lia. Qed.

Lemma page_cases p q : page_ok p -> page_ok q -> p <> q -> p + PGSIZE <= q \/ q + PGSIZE <= p.
Proof. intros [Hp _] [Hq _] Hne. by apply aligned_disjoint. Qed.

(** A store into the page at [t] leaves the other pages alone. *)
Lemma agree_store m t o v p :
  page_ok t -> page_ok p -> p <> t -> 0 <= o -> o + 4 <= PGSIZE -> agree m (st32 m (t + o) v) p.
Proof. intros Ht Hp Hne H1 H2. apply agree_st32. destruct (page_cases p t Hp Ht Hne); lia. Qed.

Lemma set_entry m pg k t e :
  dir_ok m pg -> 0 <= k < 2^20 -> tab m pg (k / 1024) = Some t -> is_u32 e ->
  let m' := st32 m (t + 4 * (k mod 1024)) e in
  agree m m' pg /\
  forall j, 0 <= j < 2^20 ->
    entry m' pg j = if j =? k then (if has e PTE_P then Some e else None) else entry m pg j.
Proof.
  intros Hd Hk Ht He m'. assert (0 <= k / 1024 < 1024) as Hi by zdm.
  destruct (dir_tab _ _ _ _ Hd Hi Ht) as [Hok Hne]. pose proof Hd as [_ [Hpg _]%Forall_cons].
  assert (agree m m' pg) as Ha by (apply agree_store; [done..|unfold PGSIZE; zdm|unfold PGSIZE; zdm]).
  split; [done|]. intros j Hj. unfold entry. assert (0 <= j / 1024 < 1024) as Hij by zdm.
  rewrite (tab_ext m m') by done.
  destruct (Z.eqb_spec j k) as [->|Hjk].
  { rewrite Ht. unfold m'. by rewrite ld32_st32_same. }
  destruct (tab m pg (j / 1024)) as [t'|] eqn:Et; [|done].
  destruct (decide (j / 1024 = k / 1024)) as [Eq|Nq].
  - rewrite Eq, Ht in Et. simplify_eq. unfold m'. rewrite ld32_st32_other; [done|]. zdm.
  - destruct (dir_tab _ _ _ _ Hd Hij Et) as [Hok' Hne'].
    assert (t' <> t) by (intros ->; apply Nq; by eapply dir_tab_inj).
    rewrite (agree_ld32 m m' t'); [done| |unfold PGSIZE; zdm..].
    by apply agree_store; [..|unfold PGSIZE; zdm|unfold PGSIZE; zdm].
Qed.

(** ** Adding a page table *)

Lemma agree_mfill m v c p : page_ok v -> page_ok p -> p <> v -> agree m (mfill m v c PGSIZE) p.
Proof.
  intros Hv Hp Hne x Hx. apply mfill_out. destruct (page_cases p v Hp Hv Hne); lia.
Qed.

Lemma agree_trans m1 m2 m3 p : agree m1 m2 p -> agree m2 m3 p -> agree m1 m3 p.
Proof. intros H1 H2 x Hx. by rewrite H2, H1. Qed.

Lemma agree_sym m1 m2 p : agree m1 m2 p -> agree m2 m1 p.
Proof. intros H x Hx. symmetry. by apply H. Qed.

(** The directory entry [walkpgdir] stores for a new table page. *)
Definition pde_of (v : Z) : Z := Z.lor (Z.lor (Z.lor (v2p v) PTE_P) PTE_W) PTE_U.

Lemma pde_of_eq v : v mod PGSIZE = 0 -> pde_of v = v2p v + 7.
Proof.
  intros Hv. unfold pde_of. rewrite <- !Z.lor_assoc. change (Z.lor PTE_P (Z.lor PTE_W PTE_U)) with 7.
  apply (lor_disjoint_add 12); [lia|by apply v2p_aligned|lia].
Qed.

Lemma pde_of_tab v :
  page_ok v -> is_u32 (pde_of v) /\ has (pde_of v) PTE_P = true /\ p2v (PTE_ADDR (pde_of v)) = v.
Proof.
  intros Hv. pose proof (page_ok_pos _ Hv). pose proof (page_ok_v2p _ Hv) as E.
  destruct Hv as [Ha Hb]. rewrite pde_of_eq by done.
  pose proof (v2p_aligned _ Ha). pose proof (v2p_range v). split_and!.
  - unfold is_u32. rewrite E in *. unfold KERNBASE, PHYSTOP in *. lia.
  - rewrite has_flag by (done || unfold PGSIZE, PTE_P; lia). done.
  - rewrite PTE_ADDR_mk by (done || unfold PGSIZE; lia). apply p2v_v2p. lia.
Qed.

Definition new_table (m : Z -> Z) (pg i v : Z) : Z -> Z :=
  st32 (mfill m v 0 PGSIZE) (pg + 4 * i) (pde_of v).

Section NewTable.
Context (m : Z -> Z) (pg i v : Z).
Hypothesis Hd : dir_ok m pg.
Hypothesis Hi : 0 <= i < 1024.
Hypothesis Hnone : tab m pg i = None.
Hypothesis Hv : page_ok v.
Hypothesis Hfresh : v ∉ pg :: tabs m pg.

Lemma new_table_agree p : page_ok p -> p <> v -> p <> pg -> agree m (new_table m pg i v) p.
Proof using All.
  intros Hp H1 H2. pose proof Hd as [_ [Hpg _]%Forall_cons].
  apply (agree_trans _ (mfill m v 0 PGSIZE)); [by apply agree_mfill|].
  apply agree_store; [done..|lia|unfold PGSIZE; lia].
Qed.

Lemma new_table_tab j :
  0 <= j < 1024 -> tab (new_table m pg i v) pg j = if j =? i then Some v else tab m pg j.
Proof using All.
  intros Hj. unfold tab, new_table. destruct (pde_of_tab v Hv) as (H1 & H2 & H3).
  destruct (Z.eqb_spec j i) as [->|Hne].
  - by rewrite ld32_st32_same, H2, H3.
  - rewrite ld32_st32_other by lia. pose proof Hd as [_ [Hpg _]%Forall_cons].
    rewrite (agree_ld32 m _ pg); [done| |lia|unfold PGSIZE; lia].
    apply agree_mfill; [done..|]. intros ->. apply Hfresh. by left.
Qed.

Lemma new_table_entry k :
  0 <= k < 2^20 -> entry (new_table m pg i v) pg k = entry m pg k.
Proof using All.
  intros Hk. unfold entry. assert (0 <= k / 1024 < 1024) as Hki by zdm.
  rewrite new_table_tab by done.
  pose proof Hd as [_ [Hpg Hts]%Forall_cons].
  assert (v <> pg) by (intros ->; apply Hfresh; by left).
  destruct (Z.eqb_spec (k / 1024) i) as [->|Hne].
  - rewrite Hnone. unfold new_table. rewrite ld32_st32_other.
    + rewrite ld32_mfill_0; [done| |unfold PGSIZE]; zdm.
    + destruct (page_cases v pg Hv Hpg) as [?|?]; [done|..]; unfold PGSIZE in *; zdm.
  - destruct (tab m pg (k / 1024)) as [t|] eqn:Et; [|done].
    destruct (dir_tab _ _ _ _ Hd Hki Et) as [Hok Hnpg].
    rewrite (agree_ld32 m _ t); [done| |unfold PGSIZE; zdm..].
    apply new_table_agree; [done| |done].
    intros ->. apply Hfresh. right. apply elem_of_tabs. eauto.
Qed.

Lemma new_table_tabs : tabs (new_table m pg i v) pg ≡ₚ v :: tabs m pg.
Proof using All.
  unfold tabs. pose proof NPDENTRIES_Z.
  apply (omap_add _ _ _ (Z.to_nat i)).
  - apply NoDup_seq.
  - apply elem_of_seq. lia.
  - by rewrite Z2Nat.id by lia.
  - rewrite Z2Nat.id, new_table_tab by lia. by rewrite Z.eqb_refl.
  - intros j Hj%elem_of_seq Hne. rewrite new_table_tab by lia.
    by destruct (Z.eqb_spec (Z.of_nat j) i); [lia|].
Qed.

Lemma new_table_frames : frames (new_table m pg i v) pg = frames m pg.
Proof using All.
  apply omap_ext. intros k Hk%elem_of_seq. unfold frame. rewrite new_table_entry; [done|].
  pose proof NUP_Z as E. change (KERNBASE / PGSIZE) with 524288 in E. lia.
Qed.

End NewTable.

(** ** Changing one entry: the pages a directory owns *)

Section SetEntry.
Context (m : Z -> Z) (pg k t e : Z).
Hypothesis Hd : dir_ok m pg.
Hypothesis Ht : tab m pg (k / 1024) = Some t.
Hypothesis He : is_u32 e.
Let m' := st32 m (t + 4 * (k mod 1024)) e.

Lemma set_entry_tabs : 0 <= k < 2^20 -> tabs m' pg = tabs m pg.
Proof using All. intros Hk. apply tabs_ext, (set_entry m pg k t e); done. Qed.

Lemma set_entry_kernel_frames :
  KERNBASE / PGSIZE <= k < 2^20 -> frames m' pg = frames m pg.
Proof using All.
  intros Hk. assert (0 <= k < 2^20) as Hk' by (unfold KERNBASE, PGSIZE in Hk; zdm).
  apply omap_ext. intros j Hj%elem_of_seq. pose proof NUP_Z as E. unfold frame.
  change (KERNBASE / PGSIZE) with 524288 in *.
  rewrite (proj2 (set_entry m pg k t e Hd Hk' Ht He)) by lia.
  destruct (Z.eqb_spec (Z.of_nat j) k); [lia|done].
Qed.

Lemma set_entry_add_frame :
  0 <= k < KERNBASE / PGSIZE -> entry m pg k = None -> has e PTE_P = true ->
  frames m' pg ≡ₚ p2v (PTE_ADDR e) :: frames m pg.
Proof using All.
  change (KERNBASE / PGSIZE) with 524288. intros Hk Hn Hp. assert (0 <= k < 2^20) as Hk' by lia.
  unfold frames. pose proof NUP_Z as E. change (KERNBASE / PGSIZE) with 524288 in E.
  pose proof (proj2 (set_entry m pg k t e Hd Hk' Ht He)) as Hs.
  apply (omap_add _ _ _ (Z.to_nat k)).
  - apply NoDup_seq.
  - apply elem_of_seq. lia.
  - unfold frame. by rewrite Z2Nat.id, Hn by lia.
  - unfold frame. rewrite Z2Nat.id, Hs, Z.eqb_refl, Hp by lia. done.
  - intros j Hj%elem_of_seq Hne. unfold frame. rewrite Hs by lia.
    by destruct (Z.eqb_spec (Z.of_nat j) k); [lia|].
Qed.

Lemma set_entry_del_frame f :
  0 <= k < KERNBASE / PGSIZE -> frame m pg k = Some f -> has e PTE_P = false ->
  f :: frames m' pg ≡ₚ frames m pg.
Proof using All.
  change (KERNBASE / PGSIZE) with 524288. intros Hk Hn Hp. assert (0 <= k < 2^20) as Hk' by lia.
  unfold frames. pose proof NUP_Z as E. change (KERNBASE / PGSIZE) with 524288 in E.
  pose proof (proj2 (set_entry m pg k t e Hd Hk' Ht He)) as Hs. symmetry.
  apply (omap_add _ _ _ (Z.to_nat k)).
  - apply NoDup_seq.
  - apply elem_of_seq. lia.
  - unfold frame. rewrite Z2Nat.id, Hs, Z.eqb_refl, Hp by lia. done.
  - by rewrite Z2Nat.id by lia.
  - intros j Hj%elem_of_seq Hne. unfold frame. rewrite Hs by lia.
    by destruct (Z.eqb_spec (Z.of_nat j) k); [lia|].
Qed.

End SetEntry.

#[local] Opaque tabs frames.
#[local] Arguments owned : simpl never.

(** ** The state around page table code *)

(** Only memory, the free list and the interrupt bookkeeping change. *)
Definition vmrel (s s' : kst) : Prop :=
  (cpu s' = cpu s \/ cpu s' = settle (cpu s)) /\
  s' = set_cpu (cpu s') (set_freelist (freelist s') (set_mem (mem s') s)).

Lemma vmrel_refl s : vmrel s s.
Proof. split; [by left|]. by destruct s. Qed.

Lemma vmrel_trans s1 s2 s3 : vmrel s1 s2 -> vmrel s2 s3 -> vmrel s1 s3.
Proof.
  intros [H1 E1] [H2 E2]. split.
  - destruct H1 as [-> | ->] in H2; destruct H2 as [-> | ->]; rewrite ?settle_settle; auto.
  - rewrite E2, E1. done.
Qed.

Lemma vmrel_mem m s : vmrel s (set_mem m s).
Proof. split; [by left|]. by destruct s. Qed.

(** Pages outside [ps] keep their contents. *)
Definition keeps (ps : list Z) (m m' : Z -> Z) : Prop :=
  forall p, page_ok p -> p ∉ ps -> agree m m' p.

Lemma keeps_trans ps ps' m1 m2 m3 :
  keeps ps m1 m2 -> keeps ps' m2 m3 -> (forall p, p ∈ ps' -> p ∈ ps) -> keeps ps m1 m3.
Proof. intros H1 H2 Hs p Hp Hn. eapply agree_trans; [by apply H1|]. apply H2; auto. Qed.

Lemma keeps_refl ps m : keeps ps m m.
Proof. intros p _ _ x _. done. Qed.

Lemma keeps_weaken ps ps' m m' :
  keeps ps m m' -> (forall p, p ∈ ps -> p ∈ ps') -> keeps ps' m m'.
Proof. intros H Hs p Hp Hn. apply H; auto. Qed.

(** The pages page table code may write: free ones, the directory and its
    tables. *)
Definition reserve (l : list Z) (m : Z -> Z) (pg : Z) : list Z := l ++ pg :: tabs m pg.

Lemma free_pages_agree l s m :
  free_pages l s -> (forall p, p ∈ l -> agree (mem s) m p) -> free_pages l (set_mem m s).
Proof.
  intros (Hc & Hn & Hp) Ha. split_and!; [|done|done]. cbn.
  eapply chain_ext; [|done]. intros p x Hin Hx. symmetry. by apply (Ha p).
Qed.

Lemma new_table_low m pg i v x : page_ok v -> dir_ok m pg -> 0 <= i < 1024 -> x < k_end -> new_table m pg i v x = m x.
Proof.
  intros [_ Hv] [_ [[_ Hp] _]%Forall_cons] Hi Hx. unfold new_table, st32. rewrite mwrite_out by lia. apply mfill_out. lia.
Qed.

(** Installing the new table page [v] in slot [i]. *)
Lemma vm_new_table l fr pg i v s :
  vm_ok (v :: l) fr pg s -> 0 <= i < 1024 -> tab (mem s) pg i = None ->
  let m' := new_table (mem s) pg i v in
  forall s1, free_pages l s1 -> kmem_ready s1 -> mem s1 = mem s ->
  vm_ok l fr pg (set_mem m' s1) /\ reserve l m' pg ≡ₚ reserve (v :: l) (mem s) pg /\
  frames m' pg = frames (mem s) pg /\ (forall j, 0 <= j < 1024 -> tab m' pg j = if j =? i then Some v else tab (mem s) pg j) /\
  (forall j, 0 <= j < 2^20 -> entry m' pg j = entry (mem s) pg j) /\
  keeps (reserve (v :: l) (mem s) pg) (mem s) m'.
Proof.
  intros Hvm Hi Et m' s1 Hf1 Hr1 Em. pose proof (vm_dir_ok _ _ _ _ Hvm) as Hd.
  destruct Hvm as (_ & _ & Hb & Hn & Hp). cbn [app] in Hn, Hp.
  pose proof Hp as [Hv _]%Forall_cons. pose proof Hn as [Hni Hn']%NoDup_cons.
  assert (v ∉ pg :: tabs (mem s) pg) as Hfresh.
  { intros Hin. apply Hni. unfold owned. rewrite !app_comm_cons, !elem_of_app. tauto. }
  pose proof (new_table_tabs _ _ _ _ Hd Hi Et Hv Hfresh : tabs m' pg ≡ₚ _) as Htabs.
  pose proof (new_table_frames _ _ _ _ Hd Hi Et Hv Hfresh : frames m' pg = _) as Hfr.
  assert (keeps (reserve (v :: l) (mem s) pg) (mem s) m') as Hkeep.
  { intros p Hpo Hpn. unfold reserve in Hpn. rewrite elem_of_app, !elem_of_cons in Hpn.
    apply new_table_agree; tauto. }
  assert (v :: l ++ owned (mem s) pg ++ fr ≡ₚ l ++ owned m' pg ++ fr) as Hperm.
  { unfold owned. rewrite Hfr. clear -Htabs. perm_solve. }
  split_and!; try done.
  - split_and!; [|done| |by rewrite <- Hperm|by rewrite <- Hperm].
    + apply free_pages_agree; [done|]. intros p Hin. rewrite Em.
      assert (page_ok p) as Hpo.
      { eapply Forall_forall in Hp; [done|]. right. apply elem_of_app. by left. }
      apply new_table_agree; try done.
      * intros ->. apply Hni, elem_of_app. by left.
      * intros ->. apply NoDup_app in Hn' as (_ & Hdis & _). apply (Hdis pg Hin). by left.
    + cbn. apply mwrite_bytes; [by apply mfill_bytes|apply bytes32_bytes].
  - unfold reserve. clear -Htabs. perm_solve.
  - intros j Hj. by apply new_table_tab.
  - intros j Hj. by apply new_table_entry.
Qed.

(** The free list [l], possibly without its first page. *)
Definition takes1 (l l' : list Z) : Prop := l' = l \/ exists v, l = v :: l'.

(** Memory below the end of the kernel stays as it is. *)
Definition low_kept (m m' : Z -> Z) : Prop := forall x, x < k_end -> m' x = m x.

(** And no table of the user half of the directory appears or goes. *)
Definition utabs_kept (pg : Z) (m m' : Z -> Z) : Prop := (forall i, 0 <= i < 512 -> tab m' pg i = tab m pg i) /\ low_kept m m'.

Lemma utabs_kept_trans pg m1 m2 m3 : utabs_kept pg m1 m2 -> utabs_kept pg m2 m3 -> utabs_kept pg m1 m3.
Proof. intros [H1 L1] [H2 L2]. split; [intros i Hi; by rewrite H2, H1|intros x Hx; by rewrite L2, L1]. Qed.

(** [walkpgdir] that may allocate: it finds or makes the table, or fails for
    lack of a free page; the mapping does not change. *)
Definition walk_post (l fr : list Z) (pg k a : Z) (s s' : kst) : Prop :=
  vmrel s s' /\
  ((exists t l', tab (mem s') pg (k / 1024) = Some t /\ a = t + 4 * (k mod 1024) /\
      vm_ok l' fr pg s' /\ reserve l' (mem s') pg ≡ₚ reserve l (mem s) pg /\
      frames (mem s') pg = frames (mem s) pg /\
      (forall j, 0 <= j < 2^20 -> entry (mem s') pg j = entry (mem s) pg j) /\
      keeps (reserve l (mem s) pg) (mem s) (mem s') /\ takes1 l l' /\
      (forall i, 0 <= i < 1024 -> i <> k / 1024 -> tab (mem s') pg i = tab (mem s) pg i) /\ low_kept (mem s) (mem s')) \/
   (a = 0 /\ l = [] /\ vm_ok [] fr pg s' /\ mem s' = mem s)).

Lemma kalloc_vmrel_cpu s : kcpu s = cpu s \/ kcpu s = settle (cpu s).
Proof. unfold kcpu. destruct (use_lock s); auto. Qed.

Lemma walkpgdir_alloc l fr pg k s :
  vm_ok l fr pg s -> 0 <= k < 2^20 ->
  exists a s', walkpgdir pg (PGSIZE * k) true s = Ok a s' /\ walk_post l fr pg k a s s'.
Proof.
  intros Hvm Hk. assert (0 <= k / 1024 < 1024) as Hi by zdm.
  unfold walkpgdir. unfold bind at 1, gets at 1. rewrite PDX_eq, PTX_eq by done.
  destruct (tab (mem s) pg (k / 1024)) as [t|] eqn:Et; pose proof Et as Et'; unfold tab in Et;
    destruct (has _ _); simplify_eq.
  { eexists _, s. split; [done|]. split; [apply vmrel_refl|]. left.
    eexists _, l. split_and!; try done. by left. }
  cbn [negb]. pose proof Hvm as (Hf & Hr & Hb & Hn & Hp). destruct l as [|v l].
  - rewrite (bind_Ok _ _ _ _ _ (kalloc_nil _ Hr Hf)).
    eexists _, _. split; [done|]. split.
    + split; [apply kalloc_vmrel_cpu|by destruct s].
    + right. split_and!; try done. split_and!; try done. by eapply kmem_ready_kcpu.
  - destruct (kalloc_cons _ _ _ Hr Hf) as (s1 & Ek & Hf1 & Hr1 & Es1).
    rewrite (bind_Ok _ _ _ _ _ Ek). pose proof Hp as [Hv _]%Forall_cons.
    pose proof (page_ok_pos _ Hv). destruct (Z.eqb_spec v 0); [lia|].
    assert (mem s1 = mem s) as Em by (by rewrite Es1).
    destruct (vm_new_table l fr pg (k / 1024) v s Hvm Hi Et' s1 Hf1 Hr1 Em)
      as (H1 & H2 & H3 & H4 & H5 & H6).
    eexists _, _. split; [done|]. cbn. rewrite Em. split.
    + rewrite Es1. split; [apply kalloc_vmrel_cpu|done].
    + left. eexists v, l. split_and!; try done.
      * by rewrite H4, Z.eqb_refl.
      * right. by exists v.
      * intros j Hj Hne. rewrite H4 by done. by destruct (Z.eqb_spec j (k / 1024)).
      * intros x Hx. apply new_table_low; [apply Hv|eapply vm_dir_ok; exact Hvm|zdm|done].
Qed.

(** ** Mapping pages *)

Lemma reserve_tab l m pg i t :
  0 <= i < 1024 -> tab m pg i = Some t -> t ∈ reserve l m pg.
Proof.
  intros Hi Et. unfold reserve. apply elem_of_app. right. right. apply elem_of_tabs. eauto.
Qed.

(** Storing an entry in a table keeps the rest of memory and the free list. *)
Lemma store_entry l fr pg k t e s :
  vm_ok l fr pg s -> 0 <= k < 2^20 -> tab (mem s) pg (k / 1024) = Some t -> is_u32 e ->
  let m' := st32 (mem s) (t + 4 * (k mod 1024)) e in
  free_pages l (set_mem m' s) /\ (forall x, is_byte (m' x)) /\ tabs m' pg = tabs (mem s) pg /\
  keeps (reserve l (mem s) pg) (mem s) m'.
Proof.
  intros Hvm Hk Et He m'. pose proof (vm_dir_ok _ _ _ _ Hvm) as Hd.
  pose proof Hvm as (Hf & Hr & Hb & Hn & Hp).
  assert (0 <= k / 1024 < 1024) as Hi by zdm.
  destruct (dir_tab _ _ _ _ Hd Hi Et) as [Hok Hne].
  assert (forall p, page_ok p -> p <> t -> agree (mem s) m' p) as Ha.
  { intros p Hpo Hpt. apply agree_store; [done..|unfold PGSIZE; zdm|unfold PGSIZE; zdm]. }
  assert (t ∈ tabs (mem s) pg) as Htt by (apply elem_of_tabs; eauto).
  split_and!.
  - apply free_pages_agree; [done|]. intros p Hin. apply Ha.
    + eapply Forall_forall in Hp; [done|]. apply elem_of_app. by left.
    + intros ->. apply NoDup_app in Hn as (_ & Hdis & _). apply (Hdis t Hin).
      unfold owned. rewrite elem_of_app, elem_of_cons, elem_of_app. tauto.
  - apply mwrite_bytes; [done|apply bytes32_bytes].
  - by apply set_entry_tabs.
  - intros p Hpo Hpn. apply Ha; [done|]. intros ->. by apply Hpn, (reserve_tab _ _ _ (k / 1024)).
Qed.

(** One turn of the loop of [mappages] that finds its entry absent. *)
Definition mapped_to (l l' fr' : list Z) (pg k e : Z) (s s' : kst) : Prop :=
  vm_ok l' fr' pg s' /\ reserve l' (mem s') pg ≡ₚ reserve l (mem s) pg /\
  (forall j, 0 <= j < 2^20 ->
     entry (mem s') pg j = if j =? k then Some e else entry (mem s) pg j) /\
  keeps (reserve l (mem s) pg) (mem s) (mem s').

(** It takes a page for a table at most. *)
Definition mapped_post (l fr' : list Z) (pg k e : Z) (s s' : kst) : Prop :=
  exists l', mapped_to l l' fr' pg k e s s' /\ takes1 l l'.

Lemma pte_of_page pa perm :
  0 <= pa < 2^32 -> pa mod PGSIZE = 0 -> 0 <= perm < PGSIZE ->
  let e := Z.lor (Z.lor pa perm) PTE_P in
  is_u32 e /\ has e PTE_P = true /\ PTE_ADDR e = pa /\ PTE_FLAGS e = Z.lor perm PTE_P.
Proof.
  intros Hpa Ha Hperm e. destruct (mk_pte pa perm Ha Hperm) as [E Hr]. unfold e. rewrite E.
  split_and!.
  - unfold is_u32, PGSIZE in *. zdm.
  - rewrite has_flag by (done || unfold PGSIZE, PTE_P; lia). apply has_P_lor.
  - by apply PTE_ADDR_mk.
  - by apply PTE_FLAGS_mk.
Qed.

(** The user page [v], in use by the kernel so far, gets mapped at [k]. *)
Lemma store_user l fr v pg k t perm s :
  vm_ok l (v :: fr) pg s -> 0 <= k < KERNBASE / PGSIZE ->
  tab (mem s) pg (k / 1024) = Some t -> entry (mem s) pg k = None -> 0 <= perm < PGSIZE ->
  let e := Z.lor (Z.lor (v2p v) perm) PTE_P in
  let m' := st32 (mem s) (t + 4 * (k mod 1024)) e in
  mapped_to l l fr pg k e s (set_mem m' s) /\ frames m' pg ≡ₚ v :: frames (mem s) pg.
Proof.
  intros Hvm Hk Et Hnone Hperm e m'. pose proof (vm_dir_ok _ _ _ _ Hvm) as Hd.
  assert (0 <= k < 2^20) as Hk' by (change (KERNBASE / PGSIZE) with 524288 in Hk; lia).
  pose proof Hvm as (Hf & Hr & Hb & Hn & Hp).
  assert (page_ok v) as Hv.
  { eapply Forall_forall in Hp; [done|]. rewrite !elem_of_app, elem_of_cons. tauto. }
  pose proof (page_ok_pos _ Hv). destruct Hv as [Hva _].
  destruct (pte_of_page (v2p v) perm (v2p_range v) (v2p_aligned _ Hva) Hperm) as (He & HP & HA & _).
  destruct (store_entry _ _ _ _ _ e _ Hvm Hk' Et He) as (Hf' & Hb' & Htabs & Hkeep).
  fold m' in Htabs.
  pose proof (set_entry_add_frame _ _ _ _ e Hd Et He Hk Hnone HP) as Hfr.
  unfold e in Hfr at 2. rewrite HA, p2v_v2p in Hfr by lia. fold m' in Hfr.
  assert (l ++ owned m' pg ++ fr ≡ₚ l ++ owned (mem s) pg ++ v :: fr) as Hperm'.
  { unfold owned. rewrite Htabs. clear -Hfr. perm_solve. }
  split; [|done]. split_and!; [|by unfold reserve; cbn; rewrite Htabs| |done].
  - split_and!; try done; cbn; by rewrite Hperm'.
  - intros j Hj. cbn. unfold m'. rewrite (proj2 (set_entry _ _ _ _ _ Hd Hk' Et He)) by done. by rewrite HP.
Qed.

(** A kernel mapping does not own the page it maps. *)
Lemma store_kernel l fr pg k t pa perm s :
  vm_ok l fr pg s -> KERNBASE / PGSIZE <= k < 2^20 ->
  tab (mem s) pg (k / 1024) = Some t -> 0 <= pa < 2^32 -> pa mod PGSIZE = 0 ->
  0 <= perm < PGSIZE ->
  let e := Z.lor (Z.lor pa perm) PTE_P in
  let m' := st32 (mem s) (t + 4 * (k mod 1024)) e in
  mapped_to l l fr pg k e s (set_mem m' s) /\ frames m' pg = frames (mem s) pg.
Proof.
  intros Hvm Hk Et Hpa Ha Hperm e m'. pose proof (vm_dir_ok _ _ _ _ Hvm) as Hd.
  assert (0 <= k < 2^20) as Hk' by (change (KERNBASE / PGSIZE) with 524288 in Hk; lia).
  pose proof Hvm as (Hf & Hr & Hb & Hn & Hp).
  destruct (pte_of_page pa perm Hpa Ha Hperm) as (He & HP & HA & _).
  destruct (store_entry _ _ _ _ _ e _ Hvm Hk' Et He) as (Hf' & Hb' & Htabs & Hkeep).
  fold m' in Htabs.
  pose proof (set_entry_kernel_frames _ _ _ _ e Hd Et He Hk) as Hfr. fold m' in Hfr.
  assert (owned m' pg = owned (mem s) pg) as Hown by (unfold owned; by rewrite Htabs, Hfr).
  split; [|done]. split_and!; [|by unfold reserve; cbn; rewrite Htabs| |done].
  - split_and!; try done; cbn; by rewrite Hown.
  - intros j Hj. cbn. unfold m'. rewrite (proj2 (set_entry _ _ _ _ _ Hd Hk' Et He)) by done. by rewrite HP.
Qed.

(** [mappages] of the one user page [v]. *)
Lemma mappages_user l fr v pg k perm s :
  vm_ok l (v :: fr) pg s -> 0 <= k < KERNBASE / PGSIZE -> entry (mem s) pg k = None ->
  0 <= perm < PGSIZE ->
  exists r s', mappages pg (PGSIZE * k) PGSIZE (v2p v) perm s = Ok r s' /\ vmrel s s' /\
    ((r = 0 /\ mapped_post l fr pg k (Z.lor (Z.lor (v2p v) perm) PTE_P) s s' /\
      frames (mem s') pg ≡ₚ v :: frames (mem s) pg) \/
     (r = -1 /\ l = [] /\ vm_ok [] (v :: fr) pg s' /\ mem s' = mem s)).
Proof.
  intros Hvm Hk Hnone Hperm.
  assert (0 <= k < 2^20) as Hk' by (change (KERNBASE / PGSIZE) with 524288 in Hk; lia).
  unfold mappages. rewrite (u32_small (PGSIZE * k + PGSIZE - 1)) by (unfold PGSIZE; lia).
  rewrite !PGROUNDDOWN_eq by (unfold PGSIZE in *; lia).
  replace (PGSIZE * (PGSIZE * k / PGSIZE)) with (PGSIZE * k) by (unfold PGSIZE; zdm).
  replace (PGSIZE * ((PGSIZE * k + PGSIZE - 1) / PGSIZE)) with (PGSIZE * k) by (unfold PGSIZE; zdm).
  rewrite Z.sub_diag. change (Z.to_nat (u32 0 / PGSIZE)) with 0%nat. cbn [mappages_loop].
  destruct (walkpgdir_alloc _ _ _ _ _ Hvm Hk') as (a & s1 & Ew & Hrel & Hcase).
  rewrite (bind_Ok _ _ _ _ _ Ew).
  destruct Hcase as [(t & l1 & Et & -> & Hvm1 & Hres & Hfr & Hent & Hkeep & Hlen & _ & _)|(-> & -> & Hvm1 & Em)].
  - assert (0 <= k / 1024 < 1024) as Hi by zdm.
    destruct (dir_tab _ _ _ _ (vm_dir_ok _ _ _ _ Hvm1) Hi Et) as [Hok _].
    pose proof (page_ok_pos _ Hok). destruct (Z.eqb_spec (t + 4 * (k mod 1024)) 0); [zdm|].
    unfold bind at 1, gets at 1.
    assert (entry (mem s1) pg k = None) as Hn1 by (by rewrite Hent).
    pose proof Hn1 as Hn2. unfold entry in Hn2. rewrite Et in Hn2.
    destruct (has _ _); [done|]. cbn. rewrite Z.eqb_refl.
    destruct (store_user _ _ _ _ _ _ perm _ Hvm1 Hk Et Hn1 Hperm) as [(P1 & P2 & P3 & P4) Pf].
    eexists _, _. split; [done|]. split; [eapply vmrel_trans; [done|apply vmrel_mem]|].
    left. split; [done|]. split.
    + exists l1. split; [|done]. split_and!; [done|by rewrite P2| |].
      * intros j Hj. rewrite P3 by done. by rewrite Hent.
      * eapply keeps_trans; [done..|]. intros p. by rewrite Hres.
    + cbn. by rewrite Pf, Hfr.
  - eexists _, _. split; [done|]. split; [done|]. right. done.
Qed.

(** [n+1] kernel pages from page number [k], to physical pages from [q]. *)
Definition range_entry (k q n perm : Z) (m : Z -> Z) (pg j : Z) : option Z :=
  if (k <=? j) && (j <=? k + n)
  then Some (Z.lor (Z.lor (PGSIZE * (q + (j - k))) perm) PTE_P) else entry m pg j.

(** One turn of the loop, with the rest of it as [cont]. *)
Lemma mappages_turn_kernel l fr pg k q perm cont s :
  vm_ok l fr pg s -> KERNBASE / PGSIZE <= k < 2^20 -> 0 <= q < 2^20 -> 0 <= perm < PGSIZE ->
  entry (mem s) pg k = None ->
  let turn :=
    let* pte := walkpgdir pg (PGSIZE * k) true in
    if pte =? 0 then ret (-1)
    else
      let* e := gets (fun s => ld32 (mem s) pte) in
      if has e PTE_P then panic "remap"
      else
        modify (fun s => set_mem (st32 (mem s) pte (Z.lor (Z.lor (PGSIZE * q) perm) PTE_P)) s) ;;
        cont in
  exists s', vmrel s s' /\
    ((turn s = cont s' /\ mapped_post l fr pg k (Z.lor (Z.lor (PGSIZE * q) perm) PTE_P) s s' /\
      frames (mem s') pg = frames (mem s) pg /\ utabs_kept pg (mem s) (mem s')) \/
     (turn s = Ok (-1) s' /\ l = [] /\ vm_ok [] fr pg s' /\ mem s' = mem s)).
Proof.
  intros Hvm Hk Hq Hperm Hnone turn. pose proof Hk as Hk0.
  change (KERNBASE / PGSIZE) with 524288 in Hk.
  assert (0 <= k < 2^20) as Hk' by lia. assert (0 <= k / 1024 < 1024) as Hi by zdm.
  destruct (walkpgdir_alloc _ _ _ _ _ Hvm Hk') as (a & s1 & Ew & Hrel & Hcase).
  unfold turn. rewrite (bind_Ok _ _ _ _ _ Ew).
  destruct Hcase as [(t & l1 & Et & -> & Hvm1 & Hres & Hfr & Hent & Hkeep & Hlen & Htab & Hlow)|(-> & -> & Hvm1 & Em)].
  2:{ exists s1. split; [done|]. by right. }
  destruct (dir_tab _ _ _ _ (vm_dir_ok _ _ _ _ Hvm1) Hi Et) as [Hok _].
  pose proof (page_ok_pos _ Hok). destruct (Z.eqb_spec (t + 4 * (k mod 1024)) 0); [zdm|].
  unfold bind at 1, gets at 1.
  assert (entry (mem s1) pg k = None) as Hn1 by (by rewrite Hent).
  unfold entry in Hn1. rewrite Et in Hn1. destruct (has _ _); [done|].
  unfold bind at 1, modify at 1.
  assert (0 <= PGSIZE * q < 2^32) as Hq1 by (unfold PGSIZE; lia).
  assert ((PGSIZE * q) mod PGSIZE = 0) as Hq2 by (unfold PGSIZE; zdm).
  destruct (store_kernel _ _ _ _ _ _ perm _ Hvm1 Hk0 Et Hq1 Hq2 Hperm) as [(P1 & P2 & P3 & P4) Pf].
  eexists. split; [eapply vmrel_trans; [done|apply vmrel_mem]|]. left. split; [done|]. split.
  - exists l1. split; [|done]. split_and!; [done|by rewrite P2| |].
    + intros j Hj. rewrite P3 by done. by rewrite Hent.
    + eapply keeps_trans; [done..|]. intros p. by rewrite Hres.
  - split; [cbn; by rewrite Pf|]. split.
    + intros i Hi'. rewrite <- Htab by (lia || zdm).
      destruct (pte_of_page (PGSIZE * q) perm Hq1 Hq2 Hperm) as (He & _).
      apply tab_ext; [|lia]. by apply (set_entry _ _ k t _ (vm_dir_ok _ _ _ _ Hvm1)).
    + intros x Hx. rewrite <- Hlow by done. apply mwrite_out. left. destruct Hok as [_ Hok]. zdm.
Qed.

Lemma mappages_loop_kernel fr pg perm n : forall l k q s,
  vm_ok l fr pg s -> KERNBASE / PGSIZE <= k -> k + Z.of_nat n < 2^20 ->
  0 <= q -> q + Z.of_nat n < 2^20 -> 0 <= perm < PGSIZE ->
  (forall j, k <= j <= k + Z.of_nat n -> entry (mem s) pg j = None) ->
  exists r s' l',
    mappages_loop n pg (PGSIZE * k) (PGSIZE * (k + Z.of_nat n)) (PGSIZE * q) perm s = Ok r s' /\
    vmrel s s' /\ vm_ok l' fr pg s' /\ reserve l' (mem s') pg ≡ₚ reserve l (mem s) pg /\
    frames (mem s') pg = frames (mem s) pg /\ keeps (reserve l (mem s) pg) (mem s) (mem s') /\ utabs_kept pg (mem s) (mem s') /\
    ((r = 0 /\ forall j, 0 <= j < 2^20 ->
       entry (mem s') pg j = range_entry k q (Z.of_nat n) perm (mem s) pg j) \/
     (r = -1 /\ l' = [])).
Proof.
  induction n as [|n IH]; intros l k q s Hvm Hk1 Hk2 Hq1 Hq2 Hperm Hnone;
    (assert (KERNBASE / PGSIZE <= k < 2^20) as Hk by lia);
    (assert (0 <= q < 2^20) as Hq by lia);
    (assert (entry (mem s) pg k = None) as Hn by (apply Hnone; lia)); cbn [mappages_loop];
    match goal with |- context [modify _ ;; ?cont] =>
      destruct (mappages_turn_kernel l fr pg k q perm cont s Hvm Hk Hq Hperm Hn)
        as (s2 & Hrel & [(E & (l2 & (P1 & P2 & P3 & P4) & _) & Pf & Pu)|(E & -> & Hvm1 & Em)]) end;
    [|exists (-1), s2, []; split_and!; try done;
      [unfold reserve; by rewrite Em|by rewrite Em|rewrite Em; apply keeps_refl|rewrite Em; by split|by right]
     | |exists (-1), s2, []; split_and!; try done;
      [unfold reserve; by rewrite Em|by rewrite Em|rewrite Em; apply keeps_refl|rewrite Em; by split|by right]].
  - rewrite Z.add_0_r, Z.eqb_refl in *. exists 0, s2, l2. split_and!; try done.
    left. split; [done|]. intros j Hj. rewrite P3 by done. unfold range_entry.
    destruct (Z.eqb_spec j k) as [->|]; [|bool_cases; lia || done].
    rewrite Z.add_0_r, Z.leb_refl, Z.sub_diag, Z.add_0_r. done.
  - rewrite E. change (KERNBASE / PGSIZE) with 524288 in *.
    destruct (Z.eqb_spec (PGSIZE * k) (PGSIZE * (k + Z.of_nat (S n)))); [unfold PGSIZE in *; lia|].
    rewrite !u32_small by (unfold PGSIZE; lia).
    replace (PGSIZE * k + PGSIZE) with (PGSIZE * (k + 1)) by (unfold PGSIZE; lia).
    replace (PGSIZE * q + PGSIZE) with (PGSIZE * (q + 1)) by (unfold PGSIZE; lia).
    replace (k + Z.of_nat (S n)) with (k + 1 + Z.of_nat n) by lia.
    destruct (IH l2 (k + 1) (q + 1) s2) as (r & s' & l' & E' & R1 & R2 & R3 & R4 & R5 & Ru & R6);
      try (lia || done).
    { intros j Hj. rewrite P3 by lia. destruct (Z.eqb_spec j k); [lia|]. apply Hnone. lia. }
    exists r, s', l'. split_and!; try done.
    + by eapply vmrel_trans.
    + by rewrite R3, P2.
    + by rewrite R4.
    + eapply keeps_trans; [done..|]. intros p. by rewrite P2.
    + by eapply utabs_kept_trans.
    + destruct R6 as [[-> R6]|R6]; [left|by right]. split; [done|]. intros j Hj.
      rewrite R6 by done. unfold range_entry. rewrite P3 by done.
      destruct (Z.eqb_spec j k) as [->|].
      * rewrite Z.sub_diag, Z.add_0_r. bool_cases; lia || done.
      * replace (q + 1 + (j - (k + 1))) with (q + (j - k)) by lia. bool_cases; lia || done.
Qed.

End VmFacts.
#[global] Arguments NUP : simpl never.
