(* ===== verification/VmSpec.v ===== *)
(** * What the operations of vm.c do

    Specifications of the routines that build, grow, copy and free an address
    space, in terms of the view of VmFacts.v: which page each virtual page
    maps to, and which pages an address space owns. *)

From S2P Require Import Prelude State Mem Spinlock Kalloc Vm VmFacts.

#[local] Arguments owned : simpl never.
#[local] Opaque tabs frames NUP NPDENTRIES.

Section VmSpec.
Context {KI : KernelImage}.

(** ** The kernel part of an address space *)

(** The range of page numbers a line of [kmap] maps. *)
Definition kmap_range (e : Z * Z * Z * Z) (j : Z) : bool :=
  let '(virt, phys_start, phys_end, _) := e in
  (virt / PGSIZE <=? j) && (j <? virt / PGSIZE + u32 (phys_end - phys_start) / PGSIZE).

Fixpoint kmap_entry (l : list (Z * Z * Z * Z)) (j : Z) : option Z :=
  match l with
  | [] => None
  | (virt, phys_start, phys_end, perm) as e :: l =>
    if kmap_range e j
    then Some (Z.lor (Z.lor (phys_start + PGSIZE * (j - virt / PGSIZE)) perm) PTE_P)
    else kmap_entry l j
  end.

Definition kmap_line_ok (e : Z * Z * Z * Z) : Prop :=
  let '(virt, phys_start, phys_end, perm) := e in
  let n := u32 (phys_end - phys_start) in
  virt mod PGSIZE = 0 /\ phys_start mod PGSIZE = 0 /\ n mod PGSIZE = 0 /\ 0 < n /\
  KERNBASE <= virt /\ virt + n <= 2^32 /\ 0 <= phys_start /\ phys_start + n <= 2^32 /\
  0 <= perm < PGSIZE.

Fixpoint kmap_disjoint (l : list (Z * Z * Z * Z)) : Prop :=
  match l with
  | [] => True
  | e :: l => (forall j, kmap_range e j = true -> Forall (fun e' => kmap_range e' j = false) l) /\
              kmap_disjoint l
  end.

Lemma k_data_pages : exists d, k_data = PGSIZE * (0x80000 + d) /\ 0x100 < d < 0x400.
Proof.
  exists (k_data / PGSIZE - 0x80000). pose proof k_data_aligned. pose proof k_data_low.
  pose proof k_data_end. pose proof k_end_high.
  unfold KERNLINK, KERNBASE, EXTMEM, PGSIZE in *. zdm.
Qed.

Lemma kmap_lines_ok : Forall kmap_line_ok kmap.
Proof.
  destruct k_data_pages as (d & E & Hd).
  unfold kmap, v2p. rewrite E. repeat constructor;
    unfold u32, KERNLINK, KERNBASE, EXTMEM, PGSIZE, PHYSTOP, DEVSPACE, PTE_W; zdm.
Qed.

Lemma kmap_lines_disjoint : kmap_disjoint kmap.
Proof.
  destruct k_data_pages as (d & E & Hd). unfold kmap, v2p. rewrite E.
  cbn [kmap_disjoint]. split_and!; try done; intros j; unfold kmap_range;
    rewrite andb_true_iff, Z.leb_le, Z.ltb_lt; intros [H1 H2]; repeat constructor;
    rewrite andb_false_iff, Z.leb_gt, Z.ltb_ge;
    unfold u32, KERNLINK, KERNBASE, EXTMEM, PGSIZE, PHYSTOP, DEVSPACE in *; zdm.
Qed.

(** What code that only adds tables guarantees. *)
Definition table_step (l l' fr : list Z) (pg : Z) (s s' : kst) : Prop :=
  vmrel s s' /\ vm_ok l' fr pg s' /\ reserve l' (mem s') pg ≡ₚ reserve l (mem s) pg /\
  keeps (reserve l (mem s) pg) (mem s) (mem s').

Lemma table_step_refl l fr pg s : vm_ok l fr pg s -> table_step l l fr pg s s.
Proof. intros H. split_and!; [apply vmrel_refl|done|done|apply keeps_refl]. Qed.

Lemma table_step_trans l1 l2 l3 fr pg s1 s2 s3 fr' :
  table_step l1 l2 fr pg s1 s2 -> table_step l2 l3 fr' pg s2 s3 -> table_step l1 l3 fr' pg s1 s3.
Proof.
  intros (H1 & H2 & H3 & H4) (K1 & K2 & K3 & K4). split_and!; [by eapply vmrel_trans|done| |].
  - by rewrite K3.
  - eapply keeps_trans; [done..|]. intros p. by rewrite H3.
Qed.

(** [mappages] of a line of [kmap]. *)
Lemma mappages_kernel l fr pg virt phys_start phys_end perm s :
  let e := (virt, phys_start, phys_end, perm) in
  vm_ok l fr pg s -> kmap_line_ok e ->
  (forall j, kmap_range e j = true -> entry (mem s) pg j = None) ->
  exists r s' l',
    mappages pg virt (u32 (phys_end - phys_start)) phys_start perm s = Ok r s' /\
    table_step l l' fr pg s s' /\ frames (mem s') pg = frames (mem s) pg /\ utabs_kept pg (mem s) (mem s') /\
    ((r = 0 /\ forall j, 0 <= j < 2^20 -> entry (mem s') pg j =
        match kmap_entry [e] j with Some x => Some x | None => entry (mem s) pg j end) \/
     (r = -1 /\ l' = [])).
Proof.
  intros e Hvm (H1 & H2 & H3 & H4 & H5 & H6 & H7 & H8 & H9) Hnone.
  unfold kmap_entry, kmap_range, e in *. clear e.
  set (n := u32 (phys_end - phys_start)) in *. clearbody n.
  set (k := virt / PGSIZE) in *. set (q := phys_start / PGSIZE).
  assert (virt = PGSIZE * k) as Ek by (unfold k, PGSIZE in *; zdm). clearbody k.
  assert (phys_start = PGSIZE * q) as Eq by (unfold q, PGSIZE in *; zdm). clearbody q.
  assert (exists c, n = PGSIZE * (Z.of_nat c + 1)) as [c Ec].
  { exists (Z.to_nat (n / PGSIZE - 1)). unfold PGSIZE in *. zdm. }
  clear phys_end H1 H2 H3. subst. unfold mappages.
  replace (PGSIZE * (Z.of_nat c + 1) / PGSIZE) with (Z.of_nat c + 1) in * by (unfold PGSIZE; zdm).
  rewrite (u32_small (PGSIZE * k + _ - 1)) by (unfold PGSIZE, KERNBASE in *; lia).
  rewrite !PGROUNDDOWN_eq by (unfold PGSIZE, KERNBASE in *; lia).
  replace (PGSIZE * (PGSIZE * k / PGSIZE)) with (PGSIZE * k) by (unfold PGSIZE; zdm).
  replace (PGSIZE * ((PGSIZE * k + PGSIZE * (Z.of_nat c + 1) - 1) / PGSIZE))
    with (PGSIZE * (k + Z.of_nat c)) by (unfold PGSIZE; zdm).
  rewrite u32_small by (unfold PGSIZE, KERNBASE in *; lia).
  replace (Z.to_nat ((PGSIZE * (k + Z.of_nat c) - PGSIZE * k) / PGSIZE)) with c by (unfold PGSIZE; zdm).
  destruct (mappages_loop_kernel fr pg perm c l k q s Hvm) as (r & s' & l' & E & R1 & R2 & R3 & R4 & R5 & Ru & R6);
    try (unfold PGSIZE, KERNBASE in *; zdm).
  { intros j Hj. apply Hnone. rewrite andb_true_iff, Z.leb_le, Z.ltb_lt. lia. }
  exists r, s', l'. split_and!; try done.
  destruct R6 as [[-> R6]|R6]; [left|by right]. split; [done|]. intros j Hj. rewrite R6 by done.
  unfold range_entry.
  replace (PGSIZE * q + PGSIZE * (j - k)) with (PGSIZE * (q + (j - k))) by (unfold PGSIZE; lia).
  bool_cases; lia || done.
Qed.

Lemma setupkvm_loop_spec fr pg ls : forall l s,
  vm_ok l fr pg s -> Forall kmap_line_ok ls -> kmap_disjoint ls ->
  (forall e j, e ∈ ls -> kmap_range e j = true -> entry (mem s) pg j = None) ->
  exists r s' l',
    setupkvm_loop pg ls s = Ok r s' /\ table_step l l' fr pg s s' /\
    frames (mem s') pg = frames (mem s) pg /\ utabs_kept pg (mem s) (mem s') /\
    ((r = pg /\ forall j, 0 <= j < 2^20 -> entry (mem s') pg j =
        match kmap_entry ls j with Some x => Some x | None => entry (mem s) pg j end) \/
     (r = 0 /\ l' = [])).
Proof.
  induction ls as [|[[[virt ps] pe] perm] ls IH]; intros l s Hvm Hok Hdis Hnone.
  - exists pg, s, l. split_and!; try done; [by apply table_step_refl|by left].
  - apply Forall_cons in Hok as [Hok1 Hok]. destruct Hdis as [Hdis1 Hdis]. cbn [setupkvm_loop].
    destruct (mappages_kernel l fr pg virt ps pe perm s Hvm Hok1) as (r & s1 & l1 & E & Hst & Hfr & Hu & Hcase).
    { intros j Hj. eapply Hnone; [by left|done]. }
    rewrite (bind_Ok _ _ _ _ _ E). destruct Hcase as [[-> Hent]|[-> ->]].
    2:{ exists 0, s1, []. split; [done|]. split; [exact Hst|]. split; [exact Hfr|]. split; [exact Hu|]. by right. }
    cbn [Z.ltb Z.compare].
    destruct (IH l1 s1 (proj1 (proj2 Hst)) Hok Hdis) as (r2 & s2 & l2 & E2 & Hst2 & Hfr2 & Hu2 & Hcase2).
    + intros e j He Hj. destruct (decide (0 <= j < 2^20)) as [Hjr|Hjr].
      * rewrite Hent by done. cbn [kmap_entry].
        destruct (kmap_range (virt, ps, pe, perm) j) eqn:Er.
        -- apply Hdis1 in Er. eapply Forall_forall in Er; [|done]. by rewrite Er in Hj.
        -- eapply Hnone; [by right|done].
      * exfalso. eapply Forall_forall in Hok; [|done]. destruct e as [[[v1 p1] p2] pm].
        destruct Hok as (G1 & G2 & G3 & G4 & G5 & G6 & _). unfold kmap_range in Hj.
        apply andb_true_iff in Hj as [Hj1%Z.leb_le Hj2%Z.ltb_lt]. apply Hjr.
        revert G3 G4 G6 Hj2. generalize (u32 (p2 - p1)). unfold PGSIZE, KERNBASE in *. intros. zdm.
    + exists r2, s2, l2. split; [exact E2|]. split; [by eapply table_step_trans|].
      split; [by rewrite Hfr2|]. split; [by eapply utabs_kept_trans|].
      destruct Hcase2 as [[-> H2]|H2]; [left|by right]. split; [done|]. intros j Hj.
      rewrite H2, Hent by done. cbn [kmap_entry].
      destruct (kmap_range (virt, ps, pe, perm) j) eqn:Er; [|done].
      replace (kmap_entry ls j) with (@None Z); [done|]. symmetry. apply Hdis1 in Er.
      clear -Er. induction Er as [|[[[? ?] ?] ?] ls Hx _ IH]; [done|]. cbn [kmap_entry]. by rewrite Hx.
Qed.

(** A zeroed page is an empty page directory. *)
Lemma zero_dir m pg :
  (forall i, 0 <= i < 1024 -> tab (mfill m pg 0 PGSIZE) pg i = None) /\
  owned (mfill m pg 0 PGSIZE) pg = [pg] /\ frames (mfill m pg 0 PGSIZE) pg = [] /\
  tabs (mfill m pg 0 PGSIZE) pg = [] /\
  (forall k, 0 <= k < 2^20 -> entry (mfill m pg 0 PGSIZE) pg k = None).
Proof.
  assert (forall i, 0 <= i < 1024 -> tab (mfill m pg 0 PGSIZE) pg i = None) as Ht.
  { intros i Hi. unfold tab. rewrite ld32_mfill_0; [done|lia|unfold PGSIZE; lia]. }
  assert (forall k, 0 <= k < 2^20 -> entry (mfill m pg 0 PGSIZE) pg k = None) as He.
  { intros k Hk. unfold entry. rewrite Ht by zdm. done. }
  assert (tabs (mfill m pg 0 PGSIZE) pg = []) as Hts.
  { apply elem_of_nil_inv. intros t (i & Hi & E)%elem_of_tabs. by rewrite Ht in E. }
  assert (frames (mfill m pg 0 PGSIZE) pg = []) as Hfs.
  { apply elem_of_nil_inv. intros f (k & Hk & E)%elem_of_frames. unfold frame in E.
    change (KERNBASE / PGSIZE) with 524288 in Hk. by rewrite He in E by lia. }
  split_and!; try done. unfold owned. by rewrite Hts, Hfs.
Qed.

(** Zeroing a page just allocated, as a page directory. *)
Lemma base_new_dir l fr pg s :
  base_ok l (pg :: fr) s -> vm_ok l fr pg (set_mem (mfill (mem s) pg 0 PGSIZE) s).
Proof.
  intros (Hf & Hr & Hb & Hn & Hp). unfold vm_ok. cbn [mem set_mem].
  rewrite (proj1 (proj2 (zero_dir (mem s) pg))). split_and!; [|done| |done|done].
  - apply free_pages_agree; [done|]. intros p Hin. apply agree_mfill.
    + eapply Forall_forall in Hp; [done|]. apply elem_of_app. right. by left.
    + eapply Forall_forall in Hp; [done|]. apply elem_of_app. by left.
    + intros ->. apply NoDup_app in Hn as (_ & Hd & _). apply (Hd pg Hin). by left.
  - by apply mfill_bytes.
Qed.

(** [kalloc] in terms of [base_ok]. *)
Lemma kalloc_base l fr s :
  base_ok l fr s ->
  exists v s', kalloc s = Ok v s' /\ vmrel s s' /\ mem s' = mem s /\
    ((v = 0 /\ l = [] /\ base_ok [] fr s') \/
     (exists l', l = v :: l' /\ v <> 0 /\ page_ok v /\ base_ok l' (v :: fr) s')).
Proof.
  intros (Hf & Hr & Hb & Hn & Hp). destruct l as [|v l].
  - rewrite kalloc_nil by done. eexists _, _. split; [done|]. split.
    + split; [apply kalloc_vmrel_cpu|by destruct s].
    + split; [done|]. left. split_and!; try done. split_and!; try done. by eapply kmem_ready_kcpu.
  - destruct (kalloc_cons _ _ _ Hr Hf) as (s1 & Ek & Hf1 & Hr1 & Es1).
    assert (mem s1 = mem s) as Em by (by rewrite Es1).
    pose proof Hp as [Hv _]%Forall_cons. pose proof (page_ok_pos _ Hv).
    exists v, s1. split_and!; [done| |done|].
    + rewrite Es1. split; [apply kalloc_vmrel_cpu|done].
    + right. exists l. split_and!; [done|lia|done|]. split_and!; [done|done|by rewrite Em| |].
      * by rewrite <- Permutation_middle.
      * by rewrite <- Permutation_middle.
Qed.

Lemma tabs_eq m pg : tabs m pg = omap (fun i => tab m pg (Z.of_nat i)) (seq 0 NPDENTRIES).
Proof. reflexivity. Qed.

Lemma length_omap_le (f : nat -> option Z) l : (length (omap f l) <= length l)%nat.
Proof. induction l as [|x l IH]; cbn; [done|]. destruct (f x); cbn; lia. Qed.

Lemma length_tabs m pg : (length (tabs m pg) <= 1024)%nat.
Proof.
  rewrite tabs_eq. etransitivity; [apply length_omap_le|]. rewrite length_seq. pose proof NPDENTRIES_Z. lia.
Qed.

(** A directory with kernel mappings alone has a table for half its slots at most. *)
Lemma length_kernel_tabs m pg : (forall i, 0 <= i < 512 -> tab m pg i = None) -> (length (tabs m pg) <= 512)%nat.
Proof.
  intros H. rewrite tabs_eq. replace NPDENTRIES with (512 + 512)%nat by done. rewrite seq_app, omap_app, length_app.
  assert (forall l, Forall (fun i => (i < 512)%nat) l -> omap (fun i => tab m pg (Z.of_nat i)) l = []) as E.
  { induction 1 as [|i l Hi _ IH]; [done|]. cbn. rewrite H by lia. exact IH. }
  rewrite E by (apply Forall_forall; intros i Hi%elem_of_seq; lia). cbn [length Nat.add].
  etransitivity; [apply length_omap_le|]. by rewrite length_seq.
Qed.

Lemma base_of_vm l fr pg s : vm_ok l fr pg s -> base_ok l fr s.
Proof.
  unfold vm_ok. intros (Hf & Hr & Hb & Hn & Hp). split_and!; try done.
  - apply NoDup_cnt. intros x. pose proof (proj1 (NoDup_cnt _) Hn x) as K.
    rewrite !cnt_app in *. lia.
  - rewrite !Forall_app in *. tauto.
Qed.

(** [setupkvm]: a fresh directory with the kernel's mappings and no user
    page, or 0 when the free pages do not suffice. *)
Lemma setupkvm_full l fr s :
  base_ok l fr s ->
  exists r s', setupkvm s = Ok r s' /\ low_kept (mem s) (mem s') /\ vmrel s s' /\ keeps l (mem s) (mem s') /\
    ((r = 0 /\ base_ok [] fr s' /\ (length l <= 513)%nat) \/
     (exists l', r <> 0 /\ vm_ok l' fr r s' /\ reserve l' (mem s') r ≡ₚ l /\
        frames (mem s') r = [] /\
        forall j, 0 <= j < 2^20 -> entry (mem s') r j = kmap_entry kmap j)).
Proof.
  intros Hb. unfold setupkvm.
  destruct (kalloc_base l fr s Hb) as (v & s1 & Ek & Hrel & Em & [(-> & -> & Hb1)|(l1 & -> & Hv & Hpv & Hb1)]).
  { rewrite (bind_Ok _ _ _ _ _ Ek). exists 0, s1. split; [done|]. split; [by rewrite Em|]. split; [done|].
    rewrite Em. split; [apply keeps_refl|]. left. split; [done|]. split; [done|].
    cbn [length]. lia. }
  rewrite (bind_Ok _ _ _ _ _ Ek). destruct (Z.eqb_spec v 0); [done|].
  unfold bind at 1, modify at 1. change (DEVSPACE <? p2v PHYSTOP) with false. cbv iota.
  destruct (zero_dir (mem s1) v) as (Hz0 & Hz1 & Hz2 & Hz3 & Hz4).
  destruct (setupkvm_loop_spec fr v kmap l1 _ (base_new_dir _ _ _ _ Hb1) kmap_lines_ok kmap_lines_disjoint)
    as (r & s' & l' & E & (R1 & R2 & R3 & R4) & Hfr & Hu & Hcase); cbn [mem set_mem] in *.
  { intros [[[v1 p1] p2] pm] j He Hj. apply Hz4.
    pose proof kmap_lines_ok as Hok. eapply Forall_forall in Hok; [|done].
    destruct Hok as (G1 & G2 & G3 & G4 & G5 & G6 & _). unfold kmap_range in Hj.
    apply andb_true_iff in Hj as [Hj1%Z.leb_le Hj2%Z.ltb_lt].
    revert G3 G4 G6 Hj2. generalize (u32 (p2 - p1)). unfold PGSIZE, KERNBASE in *. intros. zdm. }
  unfold reserve in R3, R4. rewrite Hz3 in R3, R4.
  exists r, s'. split; [exact E|]. split.
  { intros x Hx. rewrite (proj2 Hu) by done. rewrite <- Em. apply mfill_out. left. destruct Hpv as [_ Hpv]. lia. }
  split.
  { eapply vmrel_trans; [done|]. eapply vmrel_trans; [apply vmrel_mem|done]. }
  split.
  { rewrite <- Em. intros p Hp Hpn. apply (agree_trans _ (mfill (mem s1) v 0 PGSIZE)).
    - apply agree_mfill; [done..|]. intros ->. apply Hpn. by left.
    - apply R4; [done|]. intros Hin. apply Hpn. rewrite elem_of_app, elem_of_cons in Hin.
      rewrite elem_of_cons. destruct Hin as [?|[?|[]%elem_of_nil]]; auto. }
  destruct Hcase as [[-> Hent]|[-> ->]].
  - right. exists l'. split; [done|]. split; [done|]. split; [|split].
    + unfold reserve. rewrite R3. by rewrite <- Permutation_middle, app_nil_r.
    + by rewrite Hfr.
    + intros j Hj. rewrite Hent by done. rewrite Hz4 by done. by destruct (kmap_entry kmap j).
  - left. split; [done|]. split; [by eapply base_of_vm|].
    apply Permutation_length in R3. rewrite !length_app in R3. cbn [length app] in *.
    assert (length (tabs (mem s') v) <= 512)%nat; [|lia]. apply length_kernel_tabs. intros i Hi. rewrite (proj1 Hu) by done. apply Hz0. lia.
Qed.

Lemma setupkvm_spec l fr s :
  base_ok l fr s ->
  exists r s', setupkvm s = Ok r s' /\ vmrel s s' /\ keeps l (mem s) (mem s') /\
    ((r = 0 /\ base_ok [] fr s' /\ (length l <= 513)%nat) \/
     (exists l', r <> 0 /\ vm_ok l' fr r s' /\ reserve l' (mem s') r ≡ₚ l /\
        frames (mem s') r = [] /\
        forall j, 0 <= j < 2^20 -> entry (mem s') r j = kmap_entry kmap j)).
Proof. intros Hb. destruct (setupkvm_full l fr s Hb) as (r & s' & E & _ & H). by exists r, s'. Qed.

(** ** Unmapping pages *)

Lemma vm_page l fr pg s p : vm_ok l fr pg s -> p ∈ l ++ owned (mem s) pg ++ fr -> page_ok p.
Proof. intros (_ & _ & _ & _ & Hp). by apply (proj1 (Forall_forall _ _) Hp). Qed.

Lemma vm_frame_page l fr pg s f : vm_ok l fr pg s -> f ∈ frames (mem s) pg -> page_ok f.
Proof.
  intros H Hf. eapply vm_page; [done|]. unfold owned. rewrite !elem_of_app, elem_of_cons, elem_of_app. tauto.
Qed.

Lemma vm_cnt l fr pg s x :
  vm_ok l fr pg s ->
  (cnt x l + (one pg x + (cnt x (tabs (mem s) pg) + cnt x (frames (mem s) pg))) + cnt x fr <= 1)%nat.
Proof.
  intros (_ & _ & _ & Hn & _). pose proof (proj1 (NoDup_cnt _) Hn x) as K.
  unfold owned in K. cbn [app] in K. rewrite !cnt_app, cnt_cons, !cnt_app in K. lia.
Qed.

(** The page mapped at [k] goes to the free list and its entry is cleared. *)
Lemma unmap_page l fr pg k t v s :
  vm_ok l fr pg s -> 0 <= k < KERNBASE / PGSIZE ->
  tab (mem s) pg (k / 1024) = Some t -> frame (mem s) pg k = Some v ->
  exists s', (kfree v ;; modify (fun s => set_mem (st32 (mem s) (t + 4 * (k mod 1024)) 0) s)) s = Ok tt s' /\
    vmrel s s' /\ vm_ok (v :: l) fr pg s' /\ (agree (mem s) (mem s') pg) /\
    v :: frames (mem s') pg ≡ₚ frames (mem s) pg /\
    (forall j, 0 <= j < 2^20 ->
       entry (mem s') pg j = if j =? k then None else entry (mem s) pg j) /\
    keeps (v :: tabs (mem s) pg) (mem s) (mem s').
Proof.
  intros Hvm Hk Et Ev. assert (0 <= k < 2^20) as Hk' by (change (KERNBASE / PGSIZE) with 524288 in Hk; lia).
  assert (0 <= k / 1024 < 1024) as Hi by zdm.
  assert (t ∈ tabs (mem s) pg) as Ht by (apply elem_of_tabs; eauto).
  assert (v ∈ frames (mem s) pg) as Hv by (apply elem_of_frames; eauto).
  apply elem_of_cnt in Ht as Ht'. apply elem_of_cnt in Hv as Hv'.
  pose proof (vm_cnt l fr pg s v Hvm) as Cv. pose proof (vm_cnt l fr pg s t Hvm) as Ct.
  assert (page_ok v) as Hpv.
  { by eapply vm_frame_page. }
  pose proof (vm_dir_ok _ _ _ _ Hvm) as Hd. destruct (dir_tab _ _ _ _ Hd Hi Et) as [Hpt Hne].
  pose proof Hvm as (Hf & Hr & Hb & Hn & Hp).
  assert (v ∉ l) as Hvl by (rewrite elem_of_cnt; lia).
  destruct (kfree_cons v l s Hr Hf Hpv Hvl) as (s1 & Ek & Hf1 & Hr1 & Hw1 & Es1).
  assert (forall p, page_ok p -> p <> v -> agree (mem s) (mem s1) p) as Ha1.
  { intros p Hpp Hpne x Hx. apply Hw1. intros w [->|[]%elem_of_nil]%elem_of_cons Hwx.
    destruct (page_cases p v Hpp Hpv Hpne); unfold PGSIZE in *; lia. }
  assert (agree (mem s) (mem s1) pg) as Hapg.
  { apply Ha1; [by destruct Hd as [_ [? _]%Forall_cons]|]. intros ->. rewrite one_refl in Cv. lia. }
  assert (forall x, x ∈ tabs (mem s) pg -> agree (mem s) (mem s1) x) as Hats.
  { intros x Hx. apply Ha1; [destruct Hd as [_ [_ Hq]%Forall_cons]; by eapply Forall_forall in Hq|].
    intros ->. apply elem_of_cnt in Hx. lia. }
  assert (forall x, is_byte (mem s1 x)) as Hb1.
  { exact (kfree_bytes v s s1 Hr Hpv Ek Hb). }
  assert (dir_ok (mem s1) pg) as Hd1 by (unfold dir_ok; by rewrite (tabs_ext (mem s))).
  assert (tab (mem s1) pg (k / 1024) = Some t) as Et1 by (by rewrite (tab_ext (mem s))).
  assert (frame (mem s1) pg k = Some v) as Ev1 by (unfold frame; rewrite (entry_ext (mem s)); done).
  destruct (set_entry (mem s1) pg k t 0 Hd1 Hk' Et1) as [Ha2 He2]; [unfold is_u32; lia|].
  pose proof (set_entry_del_frame (mem s1) pg k t 0 Hd1 Et1 ltac:(unfold is_u32; lia) v Hk Ev1 eq_refl) as Hdel.
  rewrite (frames_ext (mem s) (mem s1)) in Hdel by done.
  pose proof (agree_trans _ _ _ _ Hapg Ha2) as Ha12.
  exists (set_mem (st32 (mem s1) (t + 4 * (k mod 1024)) 0) s1). split; [by rewrite (bind_Ok _ _ _ _ _ Ek)|].
  split; [rewrite Es1; split; [apply kalloc_vmrel_cpu|done]|].
  assert (v :: l ++ owned (st32 (mem s1) (t + 4 * (k mod 1024)) 0) pg ++ fr ≡ₚ l ++ owned (mem s) pg ++ fr) as Hperm.
  { unfold owned. rewrite (tabs_ext (mem s)) by done. clear -Hdel. perm_solve. }
  split; [|split_and!]; cbn [mem set_mem]; [| done | done | |].
  - split_and!; [|done| |by rewrite <- Hperm in Hn|by rewrite <- Hperm in Hp].
    + apply free_pages_agree; [done|]. intros p Hin. apply agree_store; try done.
      * destruct Hf1 as (_ & _ & Hq). by eapply Forall_forall in Hq.
      * intros ->. apply elem_of_cons in Hin as [->|Hin%elem_of_cnt]; lia.
      * zdm.
      * unfold PGSIZE. zdm.
    + apply mwrite_bytes; [done|apply bytes32_bytes].
  - intros j Hj. rewrite He2 by done. cbn. by rewrite (entry_ext (mem s)).
  - intros p Hpp Hpn. rewrite elem_of_cons in Hpn. apply (agree_trans _ (mem s1)).
    + apply Ha1; [done|tauto].
    + apply agree_store; try done; [intros ->; tauto|zdm|unfold PGSIZE; zdm].
Qed.

(** The mapping with the pages from [k] to [lim] removed. *)
Definition cleared (k lim : Z) (m m' : Z -> Z) (pg : Z) : Prop :=
  forall j, 0 <= j < 2^20 ->
    entry m' pg j = if (k <=? j) && (j <? lim) then None else entry m pg j.

(** What unmapping code guarantees: user pages move to the free list. *)
Definition unmap_step (l l' fr : list Z) (pg : Z) (s s' : kst) : Prop :=
  vmrel s s' /\ vm_ok l' fr pg s' /\ agree (mem s) (mem s') pg /\
  l' ++ frames (mem s') pg ≡ₚ l ++ frames (mem s) pg /\
  keeps (frames (mem s) pg ++ tabs (mem s) pg) (mem s) (mem s').

Lemma unmap_step_refl l fr pg s : vm_ok l fr pg s -> unmap_step l l fr pg s s.
Proof. intros H. split_and!; [apply vmrel_refl|done|done|done|apply keeps_refl]. Qed.

(** [deallocuvm] skips to the next page table from where it is, so that it
    finds all pages only from the start of a table, inside one that is there,
    or when there is nothing to find. *)
Definition dealloc_start (m : Z -> Z) (pg k lim : Z) : Prop :=
  k mod 1024 = 0 \/ tab m pg (k / 1024) <> None \/ (forall j, k <= j < lim -> entry m pg j = None).

Lemma dealloc_start_succ m m' pg k lim :
  0 <= k < 2^20 - 1 -> agree m m' pg -> tab m pg (k / 1024) <> None -> dealloc_start m' pg (k + 1) lim.
Proof.
  intros Hk Ha Ht. destruct (decide ((k + 1) mod 1024 = 0)); [by left|]. right. left.
  assert ((k + 1) / 1024 = k / 1024) as -> by zdm. rewrite (tab_ext m); [done|done|zdm].
Qed.

Lemma unmap_turn l fr pg k t s :
  vm_ok l fr pg s -> 0 <= k < KERNBASE / PGSIZE -> tab (mem s) pg (k / 1024) = Some t ->
  exists s' l',
    (let* e := gets (fun s => ld32 (mem s) (t + 4 * (k mod 1024))) in
     if has e PTE_P then
       let pa := PTE_ADDR e in
       if pa =? 0 then panic "kfree"
       else kfree (p2v pa) ;; modify (fun s => set_mem (st32 (mem s) (t + 4 * (k mod 1024)) 0) s)
     else ret tt) s = Ok tt s' /\
    unmap_step l l' fr pg s s' /\ cleared k (k + 1) (mem s) (mem s') pg.
Proof.
  intros Hvm Hk Et. unfold bind at 1, gets at 1.
  assert (entry (mem s) pg k = if has (ld32 (mem s) (t + 4 * (k mod 1024))) PTE_P
                               then Some (ld32 (mem s) (t + 4 * (k mod 1024))) else None) as Ee.
  { unfold entry. by rewrite Et. }
  destruct (has _ _) eqn:Hh.
  - set (e := ld32 (mem s) (t + 4 * (k mod 1024))) in *.
    assert (frame (mem s) pg k = Some (p2v (PTE_ADDR e))) as Ef by (unfold frame; by rewrite Ee).
    assert (p2v (PTE_ADDR e) ∈ frames (mem s) pg) as Hin by (apply elem_of_frames; eauto).
    assert (page_ok (p2v (PTE_ADDR e))) as Hpo.
    { by eapply vm_frame_page. }
    cbv zeta. destruct (Z.eqb_spec (PTE_ADDR e) 0) as [E0|_].
    { exfalso. rewrite E0 in Hpo. destruct Hpo as [_ Hpo]. pose proof k_data_low. pose proof k_data_end.
      change (p2v 0) with KERNBASE in Hpo. unfold KERNLINK, EXTMEM in *. lia. }
    destruct (unmap_page l fr pg k t _ s Hvm Hk Et Ef) as (s' & E & R1 & R2 & R3 & R4 & R5 & R6).
    exists s', (p2v (PTE_ADDR e) :: l). split; [exact E|]. split.
    + split_and!; try done; [rewrite <- R4; clear; perm_solve|].
      eapply keeps_weaken; [done|]. intros p. rewrite elem_of_cons, elem_of_app.
      intros [->|?]; [by left|by right].
    + intros j Hj. rewrite R5 by done. bool_cases; lia || done.
  - exists s, l. split; [done|]. split; [by apply unmap_step_refl|]. intros j Hj.
    bool_cases; try done. by assert (j = k) as -> by lia.
Qed.

Lemma unmap_step_trans l1 l2 l3 fr pg s1 s2 s3 :
  unmap_step l1 l2 fr pg s1 s2 -> unmap_step l2 l3 fr pg s2 s3 ->
  (forall f, f ∈ frames (mem s2) pg -> f ∈ frames (mem s1) pg) -> unmap_step l1 l3 fr pg s1 s3.
Proof.
  intros (A1 & A2 & A3 & A4 & A5) (B1 & B2 & B3 & B4 & B5) Hf. split_and!.
  - by eapply vmrel_trans.
  - done.
  - by eapply agree_trans.
  - by rewrite B4.
  - eapply keeps_trans; [done..|]. intros p. rewrite (tabs_ext (mem s1) (mem s2)) by done.
    rewrite !elem_of_app. naive_solver.
Qed.

Lemma cleared_frames k lim m m' pg f :
  cleared k lim m m' pg -> f ∈ frames m' pg -> f ∈ frames m pg.
Proof.
  intros Hc. rewrite !elem_of_frames. intros (j & Hj & E). exists j. split; [done|].
  unfold frame in *. rewrite Hc in E by (change (KERNBASE / PGSIZE) with 524288 in Hj; lia).
  by destruct (_ && _).
Qed.

Lemma deallocuvm_loop_spec fr pg oldsz n : forall k l s,
  let lim := (oldsz + PGSIZE - 1) / PGSIZE in
  0 <= oldsz <= KERNBASE -> vm_ok l fr pg s -> 0 <= k -> lim - k <= Z.of_nat n ->
  dealloc_start (mem s) pg k lim ->
  exists s' l', deallocuvm_loop n pg (PGSIZE * k) oldsz s = Ok tt s' /\
    unmap_step l l' fr pg s s' /\ cleared k lim (mem s) (mem s') pg.
Proof.
  induction n as [|n IH]; intros k l s lim Ho Hvm Hk Hn Hst; cbn [deallocuvm_loop];
    destruct (Z.ltb_spec (PGSIZE * k) oldsz) as [Hlt|Hge].
  1:{ unfold lim, PGSIZE in *. zdm. }
  1,3: exists s, l; split; [done|]; split; [by apply unmap_step_refl|];
    intros j Hj; bool_cases; try done; unfold lim, PGSIZE in *; zdm.
  assert (0 <= k < KERNBASE / PGSIZE) as HkN by (unfold PGSIZE, KERNBASE in *; zdm).
  assert (0 <= k < 2^20) as Hk' by (change (KERNBASE / PGSIZE) with 524288 in HkN; lia).
  assert (k < lim) as Hkl by (unfold lim, PGSIZE in *; zdm).
  rewrite (bind_Ok _ _ _ _ _ (walkpgdir_look pg k s Hk')).
  destruct (tab (mem s) pg (k / 1024)) as [t|] eqn:Et.
  - assert (0 <= k / 1024 < 1024) as Hi by zdm.
    destruct (dir_tab _ _ _ _ (vm_dir_ok _ _ _ _ Hvm) Hi Et) as [Hok _]. pose proof (page_ok_pos _ Hok).
    destruct (Z.eqb_spec (t + 4 * (k mod 1024)) 0); [zdm|].
    destruct (unmap_turn l fr pg k t s Hvm HkN Et) as (s1 & l1 & E1 & Hs1 & Hc1).
    rewrite <- bind_bind, (bind_Ok _ _ _ _ _ E1).
    rewrite u32_small by (unfold PGSIZE, KERNBASE in *; lia).
    replace (PGSIZE * k + PGSIZE) with (PGSIZE * (k + 1)) by (unfold PGSIZE; lia).
    destruct (IH (k + 1) l1 s1) as (s' & l' & E' & Hs' & Hc'); [done|apply Hs1|lia|fold lim; lia| |].
    { eapply (dealloc_start_succ (mem s)); [change (KERNBASE / PGSIZE) with 524288 in HkN; lia|exact (proj1 (proj2 (proj2 Hs1)))|by rewrite Et]. }
    exists s', l'. split; [done|]. split.
    + eapply unmap_step_trans; [done..|]. intros f. by eapply cleared_frames.
    + intros j Hj. rewrite Hc', Hc1 by done. fold lim. bool_cases; lia || done.
  - cbn [Z.eqb]. rewrite u32_small by (unfold PGSIZE, KERNBASE, NPTENTRIES in *; lia).
    replace (PGSIZE * k + (NPTENTRIES - 1) * PGSIZE + PGSIZE) with (PGSIZE * (k + 1024))
      by (unfold PGSIZE, NPTENTRIES; lia).
    assert (forall j, k <= j < k + 1024 -> j < lim -> entry (mem s) pg j = None) as Hnone.
    { intros j Hj Hjl. destruct Hst as [Ha|[Ht|Hall]]; [|done|apply Hall; lia].
      unfold entry. replace (j / 1024) with (k / 1024) by zdm. by rewrite Et. }
    destruct (IH (k + 1024) l s) as (s' & l' & E' & Hs' & Hc'); [done|done|lia|fold lim; lia| |].
    { destruct Hst as [Ha|[Ht|Hall]]; [left; zdm|done|]. right. right. intros j Hj. apply Hall. fold lim in Hj. lia. }
    exists s', l'. split; [done|]. split; [done|]. intros j Hj. rewrite Hc' by done. fold lim.
    bool_cases; try lia; try done. apply Hnone; lia.
Qed.

(** The number of pages a size needs. *)
Definition pages (sz : Z) : Z := (sz + PGSIZE - 1) / PGSIZE.

Lemma PGROUNDUP_pages x : 0 <= x <= KERNBASE -> PGROUNDUP x = PGSIZE * pages x.
Proof. intros Hx. unfold pages. apply PGROUNDUP_mul. unfold KERNBASE, PGSIZE in *. lia. Qed.

Lemma deallocuvm_spec l fr pg oldsz newsz s :
  vm_ok l fr pg s -> 0 <= newsz < oldsz -> oldsz <= KERNBASE ->
  dealloc_start (mem s) pg (pages newsz) (pages oldsz) ->
  exists s' l', deallocuvm pg oldsz newsz s = Ok newsz s' /\
    unmap_step l l' fr pg s s' /\ cleared (pages newsz) (pages oldsz) (mem s) (mem s') pg.
Proof.
  intros Hvm Hn Ho Hst. unfold deallocuvm. destruct (Z.leb_spec oldsz newsz); [lia|].
  rewrite PGROUNDUP_pages by lia.
  assert (0 <= pages newsz) by (unfold pages, PGSIZE; zdm).
  destruct (deallocuvm_loop_spec fr pg oldsz (Z.to_nat (oldsz / PGSIZE) + 1) (pages newsz) l s)
    as (s' & l' & E & Hs & Hc); [lia|done|lia|unfold pages, PGSIZE in *; zdm|done|].
  rewrite (bind_Ok _ _ _ _ _ E). by exists s', l'.
Qed.

(** ** Freeing an address space *)

Lemma base_perm l fr fr' s : base_ok l fr s -> fr ≡ₚ fr' -> base_ok l fr' s.
Proof. intros (Hf & Hr & Hb & Hn & Hp) E. split_and!; try done; by rewrite <- E. Qed.

(** [kfree] in terms of [base_ok]. *)
Lemma kfree_base l fr v s :
  base_ok l (v :: fr) s ->
  exists s', kfree v s = Ok tt s' /\ vmrel s s' /\ base_ok (v :: l) fr s' /\
    keeps [v] (mem s) (mem s').
Proof.
  intros (Hf & Hr & Hb & Hn & Hp).
  assert (v :: l ++ fr ≡ₚ l ++ v :: fr) as Hperm by perm_solve.
  rewrite <- Hperm in Hn, Hp. pose proof Hn as [Hni _]%NoDup_cons. pose proof Hp as [Hpv _]%Forall_cons.
  destruct (kfree_cons v l s Hr Hf Hpv) as (s' & E & Hf' & Hr' & Hw & Es').
  { intros Hin. apply Hni, elem_of_app. by left. }
  exists s'. split; [done|]. split; [rewrite Es'; split; [apply kalloc_vmrel_cpu|done]|]. split.
  - split_and!; try done. exact (kfree_bytes v s s' Hr Hpv E Hb).
  - intros p Hpp Hpn x Hx. apply Hw. intros w [->|[]%elem_of_nil]%elem_of_cons Hwx.
    assert (p <> v) as Hne by (intros ->; apply Hpn; by left).
    destruct (page_cases p v Hpp Hpv Hne); lia.
Qed.

Lemma freevm_loop_spec m0 pg fr ids : forall l s,
  (forall i, i ∈ ids -> (i < 1024)%nat) -> agree m0 (mem s) pg ->
  base_ok l (omap (fun i => tab m0 pg (Z.of_nat i)) ids ++ pg :: fr) s ->
  exists s' l',
    forM ids (fun i =>
      let* e := gets (fun s => ld32 (mem s) (pg + 4 * Z.of_nat i)) in
      when (has e PTE_P) (kfree (p2v (PTE_ADDR e)))) s = Ok tt s' /\
    vmrel s s' /\ base_ok l' (pg :: fr) s' /\
    l' ≡ₚ l ++ omap (fun i => tab m0 pg (Z.of_nat i)) ids /\
    keeps (omap (fun i => tab m0 pg (Z.of_nat i)) ids) (mem s) (mem s').
Proof.
  induction ids as [|i ids IH]; intros l s His Ha Hb; cbn [forM omap list_omap] in *.
  - exists s, l. split_and!; try done; [apply vmrel_refl|by rewrite app_nil_r].
  - assert (i < 1024)%nat as Hi by (apply His; by left).
    assert (forall j, j ∈ ids -> (j < 1024)%nat) as His' by (intros j Hj; apply His; by right).
    unfold bind at 1. unfold bind at 1, gets at 1.
    assert (tab (mem s) pg (Z.of_nat i) = tab m0 pg (Z.of_nat i)) as Et.
    { apply tab_ext; [done|lia]. }
    unfold tab at 1 in Et. rewrite <- Et in *. clear Et. destruct (has _ _); cbn [when].
    + set (t := p2v (PTE_ADDR (ld32 (mem s) (pg + 4 * Z.of_nat i)))) in *.
      assert (page_ok t /\ page_ok pg /\ pg <> t) as (Hpt & Hpp & Hne).
      { destruct Hb as (_ & _ & _ & Hn & Hp). split_and!.
        - rewrite !Forall_app, Forall_cons in Hp. tauto.
        - rewrite !Forall_app, !Forall_cons in Hp. tauto.
        - intros E. pose proof (proj1 (NoDup_cnt _) Hn t) as K. rewrite <- E in K.
          cbn [app] in K. rewrite !cnt_app, !cnt_cons, cnt_app, cnt_cons, one_refl in K. lia. }
      destruct (kfree_base l _ t s Hb) as (s1 & E1 & R1 & Hb1 & Hk1). rewrite E1.
      destruct (IH (t :: l) s1 His') as (s' & l' & E' & R' & Hb' & Hl' & Hk'); [|done|].
      * eapply agree_trans; [done|]. apply Hk1; [done|]. by intros [?|[]%elem_of_nil]%elem_of_cons.
      * exists s', l'. split_and!; [done|by eapply vmrel_trans|done|rewrite Hl'; clear; perm_solve|].
        eapply keeps_trans; [|done|].
        -- eapply keeps_weaken; [done|]. intros p [->|[]%elem_of_nil]%elem_of_cons. by left.
        -- intros p Hp. by right.
    + destruct (IH l s His' Ha Hb) as (s' & l' & E' & R' & Hb' & Hl' & Hk').
      exists s', l'. by split_and!.
Qed.

Lemma frames_cleared m m' pg :
  cleared 0 (KERNBASE / PGSIZE) m m' pg -> frames m' pg = [].
Proof.
  intros Hc. apply elem_of_nil_inv. intros f (k & Hk & E)%elem_of_frames. unfold frame in E.
  rewrite Hc in E by (change (KERNBASE / PGSIZE) with 524288 in Hk; lia).
  destruct (Z.leb_spec 0 k); [|lia]. destruct (Z.ltb_spec k (KERNBASE / PGSIZE)); [done|lia].
Qed.

Lemma freevm_spec l fr pg s :
  vm_ok l fr pg s ->
  exists s' l', freevm pg s = Ok tt s' /\ vmrel s s' /\ base_ok l' fr s' /\
    l' ≡ₚ l ++ owned (mem s) pg /\ keeps (owned (mem s) pg) (mem s) (mem s').
Proof.
  intros Hvm. pose proof (vm_dir_ok _ _ _ _ Hvm) as [_ [Hpg _]%Forall_cons].
  pose proof (page_ok_pos _ Hpg). unfold freevm. destruct (Z.eqb_spec pg 0); [lia|].
  destruct (deallocuvm_spec l fr pg KERNBASE 0 s Hvm) as (s1 & l1 & E1 & (R1 & Hvm1 & Ha1 & Hl1 & Hk1) & Hc1).
  { unfold KERNBASE. lia. } { lia. } { by left. }
  rewrite (bind_Ok _ _ _ _ _ E1). change (pages 0) with 0 in Hc1.
  change (pages KERNBASE) with (KERNBASE / PGSIZE) in Hc1.
  pose proof (frames_cleared _ _ _ Hc1) as Hf1. rewrite Hf1, app_nil_r in Hl1.
  unfold vm_ok, owned in Hvm1. rewrite Hf1, app_nil_r, (tabs_ext (mem s)) in Hvm1 by done.
  apply (base_perm _ _ (tabs (mem s) pg ++ pg :: fr)) in Hvm1; [|clear; perm_solve].
  destruct (freevm_loop_spec (mem s) pg fr (seq 0 NPDENTRIES) l1 s1) as (s2 & l2 & E2 & R2 & Hb2 & Hl2 & Hk2).
  { intros i Hi%elem_of_seq. pose proof NPDENTRIES_Z. lia. } { done. }
  { by rewrite <- tabs_eq. }
  rewrite <- tabs_eq in Hl2, Hk2. unfold freevm_loop. rewrite (bind_Ok _ _ _ _ _ E2).
  destruct (kfree_base l2 fr pg s2 Hb2) as (s3 & E3 & R3 & Hb3 & Hk3). rewrite E3.
  exists s3, (pg :: l2). split; [done|]. split; [by do 2 (eapply vmrel_trans; [done|])|].
  split; [done|]. unfold owned. split; [rewrite Hl2, Hl1; clear; perm_solve|].
  apply (keeps_trans _ (pg :: tabs (mem s) pg) _ (mem s1)).
  - eapply keeps_weaken; [done|]. intros p. rewrite elem_of_cons, !elem_of_app. tauto.
  - apply (keeps_trans _ [pg] _ (mem s2)); [|done|].
    + eapply keeps_weaken; [done|]. intros p Hp. by right.
    + intros p. rewrite elem_of_cons, elem_of_nil, elem_of_cons. tauto.
  - intros p. rewrite !elem_of_cons, elem_of_app. tauto.
Qed.

(** ** Adding user pages *)

(** Writing to pages in use elsewhere does not touch the address space. *)
Lemma vm_write l fr pg s m' :
  vm_ok l fr pg s -> (forall x, is_byte (m' x)) -> keeps fr (mem s) m' ->
  vm_ok l fr pg (set_mem m' s) /\ tabs m' pg = tabs (mem s) pg /\ frames m' pg = frames (mem s) pg /\
  (forall j, 0 <= j < 2^20 -> entry m' pg j = entry (mem s) pg j).
Proof.
  intros Hvm Hb' Hk. pose proof Hvm as (Hf & Hr & Hb & Hn & Hp).
  assert (forall p, p ∈ l ++ owned (mem s) pg -> agree (mem s) m' p) as Ha.
  { intros p Hin. apply Hk.
    - eapply vm_page; [done|]. rewrite app_assoc, elem_of_app. by left.
    - rewrite app_assoc in Hn. apply NoDup_app in Hn as (_ & Hd & _). by apply Hd. }
  assert (agree (mem s) m' pg) as Hpg.
  { apply Ha. rewrite elem_of_app. right. by left. }
  assert (forall t, t ∈ tabs (mem s) pg -> agree (mem s) m' t) as Hts.
  { intros t Ht. apply Ha. unfold owned. rewrite elem_of_app, elem_of_cons, elem_of_app. tauto. }
  split_and!; [|by apply tabs_ext|by apply frames_ext|by intros; apply entry_ext].
  unfold vm_ok. cbn [mem set_mem]. rewrite (owned_ext (mem s)) by done. split_and!; try done.
  apply free_pages_agree; [done|]. intros p Hin. apply Ha. rewrite elem_of_app. by left.
Qed.

Lemma kalloc_vm l fr pg s :
  vm_ok l fr pg s ->
  exists v s', kalloc s = Ok v s' /\ vmrel s s' /\ mem s' = mem s /\
    ((v = 0 /\ l = [] /\ vm_ok [] fr pg s') \/
     (exists l', l = v :: l' /\ v <> 0 /\ page_ok v /\ vm_ok l' (v :: fr) pg s')).
Proof.
  intros Hvm. destruct (kalloc_base _ _ _ Hvm) as (v & s' & E & R & Em & Hc).
  exists v, s'. split_and!; try done. unfold vm_ok. rewrite Em.
  destruct Hc as [?|(l' & -> & Hv & Hp & Hb)]; [by left|right]. exists l'. split_and!; try done.
  eapply base_perm; [done|]. clear. perm_solve.
Qed.

(** A page [v] just allocated and filled ([w] is the memory after that) is
    mapped at [k]. *)
Lemma add_page l fr pg k perm v w s :
  vm_ok l (v :: fr) pg s -> keeps [v] (mem s) w -> (forall x, is_byte (w x)) ->
  0 <= k < KERNBASE / PGSIZE -> entry (mem s) pg k = None -> 0 <= perm < PGSIZE ->
  exists r s', mappages pg (PGSIZE * k) PGSIZE (v2p v) perm (set_mem w s) = Ok r s' /\ vmrel s s' /\
    ((r = 0 /\ exists l', vm_ok l' fr pg s' /\ takes1 l l' /\
        reserve l' (mem s') pg ≡ₚ reserve l (mem s) pg /\
        frames (mem s') pg ≡ₚ v :: frames (mem s) pg /\
        (forall j, 0 <= j < 2^20 -> entry (mem s') pg j =
           if j =? k then Some (Z.lor (Z.lor (v2p v) perm) PTE_P) else entry (mem s) pg j) /\
        agree w (mem s') v /\ keeps (v :: reserve l (mem s) pg) (mem s) (mem s')) \/
     (r = -1 /\ l = [] /\ vm_ok [] (v :: fr) pg s' /\ mem s' = w /\
      owned w pg = owned (mem s) pg /\
      (forall j, 0 <= j < 2^20 -> entry w pg j = entry (mem s) pg j))).
Proof.
  intros Hvm Hkw Hbw Hk Hnone Hperm.
  destruct (vm_write _ _ _ _ w Hvm Hbw) as (Hvm1 & Ht1 & Hf1 & He1).
  { eapply keeps_weaken; [done|]. intros p [->|[]%elem_of_nil]%elem_of_cons. by left. }
  destruct (mappages_user l fr v pg k perm _ Hvm1 Hk) as (r & s' & E & R & Hc); try done.
  { cbn. rewrite He1; [done|]. change (KERNBASE / PGSIZE) with 524288 in Hk. lia. }
  exists r, s'. split; [done|]. split; [eapply vmrel_trans; [apply vmrel_mem|done]|].
  destruct Hc as [(-> & (l' & (P1 & P2 & P3 & P4) & P5) & Pf)|(-> & -> & P1 & P2)];
    [left|right; split_and!; try done; unfold owned; by rewrite Ht1, Hf1].
  cbn [mem set_mem] in *. unfold reserve in P2, P4. rewrite Ht1 in P2, P4. rewrite Hf1 in Pf.
  split; [done|]. exists l'. split_and!; try done.
  - intros j Hj. rewrite P3, He1 by done. done.
  - apply P4.
    + eapply vm_page; [exact Hvm|]. rewrite !elem_of_app, elem_of_cons. tauto.
    + intros Hin%elem_of_cnt. pose proof (vm_cnt _ _ _ _ v Hvm) as K.
      rewrite cnt_app, cnt_cons in Hin. rewrite cnt_cons, one_refl in K. lia.
  - eapply (keeps_trans _ _ _ w); [|done|].
    + eapply keeps_weaken; [done|]. intros p [->|[]%elem_of_nil]%elem_of_cons. by left.
    + intros p Hp. by right.
Qed.

(** A fresh zeroed page, writable by the user, is mapped at [j]. *)
Definition fresh_page (l : list Z) (m : Z -> Z) (pg j : Z) : Prop :=
  exists v, v ∈ l /\ entry m pg j = Some (Z.lor (Z.lor (v2p v) (Z.lor PTE_W PTE_U)) PTE_P) /\
    forall x, v <= x < v + PGSIZE -> m x = 0.

Lemma takes1_length l l' : takes1 l l' -> (length l <= S (length l'))%nat.
Proof. intros [->|[v ->]]; cbn; lia. Qed.

Lemma takes1_in l l' p : takes1 l l' -> p ∈ l' -> p ∈ l.
Proof. intros [->|[v ->]]; [done|]. by right. Qed.

Section Allocuvm.
Context (pg oldsz newsz : Z).
Let k0 := pages oldsz.
Let lim := pages newsz.

(** All pages from [k] on are there, fresh and zeroed. *)
Definition alloc_done (l fr : list Z) (k : Z) (s s' : kst) : Prop :=
  exists l', vm_ok l' fr pg s' /\ l' ++ owned (mem s') pg ≡ₚ l ++ owned (mem s) pg /\
    (forall j, 0 <= j < 2^20 -> ~ (k <= j < lim) -> entry (mem s') pg j = entry (mem s) pg j) /\
    (forall j, k <= j < lim -> fresh_page l (mem s') pg j) /\
    keeps (reserve l (mem s) pg) (mem s) (mem s').

(** Memory ran out, from page [k] on: the range is unmapped and 0 returned, or only
    the last page is missing and [newsz] returned; a page may be lost. *)
Definition alloc_short (k : Z) (lost l fr : list Z) (r : Z) (s s' : kst) : Prop :=
  exists l', vm_ok l' (lost ++ fr) pg s' /\
    l' ++ owned (mem s') pg ++ lost ≡ₚ l ++ owned (mem s) pg /\
    (forall j, 0 <= j < 2^20 -> ~ (k0 <= j < lim) -> entry (mem s') pg j = entry (mem s) pg j) /\
    ((r = 0 /\ forall j, k0 <= j < lim -> entry (mem s') pg j = None) \/
     (r = newsz /\ lost <> [] /\ entry (mem s') pg (lim - 1) = None /\
      (forall j, k0 <= j < k -> entry (mem s') pg j = entry (mem s) pg j) /\
      (forall j, k <= j < lim - 1 -> entry (mem s') pg j <> None))).

Lemma alloc_short_step k lost lk l l1 fr r s s1 s' :
  alloc_short (k + 1) lost l1 (lk ++ fr) r s1 s' -> k0 <= k ->
  (r = newsz -> (forall j, k0 <= j < k -> entry (mem s1) pg j = entry (mem s) pg j) /\ entry (mem s1) pg k <> None) ->
  l1 ++ owned (mem s1) pg ++ lk ≡ₚ l ++ owned (mem s) pg ->
  (forall j, 0 <= j < 2^20 -> ~ (k0 <= j < lim) -> entry (mem s1) pg j = entry (mem s) pg j) ->
  alloc_short k (lost ++ lk) l fr r s s'.
Proof.
  intros (l' & H1 & H2 & H3 & H4) Hk Hr Hp He. exists l'. rewrite <- app_assoc. split; [done|]. split.
  - clear -H2 Hp. perm_solve.
  - split; [intros j Hj Hn; by rewrite H3, He|]. destruct H4 as [?|(-> & Hl & H5 & H6 & H7)]; [by left|right].
    destruct Hr as [R1 R2]; [done|]. split_and!; try done; [by destruct lost| |].
    + intros j Hj. rewrite H6 by lia. by apply R1.
    + intros j Hj. destruct (decide (j = k)) as [->|]; [by rewrite H6 by lia|]. apply H7. lia.
Qed.

Hypothesis Hold : 0 <= oldsz <= newsz.
Hypothesis Hnew : newsz < KERNBASE.

Lemma lim_range : 0 <= k0 <= lim /\ lim <= KERNBASE / PGSIZE /\ lim < 2^20 - 1024.
Proof using Hold Hnew.
  unfold k0, lim, pages. change (KERNBASE / PGSIZE) with 524288. unfold PGSIZE, KERNBASE in *. zdm.
Qed.

Lemma below_newsz k : PGSIZE * k < newsz <-> k < lim.
Proof using Hold Hnew. unfold lim, pages, PGSIZE. split; intros; zdm. Qed.

(** The turn of the loop that finds no free page. *)
Lemma alloc_out n fr k s :
  vm_ok [] fr pg s -> k0 <= k < lim -> dealloc_start (mem s) pg k0 lim ->
  exists s', allocuvm_loop (S n) pg (PGSIZE * k) oldsz newsz s = Ok 0 s' /\ vmrel s s' /\
    alloc_short k [] [] fr 0 s s'.
Proof using Hold Hnew.
  intros Hvm Hk Hst. cbn [allocuvm_loop]. pose proof lim_range.
  destruct (Z.ltb_spec (PGSIZE * k) newsz) as [Hlt|Hge]; [|apply Z.le_ngt in Hge; rewrite below_newsz in Hge; lia].
  destruct (kalloc_vm _ _ _ _ Hvm) as (v & s1 & E1 & R1 & Em & [(-> & _ & Hvm1)|(l' & ? & _)]); [|done].
  rewrite (bind_Ok _ _ _ _ _ E1). cbn [Z.eqb].
  destruct (deallocuvm_spec [] fr pg newsz oldsz s1 Hvm1) as (s2 & l2 & E2 & (R2 & Hvm2 & Ha2 & Hl2 & _) & Hc2).
  { split; [lia|]. unfold k0, pages, PGSIZE in *. zdm. }
  { lia. }
  { by rewrite Em. }
  rewrite (bind_Ok _ _ _ _ _ E2). fold k0 lim in Hc2. rewrite Em in *. exists s2. split; [done|].
  split; [by eapply vmrel_trans|]. exists l2. split; [done|]. split.
  { unfold owned. rewrite (tabs_ext (mem s)) by done. clear -Hl2. perm_solve. }
  split.
  - intros j Hj Hn. rewrite Hc2 by done. bool_cases; lia || done.
  - left. split; [done|]. intros j Hj. rewrite Hc2 by lia. bool_cases; lia || done.
Qed.

(** The rest of the loop after page [v] has been mapped at [k]. *)
Lemma alloc_done_step l l1 fr v k s s1 w s' :
  vm_ok l1 fr pg s1 -> takes1 l l1 -> 0 <= k < lim ->
  reserve l1 (mem s1) pg ≡ₚ reserve l (mem s) pg -> frames (mem s1) pg ≡ₚ v :: frames (mem s) pg ->
  (forall j, 0 <= j < 2^20 -> entry (mem s1) pg j =
     if j =? k then Some (Z.lor (Z.lor (v2p v) (Z.lor PTE_W PTE_U)) PTE_P) else entry (mem s) pg j) ->
  agree w (mem s1) v -> (forall x, v <= x < v + PGSIZE -> w x = 0) ->
  keeps (v :: reserve l (mem s) pg) (mem s) (mem s1) ->
  alloc_done l1 fr (k + 1) s1 s' -> alloc_done (v :: l) fr k s s'.
Proof using Hold Hnew.
  intros Hvm Ht Hk Hr Hf He Hag Hw Hkeep (l' & A1 & A2 & A3 & A4 & A5). pose proof lim_range.
  assert (v ∈ frames (mem s1) pg) as Hv by (rewrite Hf; by left).
  assert (agree (mem s1) (mem s') v) as Hav.
  { apply A5.
    - exact (vm_frame_page _ _ _ _ _ Hvm Hv).
    - apply elem_of_cnt in Hv. pose proof (vm_cnt _ _ _ _ v Hvm) as K. unfold reserve.
      rewrite elem_of_cnt, cnt_app, cnt_cons. lia. }
  exists l'. split; [done|]. split.
  { rewrite A2. unfold owned, reserve in *. clear -Hr Hf. perm_solve. }
  split; [|split].
  - intros j Hj Hn. rewrite A3, He by lia. destruct (Z.eqb_spec j k); [lia|done].
  - intros j Hj. destruct (decide (j = k)) as [->|].
    + exists v. split; [by left|]. split; [rewrite A3, He by lia; by rewrite Z.eqb_refl|].
      intros x Hx. rewrite Hav, Hag by done. by apply Hw.
    + destruct (A4 j) as (p & Hin & Hent & Hz); [lia|]. exists p. split_and!; try done.
      right. by eapply takes1_in.
  - eapply (keeps_trans (reserve (v :: l) (mem s) pg)); [exact Hkeep|exact A5|].
    intros p. rewrite Hr. by right.
Qed.

Lemma entry_tab m k : entry m pg k <> None -> tab m pg (k / 1024) <> None.
Proof using Type. unfold entry. by destruct (tab m pg (k / 1024)). Qed.

Lemma alloc_start k m :
  k0 <= k -> (forall j, k <= j < lim -> entry m pg j = None) ->
  (k = k0 \/ entry m pg k0 <> None) -> dealloc_start m pg k0 lim.
Proof using Type.
  intros Hk Hnone [->|He]; [by right; right|]. right. left. by apply entry_tab.
Qed.

(** One turn that finds a free page, up to the next test of the loop. *)
Lemma alloc_turn n l fr v k s :
  vm_ok (v :: l) fr pg s -> k0 <= k < lim -> entry (mem s) pg k = None ->
  exists s1, vmrel s s1 /\
    allocuvm_loop (S n) pg (PGSIZE * k) oldsz newsz s =
      allocuvm_loop n pg (PGSIZE * (k + 1)) oldsz newsz s1 /\
    ((exists l1, vm_ok l1 fr pg s1 /\ takes1 l l1 /\
        reserve l1 (mem s1) pg ≡ₚ reserve l (mem s) pg /\ frames (mem s1) pg ≡ₚ v :: frames (mem s) pg /\
        (forall j, 0 <= j < 2^20 -> entry (mem s1) pg j =
          if j =? k then Some (Z.lor (Z.lor (v2p v) (Z.lor PTE_W PTE_U)) PTE_P) else entry (mem s) pg j) /\
        agree (mfill (mem s) v 0 PGSIZE) (mem s1) v /\
        keeps (v :: reserve l (mem s) pg) (mem s) (mem s1)) \/
     (l = [] /\ vm_ok [] (v :: fr) pg s1 /\ owned (mem s1) pg = owned (mem s) pg /\
      forall j, 0 <= j < 2^20 -> entry (mem s1) pg j = entry (mem s) pg j)).
Proof using Hold Hnew.
  intros Hvm Hk Hnone. cbn [allocuvm_loop]. pose proof lim_range as Hlr.
  destruct (Z.ltb_spec (PGSIZE * k) newsz) as [Hlt|Hge]; [|apply Z.le_ngt in Hge; rewrite below_newsz in Hge; lia].
  destruct (kalloc_vm _ _ _ _ Hvm) as (p & s1 & E1 & R1 & Em & [(_ & ? & _)|(l' & [= <- <-] & Hv & Hpv & Hvm1)]); [done|].
  rewrite (bind_Ok _ _ _ _ _ E1). destruct (Z.eqb_spec v 0); [done|].
  unfold bind at 1, modify at 1. rewrite Em in *.
  assert (0 <= k < KERNBASE / PGSIZE) as HkN by (change (KERNBASE / PGSIZE) with 524288 in *; lia).
  destruct (add_page l fr pg k (Z.lor PTE_W PTE_U) v (mfill (mem s) v 0 PGSIZE) s1 Hvm1)
    as (r & s2 & E2 & R2 & Hc); rewrite ?Em; try done.
  { intros p Hp Hpn. apply agree_mfill; [done..|]. intros ->. apply Hpn. by left. }
  { apply mfill_bytes; [|done]. apply Hvm. }
  rewrite (bind_Ok _ _ _ _ _ E2). rewrite u32_small by (unfold PGSIZE, KERNBASE in *; lia).
  replace (PGSIZE * k + PGSIZE) with (PGSIZE * (k + 1)) by (unfold PGSIZE; lia).
  exists s2. split; [by eapply vmrel_trans|]. split; [done|]. rewrite Em in Hc.
  destruct Hc as [(-> & l1 & C1 & C2 & C3 & C4 & C5 & C6 & C7)|(-> & -> & C1 & C2 & C3 & C4)]; [left|right].
  - exists l1. by split_and!.
  - rewrite C2. by split_and!.
Qed.

(** The loop past its end. *)
Lemma alloc_exit n l fr k s :
  vm_ok l fr pg s -> lim <= k ->
  allocuvm_loop n pg (PGSIZE * k) oldsz newsz s = Ok newsz s /\ alloc_done l fr k s s.
Proof using Hold Hnew.
  intros Hvm Hk. split.
  - assert ((PGSIZE * k <? newsz) = false) as E.
    { apply Z.ltb_ge, Z.le_ngt. rewrite below_newsz. lia. }
    destruct n; cbn [allocuvm_loop]; by rewrite E.
  - exists l. split_and!; try done. intros; lia.
Qed.

Lemma allocuvm_loop_spec n : forall k l fr s,
  vm_ok l fr pg s -> k0 <= k -> lim - k <= Z.of_nat n ->
  (forall j, k <= j < lim -> entry (mem s) pg j = None) ->
  (k = k0 \/ entry (mem s) pg k0 <> None) ->
  exists r s', allocuvm_loop n pg (PGSIZE * k) oldsz newsz s = Ok r s' /\ vmrel s s' /\
    ((r = newsz /\ alloc_done l fr k s s') \/
     (Z.of_nat (length l) < 2 * (lim - k) /\
      exists lost, (length lost <= 1)%nat /\ alloc_short k lost l fr r s s')).
Proof using Hold Hnew.
  pose proof lim_range as Hlr.
  induction n as [|n IH]; intros k l fr s Hvm Hk Hn Hnone Hst;
    destruct (decide (k < lim)) as [Hlt|Hge].
  1: lia.
  1,3: destruct (alloc_exit 0 l fr k s Hvm ltac:(lia)) as [_ Hd];
    eexists newsz, s; split; [by apply alloc_exit with l fr; [|lia]|]; split; [apply vmrel_refl|]; by left.
  destruct l as [|v l].
  - destruct (alloc_out n fr k s Hvm) as (s' & E & R & Hsh); [done|by eapply alloc_start|].
    exists 0, s'. split_and!; try done. right. split; [cbn [length]; lia|]. exists []. by split; [cbn; lia|].
  - destruct (alloc_turn n l fr v k s Hvm) as (s1 & R1 & E1 & Hc); [lia|apply Hnone; lia|].
    rewrite E1. destruct Hc as [(l1 & C1 & C2 & C3 & C4 & C5 & C6 & C7)|(-> & C1 & C2 & C3)].
    + destruct (IH (k + 1) l1 fr s1 C1) as (r & s' & E & R & Hcase); try lia.
      { intros j Hj. rewrite C5 by lia. destruct (Z.eqb_spec j k); [lia|]. apply Hnone. lia. }
      { right. rewrite C5 by lia. destruct (Z.eqb_spec k0 k); [done|]. destruct Hst; [lia|done]. }
      exists r, s'. split; [done|]. split; [by eapply vmrel_trans|].
      destruct Hcase as [[-> Hd]|(Hlen & lost & Hl1 & Hsh)]; [left|right].
      * split; [done|]. eapply alloc_done_step; try done; [lia|]. intros x Hx. by apply mfill_in.
      * apply takes1_length in C2. split; [cbn [length]; lia|]. exists lost. split; [done|].
        replace lost with (lost ++ []) by apply app_nil_r.
        eapply (alloc_short_step k lost []); [done|lia| | |].
        -- intros _. split; [intros j Hj; rewrite C5 by lia; by rewrite (proj2 (Z.eqb_neq _ _)) by lia|].
           rewrite C5 by lia. by rewrite Z.eqb_refl.
        -- unfold owned, reserve in *. clear -C3 C4. perm_solve.
        -- intros j Hj Hjn. rewrite C5 by done. destruct (Z.eqb_spec j k); [lia|done].
    + assert ([] ++ owned (mem s1) pg ++ [v] ≡ₚ [v] ++ owned (mem s) pg) as Hp by (rewrite C2; perm_solve).
      destruct (decide (k + 1 < lim)) as [Hlt1|Hge1].
      * destruct n as [|n]; [lia|].
        destruct (alloc_out n (v :: fr) (k + 1) s1 C1) as (s' & E & R & Hsh); [lia| |].
        { eapply (alloc_start k); [done| |].
          - intros j Hj. rewrite C3 by lia. apply Hnone. lia.
          - rewrite C3 by lia. done. }
        exists 0, s'. split; [done|]. split; [by eapply vmrel_trans|]. right. split; [cbn [length]; lia|].
        exists ([] ++ [v]). split; [done|]. 
        change (v :: fr) with ([v] ++ fr) in Hsh.
        eapply alloc_short_step; [exact Hsh|lia| |exact Hp|].
        { intros E0. exfalso. unfold lim in Hlt1. rewrite <- E0 in Hlt1. change (pages 0) with 0 in Hlt1. lia. }
        intros j Hj Hjn. by apply C3.
      * destruct (alloc_exit n [] (v :: fr) (k + 1) s1 C1) as [E _]; [lia|].
        exists newsz, s1. split; [done|]. split; [done|]. right. split; [cbn [length]; lia|].
        exists [v]. split; [done|]. exists []. split; [exact C1|]. split; [exact Hp|]. split.
        -- intros j Hj Hjn. by apply C3.
        -- right. split_and!; try done; [rewrite C3 by lia; apply Hnone; lia| |intros; lia]. intros j Hj. apply C3. lia.
Qed.

End Allocuvm.

End VmSpec.
