(* ===== verification/UserMem.v ===== *)
(** * User memory as a process sees it

    What the kernel's accesses through user addresses mean for the memory of
    the process: [uread] reads it, [uwrite] changes the bytes written and no
    others, and leaves page tables, free pages and other processes alone. *)

From S2P Require Import Prelude State Mem Spinlock Sched Kalloc Vm VmFacts VmSpec.

#[local] Opaque NUP NPDENTRIES.

(** The byte at [va], if it is mapped. *)
Definition uview (m : Z -> Z) (pg va : Z) : option Z := m <$> translate m pg va false.

(** [va] can be written. *)
Definition uwritable (m : Z -> Z) (pg va : Z) : Prop := is_Some (translate m pg va true).

(** ** Address translation *)

Lemma PDX_div va : 0 <= va < 2^32 -> PDX va = va / PGSIZE / 1024.
Proof.
  intros Hva. unfold PDX, PGSIZE. change 0x3FF with (2^10 - 1). rewrite land_ones_mod, Z.shiftr_div_pow2 by lia.
  change (2^22) with 4194304. change (2^10) with 1024. zdm.
Qed.

Lemma PTX_div va : 0 <= va < 2^32 -> PTX va = (va / PGSIZE) mod 1024.
Proof.
  intros Hva. unfold PTX, PGSIZE. change 0x3FF with (2^10 - 1). rewrite land_ones_mod, Z.shiftr_div_pow2 by lia.
  change (2^12) with 4096. change (2^10) with 1024. zdm.
Qed.

(** The processor's walk in terms of the entries. *)
Lemma translate_entry m pg va w : 0 <= va < 2^32 ->
  translate m pg va w =
    match entry m pg (va / PGSIZE) with
    | None => None
    | Some e =>
      if negb w || (has e PTE_W && has (ld32 m (pg + 4 * (va / PGSIZE / 1024))) PTE_W)
      then Some (p2v (PTE_ADDR e) + va mod PGSIZE) else None
    end.
Proof.
  intros Hva. unfold translate, pte_addr, entry, tab. rewrite PDX_div, PTX_div by done.
  destruct (has _ PTE_P) eqn:E1; [|done]. destruct (has (ld32 m (p2v _ + _)) PTE_P) eqn:E2; [|done]. done.
Qed.

Lemma translate_read m pg va a : translate m pg va true = Some a -> translate m pg va false = Some a.
Proof.
  unfold translate. destruct (pte_addr _ _ _); [|done]. destruct (has _ PTE_P); [|done]. cbn. by destruct (_ && _).
Qed.

Lemma translate_frame m pg va a : 0 <= va < 2^32 -> translate m pg va false = Some a ->
  exists f, frame m pg (va / PGSIZE) = Some f /\ a = f + va mod PGSIZE.
Proof.
  intros Hva. rewrite translate_entry by done. unfold frame. destruct (entry _ _ _) as [e|]; [|done].
  cbn. intros [= <-]. by eexists.
Qed.

Lemma user_page va : 0 <= va < KERNBASE -> 0 <= va / PGSIZE < KERNBASE / PGSIZE.
Proof. unfold KERNBASE, PGSIZE. intros. zdm. Qed.

Lemma user_u32 va : 0 <= va < KERNBASE -> 0 <= va < 2^32.
Proof. unfold KERNBASE. lia. Qed.

(** Reading changes nothing. *)
Lemma uread_state n : forall va s l t, uread va n s = Ok l t -> t = s.
Proof.
  induction n as [|n IH]; intros va s l t; cbn [uread]; [by intros [= _ <-]|]. rewrite bind_gets.
  destruct (translate _ _ _ _); [|done]. rewrite bind_gets.
  destruct (uread (va + 1) n s) as [l' t'|] eqn:E; [|by rewrite (bind_Halt _ _ _ _ _ E)].
  rewrite (bind_Ok _ _ _ _ _ E). intros [= _ <-]. by eapply IH.
Qed.

Section UserMem.
Context `{KI : KernelImage}.

Lemma translate_ext m m' pg va w :
  agree m m' pg -> (forall t, t ∈ tabs m pg -> agree m m' t) -> 0 <= va < 2^32 ->
  translate m' pg va w = translate m pg va w.
Proof.
  intros Ha Ht Hva. rewrite !translate_entry by done. rewrite (entry_ext m m') by (done || unfold PGSIZE; zdm).
  rewrite (agree_ld32 m m'); [done|done|unfold PGSIZE; zdm..].
Qed.

Lemma frame_inj l fr pg s i j f :
  vm_ok l fr pg s -> 0 <= i < KERNBASE / PGSIZE -> 0 <= j < KERNBASE / PGSIZE ->
  frame (mem s) pg i = Some f -> frame (mem s) pg j = Some f -> i = j.
Proof.
  intros (_ & _ & _ & Hn & _) Hi Hj Ei Ej. apply NoDup_app in Hn as (_ & _ & Hn). apply NoDup_app in Hn as (Hn & _).
  unfold owned in Hn. apply NoDup_cons in Hn as [_ Hn]. apply NoDup_app in Hn as (_ & _ & Hn).
  pose proof NUP_Z as EN. assert (Z.to_nat i = Z.to_nat j) as E.
  { apply (omap_NoDup_inj _ _ _ _ f Hn).
    - apply elem_of_seq. lia.
    - apply elem_of_seq. lia.
    - rewrite Z2Nat.id by lia. exact Ei.
    - rewrite Z2Nat.id by lia. exact Ej. }
  lia.
Qed.

Lemma frame_page l fr pg s i f :
  vm_ok l fr pg s -> 0 <= i < KERNBASE / PGSIZE -> frame (mem s) pg i = Some f ->
  page_ok f /\ (f ∈ frames (mem s) pg) /\ (f ∉ l) /\ f <> pg /\ (f ∉ tabs (mem s) pg) /\ f ∉ fr.
Proof.
  intros Hvm Hi Ef. assert (f ∈ frames (mem s) pg) as Hf by (apply elem_of_frames; eauto).
  split; [by eapply vm_frame_page|]. split; [done|]. destruct Hvm as (_ & _ & _ & Hn & _).
  apply NoDup_app in Hn as (_ & Hd1 & Hn). apply NoDup_app in Hn as (Hn & Hd2 & _).
  assert (f ∈ owned (mem s) pg) as Ho by (unfold owned; rewrite elem_of_cons, elem_of_app; tauto).
  unfold owned in Hn. apply NoDup_cons in Hn as [Hn1 Hn]. apply NoDup_app in Hn as (_ & Hd3 & _). split_and!.
  - intros Hl. apply (Hd1 f Hl), elem_of_app. by left.
  - intros ->. apply Hn1, elem_of_app. by right.
  - intros Ht. by apply (Hd3 f Ht).
  - by apply Hd2.
Qed.

(** A change of user memory only. *)
Lemma keeps_frames l fr pg s m :
  vm_ok l fr pg s -> keeps (frames (mem s) pg) (mem s) m ->
  agree (mem s) m pg /\ (forall t, t ∈ tabs (mem s) pg -> agree (mem s) m t) /\
  (forall p, p ∈ l -> agree (mem s) m p).
Proof.
  intros (_ & _ & _ & Hn & Hp) Hk. rewrite !Forall_app in Hp. destruct Hp as (Hpl & Hpo & _).
  unfold owned in Hpo, Hn. rewrite Forall_cons, Forall_app in Hpo. destruct Hpo as (Hpg & Hpt & _).
  apply NoDup_app in Hn as (_ & Hd1 & Hn). apply NoDup_app in Hn as (Hn & _).
  apply NoDup_cons in Hn as [Hn1 Hn]. apply NoDup_app in Hn as (_ & Hd3 & _). split_and!.
  - apply Hk; [done|]. intros H. apply Hn1, elem_of_app. by right.
  - intros t Ht. rewrite Forall_forall in Hpt. apply Hk; [by apply Hpt|]. by apply Hd3.
  - intros p Hl. rewrite Forall_forall in Hpl. apply Hk; [by apply Hpl|]. intros H. apply (Hd1 p Hl).
    rewrite elem_of_app, elem_of_cons, elem_of_app. tauto.
Qed.

Lemma vm_ok_user l fr pg s m :
  vm_ok l fr pg s -> keeps (frames (mem s) pg) (mem s) m -> (forall x, is_byte (m x)) ->
  vm_ok l fr pg (set_mem m s) /\ owned m pg = owned (mem s) pg.
Proof.
  intros Hvm Hk Hb. destruct (keeps_frames _ _ _ _ _ Hvm Hk) as (H1 & H2 & H3).
  pose proof (owned_ext _ _ _ H1 H2) as Eo. split; [|done]. unfold vm_ok. cbn [mem set_mem]. rewrite Eo.
  destruct Hvm as (Hf & Hr & _ & Hn & Hp). split; [by apply free_pages_agree|]. done.
Qed.

(** [bs] was stored at [va], and nothing else has changed. *)
Record ustored (pg va : Z) (bs : list Z) (m m' : Z -> Z) : Prop := {
  us_in : forall k b, bs !! k = Some b -> uview m' pg (va + Z.of_nat k) = Some b;
  us_out : forall v, 0 <= v < KERNBASE -> ~ (va <= v < va + Z.of_nat (length bs)) -> uview m' pg v = uview m pg v;
  us_keep : keeps (frames m pg) m m';
  us_trans : forall v w, 0 <= v < 2^32 -> translate m' pg v w = translate m pg v w }.

Lemma ustored_byte l fr pg s va a b :
  vm_ok l fr pg s -> 0 <= va < KERNBASE -> translate (mem s) pg va true = Some a ->
  ustored pg va [b] (mem s) (mwrite (mem s) a [b]).
Proof.
  intros Hvm Hva Ht. pose proof (user_u32 _ Hva) as Hu. pose proof (translate_read _ _ _ _ Ht) as Htr.
  destruct (translate_frame _ _ _ _ Hu Htr) as (f & Hf & ->).
  destruct (frame_page _ _ _ _ _ _ Hvm (user_page _ Hva) Hf) as (Hfp & Hff & _).
  assert (keeps (frames (mem s) pg) (mem s) (mwrite (mem s) (f + va mod PGSIZE) [b])) as Hk.
  { intros p Hp Hnf x Hx. apply mwrite_out. cbn. assert (p <> f) as Hne by (by intros ->).
    pose proof (page_cases p f Hp Hfp Hne). pose proof (Z.mod_pos_bound va PGSIZE eq_refl). lia. }
  destruct (keeps_frames _ _ _ _ _ Hvm Hk) as (H1 & H2 & _).
  assert (forall v w, 0 <= v < 2^32 ->
    translate (mwrite (mem s) (f + va mod PGSIZE) [b]) pg v w = translate (mem s) pg v w) as Htx
    by (intros v w Hv; by apply translate_ext).
  split; [| |done|done].
  - intros [|k] b'; [|done]. intros [= <-]. unfold uview. rewrite Z.add_0_r, Htx, Htr by done. cbn. f_equal.
    rewrite mwrite_in by (cbn; lia). by rewrite Z.sub_diag.
  - intros v Hv Hne. cbn in Hne. unfold uview. rewrite Htx by (by apply user_u32).
    destruct (translate (mem s) pg v false) as [c|] eqn:Ec; [|done]. cbn. f_equal. apply mwrite_out. cbn.
    destruct (translate_frame _ _ _ _ (user_u32 _ Hv) Ec) as (f' & Hf' & ->).
    destruct (decide (f' = f)) as [->|Hff'].
    + pose proof (frame_inj _ _ _ _ _ _ _ Hvm (user_page _ Hv) (user_page _ Hva) Hf' Hf) as E.
      unfold PGSIZE in *. zdm.
    + destruct (frame_page _ _ _ _ _ _ Hvm (user_page _ Hv) Hf') as (Hfp' & _).
      pose proof (page_cases f' f Hfp' Hfp Hff'). pose proof (Z.mod_pos_bound va PGSIZE eq_refl).
      pose proof (Z.mod_pos_bound v PGSIZE eq_refl). lia.
Qed.

Lemma frames_stored l fr pg s va bs m :
  vm_ok l fr pg s -> ustored pg va bs (mem s) m -> frames m pg = frames (mem s) pg.
Proof. intros Hvm Hs. destruct (keeps_frames _ _ _ _ _ Hvm (us_keep _ _ _ _ _ Hs)) as (H1 & H2 & _). by apply frames_ext. Qed.

(** One after the other. *)
Lemma ustored_cons l fr pg s va b bs m1 m2 :
  vm_ok l fr pg s -> 0 <= va -> va + Z.of_nat (length (b :: bs)) <= KERNBASE ->
  ustored pg va [b] (mem s) m1 -> ustored pg (va + 1) bs m1 m2 -> ustored pg va (b :: bs) (mem s) m2.
Proof.
  intros Hvm Hva Hl H1 H2. cbn [length] in Hl. split.
  - intros [|k] b' Hk.
    + injection Hk as <-. rewrite (us_out _ _ _ _ _ H2) by lia. by apply (us_in _ _ _ _ _ H1).
    + replace (va + Z.of_nat (S k)) with (va + 1 + Z.of_nat k) by lia. by apply (us_in _ _ _ _ _ H2).
  - intros v Hv Hne. cbn [length] in Hne. rewrite (us_out _ _ _ _ _ H2) by lia.
    apply (us_out _ _ _ _ _ H1); [done|]. cbn. lia.
  - eapply keeps_trans; [apply (us_keep _ _ _ _ _ H1)|apply (us_keep _ _ _ _ _ H2)|].
    by rewrite (frames_stored _ _ _ _ _ _ _ Hvm H1).
  - intros v w Hv. by rewrite (us_trans _ _ _ _ _ H2), (us_trans _ _ _ _ _ H1).
Qed.

Lemma ustored_nil pg va m : ustored pg va [] m m.
Proof. split; [done|done|apply keeps_refl|done]. Qed.

(** [uwrite] stores, where all bytes are writable. *)
Lemma uwrite_stored l fr pg bs : forall va s,
  vm_ok l fr pg s -> c_cr3 (cpu s) = pg -> 0 <= va -> va + Z.of_nat (length bs) <= KERNBASE ->
  (forall k, (k < length bs)%nat -> uwritable (mem s) pg (va + Z.of_nat k)) -> Forall is_byte bs ->
  exists m, uwrite va bs s = Ok tt (set_mem m s) /\ ustored pg va bs (mem s) m /\ vm_ok l fr pg (set_mem m s).
Proof.
  induction bs as [|b bs IH]; intros va s Hvm Hc Hva Hl Hw Hb.
  - exists (mem s). split; [cbn; by destruct s|]. split; [apply ustored_nil|done].
  - cbn [length] in Hl. apply Forall_cons in Hb as [Hb1 Hb]. destruct (Hw 0%nat) as [a Ha]; [cbn; lia|].
    rewrite Z.add_0_r in Ha.
    pose proof (ustored_byte l fr pg s va a b Hvm ltac:(lia) Ha) as H1.
    destruct (vm_ok_user _ _ _ _ _ Hvm (us_keep _ _ _ _ _ H1)) as [Hvm1 _].
    { apply mwrite_bytes; [|by apply Forall_singleton]. by destruct Hvm as (_ & _ & Hby & _). }
    destruct (IH (va + 1) (set_mem (mwrite (mem s) a [b]) s) Hvm1 Hc) as (m & E & H2 & Hvm2); [lia|lia| |done|].
    { intros k Hk. unfold uwritable. cbn [mem set_mem]. rewrite (us_trans _ _ _ _ _ H1) by (unfold KERNBASE in *; lia).
      replace (va + 1 + Z.of_nat k) with (va + Z.of_nat (S k)) by lia. apply Hw. cbn. lia. }
    exists m. split_and!; [|by eapply ustored_cons|done].
    cbn [uwrite]. rewrite bind_gets, Hc, u32_small by (unfold KERNBASE in *; lia). rewrite Ha, bind_modify, E. by destruct s.
Qed.

(** Storing twice at the same place. *)
Lemma ustored_over l fr pg s va bs bs' m1 m2 :
  vm_ok l fr pg s -> length bs' = length bs ->
  ustored pg va bs (mem s) m1 -> ustored pg va bs' m1 m2 -> ustored pg va bs' (mem s) m2.
Proof.
  intros Hvm El H1 H2. split.
  - apply (us_in _ _ _ _ _ H2).
  - intros v Hv Hne. rewrite (us_out _ _ _ _ _ H2) by done. rewrite El in Hne. by apply (us_out _ _ _ _ _ H1).
  - eapply keeps_trans; [apply (us_keep _ _ _ _ _ H1)|apply (us_keep _ _ _ _ _ H2)|].
    by rewrite (frames_stored _ _ _ _ _ _ _ Hvm H1).
  - intros v w Hv. by rewrite (us_trans _ _ _ _ _ H2), (us_trans _ _ _ _ _ H1).
Qed.

(** What the process sees of it. *)
Definition uchanged (pg va : Z) (bs : list Z) (m m' : Z -> Z) : Prop :=
  (forall k b, bs !! k = Some b -> uview m' pg (va + Z.of_nat k) = Some b) /\
  (forall v, 0 <= v < KERNBASE -> ~ (va <= v < va + Z.of_nat (length bs)) -> uview m' pg v = uview m pg v).

Lemma uview_ext l fr pg s m v :
  vm_ok l fr pg s -> (forall p, p ∈ owned (mem s) pg -> agree (mem s) m p) -> 0 <= v < KERNBASE ->
  uview m pg v = uview (mem s) pg v.
Proof.
  intros Hvm Ha Hv. pose proof (user_u32 _ Hv) as Hu. unfold uview, owned in *.
  rewrite (translate_ext (mem s) m); [|apply Ha; by left|intros t Ht; apply Ha; rewrite elem_of_cons, elem_of_app; tauto|done].
  destruct (translate (mem s) pg v false) as [a|] eqn:Et; [|done]. cbn. f_equal.
  destruct (translate_frame _ _ _ _ Hu Et) as (f & Hf & ->).
  destruct (frame_page _ _ _ _ _ _ Hvm (user_page _ Hv) Hf) as (_ & Hff & _).
  apply (Ha f); [rewrite elem_of_cons, elem_of_app; tauto|]. pose proof (Z.mod_pos_bound v PGSIZE eq_refl). lia.
Qed.

Lemma ustored_changed l fr pg s va bs m' m :
  vm_ok l fr pg (set_mem m' s) -> ustored pg va bs (mem s) m' -> 0 <= va -> va + Z.of_nat (length bs) <= KERNBASE ->
  (forall p, p ∈ owned m' pg -> agree m' m p) -> uchanged pg va bs (mem s) m.
Proof.
  intros Hvm Hs Hva Hl Ha. split.
  - intros k b Hk. apply lookup_lt_Some in Hk as Hk'. rewrite (uview_ext _ _ _ _ m _ Hvm Ha) by lia.
    by apply (us_in _ _ _ _ _ Hs).
  - intros v Hv Hne. rewrite (uview_ext _ _ _ _ m _ Hvm Ha) by lia. by apply (us_out _ _ _ _ _ Hs).
Qed.

(** [uread] reads. *)
Lemma uread_view pg n : forall va s l,
  c_cr3 (cpu s) = pg -> 0 <= va -> va + Z.of_nat n <= KERNBASE -> length l = n ->
  (forall k b, l !! k = Some b -> uview (mem s) pg (va + Z.of_nat k) = Some b) -> uread va n s = Ok l s.
Proof.
  induction n as [|n IH]; intros va s l Hc Hva Hn El Hv; destruct l as [|b l]; try done.
  cbn [uread]. rewrite bind_gets, Hc, u32_small by (unfold KERNBASE in *; lia).
  pose proof (Hv 0%nat b eq_refl) as H0. unfold uview in H0. rewrite Z.add_0_r in H0.
  destruct (translate (mem s) pg va false) as [a|]; [|done]. injection H0 as H0. rewrite bind_gets.
  rewrite (bind_Ok _ _ _ l s); [by rewrite H0|]. apply IH; [done|lia|lia|by injection El|].
  intros k b' Hk. replace (va + 1 + Z.of_nat k) with (va + Z.of_nat (S k)) by lia. by apply (Hv (S k)).
Qed.

Lemma ustored_app l fr pg s va bs bs' m1 m2 :
  vm_ok l fr pg s -> 0 <= va -> va + Z.of_nat (length (bs ++ bs')) <= KERNBASE ->
  ustored pg va bs (mem s) m1 -> ustored pg (va + Z.of_nat (length bs)) bs' m1 m2 -> ustored pg va (bs ++ bs') (mem s) m2.
Proof.
  intros Hvm Hva Hl H1 H2. rewrite length_app in Hl. split.
  - intros k b [Hk|[Hlen Hk]]%lookup_app_Some.
    + apply lookup_lt_Some in Hk as Hk'. rewrite (us_out _ _ _ _ _ H2) by lia. by apply (us_in _ _ _ _ _ H1).
    + replace (va + Z.of_nat k) with (va + Z.of_nat (length bs) + Z.of_nat (k - length bs)) by lia. by apply (us_in _ _ _ _ _ H2).
  - intros v Hv Hne. rewrite length_app in Hne. rewrite (us_out _ _ _ _ _ H2) by lia. apply (us_out _ _ _ _ _ H1); [done|lia].
  - eapply keeps_trans; [apply (us_keep _ _ _ _ _ H1)|apply (us_keep _ _ _ _ _ H2)|].
    by rewrite (frames_stored _ _ _ _ _ _ _ Hvm H1).
  - intros v w Hv. by rewrite (us_trans _ _ _ _ _ H2), (us_trans _ _ _ _ _ H1).
Qed.

(** Writable memory can be read, and writing back what is there changes nothing
    of what the process sees. *)
Lemma uread_back l fr pg n va s :
  vm_ok l fr pg s -> c_cr3 (cpu s) = pg -> 0 <= va -> va + Z.of_nat n <= KERNBASE ->
  (forall k, (k < n)%nat -> uwritable (mem s) pg (va + Z.of_nat k)) ->
  exists bs m, length bs = n /\ uread va n s = Ok bs s /\ uwrite va bs s = Ok tt (set_mem m s) /\
    ustored pg va bs (mem s) m /\ vm_ok l fr pg (set_mem m s) /\
    (forall v, 0 <= v < KERNBASE -> uview m pg v = uview (mem s) pg v).
Proof.
  intros Hvm Hc Hva Hn Hw. set (bs := (fun k => default 0 (uview (mem s) pg (va + Z.of_nat k))) <$> seq 0 n).
  assert (length bs = n) as El by (unfold bs; by rewrite length_fmap, length_seq).
  assert (forall k b, bs !! k = Some b -> uview (mem s) pg (va + Z.of_nat k) = Some b) as Hbs.
  { intros k b Hk. unfold bs in Hk. rewrite list_lookup_fmap in Hk. destruct (seq 0 n !! k) as [k'|] eqn:E; [|done].
    apply lookup_seq in E as [-> Hkn]. injection Hk as <-. destruct (Hw k Hkn) as [a Ha]. unfold uview.
    by rewrite (translate_read _ _ _ _ Ha). }
  assert (Forall is_byte bs) as Hby.
  { apply Forall_forall. intros b (k & Hk)%list_elem_of_lookup. pose proof (Hbs k b Hk) as Hv. unfold uview in Hv.
    destruct (translate _ _ _ _); [|done]. injection Hv as <-. by destruct Hvm as (_ & _ & Hb & _). }
  destruct (uwrite_stored l fr pg bs va s Hvm Hc Hva) as (m & E & Hs & Hvm'); [by rewrite El|by rewrite El|done|].
  exists bs, m. split_and!; [done|by apply (uread_view pg)|done|done|done|].
  intros v Hv. destruct (decide (va <= v < va + Z.of_nat (length bs))) as [Hin|Hout]; [|by apply (us_out _ _ _ _ _ Hs)].
  destruct (lookup_lt_is_Some_2 bs (Z.to_nat (v - va)) ltac:(lia)) as [b Hb].
  replace v with (va + Z.of_nat (Z.to_nat (v - va))) by lia. by rewrite (us_in _ _ _ _ _ Hs _ _ Hb), (Hbs _ _ Hb).
Qed.

End UserMem.
