(* ===== verification/Sample.v ===== *)
(** * A sample process

    A running process with one page of memory, on which theorems about
    operations on user memory are evaluated. *)

From S2P Require Import Prelude State Mem Spinlock Sched SchedFacts Kalloc Vm VmFacts VmSpec UserMem.

(** A page directory at 0x80400000 that maps the page at 0x1000, readable and
    writable by the user, to the physical page 0x402000, which holds [l]; the
    pages at 0x80404000 and 0x80405000 are free. *)
Definition sample_mem (l : list Z) : Z -> Z :=
  mwrite (st32 (st32 (st32 (fun _ => 0) 0x80404000 0x80405000) 0x80400000 0x401007) 0x80401004 0x402007) 0x80402000 l.

Definition sample_proc : proc :=
  set_p_state RUNNING (set_p_pid 1 (set_p_sz 0x2000 (set_p_pgdir 0x80400000 inhabitant))).

(** Process 0 running in the kernel with no lock held. *)
Definition sample_state (l : list Z) : kst :=
  set_cpu (MkCpu 0 0 true true (Some 0%nat) 0x80400000 (u32 (p_kstack sample_proc + KSTACKSIZE)))
    (set_ptable (<[0%nat := sample_proc]> (ptable boot_state)) (set_freelist 0x80404000 (set_mem (sample_mem l) boot_state))).

Lemma sample_quiet l : quiet 0 (sample_state l).
Proof. split; try done. exists sample_proc. by split_and!. Qed.

(** ** Accesses to one page *)

Lemma uread_page n : forall va a s,
  Forall (fun k => translate (mem s) (c_cr3 (cpu s)) (u32 (va + Z.of_nat k)) false = Some (a + Z.of_nat k)) (seq 0 n) ->
  uread va n s = Ok (mread (mem s) a n) s.
Proof.
  induction n as [|n IH]; intros va a s H; [done|]. cbn [seq] in H. apply Forall_cons in H as [H0 H].
  rewrite !Z.add_0_r in H0. cbn [uread]. rewrite bind_gets, H0, bind_gets.
  rewrite (bind_Ok _ _ _ _ _ (IH (va + 1) (a + 1) s ltac:(
    rewrite <- fmap_S_seq, Forall_fmap in H; eapply Forall_impl; [exact H|];
    intros k; unfold compose; replace (va + 1 + Z.of_nat k) with (va + Z.of_nat (S k)) by lia; intros ->; f_equal; lia))).
  unfold ret, mread. f_equal. cbn [seq]. rewrite fmap_cons, Z.add_0_r. f_equal.
  rewrite <- fmap_S_seq, <- list_fmap_compose. apply list_fmap_ext. intros ? k _. unfold compose. f_equal. lia.
Qed.

Lemma sample_uread l n s :
  mem s = sample_mem l -> c_cr3 (cpu s) = 0x80400000 ->
  Forall (fun k => translate (sample_mem l) 0x80400000 (u32 (0x1000 + Z.of_nat k)) false = Some (0x80402000 + Z.of_nat k)) (seq 0 n) ->
  mread (sample_mem l) 0x80402000 n = l ->
  uread 0x1000 n s = Ok l s.
Proof. intros Em Ec H El. by rewrite (uread_page n 0x1000 0x80402000), Em, El by (by rewrite Em, Ec). Qed.

(** ** The address space *)

#[local] Opaque NUP NPDENTRIES.

Lemma sample_ld32 l a :
  (length l <= 4096)%nat -> a + 4 <= 0x80402000 \/ 0x80403000 <= a -> ld32 (sample_mem l) a = ld32 (sample_mem []) a.
Proof.
  intros Hl Ha. unfold ld32, sample_mem. f_equal. rewrite !mread_mwrite_other by (cbn; lia). done.
Qed.

Lemma sample_tab l i : (length l <= 4096)%nat -> 0 <= i < 1024 ->
  tab (sample_mem l) 0x80400000 i = if i =? 0 then Some 0x80401000 else None.
Proof.
  intros Hl Hi. unfold tab. rewrite sample_ld32 by (done || lia). destruct (Z.eqb_spec i 0) as [->|Hne]; [done|].
  replace (ld32 (sample_mem []) (0x80400000 + 4 * i)) with 0; [done|].
  unfold ld32, sample_mem, st32. rewrite !mread_mwrite_other by (cbn; lia). done.
Qed.

Lemma sample_entry l k : (length l <= 4096)%nat -> 0 <= k < 2^20 ->
  entry (sample_mem l) 0x80400000 k = if k =? 1 then Some 0x402007 else None.
Proof.
  intros Hl Hk. unfold entry. rewrite sample_tab by (done || zdm).
  destruct (Z.eqb_spec (k / 1024) 0) as [H0|H0]; [|by destruct (Z.eqb_spec k 1); [subst k|]].
  rewrite sample_ld32 by (done || zdm). rewrite Z.mod_small by zdm.
  destruct (Z.eqb_spec k 1) as [->|Hne]; [done|].
  replace (ld32 (sample_mem []) (0x80401000 + 4 * k)) with 0; [done|].
  unfold ld32, sample_mem, st32. rewrite !mread_mwrite_other by (cbn; zdm). done.
Qed.

Lemma omap_one {A} (f : nat -> option A) n j x : (j < n)%nat -> f j = Some x ->
  (forall i, (i < n)%nat -> i <> j -> f i = None) -> omap f (seq 0 n) = [x].
Proof.
  intros Hj Hx Hn. replace n with (j + S (n - S j))%nat by lia. rewrite seq_app, omap_app. cbn [seq].
  assert (forall a b, (a + b <= n)%nat -> (j < a \/ a + b <= j)%nat -> omap f (seq a b) = []) as Hnil.
  { intros a b. revert a. induction b as [|b IH]; intros a H1 H2; [done|]. cbn. rewrite Hn by lia. apply IH; lia. }
  rewrite (Hnil 0%nat j) by lia. cbn. rewrite Hx. f_equal. apply Hnil; lia.
Qed.

Lemma sample_owned l : (length l <= 4096)%nat ->
  owned (sample_mem l) 0x80400000 = [0x80400000; 0x80401000; 0x80402000].
Proof.
  intros Hl. unfold owned, tabs, frames. rewrite (omap_one _ _ 0 0x80401000), (omap_one _ _ 1 0x80402000).
  - done.
  - pose proof NUP_Z as E. change (KERNBASE / PGSIZE) with 524288 in E. lia.
  - unfold frame. by rewrite sample_entry.
  - intros i Hi Hne. pose proof NUP_Z as E. change (KERNBASE / PGSIZE) with 524288 in E. unfold frame.
    rewrite sample_entry by lia. destruct (Z.eqb_spec (Z.of_nat i) 1); [lia|done].
  - pose proof NPDENTRIES_Z. lia.
  - by rewrite sample_tab.
  - intros i Hi Hne. pose proof NPDENTRIES_Z. rewrite sample_tab by lia. destruct (Z.eqb_spec (Z.of_nat i) 0); [lia|done].
Qed.

(** The sample memory satisfies the invariant of the allocator and of the
    address space, with one more page in use. *)
Lemma sample_vm l s :
  (length l <= 4096)%nat -> Forall is_byte l ->
  mem s = sample_mem l -> freelist s = 0x80404000 -> locks s = ∅ -> Smp.cpu_sane (cpu s) ->
  @vm_ok xv6_image [0x80404000; 0x80405000] [0x80403000] 0x80400000 s.
Proof.
  intros Hl Hb Em Ef El Hs. unfold vm_ok. rewrite Em, sample_owned by done.
  assert (Forall (@page_ok xv6_image) [0x80404000; 0x80405000]) as Hp by (by repeat constructor).
  split_and!.
  - split_and!; [|by apply (bool_decide_unpack _); vm_compute|done]. rewrite Em, Ef. split; [done|].
    rewrite sample_ld32 by (done || lia). split; [done|]. rewrite sample_ld32 by (done || lia). done.
  - split; [by rewrite El|done].
  - intros x. rewrite Em. unfold sample_mem. apply mwrite_bytes; [|done].
    do 3 (apply mwrite_bytes; [|apply bytes32_bytes]). by intros y.
  - by apply (bool_decide_unpack _); vm_compute.
  - by repeat constructor.
Qed.

Lemma sample_writable l j : (length l <= 4096)%nat -> 0 <= j < 4096 -> uwritable (sample_mem l) 0x80400000 (0x1000 + j).
Proof.
  intros Hl Hj. unfold uwritable. rewrite translate_entry by lia.
  replace ((0x1000 + j) / PGSIZE) with 1 by (unfold PGSIZE; zdm). rewrite sample_entry by (done || lia).
  change (1 / 1024) with 0. rewrite sample_ld32 by (done || lia). eexists. reflexivity.
Qed.
