(* ===== verification/PipeThm.v ===== *)
(** * What pipes promise

    [pipewrite] appends to the queue of a pipe and [piperead] takes from its
    front, across the wrap-around of the counters and of the ring. *)

From S2P Require Import Prelude State Mem Spinlock Sched SchedFacts Kalloc Vm Sample Pipe PipeFacts.

(** A process outside critical sections with the pipe [p]. *)
Record pipe_state (i : nat) (p : Z) (pp : pipe) (s : kst) : Prop := {
  ps_quiet : quiet i s;
  ps_pipe : pipes s !! p = Some pp;
  ps_ok : pipe_ok pp }.

Lemma getpipe_ok {A} p pp (f : pipe -> A) s : pipes s !! p = Some pp -> getpipe p f s = Ok (f pp) s.
Proof. intros Hp. unfold getpipe, gets. by rewrite (lookup_total_correct _ _ _ Hp). Qed.

Definition with_pipe (p : Z) (pp : pipe) (s : kst) : kst := set_pipes (<[p := pp]> (pipes s)) s.

Lemma upd_pipe_with p pp f s : pipes s !! p = Some pp -> upd_pipe p f s = with_pipe p (f pp) s.
Proof.
  intros Hp. unfold upd_pipe, with_pipe. f_equal. apply map_eq. intros q. destruct (decide (q = p)) as [->|Hne].
  - by rewrite lookup_alter_eq, Hp, lookup_insert_eq.
  - by rewrite lookup_alter_ne, lookup_insert_ne.
Qed.

Lemma with_pipe_twice p pp pp' s : with_pipe p pp' (with_pipe p pp s) = with_pipe p pp' s.
Proof. unfold with_pipe. destruct s. cbn. by rewrite insert_insert_eq. Qed.

Lemma with_pipe_id p pp s : pipes s !! p = Some pp -> with_pipe p pp s = s.
Proof. intros Hp. unfold with_pipe. rewrite insert_id by done. by destruct s. Qed.

Lemma uread_crit p a n l s : uread a n s = Ok l s -> uread a n (enter (LPipe p) s) = Ok l (enter (LPipe p) s).
Proof. apply uread_ext; [done|apply pushcli_cr3]. Qed.

Section Writing.
Context (p addr : Z).

(** The first bytes, as long as there is room. *)
Lemma pipewrite_some l : forall k i s pp,
  pipes s !! p = Some pp -> pipe_ok pp -> uread (addr + i) (length l) s = Ok l s ->
  pipe_len pp + Z.of_nat (length l) <= PIPESIZE ->
  pipewrite_loop (length l + k) p addr i s =
    pipewrite_loop k p addr (i + Z.of_nat (length l)) (with_pipe p (pipe_pushes l pp) s).
Proof.
  induction l as [|b l IH]; intros k i s pp Hp Hok Hu Hl.
  - cbn [length]. rewrite Z.add_0_r. change (pipe_pushes [] pp) with pp. by rewrite with_pipe_id.
  - cbn [length] in *. cbn [Nat.add pipewrite_loop]. rewrite (bind_Ok _ _ _ _ _ (getpipe_ok p pp _ s Hp)).
    assert (pipe_full pp = false) as Hf by (rewrite pipe_full_len by done; apply Z.eqb_neq; lia). rewrite Hf.
    destruct (uread_cons _ _ _ _ _ Hu) as [H1 H2].
    rewrite (bind_Ok _ _ _ _ _ H1), bind_modify, (upd_pipe_with _ _ _ _ Hp). change ([b] !!! 0%nat) with b.
    rewrite (IH k (i + 1) _ (pipe_push b pp)).
    + rewrite with_pipe_twice. f_equal. lia.
    + apply lookup_insert_eq.
    + by apply push_ok.
    + rewrite Z.add_assoc. by eapply uread_ext; [| |exact H2].
    + rewrite push_len by done. lia.
Qed.

End Writing.

Lemma uwrite_crit p a l s t : uwrite a l s = Ok tt t -> uwrite a l (enter (LPipe p) s) = Ok tt (set_mem (mem t) (enter (LPipe p) s)).
Proof. apply uwrite_ext; [done|apply pushcli_cr3]. Qed.

(** Reading [m] bytes that are there. *)
Lemma piperead_some p addr m : forall k i s t pp,
  pipes s !! p = Some pp -> pipe_ok pp -> (m <= length (pipe_queue pp))%nat ->
  uwrite (addr + i) (take m (pipe_queue pp)) s = Ok tt t ->
  piperead_loop (m + k) p addr i s =
    piperead_loop k p addr (i + Z.of_nat m) (with_pipe p (pipe_pops m pp) (set_mem (mem t) s)).
Proof.
  induction m as [|m IH]; intros k i s t pp Hp Hok Hm Hu.
  - rewrite take_0 in Hu. cbn in Hu. unfold ret in Hu. injection Hu as <-. rewrite Z.add_0_r.
    change (pipe_pops 0 pp) with pp. rewrite with_pipe_id by done. by destruct s.
  - assert (pipe_empty pp = false) as He.
    { destruct (pipe_empty pp) eqn:E; [|done]. apply empty_queue in E; [|done]. rewrite E in Hm. cbn in Hm. lia. }
    cbn [Nat.add piperead_loop]. rewrite (bind_Ok _ _ _ _ _ (getpipe_ok p pp _ s Hp)), He.
    rewrite (pop_queue pp Hok He) in Hu, Hm. cbn [take length] in Hu, Hm.
    destruct (uwrite_cons _ _ _ _ _ Hu) as (s1 & Hu1 & Hu2).
    rewrite bind_modify, (upd_pipe_with _ _ _ _ Hp).
    pose proof (uwrite_ext _ _ s (with_pipe p (pipe_pop pp) s) s1 eq_refl eq_refl Hu1) as E1.
    rewrite (bind_Ok _ _ _ _ _ E1).
    pose proof (uwrite_mem _ _ _ _ Hu1) as Es1.
    pose proof (uwrite_ext _ _ s1 (set_mem (mem s1) (with_pipe p (pipe_pop pp) s)) t eq_refl
      ltac:(rewrite Es1; reflexivity) Hu2) as E2.
    rewrite <- Z.add_assoc in E2. erewrite (IH k (i + 1) _ _ (pipe_pop pp)); [| | |lia|exact E2].
    + replace (i + 1 + Z.of_nat m) with (i + Z.of_nat (S m)) by lia. f_equal.
      assert (pipe_pops m (pipe_pop pp) = pipe_pops (S m) pp) as -> by (apply Nat.iter_swap).
      unfold with_pipe. destruct s. cbn. by rewrite insert_insert_eq.
    + apply lookup_insert_eq.
    + by apply pop_ok.
Qed.

(** ** Histories *)

(** What has been written to a pipe and read from it, in the order of the
    steps, each under the guard the code gives it: a store by some writer, a
    load by some reader, the end of either side. *)
Inductive pipe_hist : list Z -> list Z -> pipe -> Prop :=
  | hist_new d : length d = Z.to_nat PIPESIZE -> pipe_hist [] [] (MkPipe d 0 0 true true)
  | hist_write w r pp b : pipe_hist w r pp -> pipe_full pp = false -> pipe_hist (w ++ [b]) r (pipe_push b pp)
  | hist_read w r pp : pipe_hist w r pp -> pipe_empty pp = false -> pipe_hist w (r ++ [pipe_front pp]) (pipe_pop pp)
  | hist_close_write w r pp : pipe_hist w r pp -> pipe_hist w r (set_pi_writeopen false pp)
  | hist_close_read w r pp : pipe_hist w r pp -> pipe_hist w r (set_pi_readopen false pp).

(** C30: a pipe is first in, first out.  However the steps of its readers and
    writers interleave, and however often the counters wrap around, the bytes
    written are the bytes read followed by those in the pipe, and the pipe
    never has more than PIPESIZE bytes. *)
Theorem pipe_fifo w r pp :
  pipe_hist w r pp -> w = r ++ pipe_queue pp /\ pipe_ok pp /\ Z.of_nat (length (pipe_queue pp)) <= PIPESIZE.
Proof.
  intros H. assert (w = r ++ pipe_queue pp /\ pipe_ok pp) as [Hw Hok].
  2:{ split_and!; [done|done|]. rewrite length_queue. apply (po_len _ Hok). }
  induction H as [d Hd|w r pp b _ [-> Hok] Hf|w r pp _ [-> Hok] He|w r pp _ [-> Hok]|w r pp _ [-> Hok]].
  - split; [done|by split].
  - split; [|by apply push_ok]. by rewrite push_queue, app_assoc.
  - split; [|by apply pop_ok]. by rewrite (pop_queue pp), <- app_assoc.
  - split; [done|]. by destruct Hok.
  - split; [done|]. by destruct Hok.
Qed.

Lemma pipe_fifo_witness :
  let pp := pipe_pop (pipe_push 6 (pipe_push 5 (MkPipe (replicate 512 0) 0 0 true true))) in
  [5; 6] = [5] ++ pipe_queue pp.
Proof.
  intros pp. refine (proj1 (pipe_fifo [5; 6] [5] pp _)).
  refine (hist_read _ [] _ (hist_write [5] _ _ 6 (hist_write [] _ _ 5 (hist_new (replicate 512 0) _) _) _) _); by vm_compute.
Defined.

Section PipeThm.
Context `{KI : KernelImage}.

(** C31: [pipewrite] appends the caller's bytes to the pipe.  When they fit, it
    returns their number, the queue of the pipe is the old one followed by the
    bytes in order, and sleeping readers are woken up; nothing else changes. *)
Theorem pipewrite_appends i p addr l pp s :
  pipe_state i p pp s -> uread addr (length l) s = Ok l s ->
  pipe_len pp + Z.of_nat (length l) <= PIPESIZE ->
  exists pp' s', pipewrite p addr (Z.of_nat (length l)) s = Ok (Z.of_nat (length l)) s' /\
    pipe_ok pp' /\ pipe_queue pp' = pipe_queue pp ++ l /\ pipes s' = <[p := pp']> (pipes s) /\
    ptable s' = wakeup1_pt (CPipeRead p) (ptable s) /\ locks s' = locks s /\ mem s' = mem s.
Proof.
  intros [Hq Hp Hok] Hu Hl. destruct (pushes_spec l pp Hok Hl) as (Hok' & Hqueue & _).
  exists (pipe_pushes l pp). unfold pipewrite. rewrite (bind_Ok _ _ _ _ _ (crit_enter i (LPipe p) s Hq)).
  fold (enter (LPipe p) s). unfold pipewrite_from. rewrite Z.sub_0_r, Nat2Z.id.
  pose proof (pipewrite_some p addr l 0 0 (enter (LPipe p) s) pp Hp Hok) as E. rewrite Z.add_0_r, Nat.add_0_r in E.
  rewrite (bind_Ok _ _ _ true _ (E (uread_crit _ _ _ _ _ Hu) Hl)).
  erewrite bind_Ok; [|by eapply (crit_wakeup i (LPipe p) (CPipeRead p) s _ Hq)].
  erewrite bind_Ok; [|by eapply (crit_exit i (LPipe p) s _ Hq)].
  eexists. split; [reflexivity|]. by split_and!.
Qed.

(** [pipewrite] of more than fits fills the pipe and sleeps.  With a reader
    and an unkilled writer it stores the bytes that fit, in order, wakes the
    readers up, and gives up the processor, asleep until a reader has made
    room. *)
Theorem pipewrite_blocks i p addr l n pp s :
  pipe_state i p pp s -> uread addr (length l) s = Ok l s ->
  pipe_len pp + Z.of_nat (length l) = PIPESIZE -> Z.of_nat (length l) < n -> pi_readopen pp = true ->
  p_killed (ptable s !!! i) = false ->
  exists pp' s', pipewrite p addr n s = Halt (Waiting (WSleep (CPipeWrite p))) s' /\
    pipe_ok pp' /\ pipe_queue pp' = pipe_queue pp ++ l /\ pipe_full pp' = true /\ pipes s' = <[p := pp']> (pipes s) /\
    ptable s' = alter (asleep (CPipeWrite p)) i (wakeup1_pt (CPipeRead p) (ptable s)).
Proof.
  intros [Hq Hp Hok] Hu Hl Hn Hro Hk. destruct (pushes_spec l pp Hok ltac:(lia)) as (Hok' & Hqueue & Hr' & _).
  assert (pipe_full (pipe_pushes l pp) = true) as Hf.
  { rewrite pipe_full_len by done. apply Z.eqb_eq. rewrite <- length_queue, Hqueue, length_app, Nat2Z.inj_add, length_queue. lia. }
  exists (pipe_pushes l pp). unfold pipewrite. rewrite (bind_Ok _ _ _ _ _ (crit_enter i (LPipe p) s Hq)).
  fold (enter (LPipe p) s). unfold pipewrite_from. rewrite Z.sub_0_r.
  replace (Z.to_nat n) with (length l + S (Z.to_nat (n - Z.of_nat (length l) - 1)))%nat by lia.
  pose proof (pipewrite_some p addr l (S (Z.to_nat (n - Z.of_nat (length l) - 1))) 0 (enter (LPipe p) s) pp Hp Hok) as E.
  rewrite Z.add_0_r in E. erewrite bind_Halt.
  2:{ rewrite (E (uread_crit _ _ _ _ _ Hu) ltac:(lia)). cbn [pipewrite_loop].
      rewrite (bind_Ok _ _ _ _ _ (getpipe_ok p (pipe_pushes l pp) _ _ (lookup_insert_eq _ _ _))), Hf, Hr'.
      rewrite (crit_curproc i _ s) by done. unfold getproc. rewrite bind_gets.
      change (ptable (with_pipe _ _ _)) with (ptable s). rewrite Hk, Hro. cbn [negb orb].
      erewrite bind_Ok; [|by eapply (crit_wakeup i (LPipe p) (CPipeRead p) s _ Hq)].
      destruct (q_run _ _ Hq) as (q & Hqi & _).
      eapply (crit_sleep i (CPipeWrite p) (LPipe p) _ s _ Hq); try done.
      cbn. unfold wakeup1_pt. rewrite list_lookup_fmap, Hqi. reflexivity. }
  eexists. split; [reflexivity|]. by split_and!.
Qed.

(** C32: [piperead] takes the bytes at the front of the pipe, in order.  It
    returns the smaller of [n] and the number of bytes there, has written them
    at the caller's address, leaves the rest, and wakes up sleeping writers; at
    end of file, with the queue empty and no writer, it returns 0. *)
Theorem piperead_takes i p addr n m t pp s :
  pipe_state i p pp s -> 0 <= n -> m = Nat.min (Z.to_nat n) (length (pipe_queue pp)) ->
  (pipe_queue pp <> [] \/ pi_writeopen pp = false) ->
  uwrite addr (take m (pipe_queue pp)) s = Ok tt t ->
  exists pp' s', piperead p addr n s = Ok (Z.of_nat m) s' /\
    pipe_ok pp' /\ pipe_queue pp' = drop m (pipe_queue pp) /\ pipes s' = <[p := pp']> (pipes s) /\
    mem s' = mem t /\ ptable s' = wakeup1_pt (CPipeWrite p) (ptable s) /\ locks s' = locks s.
Proof.
  intros [Hq Hp Hok] Hn Em Hne Hu. destruct (pops_spec m pp Hok ltac:(lia)) as [Hok' Hqueue].
  exists (pipe_pops m pp). unfold piperead. rewrite (bind_Ok _ _ _ _ _ (crit_enter i (LPipe p) s Hq)).
  fold (enter (LPipe p) s). unfold piperead_locked. rewrite (bind_Ok _ _ _ _ _ (getpipe_ok p pp _ (enter (LPipe p) s) Hp)).
  assert (pipe_empty pp && pi_writeopen pp = false) as ->.
  { destruct Hne as [Hne| ->]; [|apply andb_false_r]. destruct (pipe_empty pp) eqn:E; [|done].
    by apply empty_queue in E. }
  pose proof (piperead_some p addr m (Z.to_nat n - m) 0 (enter (LPipe p) s) (set_mem (mem t) (enter (LPipe p) s)) pp Hp Hok ltac:(lia)) as E.
  rewrite Z.add_0_r in E. specialize (E (uwrite_crit p _ _ _ _ Hu)).
  replace (m + (Z.to_nat n - m))%nat with (Z.to_nat n) in E by lia.
  assert (piperead_loop (Z.to_nat n - m) p addr (0 + Z.of_nat m)
    (with_pipe p (pipe_pops m pp) (set_mem (mem t) (enter (LPipe p) s))) =
    Ok (Z.of_nat m) (with_pipe p (pipe_pops m pp) (set_mem (mem t) (enter (LPipe p) s)))) as E2.
  { destruct (Z.to_nat n - m)%nat as [|k] eqn:Ek; [done|]. cbn [piperead_loop].
    rewrite (bind_Ok _ _ _ _ _ (getpipe_ok p (pipe_pops m pp) _ _ (lookup_insert_eq _ _ _))).
    assert (pipe_empty (pipe_pops m pp) = true) as ->; [|done].
    rewrite pipe_empty_len by done. apply Z.eqb_eq. rewrite <- length_queue, Hqueue, length_drop. lia. }
  erewrite bind_Ok; [|rewrite E; exact E2].
  erewrite bind_Ok; [|by eapply (crit_wakeup i (LPipe p) (CPipeWrite p) s _ Hq)].
  erewrite bind_Ok; [|by eapply (crit_exit i (LPipe p) s _ Hq)].
  eexists. split; [reflexivity|]. by split_and!.
Qed.

End PipeThm.

(** ** The sample process with an empty pipe at 0x80403000 *)

Definition sample_pipe : pipe := MkPipe (replicate 512 0) 0 0 true true.

Definition sample_pipe_state (pp : pipe) : kst := with_pipe 0x80403000 pp (sample_state [7; 8; 9]).

Lemma sample_pipe_ok : pipe_ok sample_pipe.
Proof. by split; vm_compute. Qed.

Lemma sample_pipe_state_ok pp : pipe_ok pp -> pipe_state 0 0x80403000 pp (sample_pipe_state pp).
Proof.
  split; [|apply lookup_insert_eq|done]. destruct (sample_quiet [7; 8; 9]) as [H1 H2 H3 H4 H5]. by split.
Qed.

Lemma pipewrite_appends_witness :
  exists pp' s', pipewrite 0x80403000 0x1000 3 (sample_pipe_state sample_pipe) = Ok 3 s' /\ pipe_queue pp' = [7; 8; 9] /\
    pipes s' = <[0x80403000 := pp']> (pipes (sample_pipe_state sample_pipe)).
Proof.
  destruct (pipewrite_appends 0 0x80403000 0x1000 [7; 8; 9] sample_pipe (sample_pipe_state sample_pipe))
    as (pp' & s' & E & _ & Hq & Hp & _).
  - apply sample_pipe_state_ok, sample_pipe_ok.
  - apply sample_uread; [done|done|by repeat constructor|done].
  - by vm_compute.
  - exists pp', s'. exact (conj E (conj Hq Hp)).
Defined.

Lemma pipewrite_blocks_witness :
  let pp := MkPipe (replicate 512 0) 0 509 true true in
  exists s', pipewrite 0x80403000 0x1000 4 (sample_pipe_state pp) = Halt (Waiting (WSleep (CPipeWrite 0x80403000))) s' /\
    p_state (ptable s' !!! 0%nat) = SLEEPING.
Proof.
  intros pp. destruct (pipewrite_blocks 0 0x80403000 0x1000 [7; 8; 9] 4 pp (sample_pipe_state pp))
    as (pp' & s' & E & _ & _ & _ & _ & Hpt).
  - apply sample_pipe_state_ok. by split; vm_compute.
  - apply sample_uread; [done|done|by repeat constructor|done].
  - by vm_compute.
  - by vm_compute.
  - done.
  - done.
  - exists s'. split; [exact E|]. by rewrite Hpt.
Defined.

Lemma piperead_takes_witness :
  let pp := MkPipe ([7; 8; 9] ++ replicate 509 0) 0 3 true true in
  exists pp' s', piperead 0x80403000 0x1000 2 (sample_pipe_state pp) = Ok 2 s' /\ pipe_queue pp' = [9] /\
    pipes s' = <[0x80403000 := pp']> (pipes (sample_pipe_state pp)).
Proof.
  intros pp. assert (pipe_queue pp = [7; 8; 9]) as Eq by by vm_compute.
  destruct (piperead_takes 0 0x80403000 0x1000 2 2
    (set_mem (mwrite (mwrite (mem (sample_pipe_state pp)) 0x80402000 [7]) 0x80402001 [8]) (sample_pipe_state pp))
    pp (sample_pipe_state pp)) as (pp' & s' & E & _ & Hq & Hp & _).
  - apply sample_pipe_state_ok. by split; vm_compute.
  - done.
  - by rewrite Eq.
  - left. by rewrite Eq.
  - rewrite Eq. cbn [take uwrite]. rewrite bind_gets.
    replace (translate _ _ _ _) with (Some 0x80402000) by (by vm_compute). rewrite bind_modify, bind_gets.
    replace (translate _ _ _ _) with (Some 0x80402001) by (by vm_compute). by rewrite bind_modify.
  - exists pp', s'. rewrite Eq in Hq. exact (conj E (conj Hq Hp)).
Defined.
