(* ===== verification/VmCopy.v ===== *)
(** * Copying an address space (vm.c, copyuvm)

    [copyuvm] gives [fork] a child address space with the same contents as the
    parent's and no page in common with it. *)

From S2P Require Import Prelude State Mem Spinlock Kalloc Vm VmFacts VmSpec.

#[local] Arguments owned : simpl never.
#[local] Opaque tabs frames NUP NPDENTRIES.

Section VmCopy.
Context {KI : KernelImage}.

(** The pages [ps] have the contents they had in [m]. *)
Definition same_pages (ps : list Z) (m m' : Z -> Z) : Prop := forall p, p ∈ ps -> agree m m' p.

Lemma same_pages_keeps ps qs m m' :
  keeps qs m m' -> Forall page_ok ps -> (forall p, p ∈ ps -> p ∉ qs) -> same_pages ps m m'.
Proof. intros Hk Hp Hd p Hin. apply Hk; [by eapply Forall_forall in Hp|by apply Hd]. Qed.

Lemma same_pages_trans ps m1 m2 m3 :
  same_pages ps m1 m2 -> same_pages ps m2 m3 -> same_pages ps m1 m3.
Proof. intros H1 H2 p Hp. eapply agree_trans; [by apply H1|by apply H2]. Qed.

(** An address space whose pages kept their contents. *)
Lemma same_pages_vm m m' pg :
  same_pages (owned m pg) m m' ->
  owned m' pg = owned m pg /\ (forall j, 0 <= j < 2^20 -> entry m' pg j = entry m pg j) /\
  (forall i, 0 <= i < 1024 -> tab m' pg i = tab m pg i) /\
  (forall p, p ∈ owned m pg -> agree m m' p).
Proof.
  intros H. assert (agree m m' pg) by (apply H; by left).
  assert (forall t, t ∈ tabs m pg -> agree m m' t).
  { intros t Ht. apply H. unfold owned. rewrite elem_of_cons, elem_of_app. tauto. }
  split_and!; [by apply owned_ext|by intros; apply entry_ext|by intros; apply tab_ext|done].
Qed.

(** Page [j] of [d] is a page of its own with the contents and the flags of
    page [j] of [pg]. *)
Definition copied_page (m0 : Z -> Z) (pg : Z) (m : Z -> Z) (d j : Z) : Prop :=
  exists e v, entry m0 pg j = Some e /\
    entry m d j = Some (Z.lor (Z.lor (v2p v) (PTE_FLAGS e)) PTE_P) /\
    v ∈ frames m d /\
    forall o, 0 <= o < PGSIZE -> m (v + o) = m0 (p2v (PTE_ADDR e) + o).

Section Loop.
Context (m0 : Z -> Z) (pg sz : Z) (fr : list Z).
Let lim := pages sz.
Let fr0 := owned m0 pg ++ fr.
Hypothesis Hsz : 0 <= sz <= KERNBASE.
Hypothesis Hpresent : forall j, 0 <= j < lim -> entry m0 pg j <> None.

Lemma copy_lim : 0 <= lim <= 524288.
Proof using All. unfold lim, pages, PGSIZE, KERNBASE in *. zdm. Qed.

(** The pages of [d] from 0 to [k] are copies; those from [k] to [lim] are not
    mapped yet. *)
Definition copy_inv (l : list Z) (d k : Z) (s : kst) : Prop :=
  vm_ok l fr0 d s /\ same_pages fr0 m0 (mem s) /\
  (forall j, 0 <= j < k -> copied_page m0 pg (mem s) d j) /\
  (forall j, k <= j < lim -> entry (mem s) d j = None).

(** What the loop leaves when memory runs out: all pages of [d] are free again,
    but for the one being copied. *)
Definition copy_short (l : list Z) (d : Z) (s s' : kst) : Prop :=
  exists l' lost, base_ok l' (lost ++ fr0) s' /\ (length lost <= 1)%nat /\
    l' ++ lost ≡ₚ l ++ owned (mem s) d /\ same_pages fr0 m0 (mem s').

(** Reading the parent's entry. *)
Lemma parent_entry s k e :
  same_pages fr0 m0 (mem s) -> 0 <= k < lim -> entry m0 pg k = Some e ->
  exists t, tab (mem s) pg (k / 1024) = Some t /\ has e PTE_P = true /\
    ld32 (mem s) (t + 4 * (k mod 1024)) = e /\ t ∈ fr0 /\ p2v (PTE_ADDR e) ∈ fr0.
Proof using All.
  intros Hs Hk He. pose proof copy_lim.
  destruct (same_pages_vm m0 (mem s) pg) as (_ & He' & Ht' & _).
  { intros p Hp. apply Hs. unfold fr0. rewrite elem_of_app. by left. }
  assert (entry (mem s) pg k = Some e) as E by (rewrite He' by lia; done).
  unfold entry in E. destruct (tab (mem s) pg (k / 1024)) as [t|] eqn:Et; [|done]. exists t.
  split; [done|]. destruct (has _ _) eqn:Eh; [|done]. injection E as E. rewrite E in *.
  split_and!; try done; unfold fr0, owned; rewrite elem_of_app, elem_of_cons, elem_of_app; left; right.
  - left. apply elem_of_tabs. exists (k / 1024). split; [zdm|]. by rewrite <- Ht' by zdm.
  - right. apply elem_of_frames. exists k. split; [change (KERNBASE / PGSIZE) with 524288; lia|].
    unfold frame. by rewrite He.
Qed.

Lemma fr0_disjoint l d s p : vm_ok l fr0 d s -> p ∈ fr0 -> p ∉ l ++ owned (mem s) d.
Proof using All.
  intros (_ & _ & _ & Hn & _) Hp Hin. rewrite app_assoc in Hn.
  apply NoDup_app in Hn as (_ & Hd & _). by apply (Hd p).
Qed.

Lemma fr0_pages l d s : vm_ok l fr0 d s -> Forall page_ok fr0.
Proof using All. intros (_ & _ & _ & _ & Hp). rewrite !Forall_app in Hp. tauto. Qed.

Lemma copy_free l d s k :
  copy_inv l d k s ->
  exists s', (freevm d ;; ret 0) s = Ok 0 s' /\ vmrel s s' /\ copy_short l d s s'.
Proof using All.
  intros (Hvm & Hs & _). destruct (freevm_spec l fr0 d s Hvm) as (s' & l' & E & R & Hb & Hl & Hk).
  rewrite (bind_Ok _ _ _ _ _ E). exists s'. split; [done|]. split; [done|]. exists l', [].
  split; [done|]. split; [cbn; lia|]. split; [by rewrite app_nil_r|].
  eapply same_pages_trans; [done|]. eapply same_pages_keeps; [done|by eapply fr0_pages|].
  intros p Hp Hin. eapply fr0_disjoint; [done..|]. rewrite elem_of_app. by right.
Qed.

(** The memory after copying the page mapped by [e] into the page [v]. *)
Definition copy_mem (m : Z -> Z) (v e : Z) : Z -> Z :=
  mwrite m v (mread m (p2v (PTE_ADDR e)) 4096).

Lemma copy_mem_facts m v e :
  page_ok v -> (forall x, is_byte (m x)) ->
  keeps [v] m (copy_mem m v e) /\ (forall x, is_byte (copy_mem m v e x)) /\
  forall o, 0 <= o < PGSIZE -> copy_mem m v e (v + o) = m (p2v (PTE_ADDR e) + o).
Proof using All.
  intros Hv Hb. assert (length (mread m (p2v (PTE_ADDR e)) 4096) = 4096%nat) as Hlen by apply length_mread.
  split_and!.
  - intros p Hp Hpn x Hx. apply mwrite_out. rewrite Hlen.
    assert (p <> v) as Hne by (intros ->; apply Hpn; by left).
    destruct (page_cases p v Hp Hv Hne); unfold PGSIZE in *; lia.
  - apply mwrite_bytes; [done|]. by apply mread_bytes.
  - intros o Ho. unfold copy_mem. rewrite mwrite_in by (rewrite Hlen; unfold PGSIZE in *; lia).
    apply list_lookup_total_correct. unfold PGSIZE in *. rewrite mread_lookup by lia. do 2 f_equal. lia.
Qed.

(** Pages copied so far stay copied when the address space grows. *)
Lemma copied_step l l1 d k v e s s1 :
  vm_ok (v :: l) fr0 d s -> 0 <= k < lim ->
  frames (mem s1) d ≡ₚ v :: frames (mem s) d ->
  (forall j, 0 <= j < 2^20 -> entry (mem s1) d j = if j =? k then Some e else entry (mem s) d j) ->
  keeps (v :: reserve l1 (mem s) d) (mem s) (mem s1) -> (forall p, p ∈ l1 -> p ∈ l) ->
  forall j, 0 <= j < k -> copied_page m0 pg (mem s) d j -> copied_page m0 pg (mem s1) d j.
Proof using All.
  intros Hvm Hk Hf He Hkeep Hl j Hj (e' & v' & E1 & E2 & E3 & E4). pose proof copy_lim.
  exists e', v'. split; [done|]. split; [|split].
  - rewrite He by lia. destruct (Z.eqb_spec j k); [lia|done].
  - rewrite Hf. by right.
  - intros o Ho. rewrite <- E4 by done. apply (Hkeep v'); [| |lia].
    + by eapply vm_frame_page.
    + intros Hin. apply elem_of_cnt in E3. pose proof (vm_cnt _ _ _ _ v' Hvm) as K.
      rewrite cnt_cons in K. rewrite elem_of_cons in Hin. unfold reserve in Hin.
      rewrite elem_of_app, elem_of_cons in Hin. destruct Hin as [->|[Hin|[->|Hin]]].
      * rewrite one_refl in K. lia.
      * apply Hl, elem_of_cnt in Hin. lia.
      * rewrite one_refl in K. lia.
      * apply elem_of_cnt in Hin. lia.
Qed.

(** A turn of the loop finds the parent's page. *)
Lemma copy_head n d k s l :
  copy_inv l d k s -> 0 <= k < lim -> forall e, entry m0 pg k = Some e ->
  copyuvm_loop (S n) pg d (PGSIZE * k) sz s =
    (let* mem_ := kalloc in
     if mem_ =? 0 then freevm d ;; ret 0
     else
       modify (fun s => set_mem (copy_mem (mem s) mem_ e) s) ;;
       let* r := mappages d (PGSIZE * k) PGSIZE (v2p mem_) (PTE_FLAGS e) in
       if r <? 0 then freevm d ;; ret 0 else copyuvm_loop n pg d (PGSIZE * (k + 1)) sz) s.
Proof using All.
  intros (Hvm & Hs & _) Hk e Ee. pose proof copy_lim.
  destruct (parent_entry s k e Hs Hk Ee) as (t & Et & Hh & El & Ht0 & _).
  cbn [copyuvm_loop]. destruct (Z.ltb_spec (PGSIZE * k) sz); [|unfold lim, pages, PGSIZE in *; zdm].
  rewrite (bind_Ok _ _ _ _ _ (walkpgdir_look pg k s ltac:(lia))), Et.
  assert (page_ok t) as Hpt by (pose proof (fr0_pages _ _ _ Hvm) as Hq; by eapply Forall_forall in Hq).
  pose proof (page_ok_pos _ Hpt). destruct (Z.eqb_spec (t + 4 * (k mod 1024)) 0); [zdm|].
  unfold bind at 1, gets at 1. rewrite El, Hh. cbn [negb].
  rewrite u32_small by (unfold PGSIZE in *; lia).
  by replace (PGSIZE * k + PGSIZE) with (PGSIZE * (k + 1)) by (unfold PGSIZE; lia).
Qed.

Lemma copy_out n d k s :
  copy_inv [] d k s -> 0 <= k < lim ->
  exists s', copyuvm_loop (S n) pg d (PGSIZE * k) sz s = Ok 0 s' /\ vmrel s s' /\ copy_short [] d s s'.
Proof using All.
  intros Hinv Hk. pose proof Hinv as (Hvm & Hs & Hrest).
  destruct (entry m0 pg k) as [e|] eqn:Ee; [|by apply Hpresent in Ee].
  destruct (kalloc_vm _ _ _ _ Hvm) as (p & s1 & E1 & R1 & Em & [(-> & _ & Hvm1)|(l' & ? & _)]); [|done].
  destruct (copy_free [] d s1 k) as (s' & E2 & R2 & Hsh).
  { unfold copy_inv. by rewrite Em. }
  exists s'. rewrite (copy_head n d k s _ Hinv Hk _ Ee), (bind_Ok _ _ _ _ _ E1). cbn [Z.eqb].
  split; [done|]. split; [by eapply vmrel_trans|]. unfold copy_short in *. by rewrite <- Em.
Qed.

Lemma copy_turn n l v d k s :
  copy_inv (v :: l) d k s -> 0 <= k < lim ->
  exists s1, vmrel s s1 /\
    ((copyuvm_loop (S n) pg d (PGSIZE * k) sz s = copyuvm_loop n pg d (PGSIZE * (k + 1)) sz s1 /\
      exists l1, copy_inv l1 d (k + 1) s1 /\ takes1 l l1 /\
        l1 ++ owned (mem s1) d ≡ₚ (v :: l) ++ owned (mem s) d /\
        forall j, lim <= j < 2^20 -> entry (mem s1) d j = entry (mem s) d j) \/
     (copyuvm_loop (S n) pg d (PGSIZE * k) sz s = Ok 0 s1 /\ l = [] /\ copy_short (v :: l) d s s1)).
Proof using All.
  intros Hinv Hk. pose proof Hinv as (Hvm & Hs & Hcop & Hnone). pose proof copy_lim as Hlim.
  destruct (entry m0 pg k) as [e|] eqn:Ee; [|by apply Hpresent in Ee].
  destruct (parent_entry s k e Hs Hk Ee) as (_ & _ & _ & _ & _ & Hp0).
  assert (0 <= k < KERNBASE / PGSIZE) as HkN by (change (KERNBASE / PGSIZE) with 524288; lia).
  destruct (kalloc_vm _ _ _ _ Hvm) as (p & s1 & E1 & R1 & Em & [(_ & ? & _)|(l' & [= <- <-] & Hv & Hpv & Hvm1)]); [done|].
  assert (copyuvm_loop (S n) pg d (PGSIZE * k) sz s =
    (let* r := mappages d (PGSIZE * k) PGSIZE (v2p v) (PTE_FLAGS e) in
     if r <? 0 then freevm d ;; ret 0 else copyuvm_loop n pg d (PGSIZE * (k + 1)) sz)
      (set_mem (copy_mem (mem s) v e) s1)) as ->.
  { rewrite (copy_head n d k s _ Hinv Hk _ Ee), (bind_Ok _ _ _ _ _ E1).
    destruct (Z.eqb_spec v 0); [done|]. unfold bind at 1, modify at 1. by rewrite Em. }
  destruct (copy_mem_facts (mem s) v e Hpv) as (W1 & W2 & W3); [apply Hvm|].
  destruct (add_page l fr0 d k (PTE_FLAGS e) v (copy_mem (mem s) v e) s1 Hvm1)
    as (r & s2 & E2 & R2 & Hc); rewrite ?Em; try done; [apply Hnone; lia|apply PTE_FLAGS_range|].
  rewrite (bind_Ok _ _ _ _ _ E2), Em in *.
  assert (forall p, p ∈ fr0 -> p ∉ v :: reserve l (mem s) d) as Hdis.
  { intros p Hp Hin. apply (fr0_disjoint _ _ _ _ Hvm Hp). unfold reserve, owned in *.
    rewrite elem_of_cons, elem_of_app, elem_of_cons in Hin.
    rewrite elem_of_app, !elem_of_cons, elem_of_app. tauto. }
  destruct Hc as [(-> & l1 & C1 & C2 & C3 & C4 & C5 & C6 & C7)|(-> & -> & C1 & C2 & C3 & C4)].
  - exists s2. split; [by eapply vmrel_trans|]. left. cbn [Z.ltb Z.compare].
    split; [done|]. exists l1. split; [|split; [done|split]].
    + split; [done|]. split; [|split].
      * eapply same_pages_trans; [exact Hs|]. eapply same_pages_keeps; [exact C7|by eapply fr0_pages|done].
      * intros j Hj. destruct (decide (j = k)) as [->|].
        -- exists e, v. split_and!; [done|rewrite C5 by lia; by rewrite Z.eqb_refl|rewrite C4; by left|].
           intros o Ho. rewrite C6, W3 by lia. apply (Hs _ Hp0). lia.
        -- eapply (copied_step l l); try done; [lia|]. apply Hcop. lia.
      * intros j Hj. rewrite C5 by lia. destruct (Z.eqb_spec j k); [lia|]. apply Hnone. lia.
    + unfold owned, reserve in *. clear -C3 C4. perm_solve.
    + intros j Hj. rewrite C5 by lia. destruct (Z.eqb_spec j k); [lia|done].
  - cbn [Z.ltb Z.compare]. destruct (freevm_spec [] (v :: fr0) d s2 C1) as (s3 & l3 & E3 & R3 & Hb3 & Hl3 & Hk3).
    rewrite (bind_Ok _ _ _ _ _ E3). exists s3. split; [by do 2 (eapply vmrel_trans; [done|])|].
    right. split; [done|]. split; [done|]. exists l3, [v]. split; [done|]. split; [done|].
    rewrite C2, C3 in *. split; [rewrite Hl3; clear; perm_solve|].
    eapply same_pages_trans; [exact Hs|]. apply (same_pages_trans _ _ (copy_mem (mem s) v e)).
    + eapply same_pages_keeps; [exact W1|by eapply fr0_pages|]. intros p Hp Hin. apply (Hdis p Hp).
      rewrite elem_of_cons, elem_of_nil in Hin. destruct Hin as [->|[]]. by left.
    + eapply same_pages_keeps; [exact Hk3|by eapply fr0_pages|]. intros p Hp Hin.
      apply (fr0_disjoint _ _ _ _ Hvm Hp). rewrite elem_of_app. by right.
Qed.

Lemma copyuvm_loop_spec n : forall k l d s,
  copy_inv l d k s -> 0 <= k <= lim -> lim - k <= Z.of_nat n -> 
  exists r s', copyuvm_loop n pg d (PGSIZE * k) sz s = Ok r s' /\ vmrel s s' /\
    ((r = d /\ exists l', copy_inv l' d lim s' /\ l' ++ owned (mem s') d ≡ₚ l ++ owned (mem s) d /\
        forall j, lim <= j < 2^20 -> entry (mem s') d j = entry (mem s) d j) \/
     (r = 0 /\ Z.of_nat (length l) < 2 * (lim - k) /\ copy_short l d s s')).
Proof using All.
  pose proof copy_lim as Hlim.
  induction n as [|n IH]; intros k l d s Hinv Hk Hn; destruct (decide (k = lim)) as [->|Hne].
  2: lia.
  1,2: exists d, s; split; [cbn [copyuvm_loop]; destruct (Z.ltb_spec (PGSIZE * lim) sz);
       [unfold lim, pages, PGSIZE in *; zdm|done]|]; split; [apply vmrel_refl|]; left; split; [done|];
     by exists l.
  - destruct l as [|v l].
    + destruct (copy_out n d k s Hinv) as (s' & E & R & Hsh); [lia|]. exists 0, s'.
      split; [done|]. split; [done|]. right. split; [done|]. split; [cbn [length]; lia|done].
    + destruct (copy_turn n l v d k s Hinv) as (s1 & R1 & [(E1 & l1 & Hi1 & Ht1 & Hp1 & He1)|(E1 & -> & Hsh)]); [lia| |].
      * rewrite E1. destruct (IH (k + 1) l1 d s1 Hi1) as (r & s' & E & R & Hc); [lia|lia|].
        exists r, s'. split; [done|]. split; [by eapply vmrel_trans|].
        destruct Hc as [(-> & l' & Hi & Hp & He)|(-> & Hlen & l' & lost & S1 & S2 & S3 & S4)]; [left|right]; (split; [done|]).
        -- exists l'. split; [done|]. split; [by rewrite Hp|]. intros j Hj. by rewrite He, He1.
        -- apply takes1_length in Ht1. split; [cbn [length]; lia|]. exists l', lost. split_and!; try done.
           by rewrite S3.
      * exists 0, s1. split; [done|]. split; [done|]. right. split; [done|]. split; [cbn [length]; lia|done].
Qed.

End Loop.

End VmCopy.
