(* ===== verification/VmThm.v ===== *)
(** * The contract of vm.c

    The theorems about building, growing, shrinking, copying and freeing an
    address space, and a concrete address space they apply to. *)

From S2P Require Import Prelude State Mem Spinlock Kalloc Vm VmFacts VmSpec VmCopy.

#[local] Arguments owned : simpl never.
#[local] Opaque tabs frames NUP NPDENTRIES.

Section VmThm.
Context {KI : KernelImage}.

Lemma kmap_user_none j : j < KERNBASE / PGSIZE -> kmap_entry kmap j = None.
Proof.
  intros Hj. destruct k_data_pages as (d & E & Hd).
  assert (forall e, e ∈ kmap -> kmap_range e j = false) as H.
  { intros [[[v p1] p2] pm] He. pose proof kmap_lines_ok as Hok. eapply Forall_forall in Hok; [|done].
    destruct Hok as (_ & _ & _ & _ & Hv & _). unfold kmap_range.
    apply andb_false_iff. left. apply Z.leb_gt. unfold KERNBASE, PGSIZE in *. zdm. }
  unfold kmap in *. cbn [kmap_entry]. rewrite !H; [done|..]; rewrite !elem_of_cons; auto 10.
Qed.

(** [allocuvm] on every outcome. *)
Lemma allocuvm_spec l fr pg oldsz newsz s :
  vm_ok l fr pg s -> 0 <= oldsz <= newsz -> newsz < KERNBASE ->
  (forall j, pages oldsz <= j < pages newsz -> entry (mem s) pg j = None) ->
  exists r s', allocuvm pg oldsz newsz s = Ok r s' /\ vmrel s s' /\
    ((r = newsz /\ alloc_done pg newsz l fr (pages oldsz) s s') \/
     (Z.of_nat (length l) < 2 * (pages newsz - pages oldsz) /\
      exists lost, (length lost <= 1)%nat /\ alloc_short pg oldsz newsz (pages oldsz) lost l fr r s s')).
Proof.
  intros Hvm Ho Hn Hnone. unfold allocuvm.
  destruct (Z.leb_spec KERNBASE newsz); [lia|]. destruct (Z.ltb_spec newsz oldsz); [lia|].
  rewrite PGROUNDUP_pages by lia.
  apply (allocuvm_loop_spec pg oldsz newsz Ho Hn); try done; [|by left].
  unfold pages, PGSIZE in *. zdm.
Qed.

(** What a copy that failed leaves of the free pages [l]: all but the page it was
    copying; but when the page directory itself could not be made, nothing, as
    [setupkvm] gives nothing back. *)
Definition copy_left (l l' : list Z) : Prop :=
  exists lost, l' ++ lost ≡ₚ l /\ ((length lost <= 1)%nat \/ (l' = [] /\ (length lost <= 513)%nat)).

(** [copyuvm] on every outcome. *)
Lemma copyuvm_spec l fr pg sz s :
  vm_ok l fr pg s -> 0 <= sz <= KERNBASE ->
  (forall j, 0 <= j < pages sz -> entry (mem s) pg j <> None) ->
  exists r s', copyuvm pg sz s = Ok r s' /\ vmrel s s' /\
    same_pages (owned (mem s) pg ++ fr) (mem s) (mem s') /\
    ((r <> 0 /\ exists l', vm_ok l' (owned (mem s) pg ++ fr) r s' /\
        l' ++ owned (mem s') r ≡ₚ l /\
        (forall j, 0 <= j < pages sz -> copied_page (mem s) pg (mem s') r j) /\
        (forall j, pages sz <= j < 2^20 -> entry (mem s') r j = kmap_entry kmap j)) \/
     (r = 0 /\ Z.of_nat (length l) < 1026 + 2 * pages sz /\
      exists l', base_ok l' (owned (mem s) pg ++ fr) s' /\ copy_left l l')).
Proof.
  intros Hvm Hsz Hpres. unfold copyuvm.
  assert (0 <= pages sz <= 524288) as Hlim by (unfold pages, PGSIZE, KERNBASE in *; zdm).
  destruct (setupkvm_spec l _ s Hvm) as (d & s1 & E1 & R1 & Hk1 & Hc1).
  assert (same_pages (owned (mem s) pg ++ fr) (mem s) (mem s1)) as Hs1.
  { destruct Hvm as (_ & _ & _ & Hn & Hp). eapply same_pages_keeps; [exact Hk1| |].
    - rewrite Forall_app in Hp. apply Hp.
    - intros p Hp1 Hp2. apply NoDup_app in Hn as (_ & Hd & _). by apply (Hd p). }
  rewrite (bind_Ok _ _ _ _ _ E1). destruct Hc1 as [(-> & Hb1 & Hlen)|(l1 & Hd & Hvm1 & Hres & Hfr & Hent)].
  { exists 0, s1. split; [done|]. split; [done|]. split; [done|]. right. split; [done|]. split; [lia|]. exists []. split; [done|].
    exists l. split; [done|]. right. by split. }
  destruct (Z.eqb_spec d 0); [done|].
  destruct (copyuvm_loop_spec (mem s) pg sz fr Hsz Hpres (Z.to_nat (sz / PGSIZE) + 1) 0 l1 d s1)
    as (r & s' & E & R & Hc).
  { split; [done|]. split; [done|]. split; [intros; lia|]. intros j Hj. rewrite Hent by lia.
    apply kmap_user_none. change (KERNBASE / PGSIZE) with 524288. lia. }
  { lia. } { unfold pages, PGSIZE in *. zdm. }
  exists r, s'. split; [done|]. split; [by eapply vmrel_trans|].
  apply Permutation_length in Hres as Hlen. unfold reserve in Hlen. rewrite length_app in Hlen.
  cbn [length] in Hlen. pose proof (length_tabs (mem s1) d).
  destruct Hc as [(-> & l' & (Hvm' & Hs' & Hcop & _) & Hp & He)|(-> & Hl & l' & lost & Hb & Hlost & Hpl & Hs')].
  - split; [done|]. left. split; [done|]. exists l'. split; [done|]. split; [|split; [done|]].
    + rewrite Hp. rewrite <- Hres. unfold owned, reserve. by rewrite Hfr, app_nil_r.
    + intros j Hj. rewrite He, Hent by lia. done.
  - split; [done|]. right. split; [done|]. split; [lia|]. exists l'. split.
    2:{ exists lost. split; [|by left]. rewrite Hpl, <- Hres. unfold owned, reserve. by rewrite Hfr, app_nil_r. }
    destruct Hb as (B1 & B2 & B3 & B4 & B5). split_and!; try done.
    + apply NoDup_cnt. intros x. pose proof (proj1 (NoDup_cnt _) B4 x) as K. rewrite !cnt_app in *. lia.
    + rewrite !Forall_app in *. tauto.
Qed.

(** ** Theorems *)

(** C38: every new address space has exactly the kernel's mappings: [setupkvm]
    returns a directory that maps the pages of [kmap] and nothing else, made of
    free pages only, or 0 when the free pages do not suffice. *)
Theorem setupkvm_maps_kernel l fr s :
  base_ok l fr s ->
  exists r s', setupkvm s = Ok r s' /\ same_pages fr (mem s) (mem s') /\
    ((r = 0 /\ (length l <= 513)%nat) \/
     (exists l', r <> 0 /\ vm_ok l' fr r s' /\ l' ++ owned (mem s') r ≡ₚ l /\
        forall j, 0 <= j < 2^20 -> entry (mem s') r j = kmap_entry kmap j)).
Proof.
  intros Hb. destruct (setupkvm_spec l fr s Hb) as (r & s' & E & _ & Hk & Hc).
  exists r, s'. split; [done|]. split.
  - destruct Hb as (_ & _ & _ & Hn & Hp). eapply same_pages_keeps; [done| |].
    + rewrite Forall_app in Hp. apply Hp.
    + intros p Hp1 Hp2. apply NoDup_app in Hn as (_ & Hd & _). by apply (Hd p).
  - destruct Hc as [(-> & _ & Hl)|(l' & Hr & Hvm & Hres & Hfr & He)]; [by left|right].
    exists l'. split_and!; try done. rewrite <- Hres. unfold owned, reserve. by rewrite Hfr, app_nil_r.
Qed.

(** C36: [allocuvm] maps a fresh zeroed page at every page of the new range and
    changes no other mapping.  With two free pages for each page asked for it does;
    with fewer it may also run out of them, having lost one page at most: then it
    unmaps the range and returns 0, unless it is the page table for the last page
    that could not be made.  As it does not look at what [mappages] returns, it then
    returns the new size all the same, with all pages of the range there but the
    last. *)
Theorem allocuvm_correct l fr pg oldsz newsz s :
  vm_ok l fr pg s -> 0 <= oldsz <= newsz -> newsz < KERNBASE ->
  (forall j, pages oldsz <= j < pages newsz -> entry (mem s) pg j = None) ->
  exists r s', allocuvm pg oldsz newsz s = Ok r s' /\
    ((r = newsz /\ alloc_done pg newsz l fr (pages oldsz) s s') \/
     (Z.of_nat (length l) < 2 * (pages newsz - pages oldsz) /\
      exists l' lost, (length lost <= 1)%nat /\ vm_ok l' (lost ++ fr) pg s' /\
        l' ++ owned (mem s') pg ++ lost ≡ₚ l ++ owned (mem s) pg /\
        (forall j, 0 <= j < 2^20 -> ~ (pages oldsz <= j < pages newsz) -> entry (mem s') pg j = entry (mem s) pg j) /\
        ((r = 0 /\ forall j, pages oldsz <= j < pages newsz -> entry (mem s') pg j = None) \/
         (r = newsz /\ lost <> [] /\ entry (mem s') pg (pages newsz - 1) = None /\
          forall j, pages oldsz <= j < pages newsz - 1 -> entry (mem s') pg j <> None)))).
Proof.
  intros Hvm Ho Hn Hnone. destruct (allocuvm_spec _ _ _ _ _ _ Hvm Ho Hn Hnone) as (r & s' & E & _ & Hc). exists r, s'. split; [done|].
  destruct Hc as [?|(Hl & lost & Hlost & l' & H1 & H2 & H3 & H4)]; [by left|right]. split; [done|]. exists l', lost. split_and!; try done.
  destruct H4 as [?|(-> & H5 & H6 & _ & H7)]; [by left|by right].
Qed.

(** C37: [deallocuvm] unmaps the pages above the new size and no other, and gives
    all of them back to the allocator. *)
Theorem deallocuvm_correct l fr pg oldsz newsz s :
  vm_ok l fr pg s -> 0 <= newsz < oldsz -> oldsz <= KERNBASE ->
  dealloc_start (mem s) pg (pages newsz) (pages oldsz) ->
  exists s' l', deallocuvm pg oldsz newsz s = Ok newsz s' /\ vm_ok l' fr pg s' /\
    l' ++ frames (mem s') pg ≡ₚ l ++ frames (mem s) pg /\
    cleared (pages newsz) (pages oldsz) (mem s) (mem s') pg.
Proof.
  intros Hvm Hn Ho Hst. destruct (deallocuvm_spec _ _ _ _ _ _ Hvm Hn Ho Hst) as (s' & l' & E & (_ & H1 & _ & H2 & _) & H3).
  by exists s', l'.
Qed.

(** C35: [freevm] gives every page of the address space back to the allocator,
    the directory and the page tables included, and touches no page in use
    elsewhere. *)
Theorem freevm_returns_all l fr pg s :
  vm_ok l fr pg s ->
  exists s' l', freevm pg s = Ok tt s' /\ base_ok l' fr s' /\ l' ≡ₚ l ++ owned (mem s) pg /\
    same_pages fr (mem s) (mem s').
Proof.
  intros Hvm. destruct (freevm_spec _ _ _ _ Hvm) as (s' & l' & E & _ & Hb & Hl & Hk).
  exists s', l'. split_and!; try done. destruct Hvm as (_ & _ & _ & Hn & Hp).
  eapply same_pages_keeps; [done| |].
  - rewrite !Forall_app in Hp. apply Hp.
  - intros p Hp1 Hp2. apply NoDup_app in Hn as (_ & _ & Hn). apply NoDup_app in Hn as (_ & Hd & _). by apply (Hd p).
Qed.

(** C9: the address space [copyuvm] makes for a child has at every page below
    [sz] a page of its own with the parent's contents and permissions, above
    only the kernel's mappings, and no page in common with the parent, which
    is unchanged; when memory does not suffice it returns 0, and all pages but the
    one being copied are free again, unless already the directory could not be
    made. *)
Theorem copyuvm_isolated l fr pg sz s :
  vm_ok l fr pg s -> 0 <= sz <= KERNBASE ->
  (forall j, 0 <= j < pages sz -> entry (mem s) pg j <> None) ->
  exists r s', copyuvm pg sz s = Ok r s' /\
    same_pages (owned (mem s) pg ++ fr) (mem s) (mem s') /\
    ((r <> 0 /\ exists l', vm_ok l' (owned (mem s) pg ++ fr) r s' /\
        l' ++ owned (mem s') r ≡ₚ l /\
        (forall j, 0 <= j < pages sz -> copied_page (mem s) pg (mem s') r j) /\
        (forall j, pages sz <= j < 2^20 -> entry (mem s') r j = kmap_entry kmap j)) \/
     (r = 0 /\ Z.of_nat (length l) < 1026 + 2 * pages sz /\
      exists l', base_ok l' (owned (mem s) pg ++ fr) s' /\ copy_left l l')).
Proof.
  intros Hvm Hsz Hp. destruct (copyuvm_spec _ _ _ _ _ Hvm Hsz Hp) as (r & s' & E & _ & Hs & Hc).
  by exists r, s'.
Qed.

End VmThm.

(** ** A concrete address space *)

(** The memory from 4MB to 20MB on the free list. *)
Lemma boot_memory :
  exists l s, @base_ok xv6_image l [] s /\ Z.of_nat (length l) = 4096.
Proof.
  assert (@free_pages xv6_image [] boot_state) as Hf0 by (split_and!; [done|apply NoDup_nil_2|by apply Forall_nil]).
  assert (kmem_ready boot_state) as Hr0 by (split; [done|by split]).
  assert (Z.to_nat 4096 < Z.to_nat 4097)%nat as Hn by lia.
  assert (Z.to_nat 4096 = Z.to_nat ((0x81400000 - 0x80400000) / PGSIZE)) as En by reflexivity.
  revert Hn En. generalize (Z.to_nat 4097). intros k Hn En.
  destruct (@freerange_loop_spec xv6_image (Z.to_nat 4096) k 0x80400000 0x81400000 boot_state [] Hr0 Hf0)
    as (s & E & Hf & Hr & Hb); [reflexivity|discriminate|discriminate|exact En|exact Hn| |].
  { by intros v []%elem_of_nil. }
  eexists _, s. split.
  - split; [exact Hf|]. split; [exact Hr|]. split; [apply Hb; intros x; by split|].
    destruct Hf as (_ & Hn1 & Hp1). by rewrite app_nil_r.
  - rewrite app_nil_r, length_reverse. unfold page_run. rewrite length_fmap, length_seq. lia.
Qed.

(** An address space with two user pages, and plenty of free memory. *)
Lemma boot_space :
  exists l pg s, @vm_ok xv6_image l [] pg s /\ 2000 <= Z.of_nat (length l) /\
    (forall j, 0 <= j < 2 -> entry (mem s) pg j <> None) /\
    (forall j, 2 <= j < 524288 -> entry (mem s) pg j = None).
Proof.
  destruct boot_memory as (l0 & s0 & Hb0 & Hl0).
  destruct (@setupkvm_spec xv6_image l0 [] s0 Hb0) as (pg & s1 & E1 & _ & _ & [(_ & _ & Hl)|(l1 & Hpg & Hvm1 & Hres & Hfr & He1)]); [lia|].
  apply Permutation_length in Hres as Hlen. unfold reserve in Hlen. rewrite length_app in Hlen.
  cbn [length] in Hlen. pose proof (length_tabs (mem s1) pg).
  destruct (@allocuvm_spec xv6_image l1 [] pg 0 8192 s1 Hvm1) as (r & s2 & E2 & _ & Hc).
  { lia. } { reflexivity. }
  { intros j Hj. rewrite He1.
    - apply kmap_user_none. change (pages 8192) with 2 in Hj. change (KERNBASE / PGSIZE) with 524288. lia.
    - change (pages 0) with 0 in Hj. change (pages 8192) with 2 in Hj. lia. }
  change (pages 0) with 0 in *. change (pages 8192) with 2 in *.
  destruct Hc as [(-> & l2 & Hvm2 & Hp2 & Hout & Hin & _)|(? & _)]; [|lia].
  change (pages 8192) with 2 in *.
  assert (forall j, 2 <= j < 524288 -> entry (mem s2) pg j = None) as Hnone.
  { intros j Hj. rewrite Hout by lia. rewrite He1 by lia. apply kmap_user_none.
    change (KERNBASE / PGSIZE) with 524288. lia. }
  exists l2, pg, s2. split; [done|]. split; [|split].
  - apply Permutation_length in Hp2. rewrite !length_app in Hp2. unfold owned in Hp2. cbn [length] in Hp2.
    rewrite !length_app, Hfr in Hp2. cbn [length] in Hp2. pose proof (length_tabs (mem s2) pg).
    assert (length (frames (mem s2) pg) <= 2)%nat; [|lia].
    apply length_frames; [pose proof NUP_Z as EN; change (KERNBASE / PGSIZE) with 524288 in EN; lia|].
    change (KERNBASE / PGSIZE) with 524288. intros j Hj. by apply Hnone.
  - intros j Hj. destruct (Hin j Hj) as (v & _ & -> & _). done.
  - done.
Qed.

Lemma setupkvm_maps_kernel_witness :
  exists s r s' l', @setupkvm xv6_image s = Ok r s' /\ r <> 0 /\ @vm_ok xv6_image l' [] r s'.
Proof.
  destruct boot_memory as (l & s & Hb & Hl).
  destruct (@setupkvm_maps_kernel xv6_image l [] s Hb) as (r & s' & E & _ & [(_ & Hlen)|(l' & Hr & Hvm & _)]); [lia|].
  by exists s, r, s', l'.
Defined.

Lemma allocuvm_correct_witness :
  exists pg l s s', @allocuvm xv6_image pg 8192 20000 s = Ok 20000 s' /\ fresh_page l (mem s') pg 4.
Proof.
  destruct boot_space as (l & pg & s & Hvm & Hl & _ & Hnone).
  destruct (@allocuvm_correct xv6_image l [] pg 8192 20000 s Hvm) as (r & s' & E & Hc).
  - lia.
  - reflexivity.
  - intros j Hj. apply Hnone. change (pages 8192) with 2 in Hj. change (pages 20000) with 5 in Hj. lia.
  - change (pages 8192) with 2 in Hc. change (pages 20000) with 5 in Hc.
    destruct Hc as [(-> & _ & _ & _ & _ & Hin & _)|(? & _)]; [|lia].
    exists pg, l, s, s'. split; [exact E|]. apply Hin. change (pages 20000) with 5. lia.
Defined.

Lemma deallocuvm_correct_witness :
  exists pg s s', @deallocuvm xv6_image pg 8192 4096 s = Ok 4096 s' /\
    entry (mem s) pg 1 <> None /\ entry (mem s') pg 1 = None.
Proof.
  destruct boot_space as (l & pg & s & Hvm & Hl & Hin & _).
  destruct (@deallocuvm_correct xv6_image l [] pg 8192 4096 s Hvm) as (s' & l' & E & _ & _ & Hc).
  - lia.
  - discriminate.
  - right. left. change (pages 4096) with 1. apply (entry_tab _ _ 1). apply Hin. lia.
  - exists pg, s, s'. split; [exact E|]. split; [apply Hin; lia|].
    change (pages 4096) with 1 in Hc. change (pages 8192) with 2 in Hc. by rewrite Hc by lia.
Defined.

Lemma freevm_returns_all_witness :
  exists l pg s s' l', @freevm xv6_image pg s = Ok tt s' /\ @base_ok xv6_image l' [] s' /\
    l' ≡ₚ l ++ owned (mem s) pg.
Proof.
  destruct boot_space as (l & pg & s & Hvm & _).
  destruct (@freevm_returns_all xv6_image l [] pg s Hvm) as (s' & l' & E & Hb & Hl & _).
  by exists l, pg, s, s', l'.
Defined.

Lemma copyuvm_isolated_witness :
  exists pg s d s', @copyuvm xv6_image pg 8000 s = Ok d s' /\ d <> 0 /\
    copied_page (mem s) pg (mem s') d 1.
Proof.
  destruct boot_space as (l & pg & s & Hvm & Hl & Hin & _).
  destruct (@copyuvm_isolated xv6_image l [] pg 8000 s Hvm) as (d & s' & E & _ & Hc).
  - split; discriminate.
  - exact Hin.
  - change (pages 8000) with 2 in Hc. destruct Hc as [(Hd & l' & _ & _ & Hcop & _)|(_ & ? & _)]; [|lia].
    exists pg, s, d, s'. split; [exact E|]. split; [exact Hd|]. apply Hcop. lia.
Defined.
