(* ===== verification/FileFacts.v ===== *)
(** * Facts about open files

    Reference counts in the file table, and what [fork] and [clone] do with the
    files and the working directory of the parent. *)

From S2P Require Import Prelude State Mem Spinlock Sched SchedFacts Ide Bio Log Inode Kalloc Vm Kbd Console Fs Pipe File Proc.

(** ** Counting *)

Definition incref (x : file) : file := set_f_ref (f_ref x + 1) x.

(** One more reference for each of [fs]. *)
Definition bumps (fs : list nat) (ft : list file) : list file := foldl (fun ft f => alter incref f ft) ft fs.

(** How often [f] is in [fs]. *)
Definition refs (f : nat) (fs : list nat) : Z := Z.of_nat (length (filter (fun g => g = f) fs)).

Lemma refs_cons f g fs : refs f (g :: fs) = (if decide (g = f) then 1 else 0) + refs f fs.
Proof. unfold refs. rewrite filter_cons. destruct (decide (g = f)); cbn [length]; lia. Qed.

Lemma bumps_lookup fs : forall ft f,
  bumps fs ft !! f = (fun x => set_f_ref (f_ref x + refs f fs) x) <$> ft !! f.
Proof.
  induction fs as [|g fs IH]; intros ft f; cbn [bumps foldl].
  - destruct (ft !! f) as [x|]; [|done]. cbn. unfold refs. cbn. rewrite Z.add_0_r. by destruct x.
  - fold (bumps fs (alter incref g ft)). rewrite IH, refs_cons. destruct (decide (g = f)) as [->|Hne].
    + rewrite list_lookup_alter_eq. destruct (ft !! f) as [x|]; [|done]. cbn. f_equal. unfold incref, set_f_ref. cbn.
      f_equal. lia.
    + rewrite list_lookup_alter_ne by done. by rewrite Z.add_0_l.
Qed.

Lemma filedup_ok i f x s :
  quiet i s -> ftable s !! f = Some x -> 1 <= f_ref x -> filedup f s = Ok f (calm (upd_file f incref s)).
Proof.
  intros Hq Hx Hr. unfold filedup. rewrite (bind_enter i) by done. unfold getfile. rewrite bind_gets.
  change (ftable (enter _ s)) with (ftable s). rewrite (list_lookup_total_correct _ _ _ Hx).
  destruct (Z.ltb_spec (f_ref x) 1); [lia|]. rewrite bind_modify.
  by rewrite (bind_leave i LFtable _ s (upd_file f incref s)).
Qed.

(** ** Sharing the parent's files *)

(** The open files among the descriptors [fds]. *)
Definition open_files (p : proc) (fds : list nat) : list nat := omap (fun fd => p_ofile p !!! fd) fds.

Definition put_fd (p : proc) (l : list (option nat)) (fd : nat) : list (option nat) :=
  match p_ofile p !!! fd with Some f => <[fd := Some f]> l | None => l end.

Definition share_fds (p : proc) (fds : list nat) (q : proc) : proc := set_p_ofile (foldl (put_fd p) (p_ofile q) fds) q.

(** A process in the kernel that has been in a critical section before. *)
Definition steady (i : nat) (s : kst) : Prop := quiet i s /\ settle (cpu s) = cpu s.

Lemma steady_calm i s : steady i s -> calm s = s.
Proof. intros [_ E]. unfold calm. rewrite E. by destruct s. Qed.

Lemma quiet_steady i s : quiet i s -> steady i (calm s).
Proof. intros Hq. split; [by apply quiet_calm|]. apply settle_settle. Qed.

Lemma steady_ext i s s' : steady i s -> cpu s' = cpu s -> locks s' = locks s -> ptable s' !! i = ptable s !! i -> steady i s'.
Proof.
  intros [[H1 H2 H3 H4 H5] Hs] Ec El Ep. split; [|by rewrite Ec]. split; by rewrite ?El, ?Ec, ?Ep.
Qed.

Definition dup_files_body (c np : nat) (i : nat) : M unit :=
  let* o := getproc c (fun p => p_ofile p !!! i) in
  match o with
  | Some f =>
    let* f := filedup f in
    modify (upd_proc np (fun p => set_p_ofile (<[i := Some f]> (p_ofile p)) p))
  | None => ret tt
  end.

Lemma dup_files_loop c np p fds : forall s,
  steady c s -> np <> c -> ptable s !! c = Some p ->
  (forall f, f ∈ open_files p fds -> exists x, ftable s !! f = Some x /\ 1 <= f_ref x) ->
  forM fds (dup_files_body c np) s =
    Ok tt (set_ftable (bumps (open_files p fds) (ftable s)) (upd_proc np (share_fds p fds) s)).
Proof.
  induction fds as [|fd fds IH]; intros s Hs Hne Hp Hf; cbn [forM].
  - unfold ret, upd_proc. f_equal. cbn. rewrite (alter_same (share_fds p [])); [by destruct s|by intros []].
  - unfold dup_files_body at 1, getproc. unfold bind at 1. rewrite bind_gets, (list_lookup_total_correct _ _ _ Hp).
    cbn [open_files omap list_omap] in Hf |- *. fold (open_files p fds) in *.
    destruct (p_ofile p !!! fd) as [f|] eqn:Ef.
    + destruct (Hf f) as (x & Hx & Hr); [by left|]. destruct Hs as [Hq Hst].
      rewrite (bind_Ok _ _ _ _ _ (filedup_ok c f x s Hq Hx Hr)). unfold modify at 1.
      rewrite steady_calm with (i := c) by (by apply (steady_ext c s)).
      rewrite IH.
      * unfold upd_proc. rewrite (alter_fun (share_fds p (fd :: fds))
          (fun q => share_fds p fds (set_p_ofile (<[fd := Some f]> (p_ofile q)) q))).
        -- cbn. by rewrite list_alter_twice.
        -- intros q. unfold share_fds. cbn. unfold put_fd at 2. by rewrite Ef.
      * apply (steady_ext c s); [done|done|done|]. cbn. by rewrite list_lookup_alter_ne.
      * done.
      * cbn. by rewrite list_lookup_alter_ne.
      * intros g Hg. destruct (Hf g) as (y & Hy & Hry); [by right|]. cbn. destruct (decide (g = f)) as [->|Hgf].
        -- rewrite list_lookup_alter_eq, Hy. eexists. split; [reflexivity|]. cbn. lia.
        -- rewrite list_lookup_alter_ne by done. by exists y.
    + unfold ret at 1. rewrite (IH s) by done. unfold upd_proc.
      rewrite (alter_fun (share_fds p (fd :: fds)) (share_fds p fds)); [done|].
      intros q. unfold share_fds. cbn. unfold put_fd at 2. by rewrite Ef.
Qed.

Lemma put_fds_lookup p fds : forall l j, (j < length l)%nat ->
  foldl (put_fd p) l fds !! j = if decide (j ∈ fds) then match p_ofile p !!! j with Some f => Some (Some f) | None => l !! j end else l !! j.
Proof.
  induction fds as [|fd fds IH]; intros l j Hj; cbn [foldl].
  - by rewrite decide_False by apply not_elem_of_nil.
  - assert (length (put_fd p l fd) = length l) as El by (unfold put_fd; destruct (_ !!! fd); [by rewrite length_insert|done]).
    rewrite IH by lia. assert (j <> fd -> put_fd p l fd !! j = l !! j) as Hne.
    { intros H. unfold put_fd. destruct (_ !!! fd); [by rewrite list_lookup_insert_ne|done]. }
    destruct (decide (j = fd)) as [->|H].
    + rewrite (decide_True (P := fd ∈ fd :: fds)) by (by left). unfold put_fd.
      destruct (p_ofile p !!! fd) eqn:E; [|by destruct (decide _)]. destruct (decide _); [done|]. by rewrite list_lookup_insert_eq.
    + rewrite Hne by done. destruct (decide (j ∈ fds)) as [Hin|Hin].
      * by rewrite (decide_True (P := j ∈ fd :: fds)) by (by right).
      * rewrite (decide_False (P := j ∈ fd :: fds)); [done|]. by intros [?|?]%elem_of_cons.
Qed.

(** A process without open files gets all of the parent's. *)
Lemma share_all p q :
  length (p_ofile p) = NOFILE -> p_ofile q = replicate NOFILE None -> share_fds p (seq 0 NOFILE) q = set_p_ofile (p_ofile p) q.
Proof.
  intros Hp Hq. unfold share_fds. f_equal. apply list_eq. intros j. destruct (decide (j < NOFILE)%nat) as [Hj|Hj].
  - rewrite put_fds_lookup by (by rewrite Hq, length_replicate). rewrite decide_True by (apply elem_of_seq; lia).
    destruct (lookup_lt_is_Some_2 (p_ofile p) j ltac:(lia)) as [o Ho]. rewrite (list_lookup_total_correct _ _ _ Ho), Ho.
    destruct o; [done|]. rewrite Hq. by apply lookup_replicate_2.
  - rewrite !lookup_ge_None_2; [done|lia|].
    assert (forall fds l, length (foldl (put_fd p) l fds) = length l) as El.
    { intros fds. induction fds as [|fd fds IH]; intros l; cbn; [done|]. rewrite IH. unfold put_fd.
      destruct (_ !!! fd); [by rewrite length_insert|done]. }
    rewrite El, Hq, length_replicate. lia.
Qed.

Lemma dup_files_ok c np p s :
  steady c s -> np <> c -> ptable s !! c = Some p ->
  (forall f, f ∈ open_files p (seq 0 NOFILE) -> exists x, ftable s !! f = Some x /\ 1 <= f_ref x) ->
  dup_files c np s =
    Ok tt (set_ftable (bumps (open_files p (seq 0 NOFILE)) (ftable s)) (upd_proc np (share_fds p (seq 0 NOFILE)) s)).
Proof. apply dup_files_loop. Qed.

(** ** Sharing the working directory *)

Definition iref1 (x : inode) : inode := set_i_ref (i_ref x + 1) x.

Lemma idup_ok i ip s : quiet i s -> idup ip s = Ok ip (calm (upd_inode ip iref1 s)).
Proof.
  intros Hq. unfold idup. rewrite (bind_enter i), bind_modify by done.
  by rewrite (bind_leave i LIcache _ s (upd_inode ip iref1 s)).
Qed.

Lemma dup_cwd_ok c np p ip s :
  steady c s -> np <> c -> ptable s !! c = Some p -> p_cwd p = Some ip ->
  dup_cwd c np s =
    Ok tt (upd_inode ip iref1 (upd_proc np (fun q => set_name (p_name p) (set_p_cwd (Some ip) q)) s)).
Proof.
  intros Hs Hne Hp Hc. unfold dup_cwd, getproc. rewrite bind_gets, (list_lookup_total_correct _ _ _ Hp), Hc. cbn [the_inode].
  rewrite bind_ret, (bind_Ok _ _ _ _ _ (idup_ok c ip s (proj1 Hs))), bind_modify, bind_gets.
  rewrite steady_calm with (i := c) by (by apply (steady_ext c s)).
  unfold modify, upd_proc. cbn. rewrite (list_lookup_total_correct _ c p) by (by rewrite list_lookup_alter_ne).
  by rewrite list_alter_twice.
Qed.

(** The end of [fork] and [clone]: what the child at [np] inherits. *)
Definition inherit (p : proc) (q : proc) : proc := set_name (p_name p) (set_p_cwd (p_cwd p) (set_p_ofile (p_ofile p) q)).

Lemma inherit_ok {A} c np p q ip (k : M A) s :
  steady c s -> np <> c -> ptable s !! c = Some p -> length (p_ofile p) = NOFILE -> p_cwd p = Some ip ->
  (forall f, f ∈ open_files p (seq 0 NOFILE) -> exists x, ftable s !! f = Some x /\ 1 <= f_ref x) ->
  ptable s !! np = Some q -> p_ofile q = replicate NOFILE None ->
  (dup_files c np ;; dup_cwd c np ;; k) s =
    k (set_icache (alter iref1 ip (icache s)) (set_ftable (bumps (open_files p (seq 0 NOFILE)) (ftable s))
         (set_ptable (<[np := inherit p q]> (ptable s)) s))).
Proof.
  intros Hs Hne Hp Hl Hc Hf Hq Ho. rewrite (bind_Ok _ _ _ _ _ (dup_files_ok c np p s Hs Hne Hp Hf)).
  erewrite bind_Ok; [|eapply (dup_cwd_ok c np p ip); [apply (steady_ext c s); [done..|]|done| |done]];
    [|cbn; by rewrite list_lookup_alter_ne..].
  unfold upd_proc, upd_inode. cbn -[seq]. rewrite list_alter_twice, (alter_insert_at _ _ _ q Hq). cbv beta. rewrite (share_all p q Hl Ho).
  unfold inherit. by rewrite Hc.
Qed.

(** The child may run. *)
Lemma publish_ok c np q (pid : Z) s :
  steady c s -> np <> c -> ptable s !! np = Some q ->
  (acquire LPtable ;; modify (upd_proc np (set_p_state RUNNABLE)) ;; release LPtable ;; ret pid) s =
    Ok pid (set_ptable (<[np := set_p_state RUNNABLE q]> (ptable s)) s).
Proof.
  intros Hs Hne Hq. rewrite (bind_enter c), bind_modify by apply Hs.
  change (upd_proc np (set_p_state RUNNABLE) (enter LPtable s)) with (enter LPtable (upd_proc np (set_p_state RUNNABLE) s)).
  rewrite (bind_leave c _ _ s); [|apply Hs|done|done]. rewrite steady_calm with (i := c).
  - unfold upd_proc. by rewrite (alter_insert_at _ _ _ q Hq).
  - apply (steady_ext c s _ Hs); [done|done|]. cbn. by rewrite list_lookup_alter_ne.
Qed.
