(* ===== verification/ProcFacts.v ===== *)
(** * Facts about the process table

    The scan of [wait] and [join], and the pages a zombie leaves behind. *)

From S2P Require Import Prelude State Mem Spinlock Sched SchedFacts Ide Bio Log Inode Kalloc Vm Kbd Console Fs Pipe File Proc.
From S2P Require Import VmFacts VmSpec VmCopy.

(** ** Scanning for zombies *)

Lemma zombie_scan_some l child p i : forall k,
  l !! i = Some p -> child p = true -> p_state p = ZOMBIE ->
  (forall j q, (j < i)%nat -> l !! j = Some q -> child q = true -> p_state q <> ZOMBIE) ->
  zombie_scan l k child = (true, Some (k + i)%nat).
Proof.
  revert i. induction l as [|q l IH]; intros i k Hi Hc Hz Hf; [done|]. destruct i as [|i]; cbn in *.
  - injection Hi as ->. by rewrite Hc, bool_decide_eq_true_2, Nat.add_0_r.
  - rewrite (IH i (S k)); [|done..|intros j q' Hj; apply (Hf (S j)); lia].
    destruct (child q) eqn:E; [|do 2 f_equal; lia].
    rewrite bool_decide_eq_false_2 by (apply (Hf 0%nat q); [lia|done..]). do 2 f_equal; lia.
Qed.

Lemma zombie_scan_none l child : forall k,
  (forall j q, l !! j = Some q -> child q = true -> p_state q <> ZOMBIE) ->
  zombie_scan l k child = (existsb child l, None).
Proof.
  induction l as [|q l IH]; intros k Hf; [done|]. cbn. rewrite (IH (S k)) by (intros j q'; apply (Hf (S j))).
  destruct (child q) eqn:E; [|done]. by rewrite bool_decide_eq_false_2 by (by apply (Hf 0%nat q)).
Qed.

(** ** The pages of a zombie *)

Section Reap.
Context `{KI : KernelImage}.

(** The allocator's invariant is about memory, free list and its lock. *)
Lemma base_ok_ext l fr s s' :
  base_ok l fr s -> mem s' = mem s -> freelist s' = freelist s -> locks s' !! LKmem = None -> Smp.cpu_sane (cpu s') ->
  base_ok l fr s'.
Proof.
  intros ((Hc & Hn & Hp) & Hr & Hb & Hnd & Hpo) Em Ef El Hs.
  split; [|split; [by split|split; [by rewrite Em|done]]]. split_and!; [|done|done]. by rewrite Em, Ef.
Qed.

Lemma base_ok_enter lk l fr s : lk <> LKmem -> Smp.cpu_sane (cpu s) -> base_ok l fr s -> base_ok l fr (enter lk s).
Proof.
  intros Hne Hs Hb. apply (base_ok_ext _ _ _ _ Hb); [done|done| |by apply pushcli_sane].
  cbn. by apply lookup_singleton_ne.
Qed.

(** Freeing one more page leaves an address space alone. *)
Lemma vm_ok_kfree l fr pg v s :
  vm_ok l (v :: fr) pg s ->
  exists s', kfree v s = Ok tt s' /\ vmrel s s' /\ vm_ok (v :: l) fr pg s' /\ owned (mem s') pg = owned (mem s) pg /\
    keeps [v] (mem s) (mem s').
Proof.
  intros Hvm. unfold vm_ok in Hvm.
  destruct (kfree_base l (owned (mem s) pg ++ fr) v s) as (s' & E & R & Hb & Hk).
  { eapply base_perm; [exact Hvm|]. perm_solve. }
  assert (forall p, p ∈ owned (mem s) pg -> agree (mem s) (mem s') p) as Ha.
  { intros p Hp. destruct Hvm as (_ & _ & _ & Hn & Hpo). apply Hk.
    - rewrite !Forall_app in Hpo. destruct Hpo as (_ & Hpo & _). rewrite Forall_forall in Hpo. exact (Hpo p Hp).
    - intros ->%list_elem_of_singleton. apply NoDup_app in Hn as (_ & _ & Hn). apply NoDup_app in Hn as (_ & Hd & _).
      apply (Hd v Hp). by left. }
  assert (owned (mem s') pg = owned (mem s) pg) as Eo.
  { apply owned_ext; [|intros p Hp]; apply Ha; unfold owned; rewrite elem_of_cons, elem_of_app; tauto. }
  exists s'. split; [done|]. split; [done|]. split; [|done]. unfold vm_ok. by rewrite Eo.
Qed.

End Reap.

(** ** Killing *)

Definition kill_proc (p : proc) : proc :=
  let p := set_p_killed true p in
  if bool_decide (p_state p = SLEEPING) then set_p_state RUNNABLE p else p.

Lemma find_pid_lt l pid i : forall k, find_pid l k pid = Some i -> (i - k < length l)%nat.
Proof.
  induction l as [|p l IH]; intros k; cbn; [done|]. destruct (_ =? _); [intros [= <-]; lia|]. intros H%IH. lia.
Qed.

Lemma kill_eq c pid s : quiet c s ->
  kill pid s =
    match find_pid (ptable s) 0 pid with
    | Some i => Ok 0 (calm (upd_proc i kill_proc s))
    | None => Ok (-1) (calm s)
    end.
Proof.
  intros Hq. unfold kill. rewrite (bind_enter c), bind_gets by done. change (ptable (enter _ s)) with (ptable s).
  destruct (find_pid (ptable s) 0 pid) as [i|] eqn:E; [|by rewrite (bind_leave c _ _ s)].
  rewrite bind_modify. unfold getproc. rewrite bind_gets.
  rewrite (bind_Ok _ _ _ tt (enter LPtable (upd_proc i kill_proc s))); [by rewrite (bind_leave c _ _ s)|].
  destruct (lookup_lt_is_Some_2 (ptable s) i ltac:(apply find_pid_lt in E; lia)) as [p Hp].
  change (ptable (upd_proc _ _ _)) with (alter (set_p_killed true) i (ptable s)).
  rewrite (total_alter_eq _ _ _ _ Hp). unfold when, modify, ret. case_bool_decide as Hs; f_equal.
  - unfold upd_proc. rewrite (alter_at kill_proc (fun x => set_p_state RUNNABLE (set_p_killed true x)) _ _ p Hp).
    + cbn. by rewrite list_alter_twice.
    + unfold kill_proc. by rewrite bool_decide_eq_true_2.
  - unfold upd_proc. rewrite (alter_at kill_proc (set_p_killed true) _ _ p Hp); [done|].
    unfold kill_proc. by rewrite bool_decide_eq_false_2.
Qed.

Lemma find_pid_first l pid : forall k i, find_pid l k pid = Some i ->
  exists p, l !! (i - k)%nat = Some p /\ p_pid p = pid /\ (k <= i)%nat /\
    forall j q, (j < i - k)%nat -> l !! j = Some q -> p_pid q <> pid.
Proof.
  induction l as [|p l IH]; intros k i; cbn; [done|]. destruct (Z.eqb_spec (p_pid p) pid) as [E|E].
  - intros [= <-]. rewrite Nat.sub_diag. exists p. split_and!; [done..|]. lia.
  - intros H. destruct (IH _ _ H) as (q & H1 & H2 & H3 & H4). exists q.
    replace (i - k)%nat with (S (i - S k)) by lia. split_and!; [done|done|lia|].
    intros [|j] q' Hj Hq'; cbn in Hq'; [by injection Hq' as <-|]. apply (H4 j q'); [lia|done].
Qed.

Lemma find_pid_none l pid : forall k, find_pid l k pid = None -> forall q, q ∈ l -> p_pid q <> pid.
Proof.
  induction l as [|p l IH]; intros k; cbn; [by intros _ q []%elem_of_nil|].
  destruct (Z.eqb_spec (p_pid p) pid) as [E|E]; [done|]. intros H q [->|Hq]%elem_of_cons; [done|]. by apply (IH _ H).
Qed.

Lemma find_pid_is l pid p i : forall k, l !! i = Some p -> p_pid p = pid ->
  (forall j q, (j < i)%nat -> l !! j = Some q -> p_pid q <> pid) -> find_pid l k pid = Some (k + i)%nat.
Proof.
  revert i. induction l as [|q l IH]; intros i k Hi Hp Hf; [done|]. destruct i as [|i]; cbn in *.
  - injection Hi as ->. rewrite (proj2 (Z.eqb_eq _ _) Hp). f_equal. lia.
  - rewrite (proj2 (Z.eqb_neq _ _) (Hf 0%nat q ltac:(lia) eq_refl)), (IH i (S k)); [f_equal; lia|done|done|].
    intros j q' Hj. apply (Hf (S j)). lia.
Qed.

(** ** Allocating an entry *)

Lemma unused_first l : forall k i, unused_proc l k = Some i ->
  exists p, l !! (i - k)%nat = Some p /\ p_state p = UNUSED /\ (k <= i)%nat /\
    forall j q, (j < i - k)%nat -> l !! j = Some q -> p_state q <> UNUSED.
Proof.
  induction l as [|p l IH]; intros k i; cbn; [done|]. case_bool_decide as E.
  - intros [= <-]. rewrite Nat.sub_diag. exists p. split_and!; [done..|]. lia.
  - intros H. destruct (IH _ _ H) as (q & H1 & H2 & H3 & H4). exists q.
    replace (i - k)%nat with (S (i - S k)) by lia. split_and!; [done|done|lia|].
    intros [|j] q' Hj Hq'; cbn in Hq'; [by injection Hq' as <-|]. apply (H4 j q'); [lia|done].
Qed.

Lemma unused_is l p i : forall k, l !! i = Some p -> p_state p = UNUSED ->
  (forall j q, (j < i)%nat -> l !! j = Some q -> p_state q <> UNUSED) -> unused_proc l k = Some (k + i)%nat.
Proof.
  revert i. induction l as [|q l IH]; intros i k Hi Hp Hf; [done|]. destruct i as [|i]; cbn in *.
  - injection Hi as ->. rewrite bool_decide_eq_true_2 by done. f_equal. lia.
  - rewrite bool_decide_eq_false_2, (IH i (S k)); [f_equal; lia|done|done| |by apply (Hf 0%nat q ltac:(lia))].
    intros j q' Hj. apply (Hf (S j)). lia.
Qed.

Section Alloc.
Context `{KI : KernelImage} `{KT : KernelText}.

Definition embryo (k pid : Z) (p : proc) : proc :=
  set_p_context (MkCtx 0 0 0 0 forkret_pc) (set_p_kstack k (set_p_pid pid (set_p_state EMBRYO p))).

Lemma vmrel_calm s t : vmrel (calm s) t -> t = set_cpu (settle (cpu s)) (set_freelist (freelist t) (set_mem (mem t) s)).
Proof.
  intros [Hc E]. rewrite E at 1. unfold calm in *. cbn in Hc. rewrite settle_settle in Hc. by destruct Hc as [->| ->].
Qed.

Lemma allocproc_free np k l fr s :
  locks s = ∅ -> Smp.cpu_sane (cpu s) -> unused_proc (ptable s) 0 = Some np -> base_ok (k :: l) fr s ->
  exists s', allocproc s = Ok (Some np) s' /\ base_ok l (k :: fr) s' /\
    s' = set_freelist (freelist s')
           (set_nextpid (i32 (nextpid s + 1)) (upd_proc np (embryo k (nextpid s)) (calm s))).
Proof.
  intros Hl Hs Hu Hb. unfold allocproc. rewrite bind_enter_free, bind_gets by done. change (ptable (enter _ s)) with (ptable s).
  rewrite Hu, bind_modify, bind_gets, !bind_modify.
  match goal with |- context [bind (release _) _ ?x] => change x with
    (enter LPtable (set_nextpid (i32 (nextpid s + 1)) (upd_proc np (set_p_pid (nextpid s)) (upd_proc np (set_p_state EMBRYO) s)))) end.
  rewrite bind_leave_free by done. set (u := set_nextpid _ _).
  destruct (kalloc_base (k :: l) fr (calm u)) as (v & t & E & R & Em & Hc).
  { apply (base_ok_ext _ _ _ _ Hb); [done..|cbn; by rewrite Hl|]. by apply settle_sane. }
  destruct Hc as [(_ & Hnil & _)|(l' & [= -> ->] & Hv & Hp & Hbt)]; [done|].
  rewrite (bind_Ok _ _ _ _ _ E), bind_modify. destruct (Z.eqb_spec v 0); [done|]. rewrite bind_modify.
  eexists. split; [reflexivity|]. split; [exact Hbt|]. pose proof (vmrel_calm _ _ R) as Et.
  rewrite Et at 1. unfold u, upd_proc, calm. rewrite Em. cbn. by rewrite !list_alter_twice.
Qed.

Lemma allocproc_ok c np k l fr s :
  quiet c s -> unused_proc (ptable s) 0 = Some np -> base_ok (k :: l) fr s ->
  exists s', allocproc s = Ok (Some np) s' /\ base_ok l (k :: fr) s' /\
    s' = set_freelist (freelist s')
           (set_nextpid (i32 (nextpid s + 1)) (upd_proc np (embryo k (nextpid s)) (calm s))).
Proof. intros Hq. apply allocproc_free; [apply Hq|by apply (quiet_sane c)]. Qed.

(** Without a free entry nothing happens. *)
Lemma allocproc_full c s : quiet c s -> unused_proc (ptable s) 0 = None -> allocproc s = Ok None (calm s).
Proof.
  intros Hq Hu. pose proof (quiet_sane _ _ Hq). pose proof (q_locks _ _ Hq). unfold allocproc.
  rewrite bind_enter_free, bind_gets by done. change (ptable (enter _ s)) with (ptable s). by rewrite Hu, bind_leave_free.
Qed.

(** Without a page for the kernel stack the entry is free again. *)
Lemma allocproc_short c np fr s :
  quiet c s -> unused_proc (ptable s) 0 = Some np -> base_ok [] fr s ->
  exists s', allocproc s = Ok None s' /\ base_ok [] fr s' /\
    s' = set_freelist (freelist s') (set_nextpid (i32 (nextpid s + 1))
           (upd_proc np (fun q => set_p_state UNUSED (set_p_kstack 0 (set_p_pid (nextpid s) (set_p_state EMBRYO q)))) (calm s))).
Proof.
  intros Hq Hu Hb. pose proof (quiet_sane _ _ Hq) as Hs. pose proof (q_locks _ _ Hq) as Hl. unfold allocproc.
  rewrite bind_enter_free, bind_gets by done. change (ptable (enter _ s)) with (ptable s).
  rewrite Hu, bind_modify, bind_gets, !bind_modify.
  match goal with |- context [bind (release _) _ ?x] => change x with
    (enter LPtable (set_nextpid (i32 (nextpid s + 1)) (upd_proc np (set_p_pid (nextpid s)) (upd_proc np (set_p_state EMBRYO) s)))) end.
  rewrite bind_leave_free by done. set (u := set_nextpid _ _).
  destruct (kalloc_base [] fr (calm u)) as (v & t & E & R & Em & Hc).
  { apply (base_ok_ext _ _ _ _ Hb); [done..|cbn; by rewrite Hl|]. by apply settle_sane. }
  destruct Hc as [(-> & _ & Hbt)|(l' & ? & _)]; [|done].
  rewrite (bind_Ok _ _ _ _ _ E), bind_modify. cbn [Z.eqb]. rewrite bind_modify.
  eexists. split; [reflexivity|]. split; [exact Hbt|]. pose proof (vmrel_calm _ _ R) as Et.
  rewrite Et at 1. unfold u, upd_proc, calm. rewrite Em. cbn. by rewrite !list_alter_twice.
Qed.

End Alloc.

