(* ===== verification/ProcThm.v ===== *)
(** * What the process table promises

    [wait] reaps zombie children and frees their memory, [join] reaps zombie
    threads and keeps the address space they shared, [kill] marks its victim. *)

From S2P Require Import Prelude State Mem Spinlock Sched SchedFacts Ide Bio Log Inode Kalloc Vm Kbd Console Fs Pipe File Proc.
From S2P Require Import VmFacts VmSpec VmCopy VmThm UserMem Sample ProcFacts.

(** The first zombie among the processes [child] accepts is entry [i]. *)
Record first_zombie (child : proc -> bool) (pt : list proc) (i : nat) (p : proc) : Prop := {
  fz_proc : pt !! i = Some p;
  fz_child : child p = true;
  fz_zombie : p_state p = ZOMBIE;
  fz_first : forall j q, (j < i)%nat -> pt !! j = Some q -> child q = true -> p_state q <> ZOMBIE }.

Lemma first_zombie_scan child pt i p : first_zombie child pt i p -> zombie_scan pt 0 child = (true, Some i).
Proof. intros [H1 H2 H3 H4]. by apply (zombie_scan_some _ _ p i 0). Qed.

(** What is left of the entry. *)
Definition reaped (p : proc) : proc := reset_proc (set_p_kstack 0 p).

Section ProcThm.
Context `{KI : KernelImage} `{KT : KernelText}.

(** Using the allocator inside a critical section. *)
Lemma vmrel_crit c s s' : vmrel s s' -> cpu s = pushcli_cpu c -> Smp.cpu_sane c ->
  cpu s' = pushcli_cpu c /\ locks s' = locks s /\ ptable s' = ptable s.
Proof.
  intros [Hc E] Ec Hs. split; [|by rewrite E]. destruct Hc as [->| ->]; [done|]. rewrite Ec. by apply settle_pushcli.
Qed.

(** Pages in use elsewhere are neither the kernel stack nor of the address space. *)
Lemma vm_ok_apart l fr pg k s :
  vm_ok l (k :: fr) pg s ->
  Forall page_ok fr /\ (forall p, p ∈ fr -> p ∉ [k]) /\ (forall p, p ∈ fr -> p ∉ owned (mem s) pg).
Proof.
  intros (_ & _ & _ & Hn & Hp). rewrite !Forall_app, Forall_cons in Hp. destruct Hp as (_ & _ & _ & Hp).
  apply NoDup_app in Hn as (_ & _ & Hn). apply NoDup_app in Hn as (_ & Hd & [Hk _]%NoDup_cons). split_and!; [done|..].
  - intros p Hin ->%list_elem_of_singleton. done.
  - intros p Hin Ho. apply (Hd p Ho). by right.
Qed.

(** Reaping in [wait]. *)
Lemma wait_spec c i p l fr s :
  quiet c s -> first_zombie (is_child c) (ptable s) i p -> vm_ok l (p_kstack p :: fr) (p_pgdir p) s ->
  exists s' l', wait_ s = Ok (p_pid p) s' /\ base_ok l' fr s' /\
    l' ≡ₚ l ++ p_kstack p :: owned (mem s) (p_pgdir p) /\ same_pages fr (mem s) (mem s') /\
    ptable s' = alter reaped i (ptable s) /\ quiet c (set_ptable (ptable s) s').
Proof.
  intros Hq Hz Hvm. pose proof (quiet_sane _ _ Hq) as Hs. unfold wait_. rewrite (bind_enter c) by done.
  unfold wait_locked. rewrite (crit_curproc c _ s) by done. rewrite bind_gets. change (ptable (enter _ s)) with (ptable s).
  rewrite (first_zombie_scan _ _ _ _ Hz). unfold getproc at 1. rewrite bind_gets. change (ptable (enter _ s)) with (ptable s).
  rewrite (list_lookup_total_correct _ _ _ (fz_proc _ _ _ _ Hz)).
  destruct (vm_ok_kfree l fr (p_pgdir p) (p_kstack p) (enter LPtable s)) as (s1 & E1 & R1 & Hvm1 & Eo & Hk1).
  { by apply base_ok_enter. }
  rewrite (bind_Ok _ _ _ _ _ E1), bind_modify.
  destruct (freevm_spec _ _ _ (upd_proc i (set_p_kstack 0) s1) Hvm1) as (s2 & l2 & E2 & R2 & Hb2 & Hl2 & Hk2).
  rewrite (bind_Ok _ _ _ _ _ E2), bind_modify.
  destruct (vmrel_crit _ _ _ R1 eq_refl Hs) as (Ec1 & El1 & Ep1).
  destruct (vmrel_crit (cpu s) _ _ R2 Ec1 Hs) as (Ec2 & El2 & Ep2).
  erewrite bind_Ok; [|eapply (crit_exit c LPtable s _ Hq); [exact Ec2|]; cbn; by rewrite El2].
  eexists _, l2. split; [reflexivity|]. split.
  { apply (base_ok_ext _ _ _ _ Hb2); try done; cbn; [by rewrite (q_locks _ _ Hq)|by apply settle_sane]. }
  split; [|split].
  - rewrite Hl2. change (mem (upd_proc _ _ s1)) with (mem s1). rewrite Eo. cbn. perm_solve.
  - destruct (vm_ok_apart _ _ _ _ _ Hvm) as (Hf & Ha1 & Ha2). apply (same_pages_trans _ _ (mem s1)).
    + by apply (same_pages_keeps _ _ _ _ Hk1).
    + apply (same_pages_keeps _ _ _ _ Hk2); [done|]. change (mem (upd_proc _ _ s1)) with (mem s1). by rewrite Eo.
  - split.
    + cbn. rewrite Ep2. cbn. rewrite Ep1. cbn. by rewrite list_alter_twice.
    + destruct (quiet_calm _ _ Hq) as [H1 H2 H3 H4 H5]. by split.
Qed.

(** C5: [wait] reaps the first zombie child.  It returns the child's pid, its
    kernel stack and every page of its address space are back with the
    allocator, no page in use elsewhere has changed, its entry is free again,
    and no other process has changed. *)
Theorem wait_reaps c i p l fr s :
  quiet c s -> first_zombie (is_child c) (ptable s) i p -> vm_ok l (p_kstack p :: fr) (p_pgdir p) s ->
  exists s' l', wait_ s = Ok (p_pid p) s' /\ base_ok l' fr s' /\
    l' ≡ₚ l ++ p_kstack p :: owned (mem s) (p_pgdir p) /\ same_pages fr (mem s) (mem s') /\
    ptable s' = alter reaped i (ptable s) /\ quiet c (set_ptable (ptable s) s').
Proof. intros. by apply wait_spec. Qed.

(** C39: [wait] without a zombie child changes no process.  Without children, or
    when the caller was killed, it returns -1; otherwise the caller sleeps on
    its own channel, with ptable.lock held up to the switch. *)
Theorem wait_nothing c s :
  quiet c s -> (forall j q, ptable s !! j = Some q -> is_child c q = true -> p_state q <> ZOMBIE) ->
  wait_ s =
    if negb (existsb (is_child c) (ptable s)) || p_killed (ptable s !!! c) then Ok (-1) (calm s)
    else Halt (Waiting (WSleep (CProc c))) (upd_proc c (asleep (CProc c)) (enter LPtable s)).
Proof.
  intros Hq Hz. unfold wait_. rewrite (bind_enter c) by done. unfold wait_locked. rewrite (crit_curproc c _ s) by done.
  rewrite bind_gets. change (ptable (enter _ s)) with (ptable s). rewrite zombie_scan_none by done. unfold getproc.
  rewrite bind_gets. change (ptable (enter _ s)) with (ptable s). destruct (_ || _); [by rewrite (bind_leave c _ _ s)|].
  destruct (q_run _ _ Hq) as (q & Hqi & _). by apply (crit_sleep_ptable c _ q).
Qed.

(** [join] without a zombie thread changes no process: -1 when the caller has
    no thread left, exited or not, or was killed, and a sleep otherwise.
    Children with an address space of their own do not count. *)
Theorem join_nothing c st s :
  quiet c s -> let mine := is_thread c (p_pgdir (ptable s !!! c)) in
  (forall j q, ptable s !! j = Some q -> mine q = true -> p_state q <> ZOMBIE) ->
  join st s =
    if negb (existsb mine (ptable s)) || p_killed (ptable s !!! c) then Ok (-1) (calm s)
    else Halt (Waiting (WSleep (CProc c))) (upd_proc c (asleep (CProc c)) (enter LPtable s)).
Proof.
  intros Hq mine Hz. unfold join. rewrite (bind_enter c) by done. unfold join_locked. rewrite (crit_curproc c _ s) by done.
  rewrite bind_gets. change (ptable (enter _ s)) with (ptable s). fold mine. rewrite zombie_scan_none by done. unfold getproc.
  rewrite bind_gets. change (ptable (enter _ s)) with (ptable s). destruct (_ || _); [by rewrite (bind_leave c _ _ s)|].
  destruct (q_run _ _ Hq) as (q & Hqi & _). by apply (crit_sleep_ptable c _ q).
Qed.

(** The store of [join] through the parent's stack pointer. *)
Lemma join_store l fr pg a v1 v2 s :
  vm_ok l fr pg s -> c_cr3 (cpu s) = pg -> 0 <= a -> a + 4 <= KERNBASE ->
  (forall k, 0 <= k < 4 -> uwritable (mem s) pg (a + k)) -> is_u32 v1 ->
  exists m, (forall A (k : M A),
      (uwrite a (bytes32 v1) ;; let* v := uread a 4 in uwrite a (bytes32 (v2 (le v))) ;; k) s = k (set_mem m s)) /\
    ustored pg a (bytes32 (v2 v1)) (mem s) m /\ vm_ok l fr pg (set_mem m s).
Proof.
  intros Hvm Hc Ha Hl Hw Hu.
  destruct (uwrite_stored l fr pg (bytes32 v1) a s) as (m1 & E1 & Hs1 & Hvm1); try done.
  { rewrite length_bytes32. intros k Hk. apply Hw. lia. } { apply bytes32_bytes. }
  destruct (uwrite_stored l fr pg (bytes32 (v2 v1)) a (set_mem m1 s)) as (m2 & E2 & Hs2 & Hvm2); try done.
  { rewrite length_bytes32. intros k Hk. unfold uwritable. cbn [mem set_mem].
    rewrite (us_trans _ _ _ _ _ Hs1) by (unfold KERNBASE in *; lia). apply Hw. lia. } { apply bytes32_bytes. }
  exists m2. split_and!; [|exact (ustored_over _ _ _ _ _ (bytes32 v1) _ _ _ Hvm (eq_trans (length_bytes32 _) (eq_sym (length_bytes32 _))) Hs1 Hs2)|by destruct s].
  intros A k. rewrite (bind_Ok _ _ _ _ _ E1).
  rewrite (bind_Ok _ _ _ (bytes32 v1) (set_mem m1 s)).
  - rewrite le_bytes32, (bind_Ok _ _ _ _ _ E2) by done. by destruct s.
  - apply (uread_view pg); try done. apply (us_in _ _ _ _ _ Hs1).
Qed.

(** C4: [join] reaps the first zombie thread, a child with the caller's page
    directory.  It returns the thread's pid; the caller finds the thread's
    stack in the word at esp+28 and nothing else of its memory has changed;
    the thread's kernel stack is back with the allocator, and all pages of the
    address space, which the caller goes on using, are still in use. *)
Theorem join_reaps c i p stack st l fr s :
  quiet c s -> first_zombie (is_thread c (c_cr3 (cpu s))) (ptable s) i p ->
  vm_ok l (p_kstack p :: fr) (c_cr3 (cpu s)) s ->
  is_u32 stack -> tf_ebp (p_tf p) = u32 (stack + PGSIZE - 12) ->
  let a := u32 (tf_esp (p_tf (ptable s !!! c)) + 28) in
  a + 4 <= KERNBASE -> (forall k, 0 <= k < 4 -> uwritable (mem s) (c_cr3 (cpu s)) (a + k)) ->
  exists s', join st s = Ok (p_pid p) s' /\
    uchanged (c_cr3 (cpu s)) a (bytes32 stack) (mem s) (mem s') /\
    vm_ok (p_kstack p :: l) fr (c_cr3 (cpu s)) s' /\
    ptable s' = alter reaped i (ptable s) /\ quiet c (set_ptable (ptable s) s').
Proof.
  intros Hq Hz Hvm Hst Hebp a Hal Hw. pose proof (quiet_sane _ _ Hq) as Hs. unfold join. rewrite (bind_enter c) by done.
  unfold join_locked. rewrite (crit_curproc c _ s) by done. rewrite bind_gets. change (ptable (enter _ s)) with (ptable s).
  assert (p_pgdir (ptable s !!! c) = c_cr3 (cpu s)) as ->.
  { destruct (q_run _ _ Hq) as (q & Hqi & _ & _ & _ & -> & _). by rewrite (list_lookup_total_correct _ _ _ Hqi). }
  rewrite (first_zombie_scan _ _ _ _ Hz). unfold getproc. rewrite !bind_gets. change (ptable (enter _ s)) with (ptable s).
  rewrite (list_lookup_total_correct _ _ _ (fz_proc _ _ _ _ Hz)).
  change (u32 (tf_esp (p_tf (ptable s !!! c)) + 7 * 4)) with a.
  assert (0 <= a) as Ha0 by (pose proof (u32_range (tf_esp (p_tf (ptable s !!! c)) + 28)); unfold is_u32 in *; lia).
  destruct (join_store l (p_kstack p :: fr) (c_cr3 (cpu s)) a (tf_ebp (p_tf p)) (fun v => u32 (v + (3 * 4 - PGSIZE)))
    (enter LPtable s)) as (m & E & Hus & Hvm1); [by apply base_ok_enter|apply pushcli_cr3|done|done|done|rewrite Hebp; apply u32_range|].
  rewrite (E Z). destruct (vm_ok_kfree l fr (c_cr3 (cpu s)) (p_kstack p) _ Hvm1) as (s1 & E1 & R1 & Hvm2 & Eo & Hk1).
  rewrite (bind_Ok _ _ _ _ _ E1), !bind_modify.
  destruct (vmrel_crit (cpu s) _ _ R1 eq_refl Hs) as (Ec1 & El1 & Ep1).
  erewrite bind_Ok; [|eapply (crit_exit c LPtable s _ Hq); [exact Ec1|]; cbn; by rewrite El1].
  eexists. split; [reflexivity|]. split; [|split; [|split]].
  - assert (u32 (tf_ebp (p_tf p) + (3 * 4 - PGSIZE)) = stack) as Est
      by (rewrite Hebp; unfold u32, is_u32, PGSIZE in *; zdm).
    rewrite Est in Hus. apply (ustored_changed _ _ _ _ _ _ _ _ Hvm1 Hus); [done|done|].
    intros q Hqo. apply Hk1.
    + eapply (vm_page _ _ _ _ q Hvm1). rewrite !elem_of_app. tauto.
    + intros ->%list_elem_of_singleton. destruct Hvm1 as (_ & _ & _ & Hn & _).
      apply NoDup_app in Hn as (_ & _ & Hn). apply NoDup_app in Hn as (_ & Hd & _). apply (Hd (p_kstack p) Hqo). by left.
  - apply (base_ok_ext _ _ _ _ Hvm2); try done; cbn; [by rewrite (q_locks _ _ Hq)|by apply settle_sane].
  - cbn. rewrite Ep1. cbn. by rewrite list_alter_twice.
  - destruct (quiet_calm _ _ Hq) as [H1 H2 H3 H4 H5]. by split.
Qed.

(** ** kill *)

(** [kill] marks the first process with the given pid and, if it sleeps,
    makes it runnable so that it will notice; it changes nothing else.  If no
    process has the pid it returns -1. *)
Theorem kill_marks c pid s :
  quiet c s ->
  (exists i p, ptable s !! i = Some p /\ p_pid p = pid /\
     (forall j q, (j < i)%nat -> ptable s !! j = Some q -> p_pid q <> pid) /\
     kill pid s = Ok 0 (set_ptable (<[i := kill_proc p]> (ptable s)) (calm s))) \/
  ((forall q, q ∈ ptable s -> p_pid q <> pid) /\ kill pid s = Ok (-1) (calm s)).
Proof.
  intros Hq. rewrite (kill_eq c) by done. destruct (find_pid (ptable s) 0 pid) as [i|] eqn:E; [left|right].
  - destruct (find_pid_first _ _ _ _ E) as (p & H1 & H2 & _ & H4). rewrite Nat.sub_0_r in *.
    exists i, p. split_and!; try done. unfold upd_proc. by rewrite (alter_insert_at _ _ _ p).
  - split; [|done]. by eapply find_pid_none.
Qed.

(** [kill(0)] hits the next process to be created.  Free entries have pid 0,
    so [kill(0)] finds the first of them and succeeds; [allocproc] takes that
    entry and does not reset the mark. *)
Theorem kill_zero_marks_next c np k l fr s :
  quiet c s -> (forall j q, ptable s !! j = Some q -> p_pid q = 0 <-> p_state q = UNUSED) ->
  unused_proc (ptable s) 0 = Some np -> base_ok (k :: l) fr s ->
  exists s1 s2, kill 0 s = Ok 0 s1 /\ allocproc s1 = Ok (Some np) s2 /\ p_killed (ptable s2 !!! np) = true.
Proof.
  intros Hq Hpid Hu Hb. destruct (unused_first _ _ _ Hu) as (p & Hp & Hst & _ & Hf). rewrite Nat.sub_0_r in *.
  assert (np <> c) as Hnc by (intros ->; rewrite (quiet_running _ _ _ Hq Hp) in Hst; done).
  assert (kill 0 s = Ok 0 (calm (upd_proc np kill_proc s))) as E1.
  { rewrite (kill_eq c), (find_pid_is _ 0 p np 0); [done|done|by apply (Hpid np p)| |done].
    intros j q Hj Hq0 H0. apply (Hf j q Hj Hq0). by apply (Hpid j q). }
  assert (kill_proc p = set_p_killed true p) as Ek by (unfold kill_proc; rewrite bool_decide_eq_false_2; [done|cbn; congruence]).
  destruct (allocproc_ok c np k l fr (calm (upd_proc np kill_proc s))) as (s2 & E2 & _ & Es2).
  - by apply quiet_calm, quiet_other.
  - apply (unused_is _ (kill_proc p) np 0); [cbn; by rewrite list_lookup_alter_eq, Hp|by rewrite Ek|].
    intros j q Hj. cbn. rewrite list_lookup_alter_ne by lia. by apply Hf.
  - apply (base_ok_ext _ _ _ _ Hb); [done..|cbn; by rewrite (q_locks _ _ Hq)|]. apply settle_sane, (quiet_sane _ _ Hq).
  - exists (calm (upd_proc np kill_proc s)), s2. split_and!; [done|done|]. rewrite Es2. cbn.
    rewrite list_alter_twice, (total_alter_eq _ _ _ _ Hp), Ek. done.
Qed.

End ProcThm.

(** ** The sample process with a zombie *)

(** A zombie child in the sample address space. *)
Definition sample_zombie : proc :=
  set_p_state ZOMBIE (set_p_pid 7 (set_p_parent (Some 0%nat) (set_p_kstack 0x80403000 (set_p_pgdir 0x80400000
    (set_p_tf (set_tf_ebp 0x1ff4 inhabitant) inhabitant))))).

(** Its parent, with the page directory [pg], is running. *)
Definition family_state (pg : Z) : kst :=
  let p := set_p_pgdir pg (set_p_tf (set_tf_esp 0x1100 inhabitant) sample_proc) in
  let s := sample_state [] in
  set_ptable (<[0%nat := p]> (<[1%nat := sample_zombie]> (ptable s))) (upd_cpu (set_c_cr3 pg) s).

Lemma family_quiet pg : pg <> 0 -> quiet 0 (family_state pg).
Proof. intros Hpg. split; try done. eexists. split; [reflexivity|]. by split_and!. Qed.

Lemma family_vm pg : @vm_ok xv6_image [0x80404000; 0x80405000] [0x80403000] 0x80400000 (family_state pg).
Proof. apply (sample_vm []); [apply Nat.le_0_l|constructor|reflexivity|reflexivity|reflexivity|]. by split. Qed.

Lemma family_zombie child pg : child sample_zombie = true ->
  child (set_p_pgdir pg (set_p_tf (set_tf_esp 0x1100 inhabitant) sample_proc)) = false ->
  first_zombie child (ptable (family_state pg)) 1 sample_zombie.
Proof.
  intros H1 H0. split; [done|done|done|]. intros [|j] q Hj Hq Hc; [|lia].
  apply (inj Some (set_p_pgdir pg (set_p_tf (set_tf_esp 0x1100 inhabitant) sample_proc)) q) in Hq. congruence.
Qed.

Lemma wait_reaps_witness : exists s', @wait_ xv6_image (family_state 0x80300000) = Ok 7 s'.
Proof.
  destruct (@wait_reaps xv6_image 0 1 sample_zombie [0x80404000; 0x80405000] [] (family_state 0x80300000)) as (s' & _ & E & _).
  - by apply family_quiet.
  - by apply family_zombie.
  - apply family_vm.
  - exists s'. exact E.
Defined.

Lemma wait_nothing_witness : @wait_ xv6_image (sample_state []) = Ok (-1) (calm (sample_state [])).
Proof.
  rewrite (@wait_nothing xv6_image 0); [reflexivity|apply sample_quiet|].
  intros [|j] q Hq Hc; [injection Hq as <-; discriminate|].
  apply (proj1 (Forall_lookup (fun q => is_child 0 q = false) (ptable (sample_state []))) ltac:(repeat constructor)) in Hq.
  congruence.
Defined.

Lemma join_nothing_witness : @join xv6_image 0 (sample_state []) = Ok (-1) (calm (sample_state [])).
Proof.
  rewrite (@join_nothing xv6_image 0); [reflexivity|apply sample_quiet|].
  intros j q Hq Hc. change (is_thread 0 0x80400000 q = true) in Hc.
  apply (proj1 (Forall_lookup (fun q => is_thread 0 0x80400000 q = false) (ptable (sample_state []))) ltac:(repeat constructor)) in Hq.
  congruence.
Defined.

Lemma join_reaps_witness :
  exists s', @join xv6_image 0 (family_state 0x80400000) = Ok 7 s' /\
    uchanged 0x80400000 0x111c (bytes32 0x1000) (mem (family_state 0x80400000)) (mem s').
Proof.
  destruct (@join_reaps xv6_image 0 1 sample_zombie 0x1000 0 [0x80404000; 0x80405000] [] (family_state 0x80400000))
    as (s' & E & Hu & _).
  - by apply family_quiet.
  - by apply family_zombie.
  - apply family_vm.
  - done.
  - reflexivity.
  - discriminate.
  - intros k Hk. change (u32 _ + k) with (0x111c + k). replace (0x111c + k) with (0x1000 + (0x11c + k)) by lia.
    apply (sample_writable []); [apply Nat.le_0_l|lia].
  - exists s'. split; [exact E|exact Hu].
Defined.

Lemma kill_marks_witness :
  exists i p, ptable (family_state 0x80400000) !! i = Some p /\ p_pid p = 7 /\
    kill 7 (family_state 0x80400000) = Ok 0 (set_ptable (<[i := kill_proc p]> (ptable (family_state 0x80400000))) (calm (family_state 0x80400000))).
Proof.
  destruct (kill_marks 0 7 (family_state 0x80400000)) as [(i & p & H1 & H2 & _ & H3)|[H _]].
  - by apply family_quiet.
  - exists i, p. exact (conj H1 (conj H2 H3)).
  - exfalso. apply (H sample_zombie); [|reflexivity]. apply (list_elem_of_lookup_2 _ 1). reflexivity.
Defined.

Lemma kill_zero_marks_next_witness :
  exists s1 s2, kill 0 (sample_state []) = Ok 0 s1 /\ @allocproc xv6_text s1 = Ok (Some 1%nat) s2 /\
    p_killed (ptable s2 !!! 1%nat) = true.
Proof.
  apply (@kill_zero_marks_next xv6_image xv6_text 0 1 0x80404000 [0x80405000] [0x80400000; 0x80401000; 0x80402000; 0x80403000]).
  - apply sample_quiet.
  - intros j q Hq.
    apply (proj1 (Forall_lookup (fun q => p_pid q = 0 <-> p_state q = UNUSED) (ptable (sample_state []))) ltac:(repeat (constructor; [done|]); constructor)) in Hq.
    exact Hq.
  - reflexivity.
  - pose proof (sample_vm [] (sample_state [])) as H. unfold vm_ok in H.
    change (mem (sample_state [])) with (sample_mem []) in H. rewrite sample_owned in H by (apply Nat.le_0_l).
    apply H; [apply Nat.le_0_l|constructor|reflexivity|reflexivity|reflexivity|]. by split.
Defined.
