(* ===== verification/CloneThm.v ===== *)
(** * What clone promises

    [clone] makes a thread: a new process in the caller's address space that
    starts in a function on a stack of its own. *)

From S2P Require Import Prelude State Mem Spinlock Sched SchedFacts Ide Bio Log Inode Kalloc Vm Kbd Console Fs Pipe File Proc.
From S2P Require Import VmFacts VmSpec VmCopy FileFacts UserMem Sample ProcFacts.

(** The process [q] is a new thread of the process [p] at entry [c]: it shares
    the page directory, starts at [fn] with the stack pointer two words below
    the end of [stack], and has the files and the directory of [p]. *)
Record new_thread `{KT : KernelText} (c : nat) (p : proc) (fn stack k pid : Z) (q : proc) : Prop := {
  nt_state : p_state q = RUNNABLE;
  nt_pid : p_pid q = pid;
  nt_parent : p_parent q = Some c;
  nt_pgdir : p_pgdir q = p_pgdir p;
  nt_sz : p_sz q = p_sz p;
  nt_kstack : p_kstack q = k;
  nt_context : p_context q = MkCtx 0 0 0 0 forkret_pc;
  nt_tf : p_tf q = set_tf_eax 0 (set_tf_eip fn (set_tf_ebp (stack + 4088) (set_tf_esp (stack + 4088) (p_tf p))));
  nt_ofile : p_ofile q = p_ofile p;
  nt_cwd : p_cwd q = p_cwd p }.

Section CloneThm.
Context `{KI : KernelImage} `{KT : KernelText}.

(** The two words [clone] puts on top of the new stack; it then copies the
    stack onto itself. *)
Lemma clone_stack l fr pg stack arg s :
  vm_ok l fr pg s -> c_cr3 (cpu s) = pg -> 0 <= stack -> stack + PGSIZE <= KERNBASE ->
  (forall k, 0 <= k < PGSIZE -> uwritable (mem s) pg (stack + k)) ->
  exists m, (forall A (k : M A),
      (uwrite (u32 (stack + 4096 - 8)) (bytes32 0xFFFFFFF) ;;
       uwrite (u32 (stack + 4096 - 4)) (bytes32 arg) ;;
       let* bs := uread stack (Z.to_nat PGSIZE) in uwrite stack bs ;; k) s = k (set_mem m s)) /\
    uchanged pg (stack + 4088) (bytes32 0xFFFFFFF ++ bytes32 arg) (mem s) m /\ vm_ok l fr pg (set_mem m s).
Proof.
  intros Hvm Hc H0 Hl Hw. unfold PGSIZE in Hl, Hw. assert (KERNBASE < 2^32) by done. rewrite !u32_small by lia.
  destruct (uwrite_stored l fr pg (bytes32 0xFFFFFFF) (stack + 4096 - 8) s) as (m1 & E1 & Hs1 & Hvm1); try done.
  { lia. } { rewrite length_bytes32. lia. }
  { rewrite length_bytes32. intros k Hk. replace (stack + 4096 - 8 + Z.of_nat k) with (stack + (4088 + Z.of_nat k)) by lia. apply Hw. lia. }
  { apply bytes32_bytes. }
  assert (forall k, 0 <= k < 4096 -> uwritable m1 pg (stack + k)) as Hw1.
  { intros k Hk. unfold uwritable. rewrite (us_trans _ _ _ _ _ Hs1) by lia. by apply Hw. }
  destruct (uwrite_stored l fr pg (bytes32 arg) (stack + 4096 - 4) (set_mem m1 s)) as (m2 & E2 & Hs2 & Hvm2); try done.
  { lia. } { rewrite length_bytes32. lia. }
  { rewrite length_bytes32. intros k Hk. replace (stack + 4096 - 4 + Z.of_nat k) with (stack + (4092 + Z.of_nat k)) by lia. apply Hw1. lia. }
  { apply bytes32_bytes. }
  destruct (uread_back l fr pg (Z.to_nat PGSIZE) stack (set_mem m2 (set_mem m1 s)) Hvm2 Hc H0) as (bs & m3 & _ & Er & E3 & Hs3 & Hvm3 & Hv3).
  { unfold PGSIZE. lia. }
  { unfold PGSIZE. intros k Hk. unfold uwritable. cbn [mem set_mem]. rewrite (us_trans _ _ _ _ _ Hs2) by lia. apply Hw1. lia. }
  exists m3. split_and!.
  - intros A k. rewrite (bind_Ok _ _ _ _ _ E1), (bind_Ok _ _ _ _ _ E2), (bind_Ok _ _ _ _ _ Er), (bind_Ok _ _ _ _ _ E3). by destruct s.
  - assert (ustored pg (stack + 4088) (bytes32 0xFFFFFFF ++ bytes32 arg) (mem s) m2) as Hs12.
    { apply (ustored_app l fr _ s _ _ _ m1); [done|lia|rewrite length_app, !length_bytes32; lia| |].
      - by replace (stack + 4088) with (stack + 4096 - 8) by lia.
      - rewrite length_bytes32. by replace (stack + 4088 + Z.of_nat 4) with (stack + 4096 - 4) by lia. }
    split.
    + intros k b Hk. apply lookup_lt_Some in Hk as Hk'. rewrite length_app, !length_bytes32 in Hk'.
      rewrite Hv3 by lia. by apply (us_in _ _ _ _ _ Hs12).
    + intros v Hv Hne. rewrite Hv3 by lia. by apply (us_out _ _ _ _ _ Hs12).
  - by destruct s.
Qed.

(** The end of [clone], from the files on. *)
Definition clone_end (c np : nat) : M Z :=
  dup_files c np ;;
  dup_cwd c np ;;
  let* pid := getproc np p_pid in
  modify (upd_proc np (fun q => set_p_tf (set_tf_eax 0 (p_tf q)) q)) ;;
  acquire LPtable ;;
  modify (upd_proc np (set_p_state RUNNABLE)) ;;
  release LPtable ;;
  ret pid.

Definition finished (p q : proc) : proc :=
  set_p_state RUNNABLE (set_p_tf (set_tf_eax 0 (p_tf q)) (inherit p q)).

Lemma clone_end_ok c np p q ip s :
  steady c s -> np <> c -> ptable s !! c = Some p -> length (p_ofile p) = NOFILE -> p_cwd p = Some ip ->
  (forall f, f ∈ open_files p (seq 0 NOFILE) -> exists x, ftable s !! f = Some x /\ 1 <= f_ref x) ->
  ptable s !! np = Some q -> p_ofile q = replicate NOFILE None ->
  clone_end c np s = Ok (p_pid q)
    (set_ptable (<[np := finished p q]> (ptable s)) (set_icache (alter iref1 ip (icache s))
      (set_ftable (bumps (open_files p (seq 0 NOFILE)) (ftable s)) s))).
Proof.
  intros Hs Hne Hp Hl Hc Hf Hq Ho. unfold clone_end. rewrite (inherit_ok c np p q ip _ s) by done.
  generalize (bumps (open_files p (seq 0 NOFILE)) (ftable s)), (alter iref1 ip (icache s)). intros ft ic.
  set (t := set_icache _ _). assert (ptable t = <[np := inherit p q]> (ptable s)) as Et by done.
  assert (ptable t !! np = Some (inherit p q)) as Hqt by (rewrite Et; apply list_lookup_insert_eq; by eapply lookup_lt_Some).
  assert (steady c t) as Hst by (apply (steady_ext c s _ Hs); [done|done|by rewrite Et, list_lookup_insert_ne]).
  unfold getproc. rewrite bind_gets, (list_lookup_total_correct _ _ _ Hqt), bind_modify.
  rewrite (publish_ok c np (set_p_tf (set_tf_eax 0 (p_tf (inherit p q))) (inherit p q))); [|
    apply (steady_ext c t _ Hst); [done|done|cbn [ptable upd_proc set_ptable]; by rewrite list_lookup_alter_ne]|done|
    cbn [ptable upd_proc set_ptable]; by rewrite list_lookup_alter_eq, Hqt].
  cbn [ptable upd_proc set_ptable]. rewrite (alter_insert_at _ _ _ _ Hqt), Et, !list_insert_insert_eq. done.
Qed.

(** [clone] up to there. *)
Definition thread_start (c : nat) (p : proc) (fn stack k pid : Z) (q0 : proc) : proc :=
  set_p_tf (set_tf_eip fn (set_tf_ebp (u32 (stack + (PGSIZE - 8))) (set_tf_esp (u32 (stack + (PGSIZE - 8))) (p_tf p))))
    (set_p_parent (Some c) (set_p_sz (p_sz p) (set_p_pgdir (p_pgdir p) (embryo k pid q0)))).

Lemma clone_begin c np p q0 fn arg stack k l fr s :
  quiet c s -> ptable s !! c = Some p -> unused_proc (ptable s) 0 = Some np -> ptable s !! np = Some q0 -> np <> c ->
  vm_ok (k :: l) fr (p_pgdir p) s ->
  0 <= stack -> stack + PGSIZE <= KERNBASE -> (forall j, 0 <= j < PGSIZE -> uwritable (mem s) (p_pgdir p) (stack + j)) ->
  exists s', clone fn arg stack s = clone_end c np s' /\ steady c s' /\
    ptable s' = <[np := thread_start c p fn stack k (nextpid s) q0]> (ptable s) /\
    uchanged (p_pgdir p) (stack + 4088) (bytes32 0xFFFFFFF ++ bytes32 arg) (mem s) (mem s') /\
    vm_ok l (k :: fr) (p_pgdir p) s' /\ ftable s' = ftable s /\ icache s' = icache s.
Proof.
  intros Hq Hp Hu Hq0 Hnc Hvm H0 Hst Hw.
  assert (c_cr3 (cpu s) = p_pgdir p) as Hcr by (destruct (q_run _ _ Hq) as (p' & Hp' & _ & _ & _ & -> & _); congruence).
  destruct (allocproc_ok c np k l _ s Hq Hu Hvm) as (s1 & E1 & Hb1 & Es1).
  assert (steady c s1) as Hs1.
  { rewrite Es1. apply (steady_ext c (calm s)); [by apply quiet_steady|done|done|]. cbn. by rewrite list_lookup_alter_ne. }
  unfold clone. rewrite (bind_Ok _ _ _ _ _ E1).
  assert (ptable s1 !! c = Some p) as Hp1 by (rewrite Es1; cbn; by rewrite list_lookup_alter_ne).
  rewrite (bind_curproc c) by (apply (q_proc _ _ (proj1 Hs1))).
  unfold getproc at 1. rewrite bind_gets, (list_lookup_total_correct _ _ _ Hp1), !bind_modify.
  set (s2 := upd_proc np (set_p_tf _) _).
  assert (vm_ok l (k :: fr) (p_pgdir p) s2) as Hvm2.
  { unfold vm_ok. replace (mem s2) with (mem s) by (unfold s2; cbn; by rewrite Es1). eapply base_perm; [exact Hb1|]. perm_solve. }
  destruct (clone_stack l (k :: fr) (p_pgdir p) stack arg s2 Hvm2) as (m & E2 & Huc & Hvm3); [|done|done| |].
  { unfold s2. cbn. by rewrite Es1, <- Hcr; cbn; destruct (settle_fields (cpu s)) as (_ & _ & _ & _ & -> & _). }
  { replace (mem s2) with (mem s) by (unfold s2; cbn; by rewrite Es1). done. }
  rewrite E2, bind_modify. eexists. split; [reflexivity|].
  assert (mem s2 = mem s) as Em2 by (unfold s2; cbn; by rewrite Es1). rewrite Em2 in Huc.
  match goal with |- steady c ?x /\ _ => set (s3 := x) end.
  assert (ptable s3 = <[np := thread_start c p fn stack k (nextpid s) q0]> (ptable s)) as Ep3.
  { unfold s3, s2, upd_proc. cbn. rewrite Es1. cbn. rewrite !list_alter_twice. by rewrite (alter_insert_at _ _ _ q0 Hq0). }
  split_and!; [|done|exact Huc|exact Hvm3|..].
  - apply (steady_ext c s1 _ Hs1); [done|done|]. rewrite Ep3, list_lookup_insert_ne by done. by rewrite Hp1.
  - change (ftable s3) with (ftable s1). by rewrite Es1.
  - change (icache s3) with (icache s1). by rewrite Es1.
Qed.

(** C3: [clone] starts a thread.  It returns the pid of a new runnable process
    that shares the caller's page directory and runs [fn] on [stack], where
    [fn] finds a return address and [arg] on top; no other byte of the shared
    memory changes.  The open files and the working directory have one more
    reference each, one page is taken for the kernel stack, and no other
    process has changed. *)
Theorem clone_starts_thread c np p q0 ip fn arg stack k l fr s :
  quiet c s -> ptable s !! c = Some p -> length (p_ofile p) = NOFILE -> p_cwd p = Some ip ->
  (forall f, f ∈ open_files p (seq 0 NOFILE) -> exists x, ftable s !! f = Some x /\ 1 <= f_ref x) ->
  unused_proc (ptable s) 0 = Some np -> ptable s !! np = Some q0 -> p_ofile q0 = replicate NOFILE None ->
  vm_ok (k :: l) fr (p_pgdir p) s ->
  0 <= stack -> stack + PGSIZE <= KERNBASE -> (forall j, 0 <= j < PGSIZE -> uwritable (mem s) (p_pgdir p) (stack + j)) ->
  exists s' q, clone fn arg stack s = Ok (nextpid s) s' /\
    ptable s' = <[np := q]> (ptable s) /\ new_thread c p fn stack k (nextpid s) q /\
    uchanged (p_pgdir p) (stack + 4088) (bytes32 0xFFFFFFF ++ bytes32 arg) (mem s) (mem s') /\
    vm_ok l (k :: fr) (p_pgdir p) s' /\
    ftable s' = bumps (open_files p (seq 0 NOFILE)) (ftable s) /\ icache s' = alter iref1 ip (icache s) /\ quiet c s'.
Proof.
  intros Hq Hp Hlen Hcwd Hfiles Hu Hq0 Hof Hvm H0 Hst Hw.
  assert (np <> c) as Hnc.
  { intros ->. destruct (unused_first _ _ _ Hu) as (p' & Hp' & Hs' & _). rewrite Nat.sub_0_r in Hp'.
    rewrite (quiet_running _ _ _ Hq Hp') in Hs'. done. }
  destruct (clone_begin c np p q0 fn arg stack k l fr s) as (s3 & E & Hs3 & Ep3 & Huc & Hvm3 & Ef3 & Ei3); [done..|].
  rewrite E, (clone_end_ok c np p (thread_start c p fn stack k (nextpid s) q0) ip); try done.
  2:{ by rewrite Ep3, list_lookup_insert_ne. }
  2:{ by rewrite Ef3. }
  2:{ rewrite Ep3. apply list_lookup_insert_eq. by eapply lookup_lt_Some. }
  rewrite Ep3, Ef3, Ei3, list_insert_insert_eq. eexists _, _. split; [reflexivity|]. split; [reflexivity|]. split; [|split_and!].
  - split; [reflexivity..| |reflexivity|reflexivity].
    transitivity (set_tf_eax 0 (p_tf (thread_start c p fn stack k (nextpid s) q0))); [reflexivity|].
    unfold thread_start. cbn [p_tf set_p_tf]. unfold PGSIZE.
    rewrite u32_small by (unfold PGSIZE, KERNBASE in *; lia). by replace (stack + (4096 - 8)) with (stack + 4088) by lia.
  - exact Huc.
  - exact Hvm3.
  - reflexivity.
  - reflexivity.
  - apply (steady_ext c s3 _ Hs3); [done|done|]. cbn [ptable set_ptable]. by rewrite Ep3, !list_lookup_insert_ne.
Qed.

End CloneThm.

(** The sample process, in the root directory. *)
Definition clone_state : kst := upd_proc 0 (set_p_cwd (Some 0%nat)) (sample_state []).

Lemma clone_starts_thread_witness :
  exists s' q, @clone xv6_text 0x1234 42 0x1000 clone_state = Ok 1 s' /\
    ptable s' = <[1%nat := q]> (ptable clone_state) /\ p_state q = RUNNABLE /\ p_pgdir q = 0x80400000.
Proof.
  destruct (@clone_starts_thread xv6_image xv6_text 0 1 (set_p_cwd (Some 0%nat) sample_proc) inhabitant 0 0x1234 42 0x1000
    0x80404000 [0x80405000] [0x80403000] clone_state) as (s' & q & E & Ep & Hn & _).
  - destruct (sample_quiet []) as [H1 H2 H3 H4 H5]. split; [exact H1|exact H2|exact H3|exact H4|].
    eexists. split; [reflexivity|]. by split_and!.
  - reflexivity.
  - reflexivity.
  - reflexivity.
  - by intros f []%elem_of_nil.
  - reflexivity.
  - reflexivity.
  - reflexivity.
  - apply (sample_vm []); [apply Nat.le_0_l|constructor|reflexivity|reflexivity|reflexivity|]. by split.
  - discriminate.
  - discriminate.
  - intros j Hj. apply (sample_writable []); [apply Nat.le_0_l|exact Hj].
  - exists s', q. split; [exact E|]. split; [exact Ep|]. exact (conj (nt_state _ _ _ _ _ _ _ Hn) (nt_pgdir _ _ _ _ _ _ _ Hn)).
Defined.
