(* ===== verification/ForkThm.v ===== *)
(** * What fork promises

    [fork] makes a process with a copy of the caller's memory. *)

From S2P Require Import Prelude State Mem Spinlock Sched SchedFacts Ide Bio Log Inode Kalloc Vm Kbd Console Fs Pipe File Proc.
From S2P Require Import VmFacts VmSpec VmCopy VmThm FileFacts UserMem Sample ProcFacts.

(** The process [q] is a new child of the process [p] at entry [c], with the
    page directory [pg]: it returns 0 from the call where [p] made it. *)
Record new_child `{KT : KernelText} (c : nat) (p : proc) (pg k pid : Z) (q : proc) : Prop := {
  nc_state : p_state q = RUNNABLE;
  nc_pid : p_pid q = pid;
  nc_parent : p_parent q = Some c;
  nc_pgdir : p_pgdir q = pg;
  nc_sz : p_sz q = p_sz p;
  nc_kstack : p_kstack q = k;
  nc_context : p_context q = MkCtx 0 0 0 0 forkret_pc;
  nc_tf : p_tf q = set_tf_eax 0 (p_tf p);
  nc_ofile : p_ofile q = p_ofile p;
  nc_cwd : p_cwd q = p_cwd p }.

Section ForkThm.
Context `{KI : KernelImage} `{KT : KernelText}.

(** The end of [fork], from the files on. *)
Definition fork_end (c np : nat) : M Z :=
  dup_files c np ;;
  dup_cwd c np ;;
  let* pid := getproc np p_pid in
  acquire LPtable ;;
  modify (upd_proc np (set_p_state RUNNABLE)) ;;
  release LPtable ;;
  ret pid.

Lemma fork_end_ok c np p q ip ft ic s :
  steady c s -> np <> c -> ptable s !! c = Some p -> length (p_ofile p) = NOFILE -> p_cwd p = Some ip ->
  (forall f, f ∈ open_files p (seq 0 NOFILE) -> exists x, ftable s !! f = Some x /\ 1 <= f_ref x) ->
  ptable s !! np = Some q -> p_ofile q = replicate NOFILE None ->
  bumps (open_files p (seq 0 NOFILE)) (ftable s) = ft -> alter iref1 ip (icache s) = ic ->
  fork_end c np s = Ok (p_pid q)
    (set_ptable (<[np := set_p_state RUNNABLE (inherit p q)]> (ptable s)) (set_icache ic (set_ftable ft s))).
Proof.
  intros Hs Hne Hp Hl Hc Hf Hq Ho Eft Eic. unfold fork_end. rewrite (inherit_ok c np p q ip _ s) by done. rewrite Eft, Eic.
  set (t := set_icache _ _). assert (ptable t = <[np := inherit p q]> (ptable s)) as Et by done.
  assert (ptable t !! np = Some (inherit p q)) as Hqt by (rewrite Et; apply list_lookup_insert_eq; by eapply lookup_lt_Some).
  assert (steady c t) as Hst by (apply (steady_ext c s _ Hs); [done|done|by rewrite Et, list_lookup_insert_ne]).
  unfold getproc. rewrite bind_gets, (list_lookup_total_correct _ _ _ Hqt), (publish_ok c np (inherit p q)) by done.
  by rewrite Et, list_insert_insert_eq.
Qed.

(** A copied page looks the same to the process. *)
Lemma copied_view l fr m0 pg d s va :
  vm_ok l fr d s -> 0 <= va < 2^32 -> copied_page m0 pg (mem s) d (va / PGSIZE) -> uview (mem s) d va = uview m0 pg va.
Proof.
  intros Hvm Hva (e & v & E0 & E1 & Hv & Hc). pose proof (vm_frame_page _ _ _ _ _ Hvm Hv) as Hvp.
  unfold uview. rewrite !translate_entry, E0, E1 by done. cbn. f_equal.
  pose proof (PTE_FLAGS_range e). destruct Hvp as [Ha Hb]. pose proof (v2p_aligned _ Ha). pose proof (v2p_range v).
  rewrite <- Z.lor_assoc, (lor_disjoint_add 12 (v2p v)); [|lia|done|].
  2:{ apply lor_range; [lia|done|]. unfold PTE_P. lia. }
  rewrite PTE_ADDR_mk; [|done|done|apply (lor_range 12); [lia|done|unfold PTE_P; lia]].
  rewrite p2v_v2p by (pose proof (page_ok_pos v (conj Ha Hb)); lia). apply Hc. apply Z.mod_pos_bound. done.
Qed.

(** [fork] once [copyuvm] has returned [pg]. *)
Definition fork_rest (c np : nat) (p : proc) (pg : Z) : M Z :=
  modify (upd_proc np (set_p_pgdir pg)) ;;
  if pg =? 0 then
    let* k := getproc np p_kstack in
    kfree k ;;
    modify (upd_proc np (set_p_kstack 0)) ;;
    modify (upd_proc np (set_p_state UNUSED)) ;;
    ret (-1)
  else
    modify (upd_proc np (set_p_sz (p_sz p))) ;;
    modify (upd_proc np (set_p_parent (Some c))) ;;
    modify (upd_proc np (set_p_tf (p_tf p))) ;;
    modify (upd_proc np (fun q => set_p_tf (set_tf_eax 0 (p_tf q)) q)) ;;
    fork_end c np.

Lemma fork_begin c np p q0 k l fr s :
  quiet c s -> ptable s !! c = Some p -> unused_proc (ptable s) 0 = Some np -> ptable s !! np = Some q0 -> np <> c ->
  vm_ok (k :: l) fr (p_pgdir p) s -> 0 <= p_sz p <= KERNBASE ->
  (forall j, 0 <= j < pages (p_sz p) -> entry (mem s) (p_pgdir p) j <> None) ->
  exists d s2, fork s = fork_rest c np p d s2 /\ steady c s2 /\
    ptable s2 = <[np := embryo k (nextpid s) q0]> (ptable s) /\ ftable s2 = ftable s /\ icache s2 = icache s /\
    same_pages (owned (mem s) (p_pgdir p) ++ k :: fr) (mem s) (mem s2) /\
    ((d <> 0 /\ exists l', vm_ok l' (owned (mem s) (p_pgdir p) ++ k :: fr) d s2 /\ l' ++ owned (mem s2) d ≡ₚ l /\
        forall j, 0 <= j < pages (p_sz p) -> copied_page (mem s) (p_pgdir p) (mem s2) d j) \/
     (d = 0 /\ Z.of_nat (length l) < 1026 + 2 * pages (p_sz p) /\
      exists l', base_ok l' (owned (mem s) (p_pgdir p) ++ k :: fr) s2 /\ copy_left l l')).
Proof.
  intros Hq Hp Hu Hq0 Hnc Hvm Hsz Hpres. destruct (allocproc_ok c np k l _ s Hq Hu Hvm) as (s1 & E1 & Hb1 & Es1).
  assert (mem s1 = mem s) as Em1 by (by rewrite Es1).
  assert (ptable s1 = <[np := embryo k (nextpid s) q0]> (ptable s)) as Ep1
    by (rewrite Es1; cbn; by apply (alter_insert_at _ _ _ q0)).
  assert (cpu s1 = settle (cpu s)) as Ec1 by (by rewrite Es1).
  assert (steady c s1) as Hs1.
  { apply (steady_ext c (calm s)); [by apply quiet_steady|done|by rewrite Es1|]. by rewrite Ep1, list_lookup_insert_ne. }
  unfold fork. rewrite (bind_Ok _ _ _ _ _ E1), (bind_curproc c) by (apply (q_proc _ _ (proj1 Hs1))).
  unfold getproc at 1. rewrite bind_gets, Ep1, (list_lookup_total_correct _ c p) by (by rewrite list_lookup_insert_ne).
  assert (vm_ok l (k :: fr) (p_pgdir p) s1) as Hvm1
    by (unfold vm_ok; rewrite Em1; eapply base_perm; [exact Hb1|]; perm_solve).
  destruct (copyuvm_spec l (k :: fr) (p_pgdir p) (p_sz p) s1 Hvm1 Hsz) as (d & s2 & E2 & [Hc2 R2] & Hsame & Hc).
  { by rewrite Em1. }
  rewrite (bind_Ok _ _ _ _ _ E2), Em1 in *. exists d, s2. split; [reflexivity|].
  assert (ptable s2 = ptable s1 /\ ftable s2 = ftable s1 /\ icache s2 = icache s1 /\ locks s2 = locks s1) as (Ep2 & Ef2 & Ei2 & El2)
    by (by rewrite R2).
  split_and!; [|by rewrite Ep2|by rewrite Ef2, Es1|by rewrite Ei2, Es1|done|].
  - apply (steady_ext c s1 _ Hs1); [|done|by rewrite Ep2]. destruct Hc2 as [->| ->]; [done|]. by rewrite Ec1, settle_settle.
  - destruct Hc as [(Hd & l' & H1 & H2 & H3 & _)|Hc]; [left|by right]. split; [done|]. by exists l'.
Qed.

Definition forked (c : nat) (p : proc) (d : Z) (e : proc) : proc :=
  set_p_tf (set_tf_eax 0 (p_tf p)) (set_p_parent (Some c) (set_p_sz (p_sz p) (set_p_pgdir d e))).

Lemma fork_rest_ok c np p d e ip ft ic s :
  steady c s -> np <> c -> ptable s !! c = Some p -> length (p_ofile p) = NOFILE -> p_cwd p = Some ip ->
  (forall f, f ∈ open_files p (seq 0 NOFILE) -> exists x, ftable s !! f = Some x /\ 1 <= f_ref x) ->
  ptable s !! np = Some e -> p_ofile e = replicate NOFILE None -> d <> 0 ->
  bumps (open_files p (seq 0 NOFILE)) (ftable s) = ft -> alter iref1 ip (icache s) = ic ->
  fork_rest c np p d s = Ok (p_pid e)
    (set_ptable (<[np := set_p_state RUNNABLE (inherit p (forked c p d e))]> (ptable s)) (set_icache ic (set_ftable ft s))).
Proof.
  intros Hs Hne Hp Hl Hc Hf He Ho Hd Eft Eic. unfold fork_rest. rewrite bind_modify, (proj2 (Z.eqb_neq d 0) Hd), !bind_modify.
  match goal with |- fork_end _ _ ?x = _ => replace x with (set_ptable (<[np := forked c p d e]> (ptable s)) s) end.
  2:{ unfold upd_proc. cbn. rewrite !list_alter_twice. by rewrite (alter_insert_at _ _ _ e He). }
  rewrite (fork_end_ok c np p (forked c p d e) ip ft ic).
  - cbn [ptable set_ptable]. by rewrite list_insert_insert_eq.
  - apply (steady_ext c s _ Hs); [done|done|]. cbn [ptable set_ptable]. by rewrite list_lookup_insert_ne.
  - exact Hne.
  - cbn [ptable set_ptable]. by rewrite list_lookup_insert_ne.
  - exact Hl.
  - exact Hc.
  - exact Hf.
  - cbn [ptable set_ptable]. apply list_lookup_insert_eq. by eapply lookup_lt_Some.
  - exact Ho.
  - exact Eft.
  - exact Eic.
Qed.

Lemma fork_rest_fail c np p e l fr s :
  steady c s -> np <> c -> ptable s !! np = Some e -> base_ok l (p_kstack e :: fr) s ->
  exists s', fork_rest c np p 0 s = Ok (-1) s' /\ steady c s' /\
    ptable s' = <[np := set_p_state UNUSED (set_p_kstack 0 (set_p_pgdir 0 e))]> (ptable s) /\
    base_ok (p_kstack e :: l) fr s' /\ keeps [p_kstack e] (mem s) (mem s') /\ ftable s' = ftable s /\ icache s' = icache s.
Proof.
  intros Hs Hne He Hb. unfold fork_rest. rewrite bind_modify. cbn [Z.eqb]. unfold getproc. rewrite bind_gets.
  cbn [ptable upd_proc set_ptable]. rewrite (total_alter_eq _ _ _ _ He). cbn [p_kstack set_p_pgdir].
  destruct (kfree_base l fr (p_kstack e) (set_ptable (alter (set_p_pgdir 0) np (ptable s)) s) Hb) as (t & E & [Hct R] & Hbt & Hk).
  rewrite (bind_Ok _ _ _ _ _ E), !bind_modify. eexists. split; [reflexivity|].
  assert (ptable t = alter (set_p_pgdir 0) np (ptable s)) as Ept by (by rewrite R).
  assert (cpu t = cpu s) as Ect by (destruct Hct as [->| ->]; [done|apply Hs]).
  split_and!; [| |exact Hbt|exact Hk|by rewrite R|by rewrite R].
  - apply (steady_ext c s _ Hs); [done|by rewrite R|]. cbn. by rewrite Ept, !list_lookup_alter_ne.
  - cbn. rewrite Ept, !list_alter_twice. by rewrite (alter_insert_at _ _ _ e He).
Qed.

(** [fork] when there is a free entry and a page for the kernel stack. *)
Lemma fork_tries c np p q0 ip k l fr s :
  quiet c s -> ptable s !! c = Some p -> length (p_ofile p) = NOFILE -> p_cwd p = Some ip ->
  (forall f, f ∈ open_files p (seq 0 NOFILE) -> exists x, ftable s !! f = Some x /\ 1 <= f_ref x) ->
  unused_proc (ptable s) 0 = Some np -> ptable s !! np = Some q0 -> p_ofile q0 = replicate NOFILE None ->
  vm_ok (k :: l) fr (p_pgdir p) s -> 0 <= p_sz p <= KERNBASE ->
  (forall j, 0 <= j < pages (p_sz p) -> entry (mem s) (p_pgdir p) j <> None) ->
  exists r s' q, fork s = Ok r s' /\ ptable s' = <[np := q]> (ptable s) /\ quiet c s' /\
    same_pages (owned (mem s) (p_pgdir p) ++ fr) (mem s) (mem s') /\
    ((r = nextpid s /\ exists d l', new_child c p d k (nextpid s) q /\
        vm_ok l' (owned (mem s) (p_pgdir p) ++ k :: fr) d s' /\ l' ++ owned (mem s') d ≡ₚ l /\
        (forall va, 0 <= va < p_sz p -> uview (mem s') d va = uview (mem s) (p_pgdir p) va) /\
        ftable s' = bumps (open_files p (seq 0 NOFILE)) (ftable s) /\ icache s' = alter iref1 ip (icache s)) \/
     (r = -1 /\ p_state q = UNUSED /\ p_kstack q = 0 /\ Z.of_nat (length l) < 1026 + 2 * pages (p_sz p) /\
      (exists l', vm_ok (k :: l') fr (p_pgdir p) s' /\ copy_left l l') /\ ftable s' = ftable s /\ icache s' = icache s)).
Proof.
  intros Hq Hp Hlen Hcwd Hfiles Hu Hq0 Hof Hvm Hsz Hpres.
  assert (np <> c) as Hnc.
  { intros ->. destruct (unused_first _ _ _ Hu) as (p' & Hp' & Hs' & _). rewrite Nat.sub_0_r in Hp'.
    rewrite (quiet_running _ _ _ Hq Hp') in Hs'. done. }
  destruct (fork_begin c np p q0 k l fr s) as (d & s2 & E & Hs2 & Ep2 & Ef2 & Ei2 & Hsame & Hc); [done..|].
  assert (np < length (ptable s))%nat as Hlt by (by eapply lookup_lt_Some).
  assert (ptable s2 !! c = Some p) as Hp2 by (by rewrite Ep2, list_lookup_insert_ne).
  assert (ptable s2 !! np = Some (embryo k (nextpid s) q0)) as He2 by (rewrite Ep2; by apply list_lookup_insert_eq).
  rewrite E. destruct Hc as [(Hd & l' & Hvm2 & Hl' & Hcp)|(-> & Hshort & l' & Hb2 & Hleft)].
  - rewrite (fork_rest_ok c np p d (embryo k (nextpid s) q0) ip (bumps (open_files p (seq 0 NOFILE)) (ftable s)) (alter iref1 ip (icache s)))
      by (done || by rewrite ?Ef2, ?Ei2).
    rewrite Ep2, list_insert_insert_eq. eexists _, _, _. split; [reflexivity|]. split; [reflexivity|]. split_and!.
    + apply (steady_ext c s2 _ Hs2); [done|done|]. cbn [ptable set_ptable]. by rewrite Ep2, !list_lookup_insert_ne.
    + intros v Hv. apply Hsame. rewrite elem_of_app in Hv |- *. rewrite elem_of_cons. tauto.
    + left. split; [done|]. exists d, l'. split_and!; [by split|exact Hvm2|exact Hl'| |reflexivity|reflexivity].
      intros va Hva. apply (copied_view _ _ _ _ _ _ _ Hvm2); [unfold KERNBASE in *; lia|]. apply Hcp.
      unfold pages, PGSIZE in *. zdm.
  - destruct (fork_rest_fail c np p (embryo k (nextpid s) q0) l' (owned (mem s) (p_pgdir p) ++ fr) s2) as (s3 & E3 & Hs3 & Ep3 & Hb3 & Hk3 & Ef3 & Ei3).
    { exact Hs2. } { exact Hnc. } { exact He2. } { eapply base_perm; [exact Hb2|]. cbn [p_kstack embryo set_p_context set_p_kstack]. perm_solve. }
    assert (same_pages (owned (mem s) (p_pgdir p) ++ fr) (mem s) (mem s3)) as Hsame3.
    { apply (same_pages_trans _ _ (mem s2)).
      - intros v Hv. apply Hsame. rewrite elem_of_app in Hv |- *. rewrite elem_of_cons. tauto.
      - apply (same_pages_keeps _ _ _ _ Hk3); [destruct Hb3 as (_ & _ & _ & _ & Hpo); apply Forall_app in Hpo; apply Hpo|].
        intros v Hv ->%list_elem_of_singleton. destruct Hb3 as (_ & _ & _ & Hn & _). cbn [p_kstack embryo set_p_context set_p_kstack] in *.
        apply NoDup_cons in Hn as [Hn _]. apply Hn, elem_of_app. by right. }
    eexists _, s3, _. split; [exact E3|]. rewrite Ep3, Ep2, list_insert_insert_eq. split; [reflexivity|]. split_and!; [apply Hs3| |].
    + exact Hsame3.
    + right. split_and!; [done|done|done|done| |by rewrite Ef3|by rewrite Ei3]. exists l'. split; [|exact Hleft]. unfold vm_ok.
      rewrite (owned_ext (mem s) (mem s3)); [exact Hb3|..].
      * apply Hsame3. unfold owned. rewrite elem_of_app, elem_of_cons. tauto.
      * intros t Ht. apply Hsame3. unfold owned. rewrite elem_of_app, elem_of_cons, elem_of_app. tauto.
Qed.

(** What a [fork] that failed leaves of the free pages [l]: all of them, or all but
    the page being copied; only when the page directory of the child could not be
    made, the pages [setupkvm] had taken for it are lost. *)
Definition fork_left (l l' : list Z) : Prop :=
  exists lost, l' ++ lost ≡ₚ l /\ ((length lost <= 1)%nat \/ (length l' = 1%nat /\ (length lost <= 513)%nat)).

Lemma copy_fork_left k l l' : copy_left l l' -> fork_left (k :: l) (k :: l').
Proof. intros (lost & Hl & Hc). exists lost. split; [cbn; by rewrite Hl|]. destruct Hc as [?|[-> ?]]; [by left|by right]. Qed.

Lemma fork_full c l fr pg s :
  quiet c s -> unused_proc (ptable s) 0 = None -> vm_ok l fr pg s ->
  fork s = Ok (-1) (calm s) /\ quiet c (calm s) /\ vm_ok l fr pg (calm s).
Proof.
  intros Hq Hu Hvm. unfold fork. rewrite (bind_Ok _ _ _ _ _ (allocproc_full c s Hq Hu)). split; [done|]. split; [by apply quiet_calm|].
  apply (base_ok_ext _ _ _ _ Hvm); [done|done|cbn; by rewrite (q_locks _ _ Hq)|]. apply settle_sane. by apply (quiet_sane c).
Qed.

Lemma fork_no_stack c np q0 fr pg s :
  quiet c s -> unused_proc (ptable s) 0 = Some np -> ptable s !! np = Some q0 -> np <> c -> vm_ok [] fr pg s ->
  exists s' q, fork s = Ok (-1) s' /\ ptable s' = <[np := q]> (ptable s) /\ quiet c s' /\ p_state q = UNUSED /\ p_kstack q = 0 /\
    mem s' = mem s /\ vm_ok [] fr pg s' /\ ftable s' = ftable s /\ icache s' = icache s.
Proof.
  intros Hq Hu Hq0 Hnc Hvm. destruct (allocproc_short c np _ s Hq Hu Hvm) as (s' & E & Hb & Es).
  assert (mem s' = mem s) as Em by (by rewrite Es). unfold fork. rewrite (bind_Ok _ _ _ _ _ E). eexists s', _.
  assert (ptable s' = <[np := _]> (ptable s)) as Ep by (rewrite Es; cbn; by apply (alter_insert_at _ _ _ q0)).
  split; [done|]. split; [exact Ep|]. split_and!; [|done|done|exact Em|unfold vm_ok; by rewrite Em|by rewrite Es|by rewrite Es].
  refine (proj1 (steady_ext c (calm s) _ (quiet_steady _ _ Hq) _ _ _)); [by rewrite Es|by rewrite Es|]. by rewrite Ep, list_lookup_insert_ne.
Qed.

(** C2: [fork] makes a child with a copy of the caller's memory, or fails.  When it
    returns the new pid, the child is a runnable process that sees the same bytes
    below [sz] through pages of its own, shares the open files and the directory,
    and will return 0.  When it returns -1, the process table was full and nothing
    has changed, or memory was short: then the entry is unused, the kernel stack is
    free, no file or inode has a reference more, and all pages are free again but
    the one being copied, or but those of a page directory that could not be
    finished.  Either way the caller's memory and all other processes are
    unchanged. *)
Theorem fork_copies c p ip l fr s :
  quiet c s -> ptable s !! c = Some p -> length (p_ofile p) = NOFILE -> p_cwd p = Some ip ->
  (forall f, f ∈ open_files p (seq 0 NOFILE) -> exists x, ftable s !! f = Some x /\ 1 <= f_ref x) ->
  (forall q, q ∈ ptable s -> p_state q = UNUSED -> p_ofile q = replicate NOFILE None) ->
  vm_ok l fr (p_pgdir p) s -> 0 <= p_sz p <= KERNBASE ->
  (forall j, 0 <= j < pages (p_sz p) -> entry (mem s) (p_pgdir p) j <> None) ->
  exists r s', fork s = Ok r s' /\ quiet c s' /\ same_pages (owned (mem s) (p_pgdir p) ++ fr) (mem s) (mem s') /\
    match unused_proc (ptable s) 0 with
    | None => r = -1 /\ ptable s' = ptable s /\ ftable s' = ftable s /\ icache s' = icache s /\ vm_ok l fr (p_pgdir p) s'
    | Some np =>
      exists q, ptable s' = <[np := q]> (ptable s) /\
      ((r = nextpid s /\ exists k d l', new_child c p d k (nextpid s) q /\
          vm_ok l' (owned (mem s) (p_pgdir p) ++ k :: fr) d s' /\ k :: l' ++ owned (mem s') d ≡ₚ l /\
          (forall va, 0 <= va < p_sz p -> uview (mem s') d va = uview (mem s) (p_pgdir p) va) /\
          ftable s' = bumps (open_files p (seq 0 NOFILE)) (ftable s) /\ icache s' = alter iref1 ip (icache s)) \/
       (r = -1 /\ p_state q = UNUSED /\ p_kstack q = 0 /\ Z.of_nat (length l) < 1027 + 2 * pages (p_sz p) /\
        (exists l', vm_ok l' fr (p_pgdir p) s' /\ fork_left l l') /\ ftable s' = ftable s /\ icache s' = icache s))
    end.
Proof.
  intros Hq Hp Hlen Hcwd Hfiles Hof Hvm Hsz Hpres. destruct (unused_proc (ptable s) 0) as [np|] eqn:Hu.
  2:{ destruct (fork_full c l fr _ s Hq Hu Hvm) as (E & Hq' & Hvm'). by exists (-1), (calm s). }
  destruct (unused_first _ _ _ Hu) as (q0 & Hq0 & Hst & _). rewrite Nat.sub_0_r in Hq0.
  assert (np <> c) as Hnc by (intros ->; by rewrite (quiet_running _ _ _ Hq Hq0) in Hst).
  assert (0 <= pages (p_sz p)) by (unfold pages, PGSIZE; zdm). destruct l as [|k l].
  - destruct (fork_no_stack c np q0 fr _ s Hq Hu Hq0 Hnc Hvm) as (s' & q & E & Ep & Hq' & H1 & H2 & Em & Hvm' & Ef & Ei).
    exists (-1), s'. split; [done|]. split; [done|]. split; [by rewrite Em|]. exists q. split; [done|]. right.
    split_and!; [done|done|done|cbn [length]; lia| |done|done]. exists []. split; [done|]. exists []. split; [done|]. left. cbn; lia.
  - destruct (fork_tries c np p q0 ip k l fr s) as (r & s' & q & E & Ep & Hq' & Hs & Hc); try done.
    { apply Hof; [by eapply list_elem_of_lookup_2|done]. }
    exists r, s'. split_and!; [done..|]. exists q. split; [done|].
    destruct Hc as [(-> & d & l' & H1 & H2 & H3 & H4)|(-> & H1 & H2 & H3 & (l' & H4 & H5) & H6)]; [left|right].
    + split; [done|]. exists k, d, l'. split_and!; try done; [by rewrite H3|apply H4..].
    + split_and!; [done|done|done|cbn [length]; lia| |apply H6|apply H6]. exists (k :: l'). split; [done|]. by apply copy_fork_left.
Qed.

End ForkThm.

(** A process with two pages of memory, on a machine with 16MB of it. *)
Lemma fork_copies_witness :
  exists pg s s', @fork xv6_image xv6_text s = Ok 1 s' /\ p_sz (ptable s !!! 0%nat) = 8192 /\
    p_pgdir (ptable s !!! 0%nat) = pg /\ p_pgdir (ptable s' !!! 1%nat) <> pg.
Proof.
  destruct boot_space as (l & pg & s0 & Hvm & Hl & Hin & _). destruct l as [|k l]; [cbn in Hl; lia|].
  set (p := set_p_cwd (Some 0%nat) (set_p_sz 8192 (set_p_pgdir pg sample_proc))).
  set (s := set_locks ∅ (set_nextpid 1 (set_cpu (MkCpu 0 0 true true (Some 0%nat) pg (u32 (p_kstack sample_proc + KSTACKSIZE)))
    (set_ptable (<[0%nat := p]> (ptable boot_state)) s0)))).
  assert (pg <> 0) as Hpg0.
  { pose proof (vm_dir_ok _ _ _ _ Hvm) as [_ [Hpg _]%Forall_cons]. pose proof (page_ok_pos _ Hpg). lia. }
  destruct (@fork_copies xv6_image xv6_text 0 p 0 (k :: l) [] s) as (r & s' & E & _ & Hsame & q & Ep & Hc).
  - split; try reflexivity. exists p. by split_and!.
  - reflexivity.
  - reflexivity.
  - reflexivity.
  - by intros f []%elem_of_nil.
  - intros q [j Hj]%list_elem_of_lookup Hu. destruct (decide (j = 0%nat)) as [->|Hne].
    + by injection Hj as <-.
    + change (ptable s) with (<[0%nat := p]> (ptable boot_state)) in Hj. rewrite list_lookup_insert_ne in Hj by done.
      apply lookup_replicate in Hj as [-> _]. reflexivity.
  - apply (base_ok_ext _ _ _ _ Hvm); [reflexivity|reflexivity|reflexivity|by split].
  - by split.
  - exact Hin.
  - destruct Hc as [(-> & k' & d & l' & Hn & Hvm' & _)|(_ & _ & _ & Hsh & _)].
    + exists pg, s, s'. split; [exact E|]. split; [reflexivity|]. split; [reflexivity|].
      rewrite Ep. rewrite (list_lookup_total_insert_eq (ptable s)) by (apply (bool_decide_unpack _); reflexivity).
      rewrite (nc_pgdir _ _ _ _ _ _ Hn). intros ->. destruct Hvm' as (_ & _ & _ & Hnd & _).
      apply NoDup_app in Hnd as (_ & _ & Hnd). apply NoDup_app in Hnd as (_ & Hd & _).
      apply (Hd pg); [by left|]. apply elem_of_app. left. by left.
    + change (pages (p_sz p)) with 2 in Hsh. cbn [length] in Hl, Hsh. lia.
Defined.
