(* ===== verification/SyscallThm.v ===== *)
(** * What the argument checks of system calls promise *)

From S2P Require Import Prelude State Mem Spinlock Sched SchedFacts Ide Bio Log Inode Kalloc Vm Kbd Console Fs Pipe File Proc Exec Syscall.
From S2P Require Import VmFacts VmSpec UserMem Sample.

(** Running on behalf of process [c] of size [sz]. *)
Record caller (c : nat) (sz : Z) (s : kst) : Prop := {
  ca_proc : c_proc (cpu s) = Some c;
  ca_sz : p_sz (ptable s !!! c) = sz;
  ca_range : 0 <= sz <= KERNBASE }.

Lemma fetchint_state c sz a s o s' : caller c sz s -> fetchint a s = Ok o s' -> s' = s.
Proof.
  intros Hc. unfold fetchint. rewrite (bind_curproc c) by apply Hc. unfold getproc. rewrite bind_gets.
  destruct (_ || _); [unfold ret; congruence|].
  destruct (uread a 4 s) as [l t|] eqn:E; [|by rewrite (bind_Halt _ _ _ _ _ E)].
  rewrite (bind_Ok _ _ _ _ _ E). intros H. injection H as _ <-. by eapply uread_state.
Qed.

Lemma argint_state c sz n s o s' : caller c sz s -> argint n s = Ok o s' -> s' = s.
Proof.
  intros Hc. unfold argint. rewrite (bind_curproc c) by apply Hc. unfold getproc. rewrite bind_gets. by apply (fetchint_state c sz).
Qed.

(** [argptr] once the word has been fetched. *)
Lemma argptr_eq c sz n size i s : caller c sz s -> argint n s = Ok (Some i) s ->
  argptr n size s = Ok (if (sz <=? u32 i) || (sz <? u32 (u32 i + size)) then None else Some (u32 i)) s.
Proof.
  intros Hc Hi. unfold argptr. rewrite (bind_Ok _ _ _ _ _ Hi), (bind_curproc c) by apply Hc. unfold getproc.
  rewrite bind_gets, (ca_sz _ _ _ Hc). by destruct (_ || _).
Qed.

(** C34: a pointer [argptr] accepts is to memory of the process.  For a size that
    is not negative, the whole block lies below the process's size, without
    wrap-around, and the call changes nothing. *)
Theorem argptr_in_bounds c sz n size a s s' :
  caller c sz s -> 0 <= size < 2^31 -> argptr n size s = Ok (Some a) s' ->
  s' = s /\ 0 <= a < sz /\ a + size <= sz.
Proof.
  intros Hc Hsize H. unfold argptr in H. destruct (argint n s) as [o t|] eqn:Ei.
  2:{ by rewrite (bind_Halt _ _ _ _ _ Ei) in H. }
  pose proof (argint_state _ _ _ _ _ _ Hc Ei) as ->. destruct o as [i|].
  2:{ by rewrite (bind_Ok _ _ _ _ _ Ei) in H. }
  fold (argptr n size s) in H. change (argptr n size s = Ok (Some a) s') in H. rewrite (argptr_eq c sz _ _ _ _ Hc Ei) in H.
  destruct ((sz <=? u32 i) || (sz <? u32 (u32 i + size))) eqn:E; [done|]. injection H as <- <-. split; [done|].
  apply orb_false_iff in E as [E1%Z.leb_gt E2%Z.ltb_ge]. pose proof (u32_range i) as Hu. pose proof (ca_range _ _ _ Hc).
  unfold is_u32, KERNBASE in *. rewrite u32_small in E2 by lia. lia.
Qed.

(** [argptr] accepts blocks of negative size.  The user gives the size in
    [read] and [write]; -1 passes the check at the last byte of memory, and the
    kernel then takes it for an unsigned size, of a block that does not end
    below the process's size. *)
Theorem argptr_negative_size c sz n size i s :
  caller c sz s -> argint n s = Ok (Some i) s -> 0 <= i < sz -> - 2^31 <= size < 0 -> 0 <= i + size ->
  argptr n size s = Ok (Some i) s /\ sz < i + u32 size.
Proof.
  intros Hc Hi Hlt Hs H0. pose proof (ca_range _ _ _ Hc). unfold KERNBASE in *.
  rewrite (argptr_eq c sz _ _ _ _ Hc Hi), !u32_small by lia. split.
  - bool_cases; try lia. done.
  - unfold u32. zdm.
Qed.

(** ** Strings *)

Lemma fetchstr_loop_found pg l : forall fuel a acc s,
  c_cr3 (cpu s) = pg -> 0 <= a -> a + Z.of_nat (length l) < KERNBASE ->
  (forall k b, l !! k = Some b -> b <> 0 /\ uview (mem s) pg (a + Z.of_nat k) = Some b) ->
  uview (mem s) pg (a + Z.of_nat (length l)) = Some 0 -> (length l < fuel)%nat ->
  fetchstr_loop fuel a acc s = Ok (Some (acc ++ l)) s.
Proof.
  induction l as [|b l IH]; intros fuel a acc s Hc Ha Hl Hv H0 Hf; (destruct fuel as [|fuel]; [cbn in Hf; lia|]); cbn [fetchstr_loop].
  - cbn in H0. rewrite Z.add_0_r in H0. rewrite (bind_Ok _ _ _ [0] s), app_nil_r; [done|].
    apply (uread_view pg); [done|done|cbn in *; lia|done|]. intros [|k] b; [|done]. intros [= <-]. by rewrite Z.add_0_r.
  - cbn [length] in *. destruct (Hv 0%nat b eq_refl) as [Hb Hvb]. rewrite Z.add_0_r in Hvb.
    rewrite (bind_Ok _ _ _ [b] s).
    + cbn. rewrite (proj2 (Z.eqb_neq b 0) Hb), (IH fuel (a + 1)); try done; try lia.
      * by rewrite <- app_assoc.
      * intros k b' Hk. replace (a + 1 + Z.of_nat k) with (a + Z.of_nat (S k)) by lia. by apply (Hv (S k)).
      * by replace (a + 1 + Z.of_nat (length l)) with (a + Z.of_nat (S (length l))) by lia.
    + apply (uread_view pg); [done|done|lia|done|]. intros [|k] b'; [|done]. intros [= <-]. by rewrite Z.add_0_r.
Qed.

Lemma fetchstr_loop_none pg fuel : forall a acc s,
  c_cr3 (cpu s) = pg -> 0 <= a -> a + Z.of_nat fuel <= KERNBASE ->
  (forall k, (k < fuel)%nat -> exists b, b <> 0 /\ uview (mem s) pg (a + Z.of_nat k) = Some b) ->
  fetchstr_loop fuel a acc s = Ok None s.
Proof.
  induction fuel as [|fuel IH]; intros a acc s Hc Ha Hl Hv; [done|]. cbn [fetchstr_loop].
  destruct (Hv 0%nat) as (b & Hb & Hvb); [lia|]. rewrite Z.add_0_r in Hvb. rewrite (bind_Ok _ _ _ [b] s).
  - cbn. rewrite (proj2 (Z.eqb_neq b 0) Hb). apply IH; [done|lia|lia|].
    intros k Hk. replace (a + 1 + Z.of_nat k) with (a + Z.of_nat (S k)) by lia. apply Hv. lia.
  - apply (uread_view pg); [done|done|cbn; lia|done|]. intros [|k] b'; [|done]. intros [= <-]. by rewrite Z.add_0_r.
Qed.

(** [fetchstr] returns the characters before the first NUL at the address,
    when that is below the process's size, and fails when the address is not,
    or no NUL is. *)
Theorem fetchstr_correct c sz a l s :
  caller c sz s -> 0 <= a ->
  (forall k b, l !! k = Some b -> b <> 0 /\ uview (mem s) (c_cr3 (cpu s)) (a + Z.of_nat k) = Some b) ->
  (a + Z.of_nat (length l) < sz -> uview (mem s) (c_cr3 (cpu s)) (a + Z.of_nat (length l)) = Some 0 ->
    fetchstr a s = Ok (Some l) s) /\
  (sz <= a + Z.of_nat (length l) -> fetchstr a s = Ok None s).
Proof.
  intros Hc Ha Hl. pose proof (ca_range _ _ _ Hc).
  assert (fetchstr a s = if sz <=? a then Ok None s else fetchstr_loop (Z.to_nat (sz - a)) a [] s) as ->.
  { unfold fetchstr. rewrite (bind_curproc c) by apply Hc. unfold getproc. rewrite bind_gets, (ca_sz _ _ _ Hc). by destruct (_ <=? _). }
  split.
  - intros Hlen H0. destruct (Z.leb_spec sz a); [lia|].
    rewrite (fetchstr_loop_found (c_cr3 (cpu s)) l); [done..|lia|done|done|lia].
  - intros Hlen. destruct (Z.leb_spec sz a); [done|]. apply (fetchstr_loop_none (c_cr3 (cpu s))); [done|done|lia|].
    intros k Hk. destruct (lookup_lt_is_Some_2 l k ltac:(lia)) as [b Hb]. exists b. by apply Hl.
Qed.

(** ** The sample process making a system call *)

(** Its stack is at 0x1000: a return address and the argument [i]; a string
    follows. *)
Definition arg_state (i : Z) : kst :=
  upd_proc 0 (set_p_tf (set_tf_esp 0x1000 inhabitant)) (sample_state (bytes32 0 ++ bytes32 i ++ [104; 105; 0])).

Lemma arg_caller i : caller 0 0x2000 (arg_state i).
Proof. split; [reflexivity|reflexivity|]. by split. Qed.

Lemma arg_argint i : argint 0 (arg_state i) = Ok (Some (i32 (le (bytes32 i)))) (arg_state i).
Proof.
  unfold argint. rewrite (bind_curproc 0) by reflexivity. unfold getproc. rewrite bind_gets.
  change (u32 _) with 0x1004. unfold fetchint. rewrite (bind_curproc 0) by reflexivity. unfold getproc. rewrite bind_gets.
  change (_ || _) with false. cbv iota.
  rewrite (bind_Ok _ _ _ _ _ (uread_page 4 0x1004 0x80402004 (arg_state i) ltac:(repeat constructor))). reflexivity.
Qed.

Lemma argptr_in_bounds_witness : argptr 0 16 (arg_state 0x1ff0) = Ok (Some 0x1ff0) (arg_state 0x1ff0) /\ 0x1ff0 + 16 <= 0x2000.
Proof.
  assert (argptr 0 16 (arg_state 0x1ff0) = Ok (Some 0x1ff0) (arg_state 0x1ff0)) as E
    by (rewrite (argptr_eq 0 0x2000 _ _ _ _ (arg_caller _) (arg_argint 0x1ff0)); reflexivity).
  split; [exact E|]. refine (proj2 (proj2 (argptr_in_bounds 0 0x2000 0 16 0x1ff0 _ _ (arg_caller _) _ E))). by split.
Defined.

Lemma argptr_negative_size_witness :
  argptr 0 (-1) (arg_state 0x1fff) = Ok (Some 0x1fff) (arg_state 0x1fff) /\ 0x2000 < 0x1fff + u32 (-1).
Proof.
  apply (argptr_negative_size 0 0x2000 0 (-1) 0x1fff (arg_state 0x1fff)).
  - apply arg_caller.
  - apply (arg_argint 0x1fff).
  - by split.
  - by split.
  - discriminate.
Defined.

Lemma fetchstr_correct_witness : fetchstr 0x1008 (arg_state 7) = Ok (Some [104; 105]) (arg_state 7).
Proof.
  refine (proj1 (fetchstr_correct 0 0x2000 0x1008 [104; 105] (arg_state 7) (arg_caller _) _ _) _ _).
  - discriminate.
  - intros [|[|k]] b Hb; [injection Hb as <-; by split..|done].
  - reflexivity.
  - reflexivity.
Defined.
