(* ===== verification/FsFacts.v ===== *)
(** * Blocks in a transaction

    What the operations of fs.c on single blocks do, in terms of the contents
    of the blocks as a transaction sees them. *)

From S2P Require Import Prelude State Mem Spinlock Sched SchedFacts Ide Bio BioFacts Cache CacheThm Log LogFacts LogCrash LogTx Inode.

(** Everything but the buffers, the disk and the log is the same, up to
    processes that were woken up. *)
Definition fs_rel (s s' : kst) : Prop := bio_frame (set_lg (lg s') s) s'.

Lemma bio_fs_rel s s' : bio_frame s s' -> fs_rel s s'.
Proof. intros F. unfold fs_rel. rewrite (frame_lg _ _ F). by destruct s. Qed.

Lemma fs_rel_trans s1 s2 s3 : fs_rel s1 s2 -> fs_rel s2 s3 -> fs_rel s1 s3.
Proof.
  unfold fs_rel. intros (W1 & C1 & E1) H2. refine (bio_frame_trans _ (set_lg (lg s3) s2) _ _ H2).
  split; [exact W1|]. split; [exact C1|]. rewrite E1 at 1. reflexivity.
Qed.

Lemma fs_rel_fields s s' : fs_rel s s' ->
  icache s' = icache s /\ sb s' = sb s /\ ftable s' = ftable s /\ mem s' = mem s /\ locks s' = locks s /\ devsw s' = devsw s.
Proof. intros (_ & _ & E). rewrite E. by split_and!. Qed.

(** ** Opening a block *)

Section TxOpen.
Context (i : nat) (dev start : Z).

(** The contents of the blocks of the device are the same. *)
Definition same_view (s s' : kst) : Prop := forall m, bview s' dev m = bview s dev m.

(** A block was given new contents. *)
Record tx_put (bl : list Z) (n : Z) (d : list Z) (s s' : kst) : Prop := {
  tp_tx : tx i dev start [] (tx_add n bl) s';
  tp_lg : lg s' = header_add n (lg s);
  tp_view : forall m, bview s' dev m = if decide (m = n) then d else bview s dev m;
  tp_rel : fs_rel s s' }.

Lemma tx_open bl s n :
  tx i dev start [] bl s -> 0 <= n < FSSIZE ->
  exists b s1, (forall A (k : nat -> list Z -> M A),
      (let* b := bread dev n in let* d := getbuf b b_data in k b d) s = k b (bview s dev n) s1) /\
    length (bview s dev n) = BSIZE /\ fs_rel s s1 /\ b_data (bufs s1 !!! b) = bview s dev n /\
    (exists s2, brelse b s1 = Ok tt s2 /\ tx i dev start [] bl s2 /\ same_view s s2 /\ fs_rel s s2 /\ lg s2 = lg s) /\
    (forall d, length d = BSIZE -> home_ok start n -> Z.of_nat (length bl) < l_size (lg s) - 1 -> 1 <= l_outstanding (lg s) ->
      exists s2, (modify (upd_buf b (set_b_data d)) ;; log_write b ;; brelse b) s1 = Ok tt s2 /\ tx_put bl n d s s2).
Proof.
  intros Htx Hn. pose proof (tx_cache _ _ _ _ _ _ Htx) as Hbc. pose proof (tx_len _ _ _ _ _ _ Htx) as Hlen.
  pose proof (la_ok _ _ _ (tx_at _ _ _ _ _ _ Htx)) as Hdev.
  destruct (bread_spec i [] _ s dev n Hbc Hdev Hn) as
    (b & d0 & s1 & E1 & F1 & Hbc1 & Hb1 & _ & Hcl & _ & V1 & _ & K1 & D1 & W1);
    [right; by rewrite length_fmap|intros ? ? ?; by eapply no_held|].
  assert (b_data (bufs s1 !!! b) = bview s dev n) as Ed.
  { destruct Hb1 as (p & [_ Hp] & _ & _ & _ & _ & _ & <-). by rewrite (list_lookup_total_correct _ _ _ Hp). }
  destruct (held_view _ _ _ _ _ _ _ _ _ Hbc1 Hb1) as (_ & _ & Hl1).
  assert (tx i dev start [b] bl s1) as Htx1 by (eapply (tx_frame _ _ _ _ [b] _ s); [done|done|done|by apply K1|done]).
  exists b, s1. split; [|split; [done|split; [by apply bio_fs_rel|split; [done|split]]]].
  - intros A k. rewrite (bind_Ok _ _ _ _ _ E1). unfold getbuf. rewrite bind_gets. by rewrite Ed.
  - destruct (brelse_spec i [] _ s1 b dev n (bview s dev n) d0 Hbc1) as
      (s4 & E4 & F4 & Hbc4 & _ & _ & _ & V4 & K4 & D4 & W4); [apply not_elem_of_nil|done|done|].
    exists s4. split_and!; [done|..].
    + eapply (tx_frame _ _ _ _ [] _ s1); [done|done|done|by apply K4|done].
    + intros m. by rewrite V4, V1.
    + apply bio_fs_rel. by eapply bio_frame_trans.
    + by rewrite (frame_lg _ _ F4), (frame_lg _ _ F1).
  - intros d Hd Hh Hroom Hout.
    destruct (setdata_spec _ _ _ _ _ _ _ _ _ d Hbc1 Hb1 Hd) as (Hbc2 & Hb2 & _ & V2 & K2).
    rewrite bind_modify. set (s2 := upd_buf b (set_b_data d) s1) in *.
    assert (bio_frame s s2) as F2 by (eapply bio_frame_trans; [exact F1|]; apply (upd_buf_frame b (set_b_data d))).
    assert (tx i dev start [b] bl s2) as Htx2.
    { eapply (tx_frame _ _ _ _ [b] _ s); [done|done|done| |done]. intros m Hm. by apply K2, K1. }
    assert (lg s2 = lg s) as El by (apply (frame_lg _ _ F2)).
    destruct (log_write_spec i dev start [b] bl s2 b n _ d0 Htx2 Hb2 Hh) as
      (s3 & E3 & Htx3 & Hb3 & _ & V3 & D3 & W3 & L3 & F3); [by rewrite El..|].
    rewrite (bind_Ok _ _ _ _ _ E3).
    destruct (brelse_spec i [] _ s3 b dev n d true (tx_cache _ _ _ _ _ _ Htx3)) as
      (s4 & E4 & F4 & Hbc4 & _ & _ & _ & V4 & K4 & D4 & W4); [apply not_elem_of_nil|done|done|].
    exists s4. split; [done|]. split.
    + eapply (tx_frame _ _ _ _ [] _ s3); [done|done|done|by apply K4|done].
    + by rewrite (frame_lg _ _ F4), L3, El.
    + intros m. rewrite V4, V3, V2 by done. destruct (decide _) as [E|E], (decide (m = n)); try congruence. by apply V1.
    + apply (fs_rel_trans _ s2); [by apply bio_fs_rel|]. apply (fs_rel_trans _ s3); [|by apply bio_fs_rel].
      unfold fs_rel. by rewrite L3.
Qed.

End TxOpen.

(** ** The bitmap *)

Lemma land_bit v k : 0 <= k -> (Z.land v (Z.shiftl 1 k) =? 0) = negb (Z.testbit v k).
Proof.
  intros Hk. destruct (Z.testbit v k) eqn:E.
  - apply Z.eqb_neq. intros H. apply (f_equal (fun x => Z.testbit x k)) in H.
    rewrite Z.land_spec, Z.shiftl_spec, Z.sub_diag, Z.bits_0, E in H by done. done.
  - apply Z.eqb_eq, Z.bits_inj'. intros n Hn. rewrite Z.land_spec, Z.shiftl_spec, Z.bits_0 by done.
    destruct (decide (n = k)) as [->|Hne]; [by rewrite E|].
    assert (Z.testbit 1 (n - k) = false) as ->; [|by rewrite andb_false_r].
    destruct (decide (n < k)); [apply Z.testbit_neg_r; lia|]. apply Z.bits_above_log2; [lia|cbn; lia].
Qed.

Lemma bit_free_testbit d bi : bit_free d bi = negb (Z.testbit (d !!! bit_byte bi) (bi mod 8)).
Proof. apply land_bit. apply Z.mod_pos_bound. lia. Qed.

(** Marking a block used, or free. *)
Definition bit_set (bi : Z) (d : list Z) : list Z := alter (fun v => Z.lor v (bit_mask bi)) (bit_byte bi) d.
Definition bit_clear (bi : Z) (d : list Z) : list Z := alter (fun v => Z.land v (Z.lnot (bit_mask bi))) (bit_byte bi) d.

Lemma mask_testbit bi k : 0 <= k -> Z.testbit (bit_mask bi) k = bool_decide (k = bi mod 8).
Proof.
  intros Hk. unfold bit_mask. rewrite Z.shiftl_spec by done. pose proof (Z.mod_pos_bound bi 8). case_bool_decide as E.
  - by rewrite E, Z.sub_diag.
  - destruct (decide (k < bi mod 8)); [apply Z.testbit_neg_r; lia|]. apply Z.bits_above_log2; [lia|cbn; lia].
Qed.

Lemma same_byte bi bj : 0 <= bi -> 0 <= bj -> bit_byte bj = bit_byte bi -> bj mod 8 = bi mod 8 -> bj = bi.
Proof. unfold bit_byte. intros. zdm. Qed.

Lemma bit_set_free d bi bj : 0 <= bi -> 0 <= bj -> (bit_byte bi < length d)%nat ->
  bit_free (bit_set bi d) bj = bit_free d bj && negb (bj =? bi).
Proof.
  intros Hi Hj Hl. rewrite !bit_free_testbit. unfold bit_set. destruct (lookup_lt_is_Some_2 d (bit_byte bi) Hl) as [v Hv].
  destruct (decide (bit_byte bj = bit_byte bi)) as [E|E].
  - rewrite E, (total_alter_eq _ _ _ _ Hv), (list_lookup_total_correct _ _ _ Hv).
    rewrite Z.lor_spec, mask_testbit, negb_orb by (apply Z.mod_pos_bound; lia). f_equal. f_equal.
    case_bool_decide as Em; destruct (Z.eqb_spec bj bi) as [->|Hne]; try done. exfalso. by apply Hne, same_byte.
  - rewrite total_alter_ne by done. destruct (Z.eqb_spec bj bi) as [->|]; [done|]. by rewrite andb_true_r.
Qed.

Lemma bit_clear_free d bi bj : 0 <= bi -> 0 <= bj -> (bit_byte bi < length d)%nat ->
  bit_free (bit_clear bi d) bj = bit_free d bj || (bj =? bi).
Proof.
  intros Hi Hj Hl. rewrite !bit_free_testbit. unfold bit_clear. destruct (lookup_lt_is_Some_2 d (bit_byte bi) Hl) as [v Hv].
  destruct (decide (bit_byte bj = bit_byte bi)) as [E|E].
  - rewrite E, (total_alter_eq _ _ _ _ Hv), (list_lookup_total_correct _ _ _ Hv).
    rewrite Z.land_spec, Z.lnot_spec, mask_testbit, negb_andb, negb_involutive by (apply Z.mod_pos_bound; lia). f_equal.
    case_bool_decide as Em; destruct (Z.eqb_spec bj bi) as [->|Hne]; try done. exfalso. by apply Hne, same_byte.
  - rewrite total_alter_ne by done. destruct (Z.eqb_spec bj bi) as [->|]; [done|]. by rewrite orb_false_r.
Qed.

(** The scan finds the first free block. *)
Lemma bitmap_scan_spec size d n : forall bi,
  match bitmap_scan n bi 0 size d with
  | Some bj => bi <= bj < bi + Z.of_nat n /\ bj < size /\ bit_free d bj = true /\ (forall k, bi <= k < bj -> bit_free d k = false)
  | None => forall k, bi <= k < bi + Z.of_nat n -> k < size -> bit_free d k = false
  end.
Proof.
  induction n as [|n IH]; intros bi; cbn [bitmap_scan]; [lia|]. rewrite Z.add_0_l. destruct (Z.ltb_spec bi size) as [Hs|Hs].
  - destruct (bit_free d bi) eqn:E; [split_and!; try done; lia|]. specialize (IH (bi + 1)).
    destruct (bitmap_scan n (bi + 1) 0 size d) as [bj|].
    + destruct IH as (H1 & H2 & H3 & H4). split_and!; [lia|lia|done|done|]. intros k Hk.
      destruct (decide (k = bi)) as [->|]; [done|]. apply H4. lia.
    + intros k Hk Hks. destruct (decide (k = bi)) as [->|]; [done|]. apply IH; lia.
  - intros k Hk Hks. lia.
Qed.

(** ** Allocating and freeing blocks *)

Lemma bind3 {A} (m1 m2 m3 : M unit) (k : M A) s t : (m1 ;; m2 ;; m3) s = Ok tt t -> (m1 ;; m2 ;; m3 ;; k) s = k t.
Proof.
  unfold bind. destruct (m1 s) as [[] s1|]; [|done]. destruct (m2 s1) as [[] s2|]; [|done].
  destruct (m3 s2) as [[] s3|]; [|done]. by intros [= ->].
Qed.

Lemma bread_getbuf {A} dev n (k : nat -> M A) s :
  (let* b := bread dev n in k b) s = (let* b := bread dev n in let* d := getbuf b b_data in k b) s.
Proof. unfold bind. by destruct (bread dev n s). Qed.

Section Alloc.
Context (i : nat) (dev start : Z).

(** The transaction has room for [k] more blocks. *)
Definition tx_room (bl : list Z) (k : Z) (s : kst) : Prop :=
  Z.of_nat (length bl) + k < l_size (lg s) /\ 1 <= l_outstanding (lg s).

Lemma tx_room_put bl k n d s s' : tx_put i dev start bl n d s s' -> tx_room bl (k + 1) s -> tx_room (tx_add n bl) k s'.
Proof.
  intros [_ El _ _] [H1 H2]. pose proof (length_tx_add n bl). unfold tx_room. rewrite El. unfold header_add. by destruct (_ =? _); cbn; lia.
Qed.

Lemma bzero_spec bl s n :
  tx i dev start [] bl s -> home_ok start n -> tx_room bl 1 s ->
  exists s', bzero dev n s = Ok tt s' /\ tx_put i dev start bl n (replicate BSIZE 0) s s'.
Proof.
  intros Htx Hn [Hr Ho]. unfold bzero. rewrite bread_getbuf.
  destruct (tx_open i dev start bl s n Htx (proj1 Hn)) as (b & s1 & E & _ & _ & _ & _ & Hput). rewrite E.
  apply Hput; [apply length_replicate|done|lia|done].
Qed.

Definition bitmap (s : kst) : list Z := bview s dev (sb_bmapstart (sb s)).

(** A file system whose bitmap is one block, and whose blocks that are not for
    files are marked as used. *)
Record fs_ok (s : kst) : Prop := {
  fo_size : 0 < sb_size (sb s) <= FSSIZE;
  fo_bmap : home_ok start (sb_bmapstart (sb s));
  fo_free : forall b, 0 <= b < sb_size (sb s) -> bit_free (bitmap s) b = true -> home_ok start b /\ b <> sb_bmapstart (sb s) }.

Lemma BBLOCK_ok s b : fs_ok s -> 0 <= b < sb_size (sb s) -> BBLOCK b (sb s) = sb_bmapstart (sb s).
Proof.
  intros [Hs [Hb _] _] Hlt. unfold BBLOCK, BPB. change FSSIZE with 1000 in *. rewrite u32_small; [|unfold is_u32; zdm]. zdm.
Qed.

(** What allocating block [b] does. *)
Record allocated (bl : list Z) (b : Z) (s s' : kst) : Prop := {
  al_range : 0 <= b < sb_size (sb s);
  al_free : bit_free (bitmap s) b = true;
  al_first : forall c, 0 <= c < b -> bit_free (bitmap s) c = false;
  al_tx : tx i dev start [] (tx_add b (tx_add (sb_bmapstart (sb s)) bl)) s';
  al_bitmap : bitmap s' = bit_set b (bitmap s);
  al_zero : bview s' dev b = replicate BSIZE 0;
  al_other : forall m, m <> b -> m <> sb_bmapstart (sb s) -> bview s' dev m = bview s dev m;
  al_rel : fs_rel s s';
  al_room : forall k, tx_room bl (k + 2) s -> tx_room (tx_add b (tx_add (sb_bmapstart (sb s)) bl)) k s' }.

Lemma balloc_spec bl s :
  tx i dev start [] bl s -> fs_ok s -> tx_room bl 2 s ->
  (exists b s', balloc dev s = Ok b s' /\ allocated bl b s s') \/
  ((forall b, 0 <= b < sb_size (sb s) -> bit_free (bitmap s) b = false) /\
   exists s', balloc dev s = Halt (Panicked "balloc: out of blocks") s').
Proof.
  intros Htx Hfs Hroom. pose proof (fo_size _ Hfs) as Hsz. change FSSIZE with 1000 in Hsz.
  unfold balloc. rewrite bind_gets. replace (sb_size (sb s) / BPB) with 0 by (unfold BPB; zdm). change (Z.to_nat 0 + 1)%nat with 1%nat. cbn [balloc_loop].
  rewrite bind_gets. destruct (Z.ltb_spec 0 (sb_size (sb s))); [|lia]. rewrite BBLOCK_ok by (done || lia).
  destruct (tx_open i dev start bl s (sb_bmapstart (sb s)) Htx) as (bp & s1 & E & Hlen & R1 & _ & Hrel & Hput); [apply (fo_bmap _ Hfs)|].
  rewrite E.
  pose proof (bitmap_scan_spec (sb_size (sb s)) (bview s dev (sb_bmapstart (sb s))) (Z.to_nat BPB) 0) as Hscan.
  destruct (bitmap_scan _ _ _ _ _) as [b|].
  - left. destruct Hscan as (Hb & Hbs & Hfree & Hfirst). destruct (fo_free _ Hfs b ltac:(lia) Hfree) as [Hh Hne].
    destruct (Hput (bit_set b (bitmap s))) as (s2 & E2 & P2); [by unfold bit_set; rewrite length_alter|apply (fo_bmap _ Hfs)|destruct Hroom; lia|apply Hroom|].
    rewrite (bind3 _ _ _ _ _ _ E2), Z.add_0_l.
    destruct (fs_rel_fields _ _ (tp_rel _ _ _ _ _ _ _ _ P2)) as (_ & Esb & _).
    destruct (bzero_spec _ s2 b (tp_tx _ _ _ _ _ _ _ _ P2) Hh) as (s3 & E3 & P3); [by eapply (tx_room_put bl 1 _ _ s)|].
    rewrite (bind_Ok _ _ _ _ _ E3). exists b, s3. split; [reflexivity|].
    destruct (fs_rel_fields _ _ (tp_rel _ _ _ _ _ _ _ _ P3)) as (_ & Esb3 & _). split; try done.
    + lia.
    + apply (tp_tx _ _ _ _ _ _ _ _ P3).
    + unfold bitmap at 1. rewrite Esb3, Esb, (tp_view _ _ _ _ _ _ _ _ P3), decide_False by done.
      by rewrite (tp_view _ _ _ _ _ _ _ _ P2), decide_True.
    + by rewrite (tp_view _ _ _ _ _ _ _ _ P3), decide_True.
    + intros m H1 H2. by rewrite (tp_view _ _ _ _ _ _ _ _ P3), (tp_view _ _ _ _ _ _ _ _ P2), !decide_False.
    + eapply fs_rel_trans; [apply (tp_rel _ _ _ _ _ _ _ _ P2)|apply (tp_rel _ _ _ _ _ _ _ _ P3)].
    + intros k Hk. eapply (tx_room_put _ k); [exact P3|]. eapply (tx_room_put _ (k + 1)); [exact P2|]. by replace (k + 1 + 1) with (k + 2) by lia.
  - right. split.
    + intros b Hb. apply Hscan; [unfold BPB; lia|lia].
    + destruct Hrel as (s2 & E2 & _ & _ & R2 & _). destruct (fs_rel_fields _ _ R2) as (_ & Esb & _).
      rewrite (bind_Ok _ _ _ _ _ E2). cbn [balloc_loop]. rewrite bind_gets, Esb. unfold BPB.
      destruct (Z.ltb_spec (0 + 4096) (sb_size (sb s))); [lia|]. by exists s2.
Qed.

(** [readsb] reads the superblock. *)
Definition sb_of (d : list Z) : superblock :=
  MkSb (get32 d 0) (get32 d 4) (get32 d 8) (get32 d 12) (get32 d 16) (get32 d 20) (get32 d 24).

Lemma readsb_spec bl s :
  tx i dev start [] bl s ->
  exists s', readsb dev s = Ok (sb_of (bview s dev 1)) s' /\ tx i dev start [] bl s' /\ same_view dev s s' /\ fs_rel s s' /\ lg s' = lg s.
Proof.
  intros Htx. unfold readsb. destruct (tx_open i dev start bl s 1 Htx) as (b & s1 & E & _ & _ & _ & (s2 & E2 & H2) & _); [by split|].
  rewrite E, (bind_Ok _ _ _ _ _ E2). by exists s2.
Qed.

(** What freeing block [b] does. *)
Record freed (bl : list Z) (b : Z) (s s' : kst) : Prop := {
  fr_tx : tx i dev start [] (tx_add (sb_bmapstart (sb s)) bl) s';
  fr_bitmap : bitmap s' = bit_clear b (bitmap s);
  fr_other : forall m, m <> sb_bmapstart (sb s) -> bview s' dev m = bview s dev m;
  fr_rel : fs_rel s s';
  fr_room : forall k, tx_room bl (k + 1) s -> tx_room (tx_add (sb_bmapstart (sb s)) bl) k s' }.

Lemma bfree_spec bl s b :
  tx i dev start [] bl s -> fs_ok s -> sb s = sb_of (bview s dev 1) -> tx_room bl 1 s -> 0 <= b < sb_size (sb s) ->
  if bit_free (bitmap s) b then exists s', bfree dev b s = Halt (Panicked "freeing free block") s'
  else exists s', bfree dev b s = Ok tt s' /\ freed bl b s s'.
Proof.
  intros Htx Hfs Esb Hroom Hb. unfold bfree. destruct (readsb_spec bl s Htx) as (s1 & E1 & Htx1 & V1 & R1 & L1).
  rewrite (bind_Ok _ _ _ _ _ E1), bind_modify, <- Esb. destruct (fs_rel_fields _ _ R1) as (_ & Esb1 & _).
  assert (set_sb (sb s) s1 = s1) as -> by (rewrite <- Esb1; by destruct s1).
  rewrite BBLOCK_ok by done.
  destruct (tx_open i dev start bl s1 (sb_bmapstart (sb s)) Htx1) as (bp & s2 & E & Hlen & R2 & _ & Hrel & Hput); [apply (fo_bmap _ Hfs)|].
  rewrite E, V1. assert (b mod BPB = b) as -> by (pose proof (fo_size _ Hfs); change FSSIZE with 1000 in *; unfold BPB; zdm).
  fold (bitmap s). destruct (bit_free (bitmap s) b); [by eexists|].
  destruct (Hput (bit_clear b (bitmap s))) as (s3 & E3 & P3).
  { rewrite V1 in Hlen. unfold bit_clear. by rewrite length_alter. } { apply (fo_bmap _ Hfs). } { destruct Hroom. rewrite L1. lia. } { rewrite L1. apply Hroom. }
  exists s3. split; [exact E3|]. destruct (fs_rel_fields _ _ (tp_rel _ _ _ _ _ _ _ _ P3)) as (_ & Esb3 & _). split.
  - apply (tp_tx _ _ _ _ _ _ _ _ P3).
  - unfold bitmap at 1. by rewrite Esb3, Esb1, (tp_view _ _ _ _ _ _ _ _ P3), decide_True.
  - intros m Hm. by rewrite (tp_view _ _ _ _ _ _ _ _ P3), decide_False, V1.
  - eapply fs_rel_trans; [exact R1|apply (tp_rel _ _ _ _ _ _ _ _ P3)].
  - intros k Hk. eapply (tx_room_put _ k); [exact P3|]. unfold tx_room in *. by rewrite L1.
Qed.

Lemma bitmap_len bl s : tx i dev start [] bl s -> fs_ok s ->
  forall b, 0 <= b < sb_size (sb s) -> (bit_byte b < length (bitmap s))%nat.
Proof.
  intros Htx Hfs b Hb. destruct (tx_open i dev start bl s _ Htx (proj1 (fo_bmap _ Hfs))) as (_ & _ & _ & Hlen & _).
  unfold bitmap. rewrite Hlen. pose proof (fo_size _ Hfs). change FSSIZE with 1000 in *. unfold bit_byte, BSIZE. zdm.
Qed.

(** Fewer free blocks. *)
Lemma fs_ok_less s s' : fs_ok s -> sb s' = sb s ->
  (forall b, 0 <= b < sb_size (sb s) -> bit_free (bitmap s') b = true -> bit_free (bitmap s) b = true) -> fs_ok s'.
Proof. intros [H1 H2 H3] Esb Hf. split; rewrite Esb; [done|done|]. intros b Hb Hfree. apply H3; [done|]. by apply Hf. Qed.

End Alloc.
