(* ===== verification/InodeFacts.v ===== *)
(** * Inodes on disk

    The encoding of inodes in blocks, and what [iupdate] does to it. *)

From S2P Require Import Prelude State Mem Spinlock Sched SchedFacts Ide Bio BioFacts Cache CacheThm Log LogFacts LogCrash LogTx Inode FsFacts.

(** ** The encoding *)

Definition is_i16 (v : Z) : Prop := - 2^15 <= v < 2^15.

(** The fields are of their types. *)
Record inode_ok (ip : inode) : Prop := {
  io_type : is_i16 (i_type ip);
  io_major : is_i16 (i_major ip);
  io_minor : is_i16 (i_minor ip);
  io_nlink : is_i16 (i_nlink ip);
  io_size : is_u32 (i_size ip);
  io_len : length (i_addrs ip) = S NDIRECT;
  io_addrs : Forall is_u32 (i_addrs ip) }.

(** [struct dinode] as bytes. *)
Definition dinode_bytes (ip : inode) : list Z :=
  bytes16 (i_type ip) ++ bytes16 (i_major ip) ++ bytes16 (i_minor ip) ++ bytes16 (i_nlink ip) ++ bytes32 (i_size ip) ++
  (i_addrs ip ≫= bytes32).

Lemma length_addr_bytes l : length (l ≫= bytes32) = (4 * length l)%nat.
Proof. induction l as [|a l IH]; [done|]. rewrite bind_cons, length_app, IH, length_bytes32. cbn. lia. Qed.

Lemma length_dinode_bytes ip : inode_ok ip -> length (dinode_bytes ip) = DINODE_SIZE.
Proof. intros H. unfold dinode_bytes. rewrite !length_app, length_addr_bytes, (io_len _ H). done. Qed.

Lemma put_addrs_splice l : forall d o, (o + 4 * length l <= length d)%nat -> put_addrs d o l = splice d o (l ≫= bytes32).
Proof.
  induction l as [|a l IH]; intros d o H; cbn [put_addrs].
  - unfold splice. cbn. by rewrite Nat.add_0_r, take_drop.
  - cbn [length] in H. rewrite IH by (rewrite length_put32; lia). unfold put32. rewrite bind_cons.
    replace (o + 4)%nat with (o + length (bytes32 a))%nat by done. apply splice_app.
    rewrite length_bytes32, length_addr_bytes. lia.
Qed.

Lemma put_dinode_splice d o ip : inode_ok ip -> (o + DINODE_SIZE <= length d)%nat ->
  put_dinode d o ip = splice d o (dinode_bytes ip).
Proof.
  intros Hok Ho. pose proof (io_len _ Hok) as El. unfold DINODE_SIZE in Ho. unfold put_dinode, put16, put32.
  assert (forall v, length (bytes16 v) = 2%nat) as L16 by done. pose proof length_bytes32 as L32.
  rewrite (splice_app d o (bytes16 (i_type ip))) by (rewrite !L16; lia).
  replace (o + 4)%nat with (o + length (bytes16 (i_type ip) ++ bytes16 (i_major ip)))%nat by done.
  rewrite splice_app by (rewrite length_app, !L16; lia). rewrite <- app_assoc.
  match goal with |- context [splice (splice d o ?x) (o + 6)] => replace (o + 6)%nat with (o + length x)%nat by done end.
  rewrite splice_app by (rewrite !length_app, !L16; lia). rewrite <- !app_assoc.
  match goal with |- context [splice (splice d o ?x) (o + 8)] => replace (o + 8)%nat with (o + length x)%nat by done end.
  rewrite splice_app by (rewrite !length_app, !L16, L32; lia). rewrite <- !app_assoc.
  rewrite put_addrs_splice.
  2:{ rewrite length_splice by (rewrite !length_app, ?L16, ?L32; lia). rewrite El. unfold NDIRECT. lia. }
  match goal with |- context [splice (splice d o ?x) (o + 12)] => replace (o + 12)%nat with (o + length x)%nat by done end.
  rewrite splice_app by (rewrite !length_app, length_addr_bytes, El, !L16, L32; unfold NDIRECT; lia).
  by rewrite <- !app_assoc.
Qed.

Lemma le16_i16 v : is_i16 v -> i16 (le (bytes16 v)) = v.
Proof. unfold is_i16, i16. cbn [le bytes16]. intros H. replace (2^8) with 256 by done. zdm. Qed.

Lemma slice_addr_bytes ip l j a : l !! j = Some a ->
  slice (bytes16 (i_type ip) ++ bytes16 (i_major ip) ++ bytes16 (i_minor ip) ++ bytes16 (i_nlink ip) ++ bytes32 (i_size ip) ++
    (l ≫= bytes32)) (12 + 4 * j) 4 = bytes32 a.
Proof.
  intros Ha. change (slice (l ≫= bytes32) (4 * j) 4 = bytes32 a). revert j Ha. induction l as [|b l IH]; intros [|j] Ha; try done.
  - by injection Ha as ->.
  - rewrite bind_cons. replace (4 * S j)%nat with (4 + 4 * j)%nat by lia. exact (IH j Ha).
Qed.

(** [w], with the fields of [ip] that are kept on disk. *)
Definition on_disk (ip w : inode) : inode :=
  set_i_addrs (i_addrs ip) (set_i_size (i_size ip) (set_i_nlink (i_nlink ip)
    (set_i_minor (i_minor ip) (set_i_major (i_major ip) (set_i_type (i_type ip) w))))).

Lemma read_put_dinode d o ip w : inode_ok ip -> (o + DINODE_SIZE <= length d)%nat ->
  read_dinode (put_dinode d o ip) o w = on_disk ip w.
Proof.
  intros Hok Ho. rewrite put_dinode_splice by done. pose proof (length_dinode_bytes ip Hok) as Hl.
  assert (forall k n, (k + n <= DINODE_SIZE)%nat -> slice (splice d o (dinode_bytes ip)) (o + k) n = slice (dinode_bytes ip) k n) as Hs
    by (intros k n Hk; apply slice_splice_in; lia).
  assert (forall n, (n <= DINODE_SIZE)%nat -> slice (splice d o (dinode_bytes ip)) o n = slice (dinode_bytes ip) 0 n) as Hs0
    by (intros n Hn; rewrite <- (Nat.add_0_r o) at 2; by apply Hs).
  unfold read_dinode, on_disk, di_type, di_major, di_minor, di_nlink, di_size, get16, get32.
  rewrite Hs0, !Hs by (unfold DINODE_SIZE; lia).
  assert (di_addrs (splice d o (dinode_bytes ip)) o = i_addrs ip) as ->.
  { unfold di_addrs. apply list_eq. intros j. rewrite list_lookup_fmap. destruct (decide (j < S NDIRECT)%nat) as [Hj|Hj].
    - rewrite lookup_seq_lt by done. change (0 + j)%nat with j. cbn [fmap option_fmap option_map]. unfold get32.
      destruct (lookup_lt_is_Some_2 (i_addrs ip) j) as [a Ha]; [rewrite (io_len _ Hok); lia|].
      rewrite <- Nat.add_assoc, Hs by (unfold DINODE_SIZE, NDIRECT in *; lia).
      unfold dinode_bytes. rewrite (slice_addr_bytes ip (i_addrs ip) j a), Ha, le_bytes32; [done| |done].
      pose proof (io_addrs _ Hok) as Hu. rewrite Forall_lookup in Hu. by apply (Hu j).
    - rewrite !lookup_ge_None_2; [done|rewrite (io_len _ Hok); lia|rewrite length_seq; lia]. }
  assert (slice (dinode_bytes ip) 0 2 = bytes16 (i_type ip)) as -> by done.
  assert (slice (dinode_bytes ip) 2 2 = bytes16 (i_major ip)) as -> by done.
  assert (slice (dinode_bytes ip) 4 2 = bytes16 (i_minor ip)) as -> by done.
  assert (slice (dinode_bytes ip) 6 2 = bytes16 (i_nlink ip)) as -> by done.
  assert (slice (dinode_bytes ip) 8 4 = bytes32 (i_size ip)) as -> by done.
  destruct Hok. by rewrite !le16_i16, le_bytes32.
Qed.

(** Another inode of the same block. *)
Lemma read_put_other d o o' ip w :
  inode_ok ip -> (o + DINODE_SIZE <= length d)%nat -> (o' + DINODE_SIZE <= o \/ o + DINODE_SIZE <= o')%nat ->
  read_dinode (put_dinode d o ip) o' w = read_dinode d o' w.
Proof.
  intros Hok Ho Hd. rewrite put_dinode_splice by done. pose proof (length_dinode_bytes ip Hok) as Hl.
  assert (forall k n, (k + n <= DINODE_SIZE)%nat -> slice (splice d o (dinode_bytes ip)) (o' + k) n = slice d (o' + k) n) as Hs.
  { intros k n Hk. destruct Hd; [apply slice_splice_before; lia|apply slice_splice_after; lia]. }
  assert (forall n, (n <= DINODE_SIZE)%nat -> slice (splice d o (dinode_bytes ip)) o' n = slice d o' n) as Hs0
    by (intros n Hn; rewrite <- (Nat.add_0_r o'); by apply Hs).
  unfold read_dinode, di_type, di_major, di_minor, di_nlink, di_size, get16, get32.
  rewrite Hs0, !Hs by (unfold DINODE_SIZE; lia).
  assert (di_addrs (splice d o (dinode_bytes ip)) o' = di_addrs d o') as ->; [|done].
  unfold di_addrs. apply list_fmap_ext. intros j ? [-> Hj]%lookup_seq. unfold get32.
  rewrite <- !Nat.add_assoc, Hs by (unfold DINODE_SIZE, NDIRECT in *; lia). done.
Qed.

(** ** iupdate *)

Section Iupdate.
Context (i : nat) (dev start : Z).

(** The inode blocks are before the end of the disk and outside of the log. *)
Definition inodes_ok (s : kst) : Prop :=
  0 <= sb_ninodes (sb s) /\ forall j, 0 <= j < sb_ninodes (sb s) -> IBLOCK j (sb s) = j / IPB + sb_inodestart (sb s) /\ home_ok start (IBLOCK j (sb s)).

(** The inode [j] on disk, as the transaction sees it, read into [w]. *)
Definition disk_inode (s : kst) (j : Z) (w : inode) : inode :=
  read_dinode (bview s dev (IBLOCK j (sb s))) (dinode_off j) w.

Lemma iupdate_spec bl ip x s :
  tx i dev start [] bl s -> inodes_ok s -> tx_room bl 1 s ->
  icache s !! ip = Some x -> inode_ok x -> i_dev x = dev -> 0 <= i_inum x < sb_ninodes (sb s) ->
  exists s', iupdate ip s = Ok tt s' /\
    tx_put i dev start bl (IBLOCK (i_inum x) (sb s)) (put_dinode (bview s dev (IBLOCK (i_inum x) (sb s))) (dinode_off (i_inum x)) x) s s'.
Proof.
  intros Htx [_ Hin] [Hr Hout] Hx Hok Hd Hj. destruct (Hin _ Hj) as [_ Hh]. unfold iupdate, getinode. rewrite !bind_gets.
  rewrite (list_lookup_total_correct _ _ _ Hx), Hd, bread_getbuf.
  destruct (tx_open i dev start bl s _ Htx (proj1 Hh)) as (b & s1 & E & Hlen & R1 & Ed & _ & Hput). rewrite E.
  destruct (fs_rel_fields _ _ R1) as (Eic & _). rewrite bind_gets, Eic, (list_lookup_total_correct _ _ _ Hx).
  assert (length (put_dinode (bview s dev (IBLOCK (i_inum x) (sb s))) (dinode_off (i_inum x)) x) = BSIZE) as Hl.
  { assert (dinode_off (i_inum x) + DINODE_SIZE <= BSIZE)%nat by (unfold dinode_off, DINODE_SIZE, IPB, BSIZE; zdm).
    rewrite put_dinode_splice, length_splice; [done|rewrite length_dinode_bytes by done; lia|done|lia]. }
  destruct (Hput _ Hl Hh) as (s2 & E2 & P2); [lia|done|]. exists s2. split; [|exact P2]. rewrite <- E2, !bind_modify. unfold upd_buf.
  rewrite (list_alter_ext (fun b => set_b_data (put_dinode (b_data b) (dinode_off (i_inum x)) x) b)
    (set_b_data (put_dinode (bview s dev (IBLOCK (i_inum x) (sb s))) (dinode_off (i_inum x)) x)) (bufs s1) (bufs s1) b); [done| |done].
  intros p Hp. by rewrite <- Ed, (list_lookup_total_correct _ _ _ Hp).
Qed.

Lemma disk_inode_put bl x s s' j w :
  tx i dev start [] bl s -> inodes_ok s -> inode_ok x -> 0 <= i_inum x < sb_ninodes (sb s) -> 0 <= j < sb_ninodes (sb s) ->
  tx_put i dev start bl (IBLOCK (i_inum x) (sb s)) (put_dinode (bview s dev (IBLOCK (i_inum x) (sb s))) (dinode_off (i_inum x)) x) s s' ->
  disk_inode s' j w = if decide (j = i_inum x) then on_disk x w else disk_inode s j w.
Proof.
  intros Htx [_ Hin] Hok Hx Hj [_ _ V R]. destruct (Hin _ Hx) as [Ex Hhx], (Hin _ Hj) as [Ej _].
  destruct (fs_rel_fields _ _ R) as (_ & Esb & _). unfold disk_inode. rewrite Esb, V.
  assert (length (bview s dev (IBLOCK (i_inum x) (sb s))) = BSIZE) as Hlen.
  { by destruct (tx_open i dev start bl s _ Htx (proj1 Hhx)) as (_ & _ & _ & Hlen & _). }
  assert (dinode_off (i_inum x) + DINODE_SIZE <= BSIZE)%nat by (unfold dinode_off, DINODE_SIZE, IPB, BSIZE; zdm).
  destruct (decide (j = i_inum x)) as [->|Hne].
  - rewrite decide_True by done. apply read_put_dinode; [done|lia].
  - destruct (decide (IBLOCK j (sb s) = IBLOCK (i_inum x) (sb s))) as [E|E]; [|done]. rewrite E.
    apply read_put_other; [done|lia|]. rewrite Ej, Ex in E. unfold dinode_off, DINODE_SIZE, IPB in *. zdm.
Qed.

End Iupdate.
