(* ===== verification/FsThm.v ===== *)
(** * What the file system's operations on blocks, inodes and paths promise *)

From S2P Require Import Prelude State Mem Spinlock Sched SchedFacts Ide Bio BioFacts Cache CacheThm Log LogFacts LogCrash LogTx LogThm.
From S2P Require Import Inode FsFacts InodeFacts Kalloc Vm Kbd Console Fs.

Section FsThm.
Context (i : nat) (dev start : Z).

(** C22: [balloc] hands out a free block.  In a transaction with room it returns
    the first block the bitmap marks as free, now marked as used and filled
    with zeros; no other bit of the bitmap and no other block has changed.
    When all blocks are in use it panics. *)
Theorem balloc_allocates bl s :
  tx i dev start [] bl s -> fs_ok dev start s -> tx_room bl 2 s ->
  (exists b s', balloc dev s = Ok b s' /\ 0 <= b < sb_size (sb s) /\ bit_free (bitmap dev s) b = true /\
     (forall c, 0 <= c < b -> bit_free (bitmap dev s) c = false) /\
     (forall c, 0 <= c -> bit_free (bitmap dev s') c = bit_free (bitmap dev s) c && negb (c =? b)) /\
     bview s' dev b = replicate BSIZE 0 /\
     (forall m, m <> b -> m <> sb_bmapstart (sb s) -> bview s' dev m = bview s dev m) /\
     tx i dev start [] (tx_add b (tx_add (sb_bmapstart (sb s)) bl)) s') \/
  ((forall b, 0 <= b < sb_size (sb s) -> bit_free (bitmap dev s) b = false) /\
   exists s', balloc dev s = Halt (Panicked "balloc: out of blocks") s').
Proof.
  intros Htx Hfs Hroom. destruct (balloc_spec i dev start bl s Htx Hfs Hroom) as [(b & s' & E & [H1 H2 H3 H4 H5 H6 H7 H8 _])|H]; [left|by right].
  exists b, s'. split_and!; try done; [lia|lia|]. intros c Hc. rewrite H5. apply bit_set_free; [lia|lia|].
  by apply (bitmap_len i dev start bl s).
Qed.

(** C23: [bfree] undoes [balloc]: freeing the block just allocated leaves the
    bitmap marking the same blocks as free as before, and no other block
    changed; freeing a block that is free panics. *)
Theorem balloc_bfree bl s b s1 :
  tx i dev start [] bl s -> fs_ok dev start s -> tx_room bl 4 s -> sb s = sb_of (bview s dev 1) ->
  1 <> sb_bmapstart (sb s) -> bit_free (bitmap dev s) 1 = false -> balloc dev s = Ok b s1 ->
  exists s2, bfree dev b s1 = Ok tt s2 /\
    (forall c, 0 <= c -> bit_free (bitmap dev s2) c = bit_free (bitmap dev s) c) /\
    (forall m, m <> b -> m <> sb_bmapstart (sb s) -> bview s2 dev m = bview s dev m) /\
    exists s3, bfree dev b s2 = Halt (Panicked "freeing free block") s3.
Proof.
  intros Htx Hfs Hroom Esb H1 Hb1 E. assert (tx_room bl 2 s) as Hroom2 by (unfold tx_room in *; lia).
  destruct (balloc_spec i dev start bl s Htx Hfs Hroom2) as [(b' & s1' & E' & Ha)|(_ & s' & E')]; [|congruence].
  rewrite E in E'. injection E' as <- <-. pose proof (al_range _ _ _ _ _ _ _ Ha) as Hb. pose proof (al_free _ _ _ _ _ _ _ Ha) as Hfree.
  pose proof (al_tx _ _ _ _ _ _ _ Ha) as Htx1. destruct (fs_rel_fields _ _ (al_rel _ _ _ _ _ _ _ Ha)) as (_ & Esb1 & _).
  pose proof (bitmap_len i dev start bl s Htx Hfs) as Hlen.
  assert (forall c, 0 <= c -> bit_free (bitmap dev s1) c = bit_free (bitmap dev s) c && negb (c =? b)) as Hbits.
  { intros c Hc. rewrite (al_bitmap _ _ _ _ _ _ _ Ha). apply bit_set_free; [lia|lia|by apply Hlen]. }
  assert (fs_ok dev start s1) as Hfs1.
  { apply (fs_ok_less dev start s s1 Hfs Esb1). intros c Hc. rewrite Hbits by lia. by intros [? _]%andb_true_iff. }
  assert (1 <> b) as H1b by congruence.
  assert (sb s1 = sb_of (bview s1 dev 1)) as Esb1' by (rewrite Esb1, (al_other _ _ _ _ _ _ _ Ha); done).
  pose proof (bfree_spec i dev start _ s1 b Htx1 Hfs1 Esb1') as H. rewrite Esb1, Hbits, Z.eqb_refl, andb_false_r in H by lia.
  destruct H as (s2 & E2 & Hf); [apply (al_room _ _ _ _ _ _ _ Ha 1); unfold tx_room in *; lia|lia|].
  destruct (fs_rel_fields _ _ (fr_rel _ _ _ _ _ _ _ Hf)) as (_ & Esb2 & _).
  assert (forall c, 0 <= c -> bit_free (bitmap dev s2) c = bit_free (bitmap dev s) c) as Hbits2.
  { intros c Hc. rewrite (fr_bitmap _ _ _ _ _ _ _ Hf), bit_clear_free, Hbits; [|lia|lia|lia|].
    - destruct (Z.eqb_spec c b) as [->|]; [by rewrite Hfree|]. by rewrite andb_true_r, orb_false_r.
    - apply (bitmap_len i dev start _ s1 Htx1 Hfs1). rewrite Esb1. lia. }
  exists s2. split_and!; [exact E2|exact Hbits2| |].
  - intros m Hm1 Hm2. rewrite (fr_other _ _ _ _ _ _ _ Hf) by (by rewrite Esb1). by apply (al_other _ _ _ _ _ _ _ Ha).
  - assert (fs_ok dev start s2) as Hfs2.
    { apply (fs_ok_less dev start s s2 Hfs); [by rewrite Esb2|]. intros c Hc. by rewrite Hbits2 by lia. }
    pose proof (bfree_spec i dev start _ s2 b (fr_tx _ _ _ _ _ _ _ Hf) Hfs2) as H. rewrite Hbits2, Hfree in H by lia.
    apply H; [|apply (fr_room _ _ _ _ _ _ _ Hf 1), (al_room _ _ _ _ _ _ _ Ha 2); unfold tx_room in *; lia|by rewrite Esb2, Esb1].
    rewrite Esb2, Esb1', (fr_other _ _ _ _ _ _ _ Hf); [done|by rewrite Esb1].
Qed.

(** C12: [iupdate] makes an inode persistent.  In the blocks of the transaction,
    the inode's type, device numbers, link count, size and addresses are those
    of the cached copy afterwards, in the encoding [ilock] reads; all other
    inodes, also those in the same block, and all other blocks are as before. *)
Theorem iupdate_persists bl ip x s :
  tx i dev start [] bl s -> inodes_ok start s -> tx_room bl 1 s ->
  icache s !! ip = Some x -> inode_ok x -> i_dev x = dev -> 0 <= i_inum x < sb_ninodes (sb s) ->
  exists s', iupdate ip s = Ok tt s' /\ tx i dev start [] (tx_add (IBLOCK (i_inum x) (sb s)) bl) s' /\
    (forall j w, 0 <= j < sb_ninodes (sb s) ->
       disk_inode dev s' j w = if decide (j = i_inum x) then on_disk x w else disk_inode dev s j w) /\
    (forall m, m <> IBLOCK (i_inum x) (sb s) -> bview s' dev m = bview s dev m) /\ icache s' = icache s.
Proof.
  intros Htx Hin Hroom Hx Hok Hd Hj. destruct (iupdate_spec i dev start bl ip x s Htx Hin Hroom Hx Hok Hd Hj) as (s' & E & P).
  exists s'. split_and!; [exact E|apply (tp_tx _ _ _ _ _ _ _ _ P)| | |].
  - intros j w Hj'. by apply (disk_inode_put i dev start bl).
  - intros m Hm. by rewrite (tp_view _ _ _ _ _ _ _ _ P), decide_False.
  - apply (fs_rel_fields _ _ (tp_rel _ _ _ _ _ _ _ _ P)).
Qed.

End FsThm.

(** ** Paths *)

(** The elements of a path: what is between slashes. *)
Fixpoint elems_from (cur path : list Z) : list (list Z) :=
  match path with
  | [] => match cur with [] => [] | _ => [cur] end
  | c :: path =>
    if c =? SLASH then match cur with [] => elems_from [] path | _ => cur :: elems_from [] path end
    else elems_from (cur ++ [c]) path
  end.
Definition elements (path : list Z) : list (list Z) := elems_from [] path.

Lemma elements_skip p : elements (skip_slashes p) = elements p.
Proof. induction p as [|c p IH]; [done|]. cbn [skip_slashes]. unfold elements in *. cbn [elems_from]. by destruct (c =? SLASH) eqn:E; [|cbn; rewrite E]. Qed.

Lemma skip_slashes_length p : (length (skip_slashes p) <= length p)%nat.
Proof. induction p as [|c p IH]; [done|]. cbn. destruct (_ =? _); cbn; lia. Qed.

Lemma skip_slashes_head p c q : skip_slashes p = c :: q -> (c =? SLASH) = false.
Proof. induction p as [|d p IH]; [done|]. cbn. destruct (d =? SLASH) eqn:E; [done|]. by intros [= <- _]. Qed.

Lemma span_spec p : forall e r, span_elem p = (e, r) ->
  p = e ++ r /\ forall cur, cur ++ e <> [] -> elems_from cur p = (cur ++ e) :: elements r.
Proof.
  induction p as [|c p IH]; intros e r; cbn [span_elem].
  - intros [= <- <-]. split; [done|]. intros cur. rewrite app_nil_r. by destruct cur.
  - destruct (c =? SLASH) eqn:E.
    + intros [= <- <-]. split; [done|]. intros cur. rewrite app_nil_r. unfold elements. cbn. rewrite E. by destruct cur.
    + destruct (span_elem p) as [e' r'] eqn:Es. intros [= <- <-]. destruct (IH e' r' eq_refl) as [-> H2]. split; [done|].
      intros cur _. cbn. rewrite E, H2; [by rewrite <- app_assoc|]. by destruct cur.
Qed.

(** [skipelem] takes a path apart into its elements.  It fails exactly when no
    element is left; otherwise the buffer gets the first element, with a NUL
    behind it if there is room and cut to DIRSIZ characters if not, and the
    rest of the path, which is shorter, has the other elements. *)
Theorem skipelem_splits path name :
  length name = DIRSIZ ->
  match skipelem path name with
  | None => elements path = []
  | Some (rest, name') =>
    exists e, elements path = e :: elements rest /\ e <> [] /\ (length rest < length path)%nat /\ length name' = DIRSIZ /\
      take (length e) name' = take DIRSIZ e /\ ((length e < DIRSIZ)%nat -> name' !! length e = Some 0)
  end.
Proof.
  intros Hn. unfold skipelem. pose proof (elements_skip path) as Ee. pose proof (skip_slashes_length path) as Hl.
  destruct (skip_slashes path) as [|c p] eqn:Es; [by rewrite <- Ee|].
  destruct (span_elem (c :: p)) as [e r] eqn:Esp. destruct (span_spec _ _ _ Esp) as [Ep Hel].
  assert (e <> []) as Hne.
  { intros ->. cbn in Esp. rewrite (skip_slashes_head _ _ _ Es) in Esp. by destruct (span_elem p). }
  exists e. split_and!.
  - rewrite <- Ee, elements_skip. by apply (Hel []).
  - done.
  - pose proof (skip_slashes_length r). rewrite Ep, length_app in Hl. destruct e; [done|]. cbn in Hl. lia.
  - destruct (Nat.leb_spec DIRSIZ (length e)); rewrite length_splice; [done|rewrite length_take; lia|done|rewrite length_app; cbn [length]; lia].
  - destruct (Nat.leb_spec DIRSIZ (length e)) as [H|H]; unfold splice; rewrite take_0, app_nil_l.
    + rewrite drop_ge by (rewrite length_take; lia). rewrite app_nil_r. apply take_ge. rewrite length_take. lia.
    + by rewrite (take_ge e DIRSIZ), <- app_assoc, take_app_length by lia.
  - intros H. destruct (Nat.leb_spec DIRSIZ (length e)); [lia|]. unfold splice. rewrite take_0, app_nil_l, <- app_assoc.
    by apply list_lookup_middle.
Qed.

Lemma skipelem_splits_witness :
  match skipelem [47; 47; 97; 47; 47; 98; 98] (replicate DIRSIZ 7) with
  | None => False
  | Some (rest, name') => exists e, elements [47; 47; 97; 47; 47; 98; 98] = e :: elements rest /\ e <> []
  end.
Proof.
  pose proof (skipelem_splits [47; 47; 97; 47; 47; 98; 98] (replicate DIRSIZ 7) eq_refl) as H.
  change (skipelem _ _) with (Some ([98; 98], [97; 0; 7; 7; 7; 7; 7; 7; 7; 7; 7; 7; 7; 7])) in H |- *. cbn iota in H |- *.
  destruct H as (e & H1 & H2 & _). exists e. exact (conj H1 H2).
Defined.

(** ** A file system as mkfs makes it *)

#[local] Opaque binit_bufs.

(** 1000 blocks, of which the first 59 are in use, and 200 inodes. *)
Definition sample_sb : superblock := MkSb 1000 941 200 30 2 32 58.
Definition sample_bitmap : list Z := replicate 7 255 ++ [7] ++ replicate 504 0.
Definition sample_disk : gmap (Z * Z) (list Z) :=
  <[(1, 1) := bytes32 1000 ++ bytes32 941 ++ bytes32 200 ++ bytes32 30 ++ bytes32 2 ++ bytes32 32 ++ bytes32 58 ++ replicate 484 0]>
    {[(1, 58) := sample_bitmap]}.

Definition sample_inode : inode := MkInode 1 9 1 true true T_FILE 0 0 1 0 (replicate 13 0).

(** A process in a transaction that has written nothing yet, with inode 9 in
    the cache. *)
Definition sample_fs : kst :=
  set_icache (<[3%nat := sample_inode]> (icache boot_state))
    (set_sb sample_sb (set_lg (MkLog 2 LOGSIZE 1 false 1 0 (replicate (Z.to_nat LOGSIZE) 0)) (fs_state sample_disk))).

Lemma sample_blocks k : length (default (replicate BSIZE 0) (sample_disk !! k)) = BSIZE.
Proof. unfold sample_disk. rewrite lookup_insert, lookup_singleton. repeat destruct (decide _); by vm_compute. Qed.

Lemma sample_fs_tx : tx 0 1 2 [] [] sample_fs.
Proof.
  split; try reflexivity; [split; try done; by right|apply Nat.lt_0_succ|constructor|constructor| |by intros ? ?%elem_of_nil].
  apply fresh_bcache; [|reflexivity|intros k; apply sample_blocks].
  split; [split; try reflexivity|..]; try reflexivity. eexists. split; [reflexivity|]. by split_and!.
Qed.

Lemma sample_view n : bview sample_fs 1 n = default (replicate BSIZE 0) (sample_disk !! (1, n)).
Proof. rewrite (bview_disk 0 [] sample_fs); [reflexivity|apply (tx_cache _ _ _ _ _ _ sample_fs_tx)|by right|apply not_elem_of_nil]. Qed.

Lemma sample_bits : bitmap 1 sample_fs = sample_bitmap.
Proof. unfold bitmap. rewrite sample_view. reflexivity. Qed.

Lemma sample_home n : 32 <= n < 1000 -> home_ok 2 n.
Proof. intros H. split; [change FSSIZE with 1000; lia|]. unfold in_log. change LOGSIZE with 30. lia. Qed.

Lemma sample_fs_ok : fs_ok 1 2 sample_fs.
Proof.
  split; [by split|by apply sample_home|]. intros b Hb. rewrite sample_bits. change (sb_size (sb sample_fs)) with 1000 in Hb.
  destruct (decide (b < 59)) as [H|H]; [|intros _; split; [apply sample_home; lia|change (sb_bmapstart (sb sample_fs)) with 58; lia]].
  assert (forallb (fun k => negb (bit_free sample_bitmap (Z.of_nat k))) (seq 0 59) = true) as Hall by (by vm_compute).
  rewrite forallb_forall in Hall. specialize (Hall (Z.to_nat b)). rewrite Z2Nat.id in Hall by lia.
  intros E. rewrite E in Hall. discriminate Hall. apply in_seq. lia.
Qed.

Lemma balloc_allocates_witness :
  exists b s', balloc 1 sample_fs = Ok b s' /\ bit_free (bitmap 1 sample_fs) b = true /\ bview s' 1 b = replicate BSIZE 0.
Proof.
  destruct (balloc_allocates 0 1 2 [] sample_fs) as [(b & s' & E & _ & Hf & _ & _ & Hz & _)|[H _]].
  - apply sample_fs_tx.
  - apply sample_fs_ok.
  - by split.
  - exists b, s'. exact (conj E (conj Hf Hz)).
  - exfalso. specialize (H 100). rewrite sample_bits in H. assert (0 <= 100 < sb_size (sb sample_fs)) as H0 by (by split).
    apply H in H0. discriminate H0.
Defined.

Lemma balloc_bfree_witness :
  exists b s1 s2, balloc 1 sample_fs = Ok b s1 /\ bfree 1 b s1 = Ok tt s2 /\
    (forall c, 0 <= c -> bit_free (bitmap 1 s2) c = bit_free (bitmap 1 sample_fs) c).
Proof.
  assert (exists b s1, balloc 1 sample_fs = Ok b s1) as (b & s1 & E).
  { destruct (balloc_spec 0 1 2 [] sample_fs sample_fs_tx sample_fs_ok) as [(b & s' & E & _)|[H _]]; [by split|by exists b, s'|].
    exfalso. specialize (H 100). rewrite sample_bits in H. assert (0 <= 100 < sb_size (sb sample_fs)) as H0 by (by split).
    apply H in H0. discriminate H0. }
  destruct (balloc_bfree 0 1 2 [] sample_fs b s1) as (s2 & E2 & Hb & _).
  - apply sample_fs_tx.
  - apply sample_fs_ok.
  - by split.
  - rewrite sample_view. reflexivity.
  - discriminate.
  - rewrite sample_bits. reflexivity.
  - exact E.
  - exists b, s1, s2. exact (conj E (conj E2 Hb)).
Defined.

Lemma iupdate_persists_witness :
  exists s', iupdate 3 sample_fs = Ok tt s' /\ i_type (disk_inode 1 s' 9 inhabitant) = T_FILE /\
    disk_inode 1 s' 8 inhabitant = disk_inode 1 sample_fs 8 inhabitant.
Proof.
  destruct (iupdate_persists 0 1 2 [] 3 sample_inode sample_fs) as (s' & E & _ & Hd & _).
  - apply sample_fs_tx.
  - split; [discriminate|]. intros j Hj. change (sb_ninodes (sb sample_fs)) with 200 in Hj. unfold IBLOCK, IPB.
    change (sb_inodestart (sb sample_fs)) with 32. rewrite u32_small by (unfold is_u32; zdm). split; [done|]. apply sample_home. zdm.
  - by split.
  - reflexivity.
  - split; try (by split); try reflexivity; by repeat constructor.
  - reflexivity.
  - by split.
  - exists s'. split; [exact E|]. rewrite !Hd by (by split). split; reflexivity.
Defined.
