(* ===== verification/Threads.v ===== *)
(** * Threads of a program (threadlib.c, clonetest.c)

    The mutex of threadlib.c, and clonetest.c on top of it: two threads that
    increment a shared counter under the mutex while [main] waits for them.  The
    steps are the accesses to shared memory and the system calls; [clone] and
    [join] are seen from user space: [clone] fails or makes a thread, [join] waits
    for a thread that has exited. *)

From S2P Require Import Prelude State.

(** ** threadlib.c *)

Module Mutex.

Definition mutex_init : Z := 0.

(** One turn of [while (xchg(&m->flag, 1) == 1)]: the flag after it, and whether
    the loop ends. *)
Definition mutex_lock (flag : Z) : Z * bool := (1, negb (flag =? 1)).

Definition mutex_unlock : Z := 0.

End Mutex.

(** ** The threads of clonetest.c *)

Module Clonetest.
Import Mutex.

Definition ITERATIONS : Z := 100000.

(** Where a thread is in [child]. *)
Inductive tpc :=
  | TTest           (* i<100000 *)
  | TLock           (* mutex_lock(&lock) *)
  | TLoad           (* x++, about to read x *)
  | TStore (r : Z)  (* x++, about to write r + 1 *)
  | TUnlock         (* mutex_unlock(&lock) *)
  | TZombie         (* exit() *)
  | TReaped.        (* joined *)

Record thread := MkThread { t_pid : Z; t_pc : tpc; t_i : Z }.

(** Where [main] is. *)
Inductive mpc :=
  | MCreate | MCreate1   (* thread_create *)
  | MJoin | MJoin1       (* thread_join *)
  | MCheck | MCheck1     (* if(j_pid == c_pid) *)
  | MPrint               (* printf(1,"The counter: %d\n",x) *)
  | MDone                (* exit() *)
  | MKilled.             (* kill(ppid); exit() *)

Record prog := MkProg {
  lock : Z;
  x : Z;
  threads : list thread;
  main : mpc;
  c_pid : Z;
  c_pid1 : Z;
  j_pid : Z;
  j_pid1 : Z;
  printed : option Z }.

Definition set_threads (l : list thread) (s : prog) : prog :=
  MkProg (lock s) (x s) l (main s) (c_pid s) (c_pid1 s) (j_pid s) (j_pid1 s) (printed s).
Definition set_shared (fl v : Z) (s : prog) : prog :=
  MkProg fl v (threads s) (main s) (c_pid s) (c_pid1 s) (j_pid s) (j_pid1 s) (printed s).
Definition set_main (m : mpc) (s : prog) : prog :=
  MkProg (lock s) (x s) (threads s) m (c_pid s) (c_pid1 s) (j_pid s) (j_pid1 s) (printed s).
Definition set_c_pid (v : Z) (s : prog) : prog :=
  MkProg (lock s) (x s) (threads s) (main s) v (c_pid1 s) (j_pid s) (j_pid1 s) (printed s).
Definition set_c_pid1 (v : Z) (s : prog) : prog :=
  MkProg (lock s) (x s) (threads s) (main s) (c_pid s) v (j_pid s) (j_pid1 s) (printed s).
Definition set_j_pid (v : Z) (s : prog) : prog :=
  MkProg (lock s) (x s) (threads s) (main s) (c_pid s) (c_pid1 s) v (j_pid1 s) (printed s).
Definition set_j_pid1 (v : Z) (s : prog) : prog :=
  MkProg (lock s) (x s) (threads s) (main s) (c_pid s) (c_pid1 s) (j_pid s) v (printed s).
Definition set_printed (v : option Z) (s : prog) : prog :=
  MkProg (lock s) (x s) (threads s) (main s) (c_pid s) (c_pid1 s) (j_pid s) (j_pid1 s) v.

Definition move (k : nat) (q : tpc) (i : Z) (s : prog) : prog :=
  set_threads (alter (fun t => MkThread (t_pid t) q i) k (threads s)) s.

(** One step of thread [k] of [child]. *)
Definition child_step (k : nat) (s : prog) : option prog :=
  match threads s !! k with
  | None => None
  | Some t =>
    let i := t_i t in
    match t_pc t with
    | TTest => Some (if i <? ITERATIONS then move k TLock i s else move k TZombie i s)
    | TLock =>
      let '(fl, won) := mutex_lock (lock s) in
      Some (move k (if won then TLoad else TLock) i (set_shared fl (x s) s))
    | TLoad => Some (move k (TStore (x s)) i s)
    | TStore r => Some (move k TUnlock i (set_shared (lock s) (i32 (r + 1)) s))
    | TUnlock => Some (move k TTest (i32 (i + 1)) (set_shared mutex_unlock (x s) s))
    | TZombie | TReaped => None
    end
  end.

(** What the kernel does for [thread_create]: no thread, or one with this pid. *)
Definition thread_create (o : option Z) (s : prog) : Z * prog :=
  match o with
  | None => (-1, s)
  | Some pid => (pid, set_threads (threads s ++ [MkThread pid TTest 0]) s)
  end.

Definition is_zombie (t : thread) : bool := match t_pc t with TZombie => true | _ => false end.
Definition is_reaped (t : thread) : bool := match t_pc t with TReaped => true | _ => false end.

(** [thread_join]: [k] is the thread the kernel finds; no thread is left, the
    call fails; otherwise it waits. *)
Definition thread_join (k : nat) (s : prog) : option (Z * prog) :=
  if forallb is_reaped (threads s) then Some (-1, s)
  else
    match threads s !! k with
    | Some t => if is_zombie t then Some (t_pid t, move k TReaped (t_i t) s) else None
    | None => None
    end.

(** What the kernel decides: the result of a [clone] and the thread a [join]
    finds. *)
Record choice := MkChoice { ch_clone : option Z; ch_join : nat }.

(** One step of [main]. *)
Definition main_step (ch : choice) (s : prog) : option prog :=
  match main s with
  | MCreate => let '(p, s) := thread_create (ch_clone ch) s in Some (set_main MCreate1 (set_c_pid p s))
  | MCreate1 => let '(p, s) := thread_create (ch_clone ch) s in Some (set_main MJoin (set_c_pid1 p s))
  | MJoin =>
    match thread_join (ch_join ch) s with
    | Some (p, s) => Some (set_main MJoin1 (set_j_pid p s))
    | None => None
    end
  | MJoin1 =>
    match thread_join (ch_join ch) s with
    | Some (p, s) => Some (set_main MCheck (set_j_pid1 p s))
    | None => None
    end
  | MCheck => Some (set_main (if j_pid s =? c_pid s then MCheck1 else MKilled) s)
  | MCheck1 => Some (set_main (if j_pid1 s =? c_pid1 s then MPrint else MKilled) s)
  | MPrint => Some (set_main MDone (set_printed (Some (x s)) s))
  | MDone | MKilled => None
  end.

(** The kernel gives positive pids. *)
Definition choice_ok (ch : choice) : Prop := forall p, ch_clone ch = Some p -> 0 < p.

Inductive step : prog -> prog -> Prop :=
  | step_child k s s' : child_step k s = Some s' -> step s s'
  | step_main ch s s' : choice_ok ch -> main_step ch s = Some s' -> step s s'.

(** The global variables at the start are zero. *)
Definition start : prog := MkProg 0 0 [] MCreate 0 0 0 0 None.

Inductive reachable : prog -> Prop :=
  | reach_start : reachable start
  | reach_step s s' : reachable s -> step s s' -> reachable s'.

Inductive steps : prog -> prog -> Prop :=
  | steps_refl s : steps s s
  | steps_cons s s' s'' : step s s' -> steps s' s'' -> steps s s''.

End Clonetest.

(** ** Sums over the threads *)

Module ThreadFacts.
Import Mutex Clonetest.

Definition zsum {A} (f : A -> Z) (l : list A) : Z := foldr (fun a n => f a + n) 0 l.

Lemma zsum_alter {A} (f : A -> Z) g l k a : l !! k = Some a -> zsum f (alter g k l) = zsum f l - f a + f (g a).
Proof.
  revert k. induction l as [|b l IH]; intros [|k] H; try done.
  - injection H as ->. simpl. lia.
  - specialize (IH _ H). change (alter g (S k) (b :: l)) with (b :: alter g k l). simpl. lia.
Qed.

Lemma zsum_app {A} (f : A -> Z) l1 l2 : zsum f (l1 ++ l2) = zsum f l1 + zsum f l2.
Proof. induction l1 as [|a l1 IH]; simpl; lia. Qed.

Lemma zsum_const {A} (f : A -> Z) c l : Forall (fun a => f a = c) l -> zsum f l = c * Z.of_nat (length l).
Proof. induction 1 as [|a l Ha _ IH]; simpl; lia. Qed.

Lemma zsum_bounds {A} (f : A -> Z) a b l : (forall k t, l !! k = Some t -> a <= f t <= b) ->
  a * Z.of_nat (length l) <= zsum f l <= b * Z.of_nat (length l).
Proof.
  induction l as [|t l IH]; intros H; simpl; [lia|]. pose proof (H 0%nat t eq_refl). specialize (IH (fun k => H (S k))). lia.
Qed.

Section Sums.
Context {A} (f : A -> Z) (Hf : forall a, 0 <= f a).

Lemma zsum_nonneg l : 0 <= zsum f l.
Proof. induction l as [|a l IH]; simpl; [lia|]. specialize (Hf a). lia. Qed.

Lemma zsum_one l k a : l !! k = Some a -> f a <= zsum f l.
Proof.
  revert k. induction l as [|b l IH]; intros [|k] H; try done; simpl in *.
  - injection H as ->. pose proof (zsum_nonneg l). lia.
  - specialize (IH _ H). specialize (Hf b). lia.
Qed.

Lemma zsum_two l j k a b : l !! j = Some a -> l !! k = Some b -> j <> k -> f a + f b <= zsum f l.
Proof.
  revert j k. induction l as [|c l IH]; intros [|j] [|k] Ha Hb Hne; try done; simpl in *.
  - injection Ha as ->. pose proof (zsum_one _ _ _ Hb). lia.
  - injection Hb as ->. pose proof (zsum_one _ _ _ Ha). lia.
  - specialize (IH _ _ Ha Hb). specialize (Hf c). lia.
Qed.

Lemma zsum_pos l : 0 < zsum f l -> exists k a, l !! k = Some a /\ 0 < f a.
Proof.
  induction l as [|a l IH]; simpl; [lia|]. intros H. destruct (Z.ltb_spec 0 (f a)) as [Ha|Ha].
  - by exists 0%nat, a.
  - specialize (Hf a). destruct IH as (k & b & Hk & Hb); [lia|]. by exists (S k), b.
Qed.

End Sums.

(** ** The invariant *)

(** The thread is between [mutex_lock] and the end of [mutex_unlock]. *)
Definition crit (t : thread) : Z := match t_pc t with TLoad | TStore _ | TUnlock => 1 | _ => 0 end.

(** The increments the thread has done. *)
Definition added (t : thread) : Z := t_i t + match t_pc t with TUnlock => 1 | _ => 0 end.

Definition reaped (t : thread) : Z := if is_reaped t then 1 else 0.

(** A thread when the counter is [v]. *)
Definition thread_ok (v : Z) (t : thread) : Prop :=
  0 <= t_i t <= ITERATIONS /\
  match t_pc t with
  | TTest => True
  | TStore r => t_i t < ITERATIONS /\ r = v
  | TZombie | TReaped => t_i t = ITERATIONS
  | _ => t_i t < ITERATIONS
  end.

(** The threads [main] has made. *)
Definition threads_made (s : prog) : Z := (if 0 <? c_pid s then 1 else 0) + (if 0 <? c_pid1 s then 1 else 0).

(** How many threads are reaped, by the progress of [main]. *)
Definition main_ok (s : prog) : Prop :=
  let n := Z.of_nat (length (threads s)) in
  n = threads_made s /\
  printed s = match main s with MDone => Some (ITERATIONS * n) | _ => None end /\
  match main s with
  | MCreate => c_pid s = 0 /\ c_pid1 s = 0 /\ zsum reaped (threads s) = 0
  | MCreate1 => c_pid1 s = 0 /\ zsum reaped (threads s) = 0
  | MJoin => zsum reaped (threads s) = 0
  | MJoin1 => zsum reaped (threads s) = Z.min 1 n
  | _ => zsum reaped (threads s) = n
  end.

Record inv (s : prog) : Prop := {
  inv_lock : lock s = zsum crit (threads s);
  inv_one : lock s <= 1;
  inv_x : x s = zsum added (threads s);
  inv_threads : forall k t, threads s !! k = Some t -> thread_ok (x s) t;
  inv_main : main_ok s }.

Lemma crit_nonneg t : 0 <= crit t.
Proof. unfold crit. by destruct (t_pc t). Qed.

Lemma reaped_nonneg t : 0 <= reaped t.
Proof. unfold reaped. by destruct (is_reaped t). Qed.

Lemma thread_ok_other v w t : crit t = 0 -> thread_ok v t -> thread_ok w t.
Proof. unfold crit, thread_ok. by destruct (t_pc t). Qed.

Lemma shared_same s : set_shared (lock s) (x s) s = s.
Proof. by destruct s. Qed.

Ltac fields :=
  unfold move; cbn [lock x threads main c_pid c_pid1 j_pid j_pid1 printed set_threads set_shared set_main set_c_pid set_c_pid1 set_j_pid set_j_pid1 set_printed].

(** Thread [k] moves to [q] and [i] and leaves [fl] and [v] in shared memory. *)
Lemma inv_move s k t q i fl v :
  inv s -> threads s !! k = Some t ->
  let u := MkThread (t_pid t) q i in
  fl = lock s - crit t + crit u -> fl <= 1 -> v = x s - added t + added u -> thread_ok v u -> reaped u = reaped t ->
  v = x s \/ crit t = 1 -> inv (move k q i (set_shared fl v s)).
Proof.
  intros [Hl H1 Hx Ht Hm] Hk u Hfl Hfl1 Hv Hu Hr Hvx. split; fields.
  - rewrite (zsum_alter _ _ _ _ _ Hk), <- Hl. done.
  - done.
  - rewrite (zsum_alter _ _ _ _ _ Hk), <- Hx. done.
  - intros j w Hj. destruct (decide (j = k)) as [->|Hne].
    + rewrite list_lookup_alter_eq, Hk in Hj. by injection Hj as <-.
    + rewrite list_lookup_alter_ne in Hj by done. specialize (Ht _ _ Hj). destruct Hvx as [->|Hc]; [done|].
      pose proof (zsum_two crit crit_nonneg _ _ _ _ _ Hk Hj ltac:(done)). pose proof (crit_nonneg w).
      eapply thread_ok_other; [|exact Ht]. lia.
  - unfold main_ok, threads_made in *. fields. rewrite length_alter. rewrite (zsum_alter _ _ _ _ _ Hk).
    change (MkThread (t_pid t) q i) with u. rewrite Hr. by replace (zsum reaped (threads s) - reaped t + reaped t) with (zsum reaped (threads s)) by lia.
Qed.

(** The same without a write to shared memory. *)
Lemma inv_move_local s k t q i :
  inv s -> threads s !! k = Some t ->
  let u := MkThread (t_pid t) q i in
  crit u = crit t -> added u = added t -> thread_ok (x s) u -> reaped u = reaped t -> inv (move k q i s).
Proof.
  intros Hi Hk u Hc Hd Hu Hr. rewrite <- (shared_same s). pose proof (inv_one _ Hi).
  eapply inv_move; try done; fold u; [lia|lia|by left].
Qed.

Lemma thread_ok_added v t : thread_ok v t -> 0 <= added t <= ITERATIONS.
Proof. unfold thread_ok, added. destruct (t_pc t); lia. Qed.

Lemma created_bounds s : 0 <= threads_made s <= 2.
Proof. unfold threads_made. destruct (_ <? _), (_ <? _); lia. Qed.

(** The counter is far from overflow. *)
Lemma inv_small s : inv s -> 0 <= x s <= 2 * ITERATIONS.
Proof.
  intros Hi. rewrite (inv_x _ Hi). pose proof (created_bounds s). destruct (inv_main _ Hi) as [Hn _].
  pose proof (zsum_bounds added 0 ITERATIONS (threads s)) as H1. unfold ITERATIONS in *.
  destruct H1; [|nia]. intros k t Hk. eapply thread_ok_added, inv_threads; eauto.
Qed.

Ltac thread_lia := unfold mutex_unlock, thread_ok, crit, added, reaped in *; cbn in *; lia.

Lemma child_inv k s s' : inv s -> child_step k s = Some s' -> inv s'.
Proof.
  intros Hi H. unfold child_step in H. destruct (threads s !! k) as [t|] eqn:Hk; [|done].
  pose proof (inv_threads _ Hi _ _ Hk) as [Hti Htp]. pose proof (zsum_one crit crit_nonneg _ _ _ Hk) as Hc.
  rewrite <- (inv_lock _ Hi) in Hc. pose proof (inv_one _ Hi).
  assert (0 <= lock s) as Hl0 by (rewrite (inv_lock _ Hi); apply zsum_nonneg, crit_nonneg).
  destruct t as [pid q i]. unfold thread_ok in Htp. cbn [t_i t_pc t_pid] in *.
  destruct q; try done.
  - injection H as <-. destruct (Z.ltb_spec i ITERATIONS); eapply inv_move_local; try done; thread_lia.
  - injection H as <-. unfold mutex_lock. destruct (Z.eqb_spec (lock s) 1) as [E|E]; cbn [negb].
    + eapply inv_move; try done; thread_lia.
    + eapply inv_move; try done; thread_lia.
  - injection H as <-. eapply inv_move_local; try done; thread_lia.
  - injection H as <-. destruct Htp as [Hlt ->]. pose proof (inv_small _ Hi). rewrite i32_small by (unfold ITERATIONS in *; lia).
    eapply inv_move; try done; thread_lia.
  - injection H as <-. rewrite i32_small by (unfold ITERATIONS in *; lia). eapply inv_move; try done; thread_lia.
Qed.

(** [main] goes on without touching shared memory or the threads. *)
Lemma inv_main_step s m cp cp1 jp jp1 pr :
  inv s ->
  let s' := MkProg (lock s) (x s) (threads s) m cp cp1 jp jp1 pr in
  main_ok s' -> inv s'.
Proof. by intros [Hl H1 Hx Ht Hm] s' Hm'. Qed.

(** A new thread. *)
Lemma inv_new s pid m cp cp1 : inv s ->
  let s' := MkProg (lock s) (x s) (threads s ++ [MkThread pid TTest 0]) m cp cp1 (j_pid s) (j_pid1 s) (printed s) in
  main_ok s' -> inv s'.
Proof.
  intros [Hl H1 Hx Ht Hm] s' Hm'. subst s'. split; fields; [| | | |done].
  - rewrite zsum_app, Hl. cbn [zsum foldr]. thread_lia.
  - done.
  - rewrite zsum_app, Hx. cbn [zsum foldr]. thread_lia.
  - intros k t Hk. apply lookup_app_Some in Hk as [Hk|[_ Hk]]; [by eapply Ht|].
    apply list_lookup_singleton_Some in Hk as [_ <-]. unfold thread_ok, ITERATIONS. cbn. lia.
Qed.

Lemma reaped_all l : zsum reaped l <= Z.of_nat (length l) /\
  (zsum reaped l = Z.of_nat (length l) <-> forallb is_reaped l = true).
Proof.
  induction l as [|t l [IH1 IH2]]; simpl; [done|]. unfold reaped at 1 3. rewrite andb_true_iff, <- IH2.
  destruct (is_reaped t); intuition (try lia; try discriminate).
Qed.

(** A successful [thread_join] reaps one thread, or there is none left. *)
Lemma join_inv k s p s' : inv s -> thread_join k s = Some (p, s') ->
  (s' = s /\ zsum reaped (threads s) = Z.of_nat (length (threads s))) \/
  (exists t, threads s !! k = Some t /\ t_pc t = TZombie /\ s' = move k TReaped (t_i t) s /\
     zsum reaped (threads s) < Z.of_nat (length (threads s)) /\ zsum reaped (threads s') = zsum reaped (threads s) + 1).
Proof.
  intros Hi H. unfold thread_join in H. destruct (reaped_all (threads s)) as [Hle Hall].
  destruct (forallb is_reaped (threads s)) eqn:E; [left; split; [congruence|by apply Hall]|].
  destruct (threads s !! k) as [t|] eqn:Hk; [|done]. destruct (is_zombie t) eqn:Ez; [|done]. injection H as <- <-.
  right. exists t. assert (t_pc t = TZombie) as Hz by (unfold is_zombie in Ez; by destruct (t_pc t)).
  split_and!; [done|done|done| |].
  - destruct (Z.eq_dec (zsum reaped (threads s)) (Z.of_nat (length (threads s)))) as [H|H]; [|lia]. apply Hall in H. congruence.
  - fields. rewrite (zsum_alter _ _ _ _ _ Hk). unfold reaped at 2 3, is_reaped. rewrite Hz. cbn. lia.
Qed.

(** Reaping a zombie, together with the step of [main] that does it. *)
Lemma inv_reap s k t m jp jp1 : inv s -> threads s !! k = Some t -> t_pc t = TZombie ->
  let s1 := move k TReaped (t_i t) s in
  let s' := MkProg (lock s1) (x s1) (threads s1) m (c_pid s1) (c_pid1 s1) jp jp1 (printed s1) in
  main_ok s' -> inv s'.
Proof.
  intros [Hl H1 Hx Ht Hm] Hk Hz s1 s' Hm'. assert (thread_ok (x s) t) as Htk by eauto. subst s1 s'.
  destruct t as [pid q i]. cbn [t_pc t_i] in *. subst q. split; fields; try done.
  - rewrite (zsum_alter _ _ _ _ _ Hk), <- Hl. thread_lia.
  - rewrite (zsum_alter _ _ _ _ _ Hk), <- Hx. thread_lia.
  - intros j w Hj. destruct (decide (j = k)) as [->|Hne].
    + rewrite list_lookup_alter_eq, Hk in Hj. injection Hj as <-. done.
    + rewrite list_lookup_alter_ne in Hj by done. eauto.
Qed.

Lemma main_ok_new s pid : zsum reaped (threads s ++ [MkThread pid TTest 0]) = zsum reaped (threads s) /\
  Z.of_nat (length (threads s ++ [MkThread pid TTest 0])) = Z.of_nat (length (threads s)) + 1.
Proof. rewrite zsum_app, length_app. cbn [zsum foldr length]. thread_lia. Qed.

Lemma main_inv ch s s' : inv s -> choice_ok ch -> main_step ch s = Some s' -> inv s'.
Proof.
  intros Hi Hch H. unfold main_step in H. pose proof (inv_main _ Hi) as (Hn & Hp & Hr). unfold threads_made in Hn.
  destruct (main s) eqn:Em; try done.
  - destruct Hr as (Hc & Hc1 & Hr). unfold thread_create in H. rewrite Hc, Hc1 in Hn. destruct (ch_clone ch) as [p|] eqn:Ech; injection H as <-.
    + specialize (Hch _ Ech). apply (inv_new s p); [done|]. destruct (main_ok_new s p) as [E1 E2].
      unfold main_ok, threads_made. fields. rewrite E1, E2, Hc1. bool_cases; split_and!; try done; lia.
    + apply (inv_main_step s); [done|]. unfold main_ok, threads_made. fields. rewrite Hc1. bool_cases; split_and!; try done; lia.
  - destruct Hr as (Hc1 & Hr). unfold thread_create in H. rewrite Hc1 in Hn. destruct (ch_clone ch) as [p|] eqn:Ech; injection H as <-.
    + specialize (Hch _ Ech). apply (inv_new s p); [done|]. destruct (main_ok_new s p) as [E1 E2].
      unfold main_ok, threads_made. fields. rewrite E1, E2. bool_cases_in Hn; bool_cases; split_and!; try done; lia.
    + apply (inv_main_step s); [done|]. unfold main_ok, threads_made. fields. bool_cases_in Hn; bool_cases; split_and!; try done; lia.
  - destruct (thread_join _ s) as [[p s1]|] eqn:Ej; [|done]. injection H as <-.
    destruct (join_inv _ _ _ _ Hi Ej) as [[-> Hall]|(t & Hk & Hz & -> & Hlt & Hre)].
    + apply (inv_main_step s); [done|]. unfold main_ok, threads_made. fields. split_and!; try done; lia.
    + eapply (inv_reap s); [done..|]. revert Hre. unfold main_ok, threads_made. fields. rewrite length_alter. intros Hre. split_and!; try done; lia.
  - destruct (thread_join _ s) as [[p s1]|] eqn:Ej; [|done]. injection H as <-.
    destruct (join_inv _ _ _ _ Hi Ej) as [[-> Hall]|(t & Hk & Hz & -> & Hlt & Hre)].
    + apply (inv_main_step s); [done|]. unfold main_ok, threads_made. fields. split_and!; try done; lia.
    + eapply (inv_reap s); [done..|]. revert Hre. unfold main_ok, threads_made. fields. rewrite length_alter. intros Hre.
      pose proof (created_bounds s). unfold threads_made in *. split_and!; try done; lia.
  - injection H as <-. apply (inv_main_step s); [done|]. unfold main_ok, threads_made. fields. by destruct (_ =? _).
  - injection H as <-. apply (inv_main_step s); [done|]. unfold main_ok, threads_made. fields. by destruct (_ =? _).
  - injection H as <-. apply (inv_main_step s); [done|]. unfold main_ok, threads_made. fields. split_and!; try done.
    rewrite (inv_x _ Hi). f_equal. apply zsum_const, Forall_lookup. intros k t Hk.
    pose proof (inv_threads _ Hi _ _ Hk) as [_ Ht]. destruct (reaped_all (threads s)) as [_ Hall].
    apply Hall in Hr. rewrite forallb_forall in Hr. specialize (Hr t). unfold is_reaped in Hr. unfold added.
    destruct (t_pc t); try (rewrite Ht; lia); exfalso; discriminate Hr; by apply list_elem_of_In, (list_elem_of_lookup_2 _ k).
Qed.

Lemma clonetest_inv s : reachable s -> inv s.
Proof.
  induction 1 as [|s s' _ IH Hs].
  - by split.
  - destruct Hs as [k s s' H|ch s s' Hch H]; [by eapply child_inv|by eapply main_inv].
Qed.

(** ** Progress *)

(** Steps a thread has left when it does not have to wait. *)
Definition thread_rank (t : thread) : Z :=
  let n := 6 * (ITERATIONS - t_i t) in
  match t_pc t with
  | TTest => n + 2 | TLock => n + 1 | TLoad => n | TStore _ => n - 1 | TUnlock => n - 2 | TZombie => 1 | TReaped => 0
  end.

Definition main_rank (m : mpc) : Z :=
  match m with
  | MCreate => 7 | MCreate1 => 6 | MJoin => 5 | MJoin1 => 4 | MCheck => 3 | MCheck1 => 2 | MPrint => 1 | MDone | MKilled => 0
  end.

Definition rank (s : prog) : Z := main_rank (main s) + zsum thread_rank (threads s).

Definition finished (s : prog) : Prop := main s = MDone \/ main s = MKilled.

Lemma inv_rank s : inv s -> 0 <= rank s.
Proof.
  intros Hi. unfold rank. destruct (zsum_bounds thread_rank 0 (6 * ITERATIONS + 2) (threads s)) as [H _].
  - intros k t Hk. pose proof (inv_threads _ Hi _ _ Hk) as [H1 H2]. unfold thread_rank. destruct (t_pc t); lia.
  - destruct (main s); cbn; lia.
Qed.

(** A thread that is not waiting for the mutex gets on. *)
Lemma child_progress s k t : inv s -> threads s !! k = Some t -> lock s = 0 \/ crit t = 1 ->
  is_zombie t = false -> is_reaped t = false -> exists s', step s s' /\ rank s' < rank s.
Proof.
  intros Hi Hk Hfree Hz Hr. assert (forall s', child_step k s = Some s' -> rank s' < rank s) as Hdec.
  { intros s' H. unfold child_step in H. rewrite Hk in H. pose proof (inv_threads _ Hi _ _ Hk) as [Hti Htp].
    destruct t as [pid q i]. cbn [t_pc t_i] in *. unfold rank.
    assert (forall fl v q' i', thread_rank (MkThread pid q' i') < thread_rank (MkThread pid q i) ->
      rank (move k q' i' (set_shared fl v s)) < rank s) as Hgo.
    { intros fl v q' i' Hlt. unfold rank. fields. rewrite (zsum_alter _ _ _ _ _ Hk). cbn [t_pid]. lia. }
    unfold rank in Hgo. destruct q; try done; injection H as <-.
    - rewrite <- (shared_same s) at 1. destruct (Z.ltb_spec i ITERATIONS); apply Hgo; unfold thread_rank; cbn; lia.
    - destruct Hfree as [E|E]; [|done]. unfold mutex_lock. rewrite E. apply Hgo. unfold thread_rank. cbn. lia.
    - rewrite <- (shared_same s) at 2. apply Hgo. unfold thread_rank. cbn. lia.
    - apply Hgo. unfold thread_rank. cbn. lia.
    - rewrite i32_small by (unfold ITERATIONS in *; lia). apply Hgo. unfold thread_rank. cbn. lia. }
  destruct (child_step k s) as [s'|] eqn:E.
  - exists s'. split; [by eapply step_child|by apply Hdec].
  - unfold child_step in E. rewrite Hk in E. unfold is_zombie, is_reaped in *. by destruct (t_pc t).
Qed.

(** As long as a thread is not reaped, a thread gets on or has exited. *)
Lemma threads_progress s : inv s -> forallb is_reaped (threads s) = false ->
  (exists k t, threads s !! k = Some t /\ t_pc t = TZombie) \/ (exists s', step s s' /\ rank s' < rank s).
Proof.
  intros Hi Hall. destruct (Z.eq_dec (lock s) 0) as [H0|H0].
  - assert (exists k t, threads s !! k = Some t /\ is_reaped t = false) as (k & t & Hk & Hr).
    { clear -Hall. induction (threads s) as [|t l IH]; [done|]. simpl in Hall. destruct (is_reaped t) eqn:E; [|by exists 0%nat, t].
      destruct (IH Hall) as (k & u & Hk & Hu). by exists (S k), u. }
    destruct (is_zombie t) eqn:Hz; [|right; eapply child_progress; eauto].
    left. exists k, t. unfold is_zombie in Hz. by destruct (t_pc t).
  - right. pose proof (zsum_nonneg crit crit_nonneg (threads s)). rewrite (inv_lock _ Hi) in H0.
    destruct (zsum_pos crit crit_nonneg (threads s)) as (k & t & Hk & Hc); [lia|].
    assert (crit t = 1) as Hc1 by (unfold crit in *; destruct (t_pc t); lia).
    eapply child_progress; eauto; unfold crit, is_zombie, is_reaped in *; by destruct (t_pc t).
Qed.

(** [main] gets on when it is not waiting for a thread. *)
Lemma main_progress s ch s' : main_step ch s = Some s' -> ch_clone ch = None -> rank s' < rank s.
Proof.
  intros H Hc. unfold main_step in H. rewrite Hc in H. unfold rank.
  assert (forall k p s1, thread_join k s = Some (p, s1) -> zsum thread_rank (threads s1) <= zsum thread_rank (threads s)) as Hj.
  { intros k p s1 Hj. unfold thread_join in Hj. destruct (forallb _ _); [by simplify_eq|].
    destruct (threads s !! k) as [t|] eqn:Hk; [|done]. destruct (is_zombie t) eqn:Hz; [|done]. injection Hj as <- <-. fields.
    rewrite (zsum_alter _ _ _ _ _ Hk). assert (thread_rank t = 1) as -> by (unfold is_zombie, thread_rank in *; by destruct (t_pc t)).
    change (thread_rank (MkThread (t_pid t) TReaped (t_i t))) with 0. lia. }
  destruct (main s) eqn:Em; try done.
  1,2: injection H as <-; fields; cbn; lia.
  1,2: destruct (thread_join _ s) as [[p s1]|] eqn:Ej; [|done]; injection H as <-; apply Hj in Ej; fields; cbn [main_rank]; lia.
  1,2: injection H as <-; fields; destruct (_ =? _); cbn; lia.
  injection H as <-. fields. cbn. lia.
Qed.

Lemma progress s : inv s -> ~ finished s -> exists s', step s s' /\ rank s' < rank s.
Proof.
  intros Hi Hf. assert (forall k s', main_step (MkChoice None k) s = Some s' -> exists s', step s s' /\ rank s' < rank s) as Hgo.
  { intros k s' H. exists s'. split; [by apply (step_main (MkChoice None k))|by eapply main_progress]. }
  assert (main s = MJoin \/ main s = MJoin1 -> exists s', step s s' /\ rank s' < rank s) as Hjoin.
  { intros Hm. destruct (forallb is_reaped (threads s)) eqn:E.
    - destruct (main_step (MkChoice None 0) s) as [s'|] eqn:E'; [by eapply Hgo|].
      unfold main_step, thread_join in E'. by destruct Hm as [Hm|Hm]; rewrite Hm, E in E'.
    - destruct (threads_progress _ Hi E) as [(k & t & Hk & Hz)|]; [|done].
      destruct (main_step (MkChoice None k) s) as [s'|] eqn:E'; [by eapply Hgo|].
      unfold main_step, thread_join, is_zombie in E'. cbn [ch_join] in E'. by destruct Hm as [Hm|Hm]; rewrite Hm, E, Hk, Hz in E'. }
  destruct (main_step (MkChoice None 0) s) as [s'|] eqn:E; [by eapply Hgo|].
  destruct (main s) eqn:Em; try (apply Hjoin; by auto); try (unfold main_step in E; by rewrite Em in E).
  - destruct Hf. by left.
  - destruct Hf. by right.
Qed.

(** C16: the mutex makes clonetest count right.  Whatever the order in which the
    threads and [main] run, and whether or not the calls of [clone] succeed, at
    most one thread is between [mutex_lock] and [mutex_unlock], and the counter
    [main] prints is 100000 for every thread that was created. *)
Theorem clonetest_counter s :
  reachable s ->
  (forall j k t u, threads s !! j = Some t -> threads s !! k = Some u -> crit t = 1 -> crit u = 1 -> j = k) /\
  (forall v, printed s = Some v -> v = 100000 * ((if 0 <? c_pid s then 1 else 0) + (if 0 <? c_pid1 s then 1 else 0))).
Proof.
  intros Hi%clonetest_inv. split.
  - intros j k t u Hj Hk Ht Hu. destruct (decide (j = k)) as [|Hne]; [done|].
    pose proof (zsum_two crit crit_nonneg _ _ _ _ _ Hj Hk Hne). pose proof (inv_lock _ Hi). pose proof (inv_one _ Hi). lia.
  - intros v Hv. destruct (inv_main _ Hi) as (Hn & Hp & _). rewrite Hv in Hp. destruct (main s); try done.
    injection Hp as ->. rewrite Hn. reflexivity.
Qed.

(** C17: clonetest never gets stuck.  From every state that a run can reach, some
    order of further steps leads to the end of [main]: no thread keeps the mutex
    for ever and no [join] waits for a thread that cannot exit. *)
Theorem clonetest_finishes s : reachable s -> exists s', steps s s' /\ finished s'.
Proof.
  intros Hr. remember (Z.to_nat (rank s)) as n eqn:En. revert s Hr En.
  induction (lt_wf n) as [n _ IH]. intros s Hr ->. pose proof (clonetest_inv _ Hr) as Hi.
  assert (finished s \/ ~ finished s) as [Hf|Hf] by (unfold finished; destruct (main s); auto; right; by intros []).
  - exists s. split; [apply steps_refl|done].
  - destruct (progress s Hi Hf) as (s1 & Hs & Hlt). pose proof (reach_step _ _ Hr Hs) as Hr1.
    pose proof (inv_rank _ (clonetest_inv _ Hr1)).
    destruct (IH (Z.to_nat (rank s1)) ltac:(lia) s1 Hr1 eq_refl) as (s2 & Hs2 & Hf2).
    exists s2. split; [by eapply steps_cons|done].
Qed.

(** ** A run with two threads *)

Lemma steps_reachable s s' : steps s s' -> reachable s -> reachable s'.
Proof. induction 1 as [|s s1 s2 Hs _ IH]; [done|]. intros Hr. apply IH. by eapply reach_step. Qed.

Lemma steps_trans s s' s'' : steps s s' -> steps s' s'' -> steps s s''.
Proof. induction 1 as [|s s1 s2 Hs _ IH]; [done|]. intros H. eapply steps_cons; [exact Hs|by apply IH]. Qed.

(** Both threads, each at its test, with their counts. *)
Definition two (v : Z) (t u : thread) : prog := MkProg 0 v [t; u] MJoin 1 2 0 0 None.

Lemma round_first v i u : 0 <= v < 1000000 -> 0 <= i < ITERATIONS ->
  steps (two v (MkThread 1 TTest i) u) (two (v + 1) (MkThread 1 TTest (i + 1)) u).
Proof.
  intros Hv Hi. unfold ITERATIONS in *. eapply steps_cons.
  { apply (step_child 0). cbn. unfold ITERATIONS. by rewrite (proj2 (Z.ltb_lt i _)) by apply Hi. }
  do 3 (eapply steps_cons; [by apply (step_child 0)|]). eapply steps_cons; [by apply (step_child 0)|].
  cbn. rewrite !i32_small by lia. apply steps_refl.
Qed.

Lemma round_second v i t : 0 <= v < 1000000 -> 0 <= i < ITERATIONS ->
  steps (two v t (MkThread 2 TTest i)) (two (v + 1) t (MkThread 2 TTest (i + 1))).
Proof.
  intros Hv Hi. unfold ITERATIONS in *. eapply steps_cons.
  { apply (step_child 1). cbn. unfold ITERATIONS. by rewrite (proj2 (Z.ltb_lt i _)) by apply Hi. }
  do 3 (eapply steps_cons; [by apply (step_child 1)|]). eapply steps_cons; [by apply (step_child 1)|].
  cbn. rewrite !i32_small by lia. apply steps_refl.
Qed.

Lemma rounds (n : nat) : Z.of_nat n <= ITERATIONS ->
  steps (two 0 (MkThread 1 TTest 0) (MkThread 2 TTest 0))
        (two (2 * Z.of_nat n) (MkThread 1 TTest (Z.of_nat n)) (MkThread 2 TTest (Z.of_nat n))).
Proof.
  unfold ITERATIONS. induction n as [|n IH]; intros Hn; [apply steps_refl|]. eapply steps_trans; [apply IH; lia|].
  eapply steps_trans; [apply round_first; unfold ITERATIONS; lia|].
  eapply steps_trans; [apply round_second; unfold ITERATIONS; lia|].
  replace (2 * Z.of_nat n + 1 + 1) with (2 * Z.of_nat (S n)) by lia.
  replace (Z.of_nat n + 1) with (Z.of_nat (S n)) by lia. apply steps_refl.
Qed.

(** Both threads run, in turns, and [main] prints the counter. *)
Lemma clonetest_run : exists s, reachable s /\ printed s = Some 200000 /\ c_pid s = 1 /\ c_pid1 s = 2.
Proof.
  eexists. split.
  - eapply steps_reachable; [|apply reach_start].
    eapply steps_cons; [eapply (step_main (MkChoice (Some 1) 0)); [by intros ? [= <-]|reflexivity]|].
    eapply steps_cons; [eapply (step_main (MkChoice (Some 2) 0)); [by intros ? [= <-]|reflexivity]|].
    eapply steps_trans; [apply (rounds (Z.to_nat ITERATIONS)); unfold ITERATIONS; lia|].
    rewrite Z2Nat.id by (unfold ITERATIONS; lia).
    eapply steps_cons; [by apply (step_child 0)|]. eapply steps_cons; [by apply (step_child 1)|].
    eapply steps_cons; [eapply (step_main (MkChoice None 0)); [done|reflexivity]|].
    eapply steps_cons; [eapply (step_main (MkChoice None 1)); [done|reflexivity]|].
    do 3 (eapply steps_cons; [eapply (step_main (MkChoice None 0)); [done|reflexivity]|]).
    apply steps_refl.
  - split_and!; reflexivity.
Qed.

Lemma clonetest_counter_witness : exists s, reachable s /\ printed s = Some 200000 /\
  200000 = 100000 * ((if 0 <? c_pid s then 1 else 0) + (if 0 <? c_pid1 s then 1 else 0)).
Proof.
  destruct clonetest_run as (s & Hr & Hp & _). exists s. split; [exact Hr|]. split; [exact Hp|].
  destruct (clonetest_counter s) as [_ H]; [exact Hr|]. exact (H _ Hp).
Defined.

Lemma clonetest_finishes_witness : exists s', steps start s' /\ finished s'.
Proof. exact (clonetest_finishes start reach_start). Defined.

End ThreadFacts.
