(* ===== verification/UmallocThm.v ===== *)
(** * What malloc and free promise

    The ring of free blocks refines a list of disjoint blocks in the order of
    their addresses. *)

From Stdlib Require Import Sorting.Sorted.
From stdpp Require Import sorting.
From S2P Require Import Prelude State Mem Spinlock Kalloc Umalloc.

(** ** Disjoint blocks *)

(** The address and the size in units of a block.  The header is there also when
    the size is zero, as that of [base]. *)
#[local] Abbreviation block := (Z * Z)%type.

Definition bend (b : block) : Z := b.1 + HEADER * Z.max 1 b.2.
Definition disj (b c : block) : Prop := bend b <= c.1 \/ bend c <= b.1.

Fixpoint apart (l : list block) : Prop :=
  match l with
  | [] => True
  | b :: l => Forall (disj b) l /\ apart l
  end.

#[global] Arguments bend : simpl never.

Lemma disj_sym b c : disj b c -> disj c b.
Proof. unfold disj. lia. Qed.

Lemma apart_permuted l1 l2 : l1 ≡ₚ l2 -> apart l1 -> apart l2.
Proof.
  induction 1 as [|b l1 l2 Hp IH|b c l|]; cbn; [done| | |tauto].
  - intros [Hf Ha]. split; [by rewrite <- Hp|auto].
  - rewrite !Forall_cons. intros ([Hd Hb] & Hc & Ha). split_and!; try done; by apply disj_sym.
Qed.

#[export] Instance apart_perm : Proper (Permutation ==> iff) apart.
Proof. intros l1 l2 Hp. split; by apply apart_permuted. Qed.

Lemma apart_in b c l : apart (b :: l) -> c ∈ l -> disj b c.
Proof. intros [H _] Hc. rewrite Forall_forall in H. auto. Qed.

(** Splitting a block in two. *)
Lemma apart_split a s t l : 1 <= s -> 1 <= t -> apart ((a, s + t) :: l) <-> apart ((a, s) :: (a + HEADER * s, t) :: l).
Proof.
  intros Hs Ht. cbn. rewrite Forall_cons, !Forall_forall. unfold disj, bend. cbn. unfold HEADER.
  split.
  - intros [H Ha]. split_and!; [lia| | |done]; intros c Hc; specialize (H c Hc); lia.
  - intros ((_ & H1) & H2 & Ha). split; [|done]. intros c Hc. specialize (H1 c Hc). specialize (H2 c Hc). lia.
Qed.

(** The address is in one of the blocks. *)
Definition inside (x : Z) (l : list block) : Prop := exists b, b ∈ l /\ b.1 <= x < bend b.

Lemma inside_cons x b l : inside x (b :: l) <-> b.1 <= x < bend b \/ inside x l.
Proof.
  unfold inside. split.
  - intros (c & [->|Hc]%elem_of_cons & Hx); [by left|right; eauto].
  - intros [Hx|(c & Hc & Hx)]; [exists b; split; [left|done]|exists c; split; [by right|done]].
Qed.

Lemma inside_app x l1 l2 : inside x (l1 ++ l2) <-> inside x l1 \/ inside x l2.
Proof. induction l1 as [|b l1 IH]; cbn; [|rewrite !inside_cons, IH; tauto]. split; [auto|]. by intros [(b & Hb%elem_of_nil & _)|]. Qed.

Lemma inside_merge x a s t : 1 <= s -> 1 <= t -> a <= x < bend (a, s + t) -> a <= x < bend (a, s) \/ a + HEADER * s <= x < bend (a + HEADER * s, t).
Proof. unfold bend, HEADER. cbn. lia. Qed.

(** ** The ring *)

(** The block that follows: the first of [l], or [z] at the end. *)
Definition next (l : list block) (z : Z) : Z := match l with [] => z | b :: _ => b.1 end.

(** The blocks [l] are linked in this order, have these sizes, and lead to [z]. *)
Fixpoint seg (m : Z -> Z) (l : list block) (z : Z) : Prop :=
  match l with
  | [] => True
  | b :: l => hptr m b.1 = next l z /\ hsize m b.1 = b.2 /\ seg m l z
  end.

Lemma next_app l1 l2 z : next (l1 ++ l2) z = next l1 (next l2 z).
Proof. by destruct l1. Qed.

Lemma seg_app m l1 l2 z : seg m (l1 ++ l2) z <-> seg m l1 (next l2 z) /\ seg m l2 z.
Proof.
  induction l1 as [|b l1 IH]; cbn; [tauto|]. rewrite IH, next_app. tauto.
Qed.

(** The header at [a] is the same in both memories. *)
Definition same_header (m m' : Z -> Z) (a : Z) : Prop := hptr m' a = hptr m a /\ hsize m' a = hsize m a.

Lemma seg_frame m m' l z : (forall b, b ∈ l -> same_header m m' b.1) -> seg m l z -> seg m' l z.
Proof.
  induction l as [|b l IH]; intros Hf; cbn; [done|]. intros (Hp & Hs & Hl).
  destruct (Hf b) as [-> ->]; [left|]. split_and!; [done|done|]. apply IH; [|done]. intros c Hc. apply Hf. by right.
Qed.

Lemma seg_in m l z b : seg m l z -> b ∈ l -> hsize m b.1 = b.2.
Proof.
  intros H Hb. apply list_elem_of_split in Hb as (l1 & l2 & ->). apply seg_app in H as [_ H]. apply H.
Qed.

(** Following the links. *)
Fixpoint follow (m : Z -> Z) (n : nat) (p : Z) : Z :=
  match n with
  | O => p
  | S n => follow m n (hptr m p)
  end.

Lemma follow_add m n k p : follow m (n + k) p = follow m k (follow m n p).
Proof. revert p. induction n as [|n IH]; intros p; [done|]. apply IH. Qed.

Lemma seg_follow m l1 l2 z : seg m (l1 ++ l2) z -> follow m (length l1) (next (l1 ++ l2) z) = next l2 z.
Proof.
  induction l1 as [|b l1 IH]; cbn; [done|]. intros (-> & _ & H). by apply IH.
Qed.

(** Memory that is the same but in the header at [a]. *)
Definition writes_header (a : Z) (m m' : Z -> Z) : Prop := forall x, x < a \/ a + HEADER <= x -> m' x = m x.

Lemma writes_same a b m m' : writes_header a m m' -> a + HEADER <= b \/ b + HEADER <= a -> same_header m m' b.
Proof.
  intros Hw Hb. unfold same_header, hptr, hsize, ld32, HEADER in *.
  split; f_equal; apply mread_ext; intros x Hx; apply Hw; unfold HEADER; lia.
Qed.

Lemma writes_block a b m m' : writes_header a m m' -> disj (a, 1) b -> same_header m m' b.1.
Proof. intros Hw Hd. eapply writes_same; [done|]. unfold disj, bend, HEADER in *. cbn in *. lia. Qed.

Lemma disj_header a s b : disj (a, s) b -> disj (a, 1) b.
Proof. unfold disj, bend, HEADER. cbn. lia. Qed.

Lemma set_ptr_writes p v h : writes_header p (hm h) (hm (set_ptr p v h)).
Proof. intros x Hx. cbn. unfold st32. apply mwrite_out. unfold HEADER in Hx. cbn. lia. Qed.

Lemma set_size_writes p v h : writes_header p (hm h) (hm (set_size p v h)).
Proof. intros x Hx. cbn. unfold st32. apply mwrite_out. unfold HEADER in Hx. cbn. lia. Qed.

Lemma writes_trans a m1 m2 m3 : writes_header a m1 m2 -> writes_header a m2 m3 -> writes_header a m1 m3.
Proof. intros H1 H2 x Hx. by rewrite H2, H1. Qed.

Lemma hptr_set_ptr p v h : is_u32 v -> hptr (hm (set_ptr p v h)) p = v.
Proof. apply ld32_st32_same. Qed.

Lemma hsize_set_size p v h : is_u32 v -> hsize (hm (set_size p v h)) p = v.
Proof. apply ld32_st32_same. Qed.

Lemma hsize_set_ptr p v h : hsize (hm (set_ptr p v h)) p = hsize (hm h) p.
Proof. apply ld32_st32_other. lia. Qed.

Lemma hptr_set_size p v h : hptr (hm (set_size p v h)) p = hptr (hm h) p.
Proof. apply ld32_st32_other. lia. Qed.

(** ** Well-formed heaps *)

Definition before (b c : block) : Prop := b.1 < c.1.

Section Heap.
Context (base : Z) (grow : Z -> Z -> bool).

(** A block of the heap: not empty, above [base] and inside the memory. *)
Definition heap_block (h : heap) (b : block) : Prop := 1 <= b.2 /\ base < b.1 /\ bend b <= brk h.

(** The free blocks [L], from [base] on in the order of their addresses, and the
    blocks [A] that are in use. *)
Record heap_ok (L A : list block) (h : heap) : Prop := {
  hk_head : exists F, L = (base, 0) :: F;
  hk_seg : seg (hm h) L base;
  hk_sizes : Forall (fun b => hsize (hm h) b.1 = b.2) A;
  hk_apart : apart (L ++ A);
  hk_sorted : StronglySorted before L;
  hk_blocks : forall b, b ∈ L ++ A -> b = (base, 0) \/ heap_block h b;
  hk_freep : exists s, (freep h, s) ∈ L;
  hk_range : 0 < base /\ base + HEADER <= brk h <= KERNBASE }.

Lemma before_end b c : before b c -> disj b c -> bend b <= c.1.
Proof. unfold before, disj, bend, HEADER. destruct b, c. cbn. lia. Qed.

Lemma sorted_room l : forall lo hi, StronglySorted before l -> apart l -> lo <= hi ->
  (forall b, b ∈ l -> lo <= b.1 /\ bend b <= hi) -> lo + HEADER * Z.of_nat (length l) <= hi.
Proof.
  induction l as [|b l IH]; intros lo hi Hs Ha Hlh Hb; cbn [length]; [lia|].
  apply StronglySorted_inv in Hs as [Hs Hf]. destruct Ha as [Hd Ha].
  rewrite Forall_forall in Hf, Hd. destruct (Hb b) as [H1 H2]; [left|].
  assert (lo + HEADER <= bend b) by (unfold bend, HEADER; lia).
  assert (bend b + HEADER * Z.of_nat (length l) <= hi); [|unfold HEADER in *; lia].
  apply IH; [done..|]. intros c Hc. split; [apply before_end; auto|]. apply Hb. by right.
Qed.

Section Ring.
Context (L A : list block) (h : heap) (Hh : heap_ok L A h).

Lemma ring_range b : b ∈ L ++ A -> base <= b.1 /\ b.1 + HEADER <= bend b /\ bend b <= brk h /\ 0 <= b.2 <= brk h.
Proof.
  intros Hb. pose proof (hk_range _ _ _ Hh). unfold bend, HEADER in *.
  destruct (hk_blocks _ _ _ Hh b Hb) as [->|(H1 & H2 & H3)]; unfold bend, HEADER in *; cbn in *; lia.
Qed.

Lemma ring_length : HEADER * Z.of_nat (length L) <= brk h.
Proof.
  pose proof (hk_range _ _ _ Hh) as [H0 [H1 _]]. pose proof (hk_apart _ _ _ Hh) as Ha.
  assert (apart L) as HaL.
  { clear -Ha. induction L as [|b l IH]; [done|]. cbn in *. destruct Ha as [Hf Ha]. apply Forall_app in Hf as [Hf _]. auto. }
  pose proof (sorted_room L 0 (brk h) (hk_sorted _ _ _ Hh) HaL ltac:(unfold HEADER in *; lia)) as H. apply H.
  intros b Hb. destruct (ring_range b) as (? & ? & ? & ?); [apply elem_of_app; auto|]. lia.
Qed.

Lemma ring_first : next L base = base.
Proof. destruct (hk_head _ _ _ Hh) as [F ->]. done. Qed.

(** Every block of the ring can be reached from every other. *)
Lemma ring_reach a s c t : (a, s) ∈ L -> (c, t) ∈ L -> exists n, HEADER * Z.of_nat n <= 2 * brk h /\ follow (hm h) n a = c.
Proof.
  intros (L1 & L2 & E1)%list_elem_of_split (M1 & M2 & E2)%list_elem_of_split.
  pose proof (hk_seg _ _ _ Hh) as Hs. pose proof ring_length as Hlen.
  exists (S (length L2) + length M1)%nat. split.
  - assert (length L = length L1 + S (length L2))%nat by (rewrite E1, length_app; done).
    assert (length L = length M1 + S (length M2))%nat by (rewrite E2, length_app; done). unfold HEADER in *. lia.
  - rewrite follow_add. assert (follow (hm h) (S (length L2)) a = base) as ->.
    { clear E2. rewrite E1 in Hs. apply seg_app in Hs as [_ Hs]. pose proof (seg_follow (hm h) ((a, s) :: L2) [] base) as H.
      rewrite app_nil_r in H. by apply H. }
    pose proof (seg_follow (hm h) M1 ((c, t) :: M2) base) as H. rewrite <- E2, ring_first in H. by apply H.
Qed.

(** What is at a block of the ring. *)
Lemma ring_at L1 p s L2 : L = L1 ++ (p, s) :: L2 -> hptr (hm h) p = next L2 base /\ hsize (hm h) p = s.
Proof. intros E. pose proof (hk_seg _ _ _ Hh) as Hs. rewrite E in Hs. apply seg_app in Hs as [_ Hs]. cbn in Hs. tauto. Qed.

Lemma sorted_split L1 b L2 : L = L1 ++ b :: L2 -> Forall (before b) L2 /\ Forall (fun c => before c b) L1.
Proof.
  intros E. pose proof (hk_sorted _ _ _ Hh) as Hs. rewrite E in Hs. clear -Hs. induction L1 as [|c L1 IH]; cbn in Hs.
  - split; [|done]. by apply StronglySorted_inv in Hs as [_ Hs].
  - apply StronglySorted_inv in Hs as [Hs Hf]. destruct (IH Hs). split; [done|]. constructor; [|done].
    rewrite Forall_forall in Hf. apply Hf. apply elem_of_app. right. left.
Qed.

(** Links stay in the ring. *)
Lemma ring_step p s : (p, s) ∈ L -> exists t, (hptr (hm h) p, t) ∈ L.
Proof.
  intros (L1 & L2 & E)%list_elem_of_split. rewrite (proj1 (ring_at _ _ _ _ E)). destruct L2 as [|[q t] L2]; cbn.
  - exists 0. destruct (hk_head _ _ _ Hh) as [F ->]. left.
  - exists t. rewrite E. apply elem_of_app. right. right. left.
Qed.

(** *** The scan of [free] *)

Context (bp s : Z) (A' : list block) (HA : A ≡ₚ (bp, s) :: A').

(** The block before [bp] in the ring. *)
Definition scan_end (p : Z) : Prop :=
  exists L1 ps L2, L = L1 ++ (p, ps) :: L2 /\ p < bp /\ Forall (fun c : block => bp < c.1) L2.

Lemma used_disj b : b ∈ L -> disj b (bp, s).
Proof.
  intros (L1 & L2 & E)%list_elem_of_split. pose proof (hk_apart _ _ _ Hh) as Ha. rewrite HA, E in Ha.
  rewrite <- app_assoc in Ha. cbn [app] in Ha. rewrite <- Permutation_middle in Ha.
  eapply apart_in; [exact Ha|]. rewrite !elem_of_app, elem_of_cons. auto.
Qed.

Lemma used_block : heap_block h (bp, s).
Proof.
  destruct (hk_blocks _ _ _ Hh (bp, s)) as [E|]; [apply elem_of_app; right; rewrite HA; left| |done].
  pose proof (used_disj (base, 0)) as Hd. rewrite E in Hd. destruct Hd as [Hd|Hd].
  - destruct (hk_head _ _ _ Hh) as [F ->]. left.
  - unfold bend, HEADER in Hd. cbn in Hd. lia.
  - unfold bend, HEADER in Hd. cbn in Hd. lia.
Qed.

(** The test of the loop. *)
Definition scan_test (p : Z) : bool :=
  let q := hptr (hm h) p in ((p <? bp) && (bp <? q)) || ((q <=? p) && ((p <? bp) || (bp <? q))).

Lemma scan_test_stop p ps : (p, ps) ∈ L -> scan_test p = true -> scan_end p.
Proof.
  intros (L1 & L2 & E)%list_elem_of_split H. exists L1, ps, L2. split; [done|]. unfold scan_test in H.
  rewrite (proj1 (ring_at _ _ _ _ E)) in H. destruct (sorted_split _ _ _ E) as [Hs _]. destruct used_block as (_ & Hb & _). cbn in Hb.
  destruct L2 as [|[q qs] L2]; cbn in *.
  - assert (p < bp) by (bool_cases_in H; lia || done). done.
  - apply Forall_cons in Hs as [Hpq Hs]. unfold before in Hpq. cbn in Hpq.
    assert (p < bp /\ bp < q) as [H1 H2] by (bool_cases_in H; lia || done). split; [done|]. constructor; [done|].
    destruct (sorted_split (L1 ++ [(p, ps)]) (q, qs) L2) as [Hq _]; [by rewrite <- app_assoc|].
    eapply Forall_impl; [exact Hq|]. unfold before. cbn. lia.
Qed.

Lemma scan_end_test p : scan_end p -> scan_test p = true.
Proof.
  intros (L1 & ps & L2 & E & Hp & Hl). unfold scan_test. rewrite (proj1 (ring_at _ _ _ _ E)).
  destruct L2 as [|[q qs] L2]; cbn.
  - destruct (sorted_split _ _ _ E) as [_ Hs]. destruct (ring_range (p, ps)) as [Hb _]; [rewrite E, <- app_assoc; apply elem_of_app; right; left|].
    cbn in Hb. bool_cases; lia || done.
  - apply Forall_cons in Hl as [Hq _]. cbn in Hq. bool_cases; lia || done.
Qed.

Lemma scan_end_exists : exists p ps, (p, ps) ∈ L /\ scan_end p.
Proof.
  destruct (hk_head _ _ _ Hh) as [F EF]. destruct used_block as (_ & Hb & _). cbn in Hb.
  assert (forall L1 p ps L2, L = L1 ++ (p, ps) :: L2 -> p < bp -> exists p ps, (p, ps) ∈ L /\ scan_end p) as H.
  { intros L1 p ps L2. revert L1 p ps. induction L2 as [|[q qs] L2 IH]; intros L1 p ps E Hp.
    - exists p, ps. split; [rewrite E; apply elem_of_app; right; left|]. exists L1, ps, []. done.
    - destruct (Z.lt_trichotomy q bp) as [Hq|[Hq|Hq]].
      + apply (IH (L1 ++ [(p, ps)]) q qs); [by rewrite <- app_assoc|done].
      + exfalso. subst q. assert ((bp, qs) ∈ L) as Hin by (rewrite E; apply elem_of_app; right; right; left).
        apply used_disj in Hin. unfold disj, bend, HEADER in Hin. cbn in Hin. lia.
      + exists p, ps. split; [rewrite E; apply elem_of_app; right; left|]. exists L1, ps, ((q, qs) :: L2).
        split_and!; [done|done|]. constructor; [done|].
        destruct (sorted_split (L1 ++ [(p, ps)]) (q, qs) L2) as [Hs _]; [by rewrite <- app_assoc|].
        eapply Forall_impl; [exact Hs|]. unfold before. cbn. lia. }
  apply (H [] base 0 F EF Hb).
Qed.

Lemma free_scan_test fuel p : free_scan (S fuel) (hm h) bp p = if scan_test p then Some p else free_scan fuel (hm h) bp (hptr (hm h) p).
Proof. cbn [free_scan]. unfold scan_test. by destruct ((p <? bp) && _), ((_ <=? p) && _). Qed.

Lemma free_scan_ok : exists p, free_scan (ring_fuel h) (hm h) bp (freep h) = Some p /\ scan_end p.
Proof.
  destruct scan_end_exists as (p0 & ps0 & Hin & He). destruct (hk_freep _ _ _ Hh) as [fs Hf].
  destruct (ring_reach _ _ _ _ Hf Hin) as (n & Hn & Hr).
  assert (n < ring_fuel h)%nat as Hfuel by (unfold ring_fuel, HEADER in *; zdm).
  revert fs Hf Hr Hfuel. generalize (freep h) (ring_fuel h). clear Hn.
  induction n as [|n IH]; intros p fuel fs Hf Hr Hfuel; (destruct fuel as [|fuel]; [lia|]); rewrite free_scan_test.
  - cbn in Hr. subst p. rewrite (scan_end_test _ He). eauto.
  - destruct (scan_test p) eqn:E; [exists p; split; [done|by eapply scan_test_stop]|].
    destruct (ring_step _ _ Hf) as [t Ht]. eapply IH; [exact Ht|exact Hr|lia].
Qed.

End Ring.

(** *** Putting a block back *)

Fixpoint units (l : list block) : Z :=
  match l with
  | [] => 0
  | b :: l => b.2 + units l
  end.

Lemma units_app l1 l2 : units (l1 ++ l2) = units l1 + units l2.
Proof. induction l1 as [|b l1 IH]; cbn; [done|]. rewrite IH. lia. Qed.

Lemma sorted_replace L1 L2 p s t : StronglySorted before (L1 ++ (p, s) :: L2) -> StronglySorted before (L1 ++ (p, t) :: L2).
Proof.
  rewrite !StronglySorted_app. intros (H1 & H2 & H3). split_and!; [|done|].
  - intros b c Hb [->|Hc]%elem_of_cons; [apply (H1 b (p, s)); [done|left]|apply H1; [done|by right]].
  - apply StronglySorted_inv in H3 as [H3 Hf]. by constructor.
Qed.

Lemma sorted_insert L1 L2 p s bp t :
  StronglySorted before (L1 ++ (p, s) :: L2) -> p < bp -> Forall (fun c : block => bp < c.1) L2 ->
  StronglySorted before (L1 ++ (p, s) :: (bp, t) :: L2).
Proof.
  rewrite !StronglySorted_app. intros (H1 & H2 & H3) Hp Hf. apply StronglySorted_inv in H3 as [H3 H4]. split_and!; [|done|].
  - intros b c Hb [->|[->|Hc]%elem_of_cons]%elem_of_cons.
    + apply H1; [done|left].
    + specialize (H1 b (p, s) Hb ltac:(left)). unfold before in *. cbn in *. lia.
    + apply H1; [done|by right].
  - constructor; [by constructor|]. constructor; done.
Qed.

Lemma sorted_remove L1 L2 b : StronglySorted before (L1 ++ b :: L2) -> StronglySorted before (L1 ++ L2).
Proof.
  rewrite !StronglySorted_app. intros (H1 & H2 & H3). apply StronglySorted_inv in H3 as [H3 _]. split_and!; [|done|done].
  intros c d Hc Hd. apply H1; [done|by right].
Qed.

Lemma next_range L A h L2 : heap_ok L A h -> (forall b, b ∈ L2 -> b ∈ L) -> base <= next L2 base < brk h.
Proof.
  intros Hh Hin. pose proof (hk_range _ _ _ Hh). unfold HEADER in *. destruct L2 as [|b L2]; cbn; [lia|].
  destruct (ring_range L A h Hh b) as (H1 & H2 & H3 & _); [apply elem_of_app; left; apply Hin; left|]. unfold HEADER in *. lia.
Qed.

Lemma next_u32 L A h L2 : heap_ok L A h -> (forall b, b ∈ L2 -> b ∈ L) -> is_u32 (next L2 base).
Proof. intros Hh Hin. pose proof (next_range _ _ _ _ Hh Hin). pose proof (hk_range _ _ _ Hh). unfold is_u32, KERNBASE in *. lia. Qed.

(** After the first test of [free]: [bp] is a block in front of those after [p],
    merged with the first of them if it ends there. *)
Lemma free_upper_ok L A h bp s A' L1 p ps L2 :
  heap_ok L A h -> A ≡ₚ (bp, s) :: A' -> L = L1 ++ (p, ps) :: L2 -> p < bp -> Forall (fun c : block => bp < c.1) L2 ->
  let h1 := free_upper bp p h in
  exists s1 L2', seg (hm h1) ((bp, s1) :: L2') base /\ writes_header bp (hm h) (hm h1) /\
    s <= s1 /\ s1 + units L2' = s + units L2 /\ Forall (fun c : block => bp < c.1) L2' /\
    StronglySorted before (L1 ++ (p, ps) :: L2') /\ apart ((bp, s1) :: L1 ++ (p, ps) :: L2' ++ A') /\
    (forall b, b ∈ L2' -> b ∈ L2) /\ bp + HEADER * s1 <= brk h /\
    (forall x, inside x ((bp, s1) :: L2') -> inside x ((bp, s) :: L2)) /\ brk h1 = brk h.
Proof.
  intros Hh HA E Hp Hl h1. pose proof (used_block L A h Hh bp s A' HA) as (Hs1 & Hbp & Hend). cbn in Hs1, Hbp.
  pose proof (hk_range _ _ _ Hh) as [Hb0 Hbrk]. unfold bend in Hend. cbn in Hend.
  assert (hsize (hm h) bp = s) as Hsz.
  { pose proof (hk_sizes _ _ _ Hh) as Hf. rewrite HA in Hf. by apply Forall_cons in Hf as [Hf _]. }
  destruct (ring_at L A h Hh _ _ _ _ E) as [Hq _]. unfold h1, free_upper. rewrite Hq, Hsz.
  assert (hadd bp s = bp + HEADER * s) as Hadd by (unfold hadd, HEADER, KERNBASE in *; apply u32_small; lia). rewrite Hadd.
  pose proof (hk_apart _ _ _ Hh) as Ha. rewrite HA, E in Ha.
  pose proof (hk_sorted _ _ _ Hh) as Hso. rewrite E in Hso.
  pose proof (hk_seg _ _ _ Hh) as Hseg. rewrite E in Hseg. apply seg_app in Hseg as [_ (_ & _ & Hseg)].
  assert (forall b, b ∈ L2 -> disj (bp, 1) b) as Hd.
  { intros b Hb. eapply disj_header, disj_sym, (used_disj L A h Hh bp s A' HA). rewrite E. apply elem_of_app. right. by right. }
  rewrite <- app_assoc in Ha. cbn [app] in Ha.
  assert (apart ((bp, s) :: L1 ++ (p, ps) :: L2 ++ A')) as Ha'.
  { eapply apart_permuted; [|exact Ha]. solve_Permutation. }
  destruct (Z.eqb_spec (bp + HEADER * s) (next L2 base)) as [Em|Em].
  - destruct L2 as [|[q qs] L2]; cbn in Em; [unfold HEADER in *; lia|]. subst q. cbn [next fst] in *.
    destruct Hseg as (Hqp & Hqs & Hseg). cbn [fst snd] in Hqp, Hqs. apply Forall_cons in Hl as [_ Hl].
    destruct (ring_range L A h Hh (bp + HEADER * s, qs)) as (_ & _ & Hqe & Hqr).
    { rewrite E, <- app_assoc. apply elem_of_app. right. right. left. }
    assert (1 <= qs) as Hqs1.
    { destruct (hk_blocks _ _ _ Hh (bp + HEADER * s, qs)) as [Eq|(H & _)]; [|injection Eq; unfold HEADER in *; lia|done].
      rewrite E, <- app_assoc. apply elem_of_app. right. right. left. }
    unfold bend in Hqe. cbn in Hqe, Hqr.
    assert (u32 (s + qs) = s + qs) as Hu by (apply u32_small; unfold HEADER, KERNBASE in *; lia).
    rewrite Hqs, Hu.
    pose proof (writes_block bp (bp + HEADER * s, qs) _ _ (set_size_writes bp (s + qs) h) (Hd _ ltac:(left))) as [Hqp' _].
    cbn [fst] in Hqp'. rewrite Hqp', Hqp.
    assert (writes_header bp (hm h) (hm (set_ptr bp (next L2 base) (set_size bp (s + qs) h)))) as Hw
      by (eapply writes_trans; [apply set_size_writes|apply set_ptr_writes]).
    exists (s + qs), L2. split_and!; try done; try lia.
    + cbn [seg fst snd]. split_and!.
      * apply hptr_set_ptr. eapply next_u32; [done|]. intros b Hb. rewrite E. apply elem_of_app. right. right. by right.
      * rewrite hsize_set_ptr. apply hsize_set_size. unfold is_u32, HEADER, KERNBASE in *. lia.
      * eapply seg_frame; [|exact Hseg]. intros b Hb. eapply writes_block; [exact Hw|]. apply Hd. by right.
    + cbn [units snd]. lia.
    + replace (L1 ++ (p, ps) :: (bp + HEADER * s, qs) :: L2) with ((L1 ++ [(p, ps)]) ++ (bp + HEADER * s, qs) :: L2) in Hso by (by rewrite <- app_assoc).
      apply sorted_remove in Hso. by rewrite <- app_assoc in Hso.
    + apply apart_split; [done|done|]. eapply apart_permuted; [|exact Ha']. solve_Permutation.
    + intros b Hb. by right.
    + unfold HEADER in *. lia.
    + intros x. rewrite !inside_cons. cbn [fst]. intros [Hx|Hx]; [|auto]. apply inside_merge in Hx; tauto.
  - exists s, L2. split_and!; try done; try lia.
    + cbn [seg]. split_and!.
      * apply hptr_set_ptr. eapply next_u32; [done|]. intros b Hb. rewrite E. apply elem_of_app. right. by right.
      * by rewrite hsize_set_ptr.
      * eapply seg_frame; [|exact Hseg]. intros b Hb. eapply writes_block; [apply set_ptr_writes|auto].
    + apply set_ptr_writes.
    + unfold HEADER in *. lia.
Qed.

(** What [free] writes: headers of free blocks and of the block. *)
Definition writes_headers (l : list block) (m m' : Z -> Z) : Prop :=
  forall x, (forall b, b ∈ l -> x < b.1 \/ b.1 + HEADER <= x) -> m' x = m x.

(** Replacing the ring, with [p] as its start. *)
Lemma heap_ok_ring L A A' L' h h' b0 p ps :
  heap_ok L A h -> A ≡ₚ b0 :: A' -> brk h' = brk h -> (exists F, L' = (base, 0) :: F) -> seg (hm h') L' base ->
  (forall b, b ∈ A' -> same_header (hm h) (hm h') b.1) -> apart (L' ++ A') -> StronglySorted before L' ->
  (forall b, b ∈ L' -> b = (base, 0) \/ heap_block h b) -> freep h' = p -> (p, ps) ∈ L' -> heap_ok L' A' h'.
Proof.
  intros Hh HA Hbrk Hhd Hseg HA' Hap Hso Hbl Hfp Hin. split; try done.
  - pose proof (hk_sizes _ _ _ Hh) as Hf. rewrite HA in Hf. apply Forall_cons in Hf as [_ Hf].
    rewrite Forall_forall in *. intros b Hb. destruct (HA' b Hb) as [_ ->]. auto.
  - intros b [Hb|Hb]%elem_of_app.
    + destruct (Hbl b Hb) as [|Hb']; [by left|right]. unfold heap_block in *. by rewrite Hbrk.
    + destruct (hk_blocks _ _ _ Hh b) as [|Hb']; [apply elem_of_app; right; rewrite HA; by right|by left|right].
      unfold heap_block in *. by rewrite Hbrk.
  - rewrite Hfp. eauto.
  - rewrite Hbrk. apply (hk_range _ _ _ Hh).
Qed.

Section Lower.
Context (L A : list block) (h : heap) (bp s : Z) (A' L1 : list block) (p ps : Z) (L2 : list block) (h1 : heap) (s1 : Z) (L2' : list block).
Context (Hh : heap_ok L A h) (HA : A ≡ₚ (bp, s) :: A') (E : L = L1 ++ (p, ps) :: L2) (Hp : p < bp).
Context (Hseg : seg (hm h1) ((bp, s1) :: L2') base) (Hw : writes_header bp (hm h) (hm h1)) (Hs : s <= s1).
Context (Hl : Forall (fun c : block => bp < c.1) L2') (Hso : StronglySorted before (L1 ++ (p, ps) :: L2')).
Context (Ha : apart ((bp, s1) :: L1 ++ (p, ps) :: L2' ++ A')) (Hsub : forall b, b ∈ L2' -> b ∈ L2).
Context (Hend : bp + HEADER * s1 <= brk h) (Hbrk : brk h1 = brk h).

Lemma lower_apart : apart ((p, ps) :: (bp, s1) :: L1 ++ L2' ++ A').
Proof. eapply apart_permuted; [|exact Ha]. solve_Permutation. Qed.

Lemma lower_far b : b ∈ L1 ++ L2' ++ A' -> disj (p, 1) b /\ disj (bp, 1) b.
Proof.
  pose proof lower_apart as Hap. intros Hb. split; eapply disj_header; eapply apart_in; [exact Hap|by right|apply Hap|done].
Qed.

Lemma lower_new : disj (p, 1) (bp, s1).
Proof. eapply disj_header, apart_in; [exact lower_apart|left]. Qed.

(** A write to the header of [p] leaves the other blocks alone. *)
Lemma lower_frame h2 : writes_header p (hm h1) (hm h2) ->
  seg (hm h2) L1 p /\ seg (hm h2) ((bp, s1) :: L2') base /\ forall b, b ∈ A' -> same_header (hm h) (hm h2) b.1.
Proof.
  intros Hw'.
  assert (forall b, b ∈ L1 ++ L2' ++ A' -> same_header (hm h1) (hm h2) b.1) as H1.
  { intros b Hb. eapply writes_block; [exact Hw'|]. apply lower_far, Hb. }
  assert (forall b, b ∈ L1 ++ L2' ++ A' -> same_header (hm h) (hm h2) b.1) as H2.
  { intros b Hb. destruct (H1 b Hb) as [E1 E2]. destruct (writes_block _ _ _ _ Hw (proj2 (lower_far b Hb))) as [E3 E4]. split; congruence. }
  split_and!.
  - pose proof (hk_seg _ _ _ Hh) as H. rewrite E in H. apply seg_app in H as [H _].
    eapply seg_frame; [|exact H]. intros b Hb. apply H2. apply elem_of_app. by left.
  - eapply seg_frame; [|exact Hseg]. intros b [->|Hb]%elem_of_cons; [eapply writes_block; [done|apply lower_new]|].
    apply H1. rewrite !elem_of_app. auto.
  - intros b Hb. apply H2. rewrite !elem_of_app. auto.
Qed.

Lemma lower_old b : b = (p, ps) \/ b ∈ L1 \/ b ∈ L2' -> b = (base, 0) \/ heap_block h b.
Proof.
  intros Hb. apply (hk_blocks _ _ _ Hh). rewrite E. rewrite !elem_of_app, elem_of_cons. destruct Hb as [|[|Hb]]; auto.
Qed.

Lemma lower_p : base <= p < bp /\ 0 <= ps <= brk h /\ p + HEADER * ps <= brk h /\ hsize (hm h1) p = ps /\ base + HEADER <= brk h <= KERNBASE /\
  0 < base /\ base < bp /\ 1 <= s.
Proof.
  pose proof (hk_range _ _ _ Hh) as [Hb0 Hbr].
  pose proof (used_block L A h Hh bp s A' HA) as (Hs1 & Hbp & _). cbn in Hs1, Hbp.
  assert ((p, ps) ∈ L) as HpL by (rewrite E; apply elem_of_app; right; left).
  destruct (ring_range L A h Hh (p, ps)) as (Hpb & Hpe & Hpk & Hpr); [apply elem_of_app; by left|]. cbn in Hpb, Hpr.
  assert (disj (bp, 1) (p, ps)) as Hdp by (eapply disj_header, disj_sym, used_disj; done).
  destruct (writes_block _ _ _ _ Hw Hdp) as [_ Hps]. cbn [fst] in Hps.
  destruct (ring_at L A h Hh _ _ _ _ E) as [_ Hsz]. unfold bend in Hpk. cbn in Hpk. unfold HEADER in *. split_and!; lia.
Qed.

(** The block [bp] is appended to [p]. *)
Lemma lower_merge : p + HEADER * ps = bp ->
  let h2 := set_freep p (set_ptr p (next L2' base) (set_size p (ps + s1) h1)) in
  writes_header p (hm h1) (hm h2) /\ heap_ok (L1 ++ (p, ps + s1) :: L2') A' h2.
Proof.
  intros Em h2. destruct lower_p as (Hpb & Hpr & Hpe & _ & Hbr & Hb0 & Hbp & Hs1).
  assert (1 <= ps) as Hps1 by (destruct (Z.eq_dec ps 0) as [E0|]; [rewrite E0 in Em; unfold HEADER in Em; lia|lia]).
  assert (writes_header p (hm h1) (hm h2)) as Hw' by (eapply writes_trans; [apply set_size_writes|apply set_ptr_writes]).
  split; [exact Hw'|]. destruct (lower_frame _ Hw') as (Hg1 & (_ & _ & Hg2) & Hg3).
  eapply (heap_ok_ring L A A' _ h h2 (bp, s) p (ps + s1)); try done.
  - destruct (hk_head _ _ _ Hh) as [F EF]. rewrite E in EF. destruct L1 as [|b l1]; [injection EF; lia|].
    injection EF as -> _. cbn. eauto.
  - apply seg_app. split; [exact Hg1|]. cbn [seg fst snd]. split_and!; [| |exact Hg2].
    + apply hptr_set_ptr. eapply next_u32; [exact Hh|]. intros b Hb. rewrite E. apply elem_of_app. right. right. auto.
    + change (hsize (hm (set_ptr p (next L2' base) (set_size p (ps + s1) h1))) p = ps + s1). rewrite hsize_set_ptr.
      apply hsize_set_size. unfold is_u32, HEADER, KERNBASE in *. lia.
  - rewrite <- app_assoc. cbn [app]. eapply apart_permuted; [apply Permutation_middle|]. apply apart_split; [done|lia|].
    rewrite Em. apply lower_apart.
  - by eapply sorted_replace.
  - intros b Hb. apply elem_of_app in Hb as [Hb|[->|Hb]%elem_of_cons]; [apply lower_old; auto| |apply lower_old; auto].
    right. destruct (lower_old (p, ps)) as [[= E1 E2]|(H1 & H2 & _)]; [auto|lia|].
    unfold heap_block, bend. cbn in *. split_and!; [lia|done|]. unfold HEADER in *. lia.
  - apply elem_of_app. right. left.
Qed.

(** The block [bp] becomes the next block after [p]. *)
Lemma lower_insert :
  let h2 := set_freep p (set_ptr p bp h1) in
  writes_header p (hm h1) (hm h2) /\ hptr (hm h2) p = bp /\ heap_ok (L1 ++ (p, ps) :: (bp, s1) :: L2') A' h2.
Proof.
  intros h2. destruct lower_p as (Hpb & Hpr & Hpe & Hps & Hbr & Hb0 & Hbp & Hs1).
  assert (writes_header p (hm h1) (hm h2)) as Hw' by apply set_ptr_writes.
  assert (hptr (hm h2) p = bp) as Hptr by (apply hptr_set_ptr; unfold is_u32, HEADER, KERNBASE in *; lia).
  split_and!; [exact Hw'|exact Hptr|]. destruct (lower_frame _ Hw') as (Hg1 & Hg2 & Hg3).
  eapply (heap_ok_ring L A A' _ h h2 (bp, s) p ps); try done.
  - destruct (hk_head _ _ _ Hh) as [F EF]. rewrite E in EF. destruct L1 as [|b l1]; injection EF; cbn; [intros _ -> ->|intros _ ->]; eauto.
  - apply seg_app. split; [exact Hg1|]. cbn [seg fst snd]. split_and!; [exact Hptr| |apply Hg2..].
    change (hsize (hm (set_ptr p bp h1)) p = ps). by rewrite hsize_set_ptr.
  - eapply apart_permuted; [|exact lower_apart]. solve_Permutation.
  - by apply sorted_insert.
  - intros b Hb. apply elem_of_app in Hb as [Hb|[->|[->|Hb]%elem_of_cons]%elem_of_cons]; [apply lower_old; auto..| |apply lower_old; auto].
    right. unfold heap_block, bend. cbn. split_and!; [lia|done|]. unfold HEADER in *. lia.
  - apply elem_of_app. right. left.
Qed.

Lemma free_lower_ok :
  let h2 := set_freep p (free_lower bp p h1) in
  exists L', heap_ok L' A' h2 /\ units L' = units L1 + ps + s1 + units L2' /\ writes_header p (hm h1) (hm h2) /\
    (forall x, inside x L' -> inside x (L1 ++ (p, ps) :: (bp, s1) :: L2')) /\ brk h2 = brk h /\
    exists t, (p, t) ∈ L' /\ (s <= t \/ exists u, (hptr (hm h2) p, u) ∈ L' /\ s <= u).
Proof.
  intros h2. destruct lower_p as (Hpb & Hpr & Hpe & Hps & Hbr & Hb0 & Hbp & Hs1).
  destruct Hseg as (Hbpp & Hbps & _). cbn [fst snd] in Hbpp, Hbps.
  assert (hadd p ps = p + HEADER * ps) as Hadd by (unfold hadd, HEADER, KERNBASE in *; apply u32_small; lia).
  unfold h2, free_lower. rewrite Hps, Hadd, Hbps. destruct (Z.eqb_spec (p + HEADER * ps) bp) as [Em|Em].
  - rewrite u32_small by (unfold HEADER, KERNBASE in *; lia).
    destruct (writes_block _ _ _ _ (set_size_writes p (ps + s1) h1) lower_new) as [Hb1 _]. cbn [fst] in Hb1. rewrite Hb1, Hbpp.
    destruct (lower_merge Em) as [H1 H2]. eexists. split_and!; [exact H2| |exact H1| |done|].
    + rewrite units_app. cbn. lia.
    + intros x. rewrite !inside_app, !inside_cons. cbn [fst]. intros [|[Hx|]]; [auto| |auto].
      destruct (Z.eq_dec ps 0) as [E0|]; [rewrite E0 in Em; unfold HEADER in Em; lia|]. apply inside_merge in Hx; [|lia..]. rewrite Em in Hx. tauto.
    + exists (ps + s1). split; [apply elem_of_app; right; left|left; lia].
  - destruct lower_insert as (H1 & H2 & H3). eexists. split_and!; [exact H3| |exact H1|done|done|].
    + rewrite units_app. cbn. lia.
    + exists ps. split; [apply elem_of_app; right; left|]. right. exists s1. rewrite H2. split; [|done]. apply elem_of_app. right. right. left.
Qed.

End Lower.

(** The memory is the same outside of the blocks. *)
Definition writes_inside (l : list block) (m m' : Z -> Z) : Prop := forall x, ~ inside x l -> m' x = m x.

(** The ring has a block of [s] units at its start or right after it. *)
Definition fits (s : Z) (L : list block) (h : heap) : Prop :=
  exists t, (freep h, t) ∈ L /\ (s <= t \/ exists u, (hptr (hm h) (freep h), u) ∈ L /\ s <= u).

Lemma writes_header_inside a s l m m' : (a, s) ∈ l -> writes_header a m m' -> writes_inside l m m'.
Proof.
  intros Ha Hw x Hx. apply Hw. destruct (Z.ltb_spec x a); [auto|]. destruct (Z.leb_spec (a + HEADER) x); [auto|].
  destruct Hx. exists (a, s). split; [done|]. unfold bend, HEADER in *. cbn. lia.
Qed.

Lemma free_spec L A h bp s A' : heap_ok L A h -> A ≡ₚ (bp, s) :: A' ->
  exists L' h', free (bp + HEADER) h = Some h' /\ heap_ok L' A' h' /\ brk h' = brk h /\ units L' = units L + s /\
    writes_inside ((bp, s) :: L) (hm h) (hm h') /\ (forall x, inside x L' -> inside x ((bp, s) :: L)) /\ fits s L' h'.
Proof.
  intros Hh HA. pose proof (used_block L A h Hh bp s A' HA) as (Hs1 & Hbp & Hend). pose proof (hk_range _ _ _ Hh) as [Hb0 Hbr].
  unfold bend in Hend. cbn in Hs1, Hbp, Hend.
  unfold free. replace (u32 (bp + HEADER - HEADER)) with bp by (rewrite u32_small; unfold HEADER, KERNBASE in *; lia).
  destruct (free_scan_ok L A h Hh bp s A' HA) as (p & -> & L1 & ps & L2 & E & Hp & Hl).
  destruct (free_upper_ok L A h bp s A' L1 p ps L2 Hh HA E Hp Hl) as (s1 & L2' & Hseg & Hw & Hs & Hu & Hl' & Hso & Ha & Hsub & He & Hin & Hbrk).
  destruct (free_lower_ok L A h bp s A' L1 p ps L2 (free_upper bp p h) s1 L2') as (L' & Hok & Hu' & Hw' & Hin' & Hb' & Hf); [done..|].
  exists L', (set_freep p (free_lower bp p (free_upper bp p h))). split_and!; try done.
  - rewrite E, units_app. cbn. lia.
  - intros x Hx. transitivity (hm (free_upper bp p h) x).
    + eapply (writes_header_inside p ps); [|exact Hw'|exact Hx]. rewrite E. right. apply elem_of_app. right. left.
    + eapply (writes_header_inside bp s); [|exact Hw|exact Hx]. left.
  - intros x Hx. apply Hin' in Hx. specialize (Hin x). revert Hin Hx. rewrite E. rewrite !inside_app, !inside_cons, !inside_app, !inside_cons. tauto.
Qed.

(** *** Taking a block *)

Section Take.
Context (L A : list block) (h : heap) (pv pvs p sz n : Z).
Context (Hh : heap_ok L A h) (Hpv : (pv, pvs) ∈ L) (Hptr : hptr (hm h) pv = p) (Hp : (p, sz) ∈ L) (Hn : 1 <= n <= sz).

Lemma take_split : exists L1 L2, L = L1 ++ (pv, pvs) :: (p, sz) :: L2.
Proof.
  apply list_elem_of_split in Hpv as (L1 & R & E). destruct (ring_at L A h Hh _ _ _ _ E) as [Hnx _].
  pose proof (seg_in _ _ _ _ (hk_seg _ _ _ Hh) Hp) as Hsz. cbn in Hsz. rewrite Hnx in Hptr.
  destruct R as [|[q t] L2]; cbn in Hptr.
  - destruct (hk_head _ _ _ Hh) as [F EF]. pose proof (seg_in _ _ _ (base, 0) (hk_seg _ _ _ Hh)) as H0. cbn in H0.
    assert ((base, 0) ∈ L) as Hb by (rewrite EF; left). specialize (H0 Hb). rewrite Hptr, Hsz in H0. lia.
  - pose proof (seg_in _ _ _ (q, t) (hk_seg _ _ _ Hh)) as H0. cbn in H0. rewrite E in H0.
    rewrite <- H0, Hptr, Hsz in E; [by exists L1, L2|]. apply elem_of_app. right. right. left.
Qed.

Lemma take_block : heap_block h (p, sz).
Proof.
  destruct (hk_blocks _ _ _ Hh (p, sz)) as [[= -> ->]|]; [apply elem_of_app; by left|lia|done].
Qed.

Lemma take_exact : sz = n ->
  let h' := set_freep pv (set_ptr pv (hptr (hm h) p) h) in
  exists L', heap_ok L' ((p, n) :: A) h' /\ units L' + n = units L /\ writes_inside L (hm h) (hm h').
Proof.
  intros Esz h'. destruct take_split as (L1 & L2 & E). exists (L1 ++ (pv, pvs) :: L2).
  pose proof (hk_apart _ _ _ Hh) as Ha. rewrite E in Ha. pose proof (hk_seg _ _ _ Hh) as Hs. rewrite E in Hs.
  apply seg_app in Hs as (Hs1 & _ & Hps & Hq & Hqs & Hs2). cbn [fst snd next] in *.
  assert (apart ((pv, pvs) :: (p, sz) :: L1 ++ L2 ++ A)) as Hap by (eapply apart_permuted; [|exact Ha]; solve_Permutation).
  assert (writes_header pv (hm h) (hm h')) as Hw by apply set_ptr_writes.
  assert (forall b, b ∈ (p, sz) :: L1 ++ L2 ++ A -> same_header (hm h) (hm h') b.1) as Hsame.
  { intros b Hb. eapply writes_block; [exact Hw|]. eapply disj_header, apart_in; [exact Hap|done]. }
  split_and!; [split|rewrite E, !units_app; cbn; lia|].
  - destruct (hk_head _ _ _ Hh) as [F EF]. rewrite E in EF. destruct L1 as [|b l1]; injection EF; cbn; [intros _ -> ->|intros _ ->]; eauto.
  - apply seg_app. split; [eapply seg_frame; [|exact Hs1]; intros b Hb; apply Hsame; rewrite elem_of_cons, !elem_of_app; auto|].
    cbn [seg fst snd]. split_and!.
    + rewrite <- Hq. apply hptr_set_ptr. rewrite Hq. eapply next_u32; [exact Hh|]. intros b Hb. rewrite E. rewrite elem_of_app, !elem_of_cons. auto.
    + change (hsize (hm (set_ptr pv (hptr (hm h) p) h)) pv = pvs). by rewrite hsize_set_ptr.
    + eapply seg_frame; [|exact Hs2]. intros b Hb. apply Hsame. rewrite elem_of_cons, !elem_of_app. auto.
  - constructor; [destruct (Hsame (p, sz)) as [_ H]; [left|]; cbn [fst snd] in *; lia|]. pose proof (hk_sizes _ _ _ Hh) as Hf. rewrite Forall_forall in *.
    intros b Hb. destruct (Hsame b) as [_ ->]; [rewrite elem_of_cons, !elem_of_app; auto|]. auto.
  - rewrite Esz in Hap. eapply apart_permuted; [|exact Hap]. solve_Permutation.
  - pose proof (hk_sorted _ _ _ Hh) as Hso. rewrite E in Hso.
    replace (L1 ++ (pv, pvs) :: (p, sz) :: L2) with ((L1 ++ [(pv, pvs)]) ++ (p, sz) :: L2) in Hso by (by rewrite <- app_assoc).
    apply sorted_remove in Hso. by rewrite <- app_assoc in Hso.
  - intros b Hb. apply (hk_blocks _ _ _ Hh). rewrite E, Esz. revert Hb. rewrite !elem_of_app, !elem_of_cons. tauto.
  - exists pvs. apply elem_of_app. right. left.
  - apply (hk_range _ _ _ Hh).
  - eapply writes_header_inside; [exact Hpv|exact Hw].
Qed.

Lemma take_part : n < sz ->
  let h' := set_freep pv (set_size (p + HEADER * (sz - n)) n (set_size p (sz - n) h)) in
  exists L', heap_ok L' ((p + HEADER * (sz - n), n) :: A) h' /\ units L' + n = units L /\ writes_inside L (hm h) (hm h').
Proof.
  intros Hlt h'. destruct take_split as (L1 & L2 & E). set (q := p + HEADER * (sz - n)) in *.
  exists (L1 ++ (pv, pvs) :: (p, sz - n) :: L2).
  pose proof (hk_apart _ _ _ Hh) as Ha. rewrite E in Ha. pose proof (hk_seg _ _ _ Hh) as Hs. rewrite E in Hs.
  replace (L1 ++ (pv, pvs) :: (p, sz) :: L2) with ((L1 ++ [(pv, pvs)]) ++ (p, sz) :: L2) in Hs by (by rewrite <- app_assoc).
  apply seg_app in Hs as (Hs1 & Hq & Hqs & Hs2). cbn [fst snd next] in *.
  destruct take_block as (_ & Hpb & Hpe). unfold bend in Hpe. cbn in Hpb, Hpe. pose proof (hk_range _ _ _ Hh) as [Hb0 Hbr].
  assert (apart ((p, sz - n) :: (q, n) :: (L1 ++ [(pv, pvs)]) ++ L2 ++ A)) as Hap.
  { apply (proj1 (apart_split p (sz - n) n _ ltac:(lia) ltac:(lia))). replace (sz - n + n) with sz by lia. eapply apart_permuted; [|exact Ha]. solve_Permutation. }
  assert (forall b, b ∈ (L1 ++ [(pv, pvs)]) ++ L2 ++ A -> same_header (hm h) (hm h') b.1) as Hsame.
  { intros b Hb. destruct (writes_block p b _ _ (set_size_writes p (sz - n) h)) as [E1 E2].
    { eapply disj_header, apart_in; [exact Hap|by right]. }
    destruct (writes_block q b _ _ (set_size_writes q n (set_size p (sz - n) h))) as [E3 E4].
    { eapply disj_header, apart_in; [apply Hap|done]. }
    unfold same_header, h'. cbn [set_freep hm]. split; congruence. }
  assert (disj (q, 1) (p, sz - n)) as Hqp by (eapply disj_header, disj_sym, apart_in; [exact Hap|left]).
  destruct (writes_block q _ _ _ (set_size_writes q n (set_size p (sz - n) h)) Hqp) as [Hp1 Hp2]. cbn [fst] in Hp1, Hp2.
  rewrite hptr_set_size, Hq in Hp1. rewrite hsize_set_size in Hp2 by (unfold is_u32, HEADER, KERNBASE in *; lia).
  split_and!; [split|rewrite E, !units_app; cbn; lia|].
  - destruct (hk_head _ _ _ Hh) as [F EF]. rewrite E in EF. destruct L1 as [|b l1]; injection EF; cbn; [intros _ -> ->|intros _ ->]; eauto.
  - replace (L1 ++ (pv, pvs) :: (p, sz - n) :: L2) with ((L1 ++ [(pv, pvs)]) ++ (p, sz - n) :: L2) by (by rewrite <- app_assoc).
    apply seg_app. split; [eapply seg_frame; [|exact Hs1]; intros b Hb; apply Hsame; rewrite elem_of_app; auto|].
    cbn [seg fst snd]. split_and!; [exact Hp1|exact Hp2|].
    eapply seg_frame; [|exact Hs2]. intros b Hb. apply Hsame. rewrite !elem_of_app. auto.
  - constructor; [apply (hsize_set_size q n (set_size p (sz - n) h)); unfold is_u32, HEADER, KERNBASE in *; lia|].
    pose proof (hk_sizes _ _ _ Hh) as Hf. rewrite Forall_forall in *.
    intros b Hb. destruct (Hsame b) as [_ H]; [rewrite !elem_of_app; auto|]. rewrite H. auto.
  - eapply apart_permuted; [|exact Hap]. solve_Permutation.
  - pose proof (hk_sorted _ _ _ Hh) as Hso. rewrite E in Hso.
    replace (L1 ++ (pv, pvs) :: (p, sz) :: L2) with ((L1 ++ [(pv, pvs)]) ++ (p, sz) :: L2) in Hso by (by rewrite <- app_assoc).
    apply (sorted_replace _ _ _ _ (sz - n)) in Hso. by rewrite <- app_assoc in Hso.
  - intros b Hb. assert (b = (p, sz - n) \/ b = (q, n) \/ b ∈ L ++ A) as [->|[->|Hb']].
    { rewrite E. revert Hb. rewrite !elem_of_app, !elem_of_cons. tauto. }
    + right. unfold heap_block, bend. cbn. unfold HEADER in *. lia.
    + right. unfold heap_block, bend, q. cbn. unfold HEADER in *. lia.
    + by apply (hk_blocks _ _ _ Hh).
  - exists pvs. apply elem_of_app. right. left.
  - apply (hk_range _ _ _ Hh).
  - intros x Hx. assert (x < p \/ p + HEADER * sz <= x) as Hx'.
    { destruct (Z.ltb_spec x p); [auto|]. destruct (Z.leb_spec (p + HEADER * sz) x); [auto|]. destruct Hx. exists (p, sz).
      split; [done|]. unfold bend, HEADER in *. cbn. lia. }
    transitivity (hm (set_size p (sz - n) h) x).
    + apply (set_size_writes q n). unfold q, HEADER in *. lia.
    + apply (set_size_writes p (sz - n)). unfold HEADER in *. lia.
Qed.

End Take.

(** *** The loop of [malloc] *)

(** [malloc] took a block of [n] units for [r] out of the ring [L]. *)
Definition took (L A : list block) (n : Z) (h : heap) (o : option (Z * heap)) : Prop :=
  exists r h' L', o = Some (r, h') /\ heap_ok L' ((r - HEADER, n) :: A) h' /\ units L' + n = units L /\
    writes_inside L (hm h) (hm h') /\ brk h' = brk h /\ 0 < r.

Lemma malloc_found fuel L A h pv pvs p ps n :
  heap_ok L A h -> (pv, pvs) ∈ L -> hptr (hm h) pv = p -> (p, ps) ∈ L -> 1 <= n <= ps ->
  took L A n h (malloc_loop grow (S fuel) n pv p h).
Proof.
  intros Hh Hpv Hptr Hp Hn. assert (heap_block h (p, ps)) as (_ & Hb & He) by (eapply take_block; eauto). unfold bend in He. cbn in Hb, He.
  pose proof (hk_range _ _ _ Hh) as [Hb0 Hbr]. pose proof (seg_in _ _ _ _ (hk_seg _ _ _ Hh) Hp) as Hsz. cbn in Hsz.
  cbn [malloc_loop]. rewrite Hsz. destruct (Z.leb_spec n ps); [|lia].
  assert (forall k, 0 <= k < ps -> hadd p k = p + HEADER * k) as Hadd.
  { intros k Hk. unfold hadd. apply u32_small. unfold HEADER, KERNBASE in *. lia. }
  assert (forall k, 0 <= k <= ps -> 0 < p + HEADER * k <= KERNBASE) as Hr by (unfold HEADER in *; lia).
  destruct (Z.eqb_spec ps n) as [E|E].
  - destruct (take_exact L A h pv pvs p ps n Hh Hpv Hptr Hp Hn E) as (L' & H1 & H2 & H3).
    eexists _, _, L'. split_and!; [done| |done|done|done|].
    + replace (hadd p 1 - HEADER) with p; [exact H1|]. unfold hadd. rewrite u32_small; specialize (Hr 1); unfold HEADER, KERNBASE in *; lia.
    + unfold hadd. rewrite u32_small; specialize (Hr 1); unfold HEADER, KERNBASE in *; lia.
  - destruct (take_part L A h pv pvs p ps n Hh Hpv Hptr Hp Hn ltac:(lia)) as (L' & H1 & H2 & H3).
    rewrite Hadd by lia. specialize (Hr (ps - n + 1)).
    assert (hadd (p + HEADER * (ps - n)) 1 = p + HEADER * (ps - n) + HEADER) as Hq.
    { unfold hadd. rewrite u32_small; unfold HEADER, KERNBASE in *; lia. }
    rewrite Hq. eexists _, _, L'. split_and!; [done| |done|done|done|unfold HEADER in *; lia].
    replace (p + HEADER * (ps - n) + HEADER - HEADER) with (p + HEADER * (ps - n)) by lia. exact H1.
Qed.

(** Going round the ring: a block is found, or [freep] is reached. *)
Lemma malloc_search L A h n : heap_ok L A h -> 1 <= n -> forall k fuel pv pvs p ps,
  (pv, pvs) ∈ L -> hptr (hm h) pv = p -> (p, ps) ∈ L -> follow (hm h) k p = freep h -> (k < fuel)%nat ->
  took L A n h (malloc_loop grow fuel n pv p h) \/
  (exists fuel', (fuel <= fuel' + k + 1)%nat /\ (forall t, (freep h, t) ∈ L -> t < n) /\
     malloc_loop grow fuel n pv p h =
     match morecore grow n h with
     | None => None
     | Some (p, h) => if p =? 0 then Some (0, h) else malloc_loop grow fuel' n p (hptr (hm h) p) h
     end).
Proof.
  intros Hh Hn. induction k as [|k IH]; intros fuel pv pvs p ps Hpv Hptr Hp Hf Hfuel; (destruct fuel as [|fuel]; [lia|]);
    pose proof (seg_in _ _ _ _ (hk_seg _ _ _ Hh) Hp) as Hsz; cbn [fst snd] in Hsz.
  all: destruct (Z.leb_spec n ps) as [Hle|Hlt]; [left; eapply malloc_found; eauto; lia|].
  all: cbn [malloc_loop]; rewrite Hsz; destruct (Z.leb_spec n ps) as [|_]; [lia|].
  all: assert (p = freep h -> forall t, (freep h, t) ∈ L -> t < n) as Hsmall
    by (intros E t Ht; pose proof (seg_in _ _ _ _ (hk_seg _ _ _ Hh) Ht) as H1; cbn [fst snd] in H1; rewrite <- E, Hsz in H1; lia).
  - cbn in Hf. subst p. rewrite Hf. rewrite Z.eqb_refl. right. exists fuel. split_and!; [lia|auto|done].
  - destruct (Z.eqb_spec p (freep h)) as [E|E]; [right; exists fuel; split_and!; [lia|auto|done]|].
    destruct (ring_step L A h Hh _ _ Hp) as [t Ht].
    destruct (IH fuel p ps (hptr (hm h) p) t) as [|(fuel' & Hfu & Hs & Heq)]; [done..|lia|by left|].
    right. exists fuel'. split_and!; [lia|done|done].
Qed.

(** After [morecore] the loop finds a block. *)
Lemma malloc_again L A h n fuel : heap_ok L A h -> 1 <= n -> fits n L h -> (Z.to_nat (brk h / 4 + 2) <= fuel)%nat ->
  took L A n h (malloc_loop grow fuel n (freep h) (hptr (hm h) (freep h)) h).
Proof.
  intros Hh Hn (t & Ht & Hfit) Hfuel. destruct (ring_step L A h Hh _ _ Ht) as [u Hu].
  destruct (ring_reach L A h Hh _ _ _ _ Hu Ht) as (k & Hk & Hf).
  destruct (malloc_search L A h n Hh Hn k fuel (freep h) t (hptr (hm h) (freep h)) u) as [|(fuel' & _ & Hs & _)]; try done.
  - unfold HEADER in Hk. zdm.
  - destruct Hfit as [Hle|(v & Hv & Hle)]; [specialize (Hs _ Ht); lia|].
    pose proof (hk_range _ _ _ Hh). unfold HEADER in *. destruct fuel as [|fuel]; [zdm|]. eapply (malloc_found fuel L A h (freep h) t _ v); eauto.
Qed.

(** *** More memory *)

Lemma PGROUNDUP_above x : 0 <= x <= KERNBASE -> x <= PGROUNDUP x.
Proof.
  intros Hx. unfold KERNBASE in Hx. rewrite PGROUNDUP_eq by (unfold PGSIZE; lia). unfold PGSIZE. zdm.
Qed.

(** The block the kernel has added at the end. *)
Lemma heap_ok_grow L A h m' nu : heap_ok L A h -> 1 <= nu -> brk h + HEADER * nu <= KERNBASE ->
  (forall x, x < brk h -> m' x = hm h x) -> hsize m' (brk h) = nu ->
  heap_ok L ((brk h, nu) :: A) (MkHeap m' (freep h) (brk h + HEADER * nu)).
Proof.
  intros Hh Hnu Hk Hm Hsz. pose proof (hk_range _ _ _ Hh) as [Hb0 Hbr].
  assert (forall b, b ∈ L ++ A -> same_header (hm h) m' b.1) as Hsame.
  { intros b Hb. destruct (ring_range L A h Hh b Hb) as (_ & H1 & H2 & _). unfold same_header, hptr, hsize, ld32, HEADER in *.
    split; f_equal; apply mread_ext; intros x Hx; apply Hm; lia. }
  split; cbn [hm freep brk].
  - apply (hk_head _ _ _ Hh).
  - eapply seg_frame; [|apply (hk_seg _ _ _ Hh)]. intros b Hb. apply Hsame, elem_of_app. by left.
  - constructor; [done|]. pose proof (hk_sizes _ _ _ Hh) as Hf. rewrite Forall_forall in *. intros b Hb.
    destruct (Hsame b) as [_ ->]; [apply elem_of_app; by right|auto].
  - eapply apart_permuted; [apply Permutation_middle|]. split; [|apply (hk_apart _ _ _ Hh)].
    rewrite Forall_forall. intros b Hb. destruct (ring_range L A h Hh b Hb) as (_ & _ & H2 & _). right. exact H2.
  - apply (hk_sorted _ _ _ Hh).
  - intros b Hb. assert (b = (brk h, nu) \/ b ∈ L ++ A) as [->|Hb'] by (revert Hb; rewrite !elem_of_app, elem_of_cons; tauto).
    + right. unfold heap_block, bend. cbn. unfold HEADER in *. lia.
    + destruct (hk_blocks _ _ _ Hh b Hb') as [|(H1 & H2 & H3)]; [by left|right]. split_and!; [done..|]. cbn. unfold HEADER in *. lia.
  - apply (hk_freep _ _ _ Hh).
  - unfold HEADER in *. lia.
Qed.

Lemma sbrk_spec n h : 0 < n < 2^31 -> 0 <= brk h <= KERNBASE ->
  sbrk grow n h = (u32 (-1), h) \/
  (exists m', sbrk grow n h = (brk h, MkHeap m' (freep h) (brk h + n)) /\ brk h + n < KERNBASE /\ forall x, x < brk h -> m' x = hm h x).
Proof.
  intros Hn Hb. unfold sbrk. rewrite (proj2 (Z.ltb_lt 0 n)) by lia. unfold KERNBASE in *. rewrite u32_small by lia.
  destruct (Z.leb_spec 0x80000000 (brk h + n)); [by left|]. destruct (Z.ltb_spec (brk h + n) (brk h)); [lia|].
  destruct (grow _ _); [|by left]. right. eexists. split_and!; [done|lia|].
  intros x Hx. apply mfill_out. pose proof (PGROUNDUP_above (brk h) Hb). lia.
Qed.

Lemma morecore_spec L A h n : heap_ok L A h -> 1 <= n -> HEADER * n < 2^31 ->
  morecore grow n h = Some (0, h) \/
  (exists L' h', morecore grow n h = Some (freep h', h') /\ heap_ok L' A h' /\ fits n L' h' /\
     brk h <= brk h' <= brk h + HEADER * (n + 4096) /\ HEADER * units L' = HEADER * units L + (brk h' - brk h) /\
     (forall x, x < brk h -> ~ inside x L -> hm h' x = hm h x) /\ (forall x, inside x L' -> inside x L \/ brk h <= x)).
Proof.
  intros Hh Hn1 Hn2. pose proof (hk_range _ _ _ Hh) as [Hb0 Hbr]. unfold morecore.
  set (nu := if n <? 4096 then 4096 else n). assert (n <= nu <= n + 4096 /\ HEADER * nu < 2^31) as [Hnu Hnu8].
  { unfold nu, HEADER in *. destruct (Z.ltb_spec n 4096); lia. }
  rewrite i32_small by (unfold HEADER in *; lia). rewrite (Z.mul_comm nu).
  destruct (sbrk_spec (HEADER * nu) h) as [->|(m' & -> & Hk & Hm)]; [unfold HEADER in *; lia..| |]; [by left|right].
  rewrite (proj2 (Z.eqb_neq (brk h) (u32 (-1)))) by (change (u32 (-1)) with 0xFFFFFFFF; unfold KERNBASE in *; lia).
  set (h1 := set_size (brk h) nu (MkHeap m' (freep h) (brk h + HEADER * nu))).
  assert (forall x, x < brk h -> hm h1 x = hm h x) as Hm1.
  { intros x Hx. rewrite <- Hm by done. apply (set_size_writes (brk h)). by left. }
  assert (heap_ok L ((brk h, nu) :: A) h1) as Hh1.
  { apply (heap_ok_grow L A h (hm h1) nu); [done|lia|lia|exact Hm1|]. apply hsize_set_size. unfold is_u32, HEADER in *. lia. }
  destruct (free_spec _ _ _ (brk h) nu A Hh1 ltac:(reflexivity)) as (L' & h' & Hf & Hh' & Hb' & Hu & Hw & Hin & (t & Ht & Hfit)).
  unfold hadd. rewrite u32_small by (unfold HEADER, KERNBASE in *; lia). rewrite Z.mul_1_r, Hf. exists L', h'.
  change (brk h1) with (brk h + HEADER * nu) in Hb'. split_and!; [done|done| |unfold HEADER in *; lia| | | |].
  - exists t. split; [done|]. destruct Hfit as [|(u & ? & ?)]; [left; lia|right; exists u; split; [done|lia]].
  - unfold HEADER in *. lia.
  - unfold HEADER in *. lia.
  - intros x Hx Hout. rewrite <- Hm1 by done. apply Hw. rewrite inside_cons. cbn. intros [|]; [lia|done].
  - intros x Hx. apply Hin, inside_cons in Hx as [Hx|]; [right; cbn in Hx; lia|by left].
Qed.

(** *** The functions *)

(** The heap of a program: well formed, or before the first call of [malloc]. *)
Definition heap_inv (L A : list block) (h : heap) : Prop :=
  heap_ok L A h \/ (freep h = 0 /\ L = [(base, 0)] /\ A = [] /\ 0 < base /\ base + HEADER <= brk h <= KERNBASE).

(** [base.s.ptr = freep = prevp = &base; base.s.size = 0;] *)
Lemma heap_init L A h : heap_inv L A h ->
  let h0 := if freep h =? 0 then set_size base 0 (set_freep base (set_ptr base base h)) else h in
  heap_ok L A h0 /\ brk h0 = brk h /\ writes_inside L (hm h) (hm h0).
Proof.
  intros [Hh|(Hf & -> & -> & Hb0 & Hbr)] h0; subst h0.
  - assert (freep h <> 0) as Hne.
    { destruct (hk_freep _ _ _ Hh) as [s Hs]. destruct (ring_range L A h Hh _ (proj2 (elem_of_app L A (freep h, s)) (or_introl Hs))) as [H _].
      pose proof (hk_range _ _ _ Hh). cbn in H. lia. }
    rewrite (proj2 (Z.eqb_neq _ _) Hne). done.
  - rewrite Hf. cbn [Z.eqb]. set (h1 := set_freep base (set_ptr base base h)).
    assert (writes_header base (hm h) (hm (set_size base 0 h1))) as Hw
      by (eapply writes_trans; [apply (set_ptr_writes base base)|apply (set_size_writes base 0 h1)]).
    split_and!; [|done|eapply writes_header_inside; [left|exact Hw]]. split; cbn [freep brk set_size]; try done.
    + by exists [].
    + cbn [seg fst snd next]. split_and!; [|by apply (hsize_set_size base 0 h1)|done].
      rewrite hptr_set_size. apply hptr_set_ptr. unfold is_u32, HEADER, KERNBASE in *. lia.
    + repeat constructor.
    + intros b Hb. left. by apply list_elem_of_singleton in Hb.
    + exists 0. left.
Qed.

Lemma malloc_units_spec nbytes : 0 <= nbytes <= 2^31 - 16 ->
  1 <= malloc_units nbytes /\ HEADER * malloc_units nbytes < 2^31 /\ nbytes <= HEADER * (malloc_units nbytes - 1).
Proof.
  intros Hn. unfold malloc_units, HEADER. rewrite (u32_small (nbytes + 8 - 1)) by lia. rewrite u32_small; zdm.
Qed.

(** What [malloc] leaves. *)
Definition malloc_post (L A : list block) (nbytes : Z) (h : heap) (o : option (Z * heap)) : Prop :=
  exists r h', o = Some (r, h') /\ (forall x, x < brk h -> ~ inside x L -> hm h' x = hm h x) /\
    (r = 0 /\ heap_ok L A h' /\ brk h' = brk h \/
     exists L' u, heap_ok L' ((r - HEADER, u) :: A) h' /\ 0 < r /\ nbytes <= HEADER * (u - 1) /\
       (forall b, b ∈ A -> r + nbytes <= b.1 \/ bend b <= r - HEADER) /\
       HEADER * (units L' + u) = HEADER * units L + (brk h' - brk h)).

(** Taking a block from the ring [L1] that came from [L]. *)
Lemma malloc_done L A nbytes h L1 h1 n o :
  took L1 A n h1 o -> nbytes <= HEADER * (n - 1) -> 1 <= n ->
  (forall x, x < brk h -> ~ inside x L -> hm h1 x = hm h x /\ ~ inside x L1) ->
  HEADER * units L1 = HEADER * units L + (brk h1 - brk h) -> malloc_post L A nbytes h o.
Proof.
  intros (r & h' & L' & -> & Hok & Hun & Hw1 & Hb' & Hr) Hn Hn1 Hfr Hc. exists r, h'. split_and!; [done| |right; exists L', n; split_and!]; try done.
  - intros x Hx Hout. destruct (Hfr x Hx Hout) as [E1 Hout1]. rewrite <- E1. by apply Hw1.
  - intros b Hin. assert (disj (r - HEADER, n) b) as [Hd|Hd]; [|left|right]; unfold bend, HEADER in *; cbn in *; [|lia|lia].
    eapply apart_in; [|exact (proj2 (elem_of_app L' A b) (or_intror Hin))]. eapply apart_permuted; [|apply (hk_apart _ _ _ Hok)].
    symmetry. apply Permutation_middle.
  - unfold HEADER in *. lia.
Qed.

Lemma freep_nonzero L A h : heap_ok L A h -> freep h <> 0.
Proof.
  intros Hh. destruct (hk_freep _ _ _ Hh) as [s Hs].
  destruct (ring_range L A h Hh _ (proj2 (elem_of_app L A (freep h, s)) (or_introl Hs))) as [H _].
  pose proof (hk_range _ _ _ Hh). cbn in H. lia.
Qed.

(** C20: [malloc] returns a block of its own.  In a program whose heap is well
    formed it always returns: a null pointer, with every block as before, when
    the kernel has no memory, or a pointer to at least the bytes asked for, in a
    block that overlaps none of the blocks in use.  The ring of free blocks stays
    in order, the free blocks and the blocks in use together make up the memory
    got from the kernel, and the memory outside the free blocks is not touched. *)
Theorem malloc_correct L A nbytes h :
  heap_inv L A h -> 0 <= nbytes <= 2^31 - 16 ->
  exists r h', malloc base grow nbytes h = Some (r, h') /\
    (forall x, x < brk h -> ~ inside x L -> hm h' x = hm h x) /\
    (r = 0 /\ heap_ok L A h' /\ brk h' = brk h \/
     exists L' u, heap_ok L' ((r - HEADER, u) :: A) h' /\ 0 < r /\ nbytes <= HEADER * (u - 1) /\
       (forall b, b ∈ A -> r + nbytes <= b.1 \/ bend b <= r - HEADER) /\
       HEADER * (units L' + u) = HEADER * units L + (brk h' - brk h)).
Proof.
  intros Hinv Hn. change (malloc_post L A nbytes h (malloc base grow nbytes h)).
  destruct (heap_init _ _ _ Hinv) as (Hh & Hb & Hw). unfold malloc.
  set (h0 := if freep h =? 0 then _ else h) in *. clear Hinv.
  destruct (malloc_units_spec _ Hn) as (Hu1 & Hu2 & Hu3). set (n := malloc_units nbytes) in *.
  pose proof (hk_range _ _ _ Hh) as [Hb0 Hbr]. unfold HEADER in Hbr.
  destruct (hk_freep _ _ _ Hh) as [fs Hfs]. destruct (ring_step L A h0 Hh _ _ Hfs) as [u Hu].
  destruct (ring_reach L A h0 Hh _ _ _ _ Hu Hfs) as (k & Hk & Hf). unfold HEADER in Hk.
  destruct (malloc_search L A h0 n Hh Hu1 k (malloc_fuel n h0) (freep h0) fs (hptr (hm h0) (freep h0)) u) as [Ht|(fuel' & Hfu & _ & ->)]; try done.
  - unfold malloc_fuel. zdm.
  - apply (malloc_done _ _ _ _ L h0 n); [done..| |lia]. auto.
  - destruct (morecore_spec L A h0 n Hh Hu1 Hu2) as [->|(L1 & h1 & -> & Hh1 & Hfit & Hb1 & Hun & Hfr & Hin)].
    + exists 0, h0. cbn [Z.eqb]. split_and!; [done|auto|by left].
    + rewrite (proj2 (Z.eqb_neq _ _) (freep_nonzero _ _ _ Hh1)).
      apply (malloc_done _ _ _ _ L1 h1 n); [apply malloc_again|done|done| |lia]; try done.
      * unfold malloc_fuel, HEADER in *. zdm.
      * rewrite <- Hb. intros x Hx Hout. rewrite Hfr by done. split; [by apply Hw|]. intros [|]%Hin; [done|lia].
Qed.

(** C21: [free] gives a block back.  For a block in use it returns, and the block
    is part of the free ones, merged with free neighbours; the other blocks in
    use, and all memory outside the free blocks, keep their contents, and a later
    [malloc] of the same size finds it without asking the kernel. *)
Theorem free_correct L A h bp s A' :
  heap_ok L A h -> A ≡ₚ (bp, s) :: A' ->
  exists L' h', free (bp + HEADER) h = Some h' /\ heap_ok L' A' h' /\ brk h' = brk h /\ units L' = units L + s /\
    (forall x, ~ inside x ((bp, s) :: L) -> hm h' x = hm h x) /\
    (forall fuel, (Z.to_nat (brk h / 4 + 2) <= fuel)%nat ->
       exists r h2 L2, malloc_loop grow fuel s (freep h') (hptr (hm h') (freep h')) h' = Some (r, h2) /\
         heap_ok L2 ((r - HEADER, s) :: A') h2 /\ brk h2 = brk h).
Proof.
  intros Hh HA. pose proof (used_block L A h Hh bp s A' HA) as (Hs1 & _ & _). cbn in Hs1.
  destruct (free_spec _ _ _ _ _ _ Hh HA) as (L' & h' & Hf & Hh' & Hb & Hu & Hw & _ & Hfit).
  exists L', h'. split_and!; try done. intros fuel Hfuel.
  destruct (malloc_again L' A' h' s fuel Hh' Hs1 Hfit) as (r & h2 & L2 & E & Hok & _ & _ & Hb2 & _); [by rewrite Hb|].
  exists r, h2, L2. split_and!; [done|done|lia].
Qed.

End Heap.

(** ** A small program *)

(** A program of three pages whose [base] is at the start of the third, before its
    first call of [malloc], and the same program with one block in use. *)
Definition sample_heap : heap := MkHeap (fun _ => 0) 0 0x3000.
Definition sample_used : heap :=
  let h := set_size 0x2000 0 (set_freep 0x2000 (set_ptr 0x2000 0x2000 sample_heap)) in
  MkHeap (st32 (hm h) 0x3004 512) (freep h) 0x4000.

Lemma sample_heap_inv : heap_inv 0x2000 [(0x2000, 0)] [] sample_heap.
Proof. right. split_and!; done. Qed.

Lemma sample_used_ok : heap_ok 0x2000 [(0x2000, 0)] [(0x3000, 512)] sample_used.
Proof.
  destruct (heap_init 0x2000 _ _ _ sample_heap_inv) as (Hh & _ & _). cbn [sample_heap freep Z.eqb] in Hh.
  apply (heap_ok_grow 0x2000 (fun _ _ => true) [(0x2000, 0)] [] _ (hm sample_used) 512 Hh); try done.
  intros x Hx. change (brk _) with 0x3000 in Hx. apply mwrite_out. cbn. lia.
Qed.

Lemma malloc_correct_witness : exists r h' L' u,
  malloc 0x2000 (fun _ _ => true) 4096 sample_heap = Some (r, h') /\ heap_ok 0x2000 L' [(r - HEADER, u)] h' /\ 4096 <= HEADER * (u - 1).
Proof.
  destruct (malloc_correct 0x2000 (fun _ _ => true) [(0x2000, 0)] [] 4096 sample_heap) as (r & h' & E & _ & H).
  - exact sample_heap_inv.
  - lia.
  - destruct H as [(-> & _)|(L' & u & H1 & _ & H2 & _)].
    + exfalso. assert (option_map fst (malloc 0x2000 (fun _ _ => true) 4096 sample_heap) = Some 0) as H by (by rewrite E).
      vm_compute in H. discriminate H.
    + exists r, h', L', u. exact (conj E (conj H1 H2)).
Defined.

Lemma free_correct_witness : exists L' h',
  free 0x3008 sample_used = Some h' /\ heap_ok 0x2000 L' [] h' /\ units L' = 512.
Proof.
  destruct (free_correct 0x2000 (fun _ _ => false) [(0x2000, 0)] [(0x3000, 512)] sample_used 0x3000 512 []) as (L' & h' & E & H1 & _ & H2 & _).
  - exact sample_used_ok.
  - reflexivity.
  - exists L', h'. exact (conj E (conj H1 H2)).
Defined.

(** A request close to 2^32 wraps around to the header alone. *)
Lemma malloc_units_wraps : malloc_units 0xFFFFFFFF = 1.
Proof. reflexivity. Qed.
