(* ===== verification/Grep.v ===== *)
(** * Searching lines for a pattern (grep.c)

    The matcher of Kernighan and Pike with the operators ^ . * $, proved equal to
    a declarative meaning of patterns, and the loop that reads a file into a
    buffer and writes the lines that match.  Strings are lists of characters
    without the NUL that ends them. *)

From S2P Require Import Prelude State Mem Spinlock Sched SchedFacts Ide Bio Log Inode Kalloc Vm Kbd Console.

Definition CH_CARET : Z := 94.
Definition CH_DOT : Z := 46.
Definition CH_STAR : Z := 42.
Definition CH_DOLLAR : Z := 36.
Definition CH_NL : Z := 10.

Module Grep.

(** Search for c*re at beginning of text: a match of [re], given by [here], after
    any number of characters that are [c], or any characters if [c] is a dot. *)
Fixpoint matchstar (here : list Z -> bool) (c : Z) (text : list Z) : bool :=
  here text ||
  match text with
  | [] => false
  | t :: text => ((t =? c) || (c =? CH_DOT)) && matchstar here c text
  end.

(** Search for re at beginning of text. *)
Fixpoint matchhere (re text : list Z) : bool :=
  match re with
  | [] => true
  | c :: re1 =>
    let plain :=
      if (c =? CH_DOLLAR) && bool_decide (re1 = []) then bool_decide (text = [])
      else
        match text with
        | [] => false
        | t :: text => ((c =? CH_DOT) || (c =? t)) && matchhere re1 text
        end in
    match re1 with
    | d :: re2 => if d =? CH_STAR then matchstar (matchhere re2) c text else plain
    | [] => plain
    end
  end.

(** The loop of [match] over the suffixes of the text, the empty one included. *)
Fixpoint match_any (re text : list Z) : bool :=
  matchhere re text || match text with [] => false | _ :: text => match_any re text end.

Definition match_ (re text : list Z) : bool :=
  match re with
  | c :: re1 => if c =? CH_CARET then matchhere re1 text else match_any re text
  | [] => match_any re text
  end.

(** [strchr(s, c)] of ulib.c: the offset of [c], before the end of the string. *)
Fixpoint strchr (s : list Z) (c : Z) : option nat :=
  match s with
  | [] => None
  | x :: s => if x =? 0 then None else if x =? c then Some O else S <$> strchr s c
  end.

(** [while((q = strchr(p, '\n')) != 0)]: what is written, and the rest of the
    buffer from [p] on. *)
Fixpoint grep_lines (fuel : nat) (pattern p : list Z) : list Z * list Z :=
  match fuel with
  | O => ([], p)
  | S fuel =>
    match strchr p CH_NL with
    | None => ([], p)
    | Some k =>
      let '(out, rest) := grep_lines fuel pattern (drop (S k) p) in
      ((if match_ pattern (take k p) then take (S k) p else []) ++ out, rest)
    end
  end.

(** [while((n = read(fd, buf+m, sizeof(buf)-m-1)) > 0)]: [reads] is what the
    calls of [read] return until the end of the file, [buf] the first [m] bytes
    of the buffer.  When no line was complete ([p == buf]) the text is dropped. *)
Fixpoint grep_loop (pattern buf : list Z) (reads : list (list Z)) : list Z :=
  match reads with
  | [] => []
  | [] :: _ => []
  | chunk :: reads =>
    let buf := buf ++ chunk in
    let '(out, p) := grep_lines (length buf) pattern buf in
    out ++ grep_loop pattern (if (length p =? length buf)%nat then [] else p) reads
  end.

Definition grep (pattern : list Z) (reads : list (list Z)) : list Z := grep_loop pattern [] reads.

End Grep.

(** ** The meaning of patterns *)

Module GrepFacts.
Import Grep.

(** A pattern is a sequence of characters, each once or repeated, possibly
    anchored at the end. *)
Inductive item := One (c : Z) | Many (c : Z).

Fixpoint items (re : list Z) : list item * bool :=
  match re with
  | [] => ([], false)
  | c :: re1 =>
    let plain :=
      if (c =? CH_DOLLAR) && bool_decide (re1 = []) then ([], true)
      else let '(l, e) := items re1 in (One c :: l, e) in
    match re1 with
    | d :: re2 => if d =? CH_STAR then let '(l, e) := items re2 in (Many c :: l, e) else plain
    | [] => plain
    end
  end.

(** The dot stands for every character. *)
Definition stands_for (c t : Z) : Prop := c = CH_DOT \/ c = t.

(** The texts a sequence of items stands for. *)
Inductive lang : list item -> list Z -> Prop :=
  | lang_nil : lang [] []
  | lang_one c t l text : stands_for c t -> lang l text -> lang (One c :: l) (t :: text)
  | lang_many c run l text : Forall (stands_for c) run -> lang l text -> lang (Many c :: l) (run ++ text).

(** The text begins with a match, which is all of it if the pattern is anchored
    at the end. *)
Definition begins (p : list item * bool) (text : list Z) : Prop :=
  exists mid post, text = mid ++ post /\ lang p.1 mid /\ (p.2 = true -> post = []).

Lemma stands_for_test c t : (c =? CH_DOT) || (c =? t) = true <-> stands_for c t.
Proof. rewrite orb_true_iff, !Z.eqb_eq. done. Qed.

Lemma matchstar_spec here c text (P : list Z -> Prop) : (forall s, here s = true <-> P s) ->
  matchstar here c text = true <-> exists run rest, text = run ++ rest /\ Forall (stands_for c) run /\ P rest.
Proof.
  intros Hh. induction text as [|t text IH]; cbn; rewrite orb_true_iff, Hh.
  - split.
    + intros [H|]; [|done]. exists [], []. auto.
    + intros ([|] & rest & E & _ & H); [|done]. left. cbn in E. by subst.
  - rewrite andb_true_iff, IH. split.
    + intros [H|[Hc (run & rest & -> & Hf & H)]]; [by exists [], (t :: text)|].
      exists (t :: run), rest. split_and!; [done| |done]. constructor; [|done]. apply stands_for_test.
      by rewrite orb_comm, (Z.eqb_sym c t).
    + intros ([|r run] & rest & E & Hf & H); [left; by rewrite E|]. injection E as -> ->. apply Forall_cons in Hf as [Hr Hf].
      right. split; [|eauto]. apply stands_for_test in Hr. by rewrite orb_comm, (Z.eqb_sym r c).
Qed.

Lemma begins_one c l e text : begins (One c :: l, e) text <-> exists t rest, text = t :: rest /\ stands_for c t /\ begins (l, e) rest.
Proof.
  unfold begins. cbn. split.
  - intros (mid & post & -> & H & He). inversion H; subst. eexists _, _. split_and!; [done..|]. eauto.
  - intros (t & rest & -> & Ht & mid & post & -> & H & He). exists (t :: mid), post. split_and!; [done|by constructor|done].
Qed.

Lemma begins_many c l e text :
  begins (Many c :: l, e) text <-> exists run rest, text = run ++ rest /\ Forall (stands_for c) run /\ begins (l, e) rest.
Proof.
  unfold begins. cbn. split.
  - intros (mid & post & -> & H & He). inversion H; subst. eexists run, _. split_and!; [by rewrite <- app_assoc|done|]. eauto.
  - intros (run & rest & -> & Ht & mid & post & -> & H & He). exists (run ++ mid), post. split_and!; [by rewrite app_assoc|by constructor|done].
Qed.

Lemma matchhere_spec re text : matchhere re text = true <-> begins (items re) text.
Proof.
  remember (length re) as n eqn:En. revert re text En. induction (lt_wf n) as [n _ IH]. intros re text ->.
  destruct re as [|c re1].
  - cbn. split; [|done]. intros _. exists [], text. split_and!; [done|constructor|done].
  - cbn [matchhere items].
    assert (forall b, (if (c =? CH_DOLLAR) && bool_decide (re1 = []) then bool_decide (text = [])
      else match text with [] => false | t :: text => ((c =? CH_DOT) || (c =? t)) && matchhere re1 text end) = b ->
      b = true <-> begins (if (c =? CH_DOLLAR) && bool_decide (re1 = []) then ([], true) else let '(l, e) := items re1 in (One c :: l, e)) text) as Hplain.
    { intros b <-. destruct ((c =? CH_DOLLAR) && bool_decide (re1 = [])).
      - rewrite bool_decide_eq_true. unfold begins. cbn. split.
        + intros ->. exists [], []. split_and!; [done|constructor|done].
        + intros (mid & post & -> & H & He). inversion H; subst. cbn. auto.
      - destruct (items re1) as [l e] eqn:Ei. rewrite begins_one. destruct text as [|t text].
        + split; [done|]. by intros (? & ? & ? & _).
        + rewrite andb_true_iff, stands_for_test, (IH (length re1)), Ei by (cbn; lia || done). split.
          * intros [H1 H2]. eauto.
          * intros (t' & rest & [= <- <-] & H1 & H2). auto. }
    destruct re1 as [|d re2]; [by apply Hplain|]. destruct (d =? CH_STAR); [|by apply Hplain].
    destruct (items re2) as [l e] eqn:Ei. rewrite begins_many. apply matchstar_spec. intros s.
    rewrite (IH (length re2)), Ei by (cbn; lia || done). done.
Qed.

(** C28: the matcher of grep finds exactly the texts a pattern stands for.  A text
    matches if some part of it is a sequence of characters as the pattern lists
    them, a dot standing for any character and a starred one for a run of any
    length; the part is at the start if the pattern begins with ^, and at the end
    if it ends with $. *)
Theorem match_meaning re text :
  match_ re text = true <->
  (exists pre mid post, text = pre ++ mid ++ post /\
    match re with
    | c :: re1 =>
      if c =? CH_CARET then pre = [] /\ lang (items re1).1 mid /\ ((items re1).2 = true -> post = [])
      else lang (items re).1 mid /\ ((items re).2 = true -> post = [])
    | [] => mid = []
    end).
Proof.
  assert (match_any re text = true <-> exists pre rest, text = pre ++ rest /\ begins (items re) rest) as Hany.
  { induction text as [|t text IH]; cbn [match_any]; rewrite orb_true_iff, matchhere_spec.
    - split; [intros [H|]; [by exists [], []|done]|]. intros ([|] & rest & E & H); [|done]. left. cbn in E. by subst.
    - rewrite IH. split.
      + intros [H|(pre & rest & -> & H)]; [by exists [], (t :: text)|by exists (t :: pre), rest].
      + intros ([|p pre] & rest & E & H); [left; by rewrite E|right]. injection E as _ ->. eauto. }
  assert (match_any re text = true <-> exists pre mid post, text = pre ++ mid ++ post /\ lang (items re).1 mid /\ ((items re).2 = true -> post = [])) as Hany'.
  { rewrite Hany. split.
    - intros (pre & rest & -> & mid & post & -> & H1 & H2). eauto 6.
    - intros (pre & mid & post & -> & H1 & H2). exists pre, (mid ++ post). split; [done|]. by exists mid, post. }
  unfold match_. destruct re as [|c re1].
  - rewrite Hany'. cbn. split; intros (pre & mid & post & -> & H).
    + destruct H as [H _]. inversion H; subst. by exists pre, [], post.
    + subst mid. exists pre, [], post. split_and!; [done|constructor|done].
  - destruct (c =? CH_CARET); [|exact Hany']. rewrite matchhere_spec. split.
    + intros (mid & post & -> & H1 & H2). exists [], mid, post. auto.
    + intros (pre & mid & post & -> & -> & H1 & H2). exists mid, post. auto.
Qed.

(** ** Lines *)

(** Lines with the newlines that end them. *)
Fixpoint unlines (ls : list (list Z)) : list Z :=
  match ls with
  | [] => []
  | l :: ls => l ++ CH_NL :: unlines ls
  end.

(** The text is the complete lines [ls] and the beginning [rest] of another. *)
Definition has_lines (text : list Z) (ls : list (list Z)) (rest : list Z) : Prop :=
  text = unlines ls ++ rest /\ Forall (fun l => CH_NL ∉ l) ls /\ CH_NL ∉ rest.

Lemma unlines_app l1 l2 : unlines (l1 ++ l2) = unlines l1 ++ unlines l2.
Proof. induction l1 as [|l l1 IH]; cbn; [done|]. by rewrite IH, <- app_assoc. Qed.

Lemma has_lines_exists text : exists ls rest, has_lines text ls rest.
Proof.
  induction text as [|c text (ls & rest & -> & Hls & Hr)].
  - exists [], []. split_and!; [done|constructor|apply not_elem_of_nil].
  - destruct (decide (c = CH_NL)) as [->|Hc].
    + exists ([] :: ls), rest. split_and!; [done| |done]. constructor; [apply not_elem_of_nil|done].
    + destruct ls as [|l ls].
      * exists [], (c :: rest). split_and!; [done|constructor|]. rewrite not_elem_of_cons. auto.
      * apply Forall_cons in Hls as [Hl Hls]. exists ((c :: l) :: ls), rest. split_and!; [done| |done]. constructor; [|done].
        rewrite not_elem_of_cons. auto.
Qed.

(** The first newline ends the first line. *)
Lemma first_line l l' t t' : CH_NL ∉ l -> CH_NL ∉ l' -> l ++ CH_NL :: t = l' ++ CH_NL :: t' -> l = l' /\ t = t'.
Proof.
  revert l'. induction l as [|c l IH]; intros [|c' l'] H H'; cbn.
  - by intros [= ->].
  - intros [= <- _]. destruct H'. left.
  - intros [= -> _]. destruct H. left.
  - intros [= <- E]. rewrite not_elem_of_cons in *. destruct (IH l') as [-> ->]; tauto.
Qed.

Lemma has_lines_more text text' ls ls' r r' :
  has_lines text ls r -> has_lines (text ++ text') ls' r' -> exists ls2, ls' = ls ++ ls2 /\ has_lines (r ++ text') ls2 r'.
Proof.
  intros (-> & Hls & Hr) (E & Hls' & Hr'). rewrite <- app_assoc in E. revert ls' E Hls'.
  induction Hls as [|l ls Hl Hls IH]; intros ls' E Hls'; [by exists ls'|].
  destruct ls' as [|l' ls'].
  - exfalso. cbn in E. apply Hr'. rewrite <- E. rewrite !elem_of_app, elem_of_cons. auto.
  - apply Forall_cons in Hls' as [Hl' Hls']. cbn in E. rewrite <- !app_assoc in E. cbn in E.
    apply first_line in E as [-> E]; [|done..]. destruct (IH ls' E Hls') as (ls2 & -> & H). by exists ls2.
Qed.

Lemma strchr_none s c : c ∉ s -> strchr s c = None.
Proof.
  induction s as [|x s IH]; cbn; [done|]. rewrite not_elem_of_cons. intros [Hx Hs]. destruct (x =? 0); [done|].
  destruct (Z.eqb_spec x c); [congruence|]. by rewrite IH.
Qed.

Lemma strchr_found l s c : c ∉ l -> 0 ∉ l -> c <> 0 -> strchr (l ++ c :: s) c = Some (length l).
Proof.
  intros Hc H0 Hne. induction l as [|x l IH]; cbn.
  - destruct (Z.eqb_spec c 0); [done|]. by rewrite Z.eqb_refl.
  - rewrite not_elem_of_cons in *. destruct (Z.eqb_spec x 0); [lia|]. destruct (Z.eqb_spec x c); [lia|]. rewrite IH; [done|tauto|tauto].
Qed.

Lemma grep_lines_spec pattern ls r : Forall (fun l => CH_NL ∉ l) ls -> CH_NL ∉ r -> forall fuel,
  0 ∉ unlines ls ++ r -> (length ls <= fuel)%nat ->
  grep_lines fuel pattern (unlines ls ++ r) = (unlines (filter (fun l => match_ pattern l = true) ls), r).
Proof.
  intros Hls Hr. induction Hls as [|l ls Hl Hls IH]; intros fuel H0 Hfuel.
  - destruct fuel; cbn; [done|]. by rewrite strchr_none.
  - destruct fuel as [|fuel]; cbn in Hfuel; [lia|]. cbn [unlines grep_lines]. cbn [unlines] in H0. rewrite <- app_assoc in *. cbn [app] in *.
    rewrite elem_of_app, elem_of_cons in H0. rewrite strchr_found by (done || tauto).
    replace (S (length l)) with (length (l ++ [CH_NL])) by (rewrite length_app; cbn; lia).
    rewrite (app_assoc l [CH_NL] (unlines ls ++ r)) at 1. rewrite drop_app_length. rewrite IH by (lia || tauto).
    rewrite take_app_length. rewrite (app_assoc l [CH_NL] (unlines ls ++ r) : l ++ CH_NL :: _ = _), take_app_length.
    rewrite filter_cons. destruct (match_ pattern l) eqn:E; [rewrite decide_True by done|rewrite decide_False by congruence]; [|done].
    cbn [unlines]. by rewrite <- app_assoc.
Qed.

Lemma unlines_length ls : (length ls <= length (unlines ls))%nat.
Proof. induction ls as [|l ls IH]; cbn; [lia|]. rewrite length_app. cbn. lia. Qed.

(** The pure loop writes the lines that match.  When every read brings at least one
    newline, and the text has no NUL, the output is the lines of the text that
    match the pattern, each with its newline, in their order, however the text is
    split over the reads. *)
Theorem grep_matching_lines pattern reads ls rest :
  Forall (fun chunk => CH_NL ∈ chunk /\ 0 ∉ chunk) reads -> has_lines (concat reads) ls rest ->
  grep pattern reads = unlines (filter (fun l => match_ pattern l = true) ls).
Proof.
  intros Hreads Hlines. unfold grep. change (concat reads) with ([] ++ concat reads) in Hlines.
  assert (CH_NL ∉ []) as Hb by apply not_elem_of_nil. assert (0 ∉ []) as H0 by apply not_elem_of_nil.
  revert Hlines Hb H0. generalize (@nil Z) as buf. revert ls.
  induction Hreads as [|chunk reads [Hnl Hz] Hreads IH]; intros ls buf Hlines Hb H0.
  - destruct Hlines as (E & Hls & Hr). destruct ls as [|l ls]; [done|]. exfalso. apply Hb. rewrite app_nil_r in E. rewrite E. cbn.
    rewrite !elem_of_app, elem_of_cons. auto.
  - destruct chunk as [|c chunk']; [by apply elem_of_nil in Hnl|]. set (chunk := c :: chunk') in *. cbn [concat] in Hlines.
    rewrite app_assoc in Hlines. destruct (has_lines_exists (buf ++ chunk)) as (ls1 & r1 & Hl1).
    destruct (has_lines_more _ _ _ _ _ _ Hl1 Hlines) as (ls2 & -> & Hl2). destruct Hl1 as (E1 & Hls1 & Hr1).
    cbn [grep_loop]. fold chunk. rewrite E1.
    assert (0 ∉ unlines ls1 ++ r1) as Hz1 by (rewrite <- E1, elem_of_app; tauto).
    rewrite grep_lines_spec; [|done..|rewrite length_app; pose proof (unlines_length ls1); lia].
    rewrite filter_app, unlines_app. f_equal.
    assert (length r1 <> length (unlines ls1 ++ r1)) as Hne.
    { rewrite length_app. destruct ls1 as [|l ls1].
      - exfalso. cbn in E1. apply Hr1. rewrite <- E1, elem_of_app. auto.
      - pose proof (unlines_length (l :: ls1)). cbn in *. lia. }
    apply Nat.eqb_neq in Hne. rewrite Hne. apply IH; [exact Hl2|done|]. intros Hin. apply Hz1, elem_of_app. auto.
Qed.

Lemma grep_matching_lines_sample :
  grep (chars "^a.*d$") [chars "abc" ++ [10] ++ chars "ab"; chars "cd" ++ [10]] =
  unlines (filter (fun l => match_ (chars "^a.*d$") l = true) [chars "abc"; chars "abcd"]).
Proof.
  apply (grep_matching_lines (chars "^a.*d$") [chars "abc" ++ [10] ++ chars "ab"; chars "cd" ++ [10]] [chars "abc"; chars "abcd"] []).
  - repeat constructor; vm_compute; set_solver.
  - split; [reflexivity|]. split; [|apply not_elem_of_nil]. repeat constructor; vm_compute; set_solver.
Defined.

(** A line that arrives in two reads, the first without a newline, is lost. *)
Lemma grep_loses_line :
  grep (chars "hello") [chars "hel"; chars "lo" ++ [10]] = [] /\
  grep (chars "hello") [chars "hello" ++ [10]] = chars "hello" ++ [10].
Proof. split; vm_compute; reflexivity. Qed.

End GrepFacts.
