(* ===== verification/Sh.v ===== *)
(** * The shell's parser (sh.c)

    A line is a list of characters without the NUL that ends it.  A pointer into
    it is the rest of the line from there on, and is kept in a command as the
    length of that rest; [nulterminate] then ends the words in the line itself.
    The memory of the nodes comes from malloc, which the shell takes to succeed. *)

From S2P Require Import Prelude State Mem Spinlock Sched SchedFacts Ide Bio Log Inode Kalloc Vm Kbd Console Fs Pipe File Proc Exec Syscall.

Definition CH_LT : Z := 60.
Definition CH_GT : Z := 62.
Definition CH_BAR : Z := 124.
Definition CH_AMP : Z := 38.
Definition CH_SEMI : Z := 59.
Definition CH_LPAR : Z := 40.
Definition CH_RPAR : Z := 41.
Definition CH_PLUS : Z := 43.
Definition CH_a : Z := 97.

Module Sh.

Definition MAXARGS : nat := 10.

(** Commands, with words of type [W]: [struct execcmd], [redircmd], [pipecmd],
    [listcmd] and [backcmd]. *)
Inductive cmd (W : Type) :=
  | EXEC (argv : list W)
  | REDIR (c : cmd W) (file : W) (mode fd : Z)
  | PIPE (left right : cmd W)
  | LIST (left right : cmd W)
  | BACK (c : cmd W).

#[global] Arguments EXEC {W}.
#[global] Arguments REDIR {W}.
#[global] Arguments PIPE {W}.
#[global] Arguments LIST {W}.
#[global] Arguments BACK {W}.

(** [q] and [eq]: where a word starts and ends, as the length of the rest. *)
Definition word : Type := nat * nat.

(** What ends the parse early: the message of [panic], text after the command,
    or too little fuel. *)
Inductive perr := Panic (msg : string) | Leftovers (s : list Z) | OutOfFuel.

Definition whitespace : list Z := [32; 9; 13; 10; 11].
Definition symbols : list Z := [CH_LT; CH_BAR; CH_GT; CH_AMP; CH_SEMI; CH_LPAR; CH_RPAR].

(** [strchr(l, c)] as a test. *)
Definition inset (l : list Z) (c : Z) : bool := existsb (Z.eqb c) l.

(** [while(s < es && strchr(whitespace, *s)) s++;] *)
Fixpoint skip (s : list Z) : list Z :=
  match s with
  | c :: s' => if inset whitespace c then skip s' else s
  | [] => []
  end.

(** [while(s < es && !strchr(whitespace, *s) && !strchr(symbols, *s)) s++;] *)
Fixpoint skip_word (s : list Z) : list Z :=
  match s with
  | c :: s' => if inset whitespace c || inset symbols c then s else skip_word s'
  | [] => []
  end.

(** The token, where it starts and ends, and the rest of the line after it. *)
Definition gettoken (s : list Z) : Z * word * list Z :=
  let q := skip s in
  let '(ret, eq) :=
    match q with
    | [] => (0, q)
    | c :: s' =>
      if inset [CH_BAR; CH_LPAR; CH_RPAR; CH_SEMI; CH_AMP; CH_LT] c then (c, s')
      else if c =? CH_GT then
        match s' with
        | d :: s'' => if d =? CH_GT then (CH_PLUS, s'') else (c, s')
        | [] => (c, s')
        end
      else (CH_a, skip_word q)
    end in
  (ret, (length q, length eq), skip eq).

Definition peek (s : list Z) (toks : list Z) : bool * list Z :=
  let s := skip s in
  (match s with c :: _ => inset toks c | [] => false end, s).

(** [while(peek(ps, es, "<>"))] *)
Fixpoint parseredirs (fuel : nat) (c : cmd word) (s : list Z) : perr + cmd word * list Z :=
  let '(b, s) := peek s [CH_LT; CH_GT] in
  if b then
    match fuel with
    | O => inl OutOfFuel
    | S fuel =>
      let '(tok, _, s) := gettoken s in
      let '(tok2, w, s) := gettoken s in
      if negb (tok2 =? CH_a) then inl (Panic "missing file for redirection")
      else if tok =? CH_LT then parseredirs fuel (REDIR c w O_RDONLY 0) s
      else parseredirs fuel (REDIR c w (Z.lor O_WRONLY O_CREATE) 1) s
    end
  else inr (c, s).

(** The command [parseexec] builds: the redirections around the node whose
    argument vector is filled in last. *)
Fixpoint set_argv (argv : list word) (c : cmd word) : cmd word :=
  match c with
  | REDIR c w mode fd => REDIR (set_argv argv c) w mode fd
  | EXEC _ => EXEC argv
  | c => c
  end.

(** [while(!peek(ps, es, "|)&;"))]; [argv] has the words so far. *)
Fixpoint parseargs (fuel : nat) (argv : list word) (ret : cmd word) (s : list Z) : perr + cmd word * list Z :=
  let '(b, s) := peek s [CH_BAR; CH_RPAR; CH_AMP; CH_SEMI] in
  if b then inr (set_argv argv ret, s)
  else
    let '(tok, w, s') := gettoken s in
    if tok =? 0 then inr (set_argv argv ret, s')
    else if negb (tok =? CH_a) then inl (Panic "syntax")
    else
      let argv := argv ++ [w] in
      if (MAXARGS <=? length argv)%nat then inl (Panic "too many args")
      else
        match fuel with
        | O => inl OutOfFuel
        | S fuel =>
          match parseredirs (length s') ret s' with
          | inl e => inl e
          | inr (ret, s) => parseargs fuel argv ret s
          end
        end.

(** [while(peek(ps, es, "&"))] *)
Fixpoint parseback (fuel : nat) (c : cmd word) (s : list Z) : perr + cmd word * list Z :=
  let '(b, s) := peek s [CH_AMP] in
  if b then
    match fuel with
    | O => inl OutOfFuel
    | S fuel => let '(_, _, s) := gettoken s in parseback fuel (BACK c) s
    end
  else inr (c, s).

Fixpoint parseline (fuel : nat) (s : list Z) : perr + cmd word * list Z :=
  match fuel with
  | O => inl OutOfFuel
  | S fuel =>
    match parsepipe fuel s with
    | inl e => inl e
    | inr (c, s) =>
      match parseback (length s) c s with
      | inl e => inl e
      | inr (c, s) =>
        let '(b, s) := peek s [CH_SEMI] in
        if b then
          let '(_, _, s) := gettoken s in
          match parseline fuel s with
          | inl e => inl e
          | inr (r, s) => inr (LIST c r, s)
          end
        else inr (c, s)
      end
    end
  end
with parsepipe (fuel : nat) (s : list Z) : perr + cmd word * list Z :=
  match fuel with
  | O => inl OutOfFuel
  | S fuel =>
    match parseexec fuel s with
    | inl e => inl e
    | inr (c, s) =>
      let '(b, s) := peek s [CH_BAR] in
      if b then
        let '(_, _, s) := gettoken s in
        match parsepipe fuel s with
        | inl e => inl e
        | inr (r, s) => inr (PIPE c r, s)
        end
      else inr (c, s)
    end
  end
with parseexec (fuel : nat) (s : list Z) : perr + cmd word * list Z :=
  match fuel with
  | O => inl OutOfFuel
  | S fuel =>
    let '(b, s) := peek s [CH_LPAR] in
    if b then parseblock fuel s
    else
      match parseredirs (length s) (EXEC []) s with
      | inl e => inl e
      | inr (ret, s) => parseargs (length s) [] ret s
      end
  end
with parseblock (fuel : nat) (s : list Z) : perr + cmd word * list Z :=
  match fuel with
  | O => inl OutOfFuel
  | S fuel =>
    let '(b, s) := peek s [CH_LPAR] in
    if negb b then inl (Panic "parseblock")
    else
      let '(_, _, s) := gettoken s in
      match parseline fuel s with
      | inl e => inl e
      | inr (c, s) =>
        let '(b, s) := peek s [CH_RPAR] in
        if negb b then inl (Panic "syntax - missing )")
        else
          let '(_, _, s) := gettoken s in
          parseredirs (length s) c s
      end
  end.

(** [*eq = 0], the end of a word in the line [buf]. *)
Definition end_word (buf : list Z) (w : word) : list Z := <[(length buf - 1 - w.2)%nat := 0]> buf.

(** NUL-terminate all the counted strings; [buf] is the line with its NUL. *)
Fixpoint nulterminate (c : cmd word) (buf : list Z) : list Z :=
  match c with
  | EXEC argv => foldl end_word buf argv
  | REDIR c w _ _ => end_word (nulterminate c buf) w
  | PIPE l r | LIST l r => nulterminate r (nulterminate l buf)
  | BACK c => nulterminate c buf
  end.

(** The command and the line after [nulterminate]. *)
Definition parsecmd (line : list Z) : perr + cmd word * list Z :=
  match parseline (4 * length line + 4) line with
  | inl e => inl e
  | inr (c, s) =>
    let '(_, s) := peek s [] in
    if bool_decide (s = []) then inr (c, nulterminate c (line ++ [0])) else inl (Leftovers s)
  end.

(** The string that starts where the word does. *)
Definition word_text (buf : list Z) (w : word) : list Z := cstr (drop (length buf - 1 - w.1) buf).

Fixpoint cmd_map {A B} (f : A -> B) (c : cmd A) : cmd B :=
  match c with
  | EXEC argv => EXEC (f <$> argv)
  | REDIR c w mode fd => REDIR (cmd_map f c) (f w) mode fd
  | PIPE l r => PIPE (cmd_map f l) (cmd_map f r)
  | LIST l r => LIST (cmd_map f l) (cmd_map f r)
  | BACK c => BACK (cmd_map f c)
  end.

End Sh.
