(* ===== verification/ShThm.v ===== *)
(** * What the shell's parser promises

    The parser ends on every line, and reads back every command from its printed
    form. *)

From S2P Require Import Prelude State Mem Spinlock Sched SchedFacts Ide Bio Log Inode Kalloc Vm Kbd Console Fs Pipe File Proc Exec Syscall Sh.
Import Sh.

#[local] Arguments inset : simpl never.

(** ** The parser ends *)

Lemma skip_length s : (length (skip s) <= length s)%nat.
Proof. induction s as [|c s IH]; cbn; [lia|]. destruct (inset whitespace c); cbn; lia. Qed.

Lemma skip_word_length s : (length (skip_word s) <= length s)%nat.
Proof. induction s as [|c s IH]; cbn; [lia|]. destruct (_ || _); cbn; lia. Qed.

Lemma skip_skip s : skip (skip s) = skip s.
Proof. induction s as [|c s IH]; cbn; [done|]. destruct (inset whitespace c) eqn:E; [done|]. cbn. by rewrite E. Qed.

Lemma skip_head s c s' : skip s = c :: s' -> inset whitespace c = false.
Proof. induction s as [|d s IH]; cbn; [done|]. destruct (inset whitespace d) eqn:E; [auto|]. by intros [= -> _]. Qed.

Lemma symbols_cases c : inset symbols c = inset [CH_BAR; CH_LPAR; CH_RPAR; CH_SEMI; CH_AMP; CH_LT] c || (c =? CH_GT).
Proof. unfold inset, symbols. cbn. by repeat destruct (c =? _). Qed.

(** A token that is not the end makes the rest shorter. *)
Lemma gettoken_length s tok w s' : gettoken s = (tok, w, s') ->
  (length s' <= length s)%nat /\ (skip s <> [] -> (length s' < length s)%nat) /\ (tok = 0 -> skip s = [] \/ exists r, skip s = 0 :: r).
Proof.
  unfold gettoken. pose proof (skip_length s) as Hs. destruct (skip s) as [|c r] eqn:E.
  - intros [= <- <- <-]. cbn in *. split_and!; [lia|done|auto].
  - pose proof (skip_head _ _ _ E) as Hc. cbn in Hs. destruct (inset [CH_BAR; _; _; _; _; _] c) eqn:Ei.
    { intros [= <- <- <-]. pose proof (skip_length r). split_and!; [lia|intros; lia|]. intros ->. eauto. }
    destruct (Z.eqb_spec c CH_GT) as [->|Hne].
    { pose proof (skip_length r). destruct r as [|d r].
      - intros [= <- <- <-]. cbn in *. split_and!; [lia|intros; lia|done].
      - pose proof (skip_length r). destruct (d =? CH_GT); intros [= <- <- <-]; cbn in *; (split_and!; [lia|intros; lia|done]). }
    intros [= <- <- <-]. assert (length (skip (skip_word (c :: r))) <= length r)%nat as Hw.
    { etransitivity; [apply skip_length|]. cbn [skip_word]. rewrite Hc. destruct (inset symbols c) eqn:Es; [|apply skip_word_length].
      by rewrite symbols_cases, Ei, (proj2 (Z.eqb_neq c CH_GT) Hne) in Es. }
    cbn [skip_word] in Hw. split_and!; [lia|intros; lia|done].
Qed.

Lemma peek_length s l b s' : peek s l = (b, s') -> s' = skip s /\ (length s' <= length s)%nat /\ (b = true -> s' <> []).
Proof.
  unfold peek. pose proof (skip_length s). intros [= <- <-]. split_and!; [done|done|]. by destruct (skip s).
Qed.

(** The parse does not run out of fuel, and what is left is no longer than [n]. *)
Definition ends (n : nat) (r : perr + cmd word * list Z) : Prop :=
  match r with
  | inl OutOfFuel => False
  | inl _ => True
  | inr (_, s) => (length s <= n)%nat
  end.

Lemma ends_mono n m r : ends n r -> (n <= m)%nat -> ends m r.
Proof. destruct r as [[]|[]]; cbn; auto. lia. Qed.

Lemma parseredirs_ends fuel c s : (length s <= fuel)%nat -> ends (length s) (parseredirs fuel c s).
Proof.
  revert c s. induction fuel as [|fuel IH]; intros c s Hf; cbn [parseredirs]; destruct (peek s _) as [b s1] eqn:Ep;
    destruct (peek_length _ _ _ _ Ep) as (-> & Hl & Hb); (destruct b; [|exact Hl]); specialize (Hb eq_refl).
  - destruct s; [done|]. cbn in Hf. lia.
  - destruct (gettoken (skip s)) as [[tok w] s1] eqn:E1. destruct (gettoken_length _ _ _ _ E1) as (H1 & H2 & _).
    rewrite skip_skip in H2. specialize (H2 Hb). destruct (gettoken s1) as [[tok2 w2] s2] eqn:E2.
    destruct (gettoken_length _ _ _ _ E2) as (H3 & _ & _). destruct (negb _); [done|].
    destruct (tok =? CH_LT); (eapply ends_mono; [apply IH; lia|lia]).
Qed.

Lemma parseargs_ends fuel argv c s : (length s <= fuel)%nat -> ends (length s) (parseargs fuel argv c s).
Proof.
  revert argv c s. induction fuel as [|fuel IH]; intros argv c s Hf; cbn [parseargs]; destruct (peek s _) as [b s1] eqn:Ep;
    destruct (peek_length _ _ _ _ Ep) as (-> & Hl & _); (destruct b; [exact Hl|]);
    destruct (gettoken (skip s)) as [[tok w] s1] eqn:E1; destruct (gettoken_length _ _ _ _ E1) as (H1 & H2 & H0).
  all: destruct (Z.eqb_spec tok 0) as [->|Hne]; [cbn; lia|].
  all: destruct (negb _) eqn:Ea; [done|]; destruct (MAXARGS <=? _)%nat; [done|].
  - destruct s; [|cbn in Hf; lia]. cbn in E1. congruence.
  - assert (length s1 < length (skip s))%nat as Hlt.
    { apply H2. intros E. rewrite skip_skip in E. rewrite E in E1. cbn in E1. congruence. }
    pose proof (parseredirs_ends (length s1) c s1 ltac:(lia)) as Hr. destruct (parseredirs _ c s1) as [[]|[c2 s2]]; try done.
    cbn in Hr. eapply ends_mono; [apply IH; lia|lia].
Qed.

Lemma parseback_ends fuel c s : (length s <= fuel)%nat -> ends (length s) (parseback fuel c s).
Proof.
  revert c s. induction fuel as [|fuel IH]; intros c s Hf; cbn [parseback]; destruct (peek s _) as [b s1] eqn:Ep;
    destruct (peek_length _ _ _ _ Ep) as (-> & Hl & Hb); (destruct b; [|exact Hl]); specialize (Hb eq_refl).
  - destruct s; [done|]. cbn in Hf. lia.
  - destruct (gettoken (skip s)) as [[tok w] s1] eqn:E1. destruct (gettoken_length _ _ _ _ E1) as (H1 & H2 & _).
    rewrite skip_skip in H2. specialize (H2 Hb). eapply ends_mono; [apply IH; lia|lia].
Qed.

Lemma parse_ends fuel :
  (forall s, 4 * length s + 4 <= fuel -> ends (length s) (parseline fuel s))%nat /\
  (forall s, 4 * length s + 3 <= fuel -> ends (length s) (parsepipe fuel s))%nat /\
  (forall s, 4 * length s + 2 <= fuel -> ends (length s) (parseexec fuel s))%nat /\
  (forall s, 4 * length s + 1 <= fuel -> ends (length s) (parseblock fuel s))%nat.
Proof.
  induction fuel as [|fuel (IHl & IHp & IHe & IHb)]; [split_and!; intros; lia|].
  assert (forall s s1 toks b, peek s toks = (b, s1) -> b = true -> forall tok w s2, gettoken s1 = (tok, w, s2) -> (length s2 < length s)%nat) as Htok.
  { intros s s1 toks b Ep -> tok w s2 Eg. destruct (peek_length _ _ _ _ Ep) as (-> & Hl & Hb).
    destruct (gettoken_length _ _ _ _ Eg) as (_ & H & _). rewrite skip_skip in H. specialize (H (Hb eq_refl)). lia. }
  split_and!; intros s Hf.
  - cbn [parseline]. specialize (IHp s ltac:(lia)). destruct (parsepipe fuel s) as [[]|[c s1]]; try done. cbn in IHp.
    pose proof (parseback_ends (length s1) c s1 ltac:(lia)) as Hb. destruct (parseback _ c s1) as [[]|[c2 s2]]; try done. cbn in Hb.
    destruct (peek s2 _) as [b s3] eqn:Ep. destruct (peek_length _ _ _ _ Ep) as (_ & Hl & _). destruct b; [|cbn; lia].
    destruct (gettoken s3) as [[tok w] s4] eqn:Eg. pose proof (Htok _ _ _ _ Ep eq_refl _ _ _ Eg).
    specialize (IHl s4 ltac:(lia)). destruct (parseline fuel s4) as [[]|[r s5]]; try done. cbn in *. lia.
  - cbn [parsepipe]. specialize (IHe s ltac:(lia)). destruct (parseexec fuel s) as [[]|[c s1]]; try done. cbn in IHe.
    destruct (peek s1 _) as [b s3] eqn:Ep. destruct (peek_length _ _ _ _ Ep) as (_ & Hl & _). destruct b; [|cbn; lia].
    destruct (gettoken s3) as [[tok w] s4] eqn:Eg. pose proof (Htok _ _ _ _ Ep eq_refl _ _ _ Eg).
    specialize (IHp s4 ltac:(lia)). destruct (parsepipe fuel s4) as [[]|[r s5]]; try done. cbn in *. lia.
  - cbn [parseexec]. destruct (peek s _) as [b s1] eqn:Ep. destruct (peek_length _ _ _ _ Ep) as (_ & Hl & _). destruct b.
    + eapply ends_mono; [apply IHb; lia|lia].
    + pose proof (parseredirs_ends (length s1) (EXEC []) s1 ltac:(lia)) as Hr. destruct (parseredirs _ _ s1) as [[]|[c2 s2]]; try done.
      cbn in Hr. eapply ends_mono; [apply parseargs_ends; lia|lia].
  - cbn [parseblock]. destruct (peek s _) as [b s1] eqn:Ep. destruct b; [|done]. cbn [negb].
    destruct (gettoken s1) as [[tok w] s2] eqn:Eg. pose proof (Htok _ _ _ _ Ep eq_refl _ _ _ Eg).
    specialize (IHl s2 ltac:(lia)). destruct (parseline fuel s2) as [[]|[c s3]]; try done. cbn in IHl.
    destruct (peek s3 _) as [b s4] eqn:Ep2. destruct b; [|done]. cbn [negb].
    destruct (gettoken s4) as [[tok2 w2] s5] eqn:Eg2. pose proof (Htok _ _ _ _ Ep2 eq_refl _ _ _ Eg2).
    eapply ends_mono; [apply parseredirs_ends; lia|lia].
Qed.

(** One turn of each of the functions. *)
Lemma parseline_S fuel s : parseline (S fuel) s =
  match parsepipe fuel s with
  | inl e => inl e
  | inr (c, s) =>
    match parseback (length s) c s with
    | inl e => inl e
    | inr (c, s) =>
      let '(b, s) := peek s [CH_SEMI] in
      if b then
        let '(_, _, s) := gettoken s in
        match parseline fuel s with inl e => inl e | inr (r, s) => inr (LIST c r, s) end
      else inr (c, s)
    end
  end.
Proof. done. Qed.

Lemma parsepipe_S fuel s : parsepipe (S fuel) s =
  match parseexec fuel s with
  | inl e => inl e
  | inr (c, s) =>
    let '(b, s) := peek s [CH_BAR] in
    if b then
      let '(_, _, s) := gettoken s in
      match parsepipe fuel s with inl e => inl e | inr (r, s) => inr (PIPE c r, s) end
    else inr (c, s)
  end.
Proof. done. Qed.

Lemma parseblock_S fuel s : parseblock (S fuel) s =
  let '(b, s) := peek s [CH_LPAR] in
  if negb b then inl (Panic "parseblock")
  else
    let '(_, _, s) := gettoken s in
    match parseline fuel s with
    | inl e => inl e
    | inr (c, s) =>
      let '(b, s) := peek s [CH_RPAR] in
      if negb b then inl (Panic "syntax - missing )")
      else let '(_, _, s) := gettoken s in parseredirs (length s) c s
    end.
Proof. done. Qed.

(** A parse that ends does not depend on the fuel. *)
Lemma parse_more fuel : forall s,
  (parseline fuel s <> inl OutOfFuel -> parseline (S fuel) s = parseline fuel s) /\
  (parsepipe fuel s <> inl OutOfFuel -> parsepipe (S fuel) s = parsepipe fuel s) /\
  (parseexec fuel s <> inl OutOfFuel -> parseexec (S fuel) s = parseexec fuel s) /\
  (parseblock fuel s <> inl OutOfFuel -> parseblock (S fuel) s = parseblock fuel s).
Proof.
  induction fuel as [|fuel IH]; intros s; [done|]. split_and!; intros H.
  - rewrite parseline_S. rewrite parseline_S in H |- *. destruct (IH s) as (_ & Hp & _). rewrite Hp by (intros E; by rewrite E in H).
    destruct (parsepipe fuel s) as [e|[c s1]]; [done|]. destruct (parseback _ c s1) as [e|[c2 s2]]; [done|].
    destruct (peek s2 _) as [[] s3]; [|done]. destruct (gettoken s3) as [[tok w] s4].
    destruct (IH s4) as (Hl & _). rewrite Hl; [done|]. intros E. by rewrite E in H.
  - rewrite parsepipe_S. rewrite parsepipe_S in H |- *. destruct (IH s) as (_ & _ & He & _). rewrite He by (intros E; by rewrite E in H).
    destruct (parseexec fuel s) as [e|[c s1]]; [done|]. destruct (peek s1 _) as [[] s3]; [|done]. destruct (gettoken s3) as [[tok w] s4].
    destruct (IH s4) as (_ & Hp & _). rewrite Hp; [done|]. intros E. by rewrite E in H.
  - change (parseexec (S (S fuel)) s) with (let '(b, s) := peek s [CH_LPAR] in if b then parseblock (S fuel) s
      else match parseredirs (length s) (EXEC []) s with inl e => inl e | inr (ret, s) => parseargs (length s) [] ret s end).
    cbn [parseexec] in H |- *. destruct (peek s _) as [[] s1]; [|done]. destruct (IH s1) as (_ & _ & _ & Hb). by apply Hb.
  - rewrite parseblock_S. rewrite parseblock_S in H |- *. destruct (peek s _) as [[] s1]; [|done]. cbn [negb] in *.
    destruct (gettoken s1) as [[tok w] s2]. destruct (IH s2) as (Hl & _). rewrite Hl; [done|]. intros E. by rewrite E in H.
Qed.

(** C27: the parser ends on every line.  Whatever the user types, the recursive
    descent of [parsecmd] comes to a command, to a syntax error or to text left
    over.  Its calls are never nested deeper than four for each character of the
    line and four more: with more fuel than that the result is the same. *)
Theorem parsecmd_ends line : parsecmd line <> inl OutOfFuel /\
  forall fuel, (4 * length line + 4 <= fuel)%nat ->
    parseline fuel line <> inl OutOfFuel /\ parseline fuel line = parseline (4 * length line + 4) line.
Proof.
  destruct (parse_ends (4 * length line + 4)) as [H _]. specialize (H line ltac:(lia)). split.
  - unfold parsecmd. destruct (parseline _ line) as [[]|[c s]]; try done. destruct (peek s []) as [b s1]. by destruct (bool_decide _).
  - intros fuel Hf. assert (parseline (4 * length line + 4) line <> inl OutOfFuel) as Hne by (by destruct (parseline _ line) as [[]|]).
    revert Hne. induction Hf as [|fuel Hf IH]; [done|]. intros Hne. destruct (IH Hne) as [H1 H2].
    destruct (parse_more fuel line) as (Hl & _). by rewrite Hl.
Qed.

(** ** Printing commands *)

Definition print_word (w : list Z) : list Z := w ++ [32].
Definition print_words (argv : list (list Z)) : list Z := concat (print_word <$> argv).
Definition redir : Type := list Z * Z * Z.
Definition print_redir (r : redir) : list Z := (if r.2 =? 0 then CH_LT else CH_GT) :: print_word r.1.1.
Definition print_redirs (rs : list redir) : list Z := concat (print_redir <$> rs).
Definition paren (b : bool) (s : list Z) : list Z := if b then CH_LPAR :: s ++ [CH_RPAR] else s.

(** The text of a command, in parentheses where it is not of the level: 0 for a
    simple command with redirections, 1 for a pipeline, 2 with & after it, 3 for
    a list. *)
Fixpoint print (lvl : nat) (c : cmd (list Z)) : list Z :=
  match c with
  | EXEC argv => print_words argv
  | REDIR c w mode fd => print 0 c ++ print_redir (w, mode, fd)
  | PIPE l r => paren (lvl <? 1)%nat (print 0 l ++ CH_BAR :: print 1 r)
  | BACK c => paren (lvl <? 2)%nat (print 2 c ++ [CH_AMP])
  | LIST l r => paren (lvl <? 3)%nat (print 2 l ++ CH_SEMI :: print 3 r)
  end.

(** Words without white space, symbols or NUL; at most nine arguments; the two
    kinds of redirection. *)
Definition word_char (c : Z) : bool := negb (inset whitespace c) && negb (inset symbols c) && negb (c =? 0).
Definition valid_word (w : list Z) : Prop := w <> [] /\ Forall (fun c => word_char c = true) w.
Definition valid_redir (mode fd : Z) : Prop := (mode = O_RDONLY /\ fd = 0) \/ (mode = Z.lor O_WRONLY O_CREATE /\ fd = 1).

Fixpoint valid (c : cmd (list Z)) : Prop :=
  match c with
  | EXEC argv => Forall valid_word argv /\ (length argv < MAXARGS)%nat
  | REDIR c w mode fd => valid c /\ valid_word w /\ valid_redir mode fd
  | PIPE l r | LIST l r => valid l /\ valid r
  | BACK c => valid c
  end.

(** ** Tokens of printed text *)

(** The text does not start with white space. *)
Definition clean (s : list Z) : Prop := match s with c :: _ => inset whitespace c = false | [] => True end.

Lemma skip_clean s : clean s -> skip s = s.
Proof. destruct s as [|c s]; cbn; [done|]. by intros ->. Qed.

Lemma skip_space s : skip (32 :: s) = skip s.
Proof. done. Qed.

Lemma word_char_split c : word_char c = true -> inset whitespace c = false /\ inset symbols c = false /\ c <> 0.
Proof.
  unfold word_char. rewrite !andb_true_iff, !negb_true_iff, Z.eqb_neq. tauto.
Qed.

Lemma skip_word_word w s : Forall (fun c => word_char c = true) w -> skip_word (w ++ 32 :: s) = 32 :: s.
Proof.
  induction 1 as [|c w Hc _ IH]; cbn; [done|]. destruct (word_char_split _ Hc) as (-> & -> & _). done.
Qed.

Lemma valid_word_clean w s : valid_word w -> clean (w ++ s).
Proof. intros [Hne Hf]. destruct w as [|c w]; [done|]. apply Forall_cons in Hf as [Hc _]. by destruct (word_char_split _ Hc). Qed.

Lemma gettoken_word w s : valid_word w -> clean s ->
  gettoken (w ++ 32 :: s) = (CH_a, (length w + S (length s), S (length s))%nat, s).
Proof.
  intros Hw Hs. unfold gettoken. rewrite skip_clean by (by apply valid_word_clean).
  destruct Hw as [Hne Hf]. destruct w as [|c w]; [done|]. cbn [app]. pose proof Hf as Hf'. apply Forall_cons in Hf' as [Hc _].
  destruct (word_char_split _ Hc) as (H1 & H2 & _). rewrite symbols_cases in H2. apply orb_false_iff in H2 as [-> ->].
  change (c :: w ++ 32 :: s) with ((c :: w) ++ 32 :: s). rewrite skip_word_word by done. rewrite skip_space, skip_clean by done.
  rewrite length_app. done.
Qed.

Lemma gettoken_symbol c s : In c [CH_BAR; CH_LPAR; CH_RPAR; CH_SEMI; CH_AMP; CH_LT] -> clean s ->
  gettoken (c :: s) = (c, (S (length s), length s), s).
Proof.
  intros Hc Hs. unfold gettoken. assert (inset whitespace c = false /\ inset [CH_BAR; CH_LPAR; CH_RPAR; CH_SEMI; CH_AMP; CH_LT] c = true) as [H1 H2].
  { repeat (destruct Hc as [<-|Hc]; [by vm_compute|]). destruct Hc. }
  rewrite skip_clean by done. rewrite H2. cbn [length]. by rewrite skip_clean.
Qed.

(** [>], not followed by another. *)
Lemma gettoken_gt w s : valid_word w -> gettoken (CH_GT :: w ++ s) = (CH_GT, (S (length (w ++ s)), length (w ++ s)), w ++ s).
Proof.
  intros Hw. unfold gettoken. rewrite skip_clean by done. destruct Hw as [Hne Hf]. destruct w as [|c w]; [done|].
  apply Forall_cons in Hf as [Hc _]. destruct (word_char_split _ Hc) as (H1 & H2 & _).
  rewrite symbols_cases in H2. apply orb_false_iff in H2 as [_ H2]. cbn [app]. change (inset _ CH_GT) with false. cbn [Z.eqb].
  rewrite Z.eqb_refl, H2. by rewrite skip_clean.
Qed.

Lemma peek_clean c s toks : inset whitespace c = false -> peek (c :: s) toks = (inset toks c, c :: s).
Proof. intros H. unfold peek. by rewrite skip_clean. Qed.

Lemma peek_word w s toks : valid_word w -> (forall c, inset toks c = true -> inset symbols c = true) ->
  peek (w ++ s) toks = (false, w ++ s).
Proof.
  intros Hw Ht. pose proof (valid_word_clean w s Hw) as Hcl. destruct Hw as [Hne Hf]. destruct w as [|c w]; [done|]. cbn [app] in *.
  rewrite peek_clean by done. f_equal. apply Forall_cons in Hf as [Hc _]. destruct (word_char_split _ Hc) as (_ & H2 & _).
  destruct (inset toks c) eqn:E; [|done]. apply Ht in E. congruence.
Qed.

(** ** Reading printed commands *)

(** The word [p] of the line is the text [w], with a space after it. *)
Definition word_at (line : list Z) (p : word) (w : list Z) : Prop :=
  exists pre post, line = pre ++ w ++ 32 :: post /\ p = (length w + S (length post), S (length post))%nat.

(** The command is [c], its words in the line. *)
Inductive reads (line : list Z) : cmd word -> cmd (list Z) -> Prop :=
  | reads_exec ps argv : Forall2 (word_at line) ps argv -> reads line (EXEC ps) (EXEC argv)
  | reads_redir c c' p w mode fd : reads line c' c -> word_at line p w -> reads line (REDIR c' p mode fd) (REDIR c w mode fd)
  | reads_pipe l l' r r' : reads line l' l -> reads line r' r -> reads line (PIPE l' r') (PIPE l r)
  | reads_list l l' r r' : reads line l' l -> reads line r' r -> reads line (LIST l' r') (LIST l r)
  | reads_back c c' : reads line c' c -> reads line (BACK c') (BACK c).

(** Redirections around a command. *)
Definition wrap {W} (c : cmd W) (rs : list (W * Z * Z)) : cmd W := foldl (fun c r => REDIR c r.1.1 r.1.2 r.2) c rs.
Definition redir_at (line : list Z) (r' : word * Z * Z) (r : redir) : Prop :=
  word_at line r'.1.1 r.1.1 /\ r'.1.2 = r.1.2 /\ r'.2 = r.2.
Definition redir_ok (r : redir) : Prop := valid_word r.1.1 /\ valid_redir r.1.2 r.2.

Lemma reads_wrap line rs' rs : Forall2 (redir_at line) rs' rs -> forall c' c, reads line c' c -> reads line (wrap c' rs') (wrap c rs).
Proof.
  induction 1 as [|[[p m] f] [[w m'] f'] rs' rs (H1 & H2 & H3) _ IH]; intros c' c H; [done|]. cbn in *. subst. apply IH. by constructor.
Qed.

Lemma set_argv_wrap argv a rs : set_argv argv (wrap (EXEC a) rs) = wrap (EXEC argv) rs.
Proof.
  assert (forall c c', set_argv argv c = c' -> set_argv argv (wrap c rs) = wrap c' rs) as H; [|by apply H].
  induction rs as [|r rs IH]; intros c c' E; [done|]. cbn. apply IH. cbn. by rewrite E.
Qed.

(** The text does not start with one of the symbols. *)
Definition nohead (toks s : list Z) : Prop := match s with c :: _ => inset toks c = false | [] => True end.

Lemma peek_nohead s toks : clean s -> nohead toks s -> peek s toks = (false, s).
Proof. intros Hc Hn. unfold peek. rewrite skip_clean by done. destruct s as [|c s]; [done|]. by rewrite Hn. Qed.

Lemma parseredirs_print line rs : Forall redir_ok rs -> forall pre rest c0 fuel,
  clean rest -> nohead [CH_LT; CH_GT] rest -> line = pre ++ print_redirs rs ++ rest -> (length (print_redirs rs ++ rest) <= fuel)%nat ->
  exists rs', Forall2 (redir_at line) rs' rs /\ parseredirs fuel c0 (print_redirs rs ++ rest) = inr (wrap c0 rs', rest).
Proof.
  induction 1 as [|[[w mode] fd] rs [Hw Hm] Hrs IH]; intros pre rest c0 fuel Hc Hn El Hf.
  - exists []. split; [done|]. cbn [print_redirs concat fmap list_fmap app]. destruct fuel; cbn [parseredirs]; by rewrite peek_nohead.
  - cbn in Hw, Hm. unfold print_redirs in *. cbn [fmap list_fmap concat] in *. fold (print_redirs rs) in *.
    unfold print_redir, print_word in *. cbn [fst snd] in *. cbn [app] in *. rewrite <- !app_assoc in *. cbn [app] in *.
    set (t := print_redirs rs ++ rest) in *. assert (clean t) as Ht.
    { unfold t. destruct rs as [|[[w2 m2] f2] rs]; [done|]. cbn. by destruct (f2 =? 0). }
    destruct fuel as [|fuel]; [cbn in Hf; lia|]. cbn [parseredirs].
    assert (exists tok, peek ((if fd =? 0 then CH_LT else CH_GT) :: w ++ 32 :: t) [CH_LT; CH_GT] = (true, (if fd =? 0 then CH_LT else CH_GT) :: w ++ 32 :: t) /\
      gettoken ((if fd =? 0 then CH_LT else CH_GT) :: w ++ 32 :: t) = (tok, (S (length (w ++ 32 :: t)), length (w ++ 32 :: t)), w ++ 32 :: t) /\
      REDIR c0 (length w + S (length t), S (length t))%nat mode fd = (if tok =? CH_LT then REDIR c0 (length w + S (length t), S (length t))%nat O_RDONLY 0
        else REDIR c0 (length w + S (length t), S (length t))%nat (Z.lor O_WRONLY O_CREATE) 1)) as (tok & -> & -> & Hred).
    { destruct Hm as [[-> ->]|[-> ->]]; cbn [Z.eqb]; eexists; (split_and!; [by apply peek_clean| |]).
      - apply gettoken_symbol; [by repeat (left + right)|by apply valid_word_clean].
      - done.
      - by apply gettoken_gt.
      - done. }
    rewrite gettoken_word by done. cbn [negb]. rewrite Z.eqb_refl. cbn [negb].
    destruct (IH (pre ++ ((if fd =? 0 then CH_LT else CH_GT) :: w ++ [32])) rest (REDIR c0 (length w + S (length t), S (length t))%nat mode fd) fuel)
      as (rs' & Hrs' & E); [done|done| | |].
    + rewrite El. rewrite <- !app_assoc. cbn [app]. by rewrite <- !app_assoc.
    + fold t. cbn in Hf. rewrite length_app in Hf. cbn in Hf. lia.
    + exists (((length w + S (length t), S (length t))%nat, mode, fd) :: rs'). split.
      * constructor; [|done]. split_and!; [|done|done]. cbn. exists (pre ++ [if fd =? 0 then CH_LT else CH_GT]), t. split; [|done].
        rewrite El. by rewrite <- !app_assoc.
      * refine (eq_trans _ E). rewrite Hred. by destruct (tok =? CH_LT).
Qed.

(** The end of the arguments. *)
Definition stop0 (s : list Z) : Prop := match s with c :: _ => In c [CH_BAR; CH_RPAR; CH_AMP; CH_SEMI] | [] => True end.

Lemma stop0_clean s : stop0 s -> clean s /\ nohead [CH_LT; CH_GT] s /\ nohead [CH_LPAR] s.
Proof. destruct s as [|c s]; [done|]. intros H. repeat (destruct H as [<-|H]; [done|]). destruct H. Qed.

Lemma parseargs_stop fuel argv ret s : stop0 s -> parseargs fuel argv ret s = inr (set_argv argv ret, s).
Proof.
  intros H. destruct (stop0_clean _ H) as (Hc & _ & _). destruct s as [|c s]; [by destruct fuel|].
  assert (peek (c :: s) [CH_BAR; CH_RPAR; CH_AMP; CH_SEMI] = (true, c :: s)) as Hp.
  { rewrite peek_clean by done. f_equal. repeat (destruct H as [<-|H]; [done|]). destruct H. }
  destruct fuel; cbn [parseargs]; by rewrite Hp.
Qed.

Lemma words_head w argv s : print_words (w :: argv) ++ s = w ++ 32 :: print_words argv ++ s.
Proof. unfold print_words, print_word. cbn. by rewrite <- !app_assoc. Qed.

Lemma words_nohead toks argv s : Forall valid_word argv -> (forall c, inset toks c = true -> inset symbols c = true) ->
  clean s -> nohead toks s -> clean (print_words argv ++ s) /\ nohead toks (print_words argv ++ s).
Proof.
  intros Hf Ht Hc Hn. destruct Hf as [|w argv Hw _]; [done|]. rewrite words_head. split; [by apply valid_word_clean|].
  pose proof (peek_word w (32 :: print_words argv ++ s) toks Hw Ht) as Hp. destruct Hw as [Hne _]. destruct w as [|c w]; [done|].
  unfold peek in Hp. injection Hp as Hp1 Hp2. rewrite Hp2 in Hp1. exact Hp1.
Qed.

Lemma redirs_clean rs s : clean s -> clean (print_redirs rs ++ s).
Proof. destruct rs as [|[[w m] f] rs]; [done|]. cbn. by destruct (f =? 0). Qed.

Lemma parseargs_print line rs rest : Forall redir_ok rs -> stop0 rest -> forall argv w pre acc fuel,
  Forall valid_word (w :: argv) -> (length acc + length (w :: argv) < MAXARGS)%nat ->
  line = pre ++ print_words (w :: argv) ++ print_redirs rs ++ rest ->
  (length (print_words (w :: argv) ++ print_redirs rs ++ rest) <= fuel)%nat ->
  exists ps rs', Forall2 (word_at line) ps (w :: argv) /\ Forall2 (redir_at line) rs' rs /\
    parseargs fuel acc (EXEC []) (print_words (w :: argv) ++ print_redirs rs ++ rest) = inr (wrap (EXEC (acc ++ ps)) rs', rest).
Proof.
  intros Hrs Hst. destruct (stop0_clean _ Hst) as (Hc & Hn & _). induction argv as [|w2 argv IH]; intros w pre acc fuel Hf Hlen El Hfu.
  all: apply Forall_cons in Hf as [Hw Hf]; rewrite words_head in *; destruct fuel as [|fuel]; [rewrite length_app in Hfu; cbn in Hfu; lia|].
  all: cbn [parseargs]; rewrite peek_word by (done || (intros c; unfold inset; cbn; repeat destruct (c =? _); done)).
  - cbn [print_words concat fmap list_fmap app] in *. set (t := print_redirs rs ++ rest) in *.
    rewrite gettoken_word by (done || by apply redirs_clean). cbn [negb Z.eqb]. rewrite Z.eqb_refl. cbn [negb].
    rewrite (proj2 (Nat.leb_gt _ _)) by (rewrite length_app; cbn in *; lia).
    destruct (parseredirs_print line rs Hrs (pre ++ w ++ [32]) rest (EXEC []) (length t)) as (rs' & Hrs' & E); [done|done| |done|].
    { rewrite El. by rewrite <- !app_assoc. }
    fold t in E. rewrite E, parseargs_stop, set_argv_wrap by done.
    exists [(length w + S (length t), S (length t))%nat], rs'. split_and!; [|done|done].
    repeat constructor. exists pre, t. done.
  - set (t := print_words (w2 :: argv) ++ print_redirs rs ++ rest) in *.
    destruct (words_nohead [CH_LT; CH_GT] (w2 :: argv) []) as [Hcl Hno]; [done| |done|done|].
    { intros c. unfold inset. cbn. repeat destruct (c =? _); done. }
    assert (clean t /\ nohead [CH_LT; CH_GT] t) as [Htc Htn].
    { unfold t. rewrite words_head in *. apply Forall_cons in Hf as [[Hne _] _]. destruct w2; done. }
    rewrite gettoken_word by done. cbn [negb Z.eqb]. rewrite Z.eqb_refl. cbn [negb].
    rewrite (proj2 (Nat.leb_gt _ _)) by (rewrite length_app; cbn in *; lia).
    assert (parseredirs (length t) (EXEC []) t = inr (EXEC [], t)) as ->.
    { destruct (parseredirs_print t [] ltac:(constructor) [] t (EXEC []) (length t) Htc Htn eq_refl ltac:(cbn; lia)) as (rs' & Hr & E).
      inversion Hr; subst. exact E. }
    destruct (IH w2 (pre ++ w ++ [32]) (acc ++ [(length w + S (length t), S (length t))%nat]) fuel) as (ps & rs' & Hps & Hrs' & E); [done| | | |].
    + rewrite length_app. cbn in *. lia.
    + rewrite El. by rewrite <- !app_assoc.
    + fold t. rewrite length_app in Hfu. cbn [length] in Hfu. lia.
    + exists ((length w + S (length t), S (length t))%nat :: ps), rs'. split_and!; [|done|].
      * constructor; [|done]. exists pre, t. done.
      * refine (eq_trans E _). by rewrite <- app_assoc.
Qed.

(** *** From one level of the grammar to the next *)

(** What may follow a command of each level. *)
Definition stop1 (s : list Z) : Prop := match s with c :: _ => In c [CH_RPAR; CH_AMP; CH_SEMI] | [] => True end.
Definition stop2 (s : list Z) : Prop := match s with c :: _ => In c [CH_RPAR; CH_SEMI] | [] => True end.
Definition stop3 (s : list Z) : Prop := match s with c :: _ => c = CH_RPAR | [] => True end.

(** [parseline] up to its [while(peek(ps, es, "&"))]. *)
Definition parseback1 (fuel : nat) (s : list Z) : perr + cmd word * list Z :=
  match parsepipe fuel s with
  | inl e => inl e
  | inr (c, s) => parseback (length s) c s
  end.

Section Levels.
Context (line : list Z).

(** The parse of [t ++ rest], a part of the line, with fuel to spare. *)
Definition parses (parse : nat -> list Z -> perr + cmd word * list Z) (k : nat) (t rest : list Z) (c : cmd (list Z)) : Prop :=
  forall pre fuel, line = pre ++ t ++ rest -> (4 * length (t ++ rest) + k <= fuel)%nat ->
  exists c', parse fuel (t ++ rest) = inr (c', rest) /\ reads line c' c.

Definition amps (n : nat) : list Z := replicate n CH_AMP.
Definition backs (n : nat) (c : cmd (list Z)) : cmd (list Z) := Nat.iter n BACK c.

Definition P0 (t : list Z) (c : cmd (list Z)) : Prop :=
  forall rs rest, Forall redir_ok rs -> stop0 rest -> parses parseexec 2 (t ++ print_redirs rs) rest (wrap c rs).
Definition P1 (t : list Z) (c : cmd (list Z)) : Prop := forall rest, stop1 rest -> parses parsepipe 3 t rest c.
Definition P2 (t : list Z) (c : cmd (list Z)) : Prop := forall n rest, stop2 rest -> parses parseback1 3 (t ++ amps n) rest (backs n c).
Definition P3 (t : list Z) (c : cmd (list Z)) : Prop := forall rest, stop3 rest -> parses parseline 4 t rest c.

Lemma level1 t c : P0 t c -> P1 t c.
Proof.
  intros H rest Hst pre fuel El Hf. destruct fuel as [|fuel]; [lia|]. cbn [parsepipe].
  destruct (H [] rest) with (pre := pre) (fuel := fuel) as (c' & E & Hr); [constructor| | | |].
  - destruct rest as [|d r]; [done|]. by right.
  - cbn. by rewrite app_nil_r.
  - cbn. rewrite app_nil_r. lia.
  - cbn in E. rewrite app_nil_r in E. rewrite E.
    assert (peek rest [CH_BAR] = (false, rest)) as ->; [|by exists c'].
    apply peek_nohead; destruct rest as [|d r]; try done; repeat (destruct Hst as [<-|Hst]; [done|]); destruct Hst.
Qed.

Lemma parseback_amps fuel c' c n rest : stop2 rest -> (n <= fuel)%nat -> reads line c' c ->
  exists c2, parseback fuel c' (amps n ++ rest) = inr (c2, rest) /\ reads line c2 (backs n c).
Proof.
  intros Hst. revert fuel c' c. induction n as [|n IH]; intros fuel c' c Hf Hr.
  - exists c'. split; [|done]. assert (peek rest [CH_AMP] = (false, rest)) as Hp.
    { apply peek_nohead; destruct rest as [|d r]; try done; repeat (destruct Hst as [<-|Hst]; [done|]); destruct Hst. }
    cbn [amps replicate app]. destruct fuel; cbn [parseback]; by rewrite Hp.
  - destruct fuel as [|fuel]; [lia|]. cbn [amps replicate app parseback]. fold (amps n). rewrite peek_clean by done.
    change (inset [CH_AMP] CH_AMP) with true. cbn [negb]. rewrite gettoken_symbol.
    + destruct (IH fuel (BACK c') (BACK c)) as (c2 & E & H2); [lia|by constructor|]. exists c2. split; [exact E|].
      unfold backs in *. rewrite Nat.iter_succ_r. exact H2.
    + by repeat (left + right).
    + destruct n; [|done]. destruct rest as [|d r]; [done|]. repeat (destruct Hst as [<-|Hst]; [done|]); destruct Hst.
Qed.

Lemma level2 t c : P1 t c -> P2 t c.
Proof.
  intros H n rest Hst pre fuel El Hf. unfold parseback1. rewrite <- app_assoc in *.
  destruct (H (amps n ++ rest)) with (pre := pre) (fuel := fuel) as (c' & E & Hr); [|done|done|].
  - destruct n; [|cbn; auto]. cbn. destruct rest as [|d r]; [done|]. destruct Hst as [|[|[]]]; cbn; auto.
  - rewrite E. apply parseback_amps; [done| |done]. rewrite length_app. unfold amps. rewrite length_replicate. lia.
Qed.

Lemma level3 t c : P2 t c -> P3 t c.
Proof.
  intros H rest Hst pre fuel El Hf. destruct fuel as [|fuel]; [lia|]. cbn [parseline].
  destruct (H 0%nat rest) with (pre := pre) (fuel := fuel) as (c' & E & Hr).
  - destruct rest as [|d r]; [done|]. left. done.
  - cbn. by rewrite app_nil_r.
  - cbn. rewrite app_nil_r. lia.
  - cbn in E. rewrite app_nil_r in E. unfold parseback1 in E. destruct (parsepipe fuel (t ++ rest)) as [|[c1 s1]]; [done|]. rewrite E.
    assert (peek rest [CH_SEMI] = (false, rest)) as ->; [|by exists c'].
    apply peek_nohead; destruct rest as [|d r]; try done; by rewrite Hst.
Qed.

(** The text can follow any symbol. *)
Definition starts_clean (t : list Z) : Prop := forall s, clean s -> clean (t ++ s).

Lemma level0 t c : P3 t c -> starts_clean t -> P0 (CH_LPAR :: t ++ [CH_RPAR]) c.
Proof.
  intros H Hcl rs rest Hrs Hst pre fuel El Hf. destruct fuel as [|[|fuel]]; [lia|cbn in Hf; lia|].
  cbn [app] in *. rewrite <- !app_assoc in *. cbn [app] in *. destruct (stop0_clean _ Hst) as (Hc & Hn & _).
  set (u := print_redirs rs ++ rest) in *. assert (clean u) as Hu by (by apply redirs_clean).
  cbn [parseexec parseblock]. rewrite !peek_clean by done. change (inset [CH_LPAR] CH_LPAR) with true. cbn [negb].
  rewrite gettoken_symbol by (by repeat (left + right) || by apply Hcl).
  destruct (H (CH_RPAR :: u)) with (pre := pre ++ [CH_LPAR]) (fuel := fuel) as (c' & -> & Hr); [done| | |].
  - rewrite El. by rewrite <- app_assoc.
  - cbn [length] in Hf. lia.
  - rewrite peek_clean by done. change (inset [CH_RPAR] CH_RPAR) with true. cbn [negb].
    rewrite gettoken_symbol by (by repeat (left + right) || done).
    destruct (parseredirs_print line rs Hrs (pre ++ CH_LPAR :: t ++ [CH_RPAR]) rest c' (length u)) as (rs' & Hrs' & E); [done|done| |done|].
    { rewrite El. cbn. rewrite <- !app_assoc. cbn. by rewrite <- !app_assoc. }
    exists (wrap c' rs'). split; [exact E|]. by apply reads_wrap.
Qed.

Lemma starts_app t u : starts_clean t -> starts_clean u -> starts_clean (t ++ u).
Proof. intros Ht Hu s Hs. rewrite <- app_assoc. auto. Qed.

Lemma starts_symbol c t : inset whitespace c = false -> starts_clean (c :: t).
Proof. by intros H s Hs. Qed.

Lemma starts_paren b t : starts_clean t -> starts_clean (paren b t).
Proof. intros Ht. destruct b; [by apply starts_symbol|done]. Qed.

Lemma print_clean lvl c : valid c -> starts_clean (print lvl c).
Proof.
  revert lvl. induction c as [argv|c IH w mode fd|l IHl r IHr|l IHl r IHr|c IH]; intros lvl Hv; cbn [print valid] in *.
  - intros s Hs. apply (words_nohead [] argv s); [apply Hv|done|done|by destruct s].
  - apply starts_app; [apply IH, Hv|]. apply starts_symbol. cbn [snd]. by destruct (fd =? 0).
  - apply starts_paren, starts_app; [apply IHl, Hv|by apply starts_symbol].
  - apply starts_paren, starts_app; [apply IHl, Hv|by apply starts_symbol].
  - apply starts_paren, starts_app; [apply IH, Hv|by apply starts_symbol].
Qed.

Lemma parse_simple argv : valid (EXEC argv) -> P0 (print_words argv) (EXEC argv).
Proof.
  intros [Hw Hlen] rs rest Hrs Hst pre fuel El Hf. destruct (stop0_clean _ Hst) as (Hc & Hn & Hp). destruct fuel as [|fuel]; [lia|].
  rewrite <- app_assoc in *. cbn [parseexec].
  assert (forall toks c, (toks = [CH_LPAR] \/ toks = [CH_LT; CH_GT]) -> inset toks c = true -> inset symbols c = true) as Hsym.
  { intros toks c [-> | ->]; unfold inset; cbn; repeat destruct (c =? _); done. }
  assert (clean (print_redirs rs ++ rest) /\ nohead [CH_LPAR] (print_redirs rs ++ rest)) as [Hrc Hrn].
  { destruct rs as [|[[w m] f] rs]; [done|]. cbn. by destruct (f =? 0). }
  destruct (words_nohead [CH_LPAR] argv (print_redirs rs ++ rest) Hw (fun c => Hsym _ c (or_introl eq_refl)) Hrc Hrn) as [Hwc Hwn].
  rewrite peek_nohead by done. destruct argv as [|w argv].
  - cbn [print_words concat fmap list_fmap app] in *.
    destruct (parseredirs_print line rs Hrs pre rest (EXEC []) _ Hc Hn El (le_n _)) as (rs' & Hrs' & ->).
    rewrite parseargs_stop, set_argv_wrap by done. exists (wrap (EXEC []) rs'). split; [done|]. apply reads_wrap; [done|by constructor].
  - set (t := print_words (w :: argv) ++ print_redirs rs ++ rest) in *.
    assert (nohead [CH_LT; CH_GT] t) as Htn.
    { unfold t. rewrite words_head. apply Forall_cons in Hw as [Hw _]. pose proof (peek_word w (32 :: print_words argv ++ print_redirs rs ++ rest) [CH_LT; CH_GT] Hw (fun c => Hsym _ c (or_intror eq_refl))) as E.
      destruct Hw as [Hne _]. destruct w as [|d w]; [done|]. unfold peek in E. injection E as E1 E2. rewrite E2 in E1. exact E1. }
    destruct (parseredirs_print t [] ltac:(constructor) [] t (EXEC []) (length t) Hwc Htn eq_refl (le_n _)) as (rs0 & Hr0 & E0).
    inversion Hr0; subst rs0. change (print_redirs [] ++ t) with t in E0. rewrite E0. cbn [wrap foldl].
    destruct (parseargs_print line rs rest Hrs Hst argv w pre [] (length t)) as (ps & rs' & Hps & Hrs' & E); [done|done|done|done|].
    exists (wrap (EXEC ps) rs'). split; [exact E|]. apply reads_wrap; [done|by constructor].
Qed.

Lemma parse_pipeline l r : P0 (print 0 l) l -> P1 (print 1 r) r -> starts_clean (print 1 r) ->
  P1 (print 0 l ++ CH_BAR :: print 1 r) (PIPE l r).
Proof.
  intros Hl Hr Hcl rest Hst pre fuel El Hf. destruct fuel as [|fuel]; [lia|]. cbn [parsepipe]. rewrite <- app_assoc in *. cbn [app] in *.
  rewrite length_app in Hf. cbn [length] in Hf.
  destruct (Hl [] (CH_BAR :: print 1 r ++ rest)) with (pre := pre) (fuel := fuel) as (l' & E & Hl'); [constructor|by left| | |].
  - cbn. by rewrite app_nil_r.
  - cbn. rewrite app_nil_r, length_app. cbn [length]. lia.
  - cbn in E. rewrite app_nil_r in E. rewrite E, peek_clean by done. change (inset [CH_BAR] CH_BAR) with true. cbn [negb].
    rewrite gettoken_symbol; [|by left|].
    + destruct (Hr rest Hst (pre ++ print 0 l ++ [CH_BAR]) fuel) as (r' & -> & Hr'); [rewrite El; by rewrite <- !app_assoc|lia|].
      exists (PIPE l' r'). split; [done|by constructor].
    + apply Hcl. destruct rest as [|d s]; [done|]. repeat (destruct Hst as [<-|Hst]; [done|]); destruct Hst.
Qed.

Lemma parse_background c : P2 (print 2 c) c -> P2 (print 2 c ++ [CH_AMP]) (BACK c).
Proof.
  intros H n rest Hst. specialize (H (S n) rest Hst). unfold backs in *. rewrite Nat.iter_succ_r in H.
  intros pre fuel El Hf. rewrite <- (app_assoc (print 2 c) [CH_AMP]) in *. exact (H pre fuel El Hf).
Qed.

Lemma parse_list l r : P2 (print 2 l) l -> P3 (print 3 r) r -> starts_clean (print 3 r) ->
  P3 (print 2 l ++ CH_SEMI :: print 3 r) (LIST l r).
Proof.
  intros Hl Hr Hcl rest Hst pre fuel El Hf. destruct fuel as [|fuel]; [lia|]. cbn [parseline]. rewrite <- app_assoc in *. cbn [app] in *.
  rewrite length_app in Hf. cbn [length] in Hf.
  destruct (Hl 0%nat (CH_SEMI :: print 3 r ++ rest)) with (pre := pre) (fuel := fuel) as (l' & E & Hl'); [right; by left| | |].
  - cbn. by rewrite app_nil_r.
  - cbn. rewrite app_nil_r, length_app. cbn [length]. lia.
  - cbn in E. rewrite app_nil_r in E. unfold parseback1 in E. destruct (parsepipe fuel _) as [|[c1 s1]]; [done|]. rewrite E, peek_clean by done.
    change (inset [CH_SEMI] CH_SEMI) with true. cbn [negb]. rewrite gettoken_symbol; [|by repeat (left + right)|].
    + destruct (Hr rest Hst (pre ++ print 2 l ++ [CH_SEMI]) fuel) as (r' & -> & Hr'); [rewrite El; by rewrite <- !app_assoc|lia|].
      exists (LIST l' r'). split; [done|by constructor].
    + apply Hcl. destruct rest as [|d s]; [done|]. by rewrite Hst.
Qed.

Lemma print_parses c : valid c -> P0 (print 0 c) c /\ P1 (print 1 c) c /\ P2 (print 2 c) c /\ P3 (print 3 c) c.
Proof.
  induction c as [argv|c IH w mode fd|l IHl r IHr|l IHl r IHr|c IH]; intros Hv.
  - assert (P0 (print_words argv) (EXEC argv)) as H0 by (by apply parse_simple). pose proof (level1 _ _ H0) as H1.
    pose proof (level2 _ _ H1) as H2. exact (conj H0 (conj H1 (conj H2 (level3 _ _ H2)))).
  - destruct Hv as (Hv & Hw & Hm). destruct (IH Hv) as [H0 _].
    assert (P0 (print 0 c ++ print_redir (w, mode, fd)) (REDIR c w mode fd)) as H.
    { intros rs rest Hrs Hst. specialize (H0 ((w, mode, fd) :: rs) rest ltac:(by constructor) Hst). rewrite <- app_assoc. exact H0. }
    pose proof (level1 _ _ H) as H1. pose proof (level2 _ _ H1) as H2. exact (conj H (conj H1 (conj H2 (level3 _ _ H2)))).
  - destruct Hv as [Hl Hr]. destruct (IHl Hl) as (Hl0 & _), (IHr Hr) as (_ & Hr1 & _).
    pose proof (parse_pipeline l r Hl0 Hr1 (print_clean 1 r Hr)) as H1. pose proof (print_clean 1 (PIPE l r) (conj Hl Hr)) as Hcl.
    pose proof (level2 _ _ H1) as H2. pose proof (level3 _ _ H2) as H3. exact (conj (level0 _ _ H3 Hcl) (conj H1 (conj H2 H3))).
  - destruct Hv as [Hl Hr]. destruct (IHl Hl) as (_ & _ & Hl2 & _), (IHr Hr) as (_ & _ & _ & Hr3).
    pose proof (parse_list l r Hl2 Hr3 (print_clean 3 r Hr)) as H3. pose proof (print_clean 3 (LIST l r) (conj Hl Hr)) as Hcl.
    pose proof (level0 _ _ H3 Hcl) as H0. pose proof (level1 _ _ H0) as H1. exact (conj H0 (conj H1 (conj (level2 _ _ H1) H3))).
  - destruct (IH Hv) as (_ & _ & H2 & _). pose proof (parse_background c H2) as Hb. pose proof (print_clean 2 (BACK c) Hv) as Hcl.
    pose proof (level3 _ _ Hb) as H3. pose proof (level0 _ _ H3 Hcl) as H0. exact (conj H0 (conj (level1 _ _ H0) (conj Hb H3))).
Qed.

End Levels.

(** ** The words in the line *)

Fixpoint cmd_words {W} (c : cmd W) : list W :=
  match c with
  | EXEC argv => argv
  | REDIR c w _ _ => cmd_words c ++ [w]
  | PIPE l r | LIST l r => cmd_words l ++ cmd_words r
  | BACK c => cmd_words c
  end.

Lemma nulterminate_words c : forall buf, nulterminate c buf = foldl end_word buf (cmd_words c).
Proof. induction c as [|c IH ? ? ?|l IHl r IHr|l IHl r IHr|c IH]; intros buf; cbn; rewrite ?foldl_app; cbn; by rewrite ?IHl, ?IHr, ?IH. Qed.

Lemma end_words_length ws buf : length (foldl end_word buf ws) = length buf.
Proof. revert buf. induction ws as [|p ws IH]; intros buf; cbn; [done|]. rewrite IH. apply length_insert. Qed.

Lemma end_words_other ws i : forall buf, (forall p, p ∈ ws -> i <> (length buf - 1 - p.2)%nat) -> foldl end_word buf ws !! i = buf !! i.
Proof.
  induction ws as [|p ws IH]; intros buf H; cbn; [done|]. unfold end_word at 2. rewrite IH.
  - apply list_lookup_insert_ne. intros E. apply (H p); [left|done].
  - intros q Hq. rewrite length_insert. apply H. by right.
Qed.

Lemma end_words_zero ws p : forall buf, p ∈ ws -> (0 < length buf)%nat -> foldl end_word buf ws !! (length buf - 1 - p.2)%nat = Some 0.
Proof.
  induction ws as [|q ws IH]; intros buf Hp Hb; cbn; [by apply elem_of_nil in Hp|].
  destruct (decide (p ∈ ws)) as [Hin|Hin].
  - assert (length (end_word buf q) = length buf) as E by apply length_insert. rewrite <- E. apply IH; [done|]. by rewrite E.
  - apply elem_of_cons in Hp as [<-|]; [|done].
    assert (forall ws', (forall r, r ∈ ws' -> r ∈ ws) -> forall b, b !! (length buf - 1 - p.2)%nat = Some 0 -> length b = length buf ->
      foldl end_word b ws' !! (length buf - 1 - p.2)%nat = Some 0) as H.
    { induction ws' as [|r ws' IHw]; intros Hsub b Hb0 Hl; cbn; [done|]. apply IHw.
      - intros x Hx. apply Hsub. by right.
      - unfold end_word. rewrite Hl. destruct (decide ((length buf - 1 - p.2)%nat = (length buf - 1 - r.2)%nat)) as [E|E].
        + rewrite <- E. apply list_lookup_insert_eq. lia.
        + by rewrite list_lookup_insert_ne.
      - unfold end_word. by rewrite length_insert. }
    apply H; [done| |apply length_insert]. apply list_lookup_insert_eq. lia.
Qed.

Lemma cstr_prefix w l : Forall (fun c => word_char c = true) w -> (forall k c, w !! k = Some c -> l !! k = Some c) -> l !! length w = Some 0 ->
  cstr l = w.
Proof.
  intros Hw. revert l. induction Hw as [|c w Hc _ IH]; intros l Hk H0.
  - destruct l as [|d l]; [done|]. by injection H0 as ->.
  - destruct l as [|d l]; [done|]. pose proof (Hk 0%nat c eq_refl) as [= ->]. cbn.
    destruct (word_char_split _ Hc) as (_ & _ & Hne). rewrite (proj2 (Z.eqb_neq c 0) Hne). f_equal. apply IH; [|done].
    intros k e He. by apply (Hk (S k)).
Qed.

(** The word [p] of the line is the text [w], with no word character after it. *)
Definition word_in (line : list Z) (p : word) (w : list Z) : Prop :=
  exists pre post, line = pre ++ w ++ post /\ p = (length w + length post, length post)%nat /\
    match post with c :: _ => word_char c = false | [] => True end.

Lemma word_at_in line p w : word_at line p w -> word_in line p w.
Proof. intros (pre & post & -> & ->). by exists pre, (32 :: post). Qed.

(** The place of the NUL of a word holds no word character before. *)
Lemma word_in_end line p w c : word_in line p w -> (line ++ [0]) !! (length line - p.2)%nat = Some c -> word_char c = false.
Proof.
  intros (pre & post & -> & -> & Hpost). cbn [snd]. rewrite !length_app.
  replace (length pre + (length w + length post) - length post)%nat with (length (pre ++ w) + 0)%nat by (rewrite length_app; lia).
  rewrite (app_assoc pre w post), <- app_assoc, lookup_app_r by lia. replace (length (pre ++ w) + 0 - length (pre ++ w))%nat with 0%nat by lia.
  destruct post; cbn; intros [= <-]; done.
Qed.

(** Each word reads back once the words are ended. *)
Lemma word_text_back line ws p w : p ∈ ws -> valid_word w -> word_in line p w ->
  (forall q, q ∈ ws -> exists w', word_in line q w') -> word_text (foldl end_word (line ++ [0]) ws) p = w.
Proof.
  intros Hp [Hne Hw] (pre & post & El & -> & Hpost) Hall. unfold word_text. rewrite end_words_length, length_app. cbn [length fst].
  assert (length line = length pre + (length w + length post))%nat as Hlen by (rewrite El, !length_app; lia).
  replace (length line + 1 - 1 - (length w + length post))%nat with (length pre) by lia.
  apply cstr_prefix; [done| |]; [intros k c Hk|]; rewrite lookup_drop.
  - assert (k < length w)%nat as Hlt by (by eapply lookup_lt_Some).
    assert (Hc : (line ++ [0]) !! (length pre + k)%nat = Some c).
    { rewrite lookup_app_l by lia. rewrite El, lookup_app_r by lia. replace (length pre + k - length pre)%nat with k by lia.
      by rewrite lookup_app_l. }
    rewrite end_words_other; [exact Hc|]. intros q Hq E. destruct (Hall q Hq) as (w' & Hq'). rewrite length_app in E. cbn in E.
    replace (length line + 1 - 1 - q.2)%nat with (length line - q.2)%nat in E by lia. rewrite E in Hc. apply (word_in_end _ _ _ _ Hq') in Hc.
    rewrite Forall_lookup in Hw. specialize (Hw _ _ Hk). congruence.
  - pose proof (end_words_zero ws _ (line ++ [0]) Hp) as H. rewrite length_app in H. cbn in H. rewrite <- H by lia. f_equal. lia.
Qed.

Lemma reads_words line c' c : reads line c' c -> forall p, p ∈ cmd_words c' -> exists w, word_at line p w.
Proof.
  induction 1 as [ps argv Hf|c c' p w m f _ IH Hw|l l' r r' _ IHl _ IHr|l l' r r' _ IHl _ IHr|c c' _ IH]; intros q Hq; cbn in *.
  - apply list_elem_of_lookup in Hq as [k Hk]. destruct (Forall2_lookup_l _ _ _ _ _ Hf Hk) as (w & _ & Hw). eauto.
  - apply elem_of_app in Hq as [Hq|Hq%list_elem_of_singleton]; [auto|]. subst. eauto.
  - apply elem_of_app in Hq as [Hq|Hq]; auto.
  - apply elem_of_app in Hq as [Hq|Hq]; auto.
  - auto.
Qed.

Lemma reads_map line f c' c : reads line c' c -> valid c ->
  (forall p w, p ∈ cmd_words c' -> valid_word w -> word_at line p w -> f p = w) -> cmd_map f c' = c.
Proof.
  induction 1 as [ps argv Hf|c c' p w m fd _ IH Hw|l l' r r' _ IHl _ IHr|l l' r r' _ IHl _ IHr|c c' _ IH]; intros Hv H; cbn in *.
  - f_equal. destruct Hv as [Hv _]. induction Hf as [|p w ps argv Hpw Hf IH]; [done|]. apply Forall_cons in Hv as [Hw Hv]. cbn. f_equal.
    + apply H; [left|done|done].
    + apply IH; [done|]. intros q x Hq. apply H. by right.
  - destruct Hv as (Hv & Hvw & _). f_equal; [apply IH; [done|]|]; [intros q x Hq|]; apply H; try done; apply elem_of_app; [by left|right; left].
  - destruct Hv as [Hvl Hvr]. f_equal; [apply IHl|apply IHr]; try done; intros q x Hq; apply H; apply elem_of_app; auto.
  - destruct Hv as [Hvl Hvr]. f_equal; [apply IHl|apply IHr]; try done; intros q x Hq; apply H; apply elem_of_app; auto.
  - f_equal. auto.
Qed.

(** C25: the shell understands every command it can express.  Commands of any
    nesting, with words free of white space and symbols and at most nine
    arguments, printed with parentheses where the grammar needs them, are parsed
    back: the parser returns a command of the same structure, and after
    [nulterminate] each of its pointers into the line is to a string that is the
    word. *)
Theorem parsecmd_print c :
  valid c -> exists c' buf, parsecmd (print 3 c) = inr (c', buf) /\ cmd_map (word_text buf) c' = c.
Proof.
  intros Hv. destruct (print_parses (print 3 c) c Hv) as (_ & _ & _ & H3).
  destruct (H3 [] I [] (4 * length (print 3 c) + 4)%nat) as (c' & E & Hr); [by rewrite app_nil_r|rewrite app_nil_r; lia|].
  rewrite app_nil_r in E. unfold parsecmd. rewrite E. cbn [peek skip bool_decide]. rewrite bool_decide_true by done.
  exists c', (nulterminate c' (print 3 c ++ [0])). split; [done|]. apply (reads_map (print 3 c)); [done|done|].
  intros p w Hp Hw Hat. rewrite nulterminate_words. apply (word_text_back (print 3 c)); [done|done|by apply word_at_in|].
  intros q Hq. destruct (reads_words _ _ c Hr q Hq) as (w' & Hw'). exists w'. by apply word_at_in.
Qed.

(** [(ls | grep x > y; cd) & wc] *)
Definition sample_cmd : cmd (list Z) :=
  LIST (BACK (LIST (PIPE (EXEC [chars "ls"]) (REDIR (EXEC [chars "grep"; chars "x"]) (chars "y") (Z.lor O_WRONLY O_CREATE) 1)) (EXEC [chars "cd"])))
    (EXEC [chars "wc"]).

Lemma parsecmd_print_witness : exists c' buf, parsecmd (print 3 sample_cmd) = inr (c', buf) /\ cmd_map (word_text buf) c' = sample_cmd.
Proof.
  apply (parsecmd_print sample_cmd).
  repeat match goal with
  | |- valid _ => cbn
  | |- _ /\ _ => split
  | |- Forall _ _ => constructor
  | |- valid_word _ => split; [discriminate|]
  | |- valid_redir _ _ => right; split; reflexivity
  | |- word_char _ = true => reflexivity
  | |- (_ < _)%nat => vm_compute; lia
  end.
Defined.

(** ** The commands the parser makes *)

Section typed.
  Context (line : list Z) (H0 : 0 ∉ line).

Definition placed (p : word) : Prop := exists w, valid_word w /\ word_in line p w.

(** The words of the command are words of the line. *)
Fixpoint well_placed (c : cmd word) : Prop :=
  match c with
  | EXEC argv => Forall placed argv /\ (length argv < MAXARGS)%nat
  | REDIR c w mode fd => well_placed c /\ placed w /\ valid_redir mode fd
  | PIPE l r | LIST l r => well_placed l /\ well_placed r
  | BACK c => well_placed c
  end.

(** What a part of the parser returns: a command of the line, and the rest. *)
Definition parsed_in (r : perr + cmd word * list Z) : Prop :=
  match r with
  | inl _ => True
  | inr (c, s) => well_placed c /\ s `suffix_of` line
  end.

Lemma skip_suffix s : s `suffix_of` line -> skip s `suffix_of` line.
Proof. induction s as [|c s IH]; cbn; [done|]. intros H. destruct (inset _ _); [|done]. apply IH. by apply suffix_cons_l in H. Qed.

(** A word of the line and what comes after it. *)
Lemma skip_word_splits s : exists w, s = w ++ skip_word s /\ Forall (fun c => inset whitespace c || inset symbols c = false) w /\
  match skip_word s with c :: _ => word_char c = false | [] => True end.
Proof.
  induction s as [|c s (w & E & Hw & Hp)]; [by exists []|]. cbn [skip_word]. destruct (inset whitespace c || inset symbols c) eqn:Ec.
  - exists []. split_and!; [done|done|]. unfold word_char. by rewrite <- negb_orb, Ec.
  - exists (c :: w). split_and!; [cbn; by rewrite <- E|by constructor|done].
Qed.

Lemma gettoken_good s tok w s' : gettoken s = (tok, w, s') -> s `suffix_of` line -> s' `suffix_of` line /\ (tok = CH_a -> placed w).
Proof.
  unfold gettoken. intros E Hs. apply skip_suffix in Hs. destruct (skip s) as [|c r] eqn:Ek.
  { injection E as <- <- <-. done. }
  assert (Hr : r `suffix_of` line) by (by apply suffix_cons_l in Hs).
  pose proof (skip_head _ _ _ Ek) as Hc. destruct (inset [CH_BAR; _; _; _; _; _] c) eqn:Ei.
  { injection E as <- <- <-. split; [by apply skip_suffix|]. intros ->. done. }
  destruct (Z.eqb_spec c CH_GT) as [->|Hne].
  { destruct r as [|d r]; [by injection E as <- <- <-|]. assert (r `suffix_of` line) by (by apply suffix_cons_l in Hr).
    destruct (d =? CH_GT); injection E as <- <- <-; (split; [|done]); [by apply skip_suffix|by apply (skip_suffix (d :: r))]. }
  destruct (skip_word_splits (c :: r)) as (t & Et & Ht & Hp). destruct Hs as [pre El]. remember (skip_word (c :: r)) as u eqn:Eu.
  injection E as <- <- <-. split.
  { apply skip_suffix. exists (pre ++ t). by rewrite <- app_assoc, <- Et. }
  intros _. exists t. split.
  - split.
    + intros ->. cbn [skip_word app] in Et, Eu. rewrite Hc, symbols_cases, Ei, (proj2 (Z.eqb_neq c CH_GT) Hne) in Eu. cbn in Eu.
      pose proof (skip_word_length r) as Hr'. rewrite <- Eu, <- Et in Hr'. cbn in Hr'. lia.
    + rewrite Forall_forall in *. intros x Hx. unfold word_char. rewrite <- negb_orb, (Ht x Hx). cbn. apply negb_true_iff, Z.eqb_neq. intros ->.
      apply H0. rewrite El, Et, !elem_of_app. auto.
  - exists pre, u. split_and!; [by rewrite El, <- Et| |done]. f_equal. change (S (length r)) with (length (c :: r)). rewrite Et. by rewrite length_app.
Qed.

Lemma peek_good s toks b s' : peek s toks = (b, s') -> s `suffix_of` line -> s' `suffix_of` line.
Proof. intros [= _ <-]. apply skip_suffix. Qed.

Lemma set_argv_placed argv c : well_placed c -> Forall placed argv -> (length argv < MAXARGS)%nat -> well_placed (set_argv argv c).
Proof. induction c as [|c IH ? ? ?| | |]; cbn; intros H Ha Hl; try done. destruct H as (H & Hw). split; [auto|done]. Qed.

Lemma parseredirs_placed fuel : forall c s, well_placed c -> s `suffix_of` line -> parsed_in (parseredirs fuel c s).
Proof.
  induction fuel as [|fuel IH]; intros c s Hc Hs; cbn [parseredirs]; destruct (peek s _) as [b s1] eqn:Ep;
    pose proof (peek_good _ _ _ _ Ep Hs) as Hs1; (destruct b; [|done]); [done|].
  destruct (gettoken s1) as [[tok w] s2] eqn:E1. destruct (gettoken_good _ _ _ _ E1 Hs1) as [Hs2 _].
  destruct (gettoken s2) as [[tok2 w2] s3] eqn:E2. destruct (gettoken_good _ _ _ _ E2 Hs2) as [Hs3 Hw].
  destruct (Z.eqb_spec tok2 CH_a) as [->|]; cbn [negb]; [|done]. specialize (Hw eq_refl).
  destruct (tok =? CH_LT); (apply IH; [split_and!; [done|done|]|done]); [by left|by right].
Qed.

Lemma parseargs_placed fuel : forall argv c s, well_placed c -> Forall placed argv -> (length argv < MAXARGS)%nat -> s `suffix_of` line ->
  parsed_in (parseargs fuel argv c s).
Proof.
  induction fuel as [|fuel IH]; intros argv c s Hc Ha Hl Hs; cbn [parseargs]; destruct (peek s _) as [b s1] eqn:Ep;
    pose proof (peek_good _ _ _ _ Ep Hs) as Hs1; (destruct b; [by split; [apply set_argv_placed|]|]);
    destruct (gettoken s1) as [[tok w] s2] eqn:E1; destruct (gettoken_good _ _ _ _ E1 Hs1) as [Hs2 Hw];
    (destruct (tok =? 0); [by split; [apply set_argv_placed|]|]);
    (destruct (Z.eqb_spec tok CH_a) as [->|]; cbn [negb]; [|done]); (destruct (Nat.leb_spec MAXARGS (length (argv ++ [w]))); [done|]); [done|].
  pose proof (parseredirs_placed (length s2) c s2 Hc Hs2) as Hr. destruct (parseredirs _ c s2) as [|[c2 s3]]; [done|]. destruct Hr as [Hc2 Hs3].
  apply IH; [done| |done|done]. apply Forall_app. split; [done|]. constructor; [auto|done].
Qed.

Lemma parseback_placed fuel : forall c s, well_placed c -> s `suffix_of` line -> parsed_in (parseback fuel c s).
Proof.
  induction fuel as [|fuel IH]; intros c s Hc Hs; cbn [parseback]; destruct (peek s _) as [b s1] eqn:Ep;
    pose proof (peek_good _ _ _ _ Ep Hs) as Hs1; (destruct b; [|done]); [done|].
  destruct (gettoken s1) as [[tok w] s2] eqn:E1. destruct (gettoken_good _ _ _ _ E1 Hs1) as [Hs2 _]. by apply IH.
Qed.

Lemma parse_placed fuel : forall s, s `suffix_of` line ->
  parsed_in (parseline fuel s) /\ parsed_in (parsepipe fuel s) /\ parsed_in (parseexec fuel s) /\ parsed_in (parseblock fuel s).
Proof.
  induction fuel as [|fuel IH]; intros s Hs; [done|].
  assert (Htok : forall s s1 toks b, peek s toks = (b, s1) -> s `suffix_of` line -> forall tok w s2, gettoken s1 = (tok, w, s2) -> s2 `suffix_of` line).
  { intros t s1 toks b Ep Ht tok w s2 Eg. by destruct (gettoken_good _ _ _ _ Eg (peek_good _ _ _ _ Ep Ht)). }
  split_and!.
  - cbn [parseline]. destruct (IH s Hs) as (_ & Hp & _). destruct (parsepipe fuel s) as [|[c s1]]; [done|]. destruct Hp as [Hc Hs1].
    pose proof (parseback_placed (length s1) c s1 Hc Hs1) as Hb. destruct (parseback _ c s1) as [|[c2 s2]]; [done|]. destruct Hb as [Hc2 Hs2].
    destruct (peek s2 _) as [b s3] eqn:Ep. destruct b; [|split; [done|by eapply peek_good]].
    destruct (gettoken s3) as [[tok w] s4] eqn:Eg. destruct (IH s4 (Htok _ _ _ _ Ep Hs2 _ _ _ Eg)) as [Hr _].
    destruct (parseline fuel s4) as [|[r s5]]; [done|]. by destruct Hr.
  - cbn [parsepipe]. destruct (IH s Hs) as (_ & _ & Hp & _). destruct (parseexec fuel s) as [|[c s1]]; [done|]. destruct Hp as [Hc Hs1].
    destruct (peek s1 _) as [b s3] eqn:Ep. destruct b; [|split; [done|by eapply peek_good]].
    destruct (gettoken s3) as [[tok w] s4] eqn:Eg. destruct (IH s4 (Htok _ _ _ _ Ep Hs1 _ _ _ Eg)) as (_ & Hr & _).
    destruct (parsepipe fuel s4) as [|[r s5]]; [done|]. by destruct Hr.
  - cbn [parseexec]. destruct (peek s _) as [b s1] eqn:Ep. pose proof (peek_good _ _ _ _ Ep Hs) as Hs1. destruct b; [by apply IH|].
    pose proof (parseredirs_placed (length s1) (EXEC []) s1) as Hr. destruct (parseredirs _ _ s1) as [|[c2 s2]]; [done|].
    destruct Hr as [Hc2 Hs2]; [split; [done|unfold MAXARGS; cbn; lia]|done|]. apply parseargs_placed; [done|done|unfold MAXARGS; cbn; lia|done].
  - cbn [parseblock]. destruct (peek s _) as [b s1] eqn:Ep. destruct b; [|done]. cbn [negb].
    destruct (gettoken s1) as [[tok w] s2] eqn:Eg. destruct (IH s2 (Htok _ _ _ _ Ep Hs _ _ _ Eg)) as [Hl _].
    destruct (parseline fuel s2) as [|[c s3]]; [done|]. destruct Hl as [Hc Hs3].
    destruct (peek s3 _) as [b s4] eqn:Ep2. destruct b; [|done]. cbn [negb].
    destruct (gettoken s4) as [[tok2 w2] s5] eqn:Eg2. apply parseredirs_placed; [done|by eapply Htok].
Qed.

(** Words of the line are read from it when all the words are ended. *)
Lemma well_placed_words c : well_placed c -> forall p, p ∈ cmd_words c -> placed p.
Proof.
  induction c as [argv|c IH w m f|l IHl r IHr|l IHl r IHr|c IH]; cbn; intros H p Hp.
  - destruct H as [H _]. rewrite Forall_forall in H. auto.
  - destruct H as (H & Hw & _). apply elem_of_app in Hp as [Hp|Hp%list_elem_of_singleton]; [auto|by subst].
  - apply elem_of_app in Hp as [Hp|Hp]; destruct H; auto.
  - apply elem_of_app in Hp as [Hp|Hp]; destruct H; auto.
  - auto.
Qed.

Lemma well_placed_valid f c : well_placed c -> (forall p, p ∈ cmd_words c -> valid_word (f p)) -> valid (cmd_map f c).
Proof.
  induction c as [argv|c IH w m fd|l IHl r IHr|l IHl r IHr|c IH]; cbn; intros H Hf.
  - destruct H as [_ H]. rewrite length_fmap. split; [|done]. rewrite Forall_fmap. rewrite Forall_forall. exact Hf.
  - destruct H as (H & _ & Hr). split_and!; [apply IH|apply Hf|]; [done| | |done]; [intros p Hp; apply Hf|]; apply elem_of_app; [by left|right; left].
  - destruct H as [Hl Hr]. split; [apply IHl|apply IHr]; try done; intros p Hp; apply Hf, elem_of_app; auto.
  - destruct H as [Hl Hr]. split; [apply IHl|apply IHr]; try done; intros p Hp; apply Hf, elem_of_app; auto.
  - auto.
Qed.

End typed.

(** C26: what the parser returns is a command.  For every line without NULs on which
    [parsecmd] returns a command, each [execcmd] has fewer than MAXARGS arguments,
    each redirection is input on descriptor 0 or output on descriptor 1, and every
    word points to a string that is not empty and has neither white space nor
    symbols, also after [nulterminate] has ended all the words. *)
Theorem parsecmd_typed line c buf :
  0 ∉ line -> parsecmd line = inr (c, buf) -> length buf = S (length line) /\ valid (cmd_map (word_text buf) c).
Proof.
  intros H0. unfold parsecmd. destruct (parse_placed line H0 (4 * length line + 4) line) as [Hg _]; [done|].
  destruct (parseline _ line) as [|[c' s]]; [done|]. destruct Hg as [Hc _]. destruct (peek s []) as [b s1]. destruct (bool_decide _); [|done].
  intros [= -> <-]. rewrite nulterminate_words. split; [rewrite end_words_length, length_app; cbn; lia|].
  apply (well_placed_valid line); [done|]. intros p Hp. destruct (well_placed_words line c Hc p Hp) as (w & Hw & Hin).
  rewrite (word_text_back line _ p w); [done|done|done|done|]. intros q Hq. destruct (well_placed_words line c Hc q Hq) as (w' & _ & Hq'). eauto.
Qed.

Lemma parsecmd_typed_witness : exists c buf, parsecmd (chars "a b>c|(d&)") = inr (c, buf) /\ valid (cmd_map (word_text buf) c).
Proof.
  destruct (parsecmd (chars "a b>c|(d&)")) as [e|[c buf]] eqn:E; [vm_compute in E; discriminate E|]. exists c, buf. split; [reflexivity|].
  apply (parsecmd_typed (chars "a b>c|(d&)") c buf); [|exact E]. vm_compute. set_solver.
Defined.

