(* ===== verification/Mkfs.v ===== *)
(** * Making a file system (mkfs.c)

    The program that builds the disk image: super block, empty log, inodes,
    bitmap, and the files given on its command line in the root directory.  The
    image is a function from sector numbers to contents; a failed assertion or
    call ends the program ([None]).  The conversions to little-endian byte order
    are in the encodings of inodes and entries. *)

From S2P Require Import Prelude State Mem Spinlock Sched SchedFacts Ide Bio Log Inode Kalloc Vm Kbd Console Fs.

Module Mkfs.

Definition NINODES : Z := 200.
Definition nbitmap : Z := FSSIZE / (512 * 8) + 1.
Definition ninodeblocks : Z := NINODES / IPB + 1.
Definition nlog : Z := LOGSIZE.
Definition nmeta : Z := 2 + nlog + ninodeblocks + nbitmap.
Definition nblocks : Z := FSSIZE - nmeta.

Definition sb : superblock := MkSb FSSIZE nblocks NINODES nlog 2 (2 + nlog) (2 + nlog + ninodeblocks).

(** The image and the counters [freeinode] and [freeblock]. *)
Record mk := MkMk { img : Z -> list Z; freeinode : Z; freeblock : Z }.

Definition zeroes : list Z := replicate BSIZE 0.

Definition wsect (sec : Z) (buf : list Z) (s : mk) : mk :=
  MkMk (fun n => if n =? sec then buf else img s n) (freeinode s) (freeblock s).

(** Reading past the FSSIZE sectors of the file fails.  No sector is written
    before it has been read, but for the first ones. *)
Definition rsect (sec : Z) (s : mk) : option (list Z) :=
  if sec <? FSSIZE then Some (img s sec) else None.

(** [struct dinode]: the fields of an inode that are on disk. *)
Definition blank : inode := MkInode 0 0 0 false false 0 0 0 0 0 (replicate 13 0).

Definition winode (inum : Z) (ip : inode) (s : mk) : option mk :=
  let bn := IBLOCK inum sb in
  match rsect bn s with
  | None => None
  | Some buf => Some (wsect bn (put_dinode buf (dinode_off inum) ip) s)
  end.

Definition rinode (inum : Z) (s : mk) : option inode :=
  match rsect (IBLOCK inum sb) s with
  | None => None
  | Some buf => Some (read_dinode buf (dinode_off inum) blank)
  end.

Definition ialloc (type : Z) (s : mk) : option (Z * mk) :=
  let inum := freeinode s in
  match winode inum (set_i_nlink 1 (set_i_type type blank)) (MkMk (img s) (freeinode s + 1) (freeblock s)) with
  | None => None
  | Some s => Some (inum, s)
  end.

Definition take_block (s : mk) : Z * mk := (freeblock s, MkMk (img s) (freeinode s) (freeblock s + 1)).

(** The block of the file for block number [fbn]: the inode, which may have got
    a new address, and the sector. *)
Definition iblock (din : inode) (fbn : nat) (s : mk) : option (inode * Z * mk) :=
  if (fbn <? NDIRECT)%nat then
    let '(din, s) :=
      if i_addrs din !!! fbn =? 0 then
        let '(b, s) := take_block s in (set_i_addrs (<[fbn := b]> (i_addrs din)) din, s)
      else (din, s) in
    Some (din, i_addrs din !!! fbn, s)
  else
    let '(din, s) :=
      if i_addrs din !!! NDIRECT =? 0 then
        let '(b, s) := take_block s in (set_i_addrs (<[NDIRECT := b]> (i_addrs din)) din, s)
      else (din, s) in
    let a := i_addrs din !!! NDIRECT in
    match rsect a s with
    | None => None
    | Some indirect =>
      let o := (4 * (fbn - NDIRECT))%nat in
      if get32 indirect o =? 0 then
        let '(b, s) := take_block s in
        Some (din, b, wsect a (put32 indirect o b) s)
      else Some (din, get32 indirect o, s)
    end.

(** [while(n > 0)]: the bytes [p] go to the file from [off] on. *)
Fixpoint iappend_loop (fuel : nat) (din : inode) (off : Z) (p : list Z) (s : mk) : option (inode * Z * mk) :=
  match p with
  | [] => Some (din, off, s)
  | _ =>
    match fuel with
    | O => None
    | S fuel =>
      let fbn := off / 512 in
      if MAXFILE <=? fbn then None
      else
        match iblock din (Z.to_nat fbn) s with
        | None => None
        | Some (din, x, s) =>
          let n1 := Z.to_nat (Z.min (Z.of_nat (length p)) ((fbn + 1) * 512 - off)) in
          match rsect x s with
          | None => None
          | Some buf =>
            let s := wsect x (splice buf (Z.to_nat (off - fbn * 512)) (take n1 p)) s in
            iappend_loop fuel din (off + Z.of_nat n1) (drop n1 p) s
          end
        end
    end
  end.

Definition iappend (inum : Z) (p : list Z) (s : mk) : option mk :=
  match rinode inum s with
  | None => None
  | Some din =>
    match iappend_loop (length p) din (i_size din) p s with
    | None => None
    | Some (din, off, s) => winode inum (set_i_size off din) s
    end
  end.

(** [for(i = 0; i < used; i++) buf[i/8] = buf[i/8] | (0x1 << (i%8));] *)
Fixpoint mark (n : nat) (i : Z) (buf : list Z) : list Z :=
  match n with
  | O => buf
  | S n => mark n (i + 1) (alter (fun v => Z.lor v (bit_mask i)) (bit_byte i) buf)
  end.

Definition balloc (used : Z) (s : mk) : option mk :=
  if used <? 512 * 8 then Some (wsect (sb_bmapstart sb) (mark (Z.to_nat used) 0 zeroes) s) else None.

(** A file on the command line: its name, and what the calls of [read] return. *)
Definition file : Type := list Z * list (list Z).

(** [while((cc = read(fd, buf, sizeof(buf))) > 0) iappend(inum, buf, cc);] *)
Fixpoint copy_file (inum : Z) (chunks : list (list Z)) (s : mk) : option mk :=
  match chunks with
  | [] => Some s
  | c :: chunks => match iappend inum c s with Some s => copy_file inum chunks s | None => None end
  end.

(** The name without the leading underscore of the binaries. *)
Definition base_name (name : list Z) : list Z :=
  match name with
  | c :: name' => if c =? 95 then name' else name
  | [] => name
  end.

Definition add_file (rootino : Z) (f : file) (s : mk) : option mk :=
  if bool_decide (47 ∈ f.1) then None
  else
    match ialloc T_FILE s with
    | None => None
    | Some (inum, s) =>
      match iappend rootino (dirent (base_name f.1) inum) s with
      | None => None
      | Some s => copy_file inum f.2 s
      end
    end.

Fixpoint add_files (rootino : Z) (fs : list file) (s : mk) : option mk :=
  match fs with
  | [] => Some s
  | f :: fs => match add_file rootino f s with Some s => add_files rootino fs s | None => None end
  end.

(** The super block as bytes. *)
Definition sb_bytes : list Z :=
  bytes32 (sb_size sb) ++ bytes32 (sb_nblocks sb) ++ bytes32 (sb_ninodes sb) ++ bytes32 (sb_nlog sb) ++
  bytes32 (sb_logstart sb) ++ bytes32 (sb_inodestart sb) ++ bytes32 (sb_bmapstart sb).

(** [off = ((off/BSIZE) + 1) * BSIZE;] for the size of the root directory. *)
Definition fix_root (rootino : Z) (s : mk) : option mk :=
  match rinode rootino s with
  | None => None
  | Some din => winode rootino (set_i_size ((i_size din / 512 + 1) * 512) din) s
  end.

(** [main] for the files [fs]. *)
Definition mkfs (fs : list file) : option mk :=
  let s := MkMk (fun _ => zeroes) 1 nmeta in
  let s := wsect 1 (splice zeroes 0 sb_bytes) s in
  match ialloc T_DIR s with
  | None => None
  | Some (rootino, s) =>
    if negb (rootino =? ROOTINO) then None
    else
      match iappend rootino (dirent [46] rootino) s with
      | None => None
      | Some s =>
        match iappend rootino (dirent [46; 46] rootino) s with
        | None => None
        | Some s =>
          match add_files rootino fs s with
          | None => None
          | Some s =>
            match fix_root rootino s with
            | None => None
            | Some s => balloc (freeblock s) s
            end
          end
        end
      end
  end.

End Mkfs.
