(* ===== verification/MkfsThm.v ===== *)
(** * What mkfs promises

    The image has the files with the contents given, their blocks do not overlap,
    and the super block, the bitmap and the inodes are as the kernel expects. *)

From S2P Require Import Prelude State Mem Spinlock Sched SchedFacts Ide Bio BioFacts Cache CacheThm Log LogFacts LogCrash LogTx Inode FsFacts InodeFacts.
From S2P Require Import Kalloc Vm Kbd Console Fs Mkfs.
Import Mkfs.

(** ** Contents by blocks *)

(** Block [k] of a file with the contents [data], zeros after the end. *)
Definition block_of (data : list Z) (k : nat) : list Z := (fun j => default 0 (data !! (512 * k + j)%nat)) <$> seq 0 512.

(** The number of blocks of a file of [n] bytes. *)
Definition nb (n : nat) : nat := ((n + 511) / 512)%nat.

Lemma length_block_of data k : length (block_of data k) = BSIZE.
Proof. unfold block_of. by rewrite length_fmap, length_seq. Qed.

Lemma block_of_lookup data k j : (j < 512)%nat -> block_of data k !! j = Some (default 0 (data !! (512 * k + j)%nat)).
Proof. intros Hj. unfold block_of. by rewrite list_lookup_fmap, lookup_seq_lt. Qed.

Lemma block_of_end data k : (length data <= 512 * k)%nat -> block_of data k = zeroes.
Proof.
  intros H. apply list_eq. intros j. destruct (decide (j < 512)%nat).
  - rewrite block_of_lookup by done. rewrite lookup_ge_None_2 by lia. unfold zeroes, BSIZE. by rewrite lookup_replicate_2.
  - rewrite !lookup_ge_None_2; [done|unfold zeroes, BSIZE; rewrite length_replicate; lia|rewrite length_block_of; unfold BSIZE; lia].
Qed.

Lemma splice_lookup l off l' j : (off + length l' <= length l)%nat ->
  splice l off l' !! j = if decide (off <= j < off + length l')%nat then l' !! (j - off)%nat else l !! j.
Proof.
  intros H. unfold splice. destruct (decide (j < off)%nat).
  - rewrite decide_False by lia. rewrite lookup_app_l by (rewrite length_take; lia). apply lookup_take_lt. lia.
  - rewrite lookup_app_r by (rewrite length_take; lia). rewrite length_take, Nat.min_l by lia. destruct (decide (j < off + length l')%nat).
    + rewrite decide_True by lia. by rewrite lookup_app_l by lia.
    + rewrite decide_False by lia. rewrite lookup_app_r by lia. rewrite lookup_drop. f_equal. lia.
Qed.

(** Appending within a block. *)
Lemma block_of_splice data q k :
  (512 * k <= length data)%nat -> (length data + length q <= 512 * k + 512)%nat ->
  splice (block_of data k) (length data - 512 * k) q = block_of (data ++ q) k.
Proof.
  intros H1 H2. apply list_eq. intros j. rewrite splice_lookup by (rewrite length_block_of; unfold BSIZE; lia).
  destruct (decide (j < 512)%nat) as [Hj|Hj].
  - rewrite !block_of_lookup by done. destruct (decide _) as [Hd|Hd].
    + rewrite lookup_app_r by lia. replace (512 * k + j - length data)%nat with (j - (length data - 512 * k))%nat by lia.
      destruct (lookup_lt_is_Some_2 q (j - (length data - 512 * k))%nat) as [v ->]; [lia|]. done.
    + f_equal. f_equal. destruct (decide (512 * k + j < length data)%nat); [by rewrite lookup_app_l|].
      rewrite !lookup_ge_None_2; [done|rewrite length_app; lia|lia].
  - rewrite decide_False by lia. rewrite !lookup_ge_None_2; [done|rewrite length_block_of; unfold BSIZE; lia..].
Qed.

Lemma block_of_other data q k : (512 * k + 512 <= length data)%nat -> block_of (data ++ q) k = block_of data k.
Proof.
  intros H. apply list_fmap_ext. intros i j [-> Hj]%lookup_seq. rewrite lookup_app_l by lia. done.
Qed.

(** ** Files *)

(** The sector of block [k], through the indirect block from NDIRECT on. *)
Definition blk (im : Z -> list Z) (din : inode) (k : nat) : Z :=
  if (k <? NDIRECT)%nat then i_addrs din !!! k else get32 (im (i_addrs din !!! NDIRECT)) (4 * (k - NDIRECT)).

(** The sectors of a file of [n] blocks, with an indirect block or not. *)
Definition owned (im : Z -> list Z) (din : inode) (n : nat) (ind : bool) : list Z :=
  (blk im din <$> seq 0 n) ++ (if ind then [i_addrs din !!! NDIRECT] else []).

(** The inode has [n] blocks, which hold the contents [data]. *)
Record file_ok (im : Z -> list Z) (din : inode) (data : list Z) (n : nat) (ind : bool) : Prop := {
  fk_len : length (i_addrs din) = S NDIRECT;
  fk_max : (length data <= 512 * n)%nat;
  fk_n : (n <= 140)%nat;
  fk_direct : forall k, (n <= k < NDIRECT)%nat -> i_addrs din !!! k = 0;
  fk_indirect : ind = false -> i_addrs din !!! NDIRECT = 0 /\ (n <= NDIRECT)%nat;
  fk_entries : ind = true -> forall k, (n <= k < 140)%nat -> (NDIRECT <= k)%nat -> blk im din k = 0;
  fk_blocks : forall k, (k < n)%nat -> im (blk im din k) = block_of data k }.

(** The image: whole sectors, and the ones not given out yet are zero. *)
Record img_ok (s : mk) : Prop := {
  im_len : forall b, length (img s b) = BSIZE;
  im_free : forall b, freeblock s <= b -> img s b = zeroes;
  im_meta : nmeta <= freeblock s <= FSSIZE }.

(** The sectors are distinct and have been given out. *)
Definition given (s : mk) (bs : list Z) : Prop := NoDup bs /\ Forall (fun b => nmeta <= b < freeblock s) bs.

Lemma le_zeroes o n : le (slice zeroes o n) = 0.
Proof.
  unfold slice, zeroes. rewrite drop_replicate, take_replicate.
  generalize (Nat.min n (BSIZE - o)). clear n. intros n. induction n as [|n IH]; [done|]. cbn [replicate le]. rewrite IH. done.
Qed.

Lemma get32_zeroes o : get32 zeroes o = 0.
Proof. apply le_zeroes. Qed.

Lemma length_zeroes : length zeroes = BSIZE.
Proof. apply length_replicate. Qed.

(** ** The sectors of a file *)

Lemma owned_blk im din n ind k : (k < n)%nat -> blk im din k ∈ owned im din n ind.
Proof. intros Hk. apply elem_of_app. left. apply list_elem_of_fmap. exists k. split; [done|]. apply elem_of_seq. lia. Qed.

Lemma owned_ind im din n : i_addrs din !!! NDIRECT ∈ owned im din n true.
Proof. apply elem_of_app. right. apply list_elem_of_singleton. done. Qed.

Lemma owned_blk_ne im din n ind k j : NoDup (owned im din n ind) -> (k < n)%nat -> (j < n)%nat -> k <> j -> blk im din k <> blk im din j.
Proof.
  intros [Hd _]%NoDup_app Hk Hj Hne He. apply Hne.
  apply (NoDup_lookup _ k j (blk im din k) Hd); rewrite list_lookup_fmap, lookup_seq_lt by done; cbn; congruence.
Qed.

Lemma owned_blk_ind im din n k : NoDup (owned im din n true) -> (k < n)%nat -> blk im din k <> i_addrs din !!! NDIRECT.
Proof.
  intros (_ & Hd & _)%NoDup_app Hk He. apply (Hd (blk im din k)); [|rewrite He; by apply list_elem_of_singleton].
  apply list_elem_of_fmap. exists k. split; [done|]. apply elem_of_seq. lia.
Qed.

Lemma blk_direct im din k : (k < NDIRECT)%nat -> blk im din k = i_addrs din !!! k.
Proof. intros Hk. unfold blk. by rewrite (proj2 (Nat.ltb_lt _ _) Hk). Qed.

Lemma blk_entry im din k : (NDIRECT <= k)%nat -> blk im din k = get32 (im (i_addrs din !!! NDIRECT)) (4 * (k - NDIRECT)).
Proof. intros Hk. unfold blk. by rewrite (proj2 (Nat.ltb_ge _ _) Hk). Qed.

Lemma blk_ext im im' din k : im' (i_addrs din !!! NDIRECT) = im (i_addrs din !!! NDIRECT) -> blk im' din k = blk im din k.
Proof. intros H. unfold blk. by rewrite H. Qed.

Lemma owned_S im din n ind : owned im din (S n) ind ≡ₚ owned im din n ind ++ [blk im din n].
Proof. unfold owned. rewrite seq_S, fmap_app. cbn. solve_Permutation. Qed.

Lemma owned_eq im im' din din' n ind :
  (forall k, (k < n)%nat -> blk im' din' k = blk im din k) -> i_addrs din' !!! NDIRECT = i_addrs din !!! NDIRECT ->
  owned im' din' n ind = owned im din n ind.
Proof.
  intros Hk Hi. unfold owned. rewrite Hi. f_equal. apply list_fmap_ext. intros i j [-> Hj]%lookup_seq. apply Hk. lia.
Qed.

(** The addresses of a file with given sectors are not null. *)
Lemma given_blk s im din n ind k : given s (owned im din n ind) -> (k < n)%nat -> nmeta <= blk im din k < freeblock s.
Proof. intros [_ HF] Hk. apply (proj1 (Forall_forall _ _) HF). by apply owned_blk. Qed.

Lemma given_ind s im din n : given s (owned im din n true) -> nmeta <= i_addrs din !!! NDIRECT < freeblock s.
Proof. intros [_ HF]. apply (proj1 (Forall_forall _ _) HF). apply owned_ind. Qed.

(** ** Growing a file *)

(** All but size and addresses. *)
Definition same_kind (d d' : inode) : Prop :=
  i_type d = i_type d' /\ i_major d = i_major d' /\ i_minor d = i_minor d' /\ i_nlink d = i_nlink d'.

(** From [s] to [s'] the file got the sectors given out in between, and nothing
    changed outside its sectors. *)
Record grows (s : mk) (din : inode) (n : nat) (ind : bool) (s' : mk) (din' : inode) (data' : list Z) (n' : nat) (ind' : bool) : Prop := {
  gr_img : img_ok s';
  gr_file : file_ok (img s') din' data' n' ind';
  gr_owned : owned (img s') din' n' ind' ≡ₚ owned (img s) din n ind ++ seqZ (freeblock s) (freeblock s' - freeblock s);
  gr_more : freeblock s <= freeblock s';
  gr_frame : forall b, b ∉ owned (img s') din' n' ind' -> img s' b = img s b;
  gr_inode : freeinode s' = freeinode s;
  gr_rest : same_kind din' din }.

Lemma grows_refl s din data n ind : img_ok s -> file_ok (img s) din data n ind -> grows s din n ind s din data n ind.
Proof.
  intros Hi Hf. split; try done. rewrite Z.sub_diag. cbn. rewrite app_nil_r. done.
Qed.

Lemma grows_trans s1 d1 n1 i1 s2 d2 l2 n2 i2 s3 d3 l3 n3 i3 :
  grows s1 d1 n1 i1 s2 d2 l2 n2 i2 -> grows s2 d2 n2 i2 s3 d3 l3 n3 i3 -> grows s1 d1 n1 i1 s3 d3 l3 n3 i3.
Proof.
  intros [_ _ Ho Hm Hf Hn Hs] [Hi' Hk' Ho' Hm' Hf' Hn' Hs']. split; try done; [|lia| |congruence|unfold same_kind in *; intuition congruence].
  - rewrite Ho', Ho, <- app_assoc. apply Permutation_app_head.
    replace (freeblock s3 - freeblock s1) with ((freeblock s2 - freeblock s1) + (freeblock s3 - freeblock s2)) by lia.
    rewrite seqZ_app by lia. replace (freeblock s1 + (freeblock s2 - freeblock s1)) with (freeblock s2) by lia. done.
  - intros b Hb. rewrite Hf' by done. apply Hf. intros Hin. apply Hb. rewrite Ho'. apply elem_of_app. by left.
Qed.

Lemma given_grows s din n ind s' din' data' n' ind' :
  img_ok s -> given s (owned (img s) din n ind) -> grows s din n ind s' din' data' n' ind' ->
  given s' (owned (img s') din' n' ind').
Proof.
  intros Hi [Hd HF] [_ _ Ho Hm _ _ _]. pose proof (im_meta s Hi). split.
  - rewrite Ho. apply NoDup_app. split; [done|]. split; [|apply NoDup_seqZ].
    intros b Hb [? ?]%elem_of_seqZ. pose proof (proj1 (Forall_forall _ _) HF b Hb). cbn in *. lia.
  - rewrite Ho. apply Forall_app. split; [eapply Forall_impl; [exact HF|]; cbn; intros; lia|].
    apply Forall_forall. intros b [? ?]%elem_of_seqZ. lia.
Qed.

(** The state after a block has been given out. *)
Definition took (s : mk) : mk := MkMk (img s) (freeinode s) (freeblock s + 1).

Lemma img_ok_took s : img_ok s -> freeblock s < FSSIZE -> img_ok (took s).
Proof. intros [Hl Hf Hm] Hr. split; cbn; [done|intros; apply Hf; lia|lia]. Qed.

Lemma img_ok_wsect s b buf : img_ok s -> length buf = BSIZE -> b < freeblock s -> img_ok (wsect b buf s).
Proof.
  intros [Hl Hf Hm] Hb Hr. split; cbn; [| |done].
  - intros c. destruct (c =? b); [done|apply Hl].
  - intros c Hc. rewrite (proj2 (Z.eqb_neq _ _)) by lia. by apply Hf.
Qed.

Lemma wsect_same s b buf : img (wsect b buf s) b = buf.
Proof. cbn. by rewrite Z.eqb_refl. Qed.

Lemma wsect_other s b buf c : c <> b -> img (wsect b buf s) c = img s c.
Proof. intros H. cbn. by rewrite (proj2 (Z.eqb_neq _ _)). Qed.

#[local] Ltac one_block := replace (freeblock _ + 1 - freeblock _) with 1 by lia.

Section grow.
  Context (s : mk) (din : inode) (data : list Z) (n : nat) (ind : bool).
  Context (Himg : img_ok s) (Hfile : file_ok (img s) din data n ind) (Hgiven : given s (owned (img s) din n ind)).

(** A direct address. *)
Lemma grow_direct :
  freeblock s < FSSIZE -> (n < NDIRECT)%nat ->
  grows s din n ind (took s) (set_i_addrs (<[n := freeblock s]> (i_addrs din)) din) data (S n) ind.
Proof.
  intros Hr Hn. set (d := set_i_addrs _ _). pose proof (fk_len _ _ _ _ _ Hfile) as Hl. pose proof (fk_max _ _ _ _ _ Hfile) as Hmax.
  assert (Ha : i_addrs d !!! NDIRECT = i_addrs din !!! NDIRECT) by (apply list_lookup_total_insert_ne; lia).
  assert (Hb : forall k, k <> n -> blk (img s) d k = blk (img s) din k).
  { intros k Hk. unfold blk. rewrite Ha. destruct (_ <? _)%nat; [|done]. by apply list_lookup_total_insert_ne. }
  assert (Hx : blk (img s) d n = freeblock s).
  { rewrite blk_direct by done. apply list_lookup_total_insert_eq. unfold NDIRECT in *. lia. }
  split; cbn [took img freeblock freeinode]; [by apply img_ok_took| | |lia|done|done|done].
  - split; [| lia | unfold NDIRECT in *; lia | | | |].
    + cbn. by rewrite length_insert.
    + intros k Hk. cbn. rewrite list_lookup_total_insert_ne by lia. apply (fk_direct _ _ _ _ _ Hfile). lia.
    + intros Hi. rewrite Ha. split; [apply (fk_indirect _ _ _ _ _ Hfile Hi)|lia].
    + intros Hi k Hk HN. rewrite Hb by lia. apply (fk_entries _ _ _ _ _ Hfile Hi); lia.
    + intros k Hk. destruct (decide (k = n)) as [->|Hne].
      * rewrite Hx, (im_free s Himg) by lia. by rewrite block_of_end by lia.
      * rewrite Hb by done. apply (fk_blocks _ _ _ _ _ Hfile). lia.
  - rewrite owned_S, Hx. one_block. rewrite (owned_eq (img s) (img s) din d n ind); [done|intros; apply Hb; lia|done].
Qed.

(** The indirect block. *)
Lemma grow_ind :
  freeblock s < FSSIZE -> ind = false ->
  grows s din n ind (took s) (set_i_addrs (<[NDIRECT := freeblock s]> (i_addrs din)) din) data n true.
Proof.
  intros Hr Hf. set (d := set_i_addrs _ _). pose proof (fk_len _ _ _ _ _ Hfile) as Hl.
  destruct (fk_indirect _ _ _ _ _ Hfile Hf) as [_ Hn].
  assert (Ha : i_addrs d !!! NDIRECT = freeblock s) by (apply list_lookup_total_insert_eq; lia).
  assert (Hb : forall k, (k < NDIRECT)%nat -> i_addrs d !!! k = i_addrs din !!! k) by (intros; apply list_lookup_total_insert_ne; lia).
  assert (Hk : forall k, (k < n)%nat -> blk (img s) d k = blk (img s) din k).
  { intros k Hk. rewrite !blk_direct by lia. apply Hb. lia. }
  split; cbn [took img freeblock freeinode]; [by apply img_ok_took| | |lia|done|done|done].
  - split; [|apply (fk_max _ _ _ _ _ Hfile)|apply (fk_n _ _ _ _ _ Hfile)| |done| |].
    + cbn. by rewrite length_insert.
    + intros k Hk'. rewrite Hb by lia. by apply (fk_direct _ _ _ _ _ Hfile).
    + intros _ k Hk' HN. rewrite blk_entry by done. rewrite Ha, (im_free s Himg) by lia. apply get32_zeroes.
    + intros k Hk'. rewrite Hk by done. by apply (fk_blocks _ _ _ _ _ Hfile).
  - one_block. unfold owned. rewrite Ha, Hf. cbn [seqZ]. rewrite app_nil_r. apply Permutation_app; [|done].
    apply Permutation_refl'. apply list_fmap_ext. intros i j [-> Hj]%lookup_seq. apply Hk. lia.
Qed.

(** An entry of the indirect block. *)
Lemma grow_entry (a := i_addrs din !!! NDIRECT) :
  freeblock s < FSSIZE -> ind = true -> (NDIRECT <= n < 140)%nat ->
  grows s din n ind (wsect a (put32 (img s a) (4 * (n - NDIRECT)) (freeblock s)) (took s)) din data (S n) ind.
Proof.
  intros Hr -> Hn. set (s' := wsect _ _ _). pose proof (given_ind _ _ _ _ Hgiven) as Hga. destruct Himg as [Hlen Hfree Hmeta].
  assert (Hfu : is_u32 (freeblock s)) by (change nmeta with 59 in *; unfold is_u32, FSSIZE in *; lia).
  assert (Hput : forall k, (NDIRECT <= k < 140)%nat -> blk (img s') din k = if decide (k = n) then freeblock s else blk (img s) din k).
  { intros k Hk. rewrite !blk_entry by lia. unfold s'. fold a. rewrite wsect_same. destruct (decide (k = n)) as [->|Hne].
    - apply get32_put32_same; [done|]. rewrite Hlen. unfold BSIZE, NDIRECT in *. lia.
    - apply get32_put32_other; [rewrite Hlen|]; unfold BSIZE, NDIRECT in *; lia. }
  assert (Hb : forall k, (k < 140)%nat -> k <> n -> blk (img s') din k = blk (img s) din k).
  { intros k Hk Hne. destruct (decide (k < NDIRECT)%nat); [by rewrite !blk_direct|]. rewrite Hput by lia. by rewrite decide_False. }
  assert (Hx : blk (img s') din n = freeblock s) by (rewrite Hput by lia; by rewrite decide_True).
  split; [| | |unfold s'; cbn; lia| |done|done].
  - apply img_ok_wsect; [by apply img_ok_took| |cbn [took freeblock]; unfold a; lia]. rewrite length_put32; [apply Hlen|]. rewrite Hlen. unfold BSIZE, NDIRECT in *. lia.
  - pose proof (fk_max _ _ _ _ _ Hfile). split; [apply (fk_len _ _ _ _ _ Hfile)|lia|lia| |done| |].
    + intros k Hk. apply (fk_direct _ _ _ _ _ Hfile). lia.
    + intros _ k Hk HN. rewrite Hb by lia. apply (fk_entries _ _ _ _ _ Hfile); [done|lia|done].
    + intros k Hk. destruct (decide (k = n)) as [->|Hne].
      * rewrite Hx. unfold s'. rewrite wsect_other by (unfold a; lia). cbn [took img]. rewrite Hfree by lia. by rewrite block_of_end by lia.
      * rewrite Hb by lia. unfold s'. rewrite wsect_other by (apply (owned_blk_ind _ _ n); [apply Hgiven|lia]).
        apply (fk_blocks _ _ _ _ _ Hfile). lia.
  - rewrite owned_S, Hx. unfold s' at 2. cbn [wsect took freeblock]. one_block.
    rewrite (owned_eq (img s) (img s') din din n true); [done|intros; apply Hb; lia|done].
  - intros b Hbn. unfold s'. rewrite wsect_other; [done|]. intros ->. apply Hbn. apply owned_ind.
Qed.

(** Bytes after the end, in a block the file has. *)
Lemma grow_write (k : nat) (q : list Z) (x := blk (img s) din k) :
  (k < n)%nat -> (512 * k <= length data)%nat -> (length data + length q <= 512 * k + 512)%nat ->
  grows s din n ind (wsect x (splice (img s x) (length data - 512 * k) q) s) din (data ++ q) n ind.
Proof.
  intros Hk H1 H2. set (s' := wsect _ _ _). pose proof (given_blk _ _ _ _ _ k Hgiven Hk) as Hgx. fold x in Hgx.
  assert (Hb : ind = true \/ ind = false /\ (n <= NDIRECT)%nat).
  { destruct ind; [by left|right]. split; [done|]. by apply (fk_indirect _ _ _ _ _ Hfile). }
  assert (He : forall j, (j < NDIRECT)%nat \/ ind = true -> blk (img s') din j = blk (img s) din j).
  { intros j [Hj|Hi]; [by rewrite !blk_direct|]. apply blk_ext. unfold s'. apply wsect_other.
    intros E. destruct Hgiven as [Hd _]. rewrite Hi in Hd. by apply (owned_blk_ind _ _ n k Hd Hk). }
  assert (He' : forall j, (j < n)%nat -> blk (img s') din j = blk (img s) din j) by (intros j Hj; apply He; destruct Hb as [?|[? ?]]; [by right|left; lia]).
  split; [| | |done| |done|done].
  - apply img_ok_wsect; [done| |lia]. rewrite length_splice; [apply Himg|]. rewrite (im_len s Himg). unfold BSIZE. lia.
  - split; [apply (fk_len _ _ _ _ _ Hfile)| |apply (fk_n _ _ _ _ _ Hfile)|apply (fk_direct _ _ _ _ _ Hfile)|apply (fk_indirect _ _ _ _ _ Hfile)| |].
    + rewrite length_app. lia.
    + intros Hi j Hj HN. rewrite He by (by right). by apply (fk_entries _ _ _ _ _ Hfile).
    + intros j Hj. rewrite He' by done. destruct (decide (j = k)) as [->|Hne].
      * fold x. unfold s'. rewrite wsect_same. unfold x. rewrite (fk_blocks _ _ _ _ _ Hfile) by done. by apply block_of_splice.
      * unfold s', x. rewrite wsect_other by (eapply owned_blk_ne; [apply Hgiven|done..]).
        rewrite (fk_blocks _ _ _ _ _ Hfile) by done. destruct (decide (512 * j + 512 <= length data)%nat); [by rewrite block_of_other|].
        rewrite !block_of_end by (rewrite ?length_app; lia). done.
  - unfold s' at 2. cbn [wsect freeblock]. rewrite Z.sub_diag. cbn [seqZ]. rewrite app_nil_r. apply Permutation_refl'. by apply owned_eq.
  - intros b Hbn. unfold s'. apply wsect_other. intros ->. apply Hbn. unfold x. rewrite <- He' by done. by apply owned_blk.
Qed.

End grow.

(** ** Appending *)

(** The sectors that a file of [n] blocks takes, its indirect block included. *)
Definition cost (n : nat) : Z := Z.of_nat n + (if (NDIRECT <? n)%nat then 1 else 0).

Lemma cost_mono n m : (n <= m)%nat -> cost n <= cost m.
Proof. intros H. unfold cost. destruct (Nat.ltb_spec NDIRECT n), (Nat.ltb_spec NDIRECT m); lia. Qed.

Lemma cost_lt n m : (n < m)%nat -> cost n + 1 <= cost m.
Proof. intros H. unfold cost. destruct (Nat.ltb_spec NDIRECT n), (Nat.ltb_spec NDIRECT m); lia. Qed.

Lemma grows_cost s din n s' din' data' n' :
  grows s din n (NDIRECT <? n)%nat s' din' data' n' (NDIRECT <? n')%nat -> freeblock s' = freeblock s + cost n' - cost n.
Proof.
  intros [_ _ Ho Hm _ _ _]. apply Permutation_length in Ho. unfold owned in Ho.
  rewrite !length_app, !length_fmap, !length_seq, length_seqZ in Ho. unfold cost.
  destruct (_ <? n')%nat, (_ <? n)%nat; cbn in Ho; lia.
Qed.

Section iblock.
  Context (s : mk) (din : inode) (data : list Z) (n : nat).
  Context (Himg : img_ok s) (Hfile : file_ok (img s) din data n (NDIRECT <? n)%nat) (Hgiven : given s (owned (img s) din n (NDIRECT <? n)%nat)).

Lemma addr_nonzero k : (k < n)%nat -> blk (img s) din k <> 0.
Proof. intros Hk. pose proof (given_blk _ _ _ _ _ k Hgiven Hk) as H. change nmeta with 59 in H. lia. Qed.

Lemma iblock_direct fbn :
  (fbn <= n)%nat -> (fbn < NDIRECT)%nat -> freeblock s + cost (n `max` S fbn) <= FSSIZE + cost n ->
  exists din' s', iblock din fbn s = Some (din', blk (img s') din' fbn, s') /\
    grows s din n (NDIRECT <? n)%nat s' din' data (n `max` S fbn) (NDIRECT <? n `max` S fbn)%nat.
Proof.
  intros Hn Hd Hr. unfold iblock. rewrite (proj2 (Nat.ltb_lt _ _) Hd). destruct (Z.eqb_spec (i_addrs din !!! fbn) 0) as [E|E].
  - assert (fbn = n) as ->.
    { destruct (decide (fbn < n)%nat) as [Hl|]; [|lia]. destruct (addr_nonzero fbn Hl). by rewrite blk_direct. }
    rewrite Nat.max_r in * by lia. unfold take_block. eexists _, _. rewrite blk_direct by done. split; [done|].
    rewrite (proj2 (Nat.ltb_ge NDIRECT (S n))) by lia. rewrite (proj2 (Nat.ltb_ge NDIRECT n)) in * by lia.
    apply grow_direct; try done. pose proof (cost_lt n (S n)). lia.
  - assert (Hl : (fbn < n)%nat).
    { destruct (decide (fbn = n)) as [->|]; [|lia]. destruct E. apply (fk_direct _ _ _ _ _ Hfile). lia. }
    rewrite Nat.max_l by lia. eexists _, _. rewrite blk_direct by done. split; [done|]. by apply grows_refl.
Qed.

(** With an indirect block. *)
Lemma iblock_entry d s1 fbn (a := i_addrs d !!! NDIRECT) :
  grows s din n (NDIRECT <? n)%nat s1 d data n true -> freeblock s1 + Z.of_nat (n `max` S fbn) <= FSSIZE + Z.of_nat n ->
  (NDIRECT <= fbn <= n)%nat -> (fbn < 140)%nat ->
  exists s', match rsect a s1 with
    | None => None
    | Some indirect =>
      let o := (4 * (fbn - NDIRECT))%nat in
      if get32 indirect o =? 0 then
        let '(b, s) := take_block s1 in Some (d, b, wsect a (put32 indirect o b) s)
      else Some (d, get32 indirect o, s1)
    end = Some (d, blk (img s') d fbn, s') /\ grows s din n (NDIRECT <? n)%nat s' d data (n `max` S fbn) true.
Proof.
  intros Hg Hr Hf Hm. pose proof (given_grows _ _ _ _ _ _ _ _ _ Himg Hgiven Hg) as Hgv. pose proof (gr_img _ _ _ _ _ _ _ _ _ Hg) as Hi.
  pose proof (gr_file _ _ _ _ _ _ _ _ _ Hg) as Hk. pose proof (given_ind _ _ _ _ Hgv) as Ha. fold a in Ha. pose proof (im_meta _ Hi).
  assert (Hpos : forall k, (k < n)%nat -> blk (img s1) d k <> 0).
  { intros k Hlt. pose proof (given_blk _ _ _ _ _ k Hgv Hlt) as Hb. change nmeta with 59 in Hb. lia. }
  unfold rsect. rewrite (proj2 (Z.ltb_lt a FSSIZE)) by lia. cbv zeta. assert (Eb : get32 (img s1 a) (4 * (fbn - NDIRECT)) = blk (img s1) d fbn) by (by rewrite blk_entry by lia). rewrite Eb.
  destruct (Z.eqb_spec (blk (img s1) d fbn) 0) as [E|E].
  - assert (fbn = n) as -> by (destruct (decide (fbn < n)%nat) as [Hl|]; [by destruct (Hpos fbn Hl)|lia]).
    rewrite Nat.max_r in * by lia. unfold take_block.
    assert (Hg2 := grow_entry s1 d data n true Hi Hk Hgv ltac:(lia) eq_refl ltac:(lia)). fold a in Hg2.
    eexists. split; [|eapply grows_trans; [exact Hg|exact Hg2]]. f_equal. f_equal. f_equal. rewrite blk_entry by lia. fold a.
    rewrite wsect_same. rewrite get32_put32_same; [done| |].
    + change nmeta with 59 in *. unfold is_u32, FSSIZE in *. lia.
    + rewrite (im_len _ Hi). unfold BSIZE, NDIRECT in *. lia.
  - assert (Hl : (fbn < n)%nat).
    { destruct (decide (fbn = n)) as [->|]; [|lia]. destruct E. apply (fk_entries _ _ _ _ _ Hk); [done|lia|lia]. }
    rewrite Nat.max_l by lia. eexists. split; [|exact Hg]. done.
Qed.

Lemma iblock_grows fbn :
  (fbn <= n)%nat -> (fbn < 140)%nat -> freeblock s + cost (n `max` S fbn) <= FSSIZE + cost n ->
  exists din' s', iblock din fbn s = Some (din', blk (img s') din' fbn, s') /\
    grows s din n (NDIRECT <? n)%nat s' din' data (n `max` S fbn) (NDIRECT <? n `max` S fbn)%nat.
Proof.
  intros Hn Hm Hr. destruct (decide (fbn < NDIRECT)%nat) as [Hd|Hd]; [by apply iblock_direct|].
  unfold iblock. rewrite (proj2 (Nat.ltb_ge _ _)) by lia. rewrite (proj2 (Nat.ltb_lt NDIRECT (n `max` S fbn))) by lia.
  destruct (Z.eqb_spec (i_addrs din !!! NDIRECT) 0) as [E|E].
  - assert (Hle : (n <= NDIRECT)%nat).
    { destruct (Nat.ltb_spec NDIRECT n) as [Hl|]; [|done]. pose proof (given_ind _ _ _ _ Hgiven) as Ha. change nmeta with 59 in Ha. lia. }
    pose proof (proj2 (Nat.ltb_ge NDIRECT n) Hle) as Hlt.
    assert (Hc : freeblock s + Z.of_nat (n `max` S fbn) + 1 <= FSSIZE + Z.of_nat n).
    { unfold cost in Hr. rewrite Hlt, (proj2 (Nat.ltb_lt NDIRECT (n `max` S fbn))) in Hr by lia. lia. }
    unfold take_block. eexists (set_i_addrs (<[NDIRECT := freeblock s]> (i_addrs din)) din).
    apply iblock_entry; [|cbn [took freeblock]; lia|lia|done]. apply grow_ind; try done. lia.
  - assert (Hlt : (NDIRECT <? n)%nat = true).
    { destruct (NDIRECT <? n)%nat eqn:Hl; [done|]. by destruct (fk_indirect _ _ _ _ _ Hfile). }
    eexists din. apply iblock_entry; [|unfold cost in Hr; rewrite Hlt, (proj2 (Nat.ltb_lt NDIRECT (n `max` S fbn))) in Hr by lia; lia|lia|done].
    rewrite Hlt in *. by apply grows_refl.
Qed.

End iblock.

(** A file between two appends: as many blocks as its contents need. *)
Definition ind_of (data : list Z) : bool := (NDIRECT <? nb (length data))%nat.
Definition holds (im : Z -> list Z) (din : inode) (data : list Z) : Prop := file_ok im din data (nb (length data)) (ind_of data).
Definition sectors (im : Z -> list Z) (din : inode) (data : list Z) : list Z := owned im din (nb (length data)) (ind_of data).
Definition appended (s : mk) (din : inode) (data : list Z) (s' : mk) (din' : inode) (data' : list Z) : Prop :=
  grows s din (nb (length data)) (ind_of data) s' din' data' (nb (length data')) (ind_of data').
Definition price (data : list Z) : Z := cost (nb (length data)).

Lemma nb_le n m : (n <= m)%nat -> (nb n <= nb m)%nat.
Proof. intros H. unfold nb. apply Nat.Div0.div_le_mono. lia. Qed.

Lemma div512 n : (512 * (n / 512) <= n < 512 * (n / 512) + 512)%nat.
Proof. pose proof (Nat.div_mod_eq n 512). pose proof (Nat.mod_upper_bound n 512). lia. Qed.

(** Arithmetic with quotients by the block size. *)
#[local] Ltac ndm :=
  repeat match goal with |- context [(?n / 512)%nat] => lazymatch goal with H : (512 * (n / 512) <= _ < _)%nat |- _ => fail | _ => pose proof (div512 n) end end; lia.

Lemma nb_turn n m : (0 < m)%nat -> (n + m <= 512 * (n / 512) + 512)%nat -> (nb n `max` S (n / 512))%nat = nb (n + m).
Proof. intros Hm H. unfold nb. ndm. Qed.

Lemma nb_max n : (n <= 140 * 512)%nat -> (nb n <= 140)%nat.
Proof. intros H. unfold nb. ndm. Qed.

(** One turn of the loop. *)
Lemma iappend_turn p s din data (fbn := (length data / 512)%nat) (m := (length p `min` (512 * fbn + 512 - length data))%nat) :
  (0 < length p)%nat -> img_ok s -> holds (img s) din data -> given s (sectors (img s) din data) ->
  (length data + length p <= 140 * 512)%nat -> freeblock s + price (data ++ p) <= FSSIZE + price data ->
  exists din1 s1 x, iblock din fbn s = Some (din1, x, s1) /\ x < FSSIZE /\
    appended s din data (wsect x (splice (img s1 x) (length data - 512 * fbn) (take m p)) s1) din1 (data ++ take m p).
Proof.
  intros Hp Himg Hk Hg Hmax Hr.
  assert (Hfb : (512 * fbn <= length data < 512 * fbn + 512)%nat) by (unfold fbn; ndm).
  assert (Hm : (0 < m <= length p)%nat) by (unfold m; lia).
  assert (Hturn : (nb (length data) `max` S fbn)%nat = nb (length data + m)) by (apply nb_turn; [lia|]; fold fbn; unfold m; lia).
  destruct (iblock_grows s din data (nb (length data)) Himg Hk Hg fbn) as (din1 & s1 & Hib & Hg1).
  { unfold fbn, nb. apply Nat.Div0.div_le_mono. lia. }
  { lia. }
  { rewrite Hturn. unfold price in Hr. rewrite length_app in Hr. pose proof (cost_mono _ _ (nb_le (length data + m) (length data + length p) ltac:(lia))). lia. }
  pose proof (given_grows _ _ _ _ _ _ _ _ _ Himg Hg Hg1) as Hgv1.
  pose proof (given_blk _ _ _ _ _ fbn Hgv1 ltac:(lia)) as Hx. pose proof (im_meta _ (gr_img _ _ _ _ _ _ _ _ _ Hg1)).
  exists din1, s1, (blk (img s1) din1 fbn). split; [done|]. split; [lia|].
  pose proof (grow_write s1 din1 data _ _ (gr_img _ _ _ _ _ _ _ _ _ Hg1) (gr_file _ _ _ _ _ _ _ _ _ Hg1) Hgv1 fbn (take m p) ltac:(lia) ltac:(lia)
    ltac:(rewrite length_take; lia)) as Hg2.
  pose proof (grows_trans _ _ _ _ _ _ _ _ _ _ _ _ _ _ Hg1 Hg2) as Hg3. rewrite Hturn in Hg3.
  unfold appended, ind_of. by replace (length (data ++ take m p)) with (length data + m)%nat by (rewrite length_app, length_take; lia).
Qed.

Lemma iappend_loop_appends fuel : forall p s din data,
  (length p <= fuel)%nat -> img_ok s -> holds (img s) din data -> given s (sectors (img s) din data) ->
  (length data + length p <= 140 * 512)%nat -> freeblock s + price (data ++ p) <= FSSIZE + price data ->
  exists din' s', iappend_loop fuel din (Z.of_nat (length data)) p s = Some (din', Z.of_nat (length (data ++ p)), s') /\
    appended s din data s' din' (data ++ p).
Proof.
  induction fuel as [|fuel IH]; intros p s din data Hfuel Himg Hk Hg Hmax Hr.
  { destruct p; [|cbn in Hfuel; lia]. rewrite app_nil_r in *. exists din, s. split; [done|]. by apply grows_refl. }
  destruct p as [|c p']; [rewrite app_nil_r in *; exists din, s; split; [done|]; by apply grows_refl|].
  set (p := c :: p') in *. assert (Hp : (0 < length p)%nat) by (cbn; lia).
  destruct (iappend_turn p s din data Hp Himg Hk Hg Hmax Hr) as (din1 & s1 & x & Hib & Hx & Hg3).
  set (fbn := (length data / 512)%nat) in *. set (m := (length p `min` (512 * fbn + 512 - length data))%nat) in *.
  assert (Hm : (m <= length p)%nat) by (unfold m; lia). assert (Hm0 : (0 < m)%nat) by (unfold m, fbn; ndm).
  assert (Hfb : (512 * fbn <= length data)%nat) by (unfold fbn; ndm).
  set (s2 := wsect _ _ s1) in *.
  assert (Hl : length (data ++ take m p) = (length data + m)%nat) by (rewrite length_app, length_take; lia).
  assert (Happ : (data ++ take m p) ++ drop m p = data ++ p) by (by rewrite <- app_assoc, take_drop).
  destruct (IH (drop m p) s2 din1 (data ++ take m p)) as (din' & s' & Hloop & Hg4).
  { rewrite length_drop. lia. }
  { apply Hg3. }
  { apply Hg3. }
  { by apply (given_grows _ _ _ _ _ _ _ _ _ Himg Hg Hg3). }
  { rewrite Hl, length_drop. lia. }
  { rewrite Happ. pose proof (grows_cost _ _ _ _ _ _ _ Hg3). unfold price in *. lia. }
  rewrite Happ in Hloop, Hg4. exists din', s'. split; [|by eapply grows_trans].
  rewrite <- Hloop. cbn [iappend_loop]. unfold p at 1. fold p.
  assert (Hz : Z.of_nat (length data) / 512 = Z.of_nat fbn) by (unfold fbn; by rewrite Nat2Z.inj_div).
  rewrite Hz, Nat2Z.id, (proj2 (Z.leb_gt MAXFILE _)) by (unfold MAXFILE, fbn; ndm). rewrite Hib. unfold rsect.
  rewrite (proj2 (Z.ltb_lt _ _)) by lia.
  replace (Z.to_nat (Z.min (Z.of_nat (length p)) ((Z.of_nat fbn + 1) * 512 - Z.of_nat (length data)))) with m by (unfold m; lia).
  replace (Z.to_nat (Z.of_nat (length data) - Z.of_nat fbn * 512)) with (length data - 512 * fbn)%nat by lia.
  fold s2. f_equal. lia.
Qed.

(** ** Inodes *)

(** The inode [inum] of the image. *)
Definition din_of (s : mk) (inum : Z) : inode := read_dinode (img s (IBLOCK inum sb)) (dinode_off inum) blank.

(** The inode of a file of type [c.1] with the contents [c.2]. *)
Definition mkd (c : Z * list Z) (a : list Z) : inode :=
  set_i_addrs a (set_i_size (Z.of_nat (length c.2)) (set_i_nlink 1 (set_i_type c.1 blank))).

Definition in_table (b : Z) : Prop := sb_inodestart sb <= b < sb_bmapstart sb.

Lemma iblock_eq j : 0 <= j < NINODES -> IBLOCK j sb = j / 8 + 32.
Proof. intros H. unfold IBLOCK, IPB, NINODES in *. apply u32_small. unfold is_u32. change (sb_inodestart sb) with 32. zdm. Qed.

Lemma iblock_table j : 0 <= j < NINODES -> in_table (IBLOCK j sb).
Proof. intros H. rewrite iblock_eq by done. unfold in_table, NINODES in *. change (sb_inodestart sb) with 32. change (sb_bmapstart sb) with 58. zdm. Qed.

Lemma dinode_off_fits j : (dinode_off j + DINODE_SIZE <= BSIZE)%nat.
Proof. unfold dinode_off, DINODE_SIZE, IPB, BSIZE. zdm. Qed.

(** [winode] changes one inode. *)
Lemma winode_puts s inum ip :
  img_ok s -> inode_ok ip -> 0 <= inum < NINODES ->
  exists s', winode inum ip s = Some s' /\ img_ok s' /\ freeinode s' = freeinode s /\ freeblock s' = freeblock s /\
    (forall j, 0 <= j < NINODES -> din_of s' j = if decide (j = inum) then on_disk ip blank else din_of s j) /\
    (forall b, ~ in_table b -> img s' b = img s b).
Proof.
  intros Him Hok Hj. pose proof (iblock_table _ Hj) as Ht. pose proof (im_meta _ Him) as Hm. unfold winode, rsect.
  assert (IBLOCK inum sb < nmeta) by (destruct Ht; change (sb_bmapstart sb) with 58 in *; change nmeta with 59; lia).
  rewrite (proj2 (Z.ltb_lt _ _)) by lia. pose proof (dinode_off_fits inum) as Hf.
  assert (Hl : length (put_dinode (img s (IBLOCK inum sb)) (dinode_off inum) ip) = BSIZE).
  { rewrite put_dinode_splice; [|done|by rewrite (im_len s Him)]. rewrite length_splice; rewrite ?length_dinode_bytes, ?(im_len s Him) by done; done. }
  eexists. split; [done|]. split; [apply img_ok_wsect; [done|done|lia]|]. split; [done|]. split; [done|]. split.
  - intros j Hj'. unfold din_of. destruct (decide (j = inum)) as [->|Hne].
    + rewrite wsect_same. apply read_put_dinode; [done|]. by rewrite (im_len s Him).
    + destruct (decide (IBLOCK j sb = IBLOCK inum sb)) as [E|E]; [|by rewrite wsect_other].
      rewrite E, wsect_same. apply read_put_other; [done|by rewrite (im_len s Him)|].
      rewrite !iblock_eq in E by done. unfold dinode_off, DINODE_SIZE, IPB in *. zdm.
  - intros b Hb. apply wsect_other. by intros ->.
Qed.

Lemma rinode_din s inum : img_ok s -> 0 <= inum < NINODES -> rinode inum s = Some (din_of s inum).
Proof.
  intros Him Hj. pose proof (iblock_table _ Hj) as Ht. pose proof (im_meta _ Him) as Hm. unfold rinode, rsect.
  rewrite (proj2 (Z.ltb_lt _ _)); [done|]. destruct Ht. change (sb_bmapstart sb) with 58 in *. change nmeta with 59 in *. lia.
Qed.

(** The addresses of a file fit in their fields. *)
Lemma holds_addrs s din data : img_ok s -> holds (img s) din data -> given s (sectors (img s) din data) -> Forall is_u32 (i_addrs din).
Proof.
  intros Him Hk Hg. pose proof (im_meta _ Him) as Hm. apply Forall_lookup. intros k a Ha. pose proof (lookup_lt_Some _ _ _ Ha) as Hl.
  apply list_lookup_total_correct in Ha. rewrite (fk_len _ _ _ _ _ Hk) in Hl.
  enough (a = 0 \/ nmeta <= a < freeblock s) as [->|H] by (change nmeta with 59 in *; unfold is_u32, FSSIZE in *; lia).
  destruct (decide (k = NDIRECT)) as [->|Hne].
  - destruct (ind_of data) eqn:Hi; [right|left].
    + rewrite <- Ha. unfold sectors in Hg. rewrite Hi in Hg. by apply (given_ind _ _ _ _ Hg).
    + rewrite <- Ha. by apply (fk_indirect _ _ _ _ _ Hk).
  - destruct (decide (k < nb (length data))%nat) as [Hlt|]; [right|left].
    + rewrite <- Ha, <- (blk_direct (img s)) by lia. by apply (given_blk _ _ _ _ _ k Hg).
    + rewrite <- Ha. apply (fk_direct _ _ _ _ _ Hk). lia.
Qed.

(** A file is where its sectors are. *)
Lemma holds_frame im im' din data :
  holds im din data -> (forall b, b ∈ sectors im din data -> im' b = im b) -> holds im' din data /\ sectors im' din data = sectors im din data.
Proof.
  intros Hk Hs. unfold holds, sectors in *.
  assert (Hi : ind_of data = true -> im' (i_addrs din !!! NDIRECT) = im (i_addrs din !!! NDIRECT)).
  { intros Hi. apply Hs. rewrite Hi. apply owned_ind. }
  assert (He : forall k, (k < NDIRECT)%nat \/ ind_of data = true -> blk im' din k = blk im din k).
  { intros k [H|H]; [by rewrite !blk_direct|]. apply blk_ext. by apply Hi. }
  assert (He' : forall k, (k < nb (length data))%nat -> blk im' din k = blk im din k).
  { intros k Hlt. apply He. destruct (ind_of data) eqn:E; [by right|left]. pose proof (fk_indirect _ _ _ _ _ Hk eq_refl). lia. }
  split; [|by apply owned_eq]. destruct Hk as [H1 H2 H3 H4 H5 H6 H7]. split; try done.
  - intros Ht k Hk HN. rewrite He by (by right). by apply H6.
  - intros k Hlt. rewrite He' by done. rewrite Hs by (by apply owned_blk). by apply H7.
Qed.

(** ** The file system being built *)

(** The sectors of all files. *)
Fixpoint total (cs : list (Z * list Z)) : Z :=
  match cs with
  | [] => 0
  | c :: cs => price c.2 + total cs
  end.

Definition secs (s : mk) (i : nat) (c : Z * list Z) : list Z := sectors (img s) (din_of s (Z.of_nat (S i))) c.2.

(** Inode [i + 1] holds the file [cs !! i], the others are free, and no two
    files share a sector. *)
Record fs_inv (s : mk) (cs : list (Z * list Z)) : Prop := {
  fi_img : img_ok s;
  fi_count : freeinode s = Z.of_nat (S (length cs));
  fi_max : Z.of_nat (length cs) < NINODES;
  fi_types : Forall (fun c => is_i16 c.1) cs;
  fi_file : forall i c, cs !! i = Some c -> (exists a, din_of s (Z.of_nat (S i)) = mkd c a) /\
    holds (img s) (din_of s (Z.of_nat (S i))) c.2 /\ given s (secs s i c);
  fi_apart : forall i j c d, i <> j -> cs !! i = Some c -> cs !! j = Some d -> secs s i c ## secs s j d;
  fi_unused : forall j, freeinode s <= j < NINODES -> i_type (din_of s j) = 0;
  fi_total : freeblock s = nmeta + total cs;
  fi_meta : forall b, 0 <= b < nmeta -> ~ in_table b -> img s b = if b =? 1 then splice zeroes 0 sb_bytes else zeroes }.

Lemma total_app cs cs' : total (cs ++ cs') = total cs + total cs'.
Proof. induction cs as [|c cs IH]; [done|]. cbn. rewrite IH. lia. Qed.

Lemma total_insert i c d : forall cs, cs !! i = Some c -> total (<[i := d]> cs) = total cs - price c.2 + price d.2.
Proof.
  induction i as [|i IH]; intros [|x cs] H; try done; [injection H as ->; cbn; lia|].
  change (price x.2 + total (<[i := d]> cs) = price x.2 + total cs - price c.2 + price d.2). rewrite (IH cs H). lia.
Qed.

Lemma in_table_meta b : in_table b -> b < nmeta.
Proof. intros [_ H]. change (sb_bmapstart sb) with 58 in H. change nmeta with 59. lia. Qed.

Lemma given_table s bs b : given s bs -> b ∈ bs -> ~ in_table b /\ nmeta <= b < freeblock s.
Proof.
  intros [_ HF] Hb. pose proof (proj1 (Forall_forall _ _) HF b Hb) as H. cbn in H. split; [|done]. intros Ht%in_table_meta. lia.
Qed.

Lemma mkd_ok s c a : img_ok s -> is_i16 c.1 -> holds (img s) (mkd c a) c.2 -> given s (sectors (img s) (mkd c a) c.2) -> inode_ok (mkd c a).
Proof.
  intros Him Ht Hk Hg. pose proof (fk_max _ _ _ _ _ Hk). pose proof (fk_n _ _ _ _ _ Hk).
  split; [exact Ht|done..| |apply Hk|exact (holds_addrs _ _ _ Him Hk Hg)]. cbn. unfold is_u32. lia.
Qed.

Lemma inode_slot s cs i c : fs_inv s cs -> cs !! i = Some c -> 0 <= Z.of_nat (S i) < NINODES.
Proof. intros H Hi%lookup_lt_Some. pose proof (fi_max _ _ H). lia. Qed.

(** A file is replaced by a longer one, nothing else is touched. *)
Section update.
  Context (s s1 s2 : mk) (cs : list (Z * list Z)) (i : nat) (c d : Z * list Z) (a : list Z).
  Context (Hinv : fs_inv s cs) (Hi : cs !! i = Some c) (Hty : d.1 = c.1).
  Context (Hg : appended s (din_of s (Z.of_nat (S i))) c.2 s1 (mkd d a) d.2).
  Context (Him2 : img_ok s2) (Hfi : freeinode s2 = freeinode s1) (Hfb : freeblock s2 = freeblock s1).
  Context (Hdin : forall j, 0 <= j < NINODES -> din_of s2 j = if decide (j = Z.of_nat (S i)) then mkd d a else din_of s1 j).
  Context (Himg : forall b, ~ in_table b -> img s2 b = img s1 b).

Lemma update_given : given s1 (sectors (img s1) (mkd d a) d.2).
Proof. destruct (fi_file _ _ Hinv i c Hi) as (_ & _ & Hgi). exact (given_grows _ _ _ _ _ _ _ _ _ (fi_img _ _ Hinv) Hgi Hg). Qed.

Lemma update_din : din_of s2 (Z.of_nat (S i)) = mkd d a.
Proof. rewrite Hdin by (by eapply inode_slot). by rewrite decide_True. Qed.

Lemma update_file : holds (img s2) (mkd d a) d.2 /\ sectors (img s2) (mkd d a) d.2 = sectors (img s1) (mkd d a) d.2.
Proof. apply holds_frame; [apply Hg|]. intros b Hb. apply Himg. by apply (given_table s1 _ b update_given). Qed.

Lemma update_other_din j : 0 <= j < NINODES -> j <> Z.of_nat (S i) -> din_of s2 j = din_of s j.
Proof.
  intros Hj Hne. rewrite Hdin by done. rewrite decide_False by done. unfold din_of. rewrite (gr_frame _ _ _ _ _ _ _ _ _ Hg); [done|].
  intros [Hb _]%(given_table s1 _ _ update_given). by apply Hb, iblock_table.
Qed.

Lemma update_apart j e : j <> i -> cs !! j = Some e -> sectors (img s1) (mkd d a) d.2 ## secs s j e.
Proof.
  intros Hne He b Hb Hb'. unfold sectors in Hb. rewrite (gr_owned _ _ _ _ _ _ _ _ _ Hg) in Hb. apply elem_of_app in Hb as [Hb|Hb].
  - by apply (fi_apart _ _ Hinv i j c e (not_eq_sym Hne) Hi He b).
  - apply elem_of_seqZ in Hb. destruct (fi_file _ _ Hinv j e He) as (_ & _ & Hgj). destruct (given_table _ _ _ Hgj Hb'). lia.
Qed.

Lemma update_other j e : j <> i -> cs !! j = Some e -> holds (img s2) (din_of s2 (Z.of_nat (S j))) e.2 /\ secs s2 j e = secs s j e.
Proof.
  intros Hne He. unfold secs. rewrite update_other_din; [|by eapply inode_slot|lia].
  destruct (fi_file _ _ Hinv j e He) as (_ & Hkj & Hgj). apply holds_frame; [done|].
  intros b Hb. rewrite Himg by (by apply (given_table s _ b Hgj)). apply (gr_frame _ _ _ _ _ _ _ _ _ Hg). intros Hb'. by apply (update_apart j e Hne He b).
Qed.

Lemma update_secs : secs s2 i d = sectors (img s1) (mkd d a) d.2.
Proof. unfold secs. rewrite update_din. apply update_file. Qed.

Lemma fs_inv_update : fs_inv s2 (<[i := d]> cs).
Proof.
  pose proof Hinv as [Him Hc Hmax Htys Hfile Hap Hun Htot Hmeta]. pose proof (lookup_lt_Some _ _ _ Hi) as Hli.
  pose proof (gr_inode _ _ _ _ _ _ _ _ _ Hg) as Hni. pose proof (gr_more _ _ _ _ _ _ _ _ _ Hg) as Hmore.
  split; rewrite ?length_insert; [done|congruence|done| | | | | |].
  - apply Forall_insert; [done|]. rewrite Hty. by apply (Forall_lookup_1 _ _ _ _ Htys Hi).
  - intros j e He. destruct (decide (j = i)) as [->|Hne].
    + rewrite list_lookup_insert_eq in He by done. injection He as <-. rewrite update_secs, update_din.
      split; [by exists a|]. split; [apply update_file|]. unfold given. rewrite Hfb. apply update_given.
    + rewrite list_lookup_insert_ne in He by done. destruct (Hfile j e He) as (Ha & _ & Hgj). destruct (update_other j e Hne He) as [Hk2 Hs2].
      rewrite update_other_din in * by (first [by eapply inode_slot|lia]). split; [done|]. split; [done|]. rewrite Hs2. destruct Hgj as [Hd HF].
      split; [done|]. eapply Forall_impl; [exact HF|]. cbn. intros. lia.
  - intros j k e f Hne He Hf. destruct (decide (j = i)) as [->|Hj], (decide (k = i)) as [->|Hk]; [done|..].
    + rewrite list_lookup_insert_eq in He by done. injection He as <-. rewrite list_lookup_insert_ne in Hf by done.
      rewrite update_secs. rewrite (proj2 (update_other k f Hk Hf)). by apply update_apart.
    + rewrite list_lookup_insert_eq in Hf by done. injection Hf as <-. rewrite list_lookup_insert_ne in He by done.
      rewrite update_secs. rewrite (proj2 (update_other j e Hj He)). intros b Hb Hb'. by apply (update_apart j e Hj He b).
    + rewrite list_lookup_insert_ne in He, Hf by done. rewrite (proj2 (update_other j e Hj He)), (proj2 (update_other k f Hk Hf)). by eapply Hap.
  - intros j Hj. rewrite update_other_din by lia. apply Hun. lia.
  - rewrite (total_insert _ _ _ _ Hi). pose proof (grows_cost _ _ _ _ _ _ _ Hg). unfold price. lia.
  - intros b Hb Ht. rewrite Himg by done. rewrite (gr_frame _ _ _ _ _ _ _ _ _ Hg); [by apply Hmeta|].
    intros Hin. destruct (given_table _ _ _ update_given Hin). lia.
Qed.

End update.

Lemma grows_addrs s din n ind s' d d' data n' ind' :
  i_addrs d' = i_addrs d -> same_kind d' d -> grows s din n ind s' d data n' ind' -> grows s din n ind s' d' data n' ind'.
Proof.
  intros E Hs [Hi Hk Ho Hm Hf Hn Hr].
  assert (Eb : forall k, blk (img s') d' k = blk (img s') d k) by (intros k; unfold blk; by rewrite E).
  assert (Eo : owned (img s') d' n' ind' = owned (img s') d n' ind') by (apply owned_eq; [done|by rewrite E]).
  split; rewrite ?Eo; try done; [|unfold same_kind in *; intuition congruence].
  destruct Hk. split; rewrite ?E; try done; intros; rewrite Eb; auto.
Qed.

Lemma iappend_inv s cs i t data p :
  fs_inv s cs -> cs !! i = Some (t, data) -> (length data + length p <= 140 * 512)%nat ->
  nmeta + total (<[i := (t, data ++ p)]> cs) <= FSSIZE ->
  exists s', iappend (Z.of_nat (S i)) p s = Some s' /\ fs_inv s' (<[i := (t, data ++ p)]> cs).
Proof.
  intros Hinv Hi Hmax Htot. pose proof (inode_slot _ _ _ _ Hinv Hi) as Hsl. pose proof (fi_img _ _ Hinv) as Him.
  destruct (fi_file _ _ Hinv i _ Hi) as ([a Ha] & Hk & Hg). rewrite (total_insert _ _ _ _ Hi) in Htot. cbn [snd] in *.
  destruct (iappend_loop_appends (length p) p s (din_of s (Z.of_nat (S i))) data) as (din' & s1 & El & Hap); try done.
  { rewrite (fi_total _ _ Hinv). lia. }
  set (d := (t, data ++ p)) in *. set (m := mkd d (i_addrs din')).
  assert (Hsk : same_kind m din').
  { destruct (gr_rest _ _ _ _ _ _ _ _ _ Hap) as (E1 & E2 & E3 & E4). unfold same_kind. rewrite E1, E2, E3, E4, Ha. done. }
  assert (Hap' : appended s (din_of s (Z.of_nat (S i))) data s1 m (data ++ p)) by (by eapply grows_addrs; [..|exact Hap]).
  assert (Hd : on_disk (set_i_size (Z.of_nat (length (data ++ p))) din') blank = m).
  { destruct Hsk as (E1 & E2 & E3 & E4). unfold on_disk. cbn. by rewrite <- E1, <- E2, <- E3, <- E4. }
  assert (Hok : inode_ok (set_i_size (Z.of_nat (length (data ++ p))) din')).
  { pose proof (given_grows _ _ _ _ _ _ _ _ _ Him Hg Hap') as Hg1.
    destruct (mkd_ok s1 d (i_addrs din') (gr_img _ _ _ _ _ _ _ _ _ Hap)) as [K1 K2 K3 K4 K5 K6 K7]; [|apply Hap'|exact Hg1|].
    - apply (Forall_lookup_1 _ _ _ _ (fi_types _ _ Hinv) Hi).
    - destruct Hsk as (E1 & E2 & E3 & E4). split; cbn; [rewrite <- E1|rewrite <- E2|rewrite <- E3|rewrite <- E4|..]; assumption. }
  destruct (winode_puts s1 (Z.of_nat (S i)) _ (gr_img _ _ _ _ _ _ _ _ _ Hap) Hok Hsl) as (s2 & Ew & Him2 & Hfi & Hfb & Hdin & Himg).
  exists s2. split.
  - unfold iappend. rewrite rinode_din by done. replace (i_size (din_of s (Z.of_nat (S i)))) with (Z.of_nat (length data)) by (by rewrite Ha).
    by rewrite El.
  - rewrite Hd in Hdin. by apply (fs_inv_update s s1 s2 cs i (t, data) d (i_addrs din')).
Qed.

Lemma holds_empty im t : holds im (mkd (t, []) (replicate 13 0)) [].
Proof.
  unfold holds. change (nb (length (@nil Z))) with 0%nat. change (ind_of []) with false.
  split; [done|cbn; lia|lia| |split; [done|lia]|done|lia].
  intros k Hk. unfold NDIRECT in Hk. apply list_lookup_total_correct. apply lookup_replicate_2. lia.
Qed.

Lemma ialloc_inv s cs t :
  fs_inv s cs -> Z.of_nat (S (length cs)) < NINODES -> is_i16 t ->
  exists s', ialloc t s = Some (Z.of_nat (S (length cs)), s') /\ fs_inv s' (cs ++ [(t, [])]).
Proof.
  intros Hinv Hlt Ht. pose proof Hinv as [Him Hc Hmax Htys Hfile Hap Hun Htot Hmeta].
  set (s0 := MkMk (img s) (freeinode s + 1) (freeblock s)). assert (Him0 : img_ok s0) by (destruct Him; by split).
  set (ip := set_i_nlink 1 (set_i_type t blank)). assert (Hok : inode_ok ip).
  { split; [exact Ht|done..|]. apply Forall_replicate. done. }
  destruct (winode_puts s0 (freeinode s) ip Him0 Hok) as (s' & Ew & Him' & Hfi & Hfb & Hdin & Himg); [lia|].
  exists s'. split; [unfold ialloc; fold ip s0; by rewrite Ew, Hc|].
  assert (Hnew : din_of s' (Z.of_nat (S (length cs))) = mkd (t, []) (replicate 13 0)) by (rewrite <- Hc, Hdin by lia; by rewrite decide_True).
  assert (Hold : forall j e, cs !! j = Some e -> din_of s' (Z.of_nat (S j)) = din_of s (Z.of_nat (S j)) /\
    holds (img s') (din_of s (Z.of_nat (S j))) e.2 /\ secs s' j e = secs s j e).
  { intros j e He. pose proof (inode_slot _ _ _ _ Hinv He). pose proof (lookup_lt_Some _ _ _ He).
    assert (Ed : din_of s' (Z.of_nat (S j)) = din_of s (Z.of_nat (S j))) by (rewrite Hdin by done; rewrite decide_False by lia; done).
    split; [done|]. unfold secs. rewrite Ed. destruct (Hfile j e He) as (_ & Hk & Hg). apply holds_frame; [done|].
    intros b Hb. rewrite Himg by (by apply (given_table s _ b Hg)). done. }
  assert (Hsn : secs s' (length cs) (t, []) = []) by done. assert (Hfi' : freeinode s' = freeinode s + 1) by done.
  split; rewrite ?length_app; cbn [length]; [done|lia|lia|by apply Forall_app; split; [|constructor]| | | | |].
  - intros j e [[_ He]|[-> <-]]%lookup_snoc_Some.
    + destruct (Hold j e He) as (-> & Hk & ->), (Hfile j e He) as (Ha & _ & Hg). split; [done|]. split; [done|]. unfold given. by rewrite Hfb.
    + rewrite Hnew, Hsn. split; [by eexists|]. split; [apply holds_empty|]. split; [apply NoDup_nil_2|by constructor].
  - intros j k e f Hne [[_ He]|[-> <-]]%lookup_snoc_Some [[_ Hf]|[-> <-]]%lookup_snoc_Some.
    + destruct (Hold j e He) as (_ & _ & ->), (Hold k f Hf) as (_ & _ & ->). by eapply Hap.
    + rewrite Hsn. intros b _ []%not_elem_of_nil.
    + rewrite Hsn. intros b []%not_elem_of_nil.
    + done.
  - intros j Hj. rewrite Hdin by lia. rewrite decide_False by lia. apply Hun. lia.
  - rewrite total_app. cbn [total snd]. change (price []) with 0. rewrite Hfb. cbn [s0 freeblock]. lia.
  - intros b Hb Hnt. rewrite Himg by done. by apply Hmeta.
Qed.

(** ** The files of the command line *)

(** What the root directory and the files are to contain. *)
Definition root_data (fs : list file) : list Z :=
  dirent [46] ROOTINO ++ dirent [46; 46] ROOTINO ++ concat (imap (fun i f => dirent (base_name f.1) (Z.of_nat (S (S i)))) fs).
Definition contents (fs : list file) : list (Z * list Z) := (T_DIR, root_data fs) :: ((fun f => (T_FILE, concat f.2)) <$> fs).

(** The files fit: inodes, sizes and sectors. *)
Record fits (fs : list file) : Prop := {
  ft_count : Z.of_nat (length fs) < NINODES - 1;
  ft_names : Forall (fun f => 47 ∉ f.1) fs;
  ft_sizes : Forall (fun f => Z.of_nat (length (concat f.2)) <= MAXFILE * 512) fs;
  ft_total : nmeta + total (contents fs) <= FSSIZE }.

Lemma length_dirent name inum : length (dirent name inum) = 16%nat.
Proof. unfold dirent. unfold Cstring.strncpy. by rewrite length_app, CstringFacts.length_strncpy_loop. Qed.

Lemma root_data_snoc fs f : root_data (fs ++ [f]) = root_data fs ++ dirent (base_name f.1) (Z.of_nat (S (S (length fs)))).
Proof.
  unfold root_data. rewrite imap_app, concat_app. cbn [imap concat]. unfold compose. by rewrite Nat.add_0_r, app_nil_r, <- !app_assoc.
Qed.

Lemma length_root_data fs : length (root_data fs) = (16 * (2 + length fs))%nat.
Proof.
  induction fs as [|f fs IH] using rev_ind; [done|]. rewrite root_data_snoc, !length_app, IH, length_dirent. cbn. lia.
Qed.

Lemma price_le d e : (length d <= length e)%nat -> price d <= price e.
Proof. intros H. apply cost_mono, nb_le. done. Qed.

Lemma price_nonneg d : 0 <= price d.
Proof. unfold price, cost. destruct (_ <? _)%nat; lia. Qed.

Lemma total_nonneg cs : 0 <= total cs.
Proof. induction cs as [|c cs IH]; cbn; [lia|]. pose proof (price_nonneg c.2). lia. Qed.

Lemma copy_file_inv t chunks : forall cs d s,
  fs_inv s (cs ++ [(t, d)]) -> (length (d ++ concat chunks) <= 140 * 512)%nat ->
  nmeta + total (cs ++ [(t, d ++ concat chunks)]) <= FSSIZE ->
  exists s', copy_file (Z.of_nat (S (length cs))) chunks s = Some s' /\ fs_inv s' (cs ++ [(t, d ++ concat chunks)]).
Proof.
  induction chunks as [|c chunks IH]; intros cs d s Hinv Hmax Htot.
  { exists s. cbn. rewrite app_nil_r. done. }
  cbn [concat] in *. rewrite total_app in Htot. cbn [total snd] in Htot. rewrite !length_app in Hmax.
  pose proof (price_le (d ++ c) (d ++ c ++ concat chunks) ltac:(rewrite !length_app; lia)) as Hp.
  destruct (iappend_inv s (cs ++ [(t, d)]) (length cs) t d c) as (s1 & E & Hinv1); [done|by rewrite lookup_app_r, Nat.sub_diag by lia|lia| |].
  { rewrite insert_app_r_alt, Nat.sub_diag, total_app by lia. cbn [insert list_insert total snd]. lia. }
  rewrite insert_app_r_alt, Nat.sub_diag in Hinv1 by lia. cbn [insert list_insert] in Hinv1.
  destruct (IH cs (d ++ c) s1 Hinv1) as (s' & E' & Hinv'); rewrite <- ?app_assoc in *.
  { rewrite !length_app. lia. }
  { rewrite total_app. cbn [total snd]. lia. }
  exists s'. split; [|done]. cbn [copy_file]. by rewrite E.
Qed.

(** Files, the last of them with [d] so far. *)
Definition files (fs : list file) : list (Z * list Z) := (fun f => (T_FILE, concat f.2)) <$> fs.

Lemma fits_prefix fs fs' : fits (fs ++ fs') -> fits fs.
Proof.
  intros [H1 H2%Forall_app H3%Forall_app H4]. rewrite length_app in H1. split; [lia|apply H2|apply H3|].
  unfold contents in *. cbn [total snd] in *. rewrite fmap_app, total_app in H4.
  pose proof (total_nonneg (files fs')). pose proof (price_le (root_data fs) (root_data (fs ++ fs')) ltac:(rewrite !length_root_data, length_app; lia)).
  unfold files in *. lia.
Qed.

Lemma add_file_inv fs f s :
  fs_inv s (contents fs) -> fits (fs ++ [f]) -> exists s', add_file ROOTINO f s = Some s' /\ fs_inv s' (contents (fs ++ [f])).
Proof.
  intros Hinv Hfit. pose proof Hfit as [Hc Hn%Forall_app Hs%Forall_app Ht]. destruct Hn as [_ Hn%Forall_inv], Hs as [_ Hs%Forall_inv].
  rewrite length_app in Hc. cbn [length] in Hc. assert (Hl : length (contents fs) = S (length fs)) by (cbn; by rewrite length_fmap).
  unfold MAXFILE, NINODES in *. unfold contents in Ht. rewrite fmap_app in Ht. cbn [total snd fmap list_fmap] in Ht. rewrite total_app in Ht. cbn [total snd] in Ht.
  fold (files fs) in Ht. set (r := root_data (fs ++ [f])) in *.
  unfold add_file. rewrite (bool_decide_eq_false_2 (47 ∈ f.1)) by exact Hn.
  destruct (ialloc_inv s (contents fs) T_FILE Hinv) as (s1 & E1 & Hinv1); [rewrite Hl; unfold NINODES; lia|done|]. rewrite E1, Hl.
  pose proof (price_nonneg (concat f.2)).
  destruct (iappend_inv s1 (contents fs ++ [(T_FILE, [])]) 0 T_DIR (root_data fs) (dirent (base_name f.1) (Z.of_nat (S (S (length fs))))) Hinv1) as (s2 & E2 & Hinv2); [done| | |].
  { rewrite length_root_data, length_dirent. lia. }
  { rewrite <- root_data_snoc. fold r. change (nmeta + (price r + total (files fs ++ [(T_FILE, [])])) <= FSSIZE).
    rewrite total_app. cbn [total snd]. change (price []) with 0. lia. }
  change ROOTINO with (Z.of_nat 1) at 1. rewrite E2. rewrite <- root_data_snoc in Hinv2. fold r in Hinv2.
  change (fs_inv s2 (((T_DIR, r) :: files fs) ++ [(T_FILE, [])])) in Hinv2.
  destruct (copy_file_inv T_FILE f.2 _ _ _ Hinv2) as (s3 & E3 & Hinv3); cbn [app].
  { lia. }
  { cbn [total snd]. rewrite total_app. cbn [total snd]. lia. }
  exists s3. split.
  - rewrite <- E3. f_equal. cbn [length]. unfold files. by rewrite length_fmap.
  - unfold contents. rewrite fmap_app. exact Hinv3.
Qed.

Lemma add_files_inv fs' : forall fs s,
  fs_inv s (contents fs) -> fits (fs ++ fs') -> exists s', add_files ROOTINO fs' s = Some s' /\ fs_inv s' (contents (fs ++ fs')).
Proof.
  induction fs' as [|f fs' IH]; intros fs s Hinv Hfit.
  { rewrite app_nil_r in *. by exists s. }
  rewrite cons_middle, app_assoc in Hfit. destruct (add_file_inv fs f s Hinv (fits_prefix _ _ Hfit)) as (s1 & E & Hinv1).
  destruct (IH _ _ Hinv1 Hfit) as (s' & E' & Hinv'). exists s'. rewrite cons_middle, app_assoc. cbn [add_files]. by rewrite E.
Qed.

(** The image before the first inode. *)
Lemma start_inv : fs_inv (wsect 1 (splice zeroes 0 sb_bytes) (MkMk (fun _ => zeroes) 1 nmeta)) [].
Proof.
  set (s := wsect _ _ _). split; [|done|done|done|done|done| |done|].
  - unfold s. apply img_ok_wsect; [|done|done]. split; [intros; apply length_zeroes|done|done].
  - intros j Hj. unfold s, din_of. rewrite wsect_other.
    + unfold read_dinode, di_type, get16. cbn [i_type set_i_addrs set_i_size set_i_nlink set_i_minor set_i_major set_i_type img]. by rewrite le_zeroes.
    + intros E. assert (Hj' : 0 <= j < NINODES) by (cbn in Hj; lia). pose proof (iblock_table j Hj') as [Hl _]. rewrite E in Hl. by cbn in Hl.
  - done.
Qed.

(** ** The bitmap *)

Lemma length_mark n : forall i buf, length (mark n i buf) = length buf.
Proof. induction n as [|n IH]; intros i buf; [done|]. cbn [mark]. by rewrite IH, length_alter. Qed.

Lemma mark_free n b : forall i buf, 0 <= i -> i + Z.of_nat n <= 8 * Z.of_nat (length buf) -> 0 <= b ->
  bit_free (mark n i buf) b = bit_free buf b && negb ((i <=? b) && (b <? i + Z.of_nat n)).
Proof.
  induction n as [|n IH]; intros i buf Hi Hn Hb; cbn [mark].
  - replace ((i <=? b) && (b <? i + Z.of_nat 0)) with false; [by rewrite andb_true_r|]. symmetry. apply andb_false_iff. rewrite Z.leb_gt, Z.ltb_ge. lia.
  - change (alter _ _ buf) with (bit_set i buf). rewrite IH; [|lia|unfold bit_set; rewrite length_alter; lia|done].
    rewrite bit_set_free; [|done..|unfold bit_byte; zdm]. rewrite <- andb_assoc. f_equal.
    destruct (Z.leb_spec i b), (Z.leb_spec (i + 1) b), (Z.ltb_spec b (i + 1 + Z.of_nat n)), (Z.ltb_spec b (i + Z.of_nat (S n))), (Z.eqb_spec b i); cbn; try done; lia.
Qed.

Lemma zeroes_free b : 0 <= b < 4096 -> bit_free zeroes b = true.
Proof.
  intros Hb. unfold bit_free. rewrite (list_lookup_total_correct zeroes (bit_byte b) 0); [done|].
  apply lookup_replicate_2. unfold bit_byte, BSIZE. zdm.
Qed.

(** ** Reading back *)

(** The first [n] bytes of a file. *)
Definition read_back (im : Z -> list Z) (din : inode) (n : nat) : list Z := take n (concat ((fun k => im (blk im din k)) <$> seq 0 (nb n))).

Lemma concat_blocks data n : concat (block_of data <$> seq 0 n) = (fun j => default 0 (data !! j)) <$> seq 0 (512 * n).
Proof.
  induction n as [|n IH]; [done|]. rewrite seq_S, fmap_app, concat_app, IH. cbn [fmap list_fmap concat]. rewrite app_nil_r.
  replace (512 * S n)%nat with (512 * n + 512)%nat by lia. rewrite seq_app, fmap_app. f_equal. unfold block_of.
  replace (seq (0 + 512 * n) 512) with (Nat.add (512 * n) <$> seq 0 512) by (rewrite fmap_add_seq; f_equal; lia).
  by rewrite <- list_fmap_compose.
Qed.

Lemma holds_read_back im din data : holds im din data -> read_back im din (length data) = data.
Proof.
  intros Hk. unfold read_back. rewrite (list_fmap_ext (fun k => im (blk im din k)) (block_of data)).
  - rewrite concat_blocks. apply list_eq. intros j. destruct (decide (j < length data)%nat) as [Hj|Hj].
    + rewrite lookup_take_lt by done. pose proof (fk_max _ _ _ _ _ Hk). rewrite list_lookup_fmap, lookup_seq_lt by lia. cbn.
      destruct (lookup_lt_is_Some_2 data j Hj) as [v ->]. done.
    + rewrite lookup_take_ge by lia. symmetry. apply lookup_ge_None_2. lia.
  - intros i k [-> Hi]%lookup_seq. by apply (fk_blocks _ _ _ _ _ Hk).
Qed.

(** ** The result *)

(** The image that mkfs promises. *)
Record made (fs : list file) (s : mk) : Prop := {
  md_super : sb_of (img s 1) = sb;
  md_log : img s (sb_logstart sb) = zeroes;
  md_used : freeblock s = nmeta + total (contents fs);
  md_bitmap : forall b, 0 <= b < FSSIZE -> bit_free (img s (sb_bmapstart sb)) b = (freeblock s <=? b);
  md_files : forall i c, contents fs !! i = Some c -> let d := din_of s (Z.of_nat (S i)) in
    i_type d = c.1 /\ i_nlink d = 1 /\
    i_size d = (if decide (i = 0%nat) then (Z.of_nat (length c.2) / 512 + 1) * 512 else Z.of_nat (length c.2)) /\
    read_back (img s) d (length c.2) = c.2 /\ given s (secs s i c);
  md_apart : forall i j c d, i <> j -> contents fs !! i = Some c -> contents fs !! j = Some d -> secs s i c ## secs s j d;
  md_unused : forall j, Z.of_nat (length (contents fs)) < j < NINODES -> i_type (din_of s j) = 0 }.

(** The directory [.] and [..]. *)
Lemma root_inv : exists s1 s2 s3, ialloc T_DIR (wsect 1 (splice zeroes 0 sb_bytes) (MkMk (fun _ => zeroes) 1 nmeta)) = Some (ROOTINO, s1) /\
  iappend ROOTINO (dirent [46] ROOTINO) s1 = Some s2 /\ iappend ROOTINO (dirent [46; 46] ROOTINO) s2 = Some s3 /\ fs_inv s3 (contents []).
Proof.
  destruct (ialloc_inv _ [] T_DIR start_inv) as (s1 & E1 & H1); [done..|].
  destruct (iappend_inv s1 _ 0 T_DIR [] (dirent [46] ROOTINO) H1) as (s2 & E2 & H2); [done|by rewrite length_dirent; apply Nat.leb_le|done|].
  destruct (iappend_inv s2 _ 0 T_DIR (dirent [46] ROOTINO) (dirent [46; 46] ROOTINO) H2) as (s3 & E3 & H3); [done|by rewrite !length_dirent; apply Nat.leb_le|done|].
  by exists s1, s2, s3.
Qed.

Lemma holds_size im din data v : holds im din data -> holds im (set_i_size v din) data.
Proof. intros [H1 H2 H3 H4 H5 H6 H7]. by split. Qed.

(** The rounded size of the root directory. *)
Definition root_size (fs : list file) : Z := (Z.of_nat (length (root_data fs)) / 512 + 1) * 512.

(** [fix_root] and [balloc] change the size of the root inode and the bitmap. *)
Lemma finish_spec fs s : fits fs -> fs_inv s (contents fs) ->
  exists s1 s2, fix_root ROOTINO s = Some s1 /\ freeblock s1 = freeblock s /\ balloc (freeblock s1) s1 = Some s2 /\ freeblock s2 = freeblock s /\
    (forall j, 0 <= j < NINODES -> din_of s2 j = if decide (j = ROOTINO) then set_i_size (root_size fs) (din_of s j) else din_of s j) /\
    (forall b, ~ in_table b -> img s2 b = if b =? sb_bmapstart sb then mark (Z.to_nat (freeblock s)) 0 zeroes else img s b).
Proof.
  intros Hfit Hinv. pose proof (fi_img _ _ Hinv) as Him. destruct (fi_file _ _ Hinv 0 _ eq_refl) as ([a Ha] & Hk & Hg).
  change (Z.of_nat 1) with ROOTINO in *. cbn [fst snd] in *.
  assert (Hok : inode_ok (din_of s ROOTINO)).
  { rewrite Ha. unfold secs in Hg. change (Z.of_nat 1) with ROOTINO in Hg. rewrite Ha in Hk, Hg. by apply (mkd_ok s). }
  assert (Hrs : is_u32 (root_size fs)).
  { pose proof (ft_count _ Hfit). unfold root_size, is_u32. rewrite length_root_data. unfold NINODES in *. zdm. }
  destruct (winode_puts s ROOTINO (set_i_size (root_size fs) (din_of s ROOTINO)) Him) as (s1 & E1 & Him1 & _ & Hfb & Hdin & Himg).
  { destruct Hok. by split. }
  { done. }
  assert (Hfree : nmeta <= freeblock s <= FSSIZE) by apply Him.
  exists s1. unfold balloc. rewrite Hfb, (proj2 (Z.ltb_lt _ _)) by (unfold FSSIZE in *; lia). eexists. split; [|split; [done|split; [done|split; [done|split]]]].
  - unfold fix_root. rewrite rinode_din by done.
    assert (i_size (din_of s ROOTINO) = Z.of_nat (length (root_data fs))) as -> by (by rewrite Ha). exact E1.
  - intros j Hj. replace (din_of (wsect _ _ s1) j) with (din_of s1 j).
    + rewrite Hdin by done. destruct (decide (j = ROOTINO)) as [->|]; [|done]. rewrite Ha. done.
    + unfold din_of. rewrite wsect_other; [done|]. pose proof (iblock_table j Hj) as [_ Hlt]. lia.
  - intros b Hb. cbn [wsect img]. destruct (b =? _); [done|]. by apply Himg.
Qed.

Lemma finish_made fs s s2 : fits fs -> fs_inv s (contents fs) -> freeblock s2 = freeblock s ->
  (forall j, 0 <= j < NINODES -> din_of s2 j = if decide (j = ROOTINO) then set_i_size (root_size fs) (din_of s j) else din_of s j) ->
  (forall b, ~ in_table b -> img s2 b = if b =? sb_bmapstart sb then mark (Z.to_nat (freeblock s)) 0 zeroes else img s b) ->
  made fs s2.
Proof.
  intros Hfit Hinv Hfb Hdin Himg. pose proof Hinv as [Him Hc Hmax Htys Hfile Hap Hun Htot Hmeta].
  assert (Hnt : forall b, b = 1 \/ b = 2 \/ b = 58 -> ~ in_table b) by (intros b Hb [H1 H2]; change (sb_inodestart sb) with 32 in *; change (sb_bmapstart sb) with 58 in *; lia).
  assert (Hk2 : forall i c, contents fs !! i = Some c -> holds (img s2) (din_of s2 (Z.of_nat (S i))) c.2 /\ secs s2 i c = secs s i c).
  { intros i c Hi. destruct (Hfile i c Hi) as (_ & Hk & Hg).
    destruct (holds_frame (img s) (img s2) _ _ Hk) as [Hk' Hs'].
    { intros b Hb. destruct (given_table _ _ _ Hg Hb) as [Hnb Hr]. rewrite Himg by done. rewrite (proj2 (Z.eqb_neq _ _)); [done|]. change (sb_bmapstart sb) with 58. change nmeta with 59 in Hr. lia. }
    unfold secs. rewrite Hdin by (by eapply inode_slot). destruct (decide _); [|done]. split; [by apply holds_size|exact Hs']. }
  split.
  - rewrite Himg by auto. by rewrite Hmeta by first [by split|auto].
  - rewrite Himg by auto. by rewrite Hmeta by first [by split|auto].
  - by rewrite Hfb.
  - intros b Hb. rewrite Himg by auto. rewrite Z.eqb_refl. pose proof (im_meta _ Him). unfold FSSIZE in *. change nmeta with 59 in *.
    rewrite mark_free; [|lia|rewrite length_zeroes; unfold BSIZE; lia|lia]. rewrite zeroes_free, Hfb by lia.
    destruct (Z.leb_spec 0 b), (Z.ltb_spec b (0 + Z.of_nat (Z.to_nat (freeblock s)))), (Z.leb_spec (freeblock s) b); try done; lia.
  - intros i c Hi d. destruct (Hfile i c Hi) as ([a Ha] & Hk & Hg), (Hk2 i c Hi) as [Hk' Hs']. split; [|split; [|split; [|split]]].
    1-3: unfold d; rewrite Hdin by (by eapply inode_slot); rewrite Ha.
    + by destruct (decide _).
    + by destruct (decide _).
    + destruct i as [|i]; [by injection Hi as <-|]. rewrite decide_False by (unfold ROOTINO; lia). by rewrite decide_False.
    + by apply holds_read_back.
    + unfold given. by rewrite Hs', Hfb.
  - intros i j c d Hne Hi Hj. rewrite (proj2 (Hk2 i c Hi)), (proj2 (Hk2 j d Hj)). by eapply Hap.
  - intros j Hj. rewrite Hdin by lia. rewrite decide_False; [apply Hun; lia|]. cbn [contents length] in Hj. unfold ROOTINO. lia.
Qed.

(** ** The kernel on the image *)

(** What the code of the kernel relies on, in a state whose blocks are those of
    the image, and the files as [ilock] and [readi] get at them. *)
Record mounted (fs : list file) (dev : Z) (k : kst) : Prop := {
  mt_super : sb_of (bview k dev 1) = State.sb k;
  mt_fs : fs_ok dev (sb_logstart sb) k;
  mt_inodes : inodes_ok (sb_logstart sb) k;
  mt_root : i_type (disk_inode dev k ROOTINO blank) = T_DIR /\
    read_back (bview k dev) (disk_inode dev k ROOTINO blank) (length (root_data fs)) = root_data fs;
  mt_files : forall i f, fs !! i = Some f -> let d := disk_inode dev k (Z.of_nat (S (S i))) blank in
    i_type d = T_FILE /\ i_nlink d = 1 /\ i_size d = Z.of_nat (length (concat f.2)) /\
    read_back (bview k dev) d (length (concat f.2)) = concat f.2 }.

Lemma read_back_frame im im' din data :
  (forall b, b ∈ sectors im din data -> im' b = im b) -> read_back im' din (length data) = read_back im din (length data).
Proof.
  intros Hs. unfold read_back. f_equal. f_equal. apply list_fmap_ext. intros i k [-> Hk]%lookup_seq. change (0 + i)%nat with i in *.
  assert (E : blk im' din i = blk im din i).
  { destruct (decide (i < NDIRECT)%nat); [by rewrite !blk_direct|]. apply blk_ext. apply Hs. unfold sectors.
    replace (ind_of data) with true by (symmetry; apply Nat.ltb_lt; lia). apply owned_ind. }
  rewrite E. apply Hs. by apply owned_blk.
Qed.

Lemma made_mounted fs s dev k :
  fits fs -> made fs s -> State.sb k = sb -> (forall b, 0 <= b < FSSIZE -> bview k dev b = img s b) -> mounted fs dev k.
Proof.
  intros Hfit [Hsup Hlog Hused Hbm Hfiles Hap Hun] Hsb Hv.
  assert (Hd : forall j, 0 <= j < NINODES -> disk_inode dev k j blank = din_of s j).
  { intros j Hj. unfold disk_inode, din_of. rewrite Hsb, Hv; [done|]. rewrite iblock_eq by done. unfold NINODES, FSSIZE in *. zdm. }
  assert (Hr : forall i c, contents fs !! i = Some c -> let d := din_of s (Z.of_nat (S i)) in read_back (bview k dev) d (length c.2) = c.2).
  { intros i c Hi d. destruct (Hfiles i c Hi) as (_ & _ & _ & Hrb & [_ HF]). rewrite <- Hrb at 2. apply read_back_frame. intros b Hb. apply Hv.
    pose proof (proj1 (Forall_forall _ _) HF b Hb) as Hlt. cbn in Hlt. change nmeta with 59 in *. pose proof (ft_total _ Hfit). change nmeta with 59 in *. lia. }
  assert (Hhome : forall b, 32 <= b < FSSIZE -> home_ok (sb_logstart sb) b).
  { intros b Hb. split; [lia|]. unfold in_log. change LOGSIZE with 30. change (sb_logstart sb) with 2. lia. }
  pose proof (total_nonneg (contents fs)). split.
  - rewrite Hv, Hsup by done. done.
  - split; rewrite Hsb; [done|by apply Hhome|]. intros b Hb. unfold bitmap. rewrite Hsb, Hv, Hbm by done. intros Hf%Z.leb_le.
    change nmeta with 59 in *. change (sb_size sb) with FSSIZE in *. split; [apply Hhome; lia|]. change (sb_bmapstart sb) with 58. lia.
  - split; rewrite Hsb; [done|]. intros j Hj. split; [by apply iblock_eq|]. rewrite iblock_eq by done. apply Hhome. change (sb_ninodes sb) with 200 in Hj. change FSSIZE with 1000. zdm.
  - rewrite Hd by done. split; [apply (Hfiles 0%nat _ eq_refl)|apply (Hr 0%nat _ eq_refl)].
  - intros i f Hi d. pose proof (lookup_lt_Some _ _ _ Hi). pose proof (ft_count _ Hfit). unfold file in *.
    assert (Hi' : contents fs !! S i = Some (T_FILE, concat f.2)) by exact (eq_trans (list_lookup_fmap (fun f : file => (T_FILE, concat f.2)) fs i) (f_equal (fmap (fun f : file => (T_FILE, concat f.2))) Hi)).
    unfold d. rewrite Hd by lia. destruct (Hfiles _ _ Hi') as (K1 & K2 & K3 & _). split; [done|]. split; [done|]. split; [done|]. apply (Hr _ _ Hi').
Qed.

(** C13: for any files that fit (their number, sizes, names and sectors), mkfs
    succeeds, and the image has the super block, an empty log, a bitmap that marks
    exactly the sectors given out, and for each file, and for the root directory,
    an inode with one link through which the contents read back; no two files
    share a sector, and the other inodes are free.  A kernel whose disk is this
    image has the file system that its block and inode code relies on, with the
    files in it. *)
Theorem mkfs_makes fs : fits fs ->
  exists s, mkfs fs = Some s /\ made fs s /\
    forall dev k, State.sb k = sb -> (forall b, 0 <= b < FSSIZE -> bview k dev b = img s b) -> mounted fs dev k.
Proof.
  intros Hfit. destruct root_inv as (s1 & s2 & s3 & E1 & E2 & E3 & H3).
  destruct (add_files_inv fs [] s3 H3 Hfit) as (s4 & E4 & H4). cbn [app] in H4.
  destruct (finish_spec fs s4 Hfit H4) as (s5 & s6 & E5 & Hf5 & E6 & Hf6 & Hd & Hi).
  pose proof (finish_made fs s4 s6 Hfit H4 Hf6 Hd Hi) as Hm.
  exists s6. split; [|split; [done|]; intros dev k; by apply made_mounted]. unfold mkfs. rewrite E1. cbn [negb Z.eqb ROOTINO]. rewrite E2, E3, E4, E5. exact E6.
Qed.

(** A disk with the image. *)
Definition disk_of (s : mk) : gmap (Z * Z) (list Z) := list_to_map ((fun b => ((1, b), img s b)) <$> seqZ 0 FSSIZE).

Lemma disk_of_lookup s b : 0 <= b < FSSIZE -> disk_of s !! (1, b) = Some (img s b).
Proof.
  intros Hb. apply elem_of_list_to_map_1.
  - rewrite <- list_fmap_compose. apply NoDup_fmap_2; [|apply NoDup_seqZ]. intros x y E. by injection E.
  - apply list_elem_of_fmap. exists b. split; [done|]. apply elem_of_seqZ. lia.
Qed.

Lemma disk_of_view s b : 0 <= b < FSSIZE -> bview (set_sb sb (fs_state (disk_of s))) 1 b = img s b.
Proof.
  intros Hb. unfold bview. replace (List.find _ _) with (@None buf) by reflexivity. unfold block_at.
  change (disk (set_sb sb (fs_state (disk_of s)))) with (disk_of s). change (Z.land 1 1) with 1. by rewrite disk_of_lookup.
Qed.

(** Two small files and one of 40 blocks, read by 512 bytes. *)
Definition sample_files : list file :=
  [([95; 99; 97; 116], [[1; 2; 3]]); ([82], []); ([95; 115; 104], replicate 40 (replicate 512 7))].

Lemma sample_files_fit : fits sample_files.
Proof. split; [done|repeat constructor; by apply (bool_decide_eq_false _)|repeat constructor; by vm_compute|by vm_compute]. Qed.

Lemma mkfs_makes_witness :
  exists s, mkfs sample_files = Some s /\ made sample_files s /\ mounted sample_files 1 (set_sb sb (fs_state (disk_of s))).
Proof.
  destruct (mkfs_makes sample_files sample_files_fit) as (s & E & Hm & Hk). exists s. split; [exact E|]. split; [exact Hm|].
  apply Hk; [reflexivity|]. intros b Hb. by apply disk_of_view.
Defined.

(** The size that main gives the root directory can be past its last block: with
    30 files the directory fills one block, its size becomes two blocks, and the
    second address is null. *)
Lemma mkfs_root_hole :
  exists s, mkfs (replicate 30 ([65], [])) = Some s /\ i_size (din_of s ROOTINO) = 1024 /\ i_addrs (din_of s ROOTINO) !!! 1%nat = 0.
Proof. eexists. split; [vm_compute; reflexivity|]. split; by vm_compute. Qed.
