(* ===== verification/User.v ===== *)
(** * User programs

    A user program is an interaction tree over the system calls.  [run] executes
    one against a process's view of the system: its file descriptors, what
    [open] finds, and what it has written.  [fork] makes the outcome a tree: the
    child and the parent go on with a copy each. *)

From ITree Require Import ITree.
From S2P Require Import Prelude.

Declare Scope user_scope.
Delimit Scope user_scope with user.
Notation "'let*' x := c 'in' k" := (ITree.bind c (fun x => k)) (at level 10, x name, c at level 200, k at level 200) : user_scope.
Notation "c ;; k" := (ITree.bind c (fun _ => k)) : user_scope.
Open Scope user_scope.

(** ** System calls *)

(** [struct stat] *)
Record ustat := MkUstat { us_type : Z; us_ino : Z; us_size : Z }.

(** The calls that make, end and replace processes; [exec] only returns when it
    fails. *)
Inductive procE : Type -> Type :=
  | SFork : procE Z
  | SExit : procE Empty_set
  | SWait : procE Z
  | SExec (path : list Z) (argv : list (list Z)) : procE unit.

(** The other calls of user.h that the programs use, with what they return;
    [read] returns the bytes it stores. *)
Inductive ioE : Type -> Type :=
  | SPipe : ioE (option (Z * Z))
  | SWrite (fd : Z) (bs : list Z) : ioE Z
  | SRead (fd n : Z) : ioE (option (list Z))
  | SClose (fd : Z) : ioE Z
  | SKill (pid : Z) : ioE Z
  | SOpen (path : list Z) (mode : Z) : ioE Z
  | SMknod (path : list Z) (major minor : Z) : ioE Z
  | SUnlink (path : list Z) : ioE Z
  | SFstat (fd : Z) : ioE (option ustat)
  | SLink (old new : list Z) : ioE Z
  | SMkdir (path : list Z) : ioE Z
  | SChdir (path : list Z) : ioE Z
  | SDup (fd : Z) : ioE Z
  | SSleep (n : Z) : ioE Z.

Definition prog (R : Type) : Type := itree (procE +' ioE) R.

Definition pcall {X} (e : procE X) : prog X := ITree.trigger (inl1 e).
Definition call {X} (e : ioE X) : prog X := ITree.trigger (inr1 e).
Definition exit_ {R} : prog R := let* x := pcall SExit in match x with end.

(** ** The system as a process sees it *)

(** What a descriptor is open on.  A pipe has as its name the place in the tree
    of processes where it was made. *)
Inductive object :=
  | File (path : list Z) (mode : Z)
  | PipeRead (p : list Z)
  | PipeWrite (p : list Z).

(** A descriptor: the pieces that reads will return, and if they end with an
    error. *)
Record desc := MkDesc { d_obj : object; d_reads : list (list Z); d_err : bool }.

(** What is behind a path: type, inode and size for [fstat], the pieces that
    reads return. *)
Record ufile := MkUfile { uf_stat : ustat; uf_reads : list (list Z); uf_err : bool }.

(** The calls with an effect outside the process, in order. *)
Inductive effect :=
  | Wrote (o : object) (bs : list Z)
  | Made (path : list Z) (major minor : Z)
  | Removed (path : list Z)
  | Linked (old new : list Z)
  | MadeDir (path : list Z)
  | WentTo (path : list Z)
  | Killed (pid : Z).

(** What the rest of the system answers.  What [open] finds may depend on what
    the process has done, what [fork] and [wait] return on the place in the tree
    of processes. *)
Record system := MkSystem {
  open_file : list effect -> list Z -> Z -> option ufile;
  can_exec : list Z -> bool;
  can_mknod : list Z -> bool;
  unlink_ok : list Z -> bool;
  link_ok : list Z -> list Z -> bool;
  mkdir_ok : list Z -> bool;
  chdir_ok : list Z -> bool;
  kill_ok : Z -> bool;
  fork_pid : list Z -> Z;
  wait_pid : list Z -> Z }.

Record world := MkWorld { sys : system; fds : list (option desc); pos : list Z; effects : list effect }.

Definition set_fds (l : list (option desc)) (w : world) : world := MkWorld (sys w) l (pos w) (effects w).
Definition set_pos (p : list Z) (w : world) : world := MkWorld (sys w) (fds w) p (effects w).
Definition add_effect (e : effect) (w : world) : world := MkWorld (sys w) (fds w) (pos w) (effects w ++ [e]).

(** The lowest descriptor that is free, as [fdalloc] finds it. *)
Fixpoint lowest (l : list (option desc)) : option nat :=
  match l with
  | [] => None
  | None :: _ => Some O
  | Some _ :: l => S <$> lowest l
  end.

Definition fd_at (l : list (option desc)) (fd : Z) : option desc :=
  if fd <? 0 then None else default None (l !! Z.to_nat fd).

Definition put_fd (fd : Z) (d : option desc) (l : list (option desc)) : list (option desc) :=
  if fd <? 0 then l else <[Z.to_nat fd := d]> l.

(** A new descriptor in the lowest place. *)
Definition new_fd (d : desc) (l : list (option desc)) : option (Z * list (option desc)) :=
  match lowest l with
  | None => None
  | Some i => Some (Z.of_nat i, <[i := Some d]> l)
  end.

(** One read of at most [n] bytes. *)
Definition read_from (n : Z) (d : desc) : option (list Z) * desc :=
  match d_reads d with
  | [] => (if d_err d then None else Some [], d)
  | c :: cs =>
    if Z.of_nat (length c) <=? n then (Some c, MkDesc (d_obj d) cs (d_err d))
    else (Some (take (Z.to_nat n) c), MkDesc (d_obj d) (drop (Z.to_nat n) c :: cs) (d_err d))
  end.

Definition if_ok (b : bool) (e : effect) (w : world) : Z * world := if b then (0, add_effect e w) else (-1, w).

(** The answer to a call, and what it does to the process. *)
Definition answer {X} (e : ioE X) (w : world) : X * world :=
  match e in ioE X return X * world with
  | SPipe =>
      match new_fd (MkDesc (PipeRead (pos w)) [] false) (fds w) with
      | None => (None, w)
      | Some (a, l) =>
        match new_fd (MkDesc (PipeWrite (pos w)) [] false) l with
        | None => (None, w)
        | Some (b, l) => (Some (a, b), set_pos (0 :: pos w) (set_fds l w))
        end
      end
  | SWrite fd bs =>
      match fd_at (fds w) fd with
      | None => (-1, w)
      | Some d => (Z.of_nat (length bs), add_effect (Wrote (d_obj d) bs) w)
      end
  | SRead fd n =>
      match fd_at (fds w) fd with
      | None => (None, w)
      | Some d => let '(r, d) := read_from n d in (r, set_fds (put_fd fd (Some d) (fds w)) w)
      end
  | SClose fd =>
      match fd_at (fds w) fd with
      | None => (-1, w)
      | Some _ => (0, set_fds (put_fd fd None (fds w)) w)
      end
  | SKill pid => if_ok (kill_ok (sys w) pid) (Killed pid) w
  | SOpen path mode =>
      match open_file (sys w) (effects w) path mode with
      | None => (-1, w)
      | Some f =>
        match new_fd (MkDesc (File path mode) (uf_reads f) (uf_err f)) (fds w) with
        | None => (-1, w)
        | Some (fd, l) => (fd, set_fds l w)
        end
      end
  | SMknod path major minor => if_ok (can_mknod (sys w) path) (Made path major minor) w
  | SUnlink path => if_ok (unlink_ok (sys w) path) (Removed path) w
  | SFstat fd =>
      (match fd_at (fds w) fd with
       | Some (MkDesc (File path mode) _ _) => uf_stat <$> open_file (sys w) (effects w) path mode
       | _ => None
       end, w)
  | SLink old new => if_ok (link_ok (sys w) old new) (Linked old new) w
  | SMkdir path => if_ok (mkdir_ok (sys w) path) (MadeDir path) w
  | SChdir path => if_ok (chdir_ok (sys w) path) (WentTo path) w
  | SDup fd =>
      match fd_at (fds w) fd with
      | None => (-1, w)
      | Some d =>
        match new_fd d (fds w) with
        | None => (-1, w)
        | Some (fd, l) => (fd, set_fds l w)
        end
      end
  | SSleep _ => (0, w)
  end.

(** ** Execution *)

(** How a run of a program ends: it returns (a part of a program), exits, or
    becomes another program; after [wait] it goes on in [Awaits], and [fork]
    splits it unless it fails. *)
Inductive out (R : Type) :=
  | Returned (r : R) (w : world)
  | Exited (w : world)
  | Execd (path : list Z) (argv : list (list Z)) (w : world)
  | Awaits (o : out R)
  | Forked (child parent : out R).

#[global] Arguments Returned {R}.
#[global] Arguments Exited {R}.
#[global] Arguments Execd {R}.
#[global] Arguments Awaits {R}.
#[global] Arguments Forked {R}.

Fixpoint run {R} (fuel : nat) (t : prog R) (w : world) : option (out R) :=
  match fuel with
  | O => None
  | S n =>
    match observe t with
    | RetF r => Some (Returned r w)
    | TauF t => run n t w
    | VisF (inr1 e) k => let '(x, w) := answer e w in run n (k x) w
    | VisF (inl1 e) k =>
      match e in procE X return (X -> prog R) -> option (out R) with
      | SFork => fun k =>
        let parent := run n (k (fork_pid (sys w) (pos w))) (set_pos (2 :: pos w) w) in
        if fork_pid (sys w) (pos w) <? 0 then parent
        else
          match run n (k 0) (set_pos (1 :: pos w) w), parent with
          | Some o1, Some o2 => Some (Forked o1 o2)
          | _, _ => None
          end
      | SExit => fun _ => Some (Exited w)
      | SWait => fun k => Awaits <$> run n (k (wait_pid (sys w) (pos w))) (set_pos (3 :: pos w) w)
      | SExec path argv => fun k => if can_exec (sys w) path then Some (Execd path argv w) else run n (k tt) w
      end k
    end
  end.

(** The program ends so. *)
Definition runs {R} (t : prog R) (w : world) (o : out R) : Prop := exists n, run n t w = Some o.

(** The outcome of a part of a program, continued where it returns. *)
Inductive then_ {A B} (P : A -> world -> out B -> Prop) : out A -> out B -> Prop :=
  | then_returned r w o : P r w o -> then_ P (Returned r w) o
  | then_exited w : then_ P (Exited w) (Exited w)
  | then_execd path argv w : then_ P (Execd path argv w) (Execd path argv w)
  | then_awaits o o' : then_ P o o' -> then_ P (Awaits o) (Awaits o')
  | then_forked c p c' p' : then_ P c c' -> then_ P p p' -> then_ P (Forked c p) (Forked c' p').

(** ** Rules *)

Lemma run_more {R} n : forall m (t : prog R) w o, run n t w = Some o -> (n <= m)%nat -> run m t w = Some o.
Proof.
  induction n as [|n IH]; intros [|m] t w o H Hm; try done; [lia|]. cbn in *. destruct (observe t) as [r|t'|X [e|e] k]; [done|apply (IH m); [done|lia]| |].
  - destruct e; [|done| |].
    + destruct (fork_pid (sys w) (pos w) <? 0); [apply (IH m); [done|lia]|].
      destruct (run n (k 0) _) as [o1|] eqn:E1; [|done]. destruct (run n (k (fork_pid (sys w) (pos w))) _) as [o2|] eqn:E2; [|done].
      rewrite (IH m _ _ _ E1), (IH m _ _ _ E2) by lia. done.
    + destruct (run n (k _) _) as [o1|] eqn:E1; [|done]. by rewrite (IH m _ _ _ E1) by lia.
    + destruct (can_exec _ _); [done|]. apply (IH m); [done|lia].
  - destruct (answer e w) as [x w']. apply (IH m); [done|lia].
Qed.

Lemma runs_det {R} (t : prog R) w o o' : runs t w o -> runs t w o' -> o = o'.
Proof.
  intros [n Hn] [m Hm]. apply (run_more _ (n + m)) in Hn, Hm; [|lia|lia]. congruence.
Qed.

Lemma runs_ret {R} (r : R) w : runs (Ret r) w (Returned r w).
Proof. by exists 1%nat. Qed.

Lemma runs_tau {R} (t : prog R) w o : runs t w o -> runs (Tau t) w o.
Proof. intros [n H]. by exists (S n). Qed.

Lemma runs_eq {R} (t t' : prog R) w o : observe t = observe t' -> runs t w o -> runs t' w o.
Proof. intros E [[|n] H]; [done|]. exists (S n). cbn in *. by rewrite <- E. Qed.

Lemma observe_bind {A B} (t : prog A) (k : A -> prog B) :
  observe (ITree.bind t k) =
    match observe t with
    | RetF r => observe (k r)
    | TauF t => TauF (ITree.bind t k)
    | VisF e k' => VisF e (fun x => ITree.bind (k' x) k)
    end.
Proof.
  change (observe (ITree.bind t k)) with
    (observe match observe t with RetF r => k r | TauF t => Tau (ITree.bind t k) | VisF e k' => Vis e (fun x => ITree.bind (k' x) k) end).
  by destruct (observe t).
Qed.

Lemma runs_then {A B} (t : prog A) (k : A -> prog B) w o o' :
  runs t w o -> then_ (fun r w o' => runs (k r) w o') o o' -> runs (ITree.bind t k) w o'.
Proof.
  intros [n H]. revert t w o o' H. induction n as [|n IH]; intros t w o o' H Ht; [done|]. cbn in H.
  destruct (observe t) as [r|t'|X [e|e] k'] eqn:E.
  - injection H as <-. inversion Ht; subst. eapply runs_eq; [|eassumption]. by rewrite observe_bind, E.
  - destruct (IH _ _ _ _ H Ht) as [m Hm]. exists (S m). cbn [run]. by rewrite observe_bind, E.
  - destruct e.
    + destruct (fork_pid (sys w) (pos w) <? 0) eqn:Ef.
      { destruct (IH _ _ _ _ H Ht) as [m Hm]. exists (S m). cbn [run]. rewrite observe_bind, E. cbn. by rewrite Ef. }
      destruct (run n (k' 0) _) as [o1|] eqn:E1; [|done]. destruct (run n (k' (fork_pid (sys w) (pos w))) _) as [o2|] eqn:E2; [|done].
      injection H as <-. inversion Ht; subst. destruct (IH _ _ _ _ E1 H1) as [m1 Hm1], (IH _ _ _ _ E2 H3) as [m2 Hm2].
      exists (S (m1 + m2)). cbn [run]. rewrite observe_bind, E. cbn. rewrite Ef, (run_more _ (m1 + m2) _ _ _ Hm1), (run_more _ (m1 + m2) _ _ _ Hm2) by lia. done.
    + injection H as <-. inversion Ht; subst. exists 1%nat. cbn [run]. by rewrite observe_bind, E.
    + destruct (run n (k' _) _) as [o1|] eqn:E1; [|done]. injection H as <-. inversion Ht; subst.
      destruct (IH _ _ _ _ E1 H0) as [m Hm]. exists (S m). cbn [run]. rewrite observe_bind, E. cbn. by rewrite Hm.
    + destruct (can_exec (sys w) path) eqn:Ec.
      * injection H as <-. inversion Ht; subst. exists 1%nat. cbn [run]. rewrite observe_bind, E. cbn. by rewrite Ec.
      * destruct (IH _ _ _ _ H Ht) as [m Hm]. exists (S m). cbn [run]. rewrite observe_bind, E. cbn. by rewrite Ec.
  - destruct (answer e w) as [x w'] eqn:Ea. destruct (IH _ _ _ _ H Ht) as [m Hm]. exists (S m). cbn [run]. rewrite observe_bind, E. cbn. by rewrite Ea.
Qed.

Lemma runs_seq {A B} (t : prog A) (k : A -> prog B) w r w1 o :
  runs t w (Returned r w1) -> runs (k r) w1 o -> runs (ITree.bind t k) w o.
Proof. intros H1 H2. eapply runs_then; [exact H1|]. by constructor. Qed.

Lemma runs_call {X} (e : ioE X) w : runs (call e) w (Returned (answer e w).1 (answer e w).2).
Proof. exists 2%nat. cbn. by destruct (answer e w). Qed.

Lemma runs_exit {R} w : runs (@exit_ R) w (Exited w).
Proof. by exists 1%nat. Qed.

Lemma runs_fork w : 0 <= fork_pid (sys w) (pos w) ->
  runs (pcall SFork) w (Forked (Returned 0 (set_pos (1 :: pos w) w)) (Returned (fork_pid (sys w) (pos w)) (set_pos (2 :: pos w) w))).
Proof. intros H%Z.ltb_ge. exists 2%nat. cbn. by rewrite H. Qed.

Lemma runs_fork_fails w : fork_pid (sys w) (pos w) < 0 ->
  runs (pcall SFork) w (Returned (fork_pid (sys w) (pos w)) (set_pos (2 :: pos w) w)).
Proof. intros H%Z.ltb_lt. exists 2%nat. cbn. by rewrite H. Qed.

Lemma runs_wait w : runs (pcall SWait) w (Awaits (Returned (wait_pid (sys w) (pos w)) (set_pos (3 :: pos w) w))).
Proof. by exists 2%nat. Qed.

Lemma runs_exec path argv w :
  runs (pcall (SExec path argv)) w (if can_exec (sys w) path then Execd path argv w else Returned tt w).
Proof. exists 2%nat. cbn. by destruct (can_exec _ _). Qed.

Lemma observe_iter {I R} (body : I -> prog (I + R)) i :
  observe (ITree.iter body i) = observe (let* lr := body i in match lr with inl j => Tau (ITree.iter body j) | inr r => Ret r end).
Proof. reflexivity. Qed.

Lemma runs_iter {I R} (body : I -> prog (I + R)) i w o o' :
  runs (body i) w o ->
  then_ (fun lr w o' => match lr with inl j => runs (ITree.iter body j) w o' | inr r => o' = Returned r w end) o o' ->
  runs (ITree.iter body i) w o'.
Proof.
  intros H Ht. eapply runs_eq; [symmetry; apply observe_iter|]. eapply runs_then; [exact H|].
  clear H. induction Ht as [lr w1 o1 H1| | | |]; [|by constructor..].
  apply then_returned. destruct lr as [j|r]; [by apply runs_tau|]. subst. apply runs_ret.
Qed.

(** Outcomes in which no branch returns. *)
Fixpoint final {R} (o : out R) : Prop :=
  match o with
  | Returned _ _ => False
  | Exited _ | Execd _ _ _ => True
  | Awaits o => final o
  | Forked c p => final c /\ final p
  end.

(** The outcome of a program that exits where the first one returns. *)
Fixpoint recast {A B} (o : out A) : out B :=
  match o with
  | Returned _ w | Exited w => Exited w
  | Execd path argv w => Execd path argv w
  | Awaits o => Awaits (recast o)
  | Forked c p => Forked (recast c) (recast p)
  end.

Lemma then_recast {A B} (P : A -> world -> out B -> Prop) o : final o -> then_ P o (recast o).
Proof. induction o; cbn; intros H; try done; constructor; intuition. Qed.

Lemma then_recast_back {A B} (P : B -> world -> out A -> Prop) o : final o -> then_ P (recast o) o.
Proof. induction o; cbn; intros H; try done; constructor; intuition. Qed.

Lemma then_exit {A B} (o : out A) : then_ (fun _ w o' => runs exit_ w o') o (@recast A B o).
Proof. induction o; constructor; auto. apply runs_exit. Qed.

Lemma then_final {R} (P : R -> world -> out R -> Prop) o : final o -> then_ P o o.
Proof. induction o; cbn; intros H; try done; constructor; intuition. Qed.

Lemma runs_never_returns {R} (t : prog R) (k : R -> prog R) w o : runs t w o -> final o -> runs (ITree.bind t k) w o.
Proof. intros H Hf. eapply runs_then; [exact H|]. by apply then_final. Qed.
