(* ===== verification/Uprogs.v ===== *)
(** * The user library and the small programs

    ulib.c, printf.c, and the programs cat, wc, echo, ls, rm, ln, mkdir, kill,
    zombie and init, over the system calls of [User]. *)

From ITree Require Import ITree.
From S2P Require Import Prelude User Grep.

(** ** ulib.c *)

Module Ulib.

(** Strings are lists without the NUL that ends them. *)
Fixpoint strcmp (p q : list Z) : Z :=
  match p, q with
  | [], [] => 0
  | [], d :: _ => - (d mod 256)
  | c :: _, [] => c mod 256
  | c :: p, d :: q => if c =? d then strcmp p q else c mod 256 - d mod 256
  end.

(** [while(( *s++ = *t++) != 0)] on memory: [None] when [n] bytes
    are copied and no NUL was among them. *)
Fixpoint strcpy (n : nat) (s t : Z) (m : Z -> Z) : option (Z -> Z) :=
  match n with
  | O => None
  | S n =>
    let m' := fun a => if a =? s then m t else m a in
    if m' s =? 0 then Some m' else strcpy n (s + 1) (t + 1) m'
  end.

(** [stosb(dst, c, n)] *)
Fixpoint memset_loop (n : nat) (dst c : Z) (m : Z -> Z) : Z -> Z :=
  match n with
  | O => m
  | S n => memset_loop n (dst + 1) c (fun a => if a =? dst then c mod 256 else m a)
  end.

Definition memset (dst c n : Z) (m : Z -> Z) : Z -> Z := memset_loop (Z.to_nat n) dst c m.

Definition strlen (s : list Z) : Z := Z.of_nat (length s).

(** [while('0' <= *s && *s <= '9') n = n*10 + *s++ - '0';] *)
Fixpoint atoi_loop (n : Z) (s : list Z) : Z :=
  match s with
  | c :: s => if (48 <=? c) && (c <=? 57) then atoi_loop (i32 (n * 10 + c - 48)) s else n
  | [] => n
  end.

Definition atoi (s : list Z) : Z := atoi_loop 0 s.

(** [while(n-- > 0) *dst++ = *src++;] on memory. *)
Fixpoint memmove_loop (n : nat) (dst src : Z) (m : Z -> Z) : Z -> Z :=
  match n with
  | O => m
  | S n => memmove_loop n (dst + 1) (src + 1) (fun a => if a =? dst then m src else m a)
  end.

Definition memmove (vdst vsrc n : Z) (m : Z -> Z) : Z -> Z := memmove_loop (Z.to_nat n) vdst vsrc m.

(** [gets(buf, max)]: the string it leaves in [buf].  The loop has what it has
    read so far. *)
Definition gets (max : Z) : prog (list Z) :=
  ITree.iter (fun buf : list Z =>
    if Z.of_nat (length buf) + 1 <? max then
      let* r := call (SRead 0 1) in
      match r with
      | Some (c :: _) => if (c =? 10) || (c =? 13) then Ret (inr (buf ++ [c])) else Ret (inl (buf ++ [c]))
      | _ => Ret (inr buf)
      end
    else Ret (inr buf)) [].

Definition stat (n : list Z) : prog (option ustat) :=
  let* fd := call (SOpen n 0) in
  if fd <? 0 then Ret None
  else
    let* r := call (SFstat fd) in
    call (SClose fd) ;;
    Ret r.

End Ulib.

(** ** printf.c *)

Module Printf.

(** The arguments after the format; a string may be a null pointer. *)
Inductive uarg := AInt (x : Z) | AStr (s : option (list Z)).

Definition putc (fd c : Z) : prog unit := call (SWrite fd [c]) ;; Ret tt.

Fixpoint puts (fd : Z) (s : list Z) : prog unit :=
  match s with
  | [] => Ret tt
  | c :: s => putc fd c ;; puts fd s
  end.

(** [do{ buf[i++] = digits[x % base]; }while((x /= base) != 0);] *)
Fixpoint digits_loop (n : nat) (x base : Z) : list Z :=
  match n with
  | O => []
  | S n =>
    let d := x mod base in
    (if d <? 10 then 48 + d else 55 + d) :: (if x / base =? 0 then [] else digits_loop n (x / base) base)
  end.

(** What [printint] prints; 16 digits is what [buf] has room for. *)
Definition printint_chars (xx base : Z) (sgn : bool) : list Z :=
  let neg := sgn && (i32 xx <? 0) in
  let x := if neg then u32 (- i32 xx) else u32 xx in
  reverse (digits_loop 16 x base ++ (if neg then [45] else [])).

Definition printint (fd xx base : Z) (sgn : bool) : prog unit := puts fd (printint_chars xx base sgn).

(** The next argument as an integer and as a string; a missing or mismatched
    argument has no meaning in C. *)
Definition arg_int (a : list uarg) : Z := match a with AInt x :: _ => x | _ => 0 end.
Definition arg_str (a : list uarg) : list Z := match a with AStr (Some s) :: _ => s | _ => chars "(null)" end.

(** The loop over the format, in the state 0 or after a percent sign. *)
Fixpoint printf_loop (fd : Z) (percent : bool) (fmt : list Z) (ap : list uarg) : prog unit :=
  match fmt with
  | [] => Ret tt
  | c :: fmt =>
    if negb percent then
      if c =? 37 then printf_loop fd true fmt ap
      else putc fd c ;; printf_loop fd false fmt ap
    else if c =? 100 then printint fd (arg_int ap) 10 true ;; printf_loop fd false fmt (drop 1 ap)
    else if (c =? 120) || (c =? 112) then printint fd (arg_int ap) 16 false ;; printf_loop fd false fmt (drop 1 ap)
    else if c =? 115 then puts fd (arg_str ap) ;; printf_loop fd false fmt (drop 1 ap)
    else if c =? 99 then putc fd (arg_int ap mod 256) ;; printf_loop fd false fmt (drop 1 ap)
    else if c =? 37 then putc fd c ;; printf_loop fd false fmt ap
    else putc fd 37 ;; putc fd c ;; printf_loop fd false fmt ap
  end.

Definition printf (fd : Z) (fmt : list Z) (args : list uarg) : prog unit := printf_loop fd false fmt args.

(** A format that ends with a newline. *)
Definition line (s : string) : list Z := chars s ++ [10].

Definition str (s : list Z) : uarg := AStr (Some s).

End Printf.

Import Ulib Printf.

(** ** cat.c *)

Module Cat.

(** [while((n = read(fd, buf, sizeof(buf))) > 0) write(1, buf, n);] *)
Definition cat (fd : Z) : prog unit :=
  ITree.iter (fun _ : unit =>
    let* r := call (SRead fd 512) in
    match r with
    | Some [] => Ret (inr tt)
    | Some bs => call (SWrite 1 bs) ;; Ret (inl tt)
    | None => printf 1 (line "cat: read error") [] ;; exit_
    end) tt.

Fixpoint main_loop (args : list (list Z)) : prog unit :=
  match args with
  | [] => exit_
  | a :: args =>
    let* fd := call (SOpen a 0) in
    if fd <? 0 then printf 1 (line "cat: cannot open %s") [str a] ;; exit_
    else cat fd ;; call (SClose fd) ;; main_loop args
  end.

Definition main (argv : list (list Z)) : prog unit :=
  match argv with
  | [] | [_] => cat 0 ;; exit_
  | _ :: args => main_loop args
  end.

End Cat.

(** ** wc.c *)

Module Wc.

(** [l], [w], [c] and [inword]. *)
Record counts := MkCounts { n_l : Z; n_w : Z; n_c : Z; inword : bool }.

Definition spaces : list Z := [32; 13; 9; 10; 11].

Definition count_char (k : counts) (ch : Z) : counts :=
  let c := i32 (n_c k + 1) in
  let l := if ch =? 10 then i32 (n_l k + 1) else n_l k in
  match Grep.strchr spaces ch with
  | Some _ => MkCounts l (n_w k) c false
  | None => if inword k then MkCounts l (n_w k) c true else MkCounts l (i32 (n_w k + 1)) c true
  end.

(** [while((n = read(fd, buf, sizeof(buf))) > 0)] *)
Definition wc_loop (fd : Z) : counts -> prog counts :=
  ITree.iter (fun k : counts =>
    let* r := call (SRead fd 512) in
    match r with
    | Some [] => Ret (inr k)
    | Some bs => Ret (inl (foldl count_char k bs))
    | None => printf 1 (line "wc: read error") [] ;; exit_
    end).

Definition wc (fd : Z) (name : list Z) : prog unit :=
  let* k := wc_loop fd (MkCounts 0 0 0 false) in
  printf 1 (line "%d %d %d %s") [AInt (n_l k); AInt (n_w k); AInt (n_c k); str name].

Fixpoint main_loop (args : list (list Z)) : prog unit :=
  match args with
  | [] => exit_
  | a :: args =>
    let* fd := call (SOpen a 0) in
    if fd <? 0 then printf 1 (line "wc: cannot open %s") [str a] ;; exit_
    else wc fd a ;; call (SClose fd) ;; main_loop args
  end.

Definition main (argv : list (list Z)) : prog unit :=
  match argv with
  | [] | [_] => wc 0 [] ;; exit_
  | _ :: args => main_loop args
  end.

End Wc.

(** ** echo.c, rm.c, ln.c, mkdir.c, kill.c and zombie.c *)

Module Small.

Fixpoint echo_loop (args : list (list Z)) : prog unit :=
  match args with
  | [] => exit_
  | a :: args =>
    printf 1 (chars "%s%s") [str a; str (match args with [] => [10] | _ => [32] end)] ;;
    echo_loop args
  end.

Definition echo (argv : list (list Z)) : prog unit := echo_loop (drop 1 argv).

Fixpoint rm_loop (args : list (list Z)) : prog unit :=
  match args with
  | [] => exit_
  | a :: args =>
    let* r := call (SUnlink a) in
    if r <? 0 then printf 2 (line "rm: %s failed to delete") [str a] ;; exit_
    else rm_loop args
  end.

Definition rm (argv : list (list Z)) : prog unit :=
  match argv with
  | [] | [_] => printf 2 (line "Usage: rm files...") [] ;; exit_
  | _ :: args => rm_loop args
  end.

Definition ln (argv : list (list Z)) : prog unit :=
  match argv with
  | [_; old; new] =>
    let* r := call (SLink old new) in
    (if r <? 0 then printf 2 (line "link %s %s: failed") [str old; str new] else Ret tt) ;;
    exit_
  | _ => printf 2 (line "Usage: ln old new") [] ;; exit_
  end.

Fixpoint mkdir_loop (args : list (list Z)) : prog unit :=
  match args with
  | [] => exit_
  | a :: args =>
    let* r := call (SMkdir a) in
    if r <? 0 then printf 2 (line "mkdir: %s failed to create") [str a] ;; exit_
    else mkdir_loop args
  end.

Definition mkdir (argv : list (list Z)) : prog unit :=
  match argv with
  | [] | [_] => printf 2 (line "Usage: mkdir files...") [] ;; exit_
  | _ :: args => mkdir_loop args
  end.

Fixpoint kill_loop (args : list (list Z)) : prog unit :=
  match args with
  | [] => exit_
  | a :: args => call (SKill (atoi a)) ;; kill_loop args
  end.

Definition kill (argv : list (list Z)) : prog unit :=
  match argv with
  | [] | [_] => printf 2 (line "usage: kill pid...") [] ;; exit_
  | _ :: args => kill_loop args
  end.

Definition zombie : prog unit :=
  let* pid := pcall SFork in
  (if 0 <? pid then call (SSleep 5) ;; Ret tt else Ret tt) ;;
  exit_.

End Small.

(** ** ls.c *)

Module Ls.

Definition DIRSIZ : nat := 14.

(** [for(p=path+strlen(path); p >= path && *p != '/'; p--)]: the characters
    from the end up to a slash. *)
Fixpoint to_slash (rev : list Z) : list Z :=
  match rev with
  | [] => []
  | c :: rev => if c =? 47 then [] else c :: to_slash rev
  end.

Definition fmtname (path : list Z) : list Z :=
  let p := reverse (to_slash (reverse path)) in
  if (DIRSIZ <=? length p)%nat then p else p ++ replicate (DIRSIZ - length p) 32.

Definition print_entry (path : list Z) (st : ustat) : prog unit :=
  printf 1 (line "%s %d %d %d") [str (fmtname path); AInt (us_type st); AInt (us_ino st); AInt (us_size st)].

(** [while(read(fd, &de, sizeof(de)) == sizeof(de))] *)
Definition ls_entries (fd : Z) (path : list Z) : prog unit :=
  ITree.iter (fun _ : unit =>
    let* r := call (SRead fd 16) in
    match r with
    | None => Ret (inr tt)
    | Some de =>
      if negb (Z.of_nat (length de) =? 16) then Ret (inr tt)
      else if get16 de 0 =? 0 then Ret (inl tt)
      else
        let buf := path ++ [47] ++ cstr (slice de 2 DIRSIZ) in
        let* st := Ulib.stat buf in
        match st with
        | None => printf 1 (line "ls: cannot stat %s") [str buf] ;; Ret (inl tt)
        | Some st => print_entry buf st ;; Ret (inl tt)
        end
    end) tt.

Definition ls (path : list Z) : prog unit :=
  let* fd := call (SOpen path 0) in
  if fd <? 0 then printf 2 (line "ls: cannot open %s") [str path]
  else
    let* st := call (SFstat fd) in
    match st with
    | None => printf 2 (line "ls: cannot stat %s") [str path] ;; call (SClose fd) ;; Ret tt
    | Some st =>
      (if us_type st =? 2 then print_entry path st
       else if us_type st =? 1 then
         if 512 <? strlen path + 1 + Z.of_nat DIRSIZ + 1 then printf 1 (line "ls: path too long") []
         else ls_entries fd path
       else Ret tt) ;;
      call (SClose fd) ;; Ret tt
    end.

Fixpoint main_loop (args : list (list Z)) : prog unit :=
  match args with
  | [] => exit_
  | a :: args => ls a ;; main_loop args
  end.

Definition main (argv : list (list Z)) : prog unit :=
  match argv with
  | [] | [_] => ls [46] ;; exit_
  | _ :: args => main_loop args
  end.

End Ls.

(** ** init.c *)

Module Init.

(** [while((wpid=wait()) >= 0 && wpid != pid) printf(1, "zombie!\n");] *)
Definition wait_loop (pid : Z) : prog unit :=
  ITree.iter (fun _ : unit =>
    let* wpid := pcall SWait in
    if (0 <=? wpid) && negb (wpid =? pid) then printf 1 (line "zombie!") [] ;; Ret (inl tt)
    else Ret (inr tt)) tt.

(** One turn of [for(;;)]. *)
Definition turn : prog unit :=
  printf 1 (line "init: starting sh") [] ;;
  let* pid := pcall SFork in
  if pid <? 0 then printf 1 (line "init: fork failed") [] ;; exit_
  else
    (if pid =? 0 then
       pcall (SExec (chars "sh") [chars "sh"]) ;;
       printf 1 (line "init: exec sh failed") [] ;;
       exit_
     else Ret tt) ;;
    wait_loop pid.

Definition setup : prog unit :=
  let* r := call (SOpen (chars "console") 2) in
  (if r <? 0 then
     call (SMknod (chars "console") 1 1) ;;
     call (SOpen (chars "console") 2) ;; Ret tt
   else Ret tt) ;;
  call (SDup 0) ;;
  call (SDup 0) ;;
  Ret tt.

Definition main : prog Empty_set :=
  setup ;;
  ITree.iter (fun _ : unit => turn ;; Ret (inl tt)) tt.

End Init.
