(* ===== verification/UprogsThm.v ===== *)
(** * What the user library and the small programs do *)

From ITree Require Import ITree.
From S2P Require Import Prelude User Grep Uprogs.
Import Ulib Printf.

(** ** Numbers *)

(** The digits of [x] in base 10, most significant first. *)
Lemma digits_loop_value n : forall x, 0 <= x < 10 ^ Z.of_nat n ->
  (1 <= n)%nat ->
  foldr (fun d v => 10 * v + (d - 48)) 0 (digits_loop n x 10) = x /\ Forall (fun d => 48 <= d <= 57) (digits_loop n x 10).
Proof.
  induction n as [|n IH]; intros x Hx Hn; [lia|]. cbn [digits_loop foldr].
  assert (0 <= x mod 10 < 10) by (apply Z.mod_pos_bound; lia). rewrite (proj2 (Z.ltb_lt (x mod 10) 10)) by lia.
  destruct (Z.eqb_spec (x / 10) 0) as [E|E].
  - cbn. split; [zdm|]. constructor; [lia|done].
  - destruct n as [|n]; [change (10 ^ Z.of_nat 1) with 10 in Hx; zdm|].
    destruct (IH (x / 10)) as [IH1 IH2]; [|lia|].
    + rewrite Nat2Z.inj_succ, Z.pow_succ_r in Hx by lia. set (P := 10 ^ Z.of_nat (S n)) in *. zdm.
    + split; [|constructor; [lia|done]]. rewrite IH1. zdm.
Qed.

Lemma atoi_loop_digits l : forall n, 0 <= n -> Forall (fun d => 48 <= d <= 57) l ->
  foldl (fun v d => 10 * v + (d - 48)) n l < 2^31 -> atoi_loop n l = foldl (fun v d => 10 * v + (d - 48)) n l.
Proof.
  induction l as [|d l IH]; intros n Hn Hl Hb; [done|]. apply Forall_cons in Hl as [Hd Hl]. cbn [atoi_loop foldl] in *.
  rewrite (proj2 (Z.leb_le 48 d)), (proj2 (Z.leb_le d 57)) by lia. cbn [andb].
  assert (Hmono : forall l v, 0 <= v -> Forall (fun d => 48 <= d <= 57) l -> v <= foldl (fun v d => 10 * v + (d - 48)) v l).
  { clear. induction l as [|d l IH]; intros v Hv Hl; [done|]. apply Forall_cons in Hl as [Hd Hl]. cbn [foldl].
    specialize (IH (10 * v + (d - 48)) ltac:(lia) Hl). lia. }
  pose proof (Hmono l (10 * n + (d - 48)) ltac:(lia) Hl).
  replace (i32 (n * 10 + d - 48)) with (10 * n + (d - 48)); [apply IH; [lia|done|done]|]. symmetry.
  replace (n * 10 + d - 48) with (10 * n + (d - 48)) by lia. apply i32_small. lia.
Qed.

Lemma foldl_reverse {A B} (f : B -> A -> B) l a : foldl f a (reverse l) = foldr (fun d v => f v d) a l.
Proof. induction l as [|d l IH]; [done|]. rewrite reverse_cons, foldl_app, IH. done. Qed.

(** Atoi undoes the decimal output of printf, for every number that an int can
    hold and that is not negative. *)
Theorem atoi_printint x : 0 <= x < 2^31 -> atoi (printint_chars x 10 true) = x.
Proof.
  intros Hx. unfold printint_chars. rewrite i32_small by lia. rewrite (proj2 (Z.ltb_ge x 0)) by lia. cbn [andb]. rewrite app_nil_r.
  rewrite u32_small by (unfold is_u32; lia). destruct (digits_loop_value 16 x) as [Hv Hd]; [cbn; lia|lia|].
  unfold atoi. assert (Ef : foldl (fun v d => 10 * v + (d - 48)) 0 (reverse (digits_loop 16 x 10)) = x).
  { rewrite foldl_reverse. exact Hv. }
  rewrite atoi_loop_digits; [done|done|by apply Forall_reverse|lia].
Qed.

Lemma atoi_printint_witness : atoi (printint_chars 12345 10 true) = 12345.
Proof. apply (atoi_printint 12345). lia. Defined.

(** ** Output *)

#[global] Instance object_eq_dec : EqDecision object.
Proof. solve_decision. Defined.

(** The bytes written to [o]. *)
Fixpoint written (o : object) (es : list effect) : list Z :=
  match es with
  | [] => []
  | Wrote o' bs :: es => (if bool_decide (o' = o) then bs else []) ++ written o es
  | _ :: es => written o es
  end.

Lemma written_app o es es' : written o (es ++ es') = written o es ++ written o es'.
Proof. induction es as [|e es IH]; [done|]. destruct e; cbn; rewrite IH; [by rewrite app_assoc|done..]. Qed.

(** More effects. *)
Definition more (es : list effect) (w : world) : world := MkWorld (sys w) (fds w) (pos w) (effects w ++ es).

Lemma more_nil w : more [] w = w.
Proof. unfold more. rewrite app_nil_r. by destruct w. Qed.

Lemma more_more es es' w : more es' (more es w) = more (es ++ es') w.
Proof. unfold more. cbn. by rewrite app_assoc. Qed.

(** One write for each character. *)
Definition typed (o : object) (s : list Z) : list effect := (fun c => Wrote o [c]) <$> s.

Lemma written_typed o s : written o (typed o s) = s.
Proof. induction s as [|c s IH]; [done|]. cbn. rewrite bool_decide_eq_true_2 by done. by rewrite <- IH at 2. Qed.

Lemma typed_app o s s' : typed o (s ++ s') = typed o s ++ typed o s'.
Proof. apply fmap_app. Qed.

Lemma runs_write fd bs w d : fd_at (fds w) fd = Some d -> runs (call (SWrite fd bs)) w (Returned (Z.of_nat (length bs)) (more [Wrote (d_obj d) bs] w)).
Proof. intros H. pose proof (runs_call (SWrite fd bs) w) as Hr. cbn in Hr. rewrite H in Hr. exact Hr. Qed.

Section output.
  Context (fd : Z) (d : desc).

Lemma runs_putc c w : fd_at (fds w) fd = Some d -> runs (putc fd c) w (Returned tt (more (typed (d_obj d) [c]) w)).
Proof. intros H. eapply runs_seq; [by apply runs_write|]. apply runs_ret. Qed.

Lemma runs_puts s : forall w, fd_at (fds w) fd = Some d -> runs (puts fd s) w (Returned tt (more (typed (d_obj d) s) w)).
Proof.
  induction s as [|c s IH]; intros w H; cbn [puts]; [rewrite more_nil; apply runs_ret|].
  eapply runs_seq; [by apply runs_putc|]. eapply eq_rect; [by apply IH|]. by rewrite more_more.
Qed.

(** What [printf] prints. *)
Fixpoint format (percent : bool) (fmt : list Z) (ap : list uarg) : list Z :=
  match fmt with
  | [] => []
  | c :: fmt =>
    if negb percent then if c =? 37 then format true fmt ap else c :: format false fmt ap
    else if c =? 100 then printint_chars (arg_int ap) 10 true ++ format false fmt (drop 1 ap)
    else if (c =? 120) || (c =? 112) then printint_chars (arg_int ap) 16 false ++ format false fmt (drop 1 ap)
    else if c =? 115 then arg_str ap ++ format false fmt (drop 1 ap)
    else if c =? 99 then arg_int ap mod 256 :: format false fmt (drop 1 ap)
    else if c =? 37 then c :: format false fmt ap
    else 37 :: c :: format false fmt ap
  end.

Lemma runs_text s (k : prog unit) s' w :
  (forall w, fd_at (fds w) fd = Some d -> runs k w (Returned tt (more (typed (d_obj d) s') w))) -> fd_at (fds w) fd = Some d ->
  runs (puts fd s ;; k) w (Returned tt (more (typed (d_obj d) (s ++ s')) w)).
Proof. intros Hk H. eapply runs_seq; [by apply runs_puts|]. rewrite typed_app, <- more_more. by apply Hk. Qed.

Lemma runs_char c (k : prog unit) s' w :
  (forall w, fd_at (fds w) fd = Some d -> runs k w (Returned tt (more (typed (d_obj d) s') w))) -> fd_at (fds w) fd = Some d ->
  runs (putc fd c ;; k) w (Returned tt (more (typed (d_obj d) (c :: s')) w)).
Proof. intros Hk H. eapply runs_seq; [by apply runs_putc|]. change (c :: s') with ([c] ++ s'). rewrite typed_app, <- more_more. by apply Hk. Qed.

Lemma runs_printf_loop fmt : forall percent ap w,
  fd_at (fds w) fd = Some d -> runs (printf_loop fd percent fmt ap) w (Returned tt (more (typed (d_obj d) (format percent fmt ap)) w)).
Proof.
  induction fmt as [|c fmt IH]; intros percent ap w H; cbn [printf_loop format]; [rewrite more_nil; apply runs_ret|].
  destruct percent; cbn [negb].
  - destruct (c =? 100); [apply runs_text; auto|]. destruct (_ || _); [apply runs_text; auto|]. destruct (c =? 115); [apply runs_text; auto|].
    destruct (c =? 99); [apply runs_char; auto|]. destruct (c =? 37); [apply runs_char; auto|].
    apply runs_char; [|done]. intros w' H'. apply runs_char; auto.
  - destruct (c =? 37); [by apply IH|]. apply runs_char; auto.
Qed.

Lemma runs_printf fmt ap w :
  fd_at (fds w) fd = Some d -> runs (printf fd fmt ap) w (Returned tt (more (typed (d_obj d) (format false fmt ap)) w)).
Proof. apply runs_printf_loop. Qed.

End output.

Lemma runs_to {R} (t : prog R) w o o' : runs t w o -> o = o' -> runs t w o'.
Proof. by intros H <-. Qed.

(** ** Descriptors *)

Lemma fd_at_Some l fd d : fd_at l fd = Some d -> 0 <= fd /\ l !! Z.to_nat fd = Some (Some d).
Proof. unfold fd_at. destruct (Z.ltb_spec fd 0); [done|]. intros H'. split; [done|]. destruct (l !! _); [by cbn in H'; subst|done]. Qed.

Lemma fd_at_put_same l fd d x : fd_at l fd = Some d -> fd_at (put_fd fd x l) fd = x.
Proof.
  intros [H0 Hl]%fd_at_Some. unfold fd_at, put_fd. rewrite (proj2 (Z.ltb_ge fd 0)) by done.
  rewrite list_lookup_insert_eq; [done|]. by eapply lookup_lt_Some.
Qed.

Lemma fd_at_put_other l fd fd' x : fd <> fd' -> fd_at (put_fd fd x l) fd' = fd_at l fd'.
Proof.
  intros Hne. unfold fd_at, put_fd. destruct (Z.ltb_spec fd' 0); [done|]. destruct (Z.ltb_spec fd 0); [done|].
  rewrite list_lookup_insert_ne by lia. done.
Qed.

Lemma put_put l fd x y : put_fd fd y (put_fd fd x l) = put_fd fd y l.
Proof. unfold put_fd. destruct (fd <? 0); [done|]. apply list_insert_insert_eq. Qed.

(** The descriptor [fd], with [rs] left to read. *)
Definition with_reads (fd : Z) (d : desc) (rs : list (list Z)) (w : world) : world :=
  set_fds (put_fd fd (Some (MkDesc (d_obj d) rs (d_err d))) (fds w)) w.

Lemma with_reads_again fd d rs rs' w : with_reads fd (MkDesc (d_obj d) rs (d_err d)) rs' (with_reads fd d rs w) = with_reads fd d rs' w.
Proof. unfold with_reads, set_fds. cbn. by rewrite put_put. Qed.

Lemma with_reads_more fd d rs es w : with_reads fd d rs (more es w) = more es (with_reads fd d rs w).
Proof. done. Qed.

(** The pieces that reads of 512 bytes return. *)
Definition piece (bs : list Z) : Prop := (0 < length bs <= 512)%nat.

Lemma runs_read_upto fd n w d c rs :
  fd_at (fds w) fd = Some d -> d_reads d = c :: rs -> Z.of_nat (length c) <= n -> runs (call (SRead fd n)) w (Returned (Some c) (with_reads fd d rs w)).
Proof.
  intros H Hr Hc. pose proof (runs_call (SRead fd n) w) as R. cbn [answer] in R. rewrite H in R. unfold read_from in R.
  rewrite Hr, (proj2 (Z.leb_le _ _)) in R by lia. exact R.
Qed.

Lemma runs_read_piece fd w d c rs :
  fd_at (fds w) fd = Some d -> d_reads d = c :: rs -> piece c -> runs (call (SRead fd 512)) w (Returned (Some c) (with_reads fd d rs w)).
Proof. intros H Hr [_ Hc]. apply runs_read_upto; [done|done|lia]. Qed.

Lemma runs_read_end fd n w d :
  fd_at (fds w) fd = Some d -> d_reads d = [] -> d_err d = false -> runs (call (SRead fd n)) w (Returned (Some []) (with_reads fd d [] w)).
Proof.
  intros H Hr He. pose proof (runs_call (SRead fd n) w) as R. cbn [answer] in R. rewrite H in R. unfold read_from in R.
  rewrite Hr, He in R. unfold with_reads. rewrite He, <- Hr. destruct d. cbn in *. by subst.
Qed.

(** ** cat *)

Section cat.
  Context (fd : Z) (d1 : desc) (Hne : fd <> 1).

Lemma cat_runs rs : forall d w,
  fd_at (fds w) fd = Some d -> d_reads d = rs -> d_err d = false -> Forall piece rs -> fd_at (fds w) 1 = Some d1 ->
  runs (Cat.cat fd) w (Returned tt (more (Wrote (d_obj d1) <$> rs) (with_reads fd d [] w))).
Proof.
  induction rs as [|c rs IH]; intros d w H Hr He Hp H1; unfold Cat.cat.
  - eapply runs_iter; [eapply runs_seq; [by apply (runs_read_end fd _ w d)|apply runs_ret]|]. apply then_returned. by rewrite more_nil.
  - apply Forall_cons in Hp as [Hc Hp]. assert (H1' : fd_at (fds (with_reads fd d rs w)) 1 = Some d1) by (by apply (eq_trans (fd_at_put_other _ _ _ _ Hne))).
    eapply runs_iter.
    + eapply runs_seq; [by apply (runs_read_piece fd w d c rs)|]. destruct c as [|a c]; [by destruct Hc as [Hc%Nat.lt_irrefl _]|].
      eapply runs_seq; [by apply (runs_write 1 (a :: c) _ d1)|]. apply runs_ret.
    + apply then_returned. eapply runs_to; [apply (IH (MkDesc (d_obj d) rs (d_err d))); try done|].
      * exact (fd_at_put_same _ _ _ _ H).
      * rewrite with_reads_more, with_reads_again, more_more. done.
Qed.

End cat.

(** ** Opening and closing *)

Lemma lowest_free l i : lowest l = Some i -> l !! i = Some None.
Proof.
  revert i. induction l as [|[d|] l IH]; intros i H; [done| |by injection H as <-]. cbn in H. destruct (lowest l) as [j|] eqn:E; [|done].
  injection H as <-. by apply IH.
Qed.

Lemma fd_at_nat l i d : l !! i = Some (Some d) -> fd_at l (Z.of_nat i) = Some d.
Proof. intros H. unfold fd_at. rewrite (proj2 (Z.ltb_ge _ _)) by lia. by rewrite Nat2Z.id, H. Qed.

Definition opened (i : nat) (d : desc) (w : world) : world := set_fds (<[i := Some d]> (fds w)) w.

Lemma runs_open a mode w f i :
  open_file (sys w) (effects w) a mode = Some f -> lowest (fds w) = Some i ->
  runs (call (SOpen a mode)) w (Returned (Z.of_nat i) (opened i (MkDesc (File a mode) (uf_reads f) (uf_err f)) w)).
Proof. intros Hf Hl. pose proof (runs_call (SOpen a mode) w) as R. cbn [answer] in R. unfold new_fd in R. rewrite Hf, Hl in R. exact R. Qed.

Lemma opened_at i d w : lowest (fds w) = Some i -> fd_at (fds (opened i d w)) (Z.of_nat i) = Some d.
Proof. intros H%lowest_free. apply fd_at_nat. apply list_lookup_insert_eq. by eapply lookup_lt_Some. Qed.

Lemma opened_other i d w j e : lowest (fds w) = Some i -> fd_at (fds w) j = Some e -> fd_at (fds (opened i d w)) j = Some e /\ Z.of_nat i <> j.
Proof.
  intros Hl%lowest_free [H0 Hj]%fd_at_Some. assert (i <> Z.to_nat j) by (intros ->; congruence). split; [|lia].
  unfold fd_at. rewrite (proj2 (Z.ltb_ge _ _)) by done. cbn. by rewrite list_lookup_insert_ne, Hj by done.
Qed.

(** Closing what [open] gave gives back the descriptors. *)
Lemma runs_close_opened w i d w' x :
  lowest (fds w) = Some i -> fds w' = put_fd (Z.of_nat i) (Some x) (fds (opened i d w)) ->
  runs (call (SClose (Z.of_nat i))) w' (Returned 0 (set_fds (fds w) w')).
Proof.
  intros Hl E. pose proof (runs_call (SClose (Z.of_nat i)) w') as R. cbn [answer] in R. rewrite E in R.
  rewrite (fd_at_put_same _ _ d) in R by (by apply opened_at). eapply runs_to; [exact R|]. f_equal. f_equal. rewrite put_put.
  unfold put_fd. rewrite (proj2 (Z.ltb_ge _ _)), Nat2Z.id by lia. cbn. rewrite list_insert_insert_eq. f_equal. apply list_insert_id. by apply lowest_free.
Qed.

(** A file that can be read to its end. *)
Definition readable (sy : system) (a : list Z) (rs : list (list Z)) : Prop :=
  Forall piece rs /\ exists st, forall es, open_file sy es a 0 = Some (MkUfile st rs false).

Lemma cat_main_loop_runs d1 i args : forall rss w,
  Forall2 (readable (sys w)) args rss -> fd_at (fds w) 1 = Some d1 -> lowest (fds w) = Some i ->
  runs (Cat.main_loop args) w (Exited (more (Wrote (d_obj d1) <$> concat rss) w)).
Proof.
  induction args as [|a args IH]; intros rss w Hr H1 Hl; inversion Hr as [|? rs ? rss' [Hp [st Ho]] Hr']; subst; cbn [Cat.main_loop].
  { rewrite more_nil. apply runs_exit. }
  eapply runs_seq; [by apply runs_open; [apply Ho|]|]. rewrite (proj2 (Z.ltb_ge _ _)) by lia. cbn [uf_reads uf_err].
  destruct (opened_other i (MkDesc (File a 0) rs false) w 1 d1 Hl H1) as [H1' Hne].
  eapply runs_seq; [by apply (cat_runs _ d1 Hne rs (MkDesc (File a 0) rs false)); [apply opened_at|..]|].
  eapply runs_seq; [by eapply runs_close_opened|]. cbn [concat]. rewrite fmap_app, <- more_more.
  apply (IH rss' (more (Wrote (d_obj d1) <$> rs) w)); [done|done|done].
Qed.

Lemma written_wrote o rs : written o (Wrote o <$> rs) = concat rs.
Proof. induction rs as [|r rs IH]; [done|]. cbn. rewrite bool_decide_eq_true_2 by done. by rewrite IH. Qed.

(** Cat with file arguments writes the contents of the files to its standard
    output, one after the other, and exits with the descriptors it had, however
    the reads cut the contents in pieces. *)
Theorem cat_concatenates name args rss w d1 :
  args <> [] -> Forall2 (readable (sys w)) args rss -> fd_at (fds w) 1 = Some d1 -> lowest (fds w) <> None ->
  exists w', runs (Cat.main (name :: args)) w (Exited w') /\ fds w' = fds w /\
    written (d_obj d1) (effects w') = written (d_obj d1) (effects w) ++ concat (concat rss).
Proof.
  intros Hne Hr H1 Hl. destruct (lowest (fds w)) as [i|] eqn:E; [|done]. eexists. split.
  - unfold Cat.main. destruct args; [done|]. by eapply cat_main_loop_runs.
  - split; [done|]. cbn. by rewrite written_app, written_wrote.
Qed.

(** A system with the files of a list, three descriptors on the console, and
    room for more. *)
Definition sample_system (files : list (list Z * list (list Z))) : system :=
  {| open_file := fun _ a _ => (fun p => MkUfile (MkUstat 2 5 0) p.2 false) <$> List.find (fun p => bool_decide (p.1 = a)) files;
     can_exec := fun _ => true; can_mknod := fun _ => true; unlink_ok := fun _ => true; link_ok := fun _ _ => true;
     mkdir_ok := fun _ => true; chdir_ok := fun _ => true; kill_ok := fun _ => true; fork_pid := fun _ => 7; wait_pid := fun _ => 7 |}.

Definition console : desc := MkDesc (File (chars "console") 2) [] false.

Definition sample_world (files : list (list Z * list (list Z))) : world :=
  MkWorld (sample_system files) (replicate 3 (Some console) ++ replicate 13 None) [] [].

Lemma cat_concatenates_witness :
  exists w', runs (Cat.main [chars "cat"; chars "a"; chars "b"]) (sample_world [(chars "a", [chars "xy"; chars "z"]); (chars "b", [chars "w"])]) (Exited w') /\
    written (d_obj console) (effects w') = chars "xyzw".
Proof.
  destruct (cat_concatenates (chars "cat") [chars "a"; chars "b"] [[chars "xy"; chars "z"]; [chars "w"]]
    (sample_world [(chars "a", [chars "xy"; chars "z"]); (chars "b", [chars "w"])]) console) as (w' & Hr & _ & Hw).
  - done.
  - repeat constructor; cbn; try lia; by exists (MkUstat 2 5 0).
  - done.
  - done.
  - exists w'. exact (conj Hr Hw).
Defined.

(** ** wc *)

Definition is_space (c : Z) : bool := existsb (Z.eqb c) Wc.spaces.

(** The words of a text: its longest parts without space. *)
Fixpoint split_words (text : list Z) : list (list Z) :=
  match text with
  | [] => []
  | c :: t =>
    if is_space c then split_words t
    else
      match split_words t with
      | [] => [[c]]
      | v :: vs => match t with d :: _ => if is_space d then [c] :: v :: vs else (c :: v) :: vs | [] => [[c]] end
      end
  end.

Fixpoint count_newlines (text : list Z) : Z :=
  match text with
  | [] => 0
  | c :: t => (if c =? 10 then 1 else 0) + count_newlines t
  end.

(** The words that start in the text, which follows a word or not. *)
Fixpoint word_starts (inword : bool) (text : list Z) : Z :=
  match text with
  | [] => 0
  | c :: t => if is_space c then word_starts false t else (if inword then 0 else 1) + word_starts true t
  end.

Lemma word_starts_true c t : is_space c = false -> word_starts true (c :: t) = word_starts false (c :: t) - 1.
Proof. intros H. cbn [word_starts]. rewrite H. lia. Qed.

Lemma split_words_cons c t : is_space c = false -> split_words (c :: t) <> [].
Proof. intros H. cbn [split_words]. rewrite H. destruct (split_words t); [done|]. destruct t as [|d t]; [done|]. by destruct (is_space d). Qed.

Lemma word_starts_split text : word_starts false text = Z.of_nat (length (split_words text)).
Proof.
  induction text as [|c t IH]; [done|]. cbn [word_starts split_words]. destruct (is_space c) eqn:Ec; [done|].
  destruct t as [|d t]; [done|]. destruct (is_space d) eqn:Ed.
  - replace (word_starts true (d :: t)) with (word_starts false (d :: t)) by (cbn [word_starts]; by rewrite Ed). rewrite IH.
    destruct (split_words (d :: t)); cbn [length]; lia.
  - rewrite word_starts_true, IH by done. pose proof (split_words_cons d t Ed). destruct (split_words (d :: t)); [done|]. cbn [length]. lia.
Qed.

Lemma strchr_space c : match Grep.strchr Wc.spaces c with Some _ => true | None => false end = is_space c.
Proof.
  unfold is_space, Wc.spaces. cbn [Grep.strchr existsb]. rewrite !(Z.eqb_sym c).
  do 5 match goal with |- context [?n =? c] => change (n =? 0) with false; destruct (n =? c); [done|] end. done.
Qed.

(** Counting one text after another. *)
Lemma count_text text : forall k, 0 <= Wc.n_l k -> 0 <= Wc.n_w k -> 0 <= Wc.n_c k ->
  Wc.n_l k + Z.of_nat (length text) < 2^31 -> Wc.n_w k + Z.of_nat (length text) < 2^31 -> Wc.n_c k + Z.of_nat (length text) < 2^31 ->
  exists b, foldl Wc.count_char k text =
    Wc.MkCounts (Wc.n_l k + count_newlines text) (Wc.n_w k + word_starts (Wc.inword k) text) (Wc.n_c k + Z.of_nat (length text)) b.
Proof.
  induction text as [|c text IH]; intros [l w n b] Hl Hw Hc Bl Bw Bc; cbn [Wc.n_l Wc.n_w Wc.n_c Wc.inword length] in *.
  { exists b. cbn. f_equal; lia. }
  cbn [foldl count_newlines word_starts]. unfold Wc.count_char at 2. cbn [Wc.n_l Wc.n_w Wc.n_c Wc.inword]. pose proof (strchr_space c) as Hs.
  rewrite !i32_small by lia. set (l' := if c =? 10 then l + 1 else l).
  assert (El : l' = l + (if c =? 10 then 1 else 0)) by (unfold l'; destruct (c =? 10); lia).
  assert (0 <= l' <= l + 1) by (rewrite El; destruct (c =? 10); lia).
  destruct (Grep.strchr Wc.spaces c); rewrite <- Hs; [|destruct b];
    match goal with |- context [foldl _ ?k0 text] => destruct (IH k0) as [b' E]; cbn [Wc.n_l Wc.n_w Wc.n_c Wc.inword] in *; [lia..|] end;
    exists b'; rewrite E; f_equal; lia.
Qed.

Lemma wc_loop_runs fd rs : forall d w k,
  fd_at (fds w) fd = Some d -> d_reads d = rs -> d_err d = false -> Forall piece rs ->
  runs (Wc.wc_loop fd k) w (Returned (foldl Wc.count_char k (concat rs)) (with_reads fd d [] w)).
Proof.
  induction rs as [|c rs IH]; intros d w k H Hr He Hp; unfold Wc.wc_loop.
  - eapply runs_iter; [eapply runs_seq; [by apply (runs_read_end fd _ w d)|apply runs_ret]|]. by apply then_returned.
  - apply Forall_cons in Hp as [Hc Hp]. eapply runs_iter.
    + eapply runs_seq; [by apply (runs_read_piece fd w d c rs)|]. destruct c as [|a c]; [by destruct Hc as [Hc%Nat.lt_irrefl _]|]. apply runs_ret.
    + apply then_returned. cbn [concat]. rewrite foldl_app.
      eapply runs_to; [apply (IH (MkDesc (d_obj d) rs (d_err d)) _ (foldl Wc.count_char k c)); try done|by rewrite with_reads_again].
      exact (fd_at_put_same _ _ _ _ H).
Qed.

(** Wc prints the number of newlines, of words (longest parts without space)
    and of bytes of what it reads, and the name, however the reads cut the text
    in pieces. *)
Theorem wc_counts fd name d d1 w (text := concat (d_reads d)) :
  fd <> 1 -> fd_at (fds w) fd = Some d -> d_err d = false -> Forall piece (d_reads d) -> fd_at (fds w) 1 = Some d1 ->
  Z.of_nat (length text) < 2^31 ->
  exists w', runs (Wc.wc fd name) w (Returned tt w') /\
    written (d_obj d1) (effects w') = written (d_obj d1) (effects w) ++
      printint_chars (count_newlines text) 10 true ++ [32] ++ printint_chars (Z.of_nat (length (split_words text))) 10 true ++ [32] ++
      printint_chars (Z.of_nat (length text)) 10 true ++ [32] ++ name ++ [10].
Proof.
  intros Hne H He Hp H1 Hlen. destruct (count_text text (Wc.MkCounts 0 0 0 false)) as [b Ek]; [done..|cbn; lia|cbn; lia|cbn; lia|].
  cbn [Wc.n_l Wc.n_w Wc.n_c Wc.inword] in Ek. rewrite !Z.add_0_l, word_starts_split in Ek.
  eexists. split.
  - eapply runs_seq; [by apply (wc_loop_runs fd (d_reads d) d)|]. fold text. rewrite Ek. apply (runs_printf 1 d1).
    exact (eq_trans (fd_at_put_other _ _ _ _ Hne) H1).
  - cbn [effects more]. rewrite written_app, written_typed. f_equal.
Qed.

Lemma wc_counts_witness :
  exists w', runs (Wc.wc 3 (chars "f")) (opened 3 (MkDesc (File (chars "f") 0) [chars "one t"; chars "wo  three"] false) (sample_world [])) (Returned tt w') /\
    written (d_obj console) (effects w') = chars "0 3 14 f" ++ [10].
Proof.
  destruct (wc_counts 3 (chars "f") (MkDesc (File (chars "f") 0) [chars "one t"; chars "wo  three"] false) console
    (opened 3 (MkDesc (File (chars "f") 0) [chars "one t"; chars "wo  three"] false) (sample_world []))) as (w' & Hr & Hw).
  - done.
  - done.
  - done.
  - repeat constructor; cbn; lia.
  - done.
  - done.
  - exists w'. split; [exact Hr|]. etransitivity; [exact Hw|]. by vm_compute.
Defined.

(** ** init *)

(** [n] waits, each of which moves on in the tree of processes. *)
Fixpoint waits (n : nat) {R} (o : out R) : out R :=
  match n with
  | O => o
  | S n => Awaits (waits n o)
  end.

Fixpoint after_waits (n : nat) (p : list Z) : list Z :=
  match n with
  | O => p
  | S n => after_waits n (3 :: p)
  end.

Lemma wait_loop_runs pid d1 n : forall w,
  fd_at (fds w) 1 = Some d1 -> 0 < pid -> (forall j, (j < n)%nat -> 0 <= wait_pid (sys w) (after_waits j (pos w)) /\ wait_pid (sys w) (after_waits j (pos w)) <> pid) ->
  wait_pid (sys w) (after_waits n (pos w)) = pid ->
  exists w', runs (Init.wait_loop pid) w (waits (S n) (Returned tt w')) /\ fds w' = fds w /\ sys w' = sys w.
Proof.
  induction n as [|n IH]; intros w H1 Hpid Ho Hlast; unfold Init.wait_loop.
  - exists (set_pos (3 :: pos w) w). split; [|done]. eapply runs_iter.
    + eapply runs_then; [apply runs_wait|]. apply then_awaits, then_returned. cbn [after_waits] in Hlast. rewrite Hlast, Z.eqb_refl.
      rewrite andb_false_r. apply runs_ret.
    + by apply then_awaits, then_returned.
  - destruct (Ho 0%nat) as [Hp Hne]; [lia|]. cbn [after_waits] in Hp, Hne.
    set (w1 := more (typed (d_obj d1) (format false (line "zombie!") [])) (set_pos (3 :: pos w) w)).
    destruct (IH w1) as (w' & Hr & Hf & Hs); [done|done| |done|].
    { intros j Hj. apply (Ho (S j)). lia. }
    exists w'. split; [|split; [done|done]]. eapply runs_iter.
    + eapply runs_then; [apply runs_wait|]. apply then_awaits, then_returned. rewrite (proj2 (Z.leb_le _ _)), (proj2 (Z.eqb_neq _ _)) by done.
      cbn [andb negb]. eapply runs_seq; [by apply (runs_printf 1 d1)|]. apply runs_ret.
    + apply then_awaits, then_returned. exact Hr.
Qed.

Lemma runs_dup fd d w i : fd_at (fds w) fd = Some d -> lowest (fds w) = Some i -> runs (call (SDup fd)) w (Returned (Z.of_nat i) (opened i d w)).
Proof. intros Hf Hl. pose proof (runs_call (SDup fd) w) as R. cbn [answer] in R. unfold new_fd in R. rewrite Hf, Hl in R. exact R. Qed.

Lemma setup_runs w f (d := MkDesc (File (chars "console") 2) (uf_reads f) (uf_err f)) :
  fds w = replicate 16 None -> can_mknod (sys w) (chars "console") = true ->
  (open_file (sys w) (effects w) (chars "console") 2 = Some f \/
   open_file (sys w) (effects w) (chars "console") 2 = None /\
   open_file (sys w) (effects w ++ [Made (chars "console") 1 1]) (chars "console") 2 = Some f) ->
  exists w1, runs Init.setup w (Returned tt w1) /\ fds w1 = replicate 3 (Some d) ++ replicate 13 None /\ sys w1 = sys w.
Proof.
  intros Hf Hm Hopen.
  assert (Hdup : forall w0, fds w0 = Some d :: replicate 15 None -> sys w0 = sys w ->
    exists w1, runs (call (SDup 0) ;; call (SDup 0) ;; Ret tt) w0 (Returned tt w1) /\ fds w1 = replicate 3 (Some d) ++ replicate 13 None /\ sys w1 = sys w).
  { intros w0 H0 Hs0. exists (opened 2 d (opened 1 d w0)). split; [|cbn; by rewrite H0].
    eapply runs_seq; [by apply (runs_dup 0 d _ 1); rewrite H0|]. eapply runs_seq; [by apply (runs_dup 0 d _ 2); cbn; rewrite H0|]. apply runs_ret. }
  destruct Hopen as [Ho|[Ho Ho']].
  - destruct (Hdup (opened 0 d w)) as (w1 & Hr & H1); [by cbn; rewrite Hf|done|]. exists w1. split; [|done].
    eapply runs_seq; [by apply (runs_open _ _ _ f 0); [|rewrite Hf]|]. eapply runs_seq; [apply runs_ret|]. exact Hr.
  - set (wm := more [Made (chars "console") 1 1] w). destruct (Hdup (opened 0 d wm)) as (w1 & Hr & H1); [by cbn; rewrite Hf|done|]. exists w1. split; [|done].
    assert (Hfail : runs (call (SOpen (chars "console") 2)) w (Returned (-1) w)).
    { pose proof (runs_call (SOpen (chars "console") 2) w) as R. cbn [answer] in R. rewrite Ho in R. exact R. }
    assert (Hnod : runs (call (SMknod (chars "console") 1 1)) w (Returned 0 wm)).
    { pose proof (runs_call (SMknod (chars "console") 1 1) w) as R. cbn [answer] in R. rewrite Hm in R. exact R. }
    eapply runs_seq; [exact Hfail|]. change (-1 <? 0) with true. eapply runs_seq; [|exact Hr].
    eapply runs_seq; [exact Hnod|]. eapply runs_seq; [by apply (runs_open _ _ wm f 0); [|cbn; rewrite Hf]|]. apply runs_ret.
Qed.

(** C40: init opens the console, after making its node if it is missing, as
    descriptors 0, 1 and 2, and each turn of its loop starts a shell with these
    descriptors and goes on, after any number of orphans, when the shell ends. *)
Theorem init_starts_shells w f :
  fds w = replicate 16 None -> can_mknod (sys w) (chars "console") = true -> can_exec (sys w) (chars "sh") = true ->
  (open_file (sys w) (effects w) (chars "console") 2 = Some f \/
   open_file (sys w) (effects w) (chars "console") 2 = None /\
   open_file (sys w) (effects w ++ [Made (chars "console") 1 1]) (chars "console") 2 = Some f) ->
  (forall p, 0 < fork_pid (sys w) p) ->
  exists w1, runs Init.setup w (Returned tt w1) /\
    fds w1 = replicate 3 (Some (MkDesc (File (chars "console") 2) (uf_reads f) (uf_err f))) ++ replicate 13 None /\ sys w1 = sys w /\
    forall w2 n, fds w2 = fds w1 -> sys w2 = sys w ->
      (forall j, (j < n)%nat -> 0 <= wait_pid (sys w) (after_waits j (2 :: pos w2)) /\ wait_pid (sys w) (after_waits j (2 :: pos w2)) <> fork_pid (sys w) (pos w2)) ->
      wait_pid (sys w) (after_waits n (2 :: pos w2)) = fork_pid (sys w) (pos w2) ->
      exists ws w3, runs Init.turn w2 (Forked (Execd (chars "sh") [chars "sh"] ws) (waits (S n) (Returned tt w3))) /\
        fds ws = fds w1 /\ fds w3 = fds w1 /\ sys w3 = sys w.
Proof.
  intros Hf Hm Hx Hopen Hpid. set (d := MkDesc (File (chars "console") 2) (uf_reads f) (uf_err f)).
  destruct (setup_runs w f Hf Hm Hopen) as (w1 & Hr & Hf1 & Hs1). fold d in Hf1. exists w1. split; [done|]. split; [done|]. split; [done|].
  intros w2 n Hf2 Hs2 Ho Hl. assert (H1 : fd_at (fds w2) 1 = Some d) by (by rewrite Hf2, Hf1).
  set (wp := more (typed (d_obj d) (format false (line "init: starting sh") [])) w2).
  destruct (wait_loop_runs (fork_pid (sys w) (pos w2)) d n (set_pos (2 :: pos wp) wp)) as (w3 & Hw3 & Hfd3 & Hsy3); [done|done|by rewrite <- Hs2 in *|by rewrite <- Hs2 in *|].
  exists (set_pos (1 :: pos wp) wp), w3. split; [|by rewrite Hfd3, Hsy3].
  eapply runs_seq; [by apply (runs_printf 1 d)|]. fold wp. eapply runs_then; [apply runs_fork; change (sys wp) with (sys w2); rewrite Hs2; specialize (Hpid (pos wp)); lia|]. apply then_forked; apply then_returned.
  - change (0 <? 0) with false. change (0 =? 0) with true. eapply runs_then.
    + eapply runs_then; [apply runs_exec|]. change (sys (set_pos (1 :: pos wp) wp)) with (sys w2). rewrite Hs2, Hx. apply then_execd.
    + apply then_execd.
  - change (sys wp) with (sys w2). change (pos wp) with (pos w2). pose proof (Hpid (pos w2)) as Hp. rewrite Hs2 in *.
    rewrite (proj2 (Z.ltb_ge _ _)), (proj2 (Z.eqb_neq _ _)) by lia. eapply runs_seq; [apply runs_ret|]. exact Hw3.
Qed.

Lemma init_starts_shells_witness :
  exists w1 ws w3, runs Init.setup (set_fds (replicate 16 None) (sample_world [(chars "console", [])])) (Returned tt w1) /\
    runs Init.turn w1 (Forked (Execd (chars "sh") [chars "sh"] ws) (Awaits (Returned tt w3))) /\ fds ws = fds w3.
Proof.
  destruct (init_starts_shells (set_fds (replicate 16 None) (sample_world [(chars "console", [])])) (MkUfile (MkUstat 2 5 0) [] false))
    as (w1 & Hr & _ & Hs & Ht).
  - reflexivity.
  - reflexivity.
  - reflexivity.
  - left. reflexivity.
  - intros p. reflexivity.
  - destruct (Ht w1 0%nat) as (ws & w3 & Hr3 & E1 & E3 & _).
    + reflexivity.
    + exact Hs.
    + intros j Hj. lia.
    + reflexivity.
    + exists w1, ws, w3. split; [exact Hr|]. split; [exact Hr3|]. congruence.
Defined.

(** ** echo *)

(** The arguments with blanks between them and a newline at the end. *)
Fixpoint echo_text (args : list (list Z)) : list Z :=
  match args with
  | [] => []
  | [a] => a ++ [10]
  | a :: args => a ++ [32] ++ echo_text args
  end.

Lemma echo_runs d1 args : forall w, fd_at (fds w) 1 = Some d1 ->
  runs (Small.echo_loop args) w (Exited (more (typed (d_obj d1) (echo_text args)) w)).
Proof.
  induction args as [|a args IH]; intros w H1; cbn [Small.echo_loop]; [rewrite more_nil; apply runs_exit|].
  eapply runs_seq; [by apply (runs_printf 1 d1)|]. eapply runs_to; [by apply IH|]. rewrite more_more, <- typed_app. do 3 f_equal.
  assert (Ef : forall s, format false (chars "%s%s") [str a; str s] = a ++ s) by (intros s; change (a ++ s ++ [] = a ++ s); by rewrite app_nil_r).
  rewrite Ef. destruct args; [apply app_nil_r|]. by rewrite <- app_assoc.
Qed.

(** Echo prints its arguments with one blank between them and a newline at
    the end, and nothing without arguments. *)
Theorem echo_prints name args w d1 :
  fd_at (fds w) 1 = Some d1 ->
  exists w', runs (Small.echo (name :: args)) w (Exited w') /\ written (d_obj d1) (effects w') = written (d_obj d1) (effects w) ++ echo_text args.
Proof.
  intros H1. exists (more (typed (d_obj d1) (echo_text args)) w). split; [by apply (echo_runs d1)|].
  cbn [effects more]. by rewrite written_app, written_typed.
Qed.

Lemma echo_prints_witness :
  exists w', runs (Small.echo [chars "echo"; chars "a"; chars "bc"]) (sample_world []) (Exited w') /\ written (d_obj console) (effects w') = line "a bc".
Proof.
  destruct (echo_prints (chars "echo") [chars "a"; chars "bc"] (sample_world []) console) as (w' & Hr & Hw); [reflexivity|].
  exists w'. exact (conj Hr Hw).
Defined.

(** ** memmove, strcpy and memset of ulib.c *)

(** The copy is right when it does not run into its source from below. *)
Lemma memmove_loop_copies n : forall dst src m, dst <= src \/ src + Z.of_nat n <= dst ->
  forall a, memmove_loop n dst src m a = if (dst <=? a) && (a <? dst + Z.of_nat n) then m (src + (a - dst)) else m a.
Proof.
  induction n as [|n IH]; intros dst src m H a; cbn [memmove_loop].
  - destruct (Z.leb_spec dst a), (Z.ltb_spec a (dst + Z.of_nat 0)); cbn; try done; lia.
  - rewrite IH by lia. replace (src + 1 + (a - (dst + 1))) with (src + (a - dst)) by lia.
    destruct (Z.leb_spec (dst + 1) a), (Z.ltb_spec a (dst + 1 + Z.of_nat n)), (Z.leb_spec dst a), (Z.ltb_spec a (dst + Z.of_nat (S n))),
      (Z.eqb_spec a dst), (Z.eqb_spec (src + (a - dst)) dst); cbn; try done; try lia; f_equal; lia.
Qed.

(** [strcpy] copies the string with its NUL. *)
Lemma strcpy_copies k : forall n s t m,
  (forall i, 0 <= i < Z.of_nat k -> m (t + i) <> 0) -> m (t + Z.of_nat k) = 0 -> (k < n)%nat -> s <= t \/ t + Z.of_nat k < s ->
  exists m', strcpy n s t m = Some m' /\
    forall a, m' a = if (s <=? a) && (a <=? s + Z.of_nat k) then m (t + (a - s)) else m a.
Proof.
  induction k as [|k IH]; intros n s t m Hne Hz Hn Ho; (destruct n as [|n]; [lia|]); cbn [strcpy]; rewrite Z.eqb_refl.
  - replace (t + Z.of_nat 0) with t in Hz by lia. rewrite Hz. eexists. split; [done|]. intros a. cbn beta.
    destruct (Z.eqb_spec a s) as [->|].
    + rewrite (proj2 (Z.leb_le s s)), (proj2 (Z.leb_le s (s + _))) by lia. cbn. by replace (t + (s - s)) with t by lia.
    + by destruct (Z.leb_spec s a), (Z.leb_spec a (s + Z.of_nat 0)); cbn; try lia.
  - assert (m t <> 0) as H0 by (specialize (Hne 0); rewrite Z.add_0_r in Hne; apply Hne; lia). rewrite (proj2 (Z.eqb_neq _ _) H0).
    assert (Hk : forall i, 0 <= i <= Z.of_nat k -> (t + 1 + i =? s) = false) by (intros i Hi; apply Z.eqb_neq; lia).
    destruct (IH n (s + 1) (t + 1) (fun a => if a =? s then m t else m a)) as (m' & E & Hm').
    + intros i Hi. rewrite Hk by lia. replace (t + 1 + i) with (t + (i + 1)) by lia. apply Hne. lia.
    + rewrite Hk by lia. by replace (t + 1 + Z.of_nat k) with (t + Z.of_nat (S k)) by lia.
    + lia.
    + lia.
    + exists m'. split; [exact E|]. intros a. rewrite Hm'.
      destruct (Z.leb_spec (s + 1) a), (Z.leb_spec a (s + 1 + Z.of_nat k)); cbn [andb].
      * rewrite (proj2 (Z.leb_le s a)), (proj2 (Z.leb_le a (s + Z.of_nat (S k)))) by lia. replace (t + 1 + (a - (s + 1))) with (t + (a - s)) by lia.
        cbn [andb]. rewrite (proj2 (Z.eqb_neq _ _)) by lia. done.
      * rewrite (proj2 (Z.leb_gt a (s + Z.of_nat (S k)))), andb_false_r, (proj2 (Z.eqb_neq a s)) by lia. done.
      * destruct (Z.eqb_spec a s) as [->|]; [|by rewrite (proj2 (Z.leb_gt s a)) by lia].
        rewrite (proj2 (Z.leb_le s s)), (proj2 (Z.leb_le s (s + _))) by lia. cbn. by replace (t + (s - s)) with t by lia.
      * lia.
Qed.

Lemma memset_loop_sets n : forall dst c m a,
  memset_loop n dst c m a = if (dst <=? a) && (a <? dst + Z.of_nat n) then c mod 256 else m a.
Proof.
  induction n as [|n IH]; intros dst c m a; cbn [memset_loop].
  - by destruct (Z.leb_spec dst a), (Z.ltb_spec a (dst + Z.of_nat 0)); cbn; try lia.
  - rewrite IH. by destruct (Z.leb_spec (dst + 1) a), (Z.ltb_spec a (dst + 1 + Z.of_nat n)), (Z.eqb_spec a dst), (Z.leb_spec dst a),
      (Z.ltb_spec a (dst + Z.of_nat (S n))); cbn; try lia.
Qed.

(** From below it does not keep the source: the second byte of two is lost. *)
Lemma memmove_overlap : Ulib.memmove 1 0 2 (fun a => a) 2 = 0.
Proof. reflexivity. Qed.
