(* ===== verification/GrepRun.v ===== *)
(** * Running grep (grep.c)

    The loop of grep.c over the system calls of a user program: the reads into the
    buffer of 1024 bytes, a write for each line that matches, and [main] with its
    arguments.  The NUL that is put after the bytes read is modelled with its place:
    outside of the buffer C gives it no meaning.  The matcher and the loop over the
    lines of the buffer are in Grep. *)

From ITree Require Import ITree.
From S2P Require Import Prelude User Grep Uprogs UprogsThm.
Import Ulib Printf.

Module GrepRun.

(** [char buf[1024];] *)
Definition BUFSZ : Z := 1024.

(** A store outside of an array has no meaning: no run of the program ends. *)
Definition undefined {R} : prog R := ITree.spin.

(** [while((q = strchr(p, '\n')) != 0)]: a write for each line that matches; the
    result is the text from the last [p] on. *)
Fixpoint write_lines (fuel : nat) (pattern p : list Z) : prog (list Z) :=
  match fuel with
  | O => Ret p
  | S fuel =>
    match Grep.strchr p CH_NL with
    | None => Ret p
    | Some k =>
      (if Grep.match_ pattern (take k p) then call (SWrite 1 (take (S k) p)) ;; Ret tt else Ret tt) ;;
      write_lines fuel pattern (drop (S k) p)
    end
  end.

(** One iteration of [while((n = read(fd, buf+m, sizeof(buf)-m-1)) > 0)], where
    [buf] is the first [m] bytes of the buffer; [buf[m] = 0] has to be inside. *)
Definition grep_step (pattern : list Z) (fd : Z) (buf : list Z) : prog (list Z + unit) :=
  let* r := call (SRead fd (BUFSZ - Z.of_nat (length buf) - 1)) in
  match r with
  | None | Some [] => Ret (inr tt)
  | Some bs =>
    let buf := buf ++ bs in
    if BUFSZ <=? Z.of_nat (length buf) then undefined
    else
      let* p := write_lines (length buf) pattern buf in
      Ret (inl (if (length p =? length buf)%nat then [] else p))
  end.

Definition grep (pattern : list Z) (fd : Z) : prog unit := ITree.iter (grep_step pattern fd) [].

Fixpoint main_loop (pattern : list Z) (args : list (list Z)) : prog unit :=
  match args with
  | [] => exit_
  | a :: args =>
    let* fd := call (SOpen a 0) in
    if fd <? 0 then printf 1 (line "grep: cannot open %s") [str a] ;; exit_
    else grep pattern fd ;; call (SClose fd) ;; main_loop pattern args
  end.

Definition main (argv : list (list Z)) : prog unit :=
  match argv with
  | [] | [_] => printf 2 (line "usage: grep pattern [file ...]") [] ;; exit_
  | [_; pattern] => grep pattern 0 ;; exit_
  | _ :: pattern :: args => main_loop pattern args
  end.

End GrepRun.

Module GrepRunFacts.
Import GrepRun GrepFacts.

(** ** The lines of the buffer *)

(** What the loop over the buffer writes, one write for each line that matches. *)
Fixpoint line_writes (fuel : nat) (pattern p : list Z) : list (list Z) :=
  match fuel with
  | O => []
  | S fuel =>
    match Grep.strchr p CH_NL with
    | None => []
    | Some k => (if Grep.match_ pattern (take k p) then [take (S k) p] else []) ++ line_writes fuel pattern (drop (S k) p)
    end
  end.

Lemma line_writes_out fuel pattern : forall p, concat (line_writes fuel pattern p) = (Grep.grep_lines fuel pattern p).1.
Proof.
  induction fuel as [|fuel IH]; intros p; cbn; [done|]. destruct (Grep.strchr p CH_NL) as [k|]; [|done].
  specialize (IH (drop (S k) p)). destruct (Grep.grep_lines fuel pattern (drop (S k) p)) as [out rest]. cbn in *.
  rewrite concat_app, IH. by destruct (Grep.match_ _ _); cbn; rewrite ?app_nil_r.
Qed.

Lemma write_lines_runs fuel pattern d1 : forall p w, fd_at (fds w) 1 = Some d1 ->
  runs (write_lines fuel pattern p) w (Returned (Grep.grep_lines fuel pattern p).2 (more (Wrote (d_obj d1) <$> line_writes fuel pattern p) w)).
Proof.
  induction fuel as [|fuel IH]; intros p w H1; cbn; [rewrite more_nil; apply runs_ret|].
  destruct (Grep.strchr p CH_NL) as [k|]; [|rewrite more_nil; apply runs_ret].
  specialize (IH (drop (S k) p)). destruct (Grep.grep_lines fuel pattern (drop (S k) p)) as [out rest]. cbn [snd] in *.
  destruct (Grep.match_ _ _); cbn [app].
  - eapply runs_seq; [eapply runs_seq; [by apply runs_write|apply runs_ret]|]. eapply runs_to; [by apply IH|]. by rewrite more_more.
  - eapply runs_seq; [apply runs_ret|]. by apply IH.
Qed.

(** ** Reads *)

(** What a read of at most [n] bytes takes of the pieces [c :: rs], and what is
    left. *)
Definition chunk (n : Z) (c : list Z) : list Z := if Z.of_nat (length c) <=? n then c else take (Z.to_nat n) c.
Definition left_over (n : Z) (c : list Z) (rs : list (list Z)) : list (list Z) :=
  if Z.of_nat (length c) <=? n then rs else drop (Z.to_nat n) c :: rs.

Lemma runs_read_chunk fd n w d c rs :
  fd_at (fds w) fd = Some d -> d_reads d = c :: rs -> runs (call (SRead fd n)) w (Returned (Some (chunk n c)) (with_reads fd d (left_over n c rs) w)).
Proof.
  intros H Hr. pose proof (runs_call (SRead fd n) w) as R. cbn [answer] in R. rewrite H in R. unfold read_from in R. rewrite Hr in R.
  unfold chunk, left_over. destruct (_ <=? n); exact R.
Qed.

Lemma chunk_left n c rs : chunk n c ++ concat (left_over n c rs) = c ++ concat rs.
Proof. unfold chunk, left_over. destruct (_ <=? n); [done|]. cbn [concat]. by rewrite app_assoc, take_drop. Qed.

(** The pieces a file is read in: none is empty or has a NUL, and a read stops short
    of what was asked for only after a newline or at the end.  A file on the disk is
    a single piece; a line of the console is a piece. *)
Fixpoint pieces_ok (rs : list (list Z)) : Prop :=
  match rs with
  | [] => True
  | c :: rs => c <> [] /\ (0 ∉ c) /\ (rs = [] \/ last c = Some CH_NL) /\ pieces_ok rs
  end.

Lemma last_char_in (c : list Z) x : last c = Some x -> x ∈ c.
Proof. intros (l & ->)%last_Some. rewrite elem_of_app. right. left. Qed.

Lemma last_rest n (c : list Z) : (n < length c)%nat -> last (drop n c) = last c.
Proof.
  intros Hn. rewrite <- (take_drop n c) at 2. rewrite last_app. destruct (last (drop n c)) eqn:E; [done|].
  apply last_None in E. apply (f_equal length) in E. rewrite length_drop in E. cbn in E. lia.
Qed.

Lemma left_over_ok n c rs : 0 <= n -> pieces_ok (c :: rs) -> pieces_ok (left_over n c rs).
Proof.
  intros Hn (Hc & H0 & Hl & Hrs). unfold left_over. destruct (Z.leb_spec (Z.of_nat (length c)) n); [done|]. cbn.
  assert (Z.to_nat n < length c)%nat as Hlt by lia. split_and!; [| | |done].
  - intros E%(f_equal length). rewrite length_drop in E. cbn in E. lia.
  - intros Hin. apply H0. rewrite <- (take_drop (Z.to_nat n) c), elem_of_app. by right.
  - by rewrite last_rest.
Qed.

Lemma chunk_ok n c rs : 0 < n -> pieces_ok (c :: rs) -> chunk n c <> [] /\ (0 ∉ chunk n c) /\ Z.of_nat (length (chunk n c)) <= n /\
  (CH_NL ∈ chunk n c \/ left_over n c rs = [] \/ Z.of_nat (length (chunk n c)) = n).
Proof.
  intros Hn (Hc & H0 & Hl & _). unfold chunk, left_over. destruct (Z.leb_spec (Z.of_nat (length c)) n).
  - split_and!; [done|done|done|]. destruct Hl as [->|Hl]; [by right; left|]. left. by apply last_char_in.
  - assert (length (take (Z.to_nat n) c) = Z.to_nat n) as E by (rewrite length_take; lia). split_and!; [| |lia|right; right; lia].
    + intros E'. rewrite E' in E. cbn in E. lia.
    + intros Hin. apply H0. rewrite <- (take_drop (Z.to_nat n) c), elem_of_app. by left.
Qed.

(** ** Lines in the buffer *)

(** The longest line that fits in the buffer with its newline and the NUL. *)
Definition fits (l : list Z) : Prop := Z.of_nat (length l) <= BUFSZ - 2.

Lemma has_lines_none text ls rest : has_lines text ls rest -> CH_NL ∉ text -> ls = [].
Proof.
  intros (-> & _) H. destruct ls as [|l ls]; [done|]. exfalso. apply H. cbn. rewrite !elem_of_app, elem_of_cons. auto.
Qed.

(** A full buffer without a newline is the start of a line that does not fit. *)
Lemma full_no_lines r text ls rest :
  CH_NL ∉ r -> Z.of_nat (length r) = BUFSZ - 1 -> has_lines (r ++ text) ls rest -> Forall fits ls -> ls = [].
Proof.
  intros Hr Hl (E & Hls & _) Hf. destruct ls as [|l ls]; [done|]. exfalso. apply Forall_cons in Hf as [Hf _]. unfold fits in Hf.
  cbn in E. rewrite <- app_assoc in E. apply app_eq_inv in E as [(k & -> & E)|(k & -> & E)]; [|rewrite length_app in Hf; lia].
  destruct k as [|x k]; [rewrite app_nil_r in Hl; lia|].
  cbn in E. injection E as <- _. apply Hr. rewrite elem_of_app, elem_of_cons. auto.
Qed.

(** ** The loop *)

(** What is kept of the buffer: the start of a line, shorter than the buffer was. *)
Lemma kept_start pattern buf ls r :
  0 ∉ buf -> has_lines buf ls r -> (Grep.grep_lines (length buf) pattern buf) = (unlines (filter (fun l => Grep.match_ pattern l = true) ls), r) /\
    (0 ∉ r) /\ (length r <= length buf)%nat /\ (length r = length buf <-> ls = []).
Proof.
  intros H0 (E & Hls & Hr). pose proof (unlines_length ls) as Hu. split_and!.
  - rewrite E. apply grep_lines_spec; [done|done|by rewrite <- E|rewrite length_app; lia].
  - intros Hin. apply H0. rewrite E, elem_of_app. auto.
  - rewrite E, length_app. lia.
  - rewrite E, length_app. split; [|by intros ->]. destruct ls as [|l ls]; [done|]. cbn [length] in Hu. lia.
Qed.

Section grep.
  Context (pattern : list Z) (fd : Z) (d1 : desc) (Hne : fd <> 1).

Definition matching (ls : list (list Z)) : list Z := unlines (filter (fun l => Grep.match_ pattern l = true) ls).

Lemma matching_app l1 l2 : matching (l1 ++ l2) = matching l1 ++ matching l2.
Proof. unfold matching. by rewrite filter_app, unlines_app. Qed.

(** The lines that are left after a read: those of what is kept and of what is still
    to be read. *)
Lemma next_lines n buf c rs ls rest ls1 r1 :
  0 < n -> n = BUFSZ - Z.of_nat (length buf) - 1 -> pieces_ok (c :: rs) ->
  has_lines (buf ++ concat (c :: rs)) ls rest -> Forall fits ls -> has_lines (buf ++ chunk n c) ls1 r1 ->
  exists ls2 rest2, ls = ls1 ++ ls2 /\ Forall fits ls2 /\
    has_lines ((if decide (ls1 = []) then [] else r1) ++ concat (left_over n c rs)) ls2 rest2.
Proof.
  intros Hn En Hp Hls Hf H1. cbn [concat] in Hls. rewrite <- (chunk_left n), app_assoc in Hls.
  destruct (has_lines_more _ _ _ _ _ _ H1 Hls) as (ls2 & -> & H2). apply Forall_app in Hf as [_ Hf2].
  case_decide as E; [|by exists ls2, rest]. subst ls1. exists ls2. cbn [app].
  destruct H1 as (Eb & _ & Hr1). cbn in Eb. subst r1. destruct (chunk_ok n c rs Hn Hp) as (_ & _ & Hl & Hc).
  assert (ls2 = []) as ->.
  { destruct Hc as [Hc|[Hc|Hc]].
    - exfalso. apply Hr1, elem_of_app. by right.
    - rewrite Hc, app_nil_r in H2. by eapply has_lines_none.
    - eapply full_no_lines; [exact Hr1| |exact H2|done]. rewrite length_app, Nat2Z.inj_add. lia. }
  exists (concat (left_over n c rs)). split_and!; [done|done|]. destruct H2 as (E2 & _ & Hr). split_and!; [done|done|].
  cbn in E2. rewrite <- E2, elem_of_app in Hr. tauto.
Qed.

Lemma grep_runs n : forall rs buf ls rest d w,
  (length (concat rs) <= n)%nat -> pieces_ok rs -> CH_NL ∉ buf -> 0 ∉ buf -> Z.of_nat (length buf) <= BUFSZ - 2 ->
  has_lines (buf ++ concat rs) ls rest -> Forall fits ls ->
  fd_at (fds w) fd = Some d -> d_reads d = rs -> d_err d = false -> fd_at (fds w) 1 = Some d1 ->
  exists ws, concat ws = matching ls /\
    runs (ITree.iter (grep_step pattern fd) buf) w (Returned tt (more (Wrote (d_obj d1) <$> ws) (with_reads fd d [] w))).
Proof.
  induction n as [|n IH]; intros rs buf ls rest d w Hlen Hp Hb H0 Hm Hls Hf H Hr He H1.
  all: destruct rs as [|c rs].
  1,3: exists []; split; [cbn [concat] in Hls; rewrite app_nil_r in Hls; by rewrite (has_lines_none _ _ _ Hls Hb)|];
    (eapply runs_iter; [eapply runs_seq; [by apply (runs_read_end fd _ w d)|apply runs_ret]|]); apply then_returned; by rewrite more_nil.
  { exfalso. destruct Hp as (Hc & _). cbn [concat] in Hlen. rewrite length_app in Hlen. destruct c; [done|]. cbn in Hlen. lia. }
  set (k := BUFSZ - Z.of_nat (length buf) - 1). assert (0 < k) as Hk by (unfold k; lia).
  destruct (chunk_ok k c rs Hk Hp) as (Hc & Hc0 & Hcl & _).
  assert (Z.of_nat (length (chunk k c)) <= BUFSZ - Z.of_nat (length buf) - 1) as Hcl' by exact Hcl. destruct (has_lines_exists (buf ++ chunk k c)) as (ls1 & r1 & Hl1).
  destruct (next_lines k buf c rs ls rest ls1 r1 Hk eq_refl Hp Hls Hf Hl1) as (ls2 & rest2 & -> & Hf2 & Hl2).
  destruct (kept_start pattern (buf ++ chunk k c) ls1 r1) as (Eg & Hr0 & Hrl & Hiff); [rewrite elem_of_app; tauto|done|].
  set (buf' := if decide (ls1 = []) then [] else r1) in *.
  destruct (IH (left_over k c rs) buf' ls2 rest2 (MkDesc (d_obj d) (left_over k c rs) (d_err d))
    (more (Wrote (d_obj d1) <$> line_writes (length (buf ++ chunk k c)) pattern (buf ++ chunk k c)) (with_reads fd d (left_over k c rs) w)))
    as (ws & Ews & Hws); try done.
  { pose proof (chunk_left k c rs) as Ec%(f_equal length). rewrite !length_app in Ec. cbn [concat] in Hlen. rewrite length_app in Hlen.
    assert (length (chunk k c) <> 0%nat) by (by destruct (chunk k c)). lia. }
  { apply left_over_ok; [lia|done]. }
  { unfold buf'. case_decide; [apply not_elem_of_nil|]. apply Hl1. }
  { unfold buf'. case_decide; [apply not_elem_of_nil|done]. }
  { unfold buf'. case_decide as Hd; [unfold BUFSZ; cbn; lia|]. rewrite length_app in Hrl. assert (length r1 <> length (buf ++ chunk k c)) as Hx by tauto.
    rewrite length_app in Hx. lia. }
  { exact (fd_at_put_same _ _ _ _ H). }
  { exact (eq_trans (fd_at_put_other _ _ _ _ Hne) H1). }
  exists (line_writes (length (buf ++ chunk k c)) pattern (buf ++ chunk k c) ++ ws). split.
  { rewrite concat_app, line_writes_out, Eg, Ews, matching_app. done. }
  eapply runs_iter.
  - eapply runs_seq; [by apply (runs_read_chunk fd k w d c rs)|]. destruct (chunk k c) as [|a bs] eqn:Ech; [done|]. cbv beta iota zeta. rewrite <- Ech in Hcl' |- *.
    rewrite (proj2 (Z.leb_gt _ _)) by (rewrite length_app, Nat2Z.inj_add; lia).
    eapply runs_seq; [apply (write_lines_runs _ _ d1); exact (eq_trans (fd_at_put_other _ _ _ _ Hne) H1)|]. apply runs_ret.
  - apply then_returned. rewrite Eg. cbn [snd].
    replace (if (length r1 =? length (buf ++ chunk k c))%nat then [] else r1) with buf'.
    2:{ unfold buf'. case_decide as Hd; [by rewrite (proj2 (Nat.eqb_eq _ _)) by tauto|by rewrite (proj2 (Nat.eqb_neq _ _)) by tauto]. }
    eapply runs_to; [exact Hws|]. rewrite with_reads_more, with_reads_again, more_more, fmap_app. done.
Qed.

End grep.

(** ** The program *)

(** A file that can be read to its end: its complete lines, which all fit in the
    buffer. *)
Definition text_file (sy : system) (a : list Z) (ls : list (list Z)) : Prop :=
  exists rs rest st, pieces_ok rs /\ (forall es, open_file sy es a 0 = Some (MkUfile st rs false)) /\
    has_lines (concat rs) ls rest /\ Forall fits ls.

Lemma grep_main_loop_runs pattern d1 i args : forall lss w,
  Forall2 (text_file (sys w)) args lss -> fd_at (fds w) 1 = Some d1 -> lowest (fds w) = Some i ->
  exists ws, concat ws = matching pattern (concat lss) /\
    runs (main_loop pattern args) w (Exited (more (Wrote (d_obj d1) <$> ws) w)).
Proof.
  induction args as [|a args IH]; intros lss w Hr H1 Hl; inversion Hr as [|? ls ? lss' (rs & rest & st & Hp & Ho & Hls & Hf) Hr']; subst; cbn [main_loop].
  { exists []. split; [done|]. rewrite more_nil. apply runs_exit. }
  destruct (opened_other i (MkDesc (File a 0) rs false) w 1 d1 Hl H1) as [H1' Hne].
  destruct (grep_runs pattern _ d1 Hne (length (concat rs)) rs [] ls rest (MkDesc (File a 0) rs false) (opened i (MkDesc (File a 0) rs false) w))
    as (ws1 & Ews1 & Hws1); [done|done|apply not_elem_of_nil|apply not_elem_of_nil|unfold BUFSZ; cbn; lia|done|done|by apply opened_at|done|done|done|].
  destruct (IH lss' (more (Wrote (d_obj d1) <$> ws1) w)) as (ws & Ews & Hws); [done..|].
  exists (ws1 ++ ws). split; [by rewrite concat_app, Ews1, Ews, <- matching_app|].
  eapply runs_seq; [by apply runs_open; [apply Ho|]|]. rewrite (proj2 (Z.ltb_ge _ _)) by lia. cbn [uf_reads uf_err].
  eapply runs_seq; [exact Hws1|].
  eapply runs_seq; [by eapply runs_close_opened|]. eapply runs_to; [exact Hws|]. by rewrite fmap_app, more_more.
Qed.

(** C29: grep prints the lines that match.  With a pattern and the names of files it
    writes to its standard output the lines of the files that match the pattern,
    each with its newline, file after file, and exits with the descriptors it had.
    The files have no NULs and no line longer than the 1022 characters that fit in
    the buffer; a file may be of any size, as the reads cut it, and the lines with
    it, where the buffer is full. *)
Theorem grep_prints name pattern args lss w d1 :
  args <> [] -> Forall2 (text_file (sys w)) args lss -> fd_at (fds w) 1 = Some d1 -> lowest (fds w) <> None ->
  exists w', runs (main (name :: pattern :: args)) w (Exited w') /\ fds w' = fds w /\
    written (d_obj d1) (effects w') =
      written (d_obj d1) (effects w) ++ unlines (filter (fun l => Grep.match_ pattern l = true) (concat lss)).
Proof.
  intros Hne Hr H1 Hl. destruct (lowest (fds w)) as [i|] eqn:E; [|done].
  destruct (grep_main_loop_runs pattern d1 i args lss w Hr H1 E) as (ws & Ews & Hws). eexists. split.
  - unfold main. destruct args; [done|]. exact Hws.
  - split; [done|]. cbn. by rewrite written_app, written_wrote, Ews.
Qed.

(** Two files, the first of 2000 bytes, more than the buffer holds, the second read
    line by line. *)
Definition long_file : list Z := concat (replicate 400 (line "abcd")).

Lemma grep_prints_witness :
  exists w', runs (main [chars "grep"; chars "^a.*d$"; chars "f"; chars "g"])
      (sample_world [(chars "f", [long_file]); (chars "g", [line "xad"; line "ad"; chars "ad"])]) (Exited w') /\
    written (d_obj console) (effects w') = long_file ++ line "ad".
Proof.
  destruct (grep_prints (chars "grep") (chars "^a.*d$") [chars "f"; chars "g"] [replicate 400 (chars "abcd"); [chars "xad"; chars "ad"]]
    (sample_world [(chars "f", [long_file]); (chars "g", [line "xad"; line "ad"; chars "ad"])]) console)
    as (w' & H & _ & E); [done| |done|done|].
  - repeat apply Forall2_cons_2; [| |done].
    + exists [long_file], [], (MkUstat 2 5 0). split_and!; [split_and!; [done| |by left|done]|done|split_and!; [by vm_compute| |]|].
      * apply (bool_decide_unpack _). by vm_compute.
      * apply Forall_replicate, (bool_decide_unpack _). by vm_compute.
      * apply not_elem_of_nil.
      * apply Forall_replicate. by vm_compute.
    + exists [line "xad"; line "ad"; chars "ad"], (chars "ad"), (MkUstat 2 5 0). split_and!; [|done|split_and!; [done| |]|].
      * cbn [pieces_ok]. split_and!; try done; try (apply (bool_decide_unpack _); by vm_compute).
      * repeat constructor; apply (bool_decide_unpack _); by vm_compute.
      * apply (bool_decide_unpack _). by vm_compute.
      * repeat constructor; by vm_compute.
  - exists w'. split; [exact H|]. rewrite E. vm_compute. reflexivity.
Defined.

(** A file that cannot be opened ends grep, with a message on its standard output. *)
Lemma grep_cannot_open name pattern a args w d1 :
  open_file (sys w) (effects w) a 0 = None -> fd_at (fds w) 1 = Some d1 ->
  runs (main (name :: pattern :: a :: args)) w
    (Exited (more (typed (d_obj d1) (chars "grep: cannot open " ++ a ++ [10])) w)).
Proof.
  intros Ho H1. cbn [main main_loop]. eapply runs_seq.
  - pose proof (runs_call (SOpen a 0) w) as R. cbn [answer] in R. rewrite Ho in R. exact R.
  - cbn [Z.ltb Z.compare]. eapply runs_seq; [by apply (runs_printf 1 d1)|]. apply runs_exit.
Qed.

End GrepRunFacts.
