(* ===== verification/Tests.v ===== *)
(** * Test programs (forktest.c, stressfs.c)

    The programs that fill the process table and that write files from several
    processes at once, over the system calls of [User], and what they do when the
    system answers as it should. *)

From ITree Require Import ITree.
From S2P Require Import Prelude User Uprogs UprogsThm.
Import Ulib.

(** ** forktest.c *)

Module Forktest.

(** [#define N 1000] *)
Definition NFORK : Z := 1000.

(** [write(fd, s, strlen(s))] *)
Definition printf (fd : Z) (s : list Z) : prog unit := call (SWrite fd s) ;; Ret tt.

(** [for(n=0; n<N; n++)], with [k] turns left; the number of children. *)
Fixpoint fork_loop (k : nat) (n : Z) : prog Z :=
  match k with
  | O => Ret n
  | S k =>
    let* pid := pcall SFork in
    if pid <? 0 then Ret n else if pid =? 0 then exit_ else fork_loop k (n + 1)
  end.

(** [for(; n > 0; n--)] *)
Fixpoint wait_loop (n : nat) : prog unit :=
  match n with
  | O => Ret tt
  | S n =>
    let* pid := pcall SWait in
    if pid <? 0 then printf 1 (Printf.line "wait stopped early") ;; exit_ else wait_loop n
  end.

Definition forktest : prog unit :=
  printf 1 (Printf.line "fork test") ;;
  let* n := fork_loop (Z.to_nat NFORK) 0 in
  if n =? NFORK then printf 1 (Printf.line "fork claimed to work N times!") ;; exit_
  else
    wait_loop (Z.to_nat n) ;;
    let* pid := pcall SWait in
    if negb (pid =? -1) then printf 1 (Printf.line "wait got too many") ;; exit_
    else printf 1 (Printf.line "fork test OK").

Definition main : prog unit := forktest ;; exit_.

End Forktest.

(** ** stressfs.c *)

Module Stressfs.

(** [O_CREATE | O_RDWR] *)
Definition create_rdwr : Z := Z.lor 512 2.

(** [memset(data, 'a', sizeof(data))] *)
Definition data : list Z := replicate (Z.to_nat 512) 97.

(** [for(i = 0; i < 4; i++) if(fork() > 0) break;], with [k] turns left. *)
Fixpoint fork_loop (k : nat) (i : Z) : prog Z :=
  match k with
  | O => Ret i
  | S k => let* pid := pcall SFork in if 0 <? pid then Ret i else fork_loop k (i + 1)
  end.

Fixpoint times (k : nat) (t : prog unit) : prog unit :=
  match k with
  | O => Ret tt
  | S k => t ;; times k t
  end.

(** [path[8] += i] *)
Definition path (i : Z) : list Z := chars "stressfs" ++ [48 + i].

(** From the loop of [fork] on. *)
Definition stress (i : Z) : prog unit :=
  Printf.printf 1 (Printf.line "write %d") [Printf.AInt i] ;;
  let* fd := call (SOpen (path i) create_rdwr) in
  times 20 (call (SWrite fd data) ;; Ret tt) ;;
  call (SClose fd) ;;
  Printf.printf 1 (Printf.line "read") [] ;;
  let* fd := call (SOpen (path i) 0) in
  times 20 (call (SRead fd 512) ;; Ret tt) ;;
  call (SClose fd) ;;
  pcall SWait ;;
  exit_.

Definition main : prog unit :=
  Printf.printf 1 (Printf.line "stressfs starting") [] ;;
  let* i := fork_loop 4 0 in
  stress i.

End Stressfs.

(** ** What they do *)

Module TestFacts.

Fixpoint after_forks (n : nat) (p : list Z) : list Z :=
  match n with
  | O => p
  | S n => after_forks n (2 :: p)
  end.

(** [n] children that exit at once. *)
Fixpoint forks (n : nat) (w : world) {R} (o : out R) : out R :=
  match n with
  | O => o
  | S n => Forked (Exited (set_pos (1 :: pos w) w)) (forks n (set_pos (2 :: pos w) w) o)
  end.

Lemma then_forks {A B} (P : A -> world -> out B -> Prop) n o o' : forall w, then_ P o o' -> then_ P (forks n w o) (forks n w o').
Proof. induction n as [|n IH]; intros w H; cbn; [done|]. constructor; [constructor|auto]. Qed.

Lemma then_waits {A B} (P : A -> world -> out B -> Prop) n o o' : then_ P o o' -> then_ P (waits n o) (waits n o').
Proof. intros H. induction n; cbn; [done|by constructor]. Qed.

Lemma forktest_forks n : forall k i w, (n < k)%nat ->
  (forall j, (j < n)%nat -> 0 < fork_pid (sys w) (after_forks j (pos w))) -> fork_pid (sys w) (after_forks n (pos w)) < 0 ->
  runs (Forktest.fork_loop k i) w (forks n w (Returned (i + Z.of_nat n) (set_pos (after_forks (S n) (pos w)) w))).
Proof.
  induction n as [|n IH]; intros k i w Hk Hok Hfail; (destruct k as [|k]; [lia|]); cbn [Forktest.fork_loop forks].
  - eapply runs_seq; [by apply runs_fork_fails|]. cbn [after_forks] in Hfail. rewrite (proj2 (Z.ltb_lt _ _)) by done.
    rewrite Z.add_0_r. apply runs_ret.
  - assert (0 < fork_pid (sys w) (pos w)) as H0 by (apply (Hok 0%nat); lia).
    eapply runs_then; [apply runs_fork; lia|]. apply then_forked; apply then_returned.
    + change (0 <? 0) with false. change (0 =? 0) with true. apply runs_exit.
    + rewrite (proj2 (Z.ltb_ge _ _)), (proj2 (Z.eqb_neq _ _)) by lia. replace (i + Z.of_nat (S n)) with (i + 1 + Z.of_nat n) by lia.
      apply (IH k (i + 1) (set_pos (2 :: pos w) w)); [lia| |exact Hfail]. intros j Hj. apply (Hok (S j)). lia.
Qed.

Lemma forktest_waits n : forall w, (forall j, (j < n)%nat -> 0 <= wait_pid (sys w) (after_waits j (pos w))) ->
  runs (Forktest.wait_loop n) w (waits n (Returned tt (set_pos (after_waits n (pos w)) w))).
Proof.
  induction n as [|n IH]; intros w H; cbn [Forktest.wait_loop waits]; [destruct w; apply runs_ret|].
  eapply runs_then; [apply runs_wait|]. apply then_awaits, then_returned.
  rewrite (proj2 (Z.ltb_ge _ _)) by (apply (H 0%nat); lia). apply (IH (set_pos (3 :: pos w) w)). intros j Hj. apply (H (S j)). lia.
Qed.

(** forktest fills the process table and empties it.  When [n] calls of [fork],
    fewer than 1000, succeed and the next fails, and then [wait] finds [n] children
    and no more, it ends with the message that the test is passed and nothing
    else. *)
Theorem forktest_passes w d1 n :
  fd_at (fds w) 1 = Some d1 -> Z.of_nat n < Forktest.NFORK ->
  (forall j, (j < n)%nat -> 0 < fork_pid (sys w) (after_forks j (pos w))) -> fork_pid (sys w) (after_forks n (pos w)) < 0 ->
  (forall j, (j < n)%nat -> 0 <= wait_pid (sys w) (after_waits j (after_forks (S n) (pos w)))) ->
  wait_pid (sys w) (after_waits n (after_forks (S n) (pos w))) = -1 ->
  exists w', runs Forktest.main w (forks n (more [Wrote (d_obj d1) (Printf.line "fork test")] w) (waits n (Awaits (Exited w')))) /\
    fds w' = fds w /\ effects w' = effects w ++ [Wrote (d_obj d1) (Printf.line "fork test"); Wrote (d_obj d1) (Printf.line "fork test OK")].
Proof.
  intros H1 Hn Hok Hfail Hw Hlast. set (w1 := more [Wrote (d_obj d1) (Printf.line "fork test")] w).
  set (w2 := set_pos (after_forks (S n) (pos w)) w1). set (w3 := set_pos (3 :: after_waits n (after_forks (S n) (pos w))) w2).
  exists (more [Wrote (d_obj d1) (Printf.line "fork test OK")] w3). split; [|split; [done|]]; [|cbn; by rewrite <- app_assoc].
  unfold Forktest.main, Forktest.forktest. eapply runs_then with (o := forks n w1 (waits n (Awaits (Returned tt (more [Wrote (d_obj d1) (Printf.line "fork test OK")] w3))))).
  - eapply runs_seq; [eapply runs_seq; [by apply (runs_write 1 _ w d1)|apply runs_ret]|]. fold w1.
    eapply runs_then; [apply (forktest_forks n); [lia|exact Hok|exact Hfail]|]. apply then_forks, then_returned.
    rewrite Z.add_0_l, (proj2 (Z.eqb_neq _ _)), Nat2Z.id by lia. fold w2. change (set_pos (after_forks (S n) (pos w1)) w1) with w2.
    eapply runs_then; [apply (forktest_waits n); exact Hw|]. apply then_waits, then_returned.
    eapply runs_then; [apply runs_wait|]. apply then_awaits, then_returned. cbn [sys pos set_pos w2 w1 more]. rewrite Hlast. cbn [negb Z.eqb Pos.eqb].
    eapply runs_seq; [by apply (runs_write 1 _ _ d1)|]. apply runs_ret.
  - apply then_forks, then_waits, then_awaits, then_returned, runs_exit.
Qed.

(** A process table with room for two children. *)
Definition small_table : world :=
  let sy := sample_system [] in
  MkWorld
    {| open_file := open_file sy; can_exec := can_exec sy; can_mknod := can_mknod sy; unlink_ok := unlink_ok sy; link_ok := link_ok sy;
       mkdir_ok := mkdir_ok sy; chdir_ok := chdir_ok sy; kill_ok := kill_ok sy;
       fork_pid := fun p => if (length p <? 2)%nat then 7 + Z.of_nat (length p) else -1;
       wait_pid := fun p => if (length p <? 5)%nat then 4 + Z.of_nat (length p) else -1 |}
    (replicate 3 (Some console) ++ replicate 13 None) [] [].

Lemma forktest_sample : exists w', runs Forktest.main small_table
    (forks 2 (more [Wrote (d_obj console) (Printf.line "fork test")] small_table) (waits 2 (Awaits (Exited w')))).
Proof.
  destruct (forktest_passes small_table console 2) as (w' & H & _); [done|done| |done| |done|exists w'; exact H];
    intros j Hj; (destruct j as [|[|j]]; [vm_compute; congruence..|lia]).
Qed.

(** ** stressfs *)

Lemma runs_read_any fd n w d : fd_at (fds w) fd = Some d ->
  exists r d', runs (call (SRead fd n)) w (Returned r (set_fds (put_fd fd (Some d') (fds w)) w)).
Proof.
  intros H. pose proof (runs_call (SRead fd n) w) as R. cbn [answer] in R. rewrite H in R.
  destruct (read_from n d) as [r d']. by exists r, d'.
Qed.

Lemma stress_reads fd n k : forall w d, fd_at (fds w) fd = Some d ->
  exists d', runs (Stressfs.times k (call (SRead fd n) ;; Ret tt)) w (Returned tt (set_fds (put_fd fd (Some d') (fds w)) w)).
Proof.
  induction k as [|k IH]; intros w d H; cbn [Stressfs.times].
  - exists d. eapply runs_to; [apply runs_ret|]. f_equal. apply fd_at_Some in H as [H0 H]. destruct w. unfold set_fds, put_fd. cbn in *.
    rewrite (proj2 (Z.ltb_ge _ _)) by done. by rewrite list_insert_id.
  - destruct (runs_read_any fd n w d H) as (r & d1 & R1). destruct (IH (set_fds (put_fd fd (Some d1) (fds w)) w) d1) as (d' & R2).
    { exact (fd_at_put_same _ _ _ _ H). }
    exists d'. eapply runs_seq; [eapply runs_seq; [exact R1|apply runs_ret]|]. eapply runs_to; [exact R2|]. f_equal. unfold set_fds. cbn. by rewrite put_put.
Qed.

Lemma stress_writes fd bs d k : forall w, fd_at (fds w) fd = Some d ->
  runs (Stressfs.times k (call (SWrite fd bs) ;; Ret tt)) w (Returned tt (more (replicate k (Wrote (d_obj d) bs)) w)).
Proof.
  induction k as [|k IH]; intros w H; cbn [Stressfs.times replicate]; [rewrite more_nil; apply runs_ret|].
  eapply runs_seq; [eapply runs_seq; [by apply (runs_write fd bs w d)|apply runs_ret]|]. eapply runs_to; [by apply IH|]. by rewrite more_more.
Qed.

Lemma opened_put i d w : lowest (fds w) = Some i -> fds (opened i d w) = put_fd (Z.of_nat i) (Some d) (fds (opened i d w)).
Proof. intros _. unfold put_fd. rewrite (proj2 (Z.ltb_ge _ _)), Nat2Z.id by lia. cbn. by rewrite list_insert_insert_eq. Qed.

Lemma written_typed_other o o' s : o <> o' -> written o (typed o' s) = [].
Proof. intros H. induction s as [|c s IH]; [done|]. cbn. rewrite bool_decide_eq_false_2 by congruence. exact IH. Qed.

Lemma written_replicate o k bs : written o (replicate k (Wrote o bs)) = concat (replicate k bs).
Proof. induction k as [|k IH]; [done|]. cbn [replicate written concat]. by rewrite bool_decide_eq_true_2, IH. Qed.

(** The file of process [i] can be made and read. *)
Definition stressable (sy : system) (i : Z) : Prop :=
  (exists f, forall es, open_file sy es (Stressfs.path i) Stressfs.create_rdwr = Some f) /\
  (exists f, forall es, open_file sy es (Stressfs.path i) 0 = Some f).

(** What process [i] leaves: its descriptors closed, and 20 blocks in its file. *)
Definition stressed (w : world) (i : Z) (w' : world) : Prop :=
  fds w' = fds w /\
  let o := File (Stressfs.path i) Stressfs.create_rdwr in
  written o (effects w') = written o (effects w) ++ concat (replicate 20 Stressfs.data).

Lemma stress_runs i w d1 : fd_at (fds w) 1 = Some d1 -> lowest (fds w) <> None -> stressable (sys w) i ->
  d_obj d1 <> File (Stressfs.path i) Stressfs.create_rdwr ->
  exists w', runs (Stressfs.stress i) w (Awaits (Exited w')) /\ stressed w i w'.
Proof.
  intros H1 Hl [[f Hf] [g Hg]] Hne. destruct (lowest (fds w)) as [j|] eqn:El; [|done].
  set (o := File (Stressfs.path i) Stressfs.create_rdwr) in *.
  set (w1 := more (typed (d_obj d1) (format false (Printf.line "write %d") [Printf.AInt i])) w).
  set (df := MkDesc o (uf_reads f) (uf_err f)). set (dg := MkDesc (File (Stressfs.path i) 0) (uf_reads g) (uf_err g)).
  set (w2 := more (replicate 20 (Wrote o Stressfs.data)) w1).
  set (w3 := more (typed (d_obj d1) (format false (Printf.line "read") [])) w2).
  destruct (stress_reads (Z.of_nat j) 512 20 (opened j dg w3) dg) as (d' & Hreads); [by apply opened_at|].
  exists (set_pos (3 :: pos w3) w3). split.
  - unfold Stressfs.stress. eapply runs_seq; [by apply (runs_printf 1 d1)|]. fold w1.
    eapply runs_seq; [by apply runs_open; [apply Hf|]|]. fold o df.
    eapply runs_seq; [by apply (stress_writes _ _ df); apply opened_at|].
    eapply runs_seq; [eapply (runs_close_opened w1 j df); [done|by apply opened_put]|]. change (set_fds (fds w1) _) with w2.
    eapply runs_seq; [by apply (runs_printf 1 d1)|]. fold w3.
    eapply runs_seq; [by apply runs_open; [apply Hg|]|]. fold dg.
    eapply runs_seq; [exact Hreads|].
    eapply runs_seq; [by eapply (runs_close_opened w3 j dg)|]. change (set_fds (fds w3) _) with w3.
    eapply runs_then; [apply runs_wait|]. apply then_awaits, then_returned, runs_exit.
  - split; [done|]. fold o. cbn [effects set_pos w3 w2 w1 more]. rewrite !written_app, !written_typed_other, written_replicate, !app_nil_r by done. done.
Qed.

(** Who returns from the loop of [fork], with which [i]. *)
Fixpoint fan (k : nat) (i : Z) (w : world) : out Z :=
  match k with
  | O => Returned i w
  | S k => Forked (fan k (i + 1) (set_pos (1 :: pos w) w)) (Returned i (set_pos (2 :: pos w) w))
  end.

Lemma stress_forks k : forall i w, (forall p, 0 < fork_pid (sys w) p) -> runs (Stressfs.fork_loop k i) w (fan k i w).
Proof.
  induction k as [|k IH]; intros i w H; cbn [Stressfs.fork_loop fan]; [apply runs_ret|].
  eapply runs_then; [apply runs_fork; specialize (H (pos w)); lia|]. apply then_forked; apply then_returned.
  - by apply IH.
  - rewrite (proj2 (Z.ltb_lt _ _)) by apply H. apply runs_ret.
Qed.

(** stressfs makes five processes, each with a file of its own: when [fork] works
    and the files can be opened, process [i] writes 20 blocks to stressfs[i], reads
    them back, waits and exits with the descriptors it had. *)
Theorem stressfs_five w d1 :
  fd_at (fds w) 1 = Some d1 -> lowest (fds w) <> None -> (forall p, 0 < fork_pid (sys w) p) ->
  (forall i, 0 <= i <= 4 -> stressable (sys w) i /\ d_obj d1 <> File (Stressfs.path i) Stressfs.create_rdwr) ->
  exists w0 w1 w2 w3 w4,
    runs Stressfs.main w (Forked (Forked (Forked (Forked
      (Awaits (Exited w4)) (Awaits (Exited w3))) (Awaits (Exited w2))) (Awaits (Exited w1))) (Awaits (Exited w0))) /\
    stressed w 0 w0 /\ stressed w 1 w1 /\ stressed w 2 w2 /\ stressed w 3 w3 /\ stressed w 4 w4.
Proof.
  intros H1 Hl Hfork Hi. set (wp := more (typed (d_obj d1) (format false (Printf.line "stressfs starting") [])) w).
  assert (Hp : forall i p, 0 <= i <= 4 -> exists w', runs (Stressfs.stress i) (set_pos p wp) (Awaits (Exited w')) /\ stressed w i w').
  { intros i p Hb. destruct (Hi i Hb) as [Hs Hne]. destruct (stress_runs i (set_pos p wp) d1) as (w' & R & Hfd & Hw); [done..|].
    exists w'. split; [exact R|]. split; [done|]. cbv zeta in *. rewrite Hw. cbn [effects set_pos wp more]. by rewrite written_app, written_typed_other, app_nil_r. }
  destruct (Hp 0 (2 :: pos w)) as (w0 & R0 & S0); [lia|]. destruct (Hp 1 (2 :: 1 :: pos w)) as (w1 & R1 & S1); [lia|].
  destruct (Hp 2 (2 :: 1 :: 1 :: pos w)) as (w2 & R2 & S2); [lia|]. destruct (Hp 3 (2 :: 1 :: 1 :: 1 :: pos w)) as (w3 & R3 & S3); [lia|].
  destruct (Hp 4 (1 :: 1 :: 1 :: 1 :: pos w)) as (w4 & R4 & S4); [lia|].
  exists w0, w1, w2, w3, w4. split; [|done]. unfold Stressfs.main. eapply runs_seq; [by apply (runs_printf 1 d1)|]. fold wp.
  eapply runs_then; [by apply (stress_forks 4)|]. cbn [fan].
  repeat (apply then_forked; [|by apply then_returned]). by apply then_returned.
Qed.

End TestFacts.
