(* ===== verification/ShRun.v ===== *)
(** * The shell at work (sh.c)

    [runcmd], the prompt and the main loop of the shell, over the system calls of
    [User], and what the processes it makes have as descriptors. *)

From ITree Require Import ITree.
From S2P Require Import Prelude User Sh Uprogs UprogsThm.
Import Ulib Printf Sh.

Module ShRun.

Definition panic {R} (s : string) : prog R := printf 2 (line "%s") [str (chars s)] ;; exit_.

(** Fork but panics on failure. *)
Definition fork1 : prog Z :=
  let* pid := pcall SFork in
  if pid =? -1 then panic "fork" else Ret pid.

(** Execute cmd.  Never returns. *)
Fixpoint runcmd (c : cmd (list Z)) : prog unit :=
  match c with
  | EXEC argv =>
    match argv with
    | [] => exit_
    | a :: _ =>
      pcall (SExec a argv) ;;
      printf 2 (line "exec %s failed") [str a] ;;
      exit_
    end
  | REDIR c file mode fd =>
    call (SClose fd) ;;
    let* r := call (SOpen file mode) in
    if r <? 0 then printf 2 (line "open %s failed") [str file] ;; exit_
    else runcmd c ;; exit_
  | LIST l r =>
    let* pid := fork1 in
    (if pid =? 0 then runcmd l else Ret tt) ;;
    pcall SWait ;;
    runcmd r ;;
    exit_
  | PIPE l r =>
    let* p := call SPipe in
    match p with
    | None => panic "pipe"
    | Some p =>
      let* pid := fork1 in
      (if pid =? 0 then
         call (SClose 1) ;;
         call (SDup p.2) ;;
         call (SClose p.1) ;;
         call (SClose p.2) ;;
         runcmd l
       else Ret tt) ;;
      let* pid := fork1 in
      (if pid =? 0 then
         call (SClose 0) ;;
         call (SDup p.1) ;;
         call (SClose p.1) ;;
         call (SClose p.2) ;;
         runcmd r
       else Ret tt) ;;
      call (SClose p.1) ;;
      call (SClose p.2) ;;
      pcall SWait ;;
      pcall SWait ;;
      exit_
    end
  | BACK c =>
    let* pid := fork1 in
    (if pid =? 0 then runcmd c else Ret tt) ;;
    exit_
  end.

(** [getcmd]: the string in [buf], or nothing when it is empty, as at the end of
    the input. *)
Definition getcmd (nbuf : Z) : prog (option (list Z)) :=
  printf 2 (chars "$ ") [] ;;
  let* buf := gets nbuf in
  match cstr buf with
  | [] => Ret None
  | s => Ret (Some s)
  end.

(** [runcmd(parsecmd(buf))], with the ways in which the parse can fail. *)
Definition run_line (buf : list Z) : prog unit :=
  match parsecmd buf with
  | inr (c, buf) => runcmd (cmd_map (word_text buf) c)
  | inl (Leftovers s) => printf 2 (line "leftovers: %s") [str s] ;; panic "syntax"
  | inl (Panic msg) => panic msg
  | inl OutOfFuel => Ret tt
  end.

(** [buf[0] == 'c' && buf[1] == 'd' && buf[2] == ' '] *)
Definition is_cd (buf : list Z) : bool :=
  match buf with
  | a :: b :: c :: _ => (a =? 99) && (b =? 100) && (c =? 32)
  | _ => false
  end.

(** [while((fd = open("console", O_RDWR)) >= 0)] *)
Definition open_console : prog unit :=
  ITree.iter (fun _ : unit =>
    let* fd := call (SOpen (chars "console") 2) in
    if 0 <=? fd then
      if 3 <=? fd then call (SClose fd) ;; Ret (inr tt) else Ret (inl tt)
    else Ret (inr tt)) tt.

(** [while(getcmd(buf, sizeof(buf)) >= 0)]; [buf[strlen(buf)-1] = 0] takes the
    last character off. *)
Definition main_loop : prog unit :=
  ITree.iter (fun _ : unit =>
    let* r := getcmd 100 in
    match r with
    | None => Ret (inr tt)
    | Some buf =>
      if is_cd buf then
        let dir := drop 3 (take (length buf - 1) buf) in
        let* r := call (SChdir dir) in
        (if r <? 0 then printf 2 (line "cannot cd %s") [str dir] else Ret tt) ;;
        Ret (inl tt)
      else
        let* pid := fork1 in
        (if pid =? 0 then run_line buf else Ret tt) ;;
        pcall SWait ;;
        Ret (inl tt)
    end) tt.

Definition main : prog unit :=
  open_console ;;
  main_loop ;;
  exit_.

End ShRun.
