(* ===== verification/ShRunThm.v ===== *)
(** * What the shell starts

    Each command of a line runs in a process of its own whose descriptors are
    those of the shell, but for what its redirections and pipes say. *)

From ITree Require Import ITree.
From S2P Require Import Prelude User Sh ShThm Uprogs UprogsThm ShRun.
Import Ulib Printf Sh ShRun.

(** ** The meaning of a command *)

Section meaning.
  Context (d2 : desc).

(** A message on the standard error. *)
Definition complain (fmt : string) (a : list Z) (w : world) : world := more (typed (d_obj d2) (format false (line fmt) [str a])) w.

Definition in_child (w : world) : world := set_pos (1 :: pos w) w.
Definition in_parent (w : world) : world := set_pos (2 :: pos w) w.
Definition after_wait (w : world) : world := set_pos (3 :: pos w) w.
Definition with_fd (fd : Z) (d : desc) (w : world) : world := set_fds (put_fd fd (Some d) (fds w)) w.

(** The processes that run a command.  The two sides of a pipe have it as
    standard output and input, and no process keeps another end of it. *)
Fixpoint meaning (c : cmd (list Z)) (w : world) : out unit :=
  match c with
  | EXEC [] => Exited w
  | EXEC ((a :: _) as argv) => if can_exec (sys w) a then Execd a argv w else Exited (complain "exec %s failed" a w)
  | REDIR c file mode fd =>
    match open_file (sys w) (effects w) file mode with
    | None => Exited (complain "open %s failed" file (set_fds (put_fd fd None (fds w)) w))
    | Some f => meaning c (with_fd fd (MkDesc (File file mode) (uf_reads f) (uf_err f)) w)
    end
  | LIST l r => Forked (meaning l (in_child w)) (Awaits (meaning r (after_wait (in_parent w))))
  | PIPE l r =>
    let w1 := set_pos (0 :: pos w) w in
    Forked (meaning l (with_fd 1 (MkDesc (PipeWrite (pos w)) [] false) (in_child w1)))
      (Forked (meaning r (with_fd 0 (MkDesc (PipeRead (pos w)) [] false) (in_child (in_parent w1))))
        (Awaits (Awaits (Exited (after_wait (after_wait (in_parent (in_parent w1))))))))
  | BACK c => Forked (meaning c (in_child w)) (Exited (in_parent w))
  end.

(** The redirections are of the standard input and output, as the parser makes
    them. *)
Fixpoint redirs_ok {W} (c : cmd W) : Prop :=
  match c with
  | EXEC _ => True
  | REDIR c _ _ fd => (fd = 0 \/ fd = 1) /\ redirs_ok c
  | PIPE l r | LIST l r => redirs_ok l /\ redirs_ok r
  | BACK c => redirs_ok c
  end.

(** What the shell assumes of its descriptors, 0 to 2 open and two free for a
    pipe, and of [fork]. *)
Record ready (w : world) : Prop := {
  rd_0 : exists d, fds w !! 0%nat = Some (Some d);
  rd_1 : exists d, fds w !! 1%nat = Some (Some d);
  rd_2 : fds w !! 2%nat = Some (Some d2);
  rd_free : exists i j, lowest (fds w) = Some i /\ forall x, lowest (<[i := Some x]> (fds w)) = Some j;
  rd_fork : forall p, 0 < fork_pid (sys w) p }.

Lemma final_meaning c : forall w, final (meaning c w).
Proof.
  induction c; intros w; cbn.
  - destruct argv; [done|]. by destruct (can_exec _ _).
  - destruct (open_file _ _ _ _); [apply IHc|done].
  - split; [apply IHc1|]. split; [apply IHc2|done].
  - split; [apply IHc1|apply IHc2].
  - split; [apply IHc|done].
Qed.

Lemma lowest_zero (l : list (option desc)) : l !! 0%nat = Some None -> lowest l = Some 0%nat.
Proof. destruct l as [|[d|] l]; cbn; congruence. Qed.

Lemma lowest_one (l : list (option desc)) d : l !! 0%nat = Some (Some d) -> l !! 1%nat = Some None -> lowest l = Some 1%nat.
Proof. destruct l as [|[e|] [|[e'|] l]]; cbn; congruence. Qed.

(** Where 0 or 1 was closed, it is the next descriptor given out. *)
Lemma lowest_closed w fd : ready w -> fd = 0 \/ fd = 1 -> lowest (put_fd fd None (fds w)) = Some (Z.to_nat fd).
Proof.
  intros [[e0 H0] [e1 H1] H2 _ _] [-> | ->]; unfold put_fd; cbn.
  - apply lowest_zero. apply list_lookup_insert_eq. by eapply lookup_lt_Some.
  - apply (lowest_one _ e0); [by rewrite list_lookup_insert_ne|]. apply list_lookup_insert_eq. by eapply lookup_lt_Some.
Qed.

(** ** Steps of the shell *)

Lemma lowest_occupied (l : list (option desc)) k d e : l !! k = Some (Some e) -> lowest (<[k := Some d]> l) = lowest l.
Proof.
  revert k. induction l as [|x l IH]; intros [|k] H; try done; [by injection H as ->|].
  change (<[S k := Some d]> (x :: l)) with (x :: <[k := Some d]> l). cbn [lowest]. by rewrite (IH k H).
Qed.

Lemma ready_pos w p : ready w -> ready (set_pos p w).
Proof. intros [? ? ? ? ?]. by split. Qed.

Lemma ready_fd w fd d : ready w -> fd = 0 \/ fd = 1 -> ready (with_fd fd d w).
Proof.
  intros [[e0 H0] [e1 H1] H2 (i & j & Hi & Hj) Hf] Hfd. set (k := Z.to_nat fd).
  assert (Ek : fds (with_fd fd d w) = <[k := Some d]> (fds w)) by (by destruct Hfd as [-> | ->]).
  assert (Hk : exists e, fds w !! k = Some (Some e)) by (destruct Hfd as [-> | ->]; eauto). destruct Hk as [e Hk].
  pose proof (lowest_free _ _ Hi) as Hfree. assert (Hik : i <> k) by congruence.
  split; rewrite ?Ek; [..|done].
  - destruct Hfd as [-> | ->]; [exists d; apply list_lookup_insert_eq; by eapply lookup_lt_Some|exists e0; by rewrite list_lookup_insert_ne].
  - destruct Hfd as [-> | ->]; [exists e1; by rewrite list_lookup_insert_ne|exists d; apply list_lookup_insert_eq; by eapply lookup_lt_Some].
  - rewrite list_lookup_insert_ne; [done|]. by destruct Hfd as [-> | ->].
  - exists i, j. rewrite (lowest_occupied _ _ _ e) by done. split; [done|]. intros x. rewrite list_insert_insert_ne by done.
    rewrite (lowest_occupied _ _ _ e); [apply Hj|]. by rewrite list_lookup_insert_ne.
Qed.

Lemma runs_fork1 {R} (k : Z -> prog R) w o1 o2 :
  (forall p, 0 < fork_pid (sys w) p) -> runs (k 0) (in_child w) o1 -> (forall pid, 0 < pid -> runs (k pid) (in_parent w) o2) ->
  runs (ITree.bind fork1 k) w (Forked o1 o2).
Proof.
  intros Hp H1 H2. eapply runs_then; [eapply runs_then; [apply runs_fork; specialize (Hp (pos w)); lia|]|].
  - apply then_forked; apply then_returned.
    + apply runs_ret.
    + pose proof (Hp (pos w)). rewrite (proj2 (Z.eqb_neq _ _)) by lia. apply runs_ret.
  - apply then_forked; apply then_returned; [exact H1|]. apply H2. apply Hp.
Qed.

Lemma runs_close {R} fd d (k : prog R) w o :
  fd_at (fds w) fd = Some d -> runs k (set_fds (put_fd fd None (fds w)) w) o -> runs (call (SClose fd) ;; k) w o.
Proof.
  intros H Hk. eapply runs_seq; [|exact Hk]. pose proof (runs_call (SClose fd) w) as R0. cbn [answer] in R0. rewrite H in R0. exact R0.
Qed.

Lemma runs_pipe w i j :
  lowest (fds w) = Some i -> (forall x, lowest (<[i := Some x]> (fds w)) = Some j) ->
  runs (call SPipe) w (Returned (Some (Z.of_nat i, Z.of_nat j))
    (set_pos (0 :: pos w) (set_fds (<[j := Some (MkDesc (PipeWrite (pos w)) [] false)]> (<[i := Some (MkDesc (PipeRead (pos w)) [] false)]> (fds w))) w))).
Proof.
  intros Hi Hj. pose proof (runs_call SPipe w) as R0. cbn [answer] in R0. unfold new_fd in R0. rewrite Hi in R0. cbn in R0. rewrite Hj in R0. exact R0.
Qed.

Lemma put_nat m y l : put_fd (Z.of_nat m) y l = <[m := y]> l.
Proof. unfold put_fd. by rewrite (proj2 (Z.ltb_ge _ _)), Nat2Z.id by lia. Qed.

(** The descriptors with both ends of a pipe, without them, and with one of
    them at [k]. *)
Lemma table_back (l : list (option desc)) i j a b : i <> j -> l !! i = Some None -> l !! j = Some None ->
  <[j := None]> (<[i := None]> (<[j := a]> (<[i := b]> l))) = l.
Proof.
  intros Hne Hi Hj. apply list_eq. intros m. destruct (decide (m = j)) as [->|]; [rewrite list_lookup_insert_eq; [done|]|].
  - rewrite !length_insert. by eapply lookup_lt_Some.
  - rewrite list_lookup_insert_ne by done. destruct (decide (m = i)) as [->|]; [rewrite list_lookup_insert_eq; [done|]|].
    + rewrite !length_insert. by eapply lookup_lt_Some.
    + by rewrite !list_lookup_insert_ne.
Qed.

(** The end [e] of a pipe becomes descriptor [k], in a child. *)
Section plumb.
  Context (w1 : world) (l : list (option desc)) (i j k e : nat) (a b x d0 dk : desc).
  Context (Hk : k = 0%nat \/ k = 1%nat) (H0 : l !! 0%nat = Some (Some d0)) (Hlk : l !! k = Some (Some dk)).
  Context (Hne : i <> j) (Hi : l !! i = Some None) (Hj : l !! j = Some None).
  Context (Hw1 : fds w1 = <[j := Some b]> (<[i := Some a]> l)) (He : e = i /\ x = a \/ e = j /\ x = b).

Lemma plumb_table : <[j := None]> (<[i := None]> (<[k := Some x]> (<[k := None]> (fds w1)))) = <[k := Some x]> l.
Proof.
  assert (i <> k) by congruence. assert (j <> k) by congruence. rewrite Hw1, list_insert_insert_eq.
  rewrite (list_insert_insert_ne _ k j), (list_insert_insert_ne _ k i) by done.
  apply table_back; [done|by rewrite list_lookup_insert_ne..].
Qed.

Lemma plumb_lowest : lowest (<[k := None]> (fds w1)) = Some k.
Proof.
  assert (i <> k) by congruence. assert (j <> k) by congruence. assert (i <> 0%nat) by congruence. assert (j <> 0%nat) by congruence.
  assert (Hn : <[k := None]> (fds w1) !! k = Some None).
  { apply list_lookup_insert_eq. rewrite Hw1, !length_insert. by eapply lookup_lt_Some. }
  destruct Hk as [-> | ->]; [by apply lowest_zero|]. apply (lowest_one _ d0); [|done]. rewrite list_lookup_insert_ne by done.
  rewrite Hw1. by rewrite !list_lookup_insert_ne.
Qed.

Lemma plumb_runs (t : prog unit) o :
  runs t (set_fds (<[k := Some x]> l) w1) o ->
  runs (call (SClose (Z.of_nat k)) ;; call (SDup (Z.of_nat e)) ;; call (SClose (Z.of_nat i)) ;; call (SClose (Z.of_nat j)) ;; t) w1 o.
Proof.
  intros Ht. assert (Hik : i <> k) by congruence. assert (Hjk : j <> k) by congruence.
  assert (Hli : (i < length l)%nat) by (by eapply lookup_lt_Some). assert (Hlj : (j < length l)%nat) by (by eapply lookup_lt_Some).
  assert (Hfi : fds w1 !! i = Some (Some a)) by (rewrite Hw1, list_lookup_insert_ne, list_lookup_insert_eq by done; done).
  assert (Hfj : fds w1 !! j = Some (Some b)) by (rewrite Hw1; apply list_lookup_insert_eq; by rewrite length_insert).
  eapply (runs_close _ dk); [apply fd_at_nat; rewrite Hw1; by rewrite !list_lookup_insert_ne|]. rewrite put_nat.
  eapply runs_seq; [apply (runs_dup _ x _ k)|].
  { apply fd_at_nat. cbn. destruct He as [[-> ->]|[-> ->]]; by rewrite list_lookup_insert_ne. }
  { apply plumb_lowest. }
  eapply (runs_close _ a); [apply fd_at_nat; cbn; by rewrite !list_lookup_insert_ne|]. rewrite put_nat.
  eapply (runs_close _ b); [apply fd_at_nat; cbn; by rewrite !list_lookup_insert_ne|]. rewrite put_nat.
  unfold opened, set_fds in *. cbn. by rewrite plumb_table.
Qed.

End plumb.

Lemma ready_err w : ready w -> fd_at (fds w) 2 = Some d2.
Proof. intros H. apply (fd_at_nat _ 2). apply (rd_2 _ H). Qed.

Lemma runs_complain fmt a w : fd_at (fds w) 2 = Some d2 -> runs (printf 2 (line fmt) [str a] ;; exit_) w (@Exited unit (complain fmt a w)).
Proof. intros H. eapply runs_seq; [by apply (runs_printf 2 d2)|]. apply runs_exit. Qed.

Lemma runs_redir (t : prog unit) file mode fd w o :
  ready w -> fd = 0 \/ fd = 1 ->
  (forall f, open_file (sys w) (effects w) file mode = Some f -> runs t (with_fd fd (MkDesc (File file mode) (uf_reads f) (uf_err f)) w) o) ->
  (open_file (sys w) (effects w) file mode = None -> o = Exited (complain "open %s failed" file (set_fds (put_fd fd None (fds w)) w))) ->
  runs (call (SClose fd) ;; let* r := call (SOpen file mode) in if r <? 0 then printf 2 (line "open %s failed") [str file] ;; exit_ else t) w o.
Proof.
  intros Hr Hfd Hok Hfail. assert (Hopen : exists d, fd_at (fds w) fd = Some d).
  { destruct (rd_0 _ Hr) as [e0 H0], (rd_1 _ Hr) as [e1 H1]. destruct Hfd as [-> | ->]; [exists e0; by apply (fd_at_nat _ 0)|exists e1; by apply (fd_at_nat _ 1)]. }
  destruct Hopen as [d Hd]. eapply runs_close; [exact Hd|]. set (wc := set_fds (put_fd fd None (fds w)) w).
  assert (H2 : fd_at (fds wc) 2 = Some d2) by (refine (eq_trans (fd_at_put_other _ _ _ _ _) (ready_err _ Hr)); lia).
  destruct (open_file (sys w) (effects w) file mode) as [f|] eqn:Eo.
  - eapply runs_seq; [apply (runs_open _ _ wc f (Z.to_nat fd)); [exact Eo|by apply lowest_closed]|].
    rewrite (proj2 (Z.ltb_ge _ _)) by lia. specialize (Hok f eq_refl). unfold with_fd in Hok. rewrite <- (put_put _ _ None) in Hok.
    unfold opened, wc, set_fds. cbn. unfold put_fd in *. by rewrite (proj2 (Z.ltb_ge _ _)) in * by lia.
  - rewrite Hfail by done. pose proof (runs_call (SOpen file mode) wc) as R0. cbn [answer] in R0. change (open_file (sys wc) (effects wc)) with (open_file (sys w) (effects w)) in R0.
    rewrite Eo in R0. eapply runs_seq; [exact R0|]. change (-1 <? 0) with true. by apply runs_complain.
Qed.

(** A pipe: both children and the parent, which closes its ends and waits. *)
Lemma runs_pipeline l r ol or w :
  ready w -> (forall w, ready w -> runs (runcmd l) w (ol w)) -> (forall w, ready w -> runs (runcmd r) w (or w)) ->
  (forall w, final (ol w)) -> (forall w, final (or w)) ->
  let w1 := set_pos (0 :: pos w) w in
  runs (runcmd (PIPE l r)) w
    (Forked (ol (with_fd 1 (MkDesc (PipeWrite (pos w)) [] false) (in_child w1)))
      (Forked (or (with_fd 0 (MkDesc (PipeRead (pos w)) [] false) (in_child (in_parent w1))))
        (Awaits (Awaits (Exited (after_wait (after_wait (in_parent (in_parent w1))))))))).
Proof.
  intros Hr Hl Hrr Fl Fr w1. destruct (rd_0 _ Hr) as [e0 H0], (rd_1 _ Hr) as [e1 H1], (rd_free _ Hr) as (i & j & Hi & Hj). pose proof (rd_fork _ Hr) as Hfork.
  set (pr := MkDesc (PipeRead (pos w)) [] false). set (pw := MkDesc (PipeWrite (pos w)) [] false).
  pose proof (lowest_free _ _ Hi) as Fi. pose proof (lowest_free _ _ (Hj pr)) as Fj.
  assert (Hne : i <> j). { intros ->. rewrite list_lookup_insert_eq in Fj by (by eapply lookup_lt_Some). done. }
  rewrite list_lookup_insert_ne in Fj by done.
  cbn [runcmd]. eapply runs_seq; [by apply runs_pipe|]. fold pr pw. cbn [fst snd].
  set (wp := set_pos (0 :: pos w) (set_fds _ w)).
  apply runs_fork1; [exact Hfork| |].
  - change (0 =? 0) with true. apply runs_never_returns; [|apply Fl].
    apply (plumb_runs _ (fds w) i j 1 j pr pw pw e0 e1); try done; [by right|by right|]. apply Hl. apply (ready_fd (in_child w1)); [by apply ready_pos, ready_pos|by right].
  - intros pid Hpid. rewrite (proj2 (Z.eqb_neq _ _)) by lia. eapply runs_seq; [apply runs_ret|].
    apply runs_fork1; [exact Hfork| |].
    + change (0 =? 0) with true. apply runs_never_returns; [|apply Fr].
      apply (plumb_runs _ (fds w) i j 0 i pr pw pr e0 e0); try done; [by left|by left|]. apply Hrr. apply (ready_fd (in_child (in_parent w1))); [by apply ready_pos, ready_pos, ready_pos|by left].
    + intros pid' Hpid'. rewrite (proj2 (Z.eqb_neq _ _)) by lia. eapply runs_seq; [apply runs_ret|].
      assert (Hli : (i < length (fds w))%nat) by (by eapply lookup_lt_Some). assert (Hlj : (j < length (fds w))%nat) by (by eapply lookup_lt_Some).
      eapply (runs_close _ pr); [apply fd_at_nat; cbn; rewrite list_lookup_insert_ne by done; by apply list_lookup_insert_eq|].
      eapply (runs_close _ pw); [apply fd_at_nat; cbn; rewrite put_nat, list_lookup_insert_ne by done; apply list_lookup_insert_eq; by rewrite length_insert|].
      eapply runs_then; [apply runs_wait|]. apply then_awaits, then_returned. eapply runs_then; [apply runs_wait|]. apply then_awaits, then_returned.
      eapply runs_to; [apply runs_exit|]. unfold after_wait, in_parent, w1, set_pos, set_fds. cbn. by rewrite !put_nat, table_back by done.
Qed.

(** C19: runcmd runs a command as its meaning says: every program is started with
    the descriptors of the shell, changed only where a redirection or a pipe says
    so; the two sides of a pipe are connected, no process is left with another
    end of it, and the shell waits for both; a list waits for its first command
    before the second; a background command is not waited for. *)
Theorem runcmd_runs c : forall w, ready w -> redirs_ok c -> runs (runcmd c) w (meaning c w).
Proof.
  induction c as [argv|c IH file mode fd|l IHl r IHr|l IHl r IHr|c IH]; intros w Hr Hc.
  - destruct argv as [|a argv]; [apply runs_exit|]. cbn [runcmd meaning]. eapply runs_then; [apply runs_exec|].
    destruct (can_exec (sys w) a); [apply then_execd|]. apply then_returned. by apply runs_complain, ready_err.
  - destruct Hc as [Hfd Hc]. cbn [runcmd meaning]. apply runs_redir; [done|done| |].
    + intros f Ef. rewrite Ef. apply runs_never_returns; [|apply final_meaning]. apply IH; [by apply ready_fd|done].
    + intros Ef. by rewrite Ef.
  - destruct Hc as [Hl Hrr]. apply (runs_pipeline l r (meaning l) (meaning r)); [done|auto..|apply final_meaning|apply final_meaning].
  - destruct Hc as [Hl Hrr]. cbn [runcmd meaning]. apply runs_fork1; [apply Hr| |].
    + change (0 =? 0) with true. apply runs_never_returns; [|apply final_meaning]. apply IHl; [by apply ready_pos|done].
    + intros pid Hpid. rewrite (proj2 (Z.eqb_neq _ _)) by lia. eapply runs_seq; [apply runs_ret|].
      eapply runs_then; [apply runs_wait|]. apply then_awaits, then_returned. apply runs_never_returns; [|apply final_meaning].
      apply IHr; [by apply ready_pos, ready_pos|done].
  - cbn [runcmd meaning]. apply runs_fork1; [apply Hr| |].
    + change (0 =? 0) with true. apply runs_never_returns; [|apply final_meaning]. apply IH; [by apply ready_pos|done].
    + intros pid Hpid. rewrite (proj2 (Z.eqb_neq _ _)) by lia. eapply runs_seq; [apply runs_ret|]. apply runs_exit.
Qed.

End meaning.

(** [cat < f | wc & echo] in a shell on the console. *)
Definition sample_job : cmd (list Z) :=
  LIST (BACK (PIPE (REDIR (EXEC [chars "cat"]) (chars "f") 0 0) (EXEC [chars "wc"]))) (EXEC [chars "echo"]).

Lemma runcmd_runs_witness : runs (runcmd sample_job) (sample_world [(chars "f", [])]) (meaning console sample_job (sample_world [(chars "f", [])])).
Proof.
  apply (runcmd_runs console sample_job).
  - split; [by exists console|by exists console|done|exists 3%nat, 4%nat; by split|done].
  - cbn. tauto.
Defined.

(** ** What the parser makes *)

(** The redirections of a result. *)
Definition good (r : perr + cmd word * list Z) : Prop := match r with inr (c, _) => redirs_ok c | inl _ => True end.

Lemma parseredirs_good fuel : forall c s, redirs_ok c -> good (parseredirs fuel c s).
Proof.
  induction fuel as [|fuel IH]; intros c s Hc; cbn [parseredirs]; destruct (peek s _) as [[] s1]; try done.
  destruct (gettoken s1) as [[tok w1] s2]. destruct (gettoken s2) as [[tok2 w] s3]. destruct (negb _); [done|].
  destruct (tok =? CH_LT); apply IH; split; auto.
Qed.

Lemma set_argv_good argv c : redirs_ok c -> redirs_ok (set_argv argv c).
Proof. induction c; cbn; tauto. Qed.

Lemma parseargs_good fuel : forall argv c s, redirs_ok c -> good (parseargs fuel argv c s).
Proof.
  induction fuel as [|fuel IH]; intros argv c s Hc; cbn [parseargs]; destruct (peek s _) as [[] s1]; try (by apply set_argv_good);
    destruct (gettoken s1) as [[tok w] s2]; (destruct (tok =? 0); [by apply set_argv_good|]); (destruct (negb _); [done|]); (destruct (_ <=? _)%nat; [done|]); [done|].
  pose proof (parseredirs_good (length s2) c s2 Hc) as Hg. destruct (parseredirs _ c s2) as [e|[c' s3]]; [done|]. by apply IH.
Qed.

Lemma parseback_good fuel : forall c s, redirs_ok c -> good (parseback fuel c s).
Proof.
  induction fuel as [|fuel IH]; intros c s Hc; cbn [parseback]; destruct (peek s _) as [[] s1]; try done.
  destruct (gettoken s1) as [[tok w] s2]. by apply IH.
Qed.

Lemma parse_good fuel : forall s, good (parseline fuel s) /\ good (parsepipe fuel s) /\ good (parseexec fuel s) /\ good (parseblock fuel s).
Proof.
  induction fuel as [|fuel IH]; intros s; [done|]. cbn [parseline parsepipe parseexec parseblock]. split_and!.
  - destruct (IH s) as (_ & Hp & _). destruct (parsepipe fuel s) as [e|[c s1]]; [done|].
    pose proof (parseback_good (length s1) c s1 Hp) as Hb. destruct (parseback _ c s1) as [e|[c2 s2]]; [done|]. destruct (peek s2 _) as [[] s3]; [|done].
    destruct (gettoken s3) as [[tok w] s4]. destruct (IH s4) as (Hl & _). by destruct (parseline fuel s4) as [e|[r s5]].
  - destruct (IH s) as (_ & _ & He & _). destruct (parseexec fuel s) as [e|[c s1]]; [done|]. destruct (peek s1 _) as [[] s2]; [|done].
    destruct (gettoken s2) as [[tok w] s3]. destruct (IH s3) as (_ & Hp & _). by destruct (parsepipe fuel s3) as [e|[r s4]].
  - destruct (peek s _) as [[] s1]; [apply IH|]. pose proof (parseredirs_good (length s1) (EXEC []) s1 I) as Hr.
    destruct (parseredirs _ _ s1) as [e|[c s2]]; [done|]. by apply parseargs_good.
  - destruct (peek s _) as [b s1]. destruct (negb b); [done|]. destruct (gettoken s1) as [[tok w] s2]. destruct (IH s2) as (Hl & _).
    destruct (parseline fuel s2) as [e|[c s3]]; [done|]. destruct (peek s3 _) as [b2 s4]. destruct (negb b2); [done|].
    destruct (gettoken s4) as [[tok2 w2] s5]. by apply parseredirs_good.
Qed.

Lemma cmd_map_good {A B} (f : A -> B) c : redirs_ok c -> redirs_ok (cmd_map f c).
Proof. induction c; cbn; tauto. Qed.

Lemma parsecmd_good line c buf : parsecmd line = inr (c, buf) -> redirs_ok (cmd_map (word_text buf) c).
Proof.
  unfold parsecmd. destruct (parse_good (4 * length line + 4) line) as [H _]. destruct (parseline _ line) as [e|[c' s]]; [done|].
  destruct (peek s []) as [b s1]. destruct (bool_decide _); [|done]. intros [= <- <-]. by apply cmd_map_good.
Qed.

(** ** A session *)

Section session.
  Context (d2 : desc).

(** What a line does in the child that runs it. *)
Definition line_meaning (buf : list Z) (w : world) : out unit :=
  match parsecmd buf with
  | inr (c, buf) => meaning d2 (cmd_map (word_text buf) c) w
  | inl (Leftovers s) => Exited (complain d2 "%s" (chars "syntax") (complain d2 "leftovers: %s" s w))
  | inl (Panic msg) => Exited (complain d2 "%s" (chars msg) w)
  | inl OutOfFuel => Exited w
  end.

Lemma final_line buf w : final (line_meaning buf w).
Proof. unfold line_meaning. destruct (parsecmd buf) as [[]|[c b]]; try done. apply final_meaning. Qed.

Lemma run_line_runs buf w : ready d2 w -> runs (run_line buf) w (line_meaning buf w).
Proof.
  intros Hr. pose proof (ready_err _ _ Hr) as H2. unfold run_line, line_meaning. destruct (parsecmd buf) as [[msg|s|]|[c b]] eqn:E.
  - by apply (runs_complain d2 "%s").
  - eapply runs_seq; [by apply (runs_printf 2 d2)|]. by apply (runs_complain d2 "%s").
  - exfalso. revert E. unfold parsecmd. destruct (parse_ends (4 * length buf + 4)) as [H _]. specialize (H buf ltac:(lia)).
    destruct (parseline _ buf) as [[]|[c s]]; try done. destruct (peek s []) as [b s1]. by destruct (bool_decide _).
  - apply runcmd_runs; [done|]. by eapply parsecmd_good.
Qed.

(** A line as the console delivers it. *)
Definition line_ok (c : list Z) : Prop := exists body, c = body ++ [10] /\ Forall (fun b => b <> 10 /\ b <> 13 /\ b <> 0) body /\ (length body < 99)%nat.

(** One byte of the line. *)
Lemma runs_read_byte w d b rest cs :
  fd_at (fds w) 0 = Some d -> d_reads d = (b :: rest) :: cs ->
  runs (call (SRead 0 1)) w (Returned (Some [b]) (with_reads 0 d (match rest with [] => cs | _ => rest :: cs end) w)).
Proof.
  intros H Hr. pose proof (runs_call (SRead 0 1) w) as R0. cbn [answer] in R0. rewrite H in R0. unfold read_from in R0. rewrite Hr in R0.
  destruct rest as [|c rest]; [exact R0|]. rewrite (proj2 (Z.leb_gt _ _)) in R0 by (cbn; lia). exact R0.
Qed.

Lemma gets_loop_runs body : forall pre d cs w,
  Forall (fun b => b <> 10 /\ b <> 13 /\ b <> 0) body -> (length pre + length body < 99)%nat ->
  fd_at (fds w) 0 = Some d -> d_reads d = (body ++ [10]) :: cs ->
  runs (ITree.iter (fun buf : list Z =>
    if Z.of_nat (length buf) + 1 <? 100 then
      let* r := call (SRead 0 1) in
      match r with
      | Some (c :: _) => if (c =? 10) || (c =? 13) then Ret (inr (buf ++ [c])) else Ret (inl (buf ++ [c]))
      | _ => Ret (inr buf)
      end
    else Ret (inr buf)) pre) w (Returned (pre ++ body ++ [10]) (with_reads 0 d cs w)).
Proof.
  induction body as [|b body IH]; intros pre d cs w Hb Hl H Hr; cbn [app] in *.
  - eapply runs_iter.
    + rewrite (proj2 (Z.ltb_lt _ _)) by (cbn in Hl; lia). eapply runs_seq; [by apply (runs_read_byte w d 10 [] cs)|]. apply runs_ret.
    + by apply then_returned.
  - apply Forall_cons in Hb as [(Hb1 & Hb2 & _) Hb]. cbn [length] in Hl. eapply runs_iter.
    + rewrite (proj2 (Z.ltb_lt _ _)) by lia. eapply runs_seq; [by apply (runs_read_byte w d b (body ++ [10]) cs)|].
      cbv beta iota. rewrite (proj2 (Z.eqb_neq b 10)), (proj2 (Z.eqb_neq b 13)) by done. apply runs_ret.
    + apply then_returned. eapply runs_to; [apply (IH (pre ++ [b]) (MkDesc (d_obj d) ((body ++ [10]) :: cs) (d_err d)) cs); try done|].
      * rewrite length_app. cbn. lia.
      * refine (eq_trans (fd_at_put_same _ _ d _ H) _). by destruct body.
      * rewrite <- app_assoc. f_equal. by destruct body; rewrite with_reads_again.
Qed.

(** The input is a descriptor that gives line by line. *)
Context (d0 : desc).

Definition prompt (w : world) : world := more (typed (d_obj d2) (chars "$ ")) w.

(** The lines of a session, one after the other: [cd] is done by the shell, any
    other line by a child that is waited for. *)
Fixpoint session (ls : list (list Z)) (w : world) : out unit :=
  match ls with
  | [] => Returned tt (with_reads 0 d0 [] (prompt w))
  | c :: ls =>
    let w := with_reads 0 d0 ls (prompt w) in
    if is_cd c then
      let dir := drop 3 (take (length c - 1) c) in
      session ls (if chdir_ok (sys w) dir then more [WentTo dir] w else complain d2 "cannot cd %s" dir w)
    else Forked (line_meaning c (in_child w)) (Awaits (session ls (after_wait (in_parent w))))
  end.

Lemma cstr_line c : line_ok c -> cstr c = c /\ c <> [].
Proof.
  intros (body & -> & Hb & _). split; [|by destruct body]. induction Hb as [|b body (_ & _ & H) Hb IH]; [done|]. cbn. by rewrite (proj2 (Z.eqb_neq b 0)), IH.
Qed.

Lemma getcmd_line c ls w :
  ready d2 w -> line_ok c -> fd_at (fds w) 0 = Some (MkDesc (d_obj d0) (c :: ls) (d_err d0)) ->
  runs (getcmd 100) w (Returned (Some c) (with_reads 0 d0 ls (prompt w))).
Proof.
  intros Hr Hc H. destruct (cstr_line c Hc) as [Ec Hne]. destruct Hc as (body & -> & Hb & Hl).
  unfold getcmd. eapply runs_seq; [apply (runs_printf 2 d2); by apply ready_err|].
  eapply runs_seq; [by eapply (gets_loop_runs body [])|]. cbv beta. cbn [app]. rewrite Ec. destruct (body ++ [10]); [done|]. apply runs_ret.
Qed.

Lemma getcmd_end w :
  ready d2 w -> fd_at (fds w) 0 = Some (MkDesc (d_obj d0) [] (d_err d0)) -> d_err d0 = false ->
  runs (getcmd 100) w (Returned None (with_reads 0 d0 [] (prompt w))).
Proof.
  intros Hr H He. unfold getcmd. eapply runs_seq; [apply (runs_printf 2 d2); by apply ready_err|].
  set (wp := more _ w). assert (R0 : runs (call (SRead 0 1)) wp (Returned (Some []) (with_reads 0 d0 [] wp))).
  { pose proof (runs_call (SRead 0 1) wp) as R0. cbn [answer] in R0. change (fds wp) with (fds w) in R0. rewrite H in R0. unfold read_from in R0. cbn in R0. rewrite He in R0.
    unfold with_reads. rewrite He. exact R0. }
  eapply runs_seq; [eapply runs_iter; [eapply runs_seq; [exact R0|apply runs_ret]|by apply then_returned]|]. apply runs_ret.
Qed.

Lemma ready_more w es : ready d2 w -> ready d2 (more es w).
Proof. intros [? ? ? ? ?]. by split. Qed.

Lemma main_loop_runs ls : forall w,
  ready d2 w -> d_err d0 = false -> Forall line_ok ls -> fd_at (fds w) 0 = Some (MkDesc (d_obj d0) ls (d_err d0)) ->
  runs main_loop w (session ls w).
Proof.
  induction ls as [|c ls IH]; intros w Hr He Hls H; unfold main_loop.
  - eapply runs_iter; [eapply runs_seq; [by apply getcmd_end|apply runs_ret]|]. by apply then_returned.
  - apply Forall_cons in Hls as [Hc Hls]. cbn [session]. set (w1 := with_reads 0 d0 ls (prompt w)).
    assert (Hr1 : ready d2 w1) by (apply (ready_fd d2 (prompt w) 0); [by apply ready_more|by left]).
    assert (H1 : fd_at (fds w1) 0 = Some (MkDesc (d_obj d0) ls (d_err d0))) by exact (fd_at_put_same _ _ _ _ H).
    pose proof (getcmd_line c ls w Hr Hc H) as Hget. fold w1 in Hget. destruct (is_cd c) eqn:Ecd.
    + set (dir := drop 3 _). set (w2 := if chdir_ok (sys w1) dir then more [WentTo dir] w1 else complain d2 "cannot cd %s" dir w1).
      assert (Hb : runs (let* r := call (SChdir dir) in (if r <? 0 then printf 2 (line "cannot cd %s") [str dir] else Ret tt) ;; Ret (inl tt)) w1 (Returned (@inl unit unit tt) w2)).
      { pose proof (runs_call (SChdir dir) w1) as R0. cbn [answer] in R0. unfold w2. destruct (chdir_ok (sys w1) dir).
        - eapply runs_seq; [exact R0|]. eapply runs_seq; [apply runs_ret|]. apply runs_ret.
        - eapply runs_seq; [exact R0|]. eapply runs_seq; [apply (runs_printf 2 d2); by apply ready_err|]. apply runs_ret. }
      eapply runs_iter; [eapply runs_seq; [exact Hget|]; cbv beta iota; rewrite Ecd; exact Hb|]. apply then_returned. apply IH; try done.
      * unfold w2. by destruct (chdir_ok _ _); apply ready_more.
      * unfold w2. by destruct (chdir_ok _ _).
    + eapply runs_iter.
      * eapply runs_seq; [exact Hget|]. cbv beta iota. rewrite Ecd. apply runs_fork1; [apply Hr1| |].
        -- change (0 =? 0) with true. eapply runs_then; [apply run_line_runs; by apply ready_pos|]. apply then_recast, final_line.
        -- intros pid Hpid. rewrite (proj2 (Z.eqb_neq _ _)) by lia. eapply runs_seq; [apply runs_ret|].
           eapply runs_then; [apply runs_wait|]. apply then_awaits, then_returned, runs_ret.
      * apply then_forked.
        -- apply then_recast_back, final_line.
        -- apply then_awaits, then_returned. apply IH; try done. by apply ready_pos, ready_pos.
Qed.

(** The console is opened until it is descriptor 3, and that is closed. *)
Lemma open_console_runs w f i :
  lowest (fds w) = Some i -> (3 <= i)%nat -> open_file (sys w) (effects w) (chars "console") 2 = Some f -> runs open_console w (Returned tt w).
Proof.
  intros Hl Hi Ho. set (d := MkDesc (File (chars "console") 2) (uf_reads f) (uf_err f)). eapply runs_iter.
  - eapply runs_seq; [by apply (runs_open _ _ w f i)|]. cbv beta. rewrite (proj2 (Z.leb_le _ _)), (proj2 (Z.leb_le _ _)) by lia.
    eapply runs_seq; [apply (runs_close_opened w i d _ d); [done|]|apply runs_ret].
    unfold opened. cbn. rewrite put_nat. by rewrite list_insert_insert_eq.
  - apply then_returned. f_equal. by destruct w.
Qed.

(** C18: a session with the shell.  The shell of sh.c, started with the standard
    descriptors open, reads its input line by line and runs each line as the
    meaning of the command that parsecmd makes of it, in a child for which it
    waits before the next line; a syntax error ends only that child; cd changes
    the directory of the shell itself; at the end of the input it exits. *)
Theorem sh_session ls w f :
  ready d2 w -> d_err d0 = false -> Forall line_ok ls -> fd_at (fds w) 0 = Some (MkDesc (d_obj d0) ls (d_err d0)) ->
  open_file (sys w) (effects w) (chars "console") 2 = Some f ->
  runs ShRun.main w (recast (session ls w)).
Proof.
  intros Hr He Hls H Ho. destruct (rd_free _ _ Hr) as (i & _ & Hi & _). pose proof (lowest_free _ _ Hi) as Hfree.
  destruct (rd_0 _ _ Hr) as [e0 H0], (rd_1 _ _ Hr) as [e1 H1]. pose proof (rd_2 _ _ Hr) as H2.
  assert (3 <= i)%nat by (destruct i as [|[|[|i]]]; [congruence..|lia]).
  eapply runs_seq; [by eapply open_console_runs|]. eapply runs_then; [by apply main_loop_runs|]. apply then_exit.
Qed.

End session.

(** A session of three lines: a pipeline, a change of directory, a mistake. *)
Definition sample_lines : list (list Z) := [line "cat < f | wc"; line "cd x"; line "a | | b"].

Definition sample_shell : world :=
  with_fd 0 (MkDesc (File (chars "console") 2) sample_lines false) (sample_world [(chars "console", []); (chars "f", [])]).

Lemma sh_session_witness : runs ShRun.main sample_shell (recast (session console console sample_lines sample_shell)).
Proof.
  apply (sh_session console console sample_lines sample_shell (MkUfile (MkUstat 2 5 0) [] false)).
  - split; [by eexists|by eexists|done|exists 3%nat, 4%nat; by split|done].
  - reflexivity.
  - repeat constructor; (eexists (chars _); split; [reflexivity|]); (split; [repeat constructor; cbn; lia|cbn; lia]).
  - reflexivity.
  - reflexivity.
Defined.
