(* ===== verification/Mp.v ===== *)
(** * The multiprocessor tables (mp.c)

    The search for the tables that describe the processors, and what [mpinit]
    takes from them.  Memory is a function from physical addresses to bytes; the
    writes to the IMCR at the end are not modelled. *)

From S2P Require Import Prelude.

Module Mp.

(** The signatures _MP_ and PCMP. *)
Definition MP_SIG : list Z := chars "_MP_".
Definition PCMP_SIG : list Z := chars "PCMP".

(** Sizes and offsets of the structures of mp.h. *)
Definition MP_SIZE : Z := 16.
Definition CONF_SIZE : Z := 44.
Definition MPPROC_SIZE : Z := 20.
Definition MPIOAPIC_SIZE : Z := 8.

Definition MPPROC : Z := 0.
Definition MPBUS : Z := 1.
Definition MPIOAPIC : Z := 2.
Definition MPIOINTR : Z := 3.
Definition MPLINTR : Z := 4.
Definition MPBOOT : Z := 2.

(** The [n] bytes at [a]. *)
Definition bytes_at (m : Z -> Z) (a : Z) (n : nat) : list Z := (fun k => m (a + Z.of_nat k)) <$> seq 0 n.
Definition rd16 (m : Z -> Z) (a : Z) : Z := le (bytes_at m a 2).
Definition rd32 (m : Z -> Z) (a : Z) : Z := le (bytes_at m a 4).

(** [uchar sum(uchar *addr, int len)] *)
Definition sum (m : Z -> Z) (addr len : Z) : Z := foldl Z.add 0 (bytes_at m addr (Z.to_nat len)) mod 256.

(** [for(p = addr; p < e; p += sizeof(struct mp))], [n] turns. *)
Fixpoint mpsearch1_loop (n : nat) (m : Z -> Z) (p : Z) : option Z :=
  match n with
  | O => None
  | S n =>
    if bool_decide (bytes_at m p 4 = MP_SIG) && (sum m p MP_SIZE =? 0) then Some p
    else mpsearch1_loop n m (p + MP_SIZE)
  end.

(** Look for an MP structure in the len bytes at addr. *)
Definition mpsearch1 (m : Z -> Z) (a len : Z) : option Z := mpsearch1_loop (Z.to_nat ((len + MP_SIZE - 1) / MP_SIZE)) m a.

Definition mpsearch (m : Z -> Z) : option Z :=
  let bda := 0x400 in
  let p := Z.shiftl (Z.lor (Z.shiftl (m (bda + 0x0F)) 8) (m (bda + 0x0E))) 4 in
  let first :=
    if negb (p =? 0) then mpsearch1 m p 1024
    else mpsearch1 m (u32 (Z.lor (Z.shiftl (m (bda + 0x14)) 8) (m (bda + 0x13)) * 1024 - 1024)) 1024 in
  match first with
  | Some mp => Some mp
  | None => mpsearch1 m 0xF0000 0x10000
  end.

(** Search for an MP configuration table: the table and the MP structure. *)
Definition mpconfig (m : Z -> Z) : option (Z * Z) :=
  match mpsearch m with
  | None => None
  | Some mp =>
    let conf := rd32 m (mp + 4) in
    if conf =? 0 then None
    else if negb (bool_decide (bytes_at m conf 4 = PCMP_SIG)) then None
    else if negb (m (conf + 6) =? 1) && negb (m (conf + 6) =? 4) then None
    else if negb (sum m conf (rd16 m (conf + 4)) =? 0) then None
    else Some (conf, mp)
  end.

(** The globals that [mpinit] sets. *)
Record machine := MkMachine { ismp : bool; ncpu : Z; lapic : Z; ioapicid : Z; bcpu : Z; cpu_ids : list Z }.

Definition reset : machine := MkMachine false 0 0 0 0 [].

(** The loop over the entries from [p] to [e]. *)
Fixpoint mpinit_loop (fuel : nat) (m : Z -> Z) (p e : Z) (s : machine) : option machine :=
  if p <? e then
    match fuel with
    | O => None
    | S fuel =>
      if m p =? MPPROC then
        let ok := ncpu s =? m (p + 1) in
        let boot := negb (Z.land (m (p + 3)) MPBOOT =? 0) in
        mpinit_loop fuel m (p + MPPROC_SIZE) e
          (MkMachine (ismp s && ok) (ncpu s + 1) (lapic s) (ioapicid s) (if boot then ncpu s else bcpu s) (cpu_ids s ++ [ncpu s]))
      else if m p =? MPIOAPIC then
        mpinit_loop fuel m (p + MPIOAPIC_SIZE) e (MkMachine (ismp s) (ncpu s) (lapic s) (m (p + 1)) (bcpu s) (cpu_ids s))
      else if (m p =? MPBUS) || (m p =? MPIOINTR) || (m p =? MPLINTR) then mpinit_loop fuel m (p + 8) e s
      else mpinit_loop fuel m p e (MkMachine false (ncpu s) (lapic s) (ioapicid s) (bcpu s) (cpu_ids s))
    end
  else Some s.

(** An entry has at least one byte, so the length of the table bounds the number of
    turns, unless the loop stays at an entry for ever: then the result is [None]. *)
Definition mpinit (m : Z -> Z) : option machine :=
  match mpconfig m with
  | None => Some reset
  | Some (conf, _) =>
    match mpinit_loop (Z.to_nat (rd16 m (conf + 4))) m (conf + CONF_SIZE) (conf + rd16 m (conf + 4)) (MkMachine true 0 (rd32 m (conf + 36)) 0 0 []) with
    | None => None
    | Some s => Some (if ismp s then s else MkMachine false 1 0 0 (bcpu s) (cpu_ids s))
    end
  end.

End Mp.

Module MpFacts.
Import Mp.

(** ** The search *)

Definition is_mp (m : Z -> Z) (p : Z) : bool := bool_decide (bytes_at m p 4 = MP_SIG) && (sum m p MP_SIZE =? 0).

(** The first structure of the range, in steps of 16 bytes. *)
Lemma mpsearch1_loop_finds n m : forall a,
  match mpsearch1_loop n m a with
  | Some p => exists k, (k < n)%nat /\ p = a + MP_SIZE * Z.of_nat k /\ is_mp m p = true /\ (forall j, (j < k)%nat -> is_mp m (a + MP_SIZE * Z.of_nat j) = false)
  | None => forall j, (j < n)%nat -> is_mp m (a + MP_SIZE * Z.of_nat j) = false
  end.
Proof.
  induction n as [|n IH]; intros a; cbn [mpsearch1_loop]; [intros j Hj; lia|]. fold (is_mp m a). destruct (is_mp m a) eqn:E.
  - exists 0%nat. split; [lia|]. split; [unfold MP_SIZE; lia|]. split; [done|]. intros j Hj. lia.
  - specialize (IH (a + MP_SIZE)). assert (Hstep : forall j, a + MP_SIZE + MP_SIZE * Z.of_nat j = a + MP_SIZE * Z.of_nat (S j)) by (unfold MP_SIZE; lia).
    assert (H0 : a + MP_SIZE * Z.of_nat 0 = a) by (unfold MP_SIZE; lia).
    destruct (mpsearch1_loop n m (a + MP_SIZE)) as [p|].
    + destruct IH as (k & Hk & -> & Hp & Hb). exists (S k). split; [lia|]. split; [apply Hstep|]. split; [done|].
      intros [|j] Hj; [by rewrite H0|]. rewrite <- Hstep. apply Hb. lia.
    + intros [|j] Hj; [by rewrite H0|]. rewrite <- Hstep. apply IH. lia.
Qed.

(** ** The entries *)

Inductive entry :=
  | EProc (apicid version flags : Z) (rest : list Z)
  | EIoapic (apicno : Z) (rest : list Z)
  | EOther (type : Z) (rest : list Z).

Definition encode (e : entry) : list Z :=
  match e with
  | EProc apicid version flags rest => MPPROC :: apicid :: version :: flags :: rest
  | EIoapic apicno rest => MPIOAPIC :: apicno :: rest
  | EOther type rest => type :: rest
  end.

(** The sizes of the entries are those of mp.h. *)
Definition entry_ok (e : entry) : Prop :=
  match e with
  | EProc _ _ _ rest => length rest = 16%nat
  | EIoapic _ rest => length rest = 6%nat
  | EOther type rest => (type = MPBUS \/ type = MPIOINTR \/ type = MPLINTR) /\ length rest = 7%nat
  end.

(** The APIC numbers of the processors, the boot processor and the I/O APIC:
    the last one of each that the table names. *)
Fixpoint apicids (es : list entry) : list Z :=
  match es with
  | [] => []
  | EProc apicid _ _ _ :: es => apicid :: apicids es
  | _ :: es => apicids es
  end.

Fixpoint boot_cpu (n cur : Z) (es : list entry) : Z :=
  match es with
  | [] => cur
  | EProc _ _ flags _ :: es => boot_cpu (n + 1) (if Z.land flags MPBOOT =? 0 then cur else n) es
  | _ :: es => boot_cpu n cur es
  end.

Fixpoint last_ioapic (cur : Z) (es : list entry) : Z :=
  match es with
  | [] => cur
  | EIoapic apicno _ :: es => last_ioapic apicno es
  | _ :: es => last_ioapic cur es
  end.

Lemma bytes_at_app m a l1 l2 : bytes_at m a (length (l1 ++ l2)) = l1 ++ l2 ->
  bytes_at m a (length l1) = l1 /\ bytes_at m (a + Z.of_nat (length l1)) (length l2) = l2.
Proof.
  intros H. unfold bytes_at in *. rewrite length_app, seq_app, fmap_app in H.
  apply app_inj_1 in H as [H1 H2]; [|by rewrite length_fmap, length_seq]. split; [done|].
  etransitivity; [|exact H2]. replace (0 + length l1)%nat with (length l1 + 0)%nat by lia. rewrite <- fmap_add_seq, <- list_fmap_compose. apply list_fmap_ext.
  intros i k _. cbn. f_equal. lia.
Qed.

Lemma bytes_at_lookup m a n l i v : bytes_at m a n = l -> l !! i = Some v -> m (a + Z.of_nat i) = v.
Proof.
  intros <- H. unfold bytes_at in H. rewrite list_lookup_fmap in H. destruct (seq 0 n !! i) eqn:E; [|done]. apply lookup_seq in E as [-> _]. by injection H.
Qed.

Lemma mpinit_loop_reads m es : forall fuel p s,
  Forall entry_ok es -> (length es <= fuel)%nat -> bytes_at m p (length (es ≫= encode)) = es ≫= encode ->
  mpinit_loop fuel m p (p + Z.of_nat (length (es ≫= encode))) s =
    Some (MkMachine (ismp s && bool_decide (apicids es = seqZ (ncpu s) (Z.of_nat (length (apicids es)))))
      (ncpu s + Z.of_nat (length (apicids es))) (lapic s) (last_ioapic (ioapicid s) es) (boot_cpu (ncpu s) (bcpu s) es)
      (cpu_ids s ++ seqZ (ncpu s) (Z.of_nat (length (apicids es))))).
Proof.
  induction es as [|e es IH]; intros fuel p s Hok Hf Hb.
  { destruct fuel; cbn; rewrite (proj2 (Z.ltb_ge _ _)) by lia; destruct s as [b n l i c ids]; cbn; by rewrite andb_true_r, Z.add_0_r, app_nil_r. }
  apply Forall_cons in Hok as [He Hok]. destruct fuel as [|fuel]; [cbn in Hf; lia|]. cbn [length] in Hf. rewrite bind_cons in *.
  apply bytes_at_app in Hb as [Hb1 Hb2]. rewrite length_app. rewrite Nat2Z.inj_add, Z.add_assoc.
  assert (Hle : (1 <= length (encode e))%nat) by (destruct e; cbn; lia).
  cbn [mpinit_loop]. rewrite (proj2 (Z.ltb_lt p _)) by lia.
  assert (Hat : forall i v, encode e !! i = Some v -> m (p + Z.of_nat i) = v) by (intros i v; by apply bytes_at_lookup with (n := length (encode e))).
  assert (H0 : forall v, encode e !! 0%nat = Some v -> m p = v) by (intros v Hv; rewrite <- (Z.add_0_r p); by apply (Hat 0%nat)).
  destruct e as [apicid version flags rest|apicno rest|type rest]; cbn [entry_ok] in He.
  - rewrite (H0 MPPROC eq_refl), (Hat 1%nat apicid eq_refl : m (p + 1) = apicid), (Hat 3%nat flags eq_refl : m (p + 3) = flags). change (MPPROC =? MPPROC) with true. cbv beta iota zeta.
    assert (El : Z.of_nat (length (encode (EProc apicid version flags rest))) = MPPROC_SIZE) by (cbn; rewrite He; done). rewrite El in *.
    rewrite IH by (done || lia). cbn [ismp ncpu Mp.lapic ioapicid bcpu cpu_ids apicids last_ioapic boot_cpu length].
    rewrite Nat2Z.inj_succ, (seqZ_cons (ncpu s)) by lia. rewrite Z.pred_succ. rewrite <- !Z.add_1_r.
    f_equal. f_equal; [|lia|by destruct (Z.land flags MPBOOT =? 0)|by rewrite <- app_assoc].
    rewrite <- andb_assoc. f_equal. destruct (Z.eqb_spec (ncpu s) apicid) as [<-|Hne]; cbn [andb].
    + apply bool_decide_ext. split; congruence.
    + symmetry. apply bool_decide_eq_false. congruence.
  - rewrite (H0 MPIOAPIC eq_refl), (Hat 1%nat apicno eq_refl : m (p + 1) = apicno). change (MPIOAPIC =? MPPROC) with false. change (MPIOAPIC =? MPIOAPIC) with true. cbv beta iota.
    assert (El : Z.of_nat (length (encode (EIoapic apicno rest))) = MPIOAPIC_SIZE) by (cbn; rewrite He; done). rewrite El in *.
    rewrite IH by (done || lia). done.
  - destruct He as [Ht He]. rewrite (H0 type eq_refl).
    assert (El : Z.of_nat (length (encode (EOther type rest))) = 8) by (cbn; rewrite He; done). rewrite El in *.
    assert (E0 : (type =? MPPROC) = false) by (by destruct Ht as [-> | [-> | ->]]). assert (E2 : (type =? MPIOAPIC) = false) by (by destruct Ht as [-> | [-> | ->]]).
    assert (E1 : (type =? MPBUS) || (type =? MPIOINTR) || (type =? MPLINTR) = true) by (by destruct Ht as [-> | [-> | ->]]).
    rewrite E0, E2, E1, IH by (done || lia). done.
Qed.

Lemma encode_length es : (length es <= length (es ≫= encode))%nat.
Proof. induction es as [|e es IH]; [done|]. rewrite bind_cons, length_app. destruct e; cbn [encode length]; lia. Qed.

(** A table with the entries [es] at [conf]. *)
Definition table_at (m : Z -> Z) (conf : Z) (es : list entry) : Prop :=
  Forall entry_ok es /\ bytes_at m (conf + CONF_SIZE) (length (es ≫= encode)) = es ≫= encode /\
  rd16 m (conf + 4) = CONF_SIZE + Z.of_nat (length (es ≫= encode)).

(** What mpinit finds in a table of known entries: the processors, numbered in
    the order of the table, the boot processor and the I/O APIC; a machine whose
    APIC numbers are not in this order is run as a single processor. *)
Theorem mpinit_reads m conf mp es :
  mpconfig m = Some (conf, mp) -> table_at m conf es ->
  mpinit m = Some
    (if bool_decide (apicids es = seqZ 0 (Z.of_nat (length (apicids es)))) then
       MkMachine true (Z.of_nat (length (apicids es))) (rd32 m (conf + 36)) (last_ioapic 0 es) (boot_cpu 0 0 es) (seqZ 0 (Z.of_nat (length (apicids es))))
     else MkMachine false 1 0 0 (boot_cpu 0 0 es) (seqZ 0 (Z.of_nat (length (apicids es))))).
Proof.
  intros Hc (Hok & Hb & Hl). unfold mpinit. rewrite Hc, Hl, Z.add_assoc.
  rewrite mpinit_loop_reads; [|done|pose proof (encode_length es); unfold CONF_SIZE; lia|done]. cbn [ismp ncpu Mp.lapic ioapicid bcpu cpu_ids andb].
  by destruct (bool_decide _).
Qed.

(** An entry of a type that mp.c does not know stops the kernel: the loop does
    not go past it. *)
Lemma mpinit_loop_hangs m fuel : forall p e s, p < e -> m p < 0 \/ 4 < m p -> mpinit_loop fuel m p e s = None.
Proof.
  induction fuel as [|fuel IH]; intros p e s Hp Hm; cbn [mpinit_loop]; rewrite (proj2 (Z.ltb_lt p e)) by done; [done|].
  unfold MPPROC, MPIOAPIC, MPBUS, MPIOINTR, MPLINTR. rewrite !(proj2 (Z.eqb_neq _ _)) by lia. by apply IH.
Qed.

(** ** Tables in low memory *)

Lemma bytes_at_ext m m' a n : (forall x, a <= x < a + Z.of_nat n -> m' x = m x) -> bytes_at m' a n = bytes_at m a n.
Proof. intros H. unfold bytes_at. apply list_fmap_ext. intros i k [-> Hk]%lookup_seq. apply H. lia. Qed.

Lemma sum_ext m m' a n : (forall x, a <= x < a + n -> m' x = m x) -> sum m' a n = sum m a n.
Proof. intros H. unfold sum. rewrite (bytes_at_ext m m'); [done|]. intros x Hx. apply H. lia. Qed.

Lemma rd16_ext m m' a : (forall x, a <= x < a + 2 -> m' x = m x) -> rd16 m' a = rd16 m a.
Proof. intros H. unfold rd16. f_equal. by apply bytes_at_ext. Qed.

Lemma rd32_ext m m' a : (forall x, a <= x < a + 4 -> m' x = m x) -> rd32 m' a = rd32 m a.
Proof. intros H. unfold rd32. f_equal. by apply bytes_at_ext. Qed.

Lemma mpsearch1_loop_ext m m' n : forall a, (forall x, a <= x < a + MP_SIZE * Z.of_nat n -> m' x = m x) -> mpsearch1_loop n m' a = mpsearch1_loop n m a.
Proof.
  induction n as [|n IH]; intros a H; cbn [mpsearch1_loop]; [done|]. unfold MP_SIZE in *.
  rewrite (bytes_at_ext m m') by (intros x Hx; apply H; lia). rewrite (sum_ext m m') by (intros x Hx; apply H; lia).
  destruct (_ && _); [done|]. apply IH. intros x Hx. apply H. lia.
Qed.

Lemma mpsearch1_ext m m' a len : len mod MP_SIZE = 0 -> (forall x, a <= x < a + len -> m' x = m x) -> mpsearch1 m' a len = mpsearch1 m a len.
Proof. intros Hl H. apply mpsearch1_loop_ext. intros x Hx. apply H. unfold MP_SIZE in *. zdm. Qed.

(** Where the structure is: in the range, if it is there. *)
Lemma mpsearch1_at m a len p : len mod MP_SIZE = 0 -> mpsearch1 m a len = Some p -> a <= p /\ p + MP_SIZE <= a + len.
Proof.
  intros Hl E. unfold mpsearch1 in E. pose proof (mpsearch1_loop_finds (Z.to_nat ((len + MP_SIZE - 1) / MP_SIZE)) m a) as H.
  rewrite E in H. destruct H as (k & Hk & -> & _). unfold MP_SIZE in *. zdm.
Qed.

(** The address of the extended BIOS data area, and the size of base memory. *)
Definition ebda (m : Z -> Z) : Z := Z.shiftl (Z.lor (Z.shiftl (m (0x400 + 0x0F)) 8) (m (0x400 + 0x0E))) 4.
Definition base_memory (m : Z -> Z) : Z := Z.lor (Z.shiftl (m (0x400 + 0x14)) 8) (m (0x400 + 0x13)) * 1024.

(** What the firmware left below [lim]: the size of base memory, and if there is an
    MP structure with a configuration table that [mpconfig] accepts, a table of
    entries of known types. *)
Definition firmware_ok (m : Z -> Z) (lim : Z) : Prop :=
  (ebda m = 0 -> 1024 <= base_memory m <= lim) /\
  match mpsearch m with
  | None => True
  | Some mp =>
    let conf := rd32 m (mp + 4) in
    conf = 0 \/
    (0 <= conf /\ conf + CONF_SIZE <= lim /\ conf + rd16 m (conf + 4) <= lim /\
     (mpconfig m = None \/ exists es, table_at m conf es))
  end.

Section low.
  Context (m m' : Z -> Z) (lim : Z) (Hlim : 0x101000 <= lim) (Hm : forall x, 0 <= x < lim -> m' x = m x) (Hby : forall x, is_byte (m x)).

Lemma ebda_range : 0 <= ebda m <= 0xFFFF0.
Proof using Hby.
  unfold ebda. pose proof (Hby (0x400 + 0x0F)) as H1. pose proof (Hby (0x400 + 0x0E)) as H2. unfold is_byte in *.
  rewrite Z.shiftl_mul_pow2 by lia. rewrite Z.shiftl_mul_pow2 by lia.
  rewrite (lor_disjoint_add 8) by (rewrite ?Z.mod_mul; lia). lia.
Qed.

Lemma mpsearch_low : (ebda m = 0 -> 1024 <= base_memory m <= lim) -> mpsearch m' = mpsearch m /\
  (forall mp, mpsearch m = Some mp -> 0 <= mp /\ mp + MP_SIZE <= lim).
Proof using Hlim Hm Hby.
  intros Hbase. pose proof ebda_range as He. unfold mpsearch.
  rewrite !Hm by lia. fold (ebda m) (base_memory m).
  assert (mpsearch1 m' 0xF0000 0x10000 = mpsearch1 m 0xF0000 0x10000) as E3 by (apply mpsearch1_ext; [done|]; intros x Hx; apply Hm; lia).
  assert (forall mp, mpsearch1 m 0xF0000 0x10000 = Some mp -> 0 <= mp /\ mp + MP_SIZE <= lim) as F3.
  { intros mp E%mpsearch1_at; [lia|done]. }
  destruct (Z.eqb_spec (ebda m) 0) as [E0|E0]; cbn [negb].
  - specialize (Hbase E0).
    assert (u32 (base_memory m - 1024) <= base_memory m - 1024 /\ 0 <= u32 (base_memory m - 1024)) as Hu by (unfold u32; split; [apply Z.mod_le; lia|apply Z.mod_pos_bound; lia]).
    rewrite (mpsearch1_ext m m' _ 1024) by (done || intros x Hx; apply Hm; lia).
    destruct (mpsearch1 m (u32 _) 1024) as [mp|] eqn:E.
    + split; [done|]. intros ? [= <-]. apply mpsearch1_at in E; [|done]. lia.
    + by rewrite E3.
  - rewrite (mpsearch1_ext m m' _ 1024) by (done || intros x Hx; apply Hm; lia).
    destruct (mpsearch1 m (ebda m) 1024) as [mp|] eqn:E.
    + split; [done|]. intros ? [= <-]. apply mpsearch1_at in E; [|done]. lia.
    + by rewrite E3.
Qed.

Lemma mpconfig_low : firmware_ok m lim -> mpconfig m' = mpconfig m.
Proof using Hlim Hm Hby.
  intros [Hbase Hmp]. destruct (mpsearch_low Hbase) as [E Hat]. unfold mpconfig. rewrite E. destruct (mpsearch m) as [mp|]; [|done].
  destruct (Hat mp eq_refl) as [H1 H2]. unfold MP_SIZE in H2. rewrite (rd32_ext m m') by (intros x Hx; apply Hm; lia). cbv zeta in *.
  set (conf := rd32 m (mp + 4)) in *. destruct (Z.eqb_spec conf 0) as [->|Hne]; [done|]. destruct Hmp as [?|(H3 & H4 & H5 & _)]; [done|]. unfold CONF_SIZE in H4.
  rewrite (bytes_at_ext m m') by (intros x Hx; apply Hm; lia). rewrite !Hm by lia. rewrite (rd16_ext m m') by (intros x Hx; apply Hm; lia).
  rewrite (sum_ext m m') by (intros x Hx; apply Hm; lia). done.
Qed.

(** [mpinit] ends on such tables, and depends on the memory below [lim] only. *)
Lemma mpinit_low : firmware_ok m lim -> exists c, mpinit m = Some c /\ mpinit m' = Some c.
Proof using Hlim Hm Hby.
  intros Hfw. pose proof (mpconfig_low Hfw) as Ec. destruct (mpconfig m) as [[conf mp]|] eqn:E.
  2:{ exists reset. unfold mpinit. by rewrite Ec, E. }
  destruct Hfw as [_ Hmp]. pose proof E as E'. unfold mpconfig in E'. destruct (mpsearch m) as [mp'|]; [|done]. cbv zeta in *.
  destruct Hmp as [H0|(H3 & H4 & H5 & [?|(es & Ht)])]; [by rewrite H0 in E'| by rewrite E in *|].
  destruct (rd32 m (mp' + 4) =? 0); [done|]. destruct (negb _); [done|]. destruct (_ && _); [done|]. destruct (negb _); [done|].
  injection E' as <- <-. set (conf := rd32 m (mp' + 4)) in *. eexists. split; [exact (mpinit_reads _ _ _ es E Ht)|].
  unfold CONF_SIZE in H4. rewrite <- (rd32_ext m m') by (intros x Hx; apply Hm; lia). apply (mpinit_reads _ _ _ es Ec).
  destruct Ht as (T1 & T2 & T3). unfold table_at. unfold CONF_SIZE in *. rewrite (rd16_ext m m') by (intros x Hx; apply Hm; lia).
  split; [done|]. split; [|done]. rewrite (bytes_at_ext m m'); [done|]. intros x Hx. apply Hm. lia.
Qed.

End low.

End MpFacts.
