(* ===== verification/Irq.v ===== *)
(** * Interrupt controllers and clocks (picirq.c, ioapic.c, timer.c, lapic.c)

    The drivers write to device registers; the devices are modelled as far as the
    drivers use them: the 8259A with its sequence of initialisation words, the
    I/O APIC with its index register and table, the local APIC and the CMOS clock
    as registers. *)

From S2P Require Import Prelude Trap.

(** ** picirq.c *)

Module Pic.

Definition IO_PIC1 : Z := 0x20.
Definition IO_PIC2 : Z := 0xA0.
Definition IRQ_SLAVE : Z := 2.

(** An 8259A: the initialisation words it still expects, the vector offset, the
    cascade and mode words, and the mask of its eight lines. *)
Record pic := MkPic { icw : nat; base : Z; cascade : Z; mode : Z; mask : Z }.

(** A write to the command port: ICW1 has bit 4 set and starts the sequence. *)
Definition command (v : Z) (p : pic) : pic :=
  if Z.testbit v 4 then MkPic 3 (base p) (cascade p) (mode p) 0 else p.

(** A write to the data port: ICW2 to ICW4, or the mask. *)
Definition data (v : Z) (p : pic) : pic :=
  match icw p with
  | 3%nat => MkPic 2 v (cascade p) (mode p) (mask p)
  | 2%nat => MkPic 1 (base p) v (mode p) (mask p)
  | 1%nat => MkPic 0 (base p) (cascade p) v (mask p)
  | _ => MkPic 0 (base p) (cascade p) (mode p) v
  end.

(** Both controllers and the variable [irqmask]. *)
Record st := MkSt { pic1 : pic; pic2 : pic; irqmask : Z }.

Definition outb (port v : Z) (s : st) : st :=
  let v := v mod 256 in
  if port =? IO_PIC1 then MkSt (command v (pic1 s)) (pic2 s) (irqmask s)
  else if port =? IO_PIC1 + 1 then MkSt (data v (pic1 s)) (pic2 s) (irqmask s)
  else if port =? IO_PIC2 then MkSt (pic1 s) (command v (pic2 s)) (irqmask s)
  else if port =? IO_PIC2 + 1 then MkSt (pic1 s) (data v (pic2 s)) (irqmask s)
  else s.

(** [static ushort irqmask = 0xFFFF & ~(1<<IRQ_SLAVE);] *)
Definition initial_mask : Z := Z.land 0xFFFF (Z.lnot (Z.shiftl 1 IRQ_SLAVE)).

Definition picsetmask (m : Z) (s : st) : st :=
  let s := MkSt (pic1 s) (pic2 s) m in
  let s := outb (IO_PIC1 + 1) m s in
  outb (IO_PIC2 + 1) (Z.shiftr m 8) s.

Definition picenable (irq : Z) (s : st) : st := picsetmask (Z.land (irqmask s) (Z.lnot (Z.shiftl 1 irq)) mod 2^16) s.

Definition picinit (s : st) : st :=
  let s := outb (IO_PIC1 + 1) 0xFF s in
  let s := outb (IO_PIC2 + 1) 0xFF s in
  let s := outb IO_PIC1 0x11 s in
  let s := outb (IO_PIC1 + 1) T_IRQ0 s in
  let s := outb (IO_PIC1 + 1) (Z.shiftl 1 IRQ_SLAVE) s in
  let s := outb (IO_PIC1 + 1) 0x3 s in
  let s := outb IO_PIC2 0x11 s in
  let s := outb (IO_PIC2 + 1) (T_IRQ0 + 8) s in
  let s := outb (IO_PIC2 + 1) IRQ_SLAVE s in
  let s := outb (IO_PIC2 + 1) 0x3 s in
  let s := outb IO_PIC1 0x68 s in
  let s := outb IO_PIC1 0x0a s in
  let s := outb IO_PIC2 0x68 s in
  let s := outb IO_PIC2 0x0a s in
  if negb (irqmask s =? 0xFFFF) then picsetmask (irqmask s) s else s.

End Pic.

(** ** ioapic.c *)

Module Ioapic.

Definition REG_ID : Z := 0x00.
Definition REG_VER : Z := 0x01.
Definition REG_TABLE : Z := 0x10.
Definition INT_DISABLED : Z := 0x00010000.

(** The index register and the registers behind it. *)
Record ioapic := MkIoapic { reg : Z; regs : Z -> Z }.

Definition ioapicread (r : Z) (a : ioapic) : Z * ioapic := (regs a r, MkIoapic r (regs a)).
Definition ioapicwrite (r v : Z) (a : ioapic) : ioapic := MkIoapic r (fun k => if k =? r then v else regs a k).

(** [for(i = 0; i <= maxintr; i++)], from [i] on. *)
Fixpoint ioapicinit_loop (n : nat) (i : Z) (a : ioapic) : ioapic :=
  match n with
  | O => a
  | S n =>
    let a := ioapicwrite (REG_TABLE + 2 * i) (Z.lor INT_DISABLED (T_IRQ0 + i)) a in
    let a := ioapicwrite (REG_TABLE + 2 * i + 1) 0 a in
    ioapicinit_loop n (i + 1) a
  end.

(** The lines printed, and the new state. *)
Definition ioapicinit (ismp : bool) (ioapicid : Z) (a : ioapic) : list string * ioapic :=
  if negb ismp then ([], a)
  else
    let '(ver, a) := ioapicread REG_VER a in
    let maxintr := Z.land (Z.shiftr ver 16) 0xFF in
    let '(v, a) := ioapicread REG_ID a in
    let id := Z.shiftr v 24 in
    let out := if negb (id =? ioapicid) then ["ioapicinit: id isn't equal to ioapicid; not a MP"%string] else [] in
    (out, ioapicinit_loop (Z.to_nat (maxintr + 1)) 0 a).

Definition ioapicenable (ismp : bool) (irq cpunum : Z) (a : ioapic) : ioapic :=
  if negb ismp then a
  else
    let a := ioapicwrite (REG_TABLE + 2 * irq) (T_IRQ0 + irq) a in
    ioapicwrite (REG_TABLE + 2 * irq + 1) (u32 (Z.shiftl cpunum 24)) a.

End Ioapic.

(** ** timer.c *)

Module Timer.

Definition IO_TIMER1 : Z := 0x040.
Definition TIMER_FREQ : Z := 1193182.
Definition TIMER_DIV (x : Z) : Z := (TIMER_FREQ + x / 2) / x.
Definition TIMER_MODE : Z := IO_TIMER1 + 3.

(** The writes to the ports of the timer, before [picenable(IRQ_TIMER)]. *)
Definition timerinit : list (Z * Z) :=
  [(TIMER_MODE, Z.lor 0x00 (Z.lor 0x04 0x30)); (IO_TIMER1, TIMER_DIV 100 mod 256); (IO_TIMER1, TIMER_DIV 100 / 256)].

End Timer.

(** ** lapic.c *)

Module Lapic.

Definition ID : Z := 0x0020 / 4.
Definition VER : Z := 0x0030 / 4.
Definition TPR : Z := 0x0080 / 4.
Definition EOI : Z := 0x00B0 / 4.
Definition SVR : Z := 0x00F0 / 4.
Definition ENABLE : Z := 0x00000100.
Definition ESR : Z := 0x0280 / 4.
Definition ICRLO : Z := 0x0300 / 4.
Definition INIT : Z := 0x00000500.
Definition STARTUP : Z := 0x00000600.
Definition ASSERT : Z := 0x00004000.
Definition LEVEL : Z := 0x00008000.
Definition BCAST : Z := 0x00080000.
Definition ICRHI : Z := 0x0310 / 4.
Definition TIMER : Z := 0x0320 / 4.
Definition X1 : Z := 0x0000000B.
Definition PERIODIC : Z := 0x00020000.
Definition PCINT : Z := 0x0340 / 4.
Definition LINT0 : Z := 0x0350 / 4.
Definition LINT1 : Z := 0x0360 / 4.
Definition ERROR : Z := 0x0370 / 4.
Definition MASKED : Z := 0x00010000.
Definition TICR : Z := 0x0380 / 4.
Definition TDCR : Z := 0x03E0 / 4.
Definition IRQ_ERROR : Z := 19.

(** The registers, and the writes to them in order; a value written can be read
    back. *)
Record lapic := MkLapic { regs : Z -> Z; writes : list (Z * Z) }.

Definition lapicw (index value : Z) (l : lapic) : lapic :=
  MkLapic (fun k => if k =? index then value else regs l k) (writes l ++ [(index, value)]).

(** DELIVS is not in the value written to ICRLO, which is what a read gives here,
    so the wait for it ends at its first test. *)
Definition lapicinit (present : bool) (l : lapic) : lapic :=
  if negb present then l
  else
    let l := lapicw SVR (Z.lor ENABLE (T_IRQ0 + IRQ_SPURIOUS)) l in
    let l := lapicw TDCR X1 l in
    let l := lapicw TIMER (Z.lor PERIODIC (T_IRQ0 + IRQ_TIMER)) l in
    let l := lapicw TICR 10000000 l in
    let l := lapicw LINT0 MASKED l in
    let l := lapicw LINT1 MASKED l in
    let l := if 4 <=? Z.land (Z.shiftr (regs l VER) 16) 0xFF then lapicw PCINT MASKED l else l in
    let l := lapicw ERROR (T_IRQ0 + IRQ_ERROR) l in
    let l := lapicw ESR 0 l in
    let l := lapicw ESR 0 l in
    let l := lapicw EOI 0 l in
    let l := lapicw ICRHI 0 l in
    let l := lapicw ICRLO (Z.lor BCAST (Z.lor INIT LEVEL)) l in
    lapicw TPR 0 l.

(** With interrupts on, the first call warns: the count [n] of such calls, whether
    this one warned, and the number of the processor. *)
Definition cpunum (present intr : bool) (n : Z) (l : lapic) : Z * bool * Z :=
  let '(n, warned) := if intr then (n + 1, n =? 0) else (n, false) in
  (n, warned, if present then Z.shiftr (regs l ID) 24 else 0).

Definition lapiceoi (present : bool) (l : lapic) : lapic := if present then lapicw EOI 0 l else l.

(** One startup interrupt. *)
Definition startup (apicid addr : Z) (l : lapic) : lapic :=
  let l := lapicw ICRHI (u32 (Z.shiftl apicid 24)) l in
  lapicw ICRLO (Z.lor STARTUP (Z.shiftr addr 12)) l.

(** Start additional processor running entry code at addr: the warm reset vector
    in memory and the CMOS shutdown code, and the interrupts. *)
Definition lapicstartap (apicid addr : Z) (m : Z -> Z) (l : lapic) : (Z -> Z) * list (Z * Z) * lapic :=
  let cmos := [(0x70, 0xF); (0x71, 0x0A)] in
  let wrv := 0x467 in
  let v := Z.shiftr addr 4 mod 2^16 in
  let m := fun a => if (a =? wrv) || (a =? wrv + 1) then 0 else if a =? wrv + 2 then v mod 256 else if a =? wrv + 3 then v / 256 else m a in
  let l := lapicw ICRHI (u32 (Z.shiftl apicid 24)) l in
  let l := lapicw ICRLO (Z.lor INIT (Z.lor LEVEL ASSERT)) l in
  let l := lapicw ICRLO (Z.lor INIT LEVEL) l in
  (m, cmos, startup apicid addr (startup apicid addr l)).

(** *** The real time clock *)

Definition CMOS_STATA : Z := 0x0a.
Definition CMOS_STATB : Z := 0x0b.
Definition CMOS_UIP : Z := 128.

Record rtcdate := MkDate { second : Z; minute : Z; hour : Z; day : Z; month : Z; year : Z }.

(** What the register [r] gives at the [n]th read: [cmos_read] with the number
    of reads so far. *)
Definition cmos_read (cmos : nat -> Z -> Z) (r : Z) (n : nat) : Z * nat := (cmos n r, S n).

Definition fill_rtcdate (cmos : nat -> Z -> Z) (n : nat) : rtcdate * nat :=
  let '(s, n) := cmos_read cmos 0x00 n in
  let '(mi, n) := cmos_read cmos 0x02 n in
  let '(h, n) := cmos_read cmos 0x04 n in
  let '(d, n) := cmos_read cmos 0x07 n in
  let '(mo, n) := cmos_read cmos 0x08 n in
  let '(y, n) := cmos_read cmos 0x09 n in
  (MkDate s mi h d mo y, n).

#[global] Instance rtcdate_eq_dec : EqDecision rtcdate.
Proof. solve_decision. Defined.

(** [for (;;)]: two equal readings, with no update in progress. *)
Fixpoint cmostime_loop (fuel : nat) (cmos : nat -> Z -> Z) (n : nat) : option (rtcdate * nat) :=
  match fuel with
  | O => None
  | S fuel =>
    let '(t1, n) := fill_rtcdate cmos n in
    let '(a, n) := cmos_read cmos CMOS_STATA n in
    if negb (Z.land a CMOS_UIP =? 0) then cmostime_loop fuel cmos n
    else
      let '(t2, n) := fill_rtcdate cmos n in
      if bool_decide (t1 = t2) then Some (t1, n) else cmostime_loop fuel cmos n
  end.

(** [CONV(x)] *)
Definition conv (x : Z) : Z := Z.shiftr x 4 * 10 + Z.land x 0xf.

Definition cmostime (fuel : nat) (cmos : nat -> Z -> Z) : option rtcdate :=
  let '(sb, n) := cmos_read cmos CMOS_STATB 0 in
  let bcd := Z.land sb (Z.shiftl 1 2) =? 0 in
  match cmostime_loop fuel cmos n with
  | None => None
  | Some (t, _) =>
    let t := if bcd then MkDate (conv (second t)) (conv (minute t)) (conv (hour t)) (conv (day t)) (conv (month t)) (conv (year t)) else t in
    Some (MkDate (second t) (minute t) (hour t) (day t) (month t) (year t + 2000))
  end.

End Lapic.

(** ** What the controllers are set up for *)

Module IrqFacts.

(** Line [j] of the two controllers is masked. *)
Definition masked (s : Pic.st) (j : Z) : bool :=
  if j <? 8 then Z.testbit (Pic.mask (Pic.pic1 s)) j else Z.testbit (Pic.mask (Pic.pic2 s)) (j - 8).

(** Initialised, with vectors from T_IRQ0 on, and the mask of [irqmask]. *)
Record pics_ok (s : Pic.st) : Prop := {
  po_icw : Pic.icw (Pic.pic1 s) = 0%nat /\ Pic.icw (Pic.pic2 s) = 0%nat;
  po_base : Pic.base (Pic.pic1 s) = T_IRQ0 /\ Pic.base (Pic.pic2 s) = T_IRQ0 + 8;
  po_cascade : Pic.cascade (Pic.pic1 s) = 4 /\ Pic.cascade (Pic.pic2 s) = 2;
  po_range : 0 <= Pic.irqmask s < 2^16;
  po_mask : Pic.mask (Pic.pic1 s) = Pic.irqmask s mod 256 /\ Pic.mask (Pic.pic2 s) = Pic.irqmask s / 256 }.

Lemma picsetmask_ok m s : pics_ok s -> 0 <= m < 2^16 -> pics_ok (Pic.picsetmask m s) /\ Pic.irqmask (Pic.picsetmask m s) = m.
Proof.
  intros [[H1 H2] [H3 H4] [H5 H6] _ _] Hm. destruct s as [[i1 b1 c1 m1 k1] [i2 b2 c2 m2 k2] im]. cbn in *. subst. split; [|done]. split; cbn; try done.
  split; [done|]. change (Z.shiftr m 8 mod 256 = m / 256). rewrite Z.shiftr_div_pow2 by lia. apply Z.mod_small. change (2^8) with 256. zdm.
Qed.

Lemma masked_testbit s j : pics_ok s -> 0 <= j < 16 -> masked s j = Z.testbit (Pic.irqmask s) j.
Proof.
  intros [_ _ _ Hr [E1 E2]] Hj. unfold masked. rewrite E1, E2. destruct (Z.ltb_spec j 8).
  - change 256 with (2^8). by rewrite Z.mod_pow2_bits_low by lia.
  - change 256 with (2^8). rewrite Z.div_pow2_bits by lia. f_equal. lia.
Qed.

Lemma picenable_ok irq s : pics_ok s -> 0 <= irq < 16 ->
  pics_ok (Pic.picenable irq s) /\ forall j, 0 <= j < 16 -> masked (Pic.picenable irq s) j = masked s j && negb (j =? irq).
Proof.
  intros Hs Hi. set (m := Z.land (Pic.irqmask s) (Z.lnot (Z.shiftl 1 irq)) mod 2^16).
  destruct (picsetmask_ok m s Hs) as [Hok Em]; [apply Z.mod_pos_bound; lia|]. split; [exact Hok|]. intros j Hj.
  change (Pic.picenable irq s) with (Pic.picsetmask m s). rewrite !masked_testbit by done. rewrite Em. unfold m.
  rewrite Z.mod_pow2_bits_low, Z.land_spec, Z.lnot_spec by lia. f_equal. f_equal. rewrite Z.shiftl_spec by lia.
  destruct (Z.eqb_spec j irq) as [->|Hne]; [by rewrite Z.sub_diag|].
  destruct (decide (j < irq)); [apply Z.testbit_neg_r; lia|]. apply Z.bits_above_log2; [lia|]. change (Z.log2 1) with 0. lia.
Qed.

Lemma picinit_ok s : Pic.irqmask s = Pic.initial_mask -> pics_ok (Pic.picinit s) /\ Pic.irqmask (Pic.picinit s) = Pic.initial_mask.
Proof. intros E. destruct s as [[i1 b1 c1 m1 k1] [i2 b2 c2 m2 k2] im]. cbn in E. subst im. split; [|done]. split; by vm_compute. Qed.

Lemma enables_ok irqs : forall s, pics_ok s -> Forall (fun irq => 0 <= irq < 16) irqs ->
  pics_ok (foldl (fun s irq => Pic.picenable irq s) s irqs) /\
  forall j, 0 <= j < 16 -> masked (foldl (fun s irq => Pic.picenable irq s) s irqs) j = masked s j && negb (bool_decide (j ∈ irqs)).
Proof.
  induction irqs as [|irq irqs IH]; intros s Hs Hf; cbn [foldl].
  - split; [done|]. intros j _. rewrite bool_decide_eq_false_2 by apply not_elem_of_nil. by rewrite andb_true_r.
  - apply Forall_cons in Hf as [Hi Hf]. destruct (picenable_ok irq s Hs Hi) as [Hs1 H1]. destruct (IH _ Hs1 Hf) as [Hs2 H2]. split; [done|].
    intros j Hj. rewrite H2, H1 by done. rewrite <- andb_assoc, <- negb_orb. do 2 f_equal.
    destruct (Z.eqb_spec j irq) as [->|Hne]; [rewrite (bool_decide_eq_true_2 (irq ∈ irq :: irqs)) by constructor; done|].
    apply bool_decide_ext. rewrite elem_of_cons. tauto.
Qed.

(** The controllers after the start of the kernel: whatever their state was, the
    lines raise the vectors from T_IRQ0 on, and exactly the lines that were
    enabled, and the one that connects the second controller, are open. *)
Theorem pic_enables s irqs :
  Pic.irqmask s = Pic.initial_mask -> Forall (fun irq => 0 <= irq < 16) irqs ->
  let s' := foldl (fun s irq => Pic.picenable irq s) (Pic.picinit s) irqs in
  Pic.base (Pic.pic1 s') = T_IRQ0 /\ Pic.base (Pic.pic2 s') = T_IRQ0 + 8 /\
  forall j, 0 <= j < 16 -> masked s' j = negb (bool_decide (j = Pic.IRQ_SLAVE \/ j ∈ irqs)).
Proof.
  intros Hm Hf s'. destruct (picinit_ok s Hm) as [Hi Em]. destruct (enables_ok irqs _ Hi Hf) as [Hs H]. split; [apply Hs|]. split; [apply Hs|].
  intros j Hj. unfold s'. rewrite H, masked_testbit, Em by done.
  assert (E : Z.testbit Pic.initial_mask j = negb (bool_decide (j = Pic.IRQ_SLAVE))).
  { assert (j = 0 \/ j = 1 \/ j = 2 \/ j = 3 \/ j = 4 \/ j = 5 \/ j = 6 \/ j = 7 \/ j = 8 \/ j = 9 \/ j = 10 \/ j = 11 \/ j = 12 \/ j = 13 \/ j = 14 \/ j = 15) as Hc by lia.
    repeat destruct Hc as [-> | Hc]; try (by vm_compute). subst. by vm_compute. }
  rewrite E, <- negb_orb, <- bool_decide_or. done.
Qed.

(** *** The I/O APIC *)

(** The two registers of entry [j]. *)
Definition entry (a : Ioapic.ioapic) (j : Z) : Z * Z :=
  (Ioapic.regs a (Ioapic.REG_TABLE + 2 * j), Ioapic.regs a (Ioapic.REG_TABLE + 2 * j + 1)).

Lemma write_pair k j lo hi a :
  entry (Ioapic.ioapicwrite (Ioapic.REG_TABLE + 2 * k + 1) hi (Ioapic.ioapicwrite (Ioapic.REG_TABLE + 2 * k) lo a)) j =
  if j =? k then (lo, hi) else entry a j.
Proof.
  unfold entry, Ioapic.ioapicwrite. cbn [Ioapic.regs].
  destruct (Z.eqb_spec j k) as [->|Hne].
  - rewrite Z.eqb_refl. by rewrite (proj2 (Z.eqb_neq _ _)), Z.eqb_refl by lia.
  - by rewrite !(proj2 (Z.eqb_neq _ _)) by lia.
Qed.

Lemma ioapicinit_loop_entries n : forall i a j,
  entry (Ioapic.ioapicinit_loop n i a) j =
  if (i <=? j) && (j <? i + Z.of_nat n) then (Z.lor Ioapic.INT_DISABLED (T_IRQ0 + j), 0) else entry a j.
Proof.
  induction n as [|n IH]; intros i a j; cbn [Ioapic.ioapicinit_loop].
  - destruct (Z.leb_spec i j), (Z.ltb_spec j (i + Z.of_nat 0)); try done; lia.
  - rewrite IH, write_pair.
    destruct (Z.leb_spec (i + 1) j), (Z.ltb_spec j (i + 1 + Z.of_nat n)), (Z.leb_spec i j), (Z.ltb_spec j (i + Z.of_nat (S n))), (Z.eqb_spec j i);
      try (subst; done); lia.
Qed.

(** The entry of line [j] after [ioapicenable] of the pairs of a line and a
    processor, the last one that names the line first. *)
Fixpoint route (l : list (Z * Z)) (j : Z) : option Z :=
  match l with
  | [] => None
  | (irq, cpu) :: l => match route l j with Some c => Some c | None => if j =? irq then Some cpu else None end
  end.

Definition enable_all (l : list (Z * Z)) (a : Ioapic.ioapic) : Ioapic.ioapic :=
  foldl (fun a p => Ioapic.ioapicenable true p.1 p.2 a) a l.

Lemma enable_all_entries l : forall a j,
  entry (enable_all l a) j = match route l j with Some cpu => (T_IRQ0 + j, u32 (Z.shiftl cpu 24)) | None => entry a j end.
Proof.
  induction l as [|[irq cpu] l IH]; intros a j; [done|]. change (enable_all ((irq, cpu) :: l) a) with (enable_all l (Ioapic.ioapicenable true irq cpu a)).
  rewrite IH. cbn [route]. destruct (route l j); [done|]. unfold Ioapic.ioapicenable. cbn [negb]. rewrite write_pair.
  destruct (Z.eqb_spec j irq) as [->|]; done.
Qed.

(** After [ioapicinit] and the calls of [ioapicenable], each line of the I/O APIC
    raises its vector at the processor it was last enabled for, and a line that
    was not enabled is disabled and goes to no processor. *)
Theorem ioapic_routes id a l j :
  0 <= j <= Z.land (Z.shiftr (Ioapic.regs a Ioapic.REG_VER) 16) 0xFF ->
  entry (enable_all l (Ioapic.ioapicinit true id a).2) j =
  match route l j with
  | Some cpu => (T_IRQ0 + j, u32 (Z.shiftl cpu 24))
  | None => (Z.lor Ioapic.INT_DISABLED (T_IRQ0 + j), 0)
  end.
Proof.
  intros Hj. rewrite enable_all_entries. destruct (route l j); [done|]. unfold Ioapic.ioapicinit, Ioapic.ioapicread.
  cbn [negb snd Ioapic.regs]. rewrite ioapicinit_loop_entries, Z2Nat.id by lia.
  by rewrite (proj2 (Z.leb_le _ _)), (proj2 (Z.ltb_lt _ _)) by lia.
Qed.

(** *** The local APIC and the clock *)

(** The address at which a startup interrupt starts the processor it is for: its
    vector is the number of a page of the first megabyte. *)
Definition startup_addr (icrlo : Z) : option Z :=
  if Z.land icrlo 0x700 =? Lapic.STARTUP then Some (4096 * Z.land icrlo 0xFF) else None.

Lemma startup_icr addr : 0 <= addr < 2^20 -> addr mod 4096 = 0 ->
  startup_addr (Z.lor Lapic.STARTUP (Z.shiftr addr 12)) = Some addr.
Proof.
  intros Ha Hp. rewrite Z.shiftr_div_pow2 by lia. change (2^12) with 4096.
  assert (exists q, 0 <= q < 256 /\ addr = 4096 * q) as (q & Hq & ->) by (exists (addr / 4096); split; zdm).
  replace (4096 * q / 4096) with q by zdm. unfold startup_addr.
  assert (E : forall b, Z.testbit q b = true -> b < 8).
  { intros b Hb. destruct (decide (b < 8)); [done|]. rewrite <- (Z.mod_small q (2^8)), Z.mod_pow2_bits_high in Hb by lia. done. }
  rewrite !Z.land_lor_distr_l.
  assert (Z.land q 0xFF = q) as ->. { change 0xFF with (Z.ones 8). rewrite Z.land_ones by lia. by apply Z.mod_small. }
  assert (Z.land q 0x700 = 0) as ->.
  { apply Z.bits_inj'. intros b Hb. rewrite Z.land_spec, Z.bits_0. destruct (Z.testbit q b) eqn:Hbit; [|done]. apply E in Hbit.
    assert (b = 0 \/ b = 1 \/ b = 2 \/ b = 3 \/ b = 4 \/ b = 5 \/ b = 6 \/ b = 7) as Hc by lia. by repeat destruct Hc as [-> | Hc]; [..|subst]. }
  by change (Z.land Lapic.STARTUP 0xFF) with 0.
Qed.

(** [lapicstartap] sends the processor [apicid] an INIT and then startup
    interrupts that name the page of [addr], and nothing to another processor;
    the warm reset vector is the segment of the address. *)
Theorem startap_starts apicid addr m l : 0 <= apicid < 256 -> 0 <= addr < 2^20 -> addr mod 4096 = 0 ->
  let '(m', cmos, l') := Lapic.lapicstartap apicid addr m l in
  (exists sipi, startup_addr sipi = Some addr /\
    Lapic.writes l' = Lapic.writes l ++
      [(Lapic.ICRHI, apicid * 2^24); (Lapic.ICRLO, 0xC500); (Lapic.ICRLO, 0x8500);
       (Lapic.ICRHI, apicid * 2^24); (Lapic.ICRLO, sipi); (Lapic.ICRHI, apicid * 2^24); (Lapic.ICRLO, sipi)]) /\
  16 * (m' 0x469 + 256 * m' 0x46A) + (m' 0x467 + 256 * m' 0x468) = addr.
Proof.
  intros Hi Ha Hp. unfold Lapic.lapicstartap. split.
  - exists (Z.lor Lapic.STARTUP (Z.shiftr addr 12)). split; [by apply startup_icr|].
    unfold Lapic.startup, Lapic.lapicw. cbn [Lapic.writes].
    assert (u32 (Z.shiftl apicid 24) = apicid * 2^24) as -> by (rewrite Z.shiftl_mul_pow2 by lia; apply Z.mod_small; lia).
    by rewrite <- !app_assoc.
  - set (v := Z.shiftr addr 4 mod 2^16). change (16 * (v mod 256 + 256 * (v / 256)) + (0 + 256 * 0) = addr).
    unfold v. rewrite Z.shiftr_div_pow2 by lia. change (2^4) with 16. rewrite (Z.mod_small (addr / 16)) by zdm. zdm.
Qed.

(** A two-digit number as a clock in BCD mode keeps it. *)
Definition bcd (v : Z) : Z := v / 10 * 16 + v mod 10.

Lemma conv_bcd v : 0 <= v < 100 -> Lapic.conv (bcd v) = v.
Proof.
  intros Hv. unfold Lapic.conv, bcd. rewrite Z.shiftr_div_pow2 by lia. change 0xf with (Z.ones 4). rewrite Z.land_ones by lia.
  change (2^4) with 16. zdm.
Qed.

(** The registers of a clock that shows the date [d], in BCD or in binary. *)
Definition shows (binary : bool) (d : Lapic.rtcdate) (r : Z) : Z :=
  let e v := if binary then v else bcd v in
  if r =? 0x00 then e (Lapic.second d) else if r =? 0x02 then e (Lapic.minute d) else if r =? 0x04 then e (Lapic.hour d)
  else if r =? 0x07 then e (Lapic.day d) else if r =? 0x08 then e (Lapic.month d) else if r =? 0x09 then e (Lapic.year d)
  else if r =? Lapic.CMOS_STATB then (if binary then 4 else 0) else 0.

Definition two_digits (d : Lapic.rtcdate) : Prop :=
  Forall (fun v => 0 <= v < 100) [Lapic.second d; Lapic.minute d; Lapic.hour d; Lapic.day d; Lapic.month d; Lapic.year d].

(** While the clock shows one date, [cmostime] returns it, with the century, in
    both modes of the clock. *)
Theorem cmostime_reads fuel binary d : two_digits d ->
  Lapic.cmostime (S fuel) (fun _ => shows binary d) =
  Some (Lapic.MkDate (Lapic.second d) (Lapic.minute d) (Lapic.hour d) (Lapic.day d) (Lapic.month d) (Lapic.year d + 2000)).
Proof.
  intros Hd. unfold two_digits in Hd. repeat apply Forall_cons in Hd as [? Hd]. clear Hd.
  unfold Lapic.cmostime, Lapic.cmos_read. cbn [Lapic.cmostime_loop]. unfold Lapic.fill_rtcdate, Lapic.cmos_read.
  change (shows binary d Lapic.CMOS_STATA) with 0. cbn [Z.land Z.eqb negb]. rewrite bool_decide_eq_true_2 by done.
  destruct binary; [done|]. set (c v := Lapic.conv (bcd v)).
  change (Some (Lapic.MkDate (c (Lapic.second d)) (c (Lapic.minute d)) (c (Lapic.hour d)) (c (Lapic.day d)) (c (Lapic.month d)) (c (Lapic.year d) + 2000)) =
    Some (Lapic.MkDate (Lapic.second d) (Lapic.minute d) (Lapic.hour d) (Lapic.day d) (Lapic.month d) (Lapic.year d + 2000))).
  unfold c. by rewrite !conv_bcd by done.
Qed.

(** An update between the readings makes [cmostime] read again. *)
Lemma cmostime_retries fuel cmos n t1 t2 n1 n2 :
  Lapic.fill_rtcdate cmos n = (t1, n1) -> Lapic.fill_rtcdate cmos (S n1) = (t2, n2) ->
  Z.land (cmos n1 Lapic.CMOS_STATA) Lapic.CMOS_UIP = 0 -> t1 <> t2 ->
  Lapic.cmostime_loop (S fuel) cmos n = Lapic.cmostime_loop fuel cmos n2.
Proof.
  intros E1 E2 Ha Hne. cbn [Lapic.cmostime_loop]. rewrite E1. unfold Lapic.cmos_read. rewrite Ha, E2. cbn [Z.eqb negb].
  by rewrite bool_decide_eq_false_2.
Qed.

End IrqFacts.
