(* ===== verification/Boot.v ===== *)
(** * The boot loader (bootmain.c)

    [bootmain] reads the kernel, an ELF image that starts at sector 1 of the boot
    disk, to its physical addresses.  The disk controller is its registers; its
    status, which the code polls, is a function of the number of polls so far.
    Memory and the disk are functions from addresses to bytes. *)

From S2P Require Import Prelude Ide Mp.
Import Mp.

Module Boot.

Definition SECTSIZE : Z := 512.
Definition ELF_MAGIC : Z := 0x464C457F.

(** The memory, the sector registers 0x1F3 to 0x1F6, and the polls so far. *)
Record bst := MkBst { mem : Z -> Z; lba : Z * Z * Z * Z; polls : nat }.

Section Disk.

(** The bytes of the disk, what the [n]th poll of the status port gives, and the
    number of turns that loops are followed for. *)
Variable disk : Z -> Z.
Variable status : nat -> Z.
Variable fuel : nat.

(** [while((inb(0x1F7) & 0xC0) != 0x40);], from poll [p] on: the polls made. *)
Fixpoint waitdisk_loop (n : nat) (p : nat) : option nat :=
  match n with
  | O => None
  | S n => if Z.land (status p) 0xC0 =? 0x40 then Some (S p) else waitdisk_loop n (S p)
  end.

Definition waitdisk (s : bst) : option bst :=
  match waitdisk_loop fuel (polls s) with
  | None => None
  | Some p => Some (MkBst (mem s) (lba s) p)
  end.

(** The writes to the sector registers, 8 bits each. *)
Definition issue (offset : Z) (s : bst) : bst :=
  MkBst (mem s)
    (offset mod 256, Z.shiftr offset 8 mod 256, Z.shiftr offset 16 mod 256, Z.lor (Z.shiftr offset 24) 0xE0 mod 256) (polls s).

(** [insl(0x1F0, dst, SECTSIZE/4)]: the sector that the registers select. *)
Definition insl (dst : Z) (s : bst) : bst :=
  let '(r3, r4, r5, r6) := lba s in
  let sector := (ide_select r3 r4 r5 r6).2 in
  MkBst (fun a => if u32 (a - dst) <? SECTSIZE then disk (sector * SECTSIZE + u32 (a - dst)) else mem s a) (lba s) (polls s).

(** Read a single sector at offset into dst. *)
Definition readsect (dst offset : Z) (s : bst) : option bst :=
  match waitdisk s with
  | None => None
  | Some s =>
    match waitdisk (issue offset s) with
    | None => None
    | Some s => Some (insl dst s)
    end
  end.

(** [for(; pa < epa; pa += SECTSIZE, offset++)] *)
Fixpoint readseg_loop (n : nat) (pa epa offset : Z) (s : bst) : option bst :=
  match n with
  | O => None
  | S n =>
    if pa <? epa then
      match readsect pa offset s with
      | None => None
      | Some s => readseg_loop n (u32 (pa + SECTSIZE)) epa (u32 (offset + 1)) s
      end
    else Some s
  end.

(** Read 'count' bytes at 'offset' from kernel into physical address 'pa'. *)
Definition readseg (pa count offset : Z) (s : bst) : option bst :=
  let epa := u32 (pa + count) in
  let pa := u32 (pa - offset mod SECTSIZE) in
  let offset := offset / SECTSIZE + 1 in
  readseg_loop fuel pa epa offset s.

Definition stosb (a v n : Z) (s : bst) : bst :=
  MkBst (fun k => if u32 (k - a) <? n then v else mem s k) (lba s) (polls s).

(** The fields of [struct elfhdr] and [struct proghdr] that are used. *)
Definition e_magic (m : Z -> Z) (elf : Z) : Z := rd32 m elf.
Definition e_entry (m : Z -> Z) (elf : Z) : Z := rd32 m (elf + 24).
Definition e_phoff (m : Z -> Z) (elf : Z) : Z := rd32 m (elf + 28).
Definition e_phnum (m : Z -> Z) (elf : Z) : Z := rd16 m (elf + 44).
Definition ph_off (m : Z -> Z) (ph : Z) : Z := rd32 m (ph + 4).
Definition ph_paddr (m : Z -> Z) (ph : Z) : Z := rd32 m (ph + 12).
Definition ph_filesz (m : Z -> Z) (ph : Z) : Z := rd32 m (ph + 16).
Definition ph_memsz (m : Z -> Z) (ph : Z) : Z := rd32 m (ph + 20).
Definition PROGHDR_SIZE : Z := 32.

(** [for(; ph < eph; ph++)]: each segment; the header is read again after the
    segment has been. *)
Fixpoint load_loop (n : nat) (ph eph : Z) (s : bst) : option bst :=
  match n with
  | O => None
  | S n =>
    if ph <? eph then
      let pa := ph_paddr (mem s) ph in
      match readseg pa (ph_filesz (mem s) ph) (ph_off (mem s) ph) s with
      | None => None
      | Some s =>
        let filesz := ph_filesz (mem s) ph in
        let memsz := ph_memsz (mem s) ph in
        let s := if filesz <? memsz then stosb (u32 (pa + filesz)) 0 (memsz - filesz) s else s in
        load_loop n (u32 (ph + PROGHDR_SIZE)) eph s
      end
    else Some s
  end.

(** The scratch space for the header. *)
Definition elf : Z := 0x10000.

(** The entry point that is called, or nothing when the image is not ELF. *)
Definition bootmain (s : bst) : option (option Z * bst) :=
  match readseg elf 4096 0 s with
  | None => None
  | Some s =>
    if negb (e_magic (mem s) elf =? ELF_MAGIC) then Some (None, s)
    else
      let ph := u32 (elf + e_phoff (mem s) elf) in
      let eph := u32 (ph + PROGHDR_SIZE * e_phnum (mem s) elf) in
      match load_loop fuel ph eph s with
      | None => None
      | Some s => Some (Some (e_entry (mem s) elf), s)
      end
  end.

End Disk.

End Boot.

Module BootFacts.
Import Boot.

Lemma u32_id x : 0 <= x < 2^32 -> u32 x = x.
Proof. apply Z.mod_small. Qed.

(** [a - dst] as the code's pointers have it is below [n] exactly in the range. *)
Lemma in_range a dst n : 0 <= a < 2^32 -> 0 <= dst -> 0 <= n -> dst + n <= 2^32 ->
  (u32 (a - dst) <? n) = (dst <=? a) && (a <? dst + n).
Proof.
  intros Ha Hd Hn Hw. unfold u32.
  destruct (Z.leb_spec dst a).
  - rewrite Z.mod_small by lia. destruct (Z.ltb_spec (a - dst) n), (Z.ltb_spec a (dst + n)); try done; lia.
  - cbn [andb]. apply Z.ltb_ge. assert ((a - dst) mod 2^32 = a - dst + 2^32) by zdm. lia.
Qed.

Section Disk.

Variable disk : Z -> Z.
Variable status : nat -> Z.
Variable fuel : nat.

(** The drive is ready within [fuel] polls, from any time on. *)
Hypothesis ready : forall p, exists k, (k < fuel)%nat /\ Z.land (status (p + k)) 0xC0 = 0x40.

(** The kernel image: the disk from sector 1 on. *)
Definition image (o : Z) : Z := disk (SECTSIZE + o).

Lemma waitdisk_loop_returns k : forall n p, (k < n)%nat -> Z.land (status (p + k)) 0xC0 = 0x40 ->
  exists p', waitdisk_loop status n p = Some p'.
Proof.
  induction k as [|k IH]; intros [|n] p Hk Hs; try lia; cbn [waitdisk_loop].
  - rewrite Nat.add_0_r in Hs. rewrite Hs. by eexists.
  - destruct (_ =? _); [by eexists|]. apply IH; [lia|]. by replace (S p + k)%nat with (p + S k)%nat by lia.
Qed.

Lemma waitdisk_returns s : exists p, waitdisk status fuel s = Some (MkBst (mem s) (lba s) p).
Proof.
  destruct (ready (polls s)) as (k & Hk & Hs). unfold waitdisk.
  destruct (waitdisk_loop_returns k fuel (polls s) Hk Hs) as [p ->]. by eexists.
Qed.

(** The registers select the sector. *)
Lemma issue_selects offset : 0 <= offset < 2^28 ->
  (ide_select (offset mod 256) (Z.shiftr offset 8 mod 256) (Z.shiftr offset 16 mod 256) (Z.lor (Z.shiftr offset 24) 0xE0 mod 256)).2 = offset.
Proof.
  intros Ho. pose proof (ide_select_sector 0 offset Ho) as E. rewrite !land_255 in E.
  change (Z.lor 0xe0 (Z.shiftl (Z.land 0 1) 4)) with 0xe0 in E.
  assert (Hs : 0 <= Z.shiftr offset 24 < 2^4) by (rewrite Z.shiftr_div_pow2 by lia; zdm).
  assert (Z.land (Z.shiftr offset 24) 0x0f = Z.shiftr offset 24) as E1.
  { change 0x0f with (Z.ones 4). rewrite Z.land_ones by lia. by apply Z.mod_small. }
  rewrite E1, Z.lor_comm in E. rewrite (Z.mod_small (Z.lor _ _)); [by rewrite E|].
  rewrite Z.lor_comm. rewrite (lor_disjoint_add 4) by (lia || done). lia.
Qed.

Lemma readsect_reads dst offset s : 0 <= dst -> dst + SECTSIZE <= 2^32 -> 0 <= offset < 2^28 ->
  exists s', readsect disk status fuel dst offset s = Some s' /\
    forall a, 0 <= a < 2^32 ->
      mem s' a = if (dst <=? a) && (a <? dst + SECTSIZE) then disk (offset * SECTSIZE + (a - dst)) else mem s a.
Proof.
  intros Hd Hw Ho. unfold readsect. destruct (waitdisk_returns s) as [p1 ->].
  destruct (waitdisk_returns (issue offset (MkBst (mem s) (lba s) p1))) as [p2 ->].
  eexists; split; [done|]. intros a Ha. unfold insl, issue. cbn [lba mem]. rewrite issue_selects by done.
  rewrite in_range by (unfold SECTSIZE in *; lia). destruct (Z.leb_spec dst a), (Z.ltb_spec a (dst + SECTSIZE)); cbn [andb]; try done.
  by rewrite u32_id by (unfold SECTSIZE in *; lia).
Qed.

Lemma readseg_loop_reads k : forall n pa epa offset s,
  (k < n)%nat -> SECTSIZE * (Z.of_nat k - 1) < epa - pa <= SECTSIZE * Z.of_nat k ->
  0 <= pa -> epa + SECTSIZE <= 2^32 -> 0 <= offset -> offset + Z.of_nat k <= 2^28 ->
  exists s', readseg_loop disk status fuel n pa epa offset s = Some s' /\
    forall a, 0 <= a < 2^32 ->
      mem s' a = if (pa <=? a) && (a <? pa + SECTSIZE * Z.of_nat k) then disk (offset * SECTSIZE + (a - pa)) else mem s a.
Proof.
  induction k as [|k IH]; intros [|n] pa epa offset s Hn Hk Hp Hw Ho Hl; try lia; cbn [readseg_loop]; unfold SECTSIZE in *.
  - rewrite (proj2 (Z.ltb_ge _ _)) by lia. eexists; split; [done|]. intros a Ha.
    destruct (Z.leb_spec pa a), (Z.ltb_spec a (pa + 512 * Z.of_nat 0)); try done; lia.
  - rewrite (proj2 (Z.ltb_lt _ _)) by lia.
    destruct (readsect_reads pa offset s) as (s1 & -> & H1); unfold SECTSIZE in *; [lia..|].
    rewrite !u32_id by lia.
    destruct (IH n (pa + 512) epa (offset + 1) s1) as (s2 & -> & H2); [lia..|]. eexists; split; [done|]. intros a Ha.
    rewrite H2, H1 by done.
    destruct (Z.leb_spec (pa + 512) a), (Z.ltb_spec a (pa + 512 + 512 * Z.of_nat k)), (Z.leb_spec pa a), (Z.ltb_spec a (pa + 512)),
      (Z.ltb_spec a (pa + 512 * Z.of_nat (S k))); cbn [andb]; try done; try lia.
    f_equal. lia.
Qed.

(** [readseg] reads the bytes asked for, and perhaps some before them and some
    after them, less than a sector each. *)
Lemma readseg_reads pa count offset s : 0 <= count -> 0 <= offset < 2^32 -> offset mod SECTSIZE <= pa -> pa + count + SECTSIZE <= 2^32 ->
  count + 2 * SECTSIZE <= SECTSIZE * Z.of_nat fuel ->
  exists s' e, readseg disk status fuel pa count offset s = Some s' /\ pa + count <= e /\
    forall a, 0 <= a < 2^32 -> mem s' a = if (pa - offset mod SECTSIZE <=? a) && (a <? e) then image (offset + (a - pa)) else mem s a.
Proof.
  intros Hc Ho Hp Hw Hf. unfold readseg, SECTSIZE in *. pose proof (Z.mod_pos_bound offset 512 ltac:(lia)) as Hm.
  rewrite !u32_id by lia. set (r := offset mod 512) in *. set (k := Z.to_nat ((count + r + 511) / 512)).
  assert (Hk : Z.of_nat k = (count + r + 511) / 512) by (unfold k; rewrite Z2Nat.id; zdm).
  assert (Hk' : 512 * (Z.of_nat k - 1) < count + r <= 512 * Z.of_nat k) by (rewrite Hk; zdm). clearbody k. clear Hk.
  destruct (readseg_loop_reads k fuel (pa - r) (pa + count) (offset / 512 + 1) s) as (s' & E & H); unfold SECTSIZE in *; [lia | lia | lia | lia | zdm | zdm |].
  exists s', (pa - r + 512 * Z.of_nat k). split; [done|]. split; [lia|]. intros a Ha. rewrite (H a Ha).
  destruct (_ && _); [|done]. unfold image, SECTSIZE. f_equal. unfold r. zdm.
Qed.

(** *** Program headers *)

Record segment := MkSegment { g_off : Z; g_paddr : Z; g_filesz : Z; g_memsz : Z }.

Definition segment_at (m : Z -> Z) (ph : Z) : segment := MkSegment (ph_off m ph) (ph_paddr m ph) (ph_filesz m ph) (ph_memsz m ph).

(** The segments of the [n] headers from [ph] on. *)
Fixpoint segments (m : Z -> Z) (ph : Z) (n : nat) : list segment :=
  match n with
  | O => []
  | S n => segment_at m ph :: segments m (ph + PROGHDR_SIZE) n
  end.

(** A header without contents, as the one that says how the stack is used; no
    sector is read for it. *)
Definition empty (g : segment) : Prop :=
  g_filesz g = 0 /\ g_memsz g = 0 /\ g_off g mod SECTSIZE = 0 /\ 0 <= g_paddr g < 2^32.

(** The segment is from [lo] on, also with what is read before it up to the start
    of a sector, and not too long. *)
Definition placed (lo : Z) (g : segment) : Prop :=
  0 <= g_off g < 2^32 /\ 0 <= g_filesz g <= g_memsz g /\ lo <= g_paddr g - g_off g mod SECTSIZE /\
  g_paddr g + g_memsz g + SECTSIZE <= 2^32 /\ g_memsz g + 2 * SECTSIZE <= SECTSIZE * Z.of_nat fuel.

(** The segments with contents are in increasing order. *)
Fixpoint laid_out (lo : Z) (l : list segment) : Prop :=
  match l with
  | [] => True
  | g :: l => (empty g /\ laid_out lo l) \/ (placed lo g /\ laid_out (g_paddr g + g_memsz g) l)
  end.

(** The segment is in memory. *)
Definition loaded (m : Z -> Z) (g : segment) : Prop :=
  forall k, 0 <= k < g_memsz g -> m (g_paddr g + k) = if k <? g_filesz g then image (g_off g + k) else 0.

Lemma bytes_at_shift m m' d a n : (forall k, a <= k < a + Z.of_nat n -> m (d + k) = m' k) -> bytes_at m (d + a) n = bytes_at m' a n.
Proof.
  intros H. unfold bytes_at. apply list_fmap_ext. intros i k Hk. apply lookup_seq in Hk as [-> Hk]. rewrite <- H by lia. f_equal. lia.
Qed.

Lemma rd32_shift m m' d a : (forall k, a <= k < a + 4 -> m (d + k) = m' k) -> rd32 m (d + a) = rd32 m' a.
Proof. intros H. unfold rd32. by rewrite (bytes_at_shift m m') by exact H. Qed.

Lemma rd16_shift m m' d a : (forall k, a <= k < a + 2 -> m (d + k) = m' k) -> rd16 m (d + a) = rd16 m' a.
Proof. intros H. unfold rd16. by rewrite (bytes_at_shift m m') by exact H. Qed.

Lemma segment_at_shift m m' d ph : (forall k, ph <= k < ph + PROGHDR_SIZE -> m (d + k) = m' k) -> segment_at m (d + ph) = segment_at m' ph.
Proof.
  intros H. unfold segment_at, ph_off, ph_paddr, ph_filesz, ph_memsz, PROGHDR_SIZE in *. rewrite <- !(Z.add_assoc d).
  rewrite !(rd32_shift m m') by (intros; apply H; lia). done.
Qed.

Lemma segments_shift m m' d n : forall ph, (forall k, ph <= k < ph + PROGHDR_SIZE * Z.of_nat n -> m (d + k) = m' k) ->
  segments m (d + ph) n = segments m' ph n.
Proof.
  induction n as [|n IH]; intros ph H; [done|]. cbn [segments]. unfold PROGHDR_SIZE in *.
  rewrite (segment_at_shift m m') by (intros; apply H; unfold PROGHDR_SIZE in *; lia).
  rewrite <- Z.add_assoc, IH by (intros; apply H; lia). done.
Qed.

(** One turn of the loop over the headers loads one segment. *)
Lemma load_segment g s lo : placed lo g -> 0 <= lo ->
  exists s1, readseg disk status fuel (g_paddr g) (g_filesz g) (g_off g) s = Some s1 /\
    let s2 := if g_filesz g <? g_memsz g then stosb (u32 (g_paddr g + g_filesz g)) 0 (g_memsz g - g_filesz g) s1 else s1 in
    (forall a, 0 <= a < lo -> mem s1 a = mem s a /\ mem s2 a = mem s a) /\ loaded (mem s2) g.
Proof.
  intros (Ho & Hf & Hlo & Hw & Hfu) H0. pose proof (Z.mod_pos_bound (g_off g) SECTSIZE ltac:(done)) as Hm. unfold SECTSIZE in *.
  destruct (readseg_reads (g_paddr g) (g_filesz g) (g_off g) s) as (s1 & e & E & He & H); unfold SECTSIZE in *; [lia..|].
  exists s1. split; [done|].
  assert (Hlow : forall a, 0 <= a < lo -> mem s1 a = mem s a).
  { intros a Ha. rewrite H by lia. by rewrite (proj2 (Z.leb_gt _ _)) by lia. }
  assert (Hin : forall k, 0 <= k < g_filesz g -> mem s1 (g_paddr g + k) = image (g_off g + k)).
  { intros k Hk. rewrite H by lia. rewrite (proj2 (Z.leb_le _ _)), (proj2 (Z.ltb_lt _ _)) by lia. cbn [andb]. f_equal. lia. }
  destruct (Z.ltb_spec (g_filesz g) (g_memsz g)) as [Hlt|Hge]; cbn zeta; split.
  - intros a Ha. split; [by apply Hlow|]. unfold stosb. cbn [mem]. rewrite (u32_id (g_paddr g + g_filesz g)) by lia. rewrite in_range by lia.
    rewrite (proj2 (Z.leb_gt _ _)) by lia. by apply Hlow.
  - intros k Hk. unfold stosb. cbn [mem]. rewrite (u32_id (g_paddr g + g_filesz g)) by lia. rewrite in_range by lia.
    destruct (Z.ltb_spec k (g_filesz g)).
    + rewrite (proj2 (Z.leb_gt _ _)) by lia. apply Hin. lia.
    + by rewrite (proj2 (Z.leb_le _ _)), (proj2 (Z.ltb_lt _ _)) by lia.
  - intros a Ha. by rewrite Hlow.
  - intros k Hk. rewrite (proj2 (Z.ltb_lt _ _)) by lia. apply Hin. lia.
Qed.

(** And nothing for an empty one. *)
Lemma load_empty g s : empty g -> (0 < fuel)%nat -> readseg disk status fuel (g_paddr g) (g_filesz g) (g_off g) s = Some s.
Proof.
  intros (Ef & _ & Eo & Hp) Hf. unfold readseg. rewrite Ef, Eo, Z.add_0_r, Z.sub_0_r, u32_id by done.
  destruct fuel as [|n]; [lia|]. cbn [readseg_loop]. by rewrite Z.ltb_irrefl.
Qed.

Lemma loaded_empty m g : empty g -> loaded m g.
Proof. intros (_ & E & _) k Hk. lia. Qed.

Lemma load_loop_loads k : forall n ph s lo,
  (k < n)%nat -> (0 < fuel)%nat -> laid_out lo (segments (mem s) ph k) -> 0 <= ph -> ph + PROGHDR_SIZE * Z.of_nat k <= lo -> lo < 2^32 ->
  exists s', load_loop disk status fuel n ph (ph + PROGHDR_SIZE * Z.of_nat k) s = Some s' /\
    (forall a, 0 <= a < lo -> mem s' a = mem s a) /\ Forall (loaded (mem s')) (segments (mem s) ph k).
Proof.
  induction k as [|k IH]; intros [|n] ph s lo Hn Hfu Hl Hp He Hlo; try lia; cbn [load_loop].
  - rewrite Z.add_0_r, Z.ltb_irrefl. by exists s.
  - unfold PROGHDR_SIZE in *. rewrite (proj2 (Z.ltb_lt _ _)) by lia. cbn [segments] in *. unfold PROGHDR_SIZE in *.
    set (g := segment_at (mem s) ph) in *.
    change (ph_paddr (mem s) ph) with (g_paddr g). change (ph_filesz (mem s) ph) with (g_filesz g). change (ph_off (mem s) ph) with (g_off g).
    replace (ph + 32 * Z.of_nat (S k)) with (ph + 32 + 32 * Z.of_nat k) by lia.
    destruct Hl as [[He0 Hl]|[Hpl Hl]].
    { rewrite (load_empty g s He0 Hfu). change (ph_filesz (mem s) ph) with (g_filesz g). change (ph_memsz (mem s) ph) with (g_memsz g).
      destruct He0 as (Ef & Em & Eo & Hpa). rewrite Ef, Em. cbn zeta. rewrite Z.ltb_irrefl, u32_id by lia.
      destruct (IH n (ph + 32) s lo) as (s' & -> & Hlow & Hall); [lia|lia|done|lia|lia|lia|].
      exists s'. split; [done|]. split; [done|]. constructor; [by apply loaded_empty|done]. }
    destruct (load_segment g s lo Hpl ltac:(lia)) as (s1 & E & Hlow & Hg). cbn zeta in Hlow, Hg.
    rewrite E.
    assert (Eg : segment_at (mem s1) (0 + ph) = g) by (apply segment_at_shift; intros j Hj; apply Hlow; unfold PROGHDR_SIZE in *; lia).
    rewrite Z.add_0_l in Eg.
    change (ph_filesz (mem s1) ph) with (g_filesz (segment_at (mem s1) ph)). change (ph_memsz (mem s1) ph) with (g_memsz (segment_at (mem s1) ph)).
    rewrite Eg. cbn zeta. set (s2 := if g_filesz g <? g_memsz g then _ else s1) in *.
    assert (Es : segments (mem s2) (ph + 32) k = segments (mem s) (ph + 32) k).
    { rewrite <- (Z.add_0_l (ph + 32)) at 1. apply segments_shift. intros j Hj. apply Hlow. unfold PROGHDR_SIZE in *. lia. }
    destruct Hpl as (Ho & Hf & Hb & Hw & _). pose proof (Z.mod_pos_bound (g_off g) SECTSIZE ltac:(done)) as Hm. unfold SECTSIZE in *.
    rewrite u32_id by lia.
    destruct (IH n (ph + 32) s2 (g_paddr g + g_memsz g)) as (s' & -> & Hlow' & Hall); [lia | lia | by rewrite Es | lia..|].
    exists s'. split; [done|]. split.
    + intros a Ha. rewrite Hlow' by lia. by apply Hlow.
    + constructor; [|by rewrite <- Es]. intros j Hj. rewrite Hlow' by lia. by apply Hg.
Qed.

(** An ELF image whose headers are in its first page and whose segments, but for
    empty ones, are laid out from the page after the scratch space on. *)
Record bootable : Prop := {
  bt_bytes : forall a, is_byte (disk a);
  bt_magic : e_magic image 0 = ELF_MAGIC;
  bt_headers : e_phoff image 0 + PROGHDR_SIZE * e_phnum image 0 <= 4096;
  bt_fuel : 4096 + 2 * SECTSIZE <= SECTSIZE * Z.of_nat fuel /\ e_phnum image 0 < Z.of_nat fuel;
  bt_laid_out : laid_out (elf + 4096) (segments image (e_phoff image 0) (Z.to_nat (e_phnum image 0))) }.

(** The header page, as [bootmain] has it. *)
Lemma read_header s : 4096 + 2 * SECTSIZE <= SECTSIZE * Z.of_nat fuel ->
  exists s', readseg disk status fuel elf 4096 0 s = Some s' /\
    (forall k, 0 <= k < 4096 -> mem s' (elf + k) = image k) /\ forall a, 0 <= a < elf -> mem s' a = mem s a.
Proof.
  intros Hf. destruct (readseg_reads elf 4096 0 s) as (s' & e & E & He & H); unfold SECTSIZE, elf in *; [done || lia ..|].
  rewrite Zmod_0_l, Z.sub_0_r in H. exists s'. split; [done|]. split; intros a Ha; rewrite H by lia.
  - rewrite (proj2 (Z.leb_le _ _)), (proj2 (Z.ltb_lt _ _)) by lia. cbn [andb]. f_equal. lia.
  - by rewrite (proj2 (Z.leb_gt _ _)) by lia.
Qed.

Lemma bytes_at_bytes m a n : (forall k, is_byte (m k)) -> Forall is_byte (bytes_at m a n).
Proof. intros H. unfold bytes_at. apply Forall_fmap, Forall_true. intros k. apply H. Qed.

(** C14: the boot loader loads the kernel: it calls the entry point of the image, every
    segment that has contents is in memory at its physical address with zeros
    after its bytes of the file, headers without contents (a GNU_STACK header)
    change nothing, and the memory below the scratch space, where the boot loader and
    its stack are, is as it was. *)
Theorem bootmain_loads s : bootable ->
  exists s', bootmain disk status fuel s = Some (Some (e_entry image 0), s') /\
    Forall (loaded (mem s')) (segments image (e_phoff image 0) (Z.to_nat (e_phnum image 0))) /\
    forall a, 0 <= a < elf -> mem s' a = mem s a.
Proof.
  intros [Hb Hm Hh [Hf Hf'] Hl]. destruct (read_header s Hf) as (s1 & E & Hhdr & Hlow). unfold bootmain. rewrite E.
  assert (Hoff : 0 <= e_phoff image 0) by (apply le_range, bytes_at_bytes; intros; apply Hb).
  assert (Hnum : 0 <= e_phnum image 0) by (apply le_range, bytes_at_bytes; intros; apply Hb).
  assert (E32 : forall k, 0 <= k -> k + 4 <= 4096 -> rd32 (mem s1) (elf + k) = rd32 image k).
  { intros k H0 H1. apply rd32_shift. intros j Hj. apply Hhdr. lia. }
  change (e_magic (mem s1) elf) with (rd32 (mem s1) (elf + 0)). rewrite E32 by lia. fold (e_magic image 0). rewrite Hm, Z.eqb_refl. cbn [negb].
  assert (e_phoff (mem s1) elf = e_phoff image 0) as -> by (apply (E32 28); lia).
  assert (e_phnum (mem s1) elf = e_phnum image 0) as ->.
  { apply (rd16_shift (mem s1) image elf 44). intros j Hj. apply Hhdr. lia. }
  set (ph := e_phoff image 0) in *. set (n := e_phnum image 0) in *. unfold PROGHDR_SIZE in *.
  assert (Es : segments (mem s1) (elf + ph) (Z.to_nat n) = segments image ph (Z.to_nat n)).
  { apply segments_shift. intros j Hj. apply Hhdr. unfold PROGHDR_SIZE in Hj. lia. }
  rewrite !u32_id by (unfold elf; lia). replace (elf + ph + 32 * n) with (elf + ph + 32 * Z.of_nat (Z.to_nat n)) by lia.
  destruct (load_loop_loads (Z.to_nat n) fuel (elf + ph) s1 (elf + 4096)) as (s2 & E2 & Hlow2 & Hall);
    [lia | unfold SECTSIZE in *; lia | by rewrite Es | unfold elf, PROGHDR_SIZE; lia..|].
  change 32 with PROGHDR_SIZE. rewrite E2. exists s2. split; [|split].
  - do 3 f_equal. change (e_entry image 0) with (rd32 image 24). rewrite <- (E32 24) by lia. unfold e_entry. rewrite <- (Z.add_0_l (elf + 24)) at 1. apply rd32_shift.
    intros j Hj. apply Hlow2. unfold elf in *. lia.
  - by rewrite <- Es.
  - intros a Ha. rewrite Hlow2 by (unfold elf in *; lia). by apply Hlow.
Qed.

End Disk.

(** *** A disk with a small kernel: one segment of three bytes, loaded at 1MB, with
    five bytes of memory, and the header for the stack that the linker adds. *)

Definition small_image : list Z :=
  bytes32 ELF_MAGIC ++ replicate 12 0 ++ bytes16 2 ++ bytes16 3 ++ bytes32 1 ++ bytes32 0x10000C ++ bytes32 52 ++
  bytes32 0 ++ bytes32 0 ++ bytes16 52 ++ bytes16 32 ++ bytes16 2 ++ bytes16 0 ++ bytes16 0 ++ bytes16 0 ++
  bytes32 1 ++ bytes32 116 ++ bytes32 0x80100000 ++ bytes32 0x100000 ++ bytes32 3 ++ bytes32 5 ++ bytes32 7 ++ bytes32 4096 ++
  bytes32 0x6474E551 ++ bytes32 0 ++ bytes32 0 ++ bytes32 0 ++ bytes32 0 ++ bytes32 0 ++ bytes32 7 ++ bytes32 16 ++
  [0xB8; 0x01; 0xC3].

Definition small_disk (a : Z) : Z := if a <? 512 then 0 else default 0 (small_image !! Z.to_nat (a - 512)).

(** The drive is busy at every other poll. *)
Definition flaky (p : nat) : Z := if Nat.even p then 0x80 else 0x40.

Lemma flaky_ready p : exists k, (k < 20)%nat /\ Z.land (flaky (p + k)) 0xC0 = 0x40.
Proof.
  unfold flaky. destruct (Nat.even p) eqn:E.
  - exists 1%nat. split; [lia|]. by rewrite Nat.add_1_r, Nat.even_succ, <- Nat.negb_even, E.
  - exists 0%nat. split; [lia|]. by rewrite Nat.add_0_r, E.
Qed.

Lemma small_bytes a : is_byte (small_disk a).
Proof.
  unfold small_disk. destruct (a <? 512); [done|]. destruct (small_image !! _) as [b|] eqn:E; [|done]. cbn [default].
  assert (Forall is_byte small_image) as H by (repeat constructor; by vm_compute). by apply (Forall_lookup_1 _ _ _ _ H E).
Qed.

Lemma small_segments : segments (image small_disk) (e_phoff (image small_disk) 0) (Z.to_nat (e_phnum (image small_disk) 0)) =
  [MkSegment 116 0x100000 3 5; MkSegment 0 0 0 0].
Proof. by vm_compute. Qed.

Lemma small_bootable : bootable small_disk 20.
Proof.
  split; [apply small_bytes | by vm_compute .. |]. rewrite small_segments. right. split; [by vm_compute|]. left. split; [by vm_compute|done].
Qed.

Lemma bootmain_loads_witness : exists s',
  bootmain small_disk flaky 20 (MkBst (fun _ => 0x55) (0, 0, 0, 0) 0) = Some (Some 0x10000C, s') /\
  mem s' 0x100000 = 0xB8 /\ mem s' 0x100002 = 0xC3 /\ mem s' 0x100004 = 0 /\ mem s' 0x7C00 = 0x55.
Proof.
  destruct (bootmain_loads small_disk flaky 20 flaky_ready (MkBst (fun _ => 0x55) (0, 0, 0, 0) 0) small_bootable) as (s' & E & Hl & Hlow).
  exists s'. split; [exact E|]. clear E. rewrite small_segments in Hl. apply Forall_inv in Hl.
  assert (H : forall k, 0 <= k < 5 -> mem s' (0x100000 + k) = if k <? 3 then image small_disk (116 + k) else 0) by exact Hl.
  assert (H0 := H 0 ltac:(lia)). assert (H2 := H 2 ltac:(lia)). assert (H4 := H 4 ltac:(lia)).
  change (0x100000 + 0) with 0x100000 in H0. change (0x100000 + 2) with 0x100002 in H2. change (0x100000 + 4) with 0x100004 in H4.
  rewrite H0, H2, H4, Hlow by done. by vm_compute.
Defined.

End BootFacts.
