(* ===== verification/Memide.v ===== *)
(** * The disk in memory (memide.c)

    memide.c takes the place of ide.c in a kernel that has its disk image in
    memory.  The driver on the bytes of the image, and that a request to it has
    the result of the same request to ide.c. *)

From S2P Require Import Prelude State Mem Spinlock Sched SchedFacts Ide.

Module Memide.

(** [disksize] and [memdisk] *)
Record st := MkSt { disksize : Z; memdisk : list Z }.

Definition ideinit (img : list Z) : st := MkSt (u32 (Z.of_nat (length img)) / Z.of_nat BSIZE) img.

Definition ideintr (d : st) : st := d.

(** Sync buf with disk: the buffer and the image, or the message of the panic. *)
Definition iderw (b : buf) (d : st) : string + (buf * st) :=
  if negb (b_busy b) then inl "iderw: buf not busy"%string
  else if b_valid b && negb (b_dirty b) then inl "iderw: nothing to do"%string
  else if negb (b_dev b =? 1) then inl "iderw: request not for disk 1"%string
  else if disksize d <=? b_blockno b then inl "iderw: block out of range"%string
  else
    let p := Z.to_nat (u32 (b_blockno b * Z.of_nat BSIZE)) in
    if b_dirty b then
      let b := set_b_dirty false b in
      inr (set_b_valid true b, MkSt (disksize d) (splice (memdisk d) p (take BSIZE (b_data b))))
    else
      let b := set_b_data (slice (memdisk d) p BSIZE) b in
      inr (set_b_valid true b, d).

End Memide.

Module MemideFacts.
Import Memide.

(** The image is the disk 1 of [s]. *)
Record same_disk (d : st) (s : kst) : Prop := {
  sd_len : Z.of_nat (length (memdisk d)) = disksize d * Z.of_nat BSIZE;
  sd_size : disksize d * Z.of_nat BSIZE < 2^32;
  sd_blocks : forall n, 0 <= n < disksize d -> block_at s (1, n) = slice (memdisk d) (Z.to_nat (n * Z.of_nat BSIZE)) BSIZE }.

Lemma block_at_sync bp s k : block_at (disk_sync bp s) k = if b_dirty bp && bool_decide (k = blk bp) then b_data bp else block_at s k.
Proof.
  unfold disk_sync, block_at. destruct (b_dirty bp); [|done]. cbn [disk set_dwrites set_disk andb].
  destruct (decide (k = blk bp)) as [->|Hne].
  - by rewrite lookup_insert_eq, bool_decide_eq_true_2.
  - by rewrite lookup_insert_ne, bool_decide_eq_false_2 by congruence.
Qed.

(** The request on the image is the request on the disk. *)
Lemma iderw_syncs bp d s :
  same_disk d s -> b_busy bp = true -> b_valid bp && negb (b_dirty bp) = false -> b_dev bp = 1 ->
  0 <= b_blockno bp < disksize d -> length (b_data bp) = BSIZE ->
  exists d', iderw bp d = inr (synced s bp, d') /\ same_disk d' (disk_sync bp s).
Proof.
  intros [Hlen Hsz Hb] Hbusy Hneed Hdev Hno Hdata. unfold iderw. rewrite Hbusy, Hneed, Hdev, (proj2 (Z.leb_gt _ _)) by lia. cbn [negb Z.eqb Pos.eqb].
  assert (u32 (b_blockno bp * Z.of_nat BSIZE) = b_blockno bp * Z.of_nat BSIZE) as -> by (apply Z.mod_small; change (Z.of_nat BSIZE) with 512 in *; lia).
  assert (Hblk : blk bp = (1, b_blockno bp)) by (unfold blk; by rewrite Hdev).
  unfold synced. destruct (b_dirty bp) eqn:Hd.
  - eexists. split; [done|]. cbn [set_b_dirty b_data]. rewrite firstn_all2 by lia.
    change (Z.of_nat BSIZE) with 512 in *. split; cbn [memdisk disksize].
    + rewrite length_splice; [done|]. rewrite Hdata. change BSIZE with 512%nat. lia.
    + done.
    + intros n Hn. rewrite block_at_sync, Hd, Hblk. cbn [andb]. change (Z.of_nat BSIZE) with 512 in *. change BSIZE with 512%nat in *.
      destruct (decide (n = b_blockno bp)) as [->|Hne].
      * rewrite bool_decide_eq_true_2 by done. rewrite <- Hdata. symmetry. apply slice_splice_same. lia.
      * rewrite bool_decide_eq_false_2 by congruence. rewrite Hb by done. symmetry.
        destruct (decide (n < b_blockno bp)); [apply slice_splice_before | apply slice_splice_after]; lia.
  - exists d. rewrite Hblk, Hb by done. split; [destruct bp; cbn in Hd; by subst|]. unfold disk_sync. by rewrite Hd.
Qed.

(** C24: the two drivers agree: on a buffer that asks for a block of disk 1, with a
    drive that works, [iderw] of ide.c and of memide.c leave the same buffer, and
    the disk and the image hold the same blocks afterwards. *)
Theorem memide_agrees i b bp d s :
  quiet i s -> ide_ok s -> idequeue s = [] -> havedisk1 s = true -> bufs s !! b = Some bp -> length (b_data bp) = BSIZE ->
  same_disk d s -> disksize d <= FSSIZE ->
  b_busy bp = true -> b_valid bp && negb (b_dirty bp) = false -> b_dev bp = 1 -> 0 <= b_blockno bp < disksize d ->
  exists s' bp' d', Ide.iderw b s = Ok tt s' /\ iderw bp d = inr (bp', d') /\ bufs s' !! b = Some bp' /\ same_disk d' s'.
Proof.
  intros Hq Hok Hidle Hhave Hb Hdata Hsame Hsz Hbusy Hneed Hdev Hno.
  destruct (iderw_syncs bp d s) as (d' & E & [H1 H2 H3]); try done.
  exists (iderw_done b bp s), (synced s bp), d'. split; [apply (iderw_quiet i); try done; lia|]. split; [done|]. split.
  - unfold iderw_done, upd_buf, disk_sync. destruct (b_dirty bp); cbn; by rewrite list_lookup_alter_eq, Hb.
  - split; [done..|]. intros n Hn. rewrite <- H3 by done. unfold iderw_done, disk_sync, block_at. by destruct (b_dirty bp).
Qed.

(** A request to read block 1, of a process on a machine with a disk of two
    blocks. *)
Definition two_blocks : st := MkSt 2 (replicate BSIZE 0 ++ replicate BSIZE 5).
Definition request : buf := set_b_busy true (set_b_data (replicate BSIZE 0) (set_b_blockno 1 (set_b_dev 1 inhabitant))).
Definition request_state : kst :=
  set_havedisk1 true (set_disk {[(1, 1) := replicate BSIZE 5]} (set_bufs [request]
    (set_ptable (<[0%nat := set_p_state RUNNING (set_p_pgdir 4096 inhabitant)]> (ptable boot_state))
      (set_cpu (MkCpu 0 0 true true (Some 0%nat) 4096 4096) boot_state)))).

Lemma memide_agrees_witness : exists s' bp' d',
  Ide.iderw 0 request_state = Ok tt s' /\ iderw request two_blocks = inr (bp', d') /\ bufs s' !! 0%nat = Some bp' /\ b_data bp' = replicate BSIZE 5.
Proof.
  destruct (memide_agrees 0 0 request two_blocks request_state) as (s' & bp' & d' & E & E' & Hb & _).
  - split; try reflexivity. eexists. split; [reflexivity|]. by split_and!.
  - reflexivity.
  - reflexivity.
  - reflexivity.
  - reflexivity.
  - reflexivity.
  - split; [reflexivity|reflexivity|]. intros n Hn. assert (n = 0 \/ n = 1) as [->| ->] by (cbn in Hn; lia); reflexivity.
  - by vm_compute.
  - reflexivity.
  - reflexivity.
  - reflexivity.
  - by vm_compute.
  - exists s', bp', d'. split; [exact E|]. split; [exact E'|]. split; [exact Hb|]. vm_compute in E'. by injection E' as <- _.
Defined.

End MemideFacts.
