(* ===== verification/Segs.v ===== *)
(** * Descriptor tables (SEG and SETGATE of mmu.h, seginit of vm.c, tvinit of trap.c)

    The descriptors with the fields of the structs, the tables that [seginit] and
    [tvinit] fill, and what the processor takes from them: the linear address of
    an offset in a segment, and where an [int] instruction leads. *)

From S2P Require Import Prelude Trap.

Module Segs.

Definition SEG_KCODE : nat := 1.
Definition SEG_KDATA : nat := 2.
Definition SEG_KCPU : nat := 3.
Definition SEG_UCODE : nat := 4.
Definition SEG_UDATA : nat := 5.
Definition SEG_TSS : nat := 6.
Definition NSEGS : nat := 7.

Definition STA_X : Z := 0x8.
Definition STA_W : Z := 0x2.
Definition STA_R : Z := 0x2.
Definition STS_T32A : Z := 0x9.
Definition STS_IG32 : Z := 0xE.
Definition STS_TG32 : Z := 0xF.

(** [struct segdesc] *)
Record segdesc := MkSeg {
  lim_15_0 : Z; base_15_0 : Z; base_23_16 : Z; type : Z; s : Z; dpl : Z; p : Z; lim_19_16 : Z;
  avl : Z; rsv1 : Z; db : Z; g : Z; base_31_24 : Z }.

Definition SEG (type base lim dpl : Z) : segdesc :=
  MkSeg (Z.land (Z.shiftr lim 12) 0xffff) (Z.land base 0xffff) (Z.land (Z.shiftr base 16) 0xff) type 1 dpl 1
    (Z.shiftr lim 28) 0 0 1 1 (Z.shiftr base 24).

Definition SEG16 (type base lim dpl : Z) : segdesc :=
  MkSeg (Z.land lim 0xffff) (Z.land base 0xffff) (Z.land (Z.shiftr base 16) 0xff) type 1 dpl 1
    (Z.shiftr lim 16) 0 0 1 0 (Z.shiftr base 24).

(** The assignments of [seginit] to the table of a processor whose variable
    [cpu] is at [pcpu]. *)
Definition seginit (pcpu : Z) (gdt : list segdesc) : list segdesc :=
  let gdt := <[SEG_KCODE := SEG (Z.lor STA_X STA_R) 0 0xffffffff 0]> gdt in
  let gdt := <[SEG_KDATA := SEG STA_W 0 0xffffffff 0]> gdt in
  let gdt := <[SEG_UCODE := SEG (Z.lor STA_X STA_R) 0 0xffffffff DPL_USER]> gdt in
  let gdt := <[SEG_UDATA := SEG STA_W 0 0xffffffff DPL_USER]> gdt in
  <[SEG_KCPU := SEG STA_W pcpu 8 0]> gdt.

(** [struct gatedesc] *)
Record gatedesc := MkGate {
  off_15_0 : Z; cs : Z; args : Z; g_rsv1 : Z; g_type : Z; g_s : Z; g_dpl : Z; g_p : Z; off_31_16 : Z }.

Definition SETGATE (istrap : bool) (sel off d : Z) : gatedesc :=
  MkGate (Z.land off 0xffff) sel 0 0 (if istrap then STS_TG32 else STS_IG32) 0 d 1 (Z.shiftr off 16).

(** The gates that [tvinit] sets, with [vectors] of vectors.S. *)
Definition tvinit_idt (vectors : nat -> Z) (idt : list gatedesc) : list gatedesc :=
  let kcode := Z.shiftl (Z.of_nat SEG_KCODE) 3 in
  let idt := foldl (fun idt i => <[i := SETGATE false kcode (vectors i) 0]> idt) idt (seq 0 256) in
  <[Z.to_nat T_SYSCALL := SETGATE true kcode (vectors (Z.to_nat T_SYSCALL)) DPL_USER]> idt.

(** *** The processor *)

Definition seg_base (d : segdesc) : Z := base_15_0 d + Z.shiftl (base_23_16 d) 16 + Z.shiftl (base_31_24 d) 24.

Definition seg_limit (d : segdesc) : Z :=
  let l := lim_15_0 d + Z.shiftl (lim_19_16 d) 16 in if g d =? 1 then l * 4096 + 4095 else l.

(** The linear address of an offset, or a fault. *)
Definition linear (d : segdesc) (off : Z) : option Z :=
  if (p d =? 1) && (off <=? seg_limit d) then Some (u32 (seg_base d + off)) else None.

Definition gate_off (d : gatedesc) : Z := off_15_0 d + Z.shiftl (off_31_16 d) 16.

(** [int n] at privilege level [cpl]: the selector and offset at which the handler
    starts, and whether interrupts stay as they are; or a protection fault. *)
Definition int_gate (idt : list gatedesc) (cpl : Z) (n : nat) : option (Z * Z * bool) :=
  match idt !! n with
  | Some d => if (g_p d =? 1) && (cpl <=? g_dpl d) then Some (cs d, gate_off d, g_type d =? STS_TG32) else None
  | None => None
  end.

End Segs.

Module SegFacts.
Import Segs.

Lemma land_mod x k : 0 <= k -> Z.land x (Z.ones k) = x mod 2^k.
Proof. apply Z.land_ones. Qed.

(** The base goes through the three fields. *)
Lemma seg_base_SEG ty base lim d : is_u32 base -> seg_base (SEG ty base lim d) = base.
Proof.
  intros Hb. unfold seg_base, SEG. cbn [base_15_0 base_23_16 base_31_24]. change 0xffff with (Z.ones 16). change 0xff with (Z.ones 8).
  rewrite !land_mod, !Z.shiftr_div_pow2, !Z.shiftl_mul_pow2 by lia. unfold is_u32 in Hb.
  change (2^16) with 65536. change (2^24) with 16777216. change (2^8) with 256. change (2^32) with 4294967296 in Hb. zdm.
Qed.

(** The limit is kept in units of pages. *)
Lemma seg_limit_SEG ty base lim d : is_u32 lim -> seg_limit (SEG ty base lim d) = lim / 4096 * 4096 + 4095.
Proof.
  intros Hb. unfold seg_limit, SEG. cbn [lim_15_0 lim_19_16 g Z.eqb Pos.eqb]. change 0xffff with (Z.ones 16).
  rewrite !land_mod, !Z.shiftr_div_pow2, !Z.shiftl_mul_pow2 by lia. unfold is_u32 in Hb.
  change (2^16) with 65536. change (2^12) with 4096. change (2^28) with 268435456. change (2^32) with 4294967296 in Hb. zdm.
Qed.

Lemma linear_SEG ty base lim d off : is_u32 base -> is_u32 lim -> off <= lim / 4096 * 4096 + 4095 -> linear (SEG ty base lim d) off = Some (u32 (base + off)).
Proof. intros Hb Hl Ho. unfold linear. rewrite seg_limit_SEG, seg_base_SEG by done. by rewrite (proj2 (Z.leb_le _ _)). Qed.

(** The kernel's and the user's segments are the identity on all addresses, and
    the segment for the variables of the processor starts at them. *)
Theorem seginit_flat pcpu gdt i d :
  length gdt = NSEGS -> is_u32 pcpu -> i ∈ [SEG_KCODE; SEG_KDATA; SEG_UCODE; SEG_UDATA] ->
  seginit pcpu gdt !! i = Some d ->
  (forall off, is_u32 off -> linear d off = Some off) /\ (dpl d = DPL_USER <-> i = SEG_UCODE \/ i = SEG_UDATA) /\
  exists k, seginit pcpu gdt !! SEG_KCPU = Some k /\ forall off, 0 <= off < 8 -> linear k off = Some (u32 (pcpu + off)).
Proof.
  intros Hlen Hp Hi Hd. do 8 (destruct gdt as [|? gdt]; try done).
  assert (exists ty dp, d = SEG ty 0 0xffffffff dp /\ (dp = DPL_USER <-> i = SEG_UCODE \/ i = SEG_UDATA)) as (ty & dp & -> & Hdp).
  { rewrite !elem_of_cons in Hi. unfold DPL_USER, SEG_UCODE, SEG_UDATA, SEG_KCODE, SEG_KDATA in *.
    destruct Hi as [-> | [-> | [-> | [-> | []%elem_of_nil]]]]; cbn in Hd; injection Hd as <-;
      eexists _, _; (split; [reflexivity|]); unfold DPL_USER; split; intros; lia. }
  split; [|split; [exact Hdp|]].
  - intros off Ho. rewrite linear_SEG; [by rewrite Z.add_0_l, u32_small|by unfold is_u32..|].
    change (0xffffffff / 4096 * 4096 + 4095) with 0xffffffff. unfold is_u32 in Ho. lia.
  - eexists. split; [reflexivity|]. intros off Ho. apply linear_SEG; [done|done|]. change (8 / 4096 * 4096 + 4095) with 4095. lia.
Qed.

Lemma fill_idt f k : forall (idt : list gatedesc) a, (a + k <= length idt)%nat ->
  forall n, foldl (fun idt i => <[i := f i]> idt) idt (seq a k) !! n =
    if decide (a <= n < a + k)%nat then Some (f n) else idt !! n.
Proof.
  induction k as [|k IH]; intros idt a Ha n; cbn [seq foldl].
  - by rewrite decide_False by lia.
  - rewrite IH by (rewrite length_insert; lia). destruct (decide (n = a)) as [->|Hne].
    + rewrite decide_False, decide_True by lia. rewrite list_lookup_insert_eq by lia. done.
    + rewrite list_lookup_insert_ne by done. destruct (decide (S a <= n < S a + k)%nat), (decide (a <= n < a + S k)%nat); done || lia.
Qed.

Lemma gate_off_SETGATE t sel off d : is_u32 off -> gate_off (SETGATE t sel off d) = off.
Proof.
  intros Hb. unfold gate_off, SETGATE. cbn [off_15_0 off_31_16]. change 0xffff with (Z.ones 16).
  rewrite land_mod, Z.shiftr_div_pow2, Z.shiftl_mul_pow2 by lia. unfold is_u32 in Hb. change (2^16) with 65536. zdm.
Qed.

(** C15: the gates after [tvinit]: in the kernel every vector leads to its entry point in
    the kernel's code segment; a user program reaches the kernel by [int] through
    the vector for system calls alone, and that gate alone leaves interrupts
    enabled. *)
Theorem tvinit_gates vectors idt cpl n :
  length idt = 256%nat -> (forall i, is_u32 (vectors i)) -> 0 <= cpl <= 3 -> (n < 256)%nat ->
  int_gate (tvinit_idt vectors idt) cpl n =
  if (cpl =? 0) || bool_decide (n = 64%nat) then Some (8, vectors n, bool_decide (n = 64%nat)) else None.
Proof.
  intros Hlen Hv Hc Hn. unfold int_gate, tvinit_idt. change (Z.to_nat T_SYSCALL) with 64%nat. change (Z.shiftl (Z.of_nat SEG_KCODE) 3) with 8.
  destruct (decide (n = 64%nat)) as [->|Hne].
  - rewrite list_lookup_insert_eq.
    + cbn [SETGATE g_p g_dpl Z.eqb Pos.eqb andb]. rewrite (proj2 (Z.leb_le _ _)) by (unfold DPL_USER; lia).
      rewrite bool_decide_eq_true_2, orb_true_r by done. rewrite gate_off_SETGATE by done. done.
    + apply lookup_lt_is_Some. rewrite fill_idt by lia. rewrite decide_True by lia. by eexists.
  - rewrite list_lookup_insert_ne by done. rewrite fill_idt by lia. rewrite decide_True by lia.
    rewrite bool_decide_eq_false_2, orb_false_r by done. cbn [SETGATE g_p g_dpl Z.eqb Pos.eqb andb]. rewrite gate_off_SETGATE by done.
    destruct (Z.leb_spec cpl 0), (Z.eqb_spec cpl 0); try lia; done.
Qed.

Lemma tvinit_gates_witness :
  let idt := tvinit_idt (fun n => u32 (0x80105000 + 7 * Z.of_nat n)) (replicate 256 (SETGATE false 0 0 0)) in
  int_gate idt 3 64 = Some (8, 0x801051C0, true) /\ int_gate idt 3 14 = None.
Proof.
  assert (H : forall cpl n, 0 <= cpl <= 3 -> (n < 256)%nat -> int_gate (tvinit_idt (fun n => u32 (0x80105000 + 7 * Z.of_nat n)) (replicate 256 (SETGATE false 0 0 0))) cpl n =
    if (cpl =? 0) || bool_decide (n = 64%nat) then Some (8, u32 (0x80105000 + 7 * Z.of_nat n), bool_decide (n = 64%nat)) else None).
  { intros cpl n Hc Hn. apply (tvinit_gates (fun n => u32 (0x80105000 + 7 * Z.of_nat n)) (replicate 256 (SETGATE false 0 0 0)) cpl n); [done| |done|done].
    intros i. apply u32_range. }
  split; [exact (H 3 64%nat ltac:(lia) ltac:(lia))|exact (H 3 14%nat ltac:(lia) ltac:(lia))].
Defined.

End SegFacts.
