(* ===== verification/Main.v ===== *)
(** * The start of the kernel (main.c)

    [main] of the first processor, from the loaded kernel to the call of the
    scheduler: the kernel's state [kst] together with the interrupt controllers,
    the processors found and the descriptor tables. *)

From S2P Require Import Prelude State Mem Spinlock Sched SchedFacts Ide Bio Log Inode Kalloc Vm Kbd Console Fs Pipe File Proc Exec Syscall Trap Mp Irq Segs.

Module Main.

Record mach := MkMach {
  kern : kst;
  pics : Pic.st;
  ioap : Ioapic.ioapic;
  lapic : Lapic.lapic;
  conf : Mp.machine;
  gdt : list Segs.segdesc;
  idt : list Segs.gatedesc }.

Definition set_kern (k : kst) (m : mach) : mach := MkMach k (pics m) (ioap m) (lapic m) (conf m) (gdt m) (idt m).
Definition set_pics (x : Pic.st) (m : mach) : mach := MkMach (kern m) x (ioap m) (lapic m) (conf m) (gdt m) (idt m).
Definition set_ioap (x : Ioapic.ioapic) (m : mach) : mach := MkMach (kern m) (pics m) x (lapic m) (conf m) (gdt m) (idt m).
Definition set_lapic (x : Lapic.lapic) (m : mach) : mach := MkMach (kern m) (pics m) (ioap m) x (conf m) (gdt m) (idt m).
Definition set_conf (x : Mp.machine) (m : mach) : mach := MkMach (kern m) (pics m) (ioap m) (lapic m) x (gdt m) (idt m).
Definition set_gdt (x : list Segs.segdesc) (m : mach) : mach := MkMach (kern m) (pics m) (ioap m) (lapic m) (conf m) x (idt m).
Definition set_idt (x : list Segs.gatedesc) (m : mach) : mach := MkMach (kern m) (pics m) (ioap m) (lapic m) (conf m) (gdt m) x.

(** A part of the start: the machine after it, or how the kernel stopped. *)
Definition part : Type := mach -> halt + mach.

Definition andthen (f g : part) : part := fun m => match f m with inl h => inl h | inr m => g m end.
Definition k (c : M unit) : part := fun m => match c (kern m) with Ok _ s => inr (set_kern s m) | Halt h _ => inl h end.
Definition dev (f : mach -> mach) : part := fun m => inr (f m).

(** The interrupt line [irq], at both kinds of controller. *)
Definition enable (irq : Z) (cpu : mach -> Z) : part :=
  dev (fun m => set_ioap (Ioapic.ioapicenable (Mp.ismp (conf m)) irq (cpu m) (ioap m)) (set_pics (Pic.picenable irq (pics m)) m)).

(** There is a local APIC when [mpinit] has found its address. *)
Definition has_lapic (m : mach) : bool := negb (Mp.lapic (conf m) =? 0).

(** What is linked into the kernel and what the hardware answers: the code of
    entryother.S and the addresses it is given, the address of a processor's
    variables, the vectors, the status of the serial port, and whether there is a
    second disk. *)
Record setting := MkSetting {
  entryother : list Z; mpenter : Z; entrypgdir : Z; pcpu : Z; vectors : nat -> Z;
  uart_status : Z; disk1 : bool }.

Section Main.
Context `{KI : KernelImage} `{KT : KernelText} (env : setting).

(** Physical memory. *)
Definition phys (m : mach) (a : Z) : Z := State.mem (kern m) (p2v a).

Definition mpinit : part := fun m =>
  match Mp.mpinit (phys m) with
  | Some c => inr (set_conf c m)
  | None => inl (Undefined "mpinit")
  end.

Definition seginit : part :=
  andthen (dev (fun m => set_gdt (Segs.seginit (pcpu env) (gdt m)) m)) (k (modify (upd_cpu (set_c_proc None)))).

Definition starting_xv6 : M unit :=
  let* id := gets (fun s => c_id (cpu s)) in cprintf (NL ++ "cpu%d: starting xv6" ++ NL ++ NL) [PInt id].

Definition consoleinit : part := andthen (k Console.consoleinit) (enable IRQ_KBD (fun _ => 0)).

Definition uartinit : part :=
  andthen (k (Console.uartinit (uart_status env)))
    (if uart_status env =? 0xFF then dev (fun m => m) else enable IRQ_COM1 (fun _ => 0)).

Definition tvinit : part := andthen (dev (fun m => set_idt (Segs.tvinit_idt (vectors env) (idt m)) m)) (k Trap.tvinit).

Definition ideinit : part := andthen (k (Ide.ideinit (disk1 env))) (enable IRQ_IDE (fun m => Mp.ncpu (conf m) - 1)).

(** [if(!ismp) timerinit();] *)
Definition timerinit : part :=
  fun m => if negb (Mp.ismp (conf m)) then dev (fun m => set_pics (Pic.picenable IRQ_TIMER (pics m)) m) m else inr m.

(** The turn of [startothers] for the processor [id]: its stack, the words below
    the code, and the interrupts that start it. *)
Definition code : Z := p2v 0x7000.

Definition startother (id : Z) : part :=
  andthen
    (k (let* stack := kalloc in
        modify (fun s => set_mem (st32 (st32 (st32 (State.mem s) (code - 4) (u32 (stack + PGSIZE))) (code - 8) (mpenter env))
                                    (code - 12) (v2p (entrypgdir env))) s)))
    (dev (fun m =>
       let '(mem', _, l) := Lapic.lapicstartap id (v2p code) (phys m) (lapic m) in
       set_lapic l (set_kern (set_mem (fun a => mem' (v2p a)) (kern m)) m))).

Fixpoint startothers_loop (ids : list Z) : part :=
  match ids with
  | [] => dev (fun m => m)
  | id :: ids =>
    fun m => if id =? (Lapic.cpunum (has_lapic m) false 0 (lapic m)).2 then startothers_loop ids m
             else andthen (startother id) (startothers_loop ids) m
  end.

Definition startothers : part :=
  andthen (k (modify (fun s => set_mem (mwrite (State.mem s) code (entryother env)) s)))
    (fun m => startothers_loop (take (Z.to_nat (Mp.ncpu (conf m))) (Mp.cpu_ids (conf m))) m).

(** Common CPU setup code, up to the scheduler. *)
Definition mpmain : M unit :=
  let* id := gets (fun s => c_id (cpu s)) in cprintf ("cpu%d: starting" ++ NL) [PInt id].

Definition main : part :=
  foldr andthen (dev (fun m => m))
    [ k (kinit1 k_end (p2v (4 * 1024 * 1024)));
      k kvmalloc;
      mpinit;
      dev (fun m => set_lapic (Lapic.lapicinit (has_lapic m) (lapic m)) m);
      seginit;
      k starting_xv6;
      dev (fun m => set_pics (Pic.picinit (pics m)) m);
      dev (fun m => set_ioap (Ioapic.ioapicinit (Mp.ismp (conf m)) (Mp.ioapicid (conf m)) (ioap m)).2 m);
      consoleinit;
      uartinit;
      k pinit;
      tvinit;
      k binit;
      k fileinit;
      ideinit;
      timerinit;
      startothers;
      k (kinit2 (p2v (4 * 1024 * 1024)) (p2v PHYSTOP));
      k userinit;
      k mpmain ].

End Main.
End Main.
