(* ===== verification/MainThm.v ===== *)
(** * What the start of the kernel leads to

    Every part of [main] returns and keeps the accounting of pages; at its end the
    first process is ready to run initcode. *)

From S2P Require Import Prelude State Mem Spinlock Sched SchedFacts Ide Bio BioFacts Log Inode Kalloc Vm Kbd Console Fs Pipe File Proc Exec Syscall Trap.
From S2P Require Import VmFacts VmSpec VmCopy VmThm FileFacts ProcFacts Mp Irq Segs Main.

(** ** Output *)




















(** ** The state during the start *)

Section Start.
Context `{KI : KernelImage} `{KT : KernelText}.













(** ** Memory *)












(** ** Parts of [main] *)








Section Parts.
Context (env : Main.setting) (Henv : Forall is_byte (Main.entryother env)) (Hlen : (length (Main.entryother env) <= 4096)%nat).





End Parts.


(** ** The first process *)








Lemma kmap_none j : j < KERNBASE / PGSIZE -> kmap_entry kmap j = None.
Proof. apply kmap_user_none. Qed.



(** ** Messages *)



(** ** The other initialisations *)






(** ** All of it *)





(** The parts of [main] between [mpinit] and [kinit2]. *)
Definition middle (env : Main.setting) : list Main.part :=
  [ Main.dev (fun m => Main.set_lapic (Lapic.lapicinit (Main.has_lapic m) (Main.lapic m)) m);
    Main.seginit env;
    Main.k Main.starting_xv6;
    Main.dev (fun m => Main.set_pics (Pic.picinit (Main.pics m)) m);
    Main.dev (fun m => Main.set_ioap (Ioapic.ioapicinit (Mp.ismp (Main.conf m)) (Mp.ioapicid (Main.conf m)) (Main.ioap m)).2 m);
    Main.consoleinit;
    Main.uartinit env;
    Main.k pinit;
    Main.tvinit env;
    Main.k binit;
    Main.k fileinit;
    Main.ideinit env;
    Main.timerinit;
    Main.startothers env ].

Definition all_parts (l : list Main.part) : Main.part := foldr Main.andthen (Main.dev (fun m => m)) l.

Lemma main_parts env :
  Main.main env = all_parts ([Main.k (kinit1 k_end (p2v (4 * 1024 * 1024))); Main.k kvmalloc; Main.mpinit] ++ middle env ++
    [Main.k (kinit2 (p2v (4 * 1024 * 1024)) (p2v PHYSTOP)); Main.k userinit; Main.k Main.mpmain]).
Proof. reflexivity. Qed.

Lemma all_parts_app l1 l2 m : all_parts (l1 ++ l2) m = match all_parts l1 m with inl h => inl h | inr m => all_parts l2 m end.
Proof.
  revert m. induction l1 as [|p l1 IH]; intros m; [done|]. change (match p m with inl h => inl h | inr m => all_parts (l1 ++ l2) m end =
    match match p m with inl h => inl h | inr m => all_parts l1 m end with inl h => inl h | inr m => all_parts l2 m end). destruct (p m); [done|]. apply IH.
Qed.















End Start.

(** ** The interrupt lines *)

Section Lines.
Context `{KI : KernelImage} `{KT : KernelText}.

(** What a part does to the interrupt controllers, given the processors found. *)
Definition pics_by (p : Main.part) (g : Mp.machine -> Pic.st -> Pic.st) : Prop :=
  forall m m', p m = inr m' -> Main.conf m' = Main.conf m /\ Main.pics m' = g (Main.conf m) (Main.pics m).

Lemma pics_by_k c : pics_by (Main.k c) (fun _ x => x).
Proof. intros m m'. unfold Main.k. destruct (c (Main.kern m)); [|done]. intros [= <-]. done. Qed.

Lemma pics_by_dev f g : (forall m, Main.conf (f m) = Main.conf m /\ Main.pics (f m) = g (Main.conf m) (Main.pics m)) -> pics_by (Main.dev f) g.
Proof. intros H m m' [= <-]. apply H. Qed.

Lemma pics_by_andthen p q g h : pics_by p g -> pics_by q h -> pics_by (Main.andthen p q) (fun c x => h c (g c x)).
Proof.
  intros Hp Hq m m'. unfold Main.andthen. destruct (p m) as [|m1] eqn:E; [done|]. intros E'. destruct (Hp _ _ E) as [C1 P1]. destruct (Hq _ _ E') as [C2 P2].
  split; [congruence|]. by rewrite P2, P1, C1.
Qed.

Lemma pics_by_enable irq f : pics_by (Main.enable irq f) (fun _ x => Pic.picenable irq x).
Proof. by apply pics_by_dev. Qed.

Lemma pics_by_startothers env : pics_by (Main.startothers env) (fun _ x => x).
Proof.
  apply (pics_by_andthen _ _ (fun _ x => x) (fun _ x => x)); [apply pics_by_k|]. intros m. generalize (take (Z.to_nat (Mp.ncpu (Main.conf m))) (Mp.cpu_ids (Main.conf m))) as ids.
  intros ids. revert m. change (pics_by (Main.startothers_loop env ids) (fun _ x => x)). induction ids as [|id ids IH]; [by apply pics_by_dev|].
  intros m m'. cbn [Main.startothers_loop]. destruct (_ =? _); [apply IH|]. revert m m'.
  apply (pics_by_andthen _ _ (fun _ x => x) (fun _ x => x)); [|exact IH].
  apply (pics_by_andthen _ _ (fun _ x => x) (fun _ x => x)); [apply pics_by_k|]. by apply pics_by_dev.
Qed.

Fixpoint chain_pics (gs : list (Mp.machine -> Pic.st -> Pic.st)) (c : Mp.machine) (x : Pic.st) : Pic.st :=
  match gs with
  | [] => x
  | g :: gs => chain_pics gs c (g c x)
  end.

Lemma pics_by_all l gs : Forall2 pics_by l gs -> pics_by (all_parts l) (chain_pics gs).
Proof. induction 1 as [|p g l gs Hp _ IH]; [by apply pics_by_dev|]. exact (pics_by_andthen _ _ _ _ Hp IH). Qed.

(** The lines that [main] enables. *)
Definition lines (env : Main.setting) (c : Mp.machine) : list Z :=
  [IRQ_KBD] ++ (if Main.uart_status env =? 0xFF then [] else [IRQ_COM1]) ++ [IRQ_IDE] ++ (if Mp.ismp c then [] else [IRQ_TIMER]).

Lemma middle_pics env : pics_by (all_parts (middle env)) (fun c x => foldl (fun x irq => Pic.picenable irq x) (Pic.picinit x) (lines env c)).
Proof.
  pose (same := fun (_ : Mp.machine) (x : Pic.st) => x). pose (on := fun irq (_ : Mp.machine) x => Pic.picenable irq x).
  assert (pics_by (all_parts (middle env)) (chain_pics [same; same; same; (fun _ => Pic.picinit); same; on IRQ_KBD;
    (if Main.uart_status env =? 0xFF then same else on IRQ_COM1); same; same; same; same; on IRQ_IDE;
    (fun c x => if Mp.ismp c then x else Pic.picenable IRQ_TIMER x); same])) as H.
  { apply pics_by_all. repeat match goal with |- Forall2 _ _ _ => constructor end;
      try first [apply pics_by_k | apply pics_by_startothers | apply pics_by_dev; intros m; done].
    - unfold Main.uartinit. destruct (_ =? _); (eapply pics_by_andthen; [apply pics_by_k|]); [by apply pics_by_dev|apply pics_by_enable].
    - intros m m'. unfold Main.timerinit. destruct (Mp.ismp (Main.conf m)); cbn [negb]; intros [= <-]; done. }
  intros m m' E. destruct (H m m' E) as [Hc Hp]. split; [done|]. rewrite Hp. unfold lines. cbn [chain_pics]. by destruct (Main.uart_status env =? 0xFF), (Mp.ismp (Main.conf m)).
Qed.

(** Where [main] ends, exactly the lines of the keyboard, of the serial port if
    there is one, of the disk, and of the timer on a machine with one processor
    are open, beside the line between the controllers. *)
Theorem main_interrupts env m m' : Main.main env m = inr m' -> Pic.irqmask (Main.pics m) = Pic.initial_mask ->
  forall j, 0 <= j < 16 ->
  IrqFacts.masked (Main.pics m') j = negb (bool_decide (j = Pic.IRQ_SLAVE \/ j ∈ lines env (Main.conf m'))).
Proof.
  intros E Hm j Hj. rewrite main_parts, all_parts_app in E.
  destruct (all_parts [_; _; _] m) as [|m1] eqn:E1; [discriminate|]. rewrite all_parts_app in E. destruct (all_parts (middle env) m1) as [|m2] eqn:E2; [discriminate|].
  assert (Main.pics m1 = Main.pics m) as P1.
  { revert E1. unfold all_parts. cbn [foldr]. unfold Main.andthen, Main.dev. cbv beta. destruct (Main.k _ m) as [|a] eqn:Ea; [discriminate|].
    destruct (Main.k kvmalloc a) as [|b] eqn:Eb; [discriminate|]. unfold Main.mpinit. destruct (Mp.mpinit _) as [c|]; [|done]. intros [= <-].
    apply pics_by_k in Ea as [_ Ea]. apply pics_by_k in Eb as [_ Eb]. cbn [Main.pics Main.set_conf]. by rewrite Eb, Ea. }
  destruct (middle_pics env m1 m2 E2) as [C2 P2].
  assert (pics_by (all_parts [Main.k (kinit2 (p2v (4 * 1024 * 1024)) (p2v PHYSTOP)); Main.k userinit; Main.k Main.mpmain]) (chain_pics (replicate 3 (fun _ x => x)))) as H3.
  { apply pics_by_all. repeat match goal with |- Forall2 _ _ _ => constructor end; apply pics_by_k. }
  destruct (H3 _ _ E) as [C3 P3]. rewrite P3. cbn [chain_pics replicate]. rewrite P2, P1, C3, C2.
  apply (IrqFacts.pic_enables (Main.pics m) (lines env (Main.conf m1)) Hm); [|done].
  unfold lines, IRQ_KBD, IRQ_COM1, IRQ_IDE, IRQ_TIMER. destruct (_ =? _), (Mp.ismp _); cbn [app]; repeat constructor; lia.
Qed.

End Lines.

(** ** A machine without tables of processors *)






